(* ===== verification/_CoqProject ===== *)
-Q . S2P
Prelude.v
Py.v
PyNum.v
Effects.v
Aws.v
Capacity.v
Iso.v
Ddb.v
Config.v
Re.v
Validate.v
Ssm.v
AuditLog.v
Rbac.v
Placement.v
Alb.v
Tenants.v
Actions.v
Accounting.v
ActionsAccounting.v
Balance.v
Hosts.v
Routing.v
Skills.v
ApiEvents.v
HostsAccounting.v
RowLoops.v
Api.v
ApiAccounting.v
Health.v
Gates.v
Migration.v
MigrationSafety.v
Failover.v
MigrationAccounting.v
Sweep.v
SweepAccounting.v
FailoverSafety.v
Scaler.v
ScalerAccounting.v
Fleet.v
SkillsLambda.v
AgentcoreTools.v
Templates.v
Backup.v
HostCalls.v
Agent.v
AgentMetrics.v
PeerMap.v
AgentLoop.v
AgentEnds.v
AgentSafety.v
AgentGuards.v
AgentLaunch.v
AgentReport.v
SystemAccounting.v
PeerSync.v
AgentBounds.v
Runtimes.v
Cli.v
EnvFile.v
Interleave.v
Staging.v
StagingSafety.v
Modules.v
Cdk.v
StackConfig.v
StackCore.v
StackLambdas.v
StackFleet.v
StackEdge.v
StackSample.v
StackReads.v
StackRoutes.v
StackEnvs.v
StackStart.v
StackReady.v
