(* ===== verification/Prelude.v ===== *)
(** * OpenClaw Pool: a verification development of the control plane

    ** The program

    OpenClaw Pool runs one Firecracker microVM per tenant on a fleet of EC2
    hosts.  Its state is two DynamoDB tables, the tenants and the hosts; its
    code is Python in a set of Lambda functions, one agent per host and a
    command line:
    - [deploy/lambda/api] answers the REST API: it places tenants on hosts,
      books their capacity, launches their VMs through Systems Manager, and
      keeps one load-balancer rule per tenant;
    - [deploy/lambda/health_check] sweeps the fleet: it advances migrations,
      detects a lost availability zone and recovers its tenants elsewhere, at
      once or through the queue of [worker.py];
    - [deploy/lambda/scaler] retires idle hosts and applies expiries and
      schedules; [backup], [skills], [templates] and [agentcore_tools] are
      smaller functions; [deploy/lambda/common] is shared by all;
    - [deploy/userdata/host-agent.py] runs on every host: it probes the VMs,
      relaunches the dead ones, reports to the tables, sizes the memory
      balloons and keeps the nginx routes to the tenants of other hosts;
    - [cli/oc.py] is the command line of the API;
    - [deploy/stack.py] declares all of it for the AWS CDK: the tables, the
      functions with the variables they start with, the routes of the gateway,
      the hosts and their scripts, the load balancer and the alarms.
    They meet in the tables, in the status of a tenant and the counters of a
    host; the claims and bookings are conditional updates of one row.

    ** How it is modelled

    A handler is a program over a signature of external calls ([Effects]): it
    ends, or makes a call and goes on with the reply, a value or an exception.
    Four signatures list the calls with the arguments the code passes: [aws]
    ([Aws]) for the Lambda functions, [host] ([HostCalls]) for the agent, whose
    module-level variables are an explicit state, [cli] ([Cli]) and [staging]
    ([Staging]) for the file operations of a synthesis.  A service
    is an environment, any function from calls to replies with a state of its
    own.  Statements about [awp] or about [run] in any environment assume
    nothing of the services.  The statements that follow the tables assume
    [obeys dynamo_step view E]: the environment treats the DynamoDB calls as
    documented - conditional updates of one row are atomic, update expressions
    are evaluated on the row before them, scans return pages - and may do
    anything else; [mem_env] is such an environment, and the witnesses run in
    it.  The agent's world is [host_step] ([AgentReport]) for the tables and
    [peer_step] ([PeerSync]) for its files and its nginx.

    The definitions keep the names of the Python functions.  Dynamic values are
    [val] ([Py]), integers are unbounded as in Python, floats are binary64
    ([PyNum]), instants are microseconds ([Iso]), regular expressions are
    matched by [Re].  Strings are sequences of 8-bit characters.  Constants
    read from the process environment are the fields of a class per component
    ([Config], [HcConfig], [ScalerConfig], [AgentConfig]); [Modules] reads them
    as the start of a Lambda function does.

    The stack is not a handler: it is a program that declares ([Cdk]).  The
    constructs of the CDK are the expressions that denote them, a declaration is
    a constructor or a method with its arguments, and a part of the stack gives
    its value and the list of what it declared, or an exception.  [StackReads]
    reads such a list back: the methods of the API, the variables of a function.

    ** The files

    - Base: [Prelude], [Py], [PyNum], [Effects], [Interleave] (several programs
      over one state), [Aws], [HostCalls], [Iso], [Re], [Config].
    - [common/]: [Capacity], [Ddb], [Ssm], [AuditLog].
    - [api/]: [Validate] (the pure checks), [Rbac] (tokens, roles, audit, the
      dispatch of a request), [Placement] (hosts and reservations), [Alb]
      (rules and target groups), [Tenants], [Actions], [Hosts], [Routing],
      [Skills], and [Api], the route table and [lambda_handler].
    - [health_check/]: [Health], [Gates] (what must be seen before a tenant
      changes host), [Migration], [Failover], and [Sweep], the handler and the
      queue's worker.
    - [Scaler], [Backup], [SkillsLambda], [Templates], [AgentcoreTools].
    - [userdata/]: [Agent] (state, probing, relaunching), [AgentMetrics],
      [PeerMap], [AgentLoop] (reports, the loop, the HTTP server), [Runtimes].
    - [cli/]: [Cli], and [EnvFile], the settings file that [setup.sh] leaves
      to it.
    - [stack.py]: [Cdk], [StackConfig] (finding and clamping the settings),
      [Staging] (the copies of the sources that are uploaded),
      [StackCore] (tables, bucket, policies, the API and its routes),
      [StackLambdas] (the other functions, queues, alarms), [StackFleet] (hosts,
      scripts, monitoring, agents), [StackEdge] (load balancer, distribution,
      sign-in, outputs, and [synth], the whole), [StackSample], a deployment for
      the witnesses; [Modules], the start of the Lambda functions.
    The theorems on the combination of components have files of their own:
    [Accounting], [ActionsAccounting], [Balance], [ApiEvents],
    [HostsAccounting], [ApiAccounting], [MigrationAccounting],
    [RowLoops], [ScalerAccounting], [SweepAccounting], [SystemAccounting],
    [MigrationSafety], [FailoverSafety], [Fleet], [AgentEnds] (how a poll may
    end), [AgentSafety], [AgentGuards], [AgentLaunch], [AgentReport],
    [AgentBounds], [PeerSync], and for the stack
    [StackReads], [StackRoutes], [StackEnvs], [StackStart], [StackReady],
    [StagingSafety].

    ** What is shown

    - Capacity.  [accounted] says that the counters of every host are the sums
      over the tenants on it that are not deleted.  Creating, deleting and
      acting on a live tenant keep it on every path, errors and unanswered
      calls included ([create_tenant_accounted], [delete_tenant_accounted],
      [tenant_action_accounted]).  The invariant holds of the API as a whole:
      any sequence of invocations of [lambda_handler] that are in order, requests
      for any route and events of the group alike, keeps it
      ([api_history_accounted]); being in order asks what the code does not
      check: that no deleted tenant is revived, no occupied host registered, no
      unknown host deregistered, no id drawn twice.  The rows of a host that is terminated are
      cleaned as that event means, and no others ([cleanup_terminated_host_spec]).  A migration keeps it too, on both
      hosts ([migration_accounted]).  A failover books its target and does not
      release its source, and [failover_accounting] says exactly that.  Run
      after run, in any order, the API, the scaler, the health check, the
      backups, the skills and templates and the polls of the agents keep the
      invariant together ([control_plane_accounted]), where each run finds what
      it needs: API invocations in order, hosts at their keys, migrating tenants
      on their source, no row created by an agent, no lost zone, and no live
      tenant to delete at its expiry, whose host is not freed
      ([ttl_delete_leaks]).  A run is taken whole there; bookings and releases
      interleaved with calls that leave the counters of the host alone keep it
      within its ceilings and give distinct VM numbers ([reservations_safe]).
    - Ownership.  A tenant changes host only after the gates passed
      ([migration_gated], [failover_gated], [verify_dashboard_consecutive]); a
      queued recovery implements its contract - it leaves a tenant claimed only
      when it does not return - and a redelivered one changes nothing
      ([worker_refines], [worker_redelivery]).
    - Decisions on the fleet: the target of a failover, the zones declared
      lost, the ranking of hosts, what is retired.
    - The API: who may call what where the roles are checked, which they are not
      by default ([dispatch_authorized]), the audit rows, rules, purges,
      filters, names, skill scopes.
    - The agent: one launch at a time, migrating VMs left alone, every probed
      tenant reported, only reported attributes written, balloons and metrics
      within bounds, the peer map exact, and its synchronisation a refinement
      of its specification on a host where the agent alone writes the files and
      reloads nginx.
    - The command line: one request per command, with its payload, exit status,
      the confirmation of a single deletion, and the settings file read back
      as [setup.sh] writes it ([main_spec], [env_file_roundtrip]).
    - The deployment: which settings are clamped and to what
      ([normalize_config_spec]); every method of the gateway but the preflights
      of browsers asks for a key, those of the API function are answered, and
      every route of [lambda_handler] is deployed but two ([api_surface]); the command line asks for deployed methods only
      ([cli_reaches_api]); the functions that share a setting are given the same
      one ([functions_agree]), and the functions that read numbers start with
      the constants the configuration asks for, but for the retention of the
      audit rows of two of them ([functions_start]).  What is
      uploaded is a complete copy of the sources, among other syntheses that
      stage other functions and whatever fails, though a renaming that fails may
      leave nothing to upload ([staging_interleaved]);
      [staging_race] is how two of the same function break each other.
    - Loops end: pagination, waits on Systems Manager, the public probe.

    ** Bounds

    Recursion is structural but for the loops that run until a service says
    stop, which take a fuel.  Pagination: [scan_all_complete] shows that any
    [scan_fuel] above the number of rows is enough, [scan_projected_ends] the
    same for the agent's scans.  Waiting for a command, probing a VM on its host
    and probing the public URL until a deadline: [ssm_wait_terminates],
    [verify_vm_loop_terminates] and [verify_dashboard_terminates] bound the
    rounds by the deadline, for a clock that follows its sleeps.  An exhausted
    fuel is the outcome [NoFuel], which no handler catches.  The agent's endless
    loop is given a number of rounds, and its theorems hold for every number.

    ** Parameters

    What is not part of the program is an argument: the services, the printing
    of floats, parsing and indenting of JSON text, the zone database, the
    digest of the peer map, the version of the interpreter; for the stack, the
    reading of a float, the texts of [userdata/], the tokens that stand for an
    attribute in a text, and, once deployed, the text each token became.  [print] is a call
    only in the command line.

    ** Not modelled

    - [deploy/app.py], which calls the stack with an account and a region; in
      [deploy/stack.py], the parsing of YAML and the warnings printed.  What CloudFormation does with the declarations
      is not part of the program.
    - The shell scripts of [deploy/userdata] and [scripts], and [setup.sh] but for
      the settings file it writes: the programs model the commands that call
      them, as strings.
    - [console] (browser code), [terraform], [templates] and [tests].
    - Argument parsing by [argparse] in [cli/oc.py], and the construction of
      the clients of AWS when a Lambda function starts.
    - Threads of the agent's HTTP server: a request reads the last results of
      the loop. *)

From Stdlib Require Export Ascii ZArith Lia.
From stdpp Require Export base tactics list gmap strings pretty sorting numbers.

#[global] Open Scope Z_scope.
#[global] Set Default Proof Using "Type".
#[global] Set Warnings "-register-all,-clear-no-such-hyp".

(** ** Automation *)

Create HintDb oc.

(** Existentials and conjunctions in the context, opened all at once. *)
Ltac deex :=
  repeat match goal with
  | H : exists x, _ |- _ => let y := fresh x in destruct H as [y H]
  | H : _ /\ _ |- _ => destruct H
  end.

(** Case analysis on the scrutinee of the first [match] of the goal. *)
Ltac case_scrut :=
  match goal with
  | |- context [match ?x with _ => _ end] => destruct x eqn:?
  end.

(** A decidable closed proposition, by evaluating its decision procedure. *)
Ltac vm_decide := apply (bool_decide_unpack _); vm_compute; exact I.

(** ** Strings *)

(** [starts_with p s] is Python's [s.startswith(p)]. *)
Fixpoint starts_with (p s : string) : bool :=
  match p, s with
  | EmptyString, _ => true
  | String a p', String b s' => bool_decide (a = b) && starts_with p' s'
  | String _ _, EmptyString => false
  end.

(** [str_contains p s] is Python's [p in s] on strings. *)
Fixpoint str_contains (p s : string) : bool :=
  starts_with p s ||
  match s with
  | EmptyString => false
  | String _ s' => str_contains p s'
  end.

(** [split_once c s] is [s.split(c, 1)] for a one-character separator: the text
    before the first [c] and, when there is one, the text after it. *)
Fixpoint split_once (c : ascii) (s : string) : string * option string :=
  match s with
  | EmptyString => (EmptyString, None)
  | String a s' =>
      if bool_decide (a = c) then (EmptyString, Some s')
      else let '(l, r) := split_once c s' in (String a l, r)
  end.

(** [str_drop n s] is [s[n:]] and [str_take n s] is [s[:n]]. *)
Fixpoint str_drop (n : nat) (s : string) : string :=
  match n, s with
  | O, _ => s
  | S _, EmptyString => EmptyString
  | S n', String _ s' => str_drop n' s'
  end.

Fixpoint str_take (n : nat) (s : string) : string :=
  match n, s with
  | O, _ => EmptyString
  | S _, EmptyString => EmptyString
  | S n', String a s' => String a (str_take n' s')
  end.

(** [str_last n s] is [s[-n:]]. *)
Definition str_last (n : nat) (s : string) : string :=
  str_drop (String.length s - n) s.

(** [",".join(l)] for a separator [sep]. *)
Fixpoint str_join (sep : string) (l : list string) : string :=
  match l with
  | [] => ""
  | [x] => x
  | x :: l' => x +:+ sep +:+ str_join sep l'
  end.

(** Code-point order on strings, as Python's [<=] on [str]. *)
Fixpoint str_le (s1 s2 : string) : bool :=
  match s1, s2 with
  | EmptyString, _ => true
  | String _ _, EmptyString => false
  | String a s1', String b s2' =>
      let na := nat_of_ascii a in
      let nb := nat_of_ascii b in
      if Nat.ltb na nb then true
      else if Nat.ltb nb na then false
      else str_le s1' s2'
  end.

Definition str_lt (s1 s2 : string) : bool := negb (str_le s2 s1).

Lemma str_le_total s1 s2 : str_le s1 s2 = true \/ str_le s2 s1 = true.
Proof.
  revert s2; induction s1 as [|a s1 IH]; intros [|b s2]; simpl; auto.
  destruct (Nat.ltb_spec (nat_of_ascii a) (nat_of_ascii b)); [auto|].
  destruct (Nat.ltb_spec (nat_of_ascii b) (nat_of_ascii a)); [auto|]. apply IH.
Qed.

Lemma str_le_refl s : str_le s s = true.
Proof. induction s; simpl; [done|]. by rewrite Nat.ltb_irrefl. Qed.

Lemma str_le_trans s1 s2 s3 :
  str_le s1 s2 = true -> str_le s2 s3 = true -> str_le s1 s3 = true.
Proof.
  revert s2 s3; induction s1 as [|a s1 IH]; intros [|b s2] [|c s3]; simpl; try done.
  destruct (Nat.ltb_spec (nat_of_ascii a) (nat_of_ascii b));
    destruct (Nat.ltb_spec (nat_of_ascii b) (nat_of_ascii a));
    destruct (Nat.ltb_spec (nat_of_ascii b) (nat_of_ascii c));
    destruct (Nat.ltb_spec (nat_of_ascii c) (nat_of_ascii b));
    destruct (Nat.ltb_spec (nat_of_ascii a) (nat_of_ascii c));
    destruct (Nat.ltb_spec (nat_of_ascii c) (nat_of_ascii a)); try lia; try done; eauto.
Qed.

Lemma str_le_antisym s1 s2 : str_le s1 s2 = true -> str_le s2 s1 = true -> s1 = s2.
Proof.
  revert s2; induction s1 as [|a s1 IH]; intros [|b s2]; simpl; try done.
  destruct (Nat.ltb_spec (nat_of_ascii a) (nat_of_ascii b));
    destruct (Nat.ltb_spec (nat_of_ascii b) (nat_of_ascii a)); try lia; try done.
  intros. rewrite (IH s2) by done. f_equal.
  rewrite <- (ascii_nat_embedding a), <- (ascii_nat_embedding b). f_equal. lia.
Qed.

(** stdpp keeps [+:+] folded: its equations, for rewriting. *)
Lemma str_app_cons a s t : String a s +:+ t = String a (s +:+ t).
Proof. done. Qed.
Lemma str_app_nil_l t : "" +:+ t = t.
Proof. done. Qed.
Lemma str_app_assoc s t u : (s +:+ t) +:+ u = s +:+ (t +:+ u).
Proof. induction s; [done|]. rewrite !str_app_cons. by f_equal. Qed.
Lemma str_app_nil_r s : s +:+ "" = s.
Proof. induction s; [done|]. rewrite str_app_cons. by f_equal. Qed.

Lemma starts_with_app p s : starts_with p (p +:+ s) = true.
Proof. induction p; simpl; [done|]. by rewrite bool_decide_eq_true_2. Qed.

Lemma starts_with_iff p s : starts_with p s = true <-> exists r, s = p +:+ r.
Proof.
  split.
  - revert s; induction p as [|a p IH]; intros s; simpl; [by exists s|].
    destruct s as [|b s]; [done|].
    intros [->%bool_decide_eq_true [r ->]%IH]%andb_true_iff. by exists r.
  - intros [r ->]. apply starts_with_app.
Qed.

Lemma str_contains_intro p l r : str_contains p (l +:+ p +:+ r) = true.
Proof.
  induction l as [|a l IH].
  - change ("" +:+ p +:+ r) with (p +:+ r).
    destruct (p +:+ r) eqn:E; cbn [str_contains]; rewrite <- E, starts_with_app; done.
  - change (String a l +:+ p +:+ r) with (String a (l +:+ p +:+ r)).
    cbn [str_contains]. by rewrite IH, orb_true_r.
Qed.

(** ** Lists *)

Lemma forallb_Forall {A} (f : A -> bool) l : forallb f l = true <-> Forall (fun x => f x = true) l.
Proof. rewrite forallb_forall, List.Forall_forall. done. Qed.

Lemma existsb_Exists {A} (f : A -> bool) l : existsb f l = true <-> Exists (fun x => f x = true) l.
Proof. rewrite existsb_exists, List.Exists_exists. done. Qed.

(** The sum of a measure over a list. *)
Definition zsum {A} (f : A -> Z) (l : list A) : Z := foldr (fun x acc => f x + acc) 0 l.

Lemma zsum_app {A} (f : A -> Z) l1 l2 : zsum f (l1 ++ l2) = zsum f l1 + zsum f l2.
Proof. induction l1; simpl; [done|]. unfold zsum in *. simpl. lia. Qed.

Lemma zsum_Permutation {A} (f : A -> Z) l1 l2 :
  Permutation l1 l2 -> zsum f l1 = zsum f l2.
Proof. induction 1; unfold zsum in *; simpl in *; lia. Qed.

Lemma zsum_nonneg {A} (f : A -> Z) l : (forall x, x ∈ l -> 0 <= f x) -> 0 <= zsum f l.
Proof.
  induction l as [|x l IH]; unfold zsum; simpl; intros H; [lia|].
  assert (0 <= f x) by (apply H; set_solver).
  assert (0 <= zsum f l) by (apply IH; set_solver). unfold zsum in *. lia.
Qed.

Lemma str_contains_iff p s : str_contains p s = true <-> exists l r, s = l +:+ p +:+ r.
Proof.
  split; [|intros (l & r & ->); apply str_contains_intro].
  induction s as [|a s IH]; cbn [str_contains]; intros [H|H]%orb_true_iff; try done.
  - apply starts_with_iff in H as [r ->]. by exists "", r.
  - apply starts_with_iff in H as [r ->]. by exists "", r.
  - destruct (IH H) as (l & r & ->). by exists (String a l), r.
Qed.

#[export] Hint Resolve str_le_refl starts_with_app str_contains_intro : oc.
