(* ===== verification/Py.v ===== *)
(** * Python values

    The dynamic values the program moves around (JSON bodies, DynamoDB
    attributes), the errors and results of Python code, and the built-ins the
    handlers call on them: [int], [str], [repr], truthiness, [dict.get],
    [isinstance], [str.strip], [sorted].

    Request bodies are represented by the result of [json.loads] on them, and
    responses by the value given to [json.dumps]: the text forms are not
    modelled.  Strings are sequences of 8-bit characters, so the lengths and
    orders computed here are those of Python for Latin-1 text. *)

From Stdlib Require Import SpecFloat.
From S2P Require Import Prelude.

(** ** Exceptions and results *)

(** An exception is kept with its class name; botocore's [ClientError] also
    carries the service's error code. *)
Inductive exn :=
| ClientError (code msg : string)
| PyExn (cls msg : string).

#[export] Instance exn_eq_dec : EqDecision exn.
Proof. solve_decision. Defined.

(** [str(e)] *)
Definition exn_str (e : exn) : string :=
  match e with ClientError _ msg => msg | PyExn _ msg => msg end.

(** [e.response["Error"]["Code"]] of a [ClientError]. *)
Definition exn_code (e : exn) : option string :=
  match e with ClientError code _ => Some code | PyExn _ _ => None end.

(** The subclasses of [OSError]. *)
Definition is_oserror (e : exn) : bool :=
  match e with
  | PyExn cls _ => existsb (fun c => bool_decide (cls = c))
      ["OSError"; "FileNotFoundError"; "PermissionError"; "NotADirectoryError"; "IsADirectoryError";
       "FileExistsError"; "BlockingIOError"; "ChildProcessError"; "ConnectionError"; "BrokenPipeError";
       "ConnectionAbortedError"; "ConnectionRefusedError"; "ConnectionResetError"; "InterruptedError";
       "ProcessLookupError"; "TimeoutError"]
  | ClientError _ _ => false
  end.

(** The outcome of running code: a value, an exception, or the model's own
    "loop bound exhausted" which no Python handler can catch. *)
Inductive outcome (A : Type) :=
| Ok (a : A)
| Exn (e : exn)
| NoFuel.
Arguments Ok {A} a.
Arguments Exn {A} e.
Arguments NoFuel {A}.

#[export] Instance outcome_eq_dec {A} `{EqDecision A} : EqDecision (outcome A).
Proof. solve_decision. Defined.

(** The value of an outcome, for evaluating examples. *)
Definition ok_or {A} (d : A) (o : outcome A) : A := match o with Ok a => a | _ => d end.

#[export] Instance outcome_ret : MRet outcome := fun A a => Ok a.
#[export] Instance outcome_bind : MBind outcome := fun A B f m =>
  match m with Ok a => f a | Exn e => Exn e | NoFuel => NoFuel end.
#[export] Instance outcome_fmap : FMap outcome := fun A B f m =>
  match m with Ok a => Ok (f a) | Exn e => Exn e | NoFuel => NoFuel end.

Definition type_error {A} (m : string) : outcome A := Exn (PyExn "TypeError" m).
Definition value_error {A} (m : string) : outcome A := Exn (PyExn "ValueError" m).
Definition attribute_error {A} (m : string) : outcome A := Exn (PyExn "AttributeError" m).

(** ** Values *)

(** A dictionary keeps its keys in insertion order. *)
Inductive val :=
| VNone
| VBool (b : bool)
| VInt (z : Z)
| VFloat (f : spec_float)
| VStr (s : string)
| VList (l : list val)
| VDict (d : list (string * val)).

(** A DynamoDB row: its attributes by name. *)
Abbreviation item := (gmap string val).

#[export] Instance spec_float_eq_dec : EqDecision spec_float.
Proof. solve_decision. Defined.

Fixpoint val_eqb (v w : val) {struct v} : bool :=
  match v, w with
  | VNone, VNone => true
  | VBool b, VBool c => Bool.eqb b c
  | VInt z, VInt y => Z.eqb z y
  | VFloat f, VFloat g => bool_decide (f = g)
  | VStr s, VStr t => bool_decide (s = t)
  | VList l, VList m =>
      (fix go (l m : list val) : bool :=
         match l, m with
         | [], [] => true
         | a :: l', b :: m' => val_eqb a b && go l' m'
         | _, _ => false
         end) l m
  | VDict d, VDict e =>
      (fix go (d e : list (string * val)) : bool :=
         match d, e with
         | [], [] => true
         | (k, a) :: d', (j, b) :: e' => bool_decide (k = j) && val_eqb a b && go d' e'
         | _, _ => false
         end) d e
  | _, _ => false
  end.

Fixpoint val_size (v : val) : nat :=
  match v with
  | VList l => S (foldr (fun a n => (val_size a + n)%nat) O l)
  | VDict d => S (foldr (fun kv n => (val_size (snd kv) + n)%nat) O d)
  | _ => 1%nat
  end.

Lemma val_size_pos v : (0 < val_size v)%nat.
Proof. destruct v; simpl; lia. Qed.

Lemma val_eqb_spec_aux n : forall v w, (val_size v < n)%nat -> (val_eqb v w = true <-> v = w).
Proof.
  induction n as [|n IH]; [lia|]. intros v w Hn.
  destruct v as [|b|z|f|s|l|d], w as [|c|y|g|t|m|e]; cbn [val_eqb]; try (split; congruence).
  - destruct b, c; simpl; split; congruence.
  - rewrite Z.eqb_eq. split; congruence.
  - rewrite bool_decide_eq_true. split; congruence.
  - rewrite bool_decide_eq_true. split; congruence.
  - assert (forall m, (fix go (l m : list val) : bool :=
         match l, m with
         | [], [] => true
         | a :: l', b :: m' => val_eqb a b && go l' m'
         | _, _ => false
         end) l m = true <-> l = m) as H; [|rewrite H; split; congruence].
    clear m. cbn [val_size] in Hn. induction l as [|a l IHl]; intros [|b m]; try (split; congruence).
    cbn [foldr] in Hn. rewrite andb_true_iff, (IH a b), IHl by lia. split; intuition congruence.
  - assert (forall e, (fix go (d e : list (string * val)) : bool :=
         match d, e with
         | [], [] => true
         | (k, a) :: d', (j, b) :: e' => bool_decide (k = j) && val_eqb a b && go d' e'
         | _, _ => false
         end) d e = true <-> d = e) as H; [|rewrite H; split; congruence].
    clear e. cbn [val_size] in Hn. induction d as [|[k a] d IHd]; intros [|[j b] e]; try (split; congruence).
    cbn [foldr snd] in Hn. rewrite !andb_true_iff, bool_decide_eq_true, (IH a b), IHd by lia.
    split; intuition congruence.
Qed.

Lemma val_eqb_eq v w : val_eqb v w = true <-> v = w.
Proof. apply (val_eqb_spec_aux (S (val_size v))). lia. Qed.

#[export] Instance val_eq_dec : EqDecision val.
Proof.
  intros v w. destruct (val_eqb v w) eqn:E.
  - left. by apply val_eqb_eq.
  - right. intros ->. by rewrite (proj2 (val_eqb_eq w w) eq_refl) in E.
Defined.

(** [v == "s"] for a string literal: no other type of value equals a string. *)
Definition is_str (v : val) (s : string) : bool :=
  match v with VStr t => bool_decide (t = s) | _ => false end.

Lemma is_str_true v s : is_str v s = true <-> v = VStr s.
Proof. destruct v; simpl; try (split; congruence). rewrite bool_decide_eq_true. split; congruence. Qed.

(** [v in ("a", "b", ...)] for string literals. *)
Definition is_str_in (v : val) (l : list string) : bool := existsb (is_str v) l.

(** Truthiness ([bool(v)]). *)
Definition truthy (v : val) : bool :=
  match v with
  | VNone => false
  | VBool b => b
  | VInt z => negb (Z.eqb z 0)
  | VFloat (S754_zero _) => false
  | VFloat _ => true
  | VStr s => negb (bool_decide (s = ""))
  | VList l => match l with [] => false | _ => true end
  | VDict d => match d with [] => false | _ => true end
  end.

(** [v or d] *)
Definition v_or (v d : val) : val := if truthy v then v else d.

(** ** Text of strings *)

(** [repr] of a string: quotes and control characters escaped. *)
Definition hex_digit (n : nat) : ascii :=
  match String.get n "0123456789abcdef" with Some c => c | None => "0"%char end.

Fixpoint repr_body (q : ascii) (s : string) : string :=
  match s with
  | EmptyString => EmptyString
  | String c s' =>
      let n := nat_of_ascii c in
      if bool_decide (c = q) || bool_decide (c = "\"%char) then String "\" (String c (repr_body q s'))
      else if Nat.eqb n 10 then "\n" +:+ repr_body q s'
      else if Nat.eqb n 13 then "\r" +:+ repr_body q s'
      else if Nat.eqb n 9 then "\t" +:+ repr_body q s'
      else if Nat.ltb n 32 || Nat.eqb n 127 then
        "\x" +:+ String (hex_digit (n / 16)) (String (hex_digit (n mod 16)) (repr_body q s'))
      else String c (repr_body q s')
  end.

Definition squote : ascii := ascii_of_nat 39.
Definition dquote : ascii := ascii_of_nat 34.

Fixpoint has_char (c : ascii) (s : string) : bool :=
  match s with
  | EmptyString => false
  | String a s' => bool_decide (a = c) || has_char c s'
  end.

Definition repr_str (s : string) : string :=
  let q := if has_char squote s && negb (has_char dquote s) then dquote else squote in
  String q (repr_body q s +:+ String q EmptyString).

(** [str(KeyError(k))] is the [repr] of the key. *)
Definition key_error {A} (k : string) : outcome A := Exn (PyExn "KeyError" (repr_str k)).

(** ** Dictionaries and rows *)

Fixpoint alist_get {A} (k : string) (d : list (string * A)) : option A :=
  match d with
  | [] => None
  | (j, v) :: d' => if bool_decide (j = k) then Some v else alist_get k d'
  end.

(** [d.get(k, dflt)] on a value: an [AttributeError] unless it is a dict. *)
Definition vget_or (v : val) (k : string) (dflt : val) : outcome val :=
  match v with
  | VDict d => Ok (default dflt (alist_get k d))
  | _ => attribute_error "object has no attribute 'get'"
  end.

Definition vget (v : val) (k : string) : outcome val := vget_or v k VNone.

(** [d\[k\]] on a value. *)
Definition vreq (v : val) (k : string) : outcome val :=
  match v with
  | VDict d => match alist_get k d with Some x => Ok x | None => key_error k end
  | _ => type_error "indices must be integers or slices, not str"
  end.

(** [row.get(k)], [row.get(k, dflt)] and [row\[k\]] on a DynamoDB row. *)
Definition get_or (it : item) (k : string) (dflt : val) : val := default dflt (it !! k).
Definition get (it : item) (k : string) : val := get_or it k VNone.
Definition req (it : item) (k : string) : outcome val :=
  match it !! k with Some v => Ok v | None => key_error k end.

(** ** Conversions *)

Definition is_space (c : ascii) : bool :=
  let n := nat_of_ascii c in
  (Nat.leb 9 n && Nat.leb n 13) || (Nat.leb 28 n && Nat.leb n 32) ||
  Nat.eqb n 133 || Nat.eqb n 160.

Fixpoint lstrip (s : string) : string :=
  match s with
  | EmptyString => EmptyString
  | String a s' => if is_space a then lstrip s' else s
  end.

Fixpoint rstrip (s : string) : string :=
  match s with
  | EmptyString => EmptyString
  | String a s' =>
      match rstrip s' with
      | EmptyString => if is_space a then EmptyString else String a EmptyString
      | r => String a r
      end
  end.

(** [s.strip()] *)
Definition strip (s : string) : string := rstrip (lstrip s).

(** [s.strip(c)] for one character. *)
Fixpoint lstrip_char (c : ascii) (s : string) : string :=
  match s with
  | EmptyString => EmptyString
  | String a s' => if bool_decide (a = c) then lstrip_char c s' else s
  end.
Fixpoint rstrip_char (c : ascii) (s : string) : string :=
  match s with
  | EmptyString => EmptyString
  | String a s' =>
      match rstrip_char c s' with
      | EmptyString => if bool_decide (a = c) then EmptyString else String a EmptyString
      | r => String a r
      end
  end.
Definition strip_char (c : ascii) (s : string) : string := rstrip_char c (lstrip_char c s).

(** [str.lower()] *)
Definition lower_char (c : ascii) : ascii :=
  let n := nat_of_ascii c in
  if ((65 <=? n) && (n <=? 90) || (192 <=? n) && (n <=? 222) && negb (n =? 215))%nat
  then ascii_of_nat (n + 32) else c.
Fixpoint lower (s : string) : string :=
  match s with EmptyString => EmptyString | String c s' => String (lower_char c) (lower s') end.

Definition digit_val (c : ascii) : option Z :=
  let n := Z.of_nat (nat_of_ascii c) in
  if (48 <=? n) && (n <=? 57) then Some (n - 48) else None.

(** Decimal digits, with single underscores allowed between them. *)
Fixpoint parse_digits (s : string) (acc : Z) (after_digit : bool) : option Z :=
  match s with
  | EmptyString => if after_digit then Some acc else None
  | String c s' =>
      match digit_val c with
      | Some d => parse_digits s' (acc * 10 + d) true
      | None => if bool_decide (c = "_"%char) && after_digit
                then parse_digits s' acc false else None
      end
  end.

Definition parse_int (s : string) : option Z :=
  match strip s with
  | String c s' =>
      if bool_decide (c = "-"%char) then Z.opp <$> parse_digits s' 0 false
      else if bool_decide (c = "+"%char) then parse_digits s' 0 false
      else parse_digits (String c s') 0 false
  | EmptyString => None
  end.

(** Truncation of a binary64 value towards zero. *)
Definition float_trunc (f : spec_float) : outcome Z :=
  match f with
  | S754_zero _ => Ok 0
  | S754_infinity _ => Exn (PyExn "OverflowError" "cannot convert float infinity to integer")
  | S754_nan => value_error "cannot convert float NaN to integer"
  | S754_finite s m e =>
      let a := if 0 <=? e then Z.pos m * 2 ^ e else Z.pos m / 2 ^ (- e) in
      Ok (if s then - a else a)
  end.

(** [float(n)] for an integer: round to nearest, ties to even. *)
Definition float_of_int (n : Z) : outcome spec_float :=
  match binary_normalize 53 1024 n 0 false with
  | S754_infinity _ => Exn (PyExn "OverflowError" "int too large to convert to float")
  | f => Ok f
  end.

(** [int(n * r)] for an integer [n] and a float [r]. *)
Definition int_scale (n : Z) (r : spec_float) : outcome Z :=
  f ← float_of_int n; float_trunc (SFmul 53 1024 f r).

(** [int(v)] *)
Definition py_int (v : val) : outcome Z :=
  match v with
  | VInt z => Ok z
  | VBool b => Ok (if b then 1 else 0)
  | VFloat f => float_trunc f
  | VStr s => match parse_int s with
              | Some z => Ok z
              | None => value_error "invalid literal for int() with base 10"
              end
  | VNone | VList _ | VDict _ =>
      type_error "int() argument must be a string, a bytes-like object or a real number"
  end.

Section Repr.
(** [repr] of a float is the shortest decimal that reads back to it; it only
    reaches error messages and is left abstract. *)
Context (repr_float : spec_float -> string).

Fixpoint repr (v : val) : string :=
  match v with
  | VNone => "None"
  | VBool b => if b then "True" else "False"
  | VInt z => pretty z
  | VFloat f => repr_float f
  | VStr s => repr_str s
  | VList l => "[" +:+ str_join ", " (map repr l) +:+ "]"
  | VDict d => "{" +:+ str_join ", " (map (fun kv => repr_str (fst kv) +:+ ": " +:+ repr (snd kv)) d) +:+ "}"
  end.

(** [str(v)], as an f-string formats it. *)
Definition py_str (v : val) : string :=
  match v with VStr s => s | _ => repr v end.
End Repr.

(** ** JSON text *)

Definition hex4 (n : nat) : string :=
  String "0" (String "0" (String (hex_digit (n / 16)) (String (hex_digit (n mod 16)) ""))).

(** The body of a JSON string as [json.dumps] writes it (ASCII only). *)
Fixpoint json_body (s : string) : string :=
  match s with
  | EmptyString => EmptyString
  | String c s' =>
      let n := nat_of_ascii c in
      if bool_decide (c = dquote) || bool_decide (c = "\"%char) then String "\" (String c (json_body s'))
      else if Nat.eqb n 10 then "\n" +:+ json_body s'
      else if Nat.eqb n 13 then "\r" +:+ json_body s'
      else if Nat.eqb n 9 then "\t" +:+ json_body s'
      else if Nat.eqb n 8 then "\b" +:+ json_body s'
      else if Nat.eqb n 12 then "\f" +:+ json_body s'
      else if Nat.ltb n 32 || Nat.ltb 126 n then "\u" +:+ hex4 n +:+ json_body s'
      else String c (json_body s')
  end.

Definition json_str (s : string) : string :=
  String dquote (json_body s +:+ String dquote EmptyString).

Section Json.
Context (repr_float : spec_float -> string).

(** [json.dumps(v)] *)
Fixpoint json_dumps (v : val) : string :=
  match v with
  | VNone => "null"
  | VBool b => if b then "true" else "false"
  | VInt z => pretty z
  | VFloat f => repr_float f
  | VStr s => json_str s
  | VList l => "[" +:+ str_join ", " (map json_dumps l) +:+ "]"
  | VDict d => "{" +:+ str_join ", " (map (fun kv => json_str (fst kv) +:+ ": " +:+ json_dumps (snd kv)) d) +:+ "}"
  end.
End Json.

(** [isinstance] tests *)
Definition is_string (v : val) : bool := match v with VStr _ => true | _ => false end.
Definition is_dict (v : val) : bool := match v with VDict _ => true | _ => false end.
Definition is_list (v : val) : bool := match v with VList _ => true | _ => false end.
(** [isinstance(True, int)] holds in Python. *)
Definition is_int (v : val) : bool := match v with VInt _ | VBool _ => true | _ => false end.
(** A value usable as a dictionary key or a set element. *)
Definition hashable (v : val) : bool := match v with VList _ | VDict _ => false | _ => true end.
Definition is_bool (v : val) : bool := match v with VBool _ => true | _ => false end.

(** ** Sorting *)

(** A stable sort, as [sorted(l, key=...)]: [le x y] when [x] may come before
    [y]. *)
Fixpoint insert_by {A} (le : A -> A -> bool) (x : A) (l : list A) : list A :=
  match l with
  | [] => [x]
  | y :: l' => if le x y then x :: l else y :: insert_by le x l'
  end.
Definition sort_by {A} (le : A -> A -> bool) (l : list A) : list A := foldr (insert_by le) [] l.

Lemma insert_by_perm {A} (le : A -> A -> bool) x l : Permutation (insert_by le x l) (x :: l).
Proof. induction l as [|y l IH]; simpl; [done|]. destruct (le x y); [done|]. rewrite IH. constructor. Qed.
Lemma sort_by_perm {A} (le : A -> A -> bool) l : Permutation (sort_by le l) l.
Proof. induction l; simpl; [done|]. rewrite insert_by_perm. by constructor. Qed.

(** [s.split(c)] for a one-character separator. *)
Fixpoint str_split (c : ascii) (s : string) : list string :=
  match s with
  | EmptyString => [""]
  | String a s' =>
      if bool_decide (a = c) then "" :: str_split c s'
      else match str_split c s' with x :: l => String a x :: l | [] => [String a ""] end
  end.

(** [s.endswith(p)] *)
Definition ends_with (p s : string) : bool :=
  (String.length p <=? String.length s)%nat && bool_decide (str_last (String.length p) s = p).

#[export] Instance str_le_dec : RelDecision (fun s t : string => str_le s t = true).
Proof. intros s t. apply _. Defined.

(** [sorted(set(l))] on strings: duplicates dropped, code-point order. *)
Definition sorted_set (l : list string) : list string :=
  merge_sort (fun s t => str_le s t = true) (remove_dups l).

Lemma sorted_set_elem l x : x ∈ sorted_set l <-> x ∈ l.
Proof. unfold sorted_set. rewrite merge_sort_Permutation. by rewrite elem_of_remove_dups. Qed.

Lemma sorted_set_NoDup l : NoDup (sorted_set l).
Proof. unfold sorted_set. rewrite merge_sort_Permutation. apply NoDup_remove_dups. Qed.

#[export] Instance str_le_Total : Total (fun s t : string => str_le s t = true).
Proof. intros s t. apply str_le_total. Qed.
#[export] Instance str_le_Transitive : Transitive (fun s t : string => str_le s t = true).
Proof. intros s t u. apply str_le_trans. Qed.
#[export] Instance str_le_AntiSymm : AntiSymm eq (fun s t : string => str_le s t = true).
Proof. intros s t. apply str_le_antisym. Qed.

Lemma sorted_set_Sorted l : StronglySorted (fun s t => str_le s t = true) (sorted_set l).
Proof. apply StronglySorted_merge_sort; apply _. Qed.

(** The value of an outcome that the code goes on with. *)
Lemma outcome_bind_Ok {A B} (m : outcome A) (f : A -> outcome B) b :
  (m ≫= f) = Ok b <-> exists a, m = Ok a /\ f a = Ok b.
Proof.
  destruct m as [a| |]; cbn; split; try (intros; deex; congruence); eauto.
Qed.
