(* ===== verification/PyNum.v ===== *)
(** * Arithmetic on Python values

    The numbers a JSON document or a DynamoDB row may hold are integers or
    binary64 floats; [bool] is an integer.  These are the operators the host
    agent applies to such values before it knows which they are: mixed
    operands are converted to binary64, comparisons are exact, and anything
    else is a [TypeError]. *)

From Stdlib Require Import SpecFloat.
From S2P Require Import Prelude Py.

Inductive num := NInt (z : Z) | NFloat (f : spec_float).

Definition num_of (v : val) : outcome num :=
  match v with
  | VInt z => Ok (NInt z)
  | VBool b => Ok (NInt (if b then 1 else 0))
  | VFloat f => Ok (NFloat f)
  | _ => type_error "unsupported operand type(s)"
  end.

Definition to_float (n : num) : outcome spec_float :=
  match n with NInt z => float_of_int z | NFloat f => Ok f end.

(** An integer small enough to be a float exactly. *)
Definition float_of (z : Z) : spec_float := binary_normalize 53 1024 z 0 false.

Definition arith (fz : Z -> Z -> Z) (ff : spec_float -> spec_float -> spec_float) (v w : val) : outcome val :=
  a ← num_of v; b ← num_of w;
  match a, b with
  | NInt x, NInt y => Ok (VInt (fz x y))
  | _, _ => x ← to_float a; y ← to_float b; Ok (VFloat (ff x y))
  end.

Definition py_add : val -> val -> outcome val := arith Z.add (SFadd 53 1024).
Definition py_sub : val -> val -> outcome val := arith Z.sub (SFsub 53 1024).
Definition py_mul : val -> val -> outcome val := arith Z.mul (SFmul 53 1024).

(** The exact order of a float and an integer. *)
Definition cmp_float_int (f : spec_float) (z : Z) : option comparison :=
  match f with
  | S754_nan => None
  | S754_zero _ => Some (Z.compare 0 z)
  | S754_infinity s => Some (if s then Lt else Gt)
  | S754_finite s m e =>
      let a := if s then Z.neg m else Z.pos m in
      Some (if 0 <=? e then Z.compare (a * 2 ^ e) z else Z.compare a (z * 2 ^ (- e)))
  end.

Definition num_cmp (a b : num) : option comparison :=
  match a, b with
  | NInt x, NInt y => Some (Z.compare x y)
  | NFloat f, NInt y => cmp_float_int f y
  | NInt x, NFloat g => CompOpp <$> cmp_float_int g x
  | NFloat f, NFloat g => SFcompare f g
  end.

(** [v > w] *)
Definition py_gt (v w : val) : outcome bool :=
  a ← num_of v; b ← num_of w;
  Ok (match num_cmp a b with Some Gt => true | _ => false end).
(** [v <= w] *)
Definition py_le (v w : val) : outcome bool :=
  a ← num_of v; b ← num_of w;
  Ok (match num_cmp a b with Some Gt | None => false | _ => true end).

(** [min(v, w)] and [max(v, w)]: the first of the two unless the second is
    strictly smaller, or larger. *)
Definition py_min (v w : val) : outcome val := b ← py_gt v w; Ok (if b : bool then w else v).
Definition py_max (v w : val) : outcome val := b ← py_gt w v; Ok (if b : bool then w else v).

(** [v // n] for a positive integer [n]. *)
Definition py_floordiv (v : val) (n : Z) : outcome val :=
  a ← num_of v;
  match a with
  | NInt z => Ok (VInt (z / n))
  | NFloat (S754_zero s) => Ok (VFloat (S754_zero s))
  | NFloat (S754_finite s m e) =>
      let a := if s then Z.neg m else Z.pos m in
      let q := if 0 <=? e then (a * 2 ^ e) / n else a / (n * 2 ^ (- e)) in
      Ok (VFloat (if q =? 0 then S754_zero s else float_of q))
  | NFloat _ => Ok (VFloat S754_nan)
  end.

(** [float < int] and [float >= int] *)
Definition flt_int (f : spec_float) (z : Z) : bool :=
  match cmp_float_int f z with Some Lt => true | _ => false end.
Definition fge_int (f : spec_float) (z : Z) : bool :=
  match cmp_float_int f z with Some Gt | Some Eq => true | _ => false end.

(** [float < float], [float <= float] *)
Definition flt (x y : spec_float) : bool := SFltb x y.
Definition fle (x y : spec_float) : bool := SFleb x y.
Definition fsub : spec_float -> spec_float -> spec_float := SFsub 53 1024.
Definition fdiv : spec_float -> spec_float -> spec_float := SFdiv 53 1024.
Definition fmul : spec_float -> spec_float -> spec_float := SFmul 53 1024.

(** An integer as an unrounded binary number. *)
Definition exact_float (z : Z) : spec_float :=
  match z with Z0 => S754_zero false | Zpos m => S754_finite false m 0 | Zneg m => S754_finite true m 0 end.

(** [x / y] of two integers, [y] not zero: the quotient is rounded once. *)
Definition int_ratio (x y : Z) : spec_float := fdiv (exact_float x) (exact_float y).

(** [s.split()]: the maximal runs of characters that are not blank. *)
Fixpoint words_from (s word : string) : list string :=
  let flush := if bool_decide (word = "") then [] else [word] in
  match s with
  | EmptyString => flush
  | String c s' => if is_space c then flush ++ words_from s' "" else words_from s' (word +:+ String c "")
  end.
Definition words (s : string) : list string := words_from s "".

(** Line feed. *)
Definition line_feed : ascii := ascii_of_nat 10.

(** [s.splitlines()] on 8-bit text. *)
Fixpoint split_lines (s : string) (line : string) : list string :=
  match s with
  | EmptyString => if bool_decide (line = "") then [] else [line]
  | String c s' =>
      if bool_decide (c = ascii_of_nat 13) then
        match s' with
        | String d s'' => if bool_decide (d = line_feed) then line :: split_lines s'' "" else line :: split_lines s' ""
        | EmptyString => [line]
        end
      else if existsb (Nat.eqb (nat_of_ascii c)) [10; 11; 12; 28; 29; 30; 133]%nat then line :: split_lines s' ""
      else split_lines s' (line +:+ String c "")
  end.

(** [s.rfind(c)], as the text after the last [c]. *)
Fixpoint after_last (c : ascii) (s : string) : option string :=
  match s with
  | EmptyString => None
  | String a s' =>
      match after_last c s' with
      | Some r => Some r
      | None => if bool_decide (a = c) then Some s' else None
      end
  end.

(** [d\[k\] = v]: an existing key keeps its place. *)
Fixpoint dict_set {A} (k : string) (v : A) (d : list (string * A)) : list (string * A) :=
  match d with
  | [] => [(k, v)]
  | (j, w) :: d' => if bool_decide (j = k) then (k, v) :: d' else (j, w) :: dict_set k v d'
  end.

Lemma dict_get_set {A} k j (v : A) d :
  alist_get j (dict_set k v d) = if bool_decide (k = j) then Some v else alist_get j d.
Proof.
  induction d as [|[i w] d IH]; cbn [dict_set alist_get]; [done|].
  destruct (bool_decide_reflect (i = k)) as [->|Hik]; cbn [alist_get].
  - by destruct (bool_decide_reflect (k = j)).
  - rewrite IH. destruct (bool_decide_reflect (i = j)) as [->|]; [|done].
    by rewrite bool_decide_eq_false_2 by congruence.
Qed.

Lemma dict_set_keys {A} k (v : A) d x : x ∈ map fst (dict_set k v d) <-> x = k \/ x ∈ map fst d.
Proof.
  induction d as [|[i w] d IH]; cbn [dict_set map fst]; [set_solver|].
  destruct (bool_decide_reflect (i = k)) as [->|]; cbn [map fst]; set_solver.
Qed.

Lemma dict_set_fresh {A} k (v : A) d : k ∉ map fst d -> dict_set k v d = d ++ [(k, v)].
Proof.
  induction d as [|[i w] d IH]; cbn [dict_set map fst]; intros Hk; [done|].
  rewrite bool_decide_eq_false_2 by set_solver. cbn. f_equal. apply IH. set_solver.
Qed.

Lemma alist_get_elem {A} k (v : A) d : alist_get k d = Some v -> (k, v) ∈ d.
Proof.
  induction d as [|[i w] d IH]; cbn; [done|].
  destruct (bool_decide_reflect (i = k)) as [->|]; [intros [= ->]; left|right; auto].
Qed.

Lemma dict_set_NoDup {A} k (v : A) d : NoDup (map fst d) -> NoDup (map fst (dict_set k v d)).
Proof.
  induction d as [|[i w] d IH]; cbn [dict_set map fst]; intros Hd; [constructor; [set_solver|constructor]|].
  inversion Hd as [|? ? Hi Hd']; subst.
  destruct (bool_decide_reflect (i = k)) as [->|]; cbn [map fst]; [done|].
  constructor; [rewrite dict_set_keys; set_solver|by apply IH].
Qed.

Lemma dict_set_Forall {A} (P : A -> Prop) k (v : A) d :
  P v -> Forall (fun x => P x.2) d -> Forall (fun x => P x.2) (dict_set k v d).
Proof.
  intros Hv. induction 1 as [|[i w] d Hi Hd IH]; cbn [dict_set]; [by repeat constructor|].
  destruct (bool_decide _); by constructor.
Qed.

(** ** Concatenation *)

Lemma str_length_app a b : String.length (a +:+ b) = (String.length a + String.length b)%nat.
Proof. induction a as [|c a IH]; [done|]. rewrite str_app_cons. cbn. by rewrite IH. Qed.

Lemma str_app_cancel_r x y s : x +:+ s = y +:+ s -> x = y.
Proof.
  intros E. assert (Hl : String.length x = String.length y).
  { apply (f_equal String.length) in E. rewrite !str_length_app in E. lia. }
  revert y E Hl. induction x as [|a x IH]; intros [|b y] E Hl; try done.
  rewrite !str_app_cons in E. injection E as -> E. f_equal. apply IH; [done|]. by injection Hl.
Qed.

Lemma str_drop_app a b : str_drop (String.length a) (a +:+ b) = b.
Proof. induction a as [|c a IH]; [done|]. rewrite str_app_cons. cbn. apply IH. Qed.

Lemma str_take_app a b : str_take (String.length a) (a +:+ b) = a.
Proof. induction a as [|c a IH]; [by destruct b|]. rewrite str_app_cons. cbn. by rewrite IH. Qed.

Lemma ends_with_app a p : ends_with p (a +:+ p) = true.
Proof.
  unfold ends_with, str_last. rewrite str_length_app.
  replace (String.length a + String.length p - String.length p)%nat with (String.length a) by lia.
  rewrite str_drop_app, bool_decide_eq_true_2, andb_true_r by done. apply Nat.leb_le. lia.
Qed.

(** ** Splitting at a character *)

Lemma str_split_none c s : has_char c s = false -> str_split c s = [s].
Proof.
  induction s as [|a s IH]; [done|]. cbn [has_char str_split]. intros [Ha Hs]%orb_false_iff.
  apply bool_decide_eq_false in Ha. by rewrite bool_decide_eq_false_2, IH by done.
Qed.

Lemma str_split_app c s t : has_char c s = false -> str_split c (s +:+ String c t) = s :: str_split c t.
Proof.
  induction s as [|a s IH]; [intros _; rewrite str_app_nil_l; cbn [str_split]; by rewrite bool_decide_eq_true_2|].
  rewrite str_app_cons. cbn [has_char str_split]. intros [Ha Hs]%orb_false_iff.
  apply bool_decide_eq_false in Ha. by rewrite bool_decide_eq_false_2, IH by done.
Qed.

Lemma has_char_app c s t : has_char c (s +:+ t) = has_char c s || has_char c t.
Proof. induction s as [|a s IH]; [done|]. rewrite str_app_cons. cbn [has_char]. by rewrite IH, orb_assoc. Qed.

Lemma split_once_none c s : has_char c s = false -> split_once c s = (s, None).
Proof.
  induction s as [|a s IH]; [done|]. cbn [has_char split_once]. intros [Ha Hs]%orb_false_iff.
  apply bool_decide_eq_false in Ha. by rewrite bool_decide_eq_false_2, IH by done.
Qed.

Lemma split_once_first c s t : has_char c s = false -> split_once c (s +:+ String c t) = (s, Some t).
Proof.
  induction s as [|a s IH]; [intros _; rewrite str_app_nil_l; cbn [split_once]; by rewrite bool_decide_eq_true_2|].
  rewrite str_app_cons. cbn [has_char split_once]. intros [Ha Hs]%orb_false_iff.
  apply bool_decide_eq_false in Ha. by rewrite bool_decide_eq_false_2, IH by done.
Qed.
