(* ===== verification/Effects.v ===== *)
(** * Programs that call services

    The handlers are written as programs over a signature of external calls:
    a program is finished, or performs one call and continues with its reply.
    [run] executes a program against an environment (any function answering
    calls and carrying its own state) and records the trace of calls;
    [wp] is the weakest precondition with respect to a relation [step] that
    says which replies, and which changes of an abstract state, a service may
    produce.  [run_wp] connects the two: what [wp] proves holds of every run
    in every environment that obeys [step]. *)

From S2P Require Import Prelude Py.

(** A signature: the calls and the type of the reply of each. *)
Record sig := Sig { op : Type; reply : op -> Type }.

Section Prog.
Context {S : sig}.

Inductive prog (A : Type) : Type :=
| Done (r : outcome A)
| Call (c : op S) (k : reply S c + exn -> prog A).
Arguments Done {A} r.
Arguments Call {A} c k.

Fixpoint pbind {A B} (f : A -> prog B) (p : prog A) : prog B :=
  match p with
  | Done (Ok a) => f a
  | Done (Exn e) => Done (Exn e)
  | Done NoFuel => Done NoFuel
  | Call c k => Call c (fun r => pbind f (k r))
  end.

(** [try: p except Exception as e: h e] *)
Fixpoint catch {A} (p : prog A) (h : exn -> prog A) : prog A :=
  match p with
  | Done (Exn e) => h e
  | Done r => Done r
  | Call c k => Call c (fun r => catch (k r) h)
  end.

Definition pret {A} (a : A) : prog A := Done (Ok a).
Definition raise {A} (e : exn) : prog A := Done (Exn e).
Definition no_fuel {A} : prog A := Done NoFuel.
Definition lift {A} (o : outcome A) : prog A := Done o.

(** The result of a [try] block as a value: the value of [p], or what it raised. *)
Definition attempt {A} (p : prog A) : prog (A + exn) :=
  catch (pbind (fun a => pret (inl a)) p) (fun e => pret (inr e)).

(** One external call. *)
Definition call (c : op S) : prog (reply S c) :=
  Call c (fun r => match r with inl a => pret a | inr e => raise e end).

#[export] Instance prog_ret : MRet prog := fun A => @pret A.
#[export] Instance prog_bind : MBind prog := fun A B => @pbind A B.

(** [for x in l: body x] *)
Fixpoint for_each {A} (l : list A) (body : A -> prog unit) : prog unit :=
  match l with
  | [] => pret tt
  | x :: l' => pbind (fun _ => for_each l' body) (body x)
  end.

(** [for x in l: acc = body acc x] *)
Fixpoint fold_prog {A B} (body : B -> A -> prog B) (l : list A) (acc : B) : prog B :=
  match l with
  | [] => pret acc
  | x :: l' => pbind (fun acc' => fold_prog body l' acc') (body acc x)
  end.

(** An event of the trace: a call and its reply. *)
Record event := Ev { ev_call : op S; ev_reply : reply S ev_call + exn }.

(** ** Execution *)

Definition env (W : Type) := forall c : op S, W -> (reply S c + exn) * W.

Fixpoint run {W A} (E : env W) (p : prog A) (w : W) : outcome A * W * list event :=
  match p with
  | Done r => (r, w, [])
  | Call c k =>
      let '(r, w1) := E c w in
      let '(o, w2, t) := run E (k r) w1 in
      (o, w2, Ev c r :: t)
  end.

(** ** Weakest preconditions *)

Section Wp.
Context {D : Type} (step : forall c : op S, D -> reply S c + exn -> D -> Prop).

Fixpoint wp {A} (p : prog A) (d : D) (Q : outcome A -> D -> list event -> Prop) : Prop :=
  match p with
  | Done r => Q r d []
  | Call c k => forall r d', step c d r d' ->
                  wp (k r) d' (fun o d'' t => Q o d'' (Ev c r :: t))
  end.

Lemma wp_mono {A} (p : prog A) d (Q Q' : outcome A -> D -> list event -> Prop) :
  wp p d Q -> (forall o d' t, Q o d' t -> Q' o d' t) -> wp p d Q'.
Proof.
  revert d Q Q'; induction p as [r|c k IH]; simpl; intros d Q Q' H HQ; [by apply HQ|].
  intros r d' Hs. eapply IH; [by apply H|]. intros; by apply HQ.
Qed.

Lemma wp_bind {A B} (p : prog A) (f : A -> prog B) d (Q : outcome B -> D -> list event -> Prop) :
  wp (pbind f p) d Q <->
  wp p d (fun o d' t =>
    match o with
    | Ok a => wp (f a) d' (fun o' d'' t' => Q o' d'' (t ++ t'))
    | Exn e => Q (Exn e) d' t
    | NoFuel => Q NoFuel d' t
    end).
Proof.
  revert d Q; induction p as [[a|e|]|c k IH]; simpl; intros d Q; try done.
  split; intros H r d' Hs; specialize (H r d' Hs);
    destruct (IH r d' (fun o d'' t => Q o d'' (Ev c r :: t))) as [H1 H2]; [exact (H1 H)|exact (H2 H)].
Qed.

Lemma wp_catch {A} (p : prog A) (h : exn -> prog A) d (Q : outcome A -> D -> list event -> Prop) :
  wp (catch p h) d Q <->
  wp p d (fun o d' t =>
    match o with
    | Exn e => wp (h e) d' (fun o' d'' t' => Q o' d'' (t ++ t'))
    | _ => Q o d' t
    end).
Proof.
  revert d Q; induction p as [[a|e|]|c k IH]; simpl; intros d Q; try done.
  split; intros H r d' Hs; specialize (H r d' Hs);
    destruct (IH r d' (fun o d'' t => Q o d'' (Ev c r :: t))) as [H1 H2]; [exact (H1 H)|exact (H2 H)].
Qed.

Lemma wp_call c d (Q : outcome (reply S c) -> D -> list event -> Prop) :
  wp (call c) d Q <->
  (forall r d', step c d r d' ->
    Q (match r with inl a => Ok a | inr e => Exn e end) d' [Ev c r]).
Proof.
  unfold call; simpl. split; intros H r d' Hs; specialize (H r d' Hs); by destruct r.
Qed.

Lemma wp_and {A} (p : prog A) d (Q Q' : outcome A -> D -> list event -> Prop) :
  wp p d Q -> wp p d Q' -> wp p d (fun o d' t => Q o d' t /\ Q' o d' t).
Proof.
  revert d Q Q'; induction p as [r|c k IH]; simpl; intros d Q Q' H H'; [done|].
  intros r d' Hs. by apply IH; [apply H|apply H'].
Qed.

(** A loop preserves an invariant on the abstract state and the trace so far. *)
Lemma wp_for_each {A} (body : A -> prog unit) (I : D -> list event -> Prop) l d t0 :
  I d t0 ->
  (forall x d t, x ∈ l -> I d t ->
     wp (body x) d (fun o d' t' => I d' (t ++ t') /\ (o = Ok tt))) ->
  wp (for_each l body) d (fun o d' t' => I d' (t0 ++ t') /\ o = Ok tt).
Proof.
  revert d t0; induction l as [|x l IH]; simpl; intros d t0 HI Hb.
  - by rewrite app_nil_r.
  - apply wp_bind. eapply wp_mono; [apply Hb; [set_solver|done]|].
    intros o d' t [HI' ->]. simpl.
    eapply wp_mono; [apply (IH d' (t0 ++ t)); [done|intros; apply Hb; set_solver]|].
    intros o d'' t' [? ->]. by rewrite app_assoc.
Qed.

Lemma wp_fold {A B} (body : B -> A -> prog B) (I : B -> D -> list event -> Prop) l acc d t0 :
  I acc d t0 ->
  (forall x acc d t, x ∈ l -> I acc d t ->
     wp (body acc x) d (fun o d' t' => exists acc', o = Ok acc' /\ I acc' d' (t ++ t'))) ->
  wp (fold_prog body l acc) d (fun o d' t' => exists acc', o = Ok acc' /\ I acc' d' (t0 ++ t')).
Proof.
  revert acc d t0; induction l as [|x l IH]; simpl; intros acc d t0 HI Hb.
  - exists acc. by rewrite app_nil_r.
  - apply wp_bind. eapply wp_mono; [apply Hb; [set_solver|done]|].
    intros o d' t (acc' & -> & HI'). simpl.
    eapply wp_mono; [apply (IH acc' d' (t0 ++ t)); [done|intros; apply Hb; set_solver]|].
    intros o d'' t' (acc'' & -> & ?). exists acc''. by rewrite app_assoc.
Qed.
End Wp.

(** An environment obeys [step] through a view of its state. *)
Definition obeys {W D} (step : forall c : op S, D -> reply S c + exn -> D -> Prop)
    (view : W -> D) (E : env W) : Prop :=
  forall c w, step c (view w) (E c w).1 (view (E c w).2).

Lemma run_wp {W D A} step (view : W -> D) (E : env W) (p : prog A) w Q :
  obeys step view E -> wp step p (view w) Q ->
  let '(o, w', t) := run E p w in Q o (view w') t.
Proof.
  intros HE. revert w Q; induction p as [r|c k IH]; simpl; intros w Q H; [done|].
  specialize (HE c w). destruct (E c w) as [r w1]; simpl in HE.
  specialize (IH r w1 _ (H r _ HE)). by destruct (run E (k r) w1) as [[o w2] t].
Qed.

(** ** Any environment at all

    [awp p Q]: whatever the services answer, [Q] holds of the outcome and the
    trace.  No assumption is made on the replies. *)
Definition any_step (c : op S) (_ : unit) (_ : reply S c + exn) (_ : unit) : Prop := True.

Definition awp {A} (p : prog A) (Q : outcome A -> list event -> Prop) : Prop :=
  wp any_step p tt (fun o _ t => Q o t).

Lemma awp_mono {A} (p : prog A) (Q Q' : outcome A -> list event -> Prop) :
  awp p Q -> (forall o t, Q o t -> Q' o t) -> awp p Q'.
Proof. intros H HQ. eapply wp_mono; [apply H|]. intros; by apply HQ. Qed.

Lemma awp_bind {A B} (p : prog A) (f : A -> prog B) (Q : outcome B -> list event -> Prop) :
  awp (pbind f p) Q <->
  awp p (fun o t =>
    match o with
    | Ok a => awp (f a) (fun o' t' => Q o' (t ++ t'))
    | Exn e => Q (Exn e) t
    | NoFuel => Q NoFuel t
    end).
Proof.
  unfold awp. rewrite wp_bind. split; intros H; (eapply wp_mono; [apply H|]);
    intros [a|e|] [] t; simpl; done.
Qed.

Lemma awp_catch {A} (p : prog A) (h : exn -> prog A) (Q : outcome A -> list event -> Prop) :
  awp (catch p h) Q <->
  awp p (fun o t =>
    match o with
    | Exn e => awp (h e) (fun o' t' => Q o' (t ++ t'))
    | _ => Q o t
    end).
Proof.
  unfold awp. rewrite wp_catch. split; intros H; (eapply wp_mono; [apply H|]);
    intros [a|e|] [] t; simpl; done.
Qed.

Lemma awp_call c (Q : outcome (reply S c) -> list event -> Prop) :
  awp (call c) Q <->
  (forall r, Q (match r with inl a => Ok a | inr e => Exn e end) [Ev c r]).
Proof.
  unfold awp. rewrite wp_call. split; intros H r; [by apply (H r tt)|]. intros [] _. apply H.
Qed.

Lemma wp_ret {D A} step (a : A) (d : D) (Q : outcome A -> D -> list event -> Prop) :
  wp step (mret a) d Q <-> Q (Ok a) d [].
Proof. done. Qed.

Lemma wp_lift {D A} step (o : outcome A) (d : D) (Q : outcome A -> D -> list event -> Prop) :
  wp step (lift o) d Q <-> Q o d [].
Proof. done. Qed.

Lemma awp_lift {A} (o : outcome A) (Q : outcome A -> list event -> Prop) : awp (lift o) Q <-> Q o [].
Proof. done. Qed.

Lemma wp_attempt {D A} step (p : prog A) (d : D) (Q : outcome (A + exn) -> D -> list event -> Prop) :
  wp step (attempt p) d Q <->
  wp step p d (fun o d' t =>
    Q (match o with Ok a => Ok (inl a) | Exn e => Ok (inr e) | NoFuel => NoFuel end) d' t).
Proof.
  unfold attempt. rewrite wp_catch, wp_bind.
  split; intros H; (eapply wp_mono; [apply H|]); intros [a|e|] d' t; simpl; by rewrite ?app_nil_r.
Qed.

Lemma awp_attempt {A} (p : prog A) (Q : outcome (A + exn) -> list event -> Prop) :
  awp (attempt p) Q <->
  awp p (fun o t =>
    Q (match o with Ok a => Ok (inl a) | Exn e => Ok (inr e) | NoFuel => NoFuel end) t).
Proof. unfold awp. apply (wp_attempt any_step p tt (fun o _ t => Q o t)). Qed.

Lemma awp_ret {A} (a : A) (Q : outcome A -> list event -> Prop) :
  awp (mret a) Q <-> Q (Ok a) [].
Proof. done. Qed.

Lemma awp_done {A} (r : outcome A) (Q : outcome A -> list event -> Prop) :
  awp (Done r) Q <-> Q r [].
Proof. done. Qed.

Lemma awp_trivial {A} (p : prog A) : awp p (fun _ _ => True).
Proof. unfold awp. generalize tt. induction p as [r|c k IH]; simpl; auto. Qed.

(** Every program has a run. *)
Lemma awp_nonempty {A} (p : prog A) (Q : outcome A -> list event -> Prop) :
  awp p Q -> exists o t, Q o t.
Proof.
  unfold awp. generalize tt. revert Q; induction p as [r|c k IH]; simpl; intros Q d H; [eauto|].
  destruct (IH (inr (PyExn "" "")) _ _ (H (inr (PyExn "" "")) d I)) as (o & t & Ht). eauto.
Qed.

Lemma awp_and {A} (p : prog A) (Q Q' : outcome A -> list event -> Prop) :
  awp p Q -> awp p Q' -> awp p (fun o t => Q o t /\ Q' o t).
Proof. intros H H'. eapply wp_mono; [eapply wp_and; [apply H|apply H']|]. done. Qed.

Lemma awp_run {W A} (E : env W) (p : prog A) w (Q : outcome A -> list event -> Prop) :
  awp p Q -> let '(o, _, t) := run E p w in Q o t.
Proof.
  intros H. pose proof (run_wp any_step (fun _ : W => tt) E p w (fun o _ t => Q o t)) as R.
  destruct (run E p w) as [[o w'] t]. apply R; [by intros c w0|done].
Qed.

Lemma awp_for_each {A} (body : A -> prog unit) (I : list event -> Prop) l t0 :
  I t0 ->
  (forall x t, x ∈ l -> I t -> awp (body x) (fun o t' => I (t ++ t') /\ o = Ok tt)) ->
  awp (for_each l body) (fun o t' => I (t0 ++ t') /\ o = Ok tt).
Proof.
  intros HI Hb. apply (wp_for_each any_step body (fun _ t => I t)); [done|].
  intros x [] t Hx Ht. by apply Hb.
Qed.

(** Every event of every run satisfies [P]. *)
Definition all_events (P : event -> Prop) (t : list event) : Prop := Forall P t.

Lemma awp_all_events_bind {A B} (p : prog A) (f : A -> prog B) P :
  awp p (fun _ t => Forall P t) ->
  (forall a, awp (f a) (fun _ t => Forall P t)) ->
  awp (pbind f p) (fun _ t => Forall P t).
Proof.
  intros Hp Hf. apply awp_bind. eapply awp_mono; [apply Hp|].
  intros [a| |] t Ht; try done. eapply awp_mono; [apply Hf|].
  intros o t' Ht'. by apply Forall_app.
Qed.

Lemma awp_all_events_catch {A} (p : prog A) (h : exn -> prog A) P :
  awp p (fun _ t => Forall P t) ->
  (forall e, awp (h e) (fun _ t => Forall P t)) ->
  awp (catch p h) (fun _ t => Forall P t).
Proof.
  intros Hp Hf. apply awp_catch. eapply awp_mono; [apply Hp|].
  intros [a|e|] t Ht; try done. eapply awp_mono; [apply Hf|].
  intros o t' Ht'. by apply Forall_app.
Qed.

Lemma awp_all_events_attempt {A} (p : prog A) P :
  awp p (fun _ t => Forall P t) -> awp (attempt p) (fun _ t => Forall P t).
Proof. intros H. by apply awp_attempt. Qed.

Lemma awp_all_events_call c (P : event -> Prop) :
  (forall r, P (Ev c r)) -> awp (call c) (fun _ t => Forall P t).
Proof. intros H. apply awp_call. intros r. by repeat constructor. Qed.

Lemma awp_all_events_done {A} (r : outcome A) (P : event -> Prop) :
  awp (Done r) (fun _ t => Forall P t).
Proof. by constructor. Qed.

Lemma awp_all_events_for {A} (l : list A) (body : A -> prog unit) P :
  (forall x, x ∈ l -> awp (body x) (fun _ t => Forall P t)) ->
  awp (for_each l body) (fun _ t => Forall P t).
Proof.
  induction l as [|x l IH]; intros H; simpl; [by constructor|].
  apply awp_all_events_bind; [apply H; set_solver|]. intros _. apply IH. set_solver.
Qed.

Lemma awp_all_events_fold {A B} (body : B -> A -> prog B) (l : list A) (acc : B) P :
  (forall x acc, x ∈ l -> awp (body acc x) (fun _ t => Forall P t)) ->
  awp (fold_prog body l acc) (fun _ t => Forall P t).
Proof.
  revert acc; induction l as [|x l IH]; intros acc H; simpl; [by constructor|].
  apply awp_all_events_bind; [apply H; set_solver|]. intros acc'. apply IH. set_solver.
Qed.

(** ** Guarded events

    [guarded F G pre t]: after the events [pre], the events of [t] that satisfy
    [F] are each preceded by a trace that [G] accepts. *)
Definition guarded (F : event -> Prop) (G : list event -> event -> Prop) (pre t : list event) : Prop :=
  forall t1 e t2, t = t1 ++ e :: t2 -> F e -> G (pre ++ t1) e.

Lemma guarded_free F G pre t : Forall (fun e => ~ F e) t -> guarded F G pre t.
Proof.
  intros Hf t1 e t2 -> HF. apply Forall_app in Hf as [_ Hf]. by inversion Hf.
Qed.

Lemma guarded_app F G pre t t' : guarded F G pre t -> guarded F G (pre ++ t) t' -> guarded F G pre (t ++ t').
Proof.
  intros H1 H2 t1 e t2 E HF. symmetry in E. apply app_eq_app in E as [k [[-> Et]|[-> Et]]].
  - rewrite app_assoc. by apply (H2 k e t2).
  - destruct k as [|x k]; cbn in Et.
    + specialize (H2 [] e t2 (eq_sym Et) HF). by rewrite !app_nil_r in H2.
    + injection Et as <- ->. by apply (H1 t1 e k).
Qed.

Lemma guarded_cons F G pre e t :
  (F e -> G pre e) -> guarded F G (pre ++ [e]) t -> guarded F G pre (e :: t).
Proof.
  intros He Ht. apply (guarded_app F G pre [e] t); [|done].
  intros t1 x t2 E HF. destruct t1 as [|y t1]; [|by destruct t1].
  cbn in E. injection E as <- _. rewrite app_nil_r. by apply He.
Qed.

Lemma awp_guarded_bind {A B} F G pre (p : prog A) (f : A -> prog B) :
  awp p (fun o t => guarded F G pre t /\
    forall a, o = Ok a -> awp (f a) (fun _ t' => guarded F G (pre ++ t) t')) ->
  awp (pbind f p) (fun _ t => guarded F G pre t).
Proof.
  intros H. apply awp_bind. eapply awp_mono; [apply H|]. intros [a|e|] t [Hg Hf]; try done.
  eapply awp_mono; [by apply Hf|]. intros o t' Hg'. by apply guarded_app.
Qed.

(** A part without such events in front, of which a fact [R] is kept. *)
Lemma awp_guarded_free_bind {A B} F G pre (R : A -> list event -> Prop) (p : prog A) (f : A -> prog B) :
  awp p (fun _ t => Forall (fun e => ~ F e) t) ->
  awp p (fun o t => forall a, o = Ok a -> R a t) ->
  (forall a t, R a t -> awp (f a) (fun _ t' => guarded F G (pre ++ t) t')) ->
  awp (pbind f p) (fun _ t => guarded F G pre t).
Proof.
  intros H1 H2 H3. apply awp_guarded_bind. eapply awp_mono; [apply awp_and; [apply H1|apply H2]|].
  intros o t [Hf HR]. split; [by apply guarded_free|]. intros a ->. apply H3. by apply HR.
Qed.

(** ** Programs that always come to an end, in every environment *)
Definition total {A} (p : prog A) : Prop := awp p (fun o _ => o <> NoFuel).

Lemma total_done {A} (r : outcome A) : r <> NoFuel -> total (Done r).
Proof. done. Qed.

Lemma total_ret {A} (a : A) : total (mret a).
Proof. done. Qed.

Lemma total_bind {A B} (p : prog A) (f : A -> prog B) :
  total p -> (forall a, total (f a)) -> total (pbind f p).
Proof.
  intros Hp Hf. apply awp_bind. eapply awp_mono; [apply Hp|].
  intros [a| |] t Ht; try done. eapply awp_mono; [apply Hf|]. done.
Qed.

Lemma total_catch {A} (p : prog A) (h : exn -> prog A) :
  total p -> (forall e, total (h e)) -> total (catch p h).
Proof.
  intros Hp Hf. apply awp_catch. eapply awp_mono; [apply Hp|].
  intros [a|e|] t Ht; try done. eapply awp_mono; [apply Hf|]. done.
Qed.

Lemma total_attempt {A} (p : prog A) : total p -> total (attempt p).
Proof. intros H. apply awp_attempt. eapply awp_mono; [apply H|]. by intros [] t. Qed.

Lemma total_call c : total (call c).
Proof. apply awp_call. by intros []. Qed.

Lemma total_for_each {A} (l : list A) body : (forall x, total (body x)) -> total (for_each l body).
Proof. intros H. induction l; simpl; [done|]. apply total_bind; auto. Qed.

Lemma total_fold {A B} (body : B -> A -> prog B) l : forall acc,
  (forall acc x, total (body acc x)) -> total (fold_prog body l acc).
Proof. induction l; intros acc H; simpl; [done|]. apply total_bind; auto. Qed.

(** A [try] whose handler returns a value always returns normally. *)
Lemma catch_returns {A} (p : prog A) (h : exn -> A) :
  total p -> awp (catch p (fun e => mret (h e))) (fun o _ => exists a, o = Ok a).
Proof.
  intros Hp. apply awp_catch. eapply awp_mono; [apply Hp|].
  intros [a|e|] t Ht; [by exists a|by exists (h e)|done].
Qed.
End Prog.

Arguments prog S A : clear implicits.
Arguments Done {S A} r.
Arguments Call {S A} c k.
Arguments awp {S A} p Q : simpl never.
Arguments total {S A} p : simpl never.
Arguments event S : clear implicits.
Arguments env S W : clear implicits.

(** [p except_ h]: the handler of a [try] block. *)
Notation "'try_' p 'except' e '=>' h" := (catch p (fun e => h))
  (at level 10, p at level 100, e name, h at level 200).

(** Reasoning over all replies: peel the calls of a straight-line program. *)
Ltac awp_calls :=
  repeat first
    [ apply awp_all_events_done
    | apply awp_all_events_call
    | apply awp_all_events_attempt
    | apply awp_all_events_catch; [|intros ?]
    | apply awp_all_events_bind; [|intros ?]
    | apply awp_all_events_for; intros ? ?
    | apply awp_all_events_fold; intros ? ? ? ].

(** The same, for [total]. *)
Ltac total_calls :=
  repeat first
    [ apply total_ret
    | apply total_call
    | apply total_attempt
    | apply total_catch; [|intros ?]
    | apply total_bind; [|intros ?]
    | apply total_for_each; intros ?
    | apply total_fold; intros ? ?
    | apply total_done; done ].
