(* ===== verification/Aws.v ===== *)
(** * The services the handlers call

    The signature [aws] lists the external calls of the Lambda handlers, with
    the arguments the code passes and the part of the reply the code reads.
    None of the services is defined here: an environment for [aws] is an
    argument of every theorem.  [dynamo_step] is the documented behaviour of
    the DynamoDB calls on an abstract state of the tables; theorems that need
    it take [obeys dynamo_step view E] as a hypothesis.  [mem_env] is a
    concrete environment that obeys it, used by the witnesses. *)

From S2P Require Import Prelude Py Effects.

(** ** DynamoDB expressions, as the source writes them *)

Inductive table := Tenants | Hosts | Groups | Audit.

#[export] Instance table_eq_dec : EqDecision table.
Proof. solve_decision. Defined.

(** The partition key attribute of each table. *)
Definition key_attr (t : table) : string :=
  match t with
  | Tenants => "id" | Hosts => "instance_id" | Groups => "name" | Audit => "id"
  end.

(** Operands.  [Attr "x"] is an attribute name, after the [#s] aliases are
    resolved; [Lit v] is a [:v] placeholder with its value. *)
Inductive operand :=
| Attr (a : string)
| Lit (v : val)
| IfNotExists (a : string) (dflt : val)
| Add (x y : operand)
| Sub (x y : operand).

Inductive action :=
| SET (a : string) (x : operand)
| REMOVE (a : string).

Inductive cond :=
| CEq (x y : operand)
| CNe (x y : operand)
| CLt (x y : operand)
| CLe (x y : operand)
| CIn (x : operand) (l : list val)
| CExists (a : string)
| CNotExists (a : string)
| CAnd (c d : cond)
| COr (c d : cond).

Inductive return_values := RvNone | AllNew | UpdatedNew | UpdatedOld.

(** ** Replies *)

Record page := Page { pg_items : list item; pg_last : option string }.

Record invocation := Invocation {
  inv_status : option string;
  inv_stdout : option string;
  inv_stderr : option string }.

(** An ALB listener rule: its conditions are (field, values) pairs. *)
Record rule := Rule {
  r_arn : string;
  r_priority : string;
  r_conditions : list (string * list string);
  r_targets : list string }.

Record target_group := TargetGroup { tg_arn_ : string; tg_vpc : string }.

Record asg_group := AsgGroup { asg_desired : Z; asg_min : Z; asg_max : Z }.

Record s3_object := S3Object { so_key : string; so_size : Z; so_modified : Z }.

Record ec2_instance := Ec2Instance {
  ei_private_ip : string;
  ei_type : option string;
  ei_az : option string;
  ei_cores : Z;
  ei_threads : Z }.

(** [urlopen] either returns a response or raises [HTTPError] with a code;
    every other failure is an exception. *)
Inductive http_reply := HttpResponse (status : Z) | HttpError (code : Z).

(** ** The calls *)

Inductive aws_op :=
(* DynamoDB *)
| GetItem (t : table) (key : string)
| PutItem (t : table) (it : item) (c : option cond)
| UpdateItem (t : table) (key : string) (acts : list action) (c : option cond) (rv : return_values)
| DeleteItem (t : table) (key : string)
| Scan (t : table) (filter : option cond) (start : option string)
| QueryAudit (lo hi : option string) (before : bool) (limit : Z)
(* Systems Manager *)
| SendCommand (ids : list string) (cmds : list string) (exec_timeout timeout : option Z)
| GetCommandInvocation (cmd_id instance_id : string)
(* Elastic Load Balancing *)
| DescribeRules (listener : string)
| CreateRule (listener : string) (priority : Z) (conditions : list (string * list string)) (tg : string)
| ModifyRule (rule_arn tg : string)
| DeleteRule (rule_arn : string)
| DescribeTargetGroups (names : option (list string))
| CreateTargetGroup (name vpc : string)
| RegisterTargets (tg : string) (ip : string)
| DeleteTargetGroup (tg : string)
(* Auto Scaling *)
| DescribeAsg (name : string)
| SetDesiredCapacity (name : string) (desired : Z)
| TerminateInstance (instance_id : string) (decrement : bool)
| CompleteLifecycleAction (hook asg instance_id : string)
(* S3 *)
| ListObjects (bucket prefix : string)
| ListPrefixes (bucket prefix : string)
| GetObject (bucket key : string)
| HeadObject (bucket key : string)
| PutObject (bucket key body : string)
| DeleteObject (bucket key : string)
| DeleteObjects (bucket : string) (keys : list string)
(* SNS, SQS, Lambda, EC2 *)
| SnsPublish (topic subject : string) (message : val)
| SqsSend (queue : string) (message : val)
| LambdaInvoke (fn : string) (payload : val)
| DescribeInstance (instance_id : string)
| DescribeInstanceType (itype : string)
(* Cognito, through PyJWT: the key lookup and the verification of a token *)
| JwksSigningKey (jwks_url token : string)
| JwtDecode (token signing_key issuer : string)
(* HTTP, clock, randomness *)
| HttpGet (url : string)
| NowUtc
| TimeTime
| Sleep (seconds : Z)
| RandomIndex (n : nat)
| RandomShuffle (n : nat)
| Uuid4
| Sha256Hex (text : string).

Definition aws_reply (c : aws_op) : Type :=
  match c with
  | GetItem _ _ => option item
  | PutItem _ _ _ => unit
  | UpdateItem _ _ _ _ _ => option item
  | DeleteItem _ _ => unit
  | Scan _ _ _ => page
  | QueryAudit _ _ _ _ => list item
  | SendCommand _ _ _ _ => string
  | GetCommandInvocation _ _ => invocation
  | DescribeRules _ => list rule
  | CreateRule _ _ _ _ => unit
  | ModifyRule _ _ => unit
  | DeleteRule _ => unit
  | DescribeTargetGroups _ => list target_group
  | CreateTargetGroup _ _ => list target_group
  | RegisterTargets _ _ => unit
  | DeleteTargetGroup _ => unit
  | DescribeAsg _ => list asg_group
  | SetDesiredCapacity _ _ => unit
  | TerminateInstance _ _ => unit
  | CompleteLifecycleAction _ _ _ => unit
  | ListObjects _ _ => list s3_object
  | ListPrefixes _ _ => list string
  | GetObject _ _ => string
  | HeadObject _ _ => s3_object
  | PutObject _ _ _ => unit
  | DeleteObject _ _ => unit
  | DeleteObjects _ _ => unit
  | SnsPublish _ _ _ => unit
  | SqsSend _ _ => unit
  | LambdaInvoke _ _ => unit
  | DescribeInstance _ => ec2_instance
  | DescribeInstanceType _ => Z
  | JwksSigningKey _ _ => string
  | JwtDecode _ _ _ => val
  | HttpGet _ => http_reply
  | NowUtc => Z
  | TimeTime => Z
  | Sleep _ => unit
  | RandomIndex _ => nat
  | RandomShuffle _ => list nat
  | Uuid4 => string
  | Sha256Hex _ => string
  end.

Definition aws : sig := Sig aws_op aws_reply.

Abbreviation M := (prog aws).
Abbreviation ev := (event aws).

(** The calls as programs. *)
Definition do_ (c : aws_op) : M (aws_reply c) := call (S := aws) c.

(** One call, one bind: the steps of a proof about a straight-line program. *)
Ltac do_call :=
  cbn beta match; match goal with
  | |- awp (do_ ?c) ?Q => apply (proj2 (awp_call (S := aws) c Q))
  | |- wp ?st (do_ ?c) ?d ?Q => apply (proj2 (wp_call (S := aws) st c d Q))
  end.
Ltac do_bind :=
  cbn beta match; match goal with
  | |- awp _ _ => apply awp_bind
  | |- wp _ _ _ _ => apply wp_bind
  end.
Ltac do_catch :=
  cbn beta match; match goal with
  | |- awp _ _ => apply awp_catch
  | |- wp _ _ _ _ => apply wp_catch
  end.
Ltac do_attempt :=
  cbn beta match; match goal with
  | |- awp _ _ => apply awp_attempt
  | |- wp _ _ _ _ => apply wp_attempt
  end.

Ltac do_ret :=
  cbn beta match; match goal with
  | |- awp (mret _) _ => apply awp_ret
  | |- wp _ (mret _) _ _ => apply wp_ret
  | |- awp (lift _) _ => apply awp_lift
  | |- wp _ (lift _) _ _ => apply wp_lift
  end; cbn beta match; rewrite ?app_nil_r.

(** Peel the calls of a program whose events must all satisfy a predicate. *)
Ltac all_calls :=
  repeat (cbn beta zeta; first
    [ progress awp_calls
    | match goal with |- awp (do_ ?c) _ => apply (awp_all_events_call (S := aws) c); intros ? end
    | match goal with |- context [match ?x with _ => _ end] => destruct x end ]).

Ltac all_total :=
  repeat (cbn beta zeta; first
    [ progress total_calls
    | match goal with |- total (do_ ?c) => apply (total_call (S := aws) c) end
    | match goal with |- context [match ?x with _ => _ end] => destruct x end ]).

(** ** Documented behaviour of the DynamoDB calls *)

Definition validation_error {A} (m : string) : outcome A :=
  Exn (ClientError "ValidationException" m).
Definition conditional_check_failed : exn :=
  ClientError "ConditionalCheckFailedException" "The conditional request failed".

Section Expressions.
Context (it : item).

Fixpoint eval (x : operand) : outcome val :=
  match x with
  | Attr a => match it !! a with
              | Some v => Ok v
              | None => validation_error "attribute does not exist in the item"
              end
  | Lit v => Ok v
  | IfNotExists a d => Ok (default d (it !! a))
  | Add x y =>
      v ← eval x; w ← eval y;
      match v, w with
      | VInt a, VInt b => Ok (VInt (a + b))
      | _, _ => validation_error "incorrect operand type for operator +"
      end
  | Sub x y =>
      v ← eval x; w ← eval y;
      match v, w with
      | VInt a, VInt b => Ok (VInt (a - b))
      | _, _ => validation_error "incorrect operand type for operator -"
      end
  end.

(** The order comparisons hold only between two numbers or two strings. *)
Definition val_lt (v w : val) : bool :=
  match v, w with
  | VInt a, VInt b => Z.ltb a b
  | VStr s, VStr t => str_lt s t
  | _, _ => false
  end.
Definition val_le (v w : val) : bool :=
  match v, w with
  | VInt a, VInt b => Z.leb a b
  | VStr s, VStr t => str_le s t
  | _, _ => false
  end.

Definition cmp (f : val -> val -> bool) (x y : operand) : bool :=
  match eval x, eval y with Ok v, Ok w => f v w | _, _ => false end.

Fixpoint holds (c : cond) : bool :=
  match c with
  | CEq x y => cmp val_eqb x y
  | CNe x y => negb (cmp val_eqb x y)
  | CLt x y => cmp val_lt x y
  | CLe x y => cmp val_le x y
  | CIn x l => existsb (fun v => cmp val_eqb x (Lit v)) l
  | CExists a => bool_decide (is_Some (it !! a))
  | CNotExists a => bool_decide (it !! a = None)
  | CAnd c d => holds c && holds d
  | COr c d => holds c || holds d
  end.
End Expressions.

(** All operands are evaluated on the item as it was before the update. *)
Fixpoint apply_actions (old : item) (acts : list action) (new : item) : outcome item :=
  match acts with
  | [] => Ok new
  | SET a x :: acts' => v ← eval old x; apply_actions old acts' (<[a := v]> new)
  | REMOVE a :: acts' => apply_actions old acts' (delete a new)
  end.

Definition touched (acts : list action) : list string :=
  map (fun a => match a with SET a _ => a | REMOVE a => a end) acts.

(** What a list of actions does not name stays. *)
Lemma apply_untouched old acts new0 new k :
  apply_actions old acts new0 = Ok new -> k ∉ touched acts -> new !! k = new0 !! k.
Proof.
  revert new0; induction acts as [|[a x|a] acts IH]; intros new0; cbn [apply_actions touched map].
  - by intros [= ->].
  - destruct (eval old x) as [v| |]; try done. cbn. intros Hn Hk.
    rewrite (IH _ Hn) by set_solver. rewrite lookup_insert_ne; [done|]. intros ->. apply Hk. set_solver.
  - intros Hn Hk. rewrite (IH _ Hn) by set_solver. rewrite lookup_delete_ne; [done|].
    intros ->. apply Hk. set_solver.
Qed.

Definition returned (rv : return_values) (acts : list action) (old : option item) (new : item) : option item :=
  match rv with
  | RvNone => None
  | AllNew => Some new
  | UpdatedNew => Some (filter (fun kv => kv.1 ∈ touched acts) new)
  | UpdatedOld => (fun o => filter (fun kv : string * val => kv.1 ∈ touched acts) o) <$> old
  end.

(** The tables. *)
Record db := Db { db_rows : table -> gmap string item }.

Definition db_get (d : db) (t : table) (k : string) : option item := db_rows d t !! k.
Definition db_set (d : db) (t : table) (m : gmap string item) : db :=
  Db (fun t' => if decide (t' = t) then m else db_rows d t').

Definition cond_holds (c : option cond) (it : item) : bool :=
  match c with Some c => holds it c | None => true end.

(** An update of a missing row creates it, holding its key. *)
Definition base_item (t : table) (k : string) (old : option item) : item :=
  default {[key_attr t := VStr k]} old.

Definition update_row (t : table) (k : string) (acts : list action) (c : option cond)
    (old : option item) : outcome item :=
  if cond_holds c (default ∅ old)
  then apply_actions (base_item t k old) acts (base_item t k old)
  else Exn conditional_check_failed.

(** A scan reads the rows in an order of the service's own, page by page. *)
Definition row_list (d : db) (t : table) : list (string * item) := map_to_list (db_rows d t).

Fixpoint after_key (k : string) (l : list (string * item)) : list (string * item) :=
  match l with
  | [] => []
  | (j, _) :: l' => if bool_decide (j = k) then l' else after_key k l'
  end.

Definition rows_from (d : db) (t : table) (start : option string) : list (string * item) :=
  match start with None => row_list d t | Some k => after_key k (row_list d t) end.

Definition item_key (t : table) (it : item) : option string :=
  match it !! key_attr t with Some (VStr k) => Some k | _ => None end.

(** A page holds the matching rows of a non-empty prefix of what remains; the
    key to continue from is present whenever something remains. *)
Definition scan_page (d : db) (t : table) (f : option cond) (start : option string) (p : page) : Prop :=
  exists n, (0 < n)%nat /\
    let rest := rows_from d t start in
    pg_items p = List.filter (cond_holds f) (map snd (take n rest)) /\
    match pg_last p with
    | Some k => list.last (map fst (take n rest)) = Some k
    | None => drop n rest = []
    end.

(** The documented effect of a call on the tables.  The clock, the random
    choices and the digests of the standard library always answer; the other
    services may answer anything, or fail, and do not touch the tables. *)
Definition dynamo_step (c : op aws) (d : db) : (reply aws c + exn) -> db -> Prop :=
  match c return (aws_reply c + exn) -> db -> Prop with
  | GetItem t k => fun r d' => r = inl (db_get d t k) /\ d' = d
  | PutItem t it c => fun r d' =>
      match item_key t it with
      | Some k =>
          if cond_holds c (default ∅ (db_get d t k))
          then r = inl tt /\ d' = db_set d t (<[k := it]> (db_rows d t))
          else r = inr conditional_check_failed /\ d' = d
      | None => (exists m, r = inr (ClientError "ValidationException" m)) /\ d' = d
      end
  | UpdateItem t k acts c rv => fun r d' =>
      match update_row t k acts c (db_get d t k) with
      | Ok new => r = inl (returned rv acts (db_get d t k) new) /\
                  d' = db_set d t (<[k := new]> (db_rows d t))
      | Exn e => r = inr e /\ d' = d
      | NoFuel => False
      end
  | DeleteItem t k => fun r d' => r = inl tt /\ d' = db_set d t (delete k (db_rows d t))
  | Scan t f start => fun r d' => (exists p, r = inl p /\ scan_page d t f start p) /\ d' = d
  | NowUtc | TimeTime => fun r d' => (exists us, r = inl us) /\ d' = d
  | Uuid4 | Sha256Hex _ => fun r d' => (exists s, r = inl s) /\ d' = d
  | RandomIndex n => fun r d' => (exists i, r = inl i /\ (n <> 0 -> i < n)%nat) /\ d' = d
  | RandomShuffle n => fun r d' => (exists l, r = inl l /\ Permutation l (seq 0 n)) /\ d' = d
  | _ => fun r d' => d' = d
  end.

(** ** A concrete environment

    The tables in memory, scanned [ps] rows at a time; every other service is
    answered by [svc], which sees how many calls were made before. *)

Record mem := Mem { mem_db : db; mem_tick : nat }.

Definition or_else {A} (r : A + exn) (d : A) : A := match r with inl a => a | inr _ => d end.

Section MemEnv.
Context (ps : nat) (svc : forall c : aws_op, nat -> aws_reply c + exn).

Definition mem_page (d : db) (t : table) (f : option cond) (start : option string) : page :=
  let rest := rows_from d t start in
  let here := take (S ps) rest in
  Page (List.filter (cond_holds f) (map snd here))
       (match drop (S ps) rest with [] => None | _ => list.last (map fst here) end).

Definition mem_env : env aws mem := fun c w =>
  let d := mem_db w in
  let next d' := Mem d' (S (mem_tick w)) in
  match c as c return (aws_reply c + exn) * mem with
  | GetItem t k => (inl (db_get d t k), next d)
  | PutItem t it c =>
      match item_key t it with
      | Some k =>
          if cond_holds c (default ∅ (db_get d t k))
          then (inl tt, next (db_set d t (<[k := it]> (db_rows d t))))
          else (inr conditional_check_failed, next d)
      | None => (inr (ClientError "ValidationException" "missing key"), next d)
      end
  | UpdateItem t k acts c rv =>
      match update_row t k acts c (db_get d t k) with
      | Ok new => (inl (returned rv acts (db_get d t k) new),
                   next (db_set d t (<[k := new]> (db_rows d t))))
      | Exn e => (inr e, next d)
      | NoFuel => (inr (PyExn "RuntimeError" "unreachable"), next d)
      end
  | DeleteItem t k => (inl tt, next (db_set d t (delete k (db_rows d t))))
  | Scan t f start => (inl (mem_page d t f start), next d)
  | NowUtc => (inl (or_else (svc NowUtc (mem_tick w)) 0), next d)
  | TimeTime => (inl (or_else (svc TimeTime (mem_tick w)) 0), next d)
  | Uuid4 => (inl (or_else (svc Uuid4 (mem_tick w)) ""), next d)
  | Sha256Hex s => (inl (or_else (svc (Sha256Hex s) (mem_tick w)) ""), next d)
  | RandomIndex n => (inl 0%nat, next d)
  | RandomShuffle n => (inl (seq 0 n), next d)
  | c => (svc c (mem_tick w), next d)
  end.
End MemEnv.

Lemma apply_actions_no_fuel old acts new : apply_actions old acts new <> NoFuel.
Proof.
  assert (forall it x, eval it x <> NoFuel) as Hev.
  { intros it x. induction x as [a| | |x IHx y IHy|x IHx y IHy]; simpl; try done.
    - by destruct (it !! a).
    - destruct (eval it x) as [v| |]; try done. cbn.
      destruct (eval it y) as [w| |]; try done. cbn. by destruct v, w.
    - destruct (eval it x) as [v| |]; try done. cbn.
      destruct (eval it y) as [w| |]; try done. cbn. by destruct v, w. }
  revert new; induction acts as [|[a x|a] acts IH]; intros new; simpl; try done.
  specialize (Hev old x). destruct (eval old x); try done. cbn. apply IH.
Qed.

Lemma update_row_no_fuel t k acts c old : update_row t k acts c old <> NoFuel.
Proof. unfold update_row. destruct (cond_holds _ _); [apply apply_actions_no_fuel|done]. Qed.


Lemma mem_env_obeys ps svc : obeys (S := aws) dynamo_step mem_db (mem_env ps svc).
Proof.
  intros c w. destruct c; cbn; try done.
  - destruct (item_key t it) as [k|]; [|by eauto]. by destruct (cond_holds _ _).
  - pose proof (update_row_no_fuel t key acts c (db_get (mem_db w) t key)).
    by destruct (update_row _ _ _ _ _).
  - split; [|done]. eexists; split; [done|]. exists (S ps). cbn. repeat split; [lia|].
    destruct (drop _ _) eqn:E; [done|]. destruct (rows_from (mem_db w) t start) as [|x l0]; [done|].
    cbn [firstn map]. rewrite last_cons. by destruct (list.last _).
  - eauto.
  - eauto.
  - split; [|done]. exists 0%nat. split; [done|]. lia.
  - eauto.
  - eauto.
  - eauto.
Qed.

(** ** Programs that do not write the tables *)

Definition no_write (e : ev) : Prop :=
  match ev_call e with
  | PutItem _ _ _ | UpdateItem _ _ _ _ _ | DeleteItem _ _ => False
  | _ => True
  end.

#[export] Instance no_write_dec e : Decision (no_write e).
Proof. unfold no_write. destruct (ev_call e); apply _. Defined.

Lemma no_write_step c d r d' : dynamo_step c d r d' -> no_write (Ev c r) -> d' = d.
Proof. destruct c; cbn; try done; intros; deex; done. Qed.

(** A program without writes leaves the tables as they are. *)
Lemma wp_no_write {A} (p : M A) d (Q : outcome A -> list ev -> Prop) :
  awp p (fun o t => Q o t /\ Forall no_write t) ->
  wp (S := aws) dynamo_step p d (fun o d' t => Q o t /\ d' = d).
Proof.
  revert d Q; induction p as [r|c k IH]; intros d Q H.
  - cbn. by destruct H.
  - cbn. intros r d' Hs.
    assert (awp (k r) (fun o t => Q o (Ev c r :: t) /\ Forall no_write (Ev c r :: t))) as Hk.
    { apply (H r tt I). }
    assert (no_write (Ev c r)) as Hn.
    { destruct (decide (no_write (Ev (S := aws) c r))) as [?|Hn]; [done|]. exfalso.
      destruct (awp_nonempty (k r) _ Hk) as (o & t & _ & Ht). by inversion Ht. }
    rewrite (no_write_step _ _ _ _ Hs Hn) in *. eapply wp_mono; [apply (IH r d (fun o t => Q o (Ev c r :: t)))|done].
    eapply awp_mono; [apply Hk|]. intros o t [? Ht]. split; [done|]. by inversion Ht.
Qed.
