(* ===== verification/Capacity.v ===== *)
(** * Host capacity: [deploy/lambda/common/capacity.py]

    The arithmetic shared by the API scheduler and by the AZ-failover placer.
    A host is a row of the hosts table; the overcommit ratios are binary64
    numbers, multiplied and truncated as Python does. *)

From Stdlib Require Import SpecFloat.
From S2P Require Import Prelude Py.

Definition allocatable (host : item) (cpu_ratio mem_ratio : spec_float) : outcome (Z * Z) :=
  tv ← py_int (get_or host "total_vcpu" (VInt 0));
  a_vcpu ← int_scale tv cpu_ratio;
  tm ← py_int (get_or host "total_mem_mb" (VInt 0));
  a_mem ← int_scale tm mem_ratio;
  Ok (a_vcpu, a_mem).

Definition host_free (host : item) (cpu_ratio mem_ratio : spec_float) : outcome (Z * Z) :=
  '(a_vcpu, a_mem) ← allocatable host cpu_ratio mem_ratio;
  uv ← py_int (get_or host "used_vcpu" (VInt 0));
  um ← py_int (get_or host "used_mem_mb" (VInt 0));
  Ok (a_vcpu - uv, a_mem - um).

Definition host_fits (host : item) (vcpu_needed mem_needed : Z)
    (cpu_ratio mem_ratio : spec_float) (max_vms : Z) : outcome bool :=
  '(free_vcpu, free_mem) ← host_free host cpu_ratio mem_ratio;
  if (free_vcpu <? vcpu_needed) || (free_mem <? mem_needed) then Ok false
  else if negb (max_vms =? 0) then
    n ← py_int (get_or host "vm_count" (VInt 0));
    Ok (negb (max_vms <=? n))
  else Ok true.

(** A ranked candidate: the sort key [(-free_vcpu, -free_mem, instance_id)] and the row. *)
Record candidate := Candidate { c_key : Z * Z * string; c_host : item }.

Definition key_le (k1 k2 : Z * Z * string) : bool :=
  let '(a1, b1, s1) := k1 in
  let '(a2, b2, s2) := k2 in
  if a1 <? a2 then true else if a2 <? a1 then false
  else if b1 <? b2 then true else if b2 <? b1 then false
  else str_le s1 s2.

Definition cand_le (c1 c2 : candidate) : Prop := key_le (c_key c1) (c_key c2) = true.

#[export] Instance cand_le_dec : RelDecision cand_le.
Proof. intros c1 c2. unfold cand_le. apply _. Defined.

(** [h\["instance_id"\]]: the partition key, a string. *)
Definition instance_id (h : item) : outcome string :=
  v ← req h "instance_id";
  match v with VStr s => Ok s | _ => type_error "instance_id is not a string" end.

Definition rank_candidate (h : item) (cpu_ratio mem_ratio : spec_float) : outcome candidate :=
  '(free_vcpu, free_mem) ← host_free h cpu_ratio mem_ratio;
  i ← instance_id h;
  Ok (Candidate (- free_vcpu, - free_mem, i) h).

Fixpoint collect_candidates (hosts : list item) (vcpu_needed mem_needed : Z)
    (cpu_ratio mem_ratio : spec_float) (max_vms : Z) (exclude : list string)
    : outcome (list candidate) :=
  match hosts with
  | [] => Ok []
  | h :: hs =>
      let rest := collect_candidates hs vcpu_needed mem_needed cpu_ratio mem_ratio max_vms exclude in
      if is_str_in (get h "instance_id") exclude then rest
      else
        fits ← host_fits h vcpu_needed mem_needed cpu_ratio mem_ratio max_vms;
        if fits : bool then
          c ← rank_candidate h cpu_ratio mem_ratio;
          cs ← rest;
          Ok (c :: cs)
        else rest
  end.

Definition rank_hosts (hosts : list item) (vcpu_needed mem_needed : Z)
    (cpu_ratio mem_ratio : spec_float) (max_vms : Z) (exclude_ids : list string)
    : outcome (list item) :=
  cs ← collect_candidates hosts vcpu_needed mem_needed cpu_ratio mem_ratio max_vms exclude_ids;
  Ok (map c_host (merge_sort cand_le cs)).

(** ** Lemmas *)

#[export] Instance cand_le_Total : Total cand_le.
Proof.
  intros [[[a1 b1] s1] h1] [[[a2 b2] s2] h2]. unfold cand_le; simpl.
  destruct (Z.ltb_spec a1 a2), (Z.ltb_spec a2 a1); auto; try lia.
  destruct (Z.ltb_spec b1 b2), (Z.ltb_spec b2 b1); auto; try lia. apply str_le_total.
Qed.

#[export] Instance cand_le_Transitive : Transitive cand_le.
Proof.
  intros [[[a1 b1] s1] h1] [[[a2 b2] s2] h2] [[[a3 b3] s3] h3]. unfold cand_le; simpl.
  repeat match goal with
  | |- context [Z.ltb ?x ?y] => destruct (Z.ltb_spec x y)
  end; intros; try done; try lia. by eapply str_le_trans.
Qed.

(** The rows a ranking may return. *)
Definition rankable (vcpu_needed mem_needed : Z) (cpu_ratio mem_ratio : spec_float)
    (max_vms : Z) (exclude : list string) (h : item) : bool :=
  negb (is_str_in (get h "instance_id") exclude) &&
  match host_fits h vcpu_needed mem_needed cpu_ratio mem_ratio max_vms with
  | Ok b => b | _ => false end.

Lemma collect_candidates_hosts hosts v m cr mr mx ex cs :
  collect_candidates hosts v m cr mr mx ex = Ok cs ->
  map c_host cs = List.filter (rankable v m cr mr mx ex) hosts /\
  Forall (fun c => rank_candidate (c_host c) cr mr = Ok c) cs.
Proof.
  revert cs; induction hosts as [|h hs IH]; intros cs; simpl; [by intros [= <-]|].
  unfold rankable at 1. destruct (is_str_in (get h "instance_id") ex); simpl; [by apply IH|].
  destruct (host_fits h v m cr mr mx) as [[]| |]; cbn; try done; [|by apply IH].
  destruct (rank_candidate h cr mr) as [c| |] eqn:Ec; cbn; try done.
  destruct (collect_candidates hs v m cr mr mx ex) as [cs'| |]; cbn; try done.
  intros [= <-]. destruct (IH cs' eq_refl) as [H1 H2].
  assert (c_host c = h) as Hh.
  { unfold rank_candidate in Ec. destruct (host_free h cr mr) as [[fv fm]| |]; try done.
    cbn in Ec. destruct (instance_id h); try done. by injection Ec as <-. }
  simpl. rewrite H1, Hh. split; [done|]. constructor; [by rewrite Hh|done].
Qed.

(** The ranking order on rows: [h1] comes no later than [h2]. *)
Definition ranked_before (cr mr : spec_float) (h1 h2 : item) : Prop :=
  exists c1 c2, rank_candidate h1 cr mr = Ok c1 /\ rank_candidate h2 cr mr = Ok c2 /\ cand_le c1 c2.

Lemma rank_hosts_inv hosts v m cr mr mx ex l :
  rank_hosts hosts v m cr mr mx ex = Ok l ->
  Permutation l (List.filter (rankable v m cr mr mx ex) hosts) /\
  StronglySorted (ranked_before cr mr) l.
Proof.
  unfold rank_hosts. intros (cs & Hc & [= <-])%outcome_bind_Ok.
  destruct (collect_candidates_hosts _ _ _ _ _ _ _ _ Hc) as [Hh Hf].
  split.
  - rewrite <- Hh. apply Permutation_map, merge_sort_Permutation.
  - assert (StronglySorted cand_le (merge_sort cand_le cs)) as Hs
      by (apply StronglySorted_merge_sort; apply _).
    assert (Forall (fun c => rank_candidate (c_host c) cr mr = Ok c) (merge_sort cand_le cs)) as Hf'.
    { by rewrite merge_sort_Permutation. }
    clear Hc Hh Hf. induction Hs as [|c l Hs IH Hall]; simpl; [constructor|].
    inversion Hf' as [|? ? Hc Hl]; subst. constructor; [by apply IH|].
    apply Forall_map. rewrite Forall_forall in Hall, Hl |- *.
    intros x Hx. exists c, x. auto.
Qed.

(** Booking a VM on a host row: what a reservation adds to the counters. *)
Definition book (h : item) (vcpu mem : Z) : outcome item :=
  uv ← py_int (get_or h "used_vcpu" (VInt 0));
  um ← py_int (get_or h "used_mem_mb" (VInt 0));
  n ← py_int (get_or h "vm_count" (VInt 0));
  Ok (<["used_vcpu" := VInt (uv + vcpu)]>
     (<["used_mem_mb" := VInt (um + mem)]>
     (<["vm_count" := VInt (n + 1)]> h))).

(** [x / y] as strings: [get_or] through updates of other attributes. *)
Lemma get_or_insert_ne (h : item) a b v d : a <> b -> get_or (<[a := v]> h) b d = get_or h b d.
Proof. intros. unfold get_or. by rewrite lookup_insert_ne. Qed.
Lemma get_or_insert_eq (h : item) a v d : get_or (<[a := v]> h) a d = v.
Proof. unfold get_or. by rewrite lookup_insert_eq. Qed.

#[export] Hint Resolve cand_le_Total cand_le_Transitive : oc.

(** ** Properties *)

(** A host that [host_fits] accepts has room for the VM: once the VM is
    booked on it, used vCPU and memory are still within the allocatable totals,
    and the VM count is within the cap when there is one. *)
Theorem host_fits_booking_safe (h h' : item) (v m : Z) (cr mr : spec_float) (mx : Z) :
  host_fits h v m cr mr mx = Ok true ->
  book h v m = Ok h' ->
  exists fv fm, host_free h' cr mr = Ok (fv, fm) /\ 0 <= fv /\ 0 <= fm /\
    (mx <> 0 -> exists n, py_int (get_or h' "vm_count" (VInt 0)) = Ok n /\ n <= mx).
Proof.
  unfold host_fits, book. intros Hfit Hb.
  apply outcome_bind_Ok in Hfit as ([fv fm] & Hfree & Hfit).
  apply outcome_bind_Ok in Hb as (uv & Huv & Hb).
  apply outcome_bind_Ok in Hb as (um & Hum & Hb).
  apply outcome_bind_Ok in Hb as (n & Hn & [= <-]).
  destruct (Z.ltb_spec fv v), (Z.ltb_spec fm m); simpl in Hfit; try done.
  unfold host_free in Hfree |- *.
  apply outcome_bind_Ok in Hfree as ([av am] & Ha & Hfree). cbn in Hfree.
  rewrite Huv, Hum in Hfree. injection Hfree as <- <-.
  exists (av - (uv + v)), (am - (um + m)).
  assert (allocatable (<["used_vcpu":=VInt (uv + v)]> (<["used_mem_mb":=VInt (um + m)]>
           (<["vm_count":=VInt (n + 1)]> h))) cr mr = Ok (av, am)) as ->.
  { rewrite <- Ha. unfold allocatable. by rewrite !get_or_insert_ne by done. }
  cbn. rewrite get_or_insert_eq, get_or_insert_ne, get_or_insert_eq by done.
  repeat split; [lia..|]. intros Hmx. rewrite !get_or_insert_ne, get_or_insert_eq by done.
  exists (n + 1). split; [done|].
  rewrite (proj2 (Z.eqb_neq mx 0) Hmx) in Hfit. simpl in Hfit. rewrite Hn in Hfit. cbn in Hfit.
  injection Hfit as Hfit. destruct (Z.leb_spec mx n); [done|lia].
Qed.

(** A ranking returns exactly the hosts that fit and are not excluded, each
    as often as it was given, least loaded first: most free vCPU, then most
    free memory, then the lowest instance id. *)
Theorem rank_hosts_spec (hosts : list item) (v m : Z) (cr mr : spec_float) (mx : Z)
    (ex : list string) (l : list item) :
  rank_hosts hosts v m cr mr mx ex = Ok l ->
  Permutation l (List.filter (rankable v m cr mr mx ex) hosts) /\
  StronglySorted (ranked_before cr mr) l.
Proof. apply rank_hosts_inv. Qed.

(** ** Witnesses *)

Definition ratio_one : spec_float := S754_finite false 4503599627370496 (-52).
(** 1.5 *)
Definition ratio_three_halves : spec_float := S754_finite false 6755399441055744 (-52).

Definition sample_host (i : string) (tv tm uv um n : Z) : item :=
  list_to_map [("instance_id", VStr i); ("total_vcpu", VInt tv); ("total_mem_mb", VInt tm);
               ("used_vcpu", VInt uv); ("used_mem_mb", VInt um); ("vm_count", VInt n)].

Lemma host_fits_booking_safe_witness :
  let h := sample_host "i-1" 8 16384 10 8192 3 in
  let h' := ok_or ∅ (book h 2 4096) in
  exists fv fm, host_free h' ratio_three_halves ratio_one = Ok (fv, fm) /\ 0 <= fv /\ 0 <= fm /\
    (4 <> 0 -> exists n, py_int (get_or h' "vm_count" (VInt 0)) = Ok n /\ n <= 4).
Proof.
  intros h h'. apply (host_fits_booking_safe h h' 2 4096 ratio_three_halves ratio_one 4); vm_decide.
Defined.

Lemma rank_hosts_spec_witness :
  let hs := [sample_host "i-2" 8 16384 4 8192 2; sample_host "i-1" 8 16384 4 8192 2;
             sample_host "i-3" 8 16384 0 0 0; sample_host "i-4" 2 16384 2 0 1] in
  let l := [sample_host "i-3" 8 16384 0 0 0; sample_host "i-1" 8 16384 4 8192 2] in
  Permutation l (List.filter (rankable 2 4096 ratio_one ratio_one 0 ["i-2"]) hs) /\
  StronglySorted (ranked_before ratio_one ratio_one) l.
Proof.
  intros hs l. apply (rank_hosts_spec hs 2 4096 ratio_one ratio_one 0 ["i-2"] l). vm_decide.
Defined.
