(* ===== verification/Iso.v ===== *)
(** * Timestamps

    Python's [datetime] as the program uses it: UTC instants, printed with
    [isoformat()] and read back with [datetime.fromisoformat].  An instant is a
    number of microseconds since 1970-01-01T00:00:00Z.  [fromisoformat] is
    modelled on the calendar form [YYYY-MM-DD?HH:MM\[:SS\[.ffffff\]\]] with an
    optional [Z] or [+HH:MM] offset, which covers every timestamp the program
    writes; the ISO forms it never writes (week dates, basic format) are read
    as malformed here. *)

From S2P Require Import Prelude Py.

(** A datetime with or without a UTC offset. *)
Inductive datetime := Aware (us : Z) | Naive (us : Z).

#[export] Instance datetime_eq_dec : EqDecision datetime.
Proof. solve_decision. Defined.

(** ** Civil calendar (proleptic Gregorian) *)

(** Day of the 400-year era to (year of era, day of year from 1 March). *)
Definition era_split (doe : Z) : Z * Z :=
  let yoe := (doe - doe / 1460 + doe / 36524 - doe / 146096) / 365 in
  (yoe, doe - (365 * yoe + yoe / 4 - yoe / 100)).

Definition civil_from_days (days : Z) : Z * Z * Z :=
  let z := days + 719468 in
  let era := z / 146097 in
  let '(yoe, doy) := era_split (z mod 146097) in
  let mp := (5 * doy + 2) / 153 in
  let d := doy - (153 * mp + 2) / 5 + 1 in
  let m := if mp <? 10 then mp + 3 else mp - 9 in
  (yoe + era * 400 + (if m <=? 2 then 1 else 0), m, d).

Definition days_from_civil (y m d : Z) : Z :=
  let y' := if m <=? 2 then y - 1 else y in
  let era := y' / 400 in
  let yoe := y' mod 400 in
  let mp := if 2 <? m then m - 3 else m + 9 in
  let doy := (153 * mp + 2) / 5 + d - 1 in
  era * 146097 + (yoe * 365 + yoe / 4 - yoe / 100 + doy) - 719468.

Definition is_leap (y : Z) : bool :=
  (y mod 4 =? 0) && (negb (y mod 100 =? 0) || (y mod 400 =? 0)).

Definition days_in_month (y m : Z) : Z :=
  if m =? 2 then (if is_leap y then 29 else 28)
  else if (m =? 4) || (m =? 6) || (m =? 9) || (m =? 11) then 30 else 31.

(** Monday is 0, as [date.weekday()]: 1970-01-01 was a Thursday. *)
Definition weekday (us : Z) : Z := (us / 86400000000 + 3) mod 7.

(** ** Text *)

Definition digit (n : Z) : ascii := ascii_of_nat (Z.to_nat (48 + n)).

Definition pad2 (n : Z) : string := String (digit (n / 10)) (String (digit (n mod 10)) "").
Definition pad3 (n : Z) : string := String (digit (n / 100)) (pad2 (n mod 100)).
Definition pad4 (n : Z) : string := pad2 (n / 100) +:+ pad2 (n mod 100).

Definition date_text (days : Z) : string :=
  let '(y, m, d) := civil_from_days days in
  pad4 y +:+ "-" +:+ pad2 m +:+ "-" +:+ pad2 d.

Definition hhmmss (s : Z) : string :=
  pad2 (s / 3600) +:+ ":" +:+ pad2 (s / 60 mod 60) +:+ ":" +:+ pad2 (s mod 60).

Definition micros_text (us : Z) : string :=
  if us =? 0 then "" else "." +:+ pad3 (us / 1000) +:+ pad3 (us mod 1000).

(** [datetime.isoformat()] of a UTC datetime. *)
Definition isoformat (us : Z) : string :=
  date_text (us / 86400000000) +:+ "T" +:+
  hhmmss (us mod 86400000000 / 1000000) +:+
  micros_text (us mod 1000000) +:+ "+00:00".

(** [time.strftime("%Y-%m-%dT%H:%M:%SZ", time.gmtime(s))] *)
Definition strftime_z (s : Z) : string :=
  date_text (s / 86400) +:+ "T" +:+ hhmmss (s mod 86400) +:+ "Z".

(** [strftime("%H:%M")] *)
Definition hhmm (us : Z) : string :=
  let s := us mod 86400000000 / 1000000 in
  pad2 (s / 3600) +:+ ":" +:+ pad2 (s / 60 mod 60).

(** ** Reading *)

Definition take_digit (s : string) : option (Z * string) :=
  match s with
  | String c s' => d ← digit_val c; Some (d, s')
  | EmptyString => None
  end.

Definition take2 (s : string) : option (Z * string) :=
  '(a, s1) ← take_digit s; '(b, s2) ← take_digit s1; Some (a * 10 + b, s2).
Definition take3 (s : string) : option (Z * string) :=
  '(a, s1) ← take_digit s; '(b, s2) ← take2 s1; Some (a * 100 + b, s2).
Definition take4 (s : string) : option (Z * string) :=
  '(a, s1) ← take2 s; '(b, s2) ← take2 s1; Some (a * 100 + b, s2).

Definition take_char (c : ascii) (s : string) : option string :=
  match s with
  | String a s' => if bool_decide (a = c) then Some s' else None
  | EmptyString => None
  end.

Definition parse_date (s : string) : option (Z * string) :=
  '(y, s) ← take4 s; s ← take_char "-" s;
  '(m, s) ← take2 s; s ← take_char "-" s;
  '(d, s) ← take2 s;
  if (1 <=? y) && (1 <=? m) && (m <=? 12) && (1 <=? d) && (d <=? days_in_month y m)
  then Some (days_from_civil y m d, s) else None.

(** [HH:MM\[:SS\[.mmm\[uuu\]\]\]] in microseconds. *)
Definition parse_micros (s : string) : option (Z * string) :=
  match take_char "." s with
  | Some s1 => '(a, s2) ← take3 s1;
               match take3 s2 with
               | Some (b, s3) => Some (a * 1000 + b, s3)
               | None => Some (a * 1000, s2)
               end
  | None => Some (0, s)
  end.

Definition parse_time (s : string) : option (Z * string) :=
  '(h, s) ← take2 s; s ← take_char ":" s; '(mi, s) ← take2 s;
  if (h <? 24) && (mi <? 60) then
    match take_char ":" s with
    | Some s1 => '(sec, s2) ← take2 s1; '(u, s3) ← parse_micros s2;
                 if sec <? 60 then Some (((h * 60 + mi) * 60 + sec) * 1000000 + u, s3) else None
    | None => Some ((h * 60 + mi) * 60 * 1000000, s)
    end
  else None.

(** The offset in microseconds; [None] inside for a naive datetime. *)
Definition parse_offset (s : string) : option (option Z) :=
  match s with
  | EmptyString => Some None
  | String c s' =>
      if bool_decide (c = "Z"%char) then
        match s' with EmptyString => Some (Some 0) | _ => None end
      else
        '(h, s1) ← take2 s'; s2 ← take_char ":" s1; '(mi, s3) ← take2 s2;
        match s3 with
        | EmptyString =>
            if (h <? 24) && (mi <? 60) then
              let o := (h * 60 + mi) * 60 * 1000000 in
              if bool_decide (c = "+"%char) then Some (Some o)
              else if bool_decide (c = "-"%char) then Some (Some (- o)) else None
            else None
        | _ => None
        end
  end.

Definition parse_iso (s : string) : option datetime :=
  '(days, s) ← parse_date s;
  match s with
  | EmptyString => Some (Naive (days * 86400000000))
  | String _ s =>
      '(tod, s) ← parse_time s;
      off ← parse_offset s;
      Some (match off with
            | Some o => Aware (days * 86400000000 + tod - o)
            | None => Naive (days * 86400000000 + tod)
            end)
  end.

(** [datetime.fromisoformat(v)] *)
Definition fromisoformat (v : val) : outcome datetime :=
  match v with
  | VStr s => match parse_iso s with
              | Some t => Ok t
              | None => value_error "Invalid isoformat string"
              end
  | _ => type_error "fromisoformat: argument must be str"
  end.

(** [(now - dt)] in microseconds for a UTC [now]: mixing naive and aware
    datetimes is a [TypeError]. *)
Definition since (now : Z) (dt : datetime) : outcome Z :=
  match dt with
  | Aware us => Ok (now - us)
  | Naive _ => type_error "can't subtract offset-naive and offset-aware datetimes"
  end.

(** [(now - datetime.fromisoformat(v))], the two steps together. *)
Definition elapsed_us (now : Z) (v : val) : outcome Z :=
  dt ← fromisoformat v; since now dt.

(** ** Round trip *)

(** Ranges of integers, for checking finite facts by evaluation. *)
Fixpoint zrange_all (n : nat) (lo : Z) (f : Z -> bool) : bool :=
  match n with
  | O => true
  | S n' => f lo && zrange_all n' (lo + 1) f
  end.

Lemma zrange_all_spec n lo f :
  zrange_all n lo f = true -> forall z, lo <= z < lo + Z.of_nat n -> f z = true.
Proof.
  revert lo; induction n as [|n IH]; intros lo; simpl; [lia|].
  intros [H1 H2]%andb_true_iff z Hz.
  destruct (decide (z = lo)) as [->|]; [done|]. apply (IH (lo + 1)); [done|lia].
Qed.

(** The largest day of the year (from 1 March) of a year of the era. *)
Definition era_ok (doe : Z) : bool :=
  let '(yoe, doy) := era_split doe in
  (0 <=? yoe) && (yoe <? 400) && (0 <=? doy) && (doy <=? 365) &&
  (yoe * 365 + yoe / 4 - yoe / 100 + doy =? doe) &&
  ((doy <? 365) || is_leap (yoe + 1)).

Lemma era_ok_all doe : 0 <= doe < 146097 -> era_ok doe = true.
Proof.
  intros H. apply (zrange_all_spec (Z.to_nat 146097) 0); [|lia].
  vm_compute. reflexivity.
Qed.

Lemma is_leap_mod y k : is_leap (y + k * 400) = is_leap y.
Proof.
  unfold is_leap.
  replace (y + k * 400) with (y + (k * 100) * 4) at 1 by lia. rewrite Z.mod_add by lia.
  replace (y + k * 400) with (y + (k * 4) * 100) at 1 by lia. rewrite Z.mod_add by lia.
  by rewrite Z.mod_add by lia.
Qed.

Definition doy_ok (doy : Z) : bool :=
  let mp := (5 * doy + 2) / 153 in
  let d := doy - (153 * mp + 2) / 5 + 1 in
  let m := if mp <? 10 then mp + 3 else mp - 9 in
  (0 <=? mp) && (mp <? 12) && (1 <=? d) && (1 <=? m) && (m <=? 12) &&
  ((153 * mp + 2) / 5 + d - 1 =? doy) &&
  (d <=? (if m =? 2 then if doy <? 365 then 28 else 29 else days_in_month 1 m)).

Lemma doy_ok_all doy : 0 <= doy <= 365 -> doy_ok doy = true.
Proof.
  intros H. apply (zrange_all_spec 366 0); [|lia]. vm_compute. reflexivity.
Qed.

Lemma civil_roundtrip days y m d :
  civil_from_days days = (y, m, d) ->
  days_from_civil y m d = days /\ 1 <= m <= 12 /\ 1 <= d <= days_in_month y m.
Proof.
  unfold civil_from_days. set (z := days + 719468).
  assert (0 <= z mod 146097 < 146097) as Hdoe by (apply Z.mod_pos_bound; lia).
  pose proof (era_ok_all _ Hdoe) as He. unfold era_ok in He.
  destruct (era_split (z mod 146097)) as [yoe doy] eqn:Es.
  repeat (apply andb_true_iff in He as [He ?]).
  pose proof (doy_ok_all doy ltac:(lia)) as Hd. unfold doy_ok in Hd.
  cbv zeta in Hd. repeat (apply andb_true_iff in Hd as [Hd ?]).
  set (mp := (5 * doy + 2) / 153) in *. intros [= Ey Em Ed].
  assert (z = 146097 * (z / 146097) + z mod 146097) as Hz by (apply Z.div_mod; lia).
  rewrite Em, Ed in *. set (era := z / 146097) in *.
  assert (y - (if m <=? 2 then 1 else 0) = yoe + era * 400) as Hy
    by (clear - Ey; destruct (m <=? 2); lia).
  assert (yoe + era * 400 = (if m <=? 2 then y - 1 else y)) as Hy'.
  { clear - Hy. destruct (m <=? 2); lia. }
  split; [|split; [lia|]].
  - unfold days_from_civil. rewrite <- Hy'.
    rewrite Z.div_add, Z.mod_add, (Z.div_small yoe 400), (Z.mod_small yoe 400) by lia.
    assert ((if 2 <? m then m - 3 else m + 9) = mp) as ->.
    { destruct (Z.ltb_spec mp 10), (Z.ltb_spec 2 m); lia. }
    assert (days = z - 719468) as Hdays by (unfold z; lia). rewrite Hdays.
    clear Hdays. clearbody era mp z. lia.
  - split; [lia|].
    assert (m = 2 -> y = yoe + 1 + era * 400) as Hy2.
    { intros ->. simpl in Hy. lia. }
    unfold days_in_month in *. destruct (Z.eqb_spec m 2) as [->|]; [|lia].
    rewrite (Hy2 eq_refl), is_leap_mod.
    destruct (is_leap (yoe + 1)) eqn:El; [destruct (doy <? 365); lia|].
    destruct (Z.ltb_spec doy 365); simpl in *; [lia|done].
Qed.

(** Reading back what was printed. *)
#[local] Arguments take_digit : simpl never.
#[local] Arguments take2 : simpl never.
#[local] Arguments take3 : simpl never.
#[local] Arguments take4 : simpl never.
#[local] Arguments parse_micros : simpl never.
#[local] Arguments Z.mul : simpl never.
#[local] Arguments Z.add : simpl never.
#[local] Arguments Z.div : simpl never.
#[local] Arguments Z.modulo : simpl never.
#[local] Arguments String.append : simpl never.

Lemma take_digit_digit n s : 0 <= n < 10 -> take_digit (String (digit n) s) = Some (n, s).
Proof.
  intros H. unfold take_digit.
  assert (digit_val (digit n) = Some n) as ->; [|done].
  replace n with (Z.of_nat (Z.to_nat n)) by lia.
  assert (Z.to_nat n < 10)%nat as Hn by lia. revert Hn. generalize (Z.to_nat n). intros k Hk.
  do 10 (destruct k as [|k]; [done|]); lia.
Qed.

Lemma take_char_app c s : take_char c (String c "" +:+ s) = Some s.
Proof. rewrite str_app_cons, str_app_nil_l. unfold take_char. by rewrite bool_decide_eq_true_2. Qed.

#[local] Arguments take_char : simpl never.

Lemma take2_pad2 n s : 0 <= n < 100 -> take2 (pad2 n +:+ s) = Some (n, s).
Proof.
  intros H. unfold take2, pad2. rewrite !str_app_cons, str_app_nil_l.
  rewrite take_digit_digit by (split; [apply Z.div_pos; lia|apply Z.div_lt_upper_bound; lia]).
  cbn. rewrite take_digit_digit by (apply Z.mod_pos_bound; lia). cbn.
  do 2 f_equal. pose proof (Z.div_mod n 10). lia.
Qed.

Lemma take3_pad3 n s : 0 <= n < 1000 -> take3 (pad3 n +:+ s) = Some (n, s).
Proof.
  intros H. unfold take3, pad3. rewrite str_app_cons.
  rewrite take_digit_digit by (split; [apply Z.div_pos; lia|apply Z.div_lt_upper_bound; lia]).
  cbn. rewrite take2_pad2 by (apply Z.mod_pos_bound; lia). cbn.
  do 2 f_equal. pose proof (Z.div_mod n 100). lia.
Qed.

Lemma take4_pad4 n s : 0 <= n < 10000 -> take4 (pad4 n +:+ s) = Some (n, s).
Proof.
  intros H. unfold take4, pad4. rewrite !str_app_assoc.
  rewrite take2_pad2 by (split; [apply Z.div_pos; lia|apply Z.div_lt_upper_bound; lia]).
  cbn. rewrite take2_pad2 by (apply Z.mod_pos_bound; lia). cbn.
  do 2 f_equal. pose proof (Z.div_mod n 100). lia.
Qed.

Lemma parse_date_text days s :
  (let '(y, _, _) := civil_from_days days in 1 <= y <= 9999) ->
  parse_date (date_text days +:+ s) = Some (days, s).
Proof.
  unfold date_text. destruct (civil_from_days days) as [[y m] d] eqn:E. intros Hy.
  destruct (civil_roundtrip _ _ _ _ E) as (Hr & Hm & Hd).
  assert (days_in_month y m <= 31).
  { unfold days_in_month. repeat case_match; lia. }
  unfold parse_date. rewrite !str_app_assoc, take4_pad4 by lia. cbn. rewrite take_char_app. cbn.
  rewrite take2_pad2 by lia. cbn. rewrite take_char_app. cbn. rewrite take2_pad2 by lia. cbn.
  replace ((1 <=? y) && (1 <=? m) && (m <=? 12) && (1 <=? d) && (d <=? days_in_month y m)) with true
    by (symmetry; rewrite !andb_true_iff; lia).
  by rewrite Hr.
Qed.

Lemma take3_range us : 0 <= us < 1000000 -> 0 <= us / 1000 < 1000 /\ 0 <= us mod 1000 < 1000.
Proof.
  intros. split; [split; [apply Z.div_pos; lia|apply Z.div_lt_upper_bound; lia]|].
  apply Z.mod_pos_bound; lia.
Qed.

Lemma parse_micros_text us s :
  0 <= us < 1000000 -> parse_micros (micros_text us +:+ "+" +:+ s) = Some (us, "+" +:+ s).
Proof.
  intros Hu. destruct (take3_range _ Hu) as [H1 H2]. unfold parse_micros, micros_text.
  destruct (Z.eqb_spec us 0) as [->|Hne]; [done|].
  rewrite !str_app_assoc, take_char_app, take3_pad3 by done. cbn.
  rewrite take3_pad3 by done. cbn. do 2 f_equal. pose proof (Z.div_mod us 1000). lia.
Qed.

Lemma parse_time_text sec us s :
  0 <= sec < 86400 -> 0 <= us < 1000000 ->
  parse_time (hhmmss sec +:+ micros_text us +:+ "+" +:+ s) =
  Some (sec * 1000000 + us, "+" +:+ s).
Proof.
  intros Hs Hu. unfold parse_time, hhmmss. rewrite !str_app_assoc.
  assert (0 <= sec / 3600 < 24) by (split; [apply Z.div_pos; lia|apply Z.div_lt_upper_bound; lia]).
  assert (0 <= sec / 60 mod 60 < 60) by (apply Z.mod_pos_bound; lia).
  assert (0 <= sec mod 60 < 60) by (apply Z.mod_pos_bound; lia).
  rewrite take2_pad2 by lia. cbn. rewrite take_char_app. cbn. rewrite take2_pad2 by lia. cbn.
  replace ((sec / 3600 <? 24) && (sec / 60 mod 60 <? 60)) with true
    by (symmetry; rewrite !andb_true_iff; lia).
  rewrite take_char_app, take2_pad2 by lia. cbn. rewrite parse_micros_text by done. cbn.
  replace (sec mod 60 <? 60) with true by lia.
  do 2 f_equal.
  pose proof (Z.div_mod sec 60 ltac:(lia)) as E1.
  pose proof (Z.div_mod (sec / 60) 60 ltac:(lia)) as E2.
  rewrite Z.div_div in E2 by lia. change (60 * 60) with 3600 in E2. lia.
Qed.

(** The second of the day and the microsecond of a time of day. *)
Lemma day_split us :
  let r := us mod 86400000000 in
  0 <= r / 1000000 < 86400 /\ 0 <= us mod 1000000 < 1000000 /\
  us = us / 86400000000 * 86400000000 + (r / 1000000 * 1000000 + us mod 1000000).
Proof.
  intros r. assert (0 <= r < 86400000000) by (apply Z.mod_pos_bound; lia).
  assert (us mod 1000000 = r mod 1000000) as ->.
  { unfold r. rewrite (Z.div_mod us 86400000000) at 1 by lia.
    replace (86400000000 * (us / 86400000000)) with ((us / 86400000000 * 86400) * 1000000) by lia.
    by rewrite Z.add_comm, Z.mod_add by lia. }
  pose proof (Z.div_mod us 86400000000 ltac:(lia)) as E1. fold r in E1.
  pose proof (Z.div_mod r 1000000 ltac:(lia)) as E2.
  pose proof (Z.mod_pos_bound r 1000000 ltac:(lia)) as E3.
  assert (0 <= r / 1000000 < 86400)
    by (split; [apply Z.div_pos; lia|apply Z.div_lt_upper_bound; lia]).
  clearbody r. split; [done|]. split; [done|]. lia.
Qed.

Lemma iso_roundtrip us :
  (let '(y, _, _) := civil_from_days (us / 86400000000) in 1 <= y <= 9999) ->
  parse_iso (isoformat us) = Some (Aware us).
Proof.
  intros Hy. unfold parse_iso, isoformat. rewrite parse_date_text by done. cbn.
  destruct (day_split us) as (H1 & H2 & H3).
  rewrite str_app_cons, str_app_nil_l. change "+00:00" with ("+" +:+ "00:00").
  rewrite parse_time_text by done. cbn.
  change (parse_offset ("+" +:+ "00:00")) with (Some (Some 0)). cbn. do 2 f_equal. lia.
Qed.

Definition representable (us : Z) : Prop :=
  let '(y, _, _) := civil_from_days (us / 86400000000) in 1 <= y <= 9999.

Lemma elapsed_isoformat now us :
  representable us -> elapsed_us now (VStr (isoformat us)) = Ok (now - us).
Proof. intros H. unfold elapsed_us, fromisoformat. by rewrite iso_roundtrip. Qed.
