(* ===== verification/Ddb.v ===== *)
(** * Table scans: [deploy/lambda/common/ddb.py]

    [scan_all] follows [LastEvaluatedKey] until the table is exhausted.  The
    [while] loop is bounded by a fuel; [scan_all_complete] shows that any fuel
    larger than the number of rows is enough. *)

From S2P Require Import Prelude Py Effects Aws.

Fixpoint scan_pages (fuel : nat) (t : table) (f : option cond) (start : option string)
    (items : list item) : M (list item) :=
  match fuel with
  | O => no_fuel
  | S fuel' =>
      resp ← do_ (Scan t f start);
      let items := items ++ pg_items resp in
      match pg_last resp with
      | Some k => scan_pages fuel' t f (Some k) items
      | None => mret items
      end
  end.

Definition scan_all (fuel : nat) (t : table) (f : option cond) : M (list item) :=
  scan_pages fuel t f None [].

(** The rows of a table that satisfy a filter, in the service's order. *)
Definition matching (d : db) (t : table) (f : option cond) : list item :=
  List.filter (cond_holds f) (map snd (row_list d t)).

(** ** Lemmas *)

Lemma row_list_NoDup d t : NoDup (map fst (row_list d t)).
Proof. apply NoDup_fst_map_to_list. Qed.

Lemma after_key_app k x l1 l2 :
  k ∉ map fst l1 -> after_key k (l1 ++ (k, x) :: l2) = l2.
Proof.
  induction l1 as [|[j y] l1 IH]; simpl; intros H; [by rewrite bool_decide_eq_true_2|].
  rewrite bool_decide_eq_false_2; [apply IH|]; set_solver.
Qed.

(** What remains of the scan is a suffix of the rows. *)
Definition remains (d : db) (t : table) (start : option string) (pre : list (string * item)) : Prop :=
  row_list d t = pre ++ rows_from d t start.

Lemma remains_start d t : remains d t None [].
Proof. done. Qed.

Lemma remains_next d t start pre n k :
  remains d t start pre ->
  list.last (map fst (take n (rows_from d t start))) = Some k ->
  rows_from d t (Some k) = drop n (rows_from d t start) /\
  remains d t (Some k) (pre ++ take n (rows_from d t start)).
Proof.
  intros Hr Hl. set (rest := rows_from d t start) in *.
  apply last_Some in Hl as [ks Hk].
  assert (exists l1 x, take n rest = l1 ++ [(k, x)]) as (l1 & x & Ht).
  { revert Hk. generalize (take n rest). intros l. induction l as [|y l _] using rev_ind.
    - simpl. intros Hk. by destruct ks.
    - rewrite map_app. simpl. intros [_ Hk]%app_inj_tail. exists l, y.2. by destruct y; simpl in *; subst. }
  assert (row_list d t = (pre ++ l1) ++ (k, x) :: drop n rest) as Hrows.
  { unfold remains in Hr. change (rows_from d t start) with rest in Hr.
    rewrite Hr. transitivity (pre ++ (take n rest ++ drop n rest)); [by rewrite take_drop|].
    rewrite Ht, <- !app_assoc. done. }
  assert (rows_from d t (Some k) = drop n rest) as Hd.
  { unfold rows_from. rewrite Hrows. apply after_key_app.
    pose proof (row_list_NoDup d t) as Hnd. rewrite Hrows, map_app in Hnd.
    apply list.NoDup_app in Hnd as (_ & Hnd & _). intros Hin. apply (Hnd k); [done|]. set_solver. }
  split; [done|]. unfold remains. rewrite Hd, Hrows, Ht. by rewrite <- !app_assoc.
Qed.

Lemma scan_pages_spec fuel t f start items d pre :
  remains d t start pre ->
  (length (rows_from d t start) < fuel)%nat ->
  wp (S := aws) dynamo_step (scan_pages fuel t f start items) d (fun o d' _ =>
    o = Ok (items ++ List.filter (cond_holds f) (map snd (rows_from d t start))) /\ d' = d).
Proof.
  revert start items pre; induction fuel as [|fuel IH]; intros start items pre Hr Hf; [lia|].
  cbn. intros [p|e] d' [(p' & Hp & (n & Hn & Hitems & Hlast)) ->]; [|done].
  injection Hp as <-. cbn. destruct (pg_last p) as [k|] eqn:Ek.
  - destruct (remains_next _ _ _ _ _ _ Hr Hlast) as [Hd Hr'].
    assert (rows_from d t start <> []) as Hne.
    { intros E. rewrite E, take_nil in Hlast. done. }
    eapply wp_mono; [apply (IH _ _ _ Hr')|].
    + rewrite Hd, length_drop. destruct (rows_from d t start); simpl in *; [done|lia].
    + intros o d'' _ [-> ->]. split; [|done]. rewrite Hitems, Hd, <- app_assoc. do 2 f_equal.
      rewrite <- List.filter_app, <- map_app, take_drop. done.
  - cbn. split; [|done]. rewrite Hitems. do 2 f_equal.
    rewrite <- (take_drop n (rows_from d t start)) at 2. by rewrite Hlast, app_nil_r.
Qed.

(** ** Properties *)

(** A complete scan: whatever the sizes of the pages the service returns, the
    loop terminates and the result holds every row that satisfies the filter,
    each once, and the tables are unchanged. *)
Lemma scan_all_spec fuel t f d :
  (size (db_rows d t) < fuel)%nat ->
  wp (S := aws) dynamo_step (scan_all fuel t f) d
    (fun o d' _ => o = Ok (matching d t f) /\ d' = d).
Proof.
  intros Hf. apply (scan_pages_spec fuel t f None [] d [] (remains_start d t)).
  cbn. unfold row_list. by rewrite length_map_to_list.
Qed.

(** C37: [scan_all] loses no row to pagination: in every environment whose
    tables behave as documented, with any page sizes, it returns exactly the
    rows satisfying the filter and changes nothing. *)
Theorem scan_all_complete {W} (E : env aws W) (view : W -> db) (w : W)
    (fuel : nat) (t : table) (f : option cond) :
  obeys (S := aws) dynamo_step view E ->
  (size (db_rows (view w) t) < fuel)%nat ->
  let '(o, w', _) := run E (scan_all fuel t f) w in
  o = Ok (matching (view w) t f) /\ view w' = view w.
Proof.
  intros HE Hf.
  exact (run_wp _ view E _ w (fun o d' _ => o = Ok (matching (view w) t f) /\ d' = view w)
           HE (scan_all_spec fuel t f (view w) Hf)).
Qed.

(** ** Witness *)

Definition sample_db : db :=
  Db (fun t => match t with
     | Hosts => list_to_map (map (fun i => (i, {["instance_id" := VStr i; "status" := VStr "active"]} : item))
                                 ["i-1"; "i-2"; "i-3"; "i-4"; "i-5"])
     | _ => ∅ end).

Definition no_service (c : aws_op) (_ : nat) : aws_reply c + exn :=
  inr (PyExn "EndpointConnectionError" "no endpoint").

Lemma scan_all_complete_witness :
  let w := Mem sample_db 0 in
  let '(o, w', _) := run (mem_env 1 no_service) (scan_all 6 Hosts None) w in
  o = Ok (matching sample_db Hosts None) /\ mem_db w' = sample_db.
Proof.
  apply (scan_all_complete (mem_env 1 no_service) mem_db (Mem sample_db 0) 6 Hosts None).
  - apply mem_env_obeys.
  - vm_decide.
Defined.
