(* ===== verification/Config.v ===== *)
(** * Configuration of the API Lambda

    The module-level constants of [deploy/lambda/api/handler.py], read from the
    environment at start-up, as a class: the definitions of the API take an
    instance of it.  [has_groups] and [has_audit] say whether GROUPS_TABLE and
    AUDIT_TABLE are set ([groups_table is not None]); [jwt_available] whether
    PyJWT can be imported.  [repr_float] is the decimal text of a binary64
    number, which only reaches messages.  [environ] is the process environment,
    for the variables read at call time; [json_loads] reads JSON text kept in
    S3; [zone_known] is the time zone database, the names that [ZoneInfo] can
    load; [round1] is [round(x, 1)]: these are not part of the program.  [scan_fuel] bounds the loops that
    follow pagination: [Ddb.scan_all_complete] shows that any number above
    the number of rows of the tables is enough. *)

From Stdlib Require Import SpecFloat.
From S2P Require Import Prelude Py Effects Aws Ddb.

Class Config := {
  repr_float : spec_float -> string;
  scan_fuel : nat;
  environ : string -> option string;
  json_loads : string -> outcome val;
  zone_known : string -> bool;
  round1 : spec_float -> spec_float;
  has_groups : bool;
  has_audit : bool;
  AUDIT_TTL_DAYS : Z;
  NOTIFICATIONS_TOPIC_ARN : string;
  PER_TENANT_PRIORITY_MIN : Z;
  PER_TENANT_PRIORITY_MAX : Z;
  HOST_PICK_TOP_K : Z;
  HOST_RESERVE_ATTEMPTS : Z;
  HOST_RESERVED_VCPU : Z;
  HOST_RESERVED_MEM : Z;
  CPU_OVERCOMMIT_RATIO : spec_float;
  MEM_OVERCOMMIT_RATIO : spec_float;
  MAX_VMS_PER_HOST : Z;
  VM_DEFAULT_VCPU : Z;
  VM_DEFAULT_MEM : Z;
  VM_DATA_DISK_MB : Z;
  VM_PORT_BASE : Z;
  VM_SUBNET_PREFIX : string;
  ASG_NAME : string;
  ALB_LISTENER_ARN : string;
  VPC_ID : string;
  ROUTING_MODE : string;
  QUOTAS_ENABLED : bool;
  QUOTAS_MAX_VCPU : Z;
  QUOTAS_MAX_MEM_MB : Z;
  QUOTAS_MAX_DATA_DISK_MB : Z;
  BALLOON_ENABLED : bool;
  BALLOON_MIGRATE_MODE : string;
  COGNITO_USER_POOL_ID : string;
  COGNITO_CLIENT_ID : string;
  COGNITO_REGION : string;
  DEFAULT_NO_JWT_ROLE : string;
  RBAC_ENABLED : bool;
  jwt_available : bool
}.

(** [str(v)] and [json.dumps(v)] under the configuration. *)
Definition str_of `{Config} (v : val) : string := py_str repr_float v.
Definition repr_of `{Config} (v : val) : string := repr repr_float v.

(** [os.environ.get(k, d)] *)
Definition env_or `{Config} (k d : string) : string := default d (environ k).

(** [os.environ.get(k, "") or None] *)
Definition env_or_none `{Config} (k : string) : val :=
  let s := env_or k "" in if bool_decide (s = "") then VNone else VStr s.

(** A full scan, with the loop bound of the configuration. *)
Definition _scan_all `{Config} (t : table) (f : option cond) : M (list item) := scan_all scan_fuel t f.

(** A configuration for the witnesses: per-tenant routing, all the optional
    tables present, role checks on. *)
Definition sample_config : Config := {|
  repr_float := fun _ => "0.0";
  scan_fuel := 64;
  environ := fun k => if bool_decide (k = "ASSETS_BUCKET") then Some "assets"
                     else if bool_decide (k = "TENANTS_TABLE") then Some "openclaw-tenants" else None;
  json_loads := fun _ => value_error "not JSON";
  round1 := fun f => f;
  zone_known := fun z => bool_decide (z = "UTC");
  PER_TENANT_PRIORITY_MIN := 10;
  PER_TENANT_PRIORITY_MAX := 499;
  HOST_PICK_TOP_K := 8;
  HOST_RESERVE_ATTEMPTS := 3;
  has_groups := true;
  has_audit := true;
  AUDIT_TTL_DAYS := 90;
  NOTIFICATIONS_TOPIC_ARN := "";
  HOST_RESERVED_VCPU := 1;
  HOST_RESERVED_MEM := 2048;
  CPU_OVERCOMMIT_RATIO := S754_finite false 4503599627370496 (-52);
  MEM_OVERCOMMIT_RATIO := S754_finite false 4503599627370496 (-52);
  MAX_VMS_PER_HOST := 0;
  VM_DEFAULT_VCPU := 2;
  VM_DEFAULT_MEM := 4096;
  VM_DATA_DISK_MB := 2048;
  VM_PORT_BASE := 18789;
  VM_SUBNET_PREFIX := "172.16";
  ASG_NAME := "openclaw-hosts-asg";
  ALB_LISTENER_ARN := "arn:listener";
  VPC_ID := "vpc-1";
  ROUTING_MODE := "per-tenant";
  QUOTAS_ENABLED := false;
  QUOTAS_MAX_VCPU := 0;
  QUOTAS_MAX_MEM_MB := 0;
  QUOTAS_MAX_DATA_DISK_MB := 0;
  BALLOON_ENABLED := false;
  BALLOON_MIGRATE_MODE := "cold";
  COGNITO_USER_POOL_ID := "us-east-1_pool";
  COGNITO_CLIENT_ID := "";
  COGNITO_REGION := "us-east-1";
  DEFAULT_NO_JWT_ROLE := "viewer";
  RBAC_ENABLED := true;
  jwt_available := true
|}.
