(* ===== verification/Re.v ===== *)
(** * The regular expressions of the program

    A small matcher for the [re] patterns the source uses: character classes,
    sequences, alternatives, options, bounded repetitions and [$], which as in
    Python also matches just before a final newline.  [rems r s] lists what can
    remain of [s] after a match of [r] at its start. *)

From S2P Require Import Prelude Py.

Inductive re :=
| Eps
| Chr (p : ascii -> bool)
| Seq (r1 r2 : re)
| Alt (r1 r2 : re)
| Dollar.

Definition newline : ascii := ascii_of_nat 10.

Fixpoint rems (r : re) (s : string) : list string :=
  match r with
  | Eps => [s]
  | Chr p => match s with String c s' => if p c then [s'] else [] | EmptyString => [] end
  | Seq r1 r2 => concat (map (rems r2) (rems r1 s))
  | Alt r1 r2 => rems r1 s ++ rems r2 s
  | Dollar => if bool_decide (s = "") || bool_decide (s = String newline "") then [s] else []
  end.

(** [r?] and [r{0,n}] *)
Definition Opt (r : re) : re := Alt r Eps.
Fixpoint upto (n : nat) (r : re) : re :=
  match n with O => Eps | S n' => Opt (Seq r (upto n' r)) end.

(** [re.match(r, s) is not None] *)
Definition re_match (r : re) (s : string) : bool :=
  match rems r s with [] => false | _ => true end.

Definition in_range (a b : ascii) (c : ascii) : bool :=
  (nat_of_ascii a <=? nat_of_ascii c)%nat && (nat_of_ascii c <=? nat_of_ascii b)%nat.
Definition is_char (a c : ascii) : bool := bool_decide (c = a).
Definition is_digit : ascii -> bool := in_range "0" "9".
Definition lower_alnum (c : ascii) : bool := in_range "a" "z" c || is_digit c.
Definition lower_alnum_hyphen (c : ascii) : bool := lower_alnum c || is_char "-" c.

(** ** Lemmas *)

Fixpoint all_chars (p : ascii -> bool) (s : string) : bool :=
  match s with EmptyString => true | String c s' => p c && all_chars p s' end.

Lemma elem_rems_Seq r1 r2 s t :
  t ∈ rems (Seq r1 r2) s <-> exists u, u ∈ rems r1 s /\ t ∈ rems r2 u.
Proof.
  cbn [rems]. rewrite list_elem_of_In, in_concat. split.
  - intros (l & (u & <- & Hu)%in_map_iff & Ht). exists u. by rewrite !list_elem_of_In.
  - intros (u & Hu & Ht). rewrite list_elem_of_In in Hu, Ht. exists (rems r2 u).
    split; [|done]. apply in_map_iff. eauto.
Qed.

Lemma elem_rems_Alt r1 r2 s t : t ∈ rems (Alt r1 r2) s <-> t ∈ rems r1 s \/ t ∈ rems r2 s.
Proof. cbn [rems]. apply elem_of_app. Qed.

Lemma elem_rems_Chr p s t : t ∈ rems (Chr p) s <-> exists c, s = String c t /\ p c = true.
Proof.
  cbn [rems]. destruct s as [|c s]; [split; [set_solver|by intros (c & ? & ?)]|].
  destruct (p c) eqn:E.
  - rewrite list_elem_of_singleton. split; [intros ->; eauto|]. by intros (c' & [= -> ->] & ?).
  - split; [set_solver|]. intros (c' & [= -> ->] & ?). congruence.
Qed.

Lemma elem_rems_Dollar s t :
  t ∈ rems Dollar s <-> t = s /\ (s = "" \/ s = String newline "").
Proof.
  cbn [rems]. destruct (bool_decide_reflect (s = "")) as [->|];
    [cbn; rewrite list_elem_of_singleton; intuition|].
  destruct (bool_decide_reflect (s = String newline "")) as [->|];
    cbn; [rewrite list_elem_of_singleton; intuition|set_solver].
Qed.

Lemma elem_rems_upto n p s t :
  t ∈ rems (upto n (Chr p)) s <->
  exists l, s = l +:+ t /\ all_chars p l = true /\ (String.length l <= n)%nat.
Proof.
  revert s; induction n as [|n IH]; intros s; cbn [upto].
  - cbn [rems]. rewrite list_elem_of_singleton. split.
    + intros ->. exists "". auto.
    + intros (l & -> & _ & Hl). destruct l; [done|simpl in Hl; lia].
  - unfold Opt. rewrite elem_rems_Alt, elem_rems_Seq. setoid_rewrite elem_rems_Chr.
    setoid_rewrite IH. cbn [rems]. rewrite list_elem_of_singleton. split.
    + intros [(u & (c & -> & Hc) & l & -> & Hl & Hn)| ->].
      * exists (String c l). rewrite str_app_cons. simpl. rewrite Hc, Hl.
        repeat split; lia.
      * exists "". repeat split; simpl; lia.
    + intros (l & -> & Hl & Hn). destruct l as [|c l]; [by right|]. left. simpl in *.
      apply andb_true_iff in Hl as [Hc Hl]. exists (l +:+ t). split; [by exists c|].
      exists l. repeat split; [done|lia].
Qed.

Lemma re_match_iff r s : re_match r s = true <-> exists t, t ∈ rems r s.
Proof.
  unfold re_match. destruct (rems r s) as [|t l].
  - split; [done|]. intros [t Ht]. set_solver.
  - split; [|done]. intros _. exists t. set_solver.
Qed.
