(* ===== verification/Validate.v ===== *)
(** * Request validation: [deploy/lambda/api/domains/common.py]

    The pure helpers of the API: responses, identifiers, and the checks on
    names, tags, time-to-live and schedules. *)

From Stdlib Require Import SpecFloat.
From S2P Require Import Prelude Py Effects Aws Iso Re Config.

(** A response: its status and the value given to [json.dumps]. *)
Record resp := Resp { statusCode : Z; body : val }.

#[export] Instance resp_eq_dec : EqDecision resp.
Proof. solve_decision. Defined.

Definition _resp (code : Z) (body : val) : resp := Resp code body.

(** [{"error": msg}] *)
Definition err_body (msg : string) : val := VDict [("error", VStr msg)].
Definition error_resp (code : Z) (msg : string) : resp := _resp code (err_body msg).

Definition _now : M string := us ← do_ NowUtc; mret (isoformat us).

(** [time.time()] as the float the program prints. *)
Definition float_seconds (us : Z) : spec_float :=
  SFdiv 53 1024 (binary_normalize 53 1024 us 0 false) (binary_normalize 53 1024 1000000 0 false).

Definition _gen_id `{Config} (name : string) : M string :=
  t ← do_ TimeTime;
  digest ← do_ (Sha256Hex (name +:+ repr_float (float_seconds t)));
  mret (name +:+ "-" +:+ str_take 4 digest).

(** ** Names *)

(** [^[a-z0-9]([a-z0-9-]{0,30}[a-z0-9])?$] *)
Definition _NAME_RE : re :=
  Seq (Chr lower_alnum)
    (Seq (Opt (Seq (upto 30 (Chr lower_alnum_hyphen)) (Chr lower_alnum))) Dollar).

Definition _validate_name (name : val) : option string :=
  match name with
  | VStr s =>
      if bool_decide (s = "") then Some "name is required"
      else if (32 <? String.length s)%nat then Some "name exceeds 32 characters"
      else if negb (re_match _NAME_RE s) then
        Some ("name must match ^[a-z0-9]([a-z0-9-]{0,30}[a-z0-9])?$ " +:+
              "(lowercase letters, digits, hyphens; cannot start/end with hyphen)")
      else None
  | _ => Some "name is required"
  end.

(** ** Tags *)

Definition _TAG_MAX_KEY_LEN : nat := 50.
Definition _TAG_MAX_VALUE_LEN : nat := 100.
Definition _TAG_MAX_COUNT : nat := 20.

Definition colon : ascii := ":".

(** One turn of the loop over [tags.items()]. *)
Definition validate_tag (k : string) (v : val) : option string :=
  if bool_decide (k = "") then Some "tag key must be a non-empty string"
  else match v with
  | VStr v =>
      if has_char colon k then
        Some ("tag key '" +:+ k +:+ "' must not contain ':' (reserved for query syntax)")
      else if has_char colon v then
        Some ("tag value '" +:+ v +:+ "' must not contain ':' (reserved for query syntax)")
      else if (_TAG_MAX_KEY_LEN <? String.length k)%nat then
        Some ("tag key '" +:+ k +:+ "' exceeds 50 characters")
      else if (_TAG_MAX_VALUE_LEN <? String.length v)%nat then
        Some ("tag value for '" +:+ k +:+ "' exceeds 100 characters")
      else None
  | _ => Some ("tag value for '" +:+ k +:+ "' must be a string")
  end.

Fixpoint validate_tag_items (d : list (string * val)) : option string :=
  match d with
  | [] => None
  | (k, v) :: d' =>
      match validate_tag k v with Some e => Some e | None => validate_tag_items d' end
  end.

Definition _validate_tags (tags : val) : option string :=
  match tags with
  | VNone => None
  | VDict d =>
      if (_TAG_MAX_COUNT <? length d)%nat then Some "too many tags (max 20)"
      else validate_tag_items d
  | _ => Some "tags must be an object (key/value map)"
  end.

(** Query parameters as API Gateway delivers them: single values, and all the
    values of each repeated parameter. *)
Record query := Query { q_single : list (string * string); q_multi : list (string * list string) }.

(** [(None, None)] is [None]. *)
Definition tag_filter (r : string) : option (string * string) :=
  match split_once colon r with
  | (k, Some v) => Some (k, v)
  | (_, None) => None
  end.

Definition _collect_tag_filters (q : query) : list (option (string * string)) :=
  let raw :=
    match alist_get "tag" (q_multi q) with
    | Some l => l
    | None => match alist_get "tag" (q_single q) with Some r => [r] | None => [] end
    end in
  map tag_filter raw.

Fixpoint matches_tags (item_tags : val) (filters : list (option (string * string))) : outcome bool :=
  match filters with
  | [] => Ok true
  | None :: _ => Ok false
  | Some (k, v) :: filters' =>
      x ← vget item_tags k;
      if is_str x v then matches_tags item_tags filters' else Ok false
  end.

Definition _matches_all_tags (it : item) (filters : list (option (string * string))) : outcome bool :=
  matches_tags (v_or (get it "tags") (VDict [])) filters.

(** ** Time to live *)

Definition _TTL_MAX_HOURS : Z := 8760.
Definition _TTL_VALID_ON_EXPIRY : list string := ["stop"; "delete"].

Definition is_class (e : exn) (cls : string) : bool :=
  match e with PyExn c _ => bool_decide (c = cls) | ClientError _ _ => false end.

(** The dict of TTL fields, when a TTL is requested. *)
Record ttl_fields := TtlFields { tf_ttl_hours : Z; tf_on_expiry : val; tf_expires_at : string }.

Section Ttl.
Context `{Config}.

Definition _parse_ttl (ttl_hours_raw on_expiry_raw : val)
    : M (option ttl_fields * option string) :=
  if bool_decide (ttl_hours_raw = VNone) then
    if negb (bool_decide (on_expiry_raw = VNone)) then mret (None, Some "on_expiry requires ttl_hours")
    else mret (None, None)
  else
    match (if is_bool ttl_hours_raw then type_error "" else py_int ttl_hours_raw) with
    | Exn e =>
        if is_class e "TypeError" || is_class e "ValueError"
        then mret (None, Some "ttl_hours must be a positive integer")
        else raise e
    | NoFuel => no_fuel
    | Ok ttl_hours =>
        if ttl_hours <=? 0 then mret (None, Some "ttl_hours must be a positive integer")
        else if _TTL_MAX_HOURS <? ttl_hours then mret (None, Some "ttl_hours must be <= 8760 (1 year)")
        else
          let on_expiry := v_or on_expiry_raw (VStr "stop") in
          if negb (is_str_in on_expiry _TTL_VALID_ON_EXPIRY) then
            mret (None, Some ("on_expiry must be one of ['delete', 'stop']; got " +:+ repr_of on_expiry))
          else
            us ← do_ NowUtc;
            mret (Some (TtlFields ttl_hours on_expiry (isoformat (us + ttl_hours * 3600000000))), None)
    end.

(** ** Schedules *)

Definition _SCHED_DAYS : list string := ["Mon"; "Tue"; "Wed"; "Thu"; "Fri"; "Sat"; "Sun"].

(** [^\d{2}:\d{2}$] *)
Definition hhmm_re : re :=
  Seq (Seq (Chr is_digit) (Chr is_digit))
    (Seq (Chr (is_char ":")) (Seq (Seq (Chr is_digit) (Chr is_digit)) Dollar)).

(** [datetime.strptime(s, "%H:%M")] succeeds: hours [2[0-3]|[0-1]\d|\d], minutes
    [[0-5]\d|\d], nothing left over. *)
Definition strptime_re : re :=
  Seq (Alt (Seq (Chr (is_char "2")) (Chr (in_range "0" "3")))
      (Alt (Seq (Chr (in_range "0" "1")) (Chr is_digit)) (Chr is_digit)))
    (Seq (Chr (is_char ":"))
      (Alt (Seq (Chr (in_range "0" "5")) (Chr is_digit)) (Chr is_digit))).
Definition strptime_HM (s : val) : bool :=
  match s with VStr s => existsb (fun t => bool_decide (t = "")) (rems strptime_re s) | _ => false end.

Definition _parse_schedule (raw : val) : outcome (val * option string) :=
  match raw with
  | VNone => Ok (VNone, None)
  | VDict _ =>
      start ← vget raw "start";
      stop ← vget raw "stop";
      if negb (truthy start) then Ok (VNone, Some "schedule.start required")
      else if negb (truthy stop) then Ok (VNone, Some "schedule.stop required")
      else if negb (re_match hhmm_re (str_of start)) || negb (re_match hhmm_re (str_of stop)) then
        Ok (VNone, Some "schedule.start/stop must be HH:MM")
      else if negb (strptime_HM start) || negb (strptime_HM stop) then
        Ok (VNone, Some "schedule.start/stop must be a valid HH:MM time")
      else if bool_decide (start = stop) then
        Ok (VNone, Some "schedule.start must differ from schedule.stop")
      else
        tz ← vget_or raw "timezone" (VStr "UTC");
        if negb (match tz with VStr z => zone_known z | _ => false end) then
          Ok (VNone, Some ("unknown timezone: " +:+ str_of tz))
        else
          days0 ← vget raw "days";
          let days := v_or days0 (VList (map VStr _SCHED_DAYS)) in
          if match days with
             | VList l => existsb (fun d => negb (is_str_in d _SCHED_DAYS)) l
             | _ => true
             end
          then Ok (VNone, Some ("schedule.days must be a subset of " +:+
                                repr_of (VList (map VStr _SCHED_DAYS))))
          else Ok (VDict [("start", start); ("stop", stop); ("timezone", tz); ("days", days)], None)
  | _ => Ok (VNone, Some "schedule must be an object")
  end.
End Ttl.

(** ** Lemmas *)

(** What a tenant name must be: a DNS label of 1 to 32 characters. *)
Definition dns_label (s : string) : Prop :=
  (exists c, s = String c "" /\ lower_alnum c = true) \/
  (exists a m z, s = String a (m +:+ String z "") /\ (String.length m <= 30)%nat /\
     lower_alnum a = true /\ lower_alnum z = true /\ all_chars lower_alnum_hyphen m = true).

Lemma name_re_match s :
  re_match _NAME_RE s = true <->
  exists l, dns_label l /\ (s = l \/ s = l +:+ String newline "").
Proof.
  rewrite re_match_iff. unfold _NAME_RE, Opt.
  setoid_rewrite elem_rems_Seq. setoid_rewrite elem_rems_Chr. setoid_rewrite elem_rems_Seq.
  setoid_rewrite elem_rems_Alt. setoid_rewrite elem_rems_Seq. setoid_rewrite elem_rems_upto.
  setoid_rewrite elem_rems_Chr. setoid_rewrite elem_rems_Dollar. split.
  - intros (t & u & (a & -> & Ha) & w & [(x & (m & -> & Hm & Hl) & z & -> & Hz)|Hw] & -> & Hend).
    + exists (String a (m +:+ String z "")). split; [right; by exists a, m, z|].
      destruct Hend as [->| ->]; [by left|right].
      by rewrite str_app_cons, str_app_assoc, str_app_cons, str_app_nil_l.
    + cbn [rems] in Hw. apply list_elem_of_singleton in Hw as ->.
      exists (String a ""). split; [left; by exists a|]. destruct Hend as [->| ->]; auto.
  - intros (l & Hl & Hs).
    assert (exists e, s = l +:+ e /\ (e = "" \/ e = String newline "")) as (e & -> & He).
    { destruct Hs as [->| ->]; [exists ""; by rewrite str_app_nil_r; auto|eauto]. }
    destruct Hl as [(a & -> & Ha)|(a & m & z & -> & Hl & Ha & Hz & Hm)];
      rewrite str_app_cons; (exists e).
    + exists e. split; [by exists a|]. exists e. split; [right; cbn [rems]; by apply list_elem_of_singleton|done].
    + exists (m +:+ String z e). rewrite str_app_assoc, str_app_cons, str_app_nil_l.
      split; [by exists a|]. exists e. split; [left|done]. exists (String z e). split; [by exists m|by exists z].
Qed.

(** ** Properties *)

(** A name is accepted exactly when it is a DNS label of at most 32
    characters, or such a label of at most 31 characters followed by one
    newline (Python's [$] matches before a final newline). *)
Theorem validate_name_spec (name : val) :
  _validate_name name = None <->
  exists s l, name = VStr s /\ (String.length s <= 32)%nat /\ dns_label l /\
    (s = l \/ s = l +:+ String newline "").
Proof.
  unfold _validate_name. destruct name as [| | | |s| |]; try (split; [done|by intros (? & ? & ? & _)]).
  destruct (bool_decide_reflect (s = "")) as [->|].
  { split; [done|]. intros (s' & l & [= <-] & _ & [(c & -> & _)|(a & m & z & -> & _)] & [?|?]); done. }
  destruct (Nat.ltb_spec 32 (String.length s)).
  { split; [done|]. intros (s' & l & [= <-] & ? & _). lia. }
  destruct (re_match _NAME_RE s) eqn:E; cbn.
  - apply name_re_match in E as (l & Hl & Hs). split; [|done]. intros _. by exists s, l.
  - split; [done|]. intros (s' & l & [= <-] & _ & Hl & Hs).
    rewrite (proj2 (name_re_match s)) in E by eauto. done.
Qed.

Lemma split_once_has k v : has_char colon k = false -> split_once colon (k +:+ String colon v) = (k, Some v).
Proof.
  induction k as [|c k IH]; intros Hk; [done|]. rewrite str_app_cons. cbn [split_once has_char] in *.
  apply orb_false_iff in Hk as [-> Hk]. by rewrite IH.
Qed.

Lemma validate_tag_items_get d k v :
  validate_tag_items d = None -> alist_get k d = Some v ->
  exists s, v = VStr s /\ k <> "" /\ has_char colon k = false /\ has_char colon s = false.
Proof.
  induction d as [|[j w] d IH]; cbn [validate_tag_items alist_get]; [done|].
  destruct (validate_tag j w) eqn:E; [done|]. intros Hd.
  destruct (bool_decide_reflect (j = k)) as [->|]; [|by apply IH]. intros [= ->].
  unfold validate_tag in E. destruct (bool_decide_reflect (k = "")); [done|].
  destruct v as [| | | |s| |]; try done. exists s.
  destruct (has_char colon k); [done|]. by destruct (has_char colon s).
Qed.

Lemma validated_values d k v :
  _validate_tags (VDict d) = None -> alist_get k d = Some v -> exists s, v = VStr s.
Proof.
  unfold _validate_tags. destruct (Nat.ltb _ _); [done|]. intros Hv Hk.
  destruct (validate_tag_items_get _ _ _ Hv Hk) as (s & -> & _). by exists s.
Qed.

(** A request for the tenants with all the given tags, as the console and the
    command line send it: one [tag] parameter, or several. *)
Definition tag_param (kw : string * string) : string := kw.1 +:+ ":" +:+ kw.2.
Definition tag_query (kws : list (string * string)) (q : query) : Prop :=
  alist_get "tag" (q_multi q) = Some (map tag_param kws) \/
  (alist_get "tag" (q_multi q) = None /\ exists kw, kws = [kw] /\ alist_get "tag" (q_single q) = Some (tag_param kw)).

Lemma tag_query_filters kws q :
  tag_query kws q -> Forall (fun kw => has_char colon kw.1 = false) kws ->
  _collect_tag_filters q = map Some kws.
Proof.
  assert (Hone : forall l, Forall (fun kw : string * string => has_char colon kw.1 = false) l ->
    map tag_filter (map tag_param l) = map Some l).
  { intros l Hl. induction Hl as [|[k w] l Hk _ IH]; [done|]. cbn [map]. rewrite IH. f_equal.
    unfold tag_filter, tag_param. cbn [fst snd]. change (k +:+ ":" +:+ w) with (k +:+ String colon w).
    by rewrite (split_once_has k w Hk). }
  unfold _collect_tag_filters. intros [-> | [-> (kw & -> & ->)]] Hk; [by apply Hone|]. by apply (Hone [kw]).
Qed.

(** C36: Accepted tags can be queried: of the tenants whose tags passed the
    validation, or that have none, a request for tags [k:v] - keys have no
    colon, values may - lists exactly those that carry every one of them, with
    that key and that value: a tenant that lacks a key, or has another value
    under it, is not listed. *)
Theorem tag_filter_roundtrip (it : item) (d : list (string * val)) (kws : list (string * string)) (q : query) :
  _validate_tags (VDict d) = None ->
  it !! "tags" = Some (VDict d) \/ (it !! "tags" = None /\ d = []) ->
  tag_query kws q -> Forall (fun kw => has_char colon kw.1 = false) kws ->
  _matches_all_tags it (_collect_tag_filters q) =
    Ok (bool_decide (Forall (fun kw => alist_get kw.1 d = Some (VStr kw.2)) kws)).
Proof.
  intros Hv Hit Hq Hk. rewrite (tag_query_filters _ _ Hq Hk). clear Hq Hk.
  unfold _matches_all_tags. assert (v_or (get it "tags") (VDict []) = VDict d) as ->.
  { unfold get, get_or. destruct Hit as [->|[-> ->]]; [|done]. unfold v_or. by destruct d. }
  induction kws as [|[k w] kws IH]; [by rewrite bool_decide_eq_true_2 by constructor|].
  cbn [map matches_tags]. unfold vget, vget_or. cbn [mbind outcome_bind].
  assert (is_str (default VNone (alist_get k d)) w = bool_decide (alist_get k d = Some (VStr w))) as Hw.
  { destruct (alist_get k d) as [v|] eqn:E; [|done]. destruct (validated_values _ _ _ Hv E) as [s ->].
    cbn. apply bool_decide_ext. split; [by intros ->|by intros [= ->]]. }
  cbn. rewrite Hw. destruct (bool_decide_reflect (alist_get k d = Some (VStr w))) as [E|E].
  - rewrite IH. f_equal. apply bool_decide_ext. rewrite Forall_cons_iff. cbn. tauto.
  - f_equal. symmetry. apply bool_decide_eq_false. rewrite Forall_cons_iff. cbn. tauto.
Qed.

Lemma tag_filter_roundtrip_witness :
  let d := [("team", VStr "sre"); ("env", VStr "prod")] in
  let q := Query [("tag", "env:prod")] [("tag", ["env:prod"; "owner:ops"])] in
  _matches_all_tags {["tags" := VDict d]} (_collect_tag_filters q) =
    Ok (bool_decide (Forall (fun kw => alist_get kw.1 d = Some (VStr kw.2)) [("env", "prod"); ("owner", "ops")])) /\
  bool_decide (Forall (fun kw => alist_get kw.1 d = Some (VStr kw.2)) [("env", "prod"); ("owner", "ops")]) = false.
Proof.
  intros d q. split; [|vm_decide].
  apply (tag_filter_roundtrip {["tags" := VDict d]} d [("env", "prod"); ("owner", "ops")] q).
  - vm_decide.
  - left. vm_decide.
  - left. vm_decide.
  - repeat constructor.
Defined.
