(* ===== verification/Ssm.v ===== *)
(** * SSM Run Command helpers: [deploy/lambda/common/ssm.py]

    Sending a shell command to a host and waiting for its result.  The bounded
    loop of [run] is structural; the deadline loop of [wait] has a fuel, and
    [ssm_wait_terminates] shows that with a clock that follows its sleeps the fuel
    [timeout/poll + 2] is enough. *)

From S2P Require Import Prelude Py Effects Aws.

(** [_HOME_WRAP.format(cmd=command)] *)
Definition home_wrap (command : string) : string :=
  "export HOME=/home/ubuntu && cd /home/ubuntu && " +:+ command.

Definition send_command (instance_id command : string) (timeout : Z) : M string :=
  do_ (SendCommand [instance_id] [home_wrap command] (Some timeout) (Some (timeout + 10))).

Definition ssm_send (instance_id command : string) (timeout : Z) : M (option string) :=
  try_ (cid ← send_command instance_id command timeout; mret (Some cid))
  except _ => mret None.

Definition is_code (e : exn) (code : string) : bool := bool_decide (exn_code e = Some code).
Definition InvocationDoesNotExist : string := "InvocationDoesNotExist".

Definition str_in (s : string) (l : list string) : bool := existsb (fun t => bool_decide (s = t)) l.
Definition failed_status (s : string) : bool := str_in s ["Failed"; "TimedOut"; "Cancelled"].

(** The polling loop of [run]: [n] attempts left. *)
Fixpoint ssm_run_loop (n : nat) (cmd_id instance_id : string) (poll_sec : Z) : M (bool * string) :=
  match n with
  | O => mret (false, "timeout")
  | S n' =>
      r ← attempt (do_ (GetCommandInvocation cmd_id instance_id));
      match r with
      | inr e =>
          if is_code e InvocationDoesNotExist then
            _ ← do_ (Sleep poll_sec); ssm_run_loop n' cmd_id instance_id poll_sec
          else raise e
      | inl inv =>
          status ← match inv_status inv with
                   | Some s => mret s
                   | None => lift (key_error "Status")
                   end;
          if bool_decide (status = "Success") then mret (true, default "" (inv_stdout inv))
          else if failed_status status then mret (false, default "" (inv_stderr inv))
          else _ ← do_ (Sleep poll_sec); ssm_run_loop n' cmd_id instance_id poll_sec
      end
  end.

Definition ssm_run (instance_id command : string) (timeout initial_sleep poll_sec : Z)
    : M (bool * string) :=
  try_ (cmd_id ← send_command instance_id command timeout;
        _ ← do_ (Sleep initial_sleep);
        ssm_run_loop (Z.to_nat (Z.max 1 (timeout / 2))) cmd_id instance_id poll_sec)
  except e => mret (false, exn_str e).

(** [(done, ok)] *)
Definition ssm_poll (command_id instance_id : string) : M (bool * bool) :=
  r ← attempt (do_ (GetCommandInvocation command_id instance_id));
  match r with
  | inr _ => mret (false, false)
  | inl inv =>
      let status := default "Pending" (inv_status inv) in
      if bool_decide (status = "Success") then mret (true, true)
      else if failed_status status then mret (true, false)
      else mret (false, false)
  end.

Fixpoint ssm_wait_loop (fuel : nat) (command_id instance_id : string)
    (deadline timeout_sec poll_sec : Z) (last_status : string) : M (bool * option string) :=
  match fuel with
  | O => no_fuel
  | S fuel' =>
      t ← do_ TimeTime;
      if t <? deadline then
        _ ← do_ (Sleep poll_sec);
        r ← attempt (do_ (GetCommandInvocation command_id instance_id));
        match r with
        | inr e =>
            if is_code e InvocationDoesNotExist then
              ssm_wait_loop fuel' command_id instance_id deadline timeout_sec poll_sec last_status
            else mret (false, Some ("get_command_invocation: " +:+ exn_str e))
        | inl inv =>
            let last_status := default "Unknown" (inv_status inv) in
            if bool_decide (last_status = "Success") then mret (true, None)
            else if failed_status last_status then
              mret (false, Some ("SSM " +:+ last_status +:+ ": " +:+
                                 str_take 500 (default "" (inv_stderr inv))))
            else ssm_wait_loop fuel' command_id instance_id deadline timeout_sec poll_sec last_status
        end
      else
        mret (false, Some ("SSM timeout after " +:+ pretty timeout_sec +:+
                           "s (last_status=" +:+ last_status +:+ ")"))
  end.

Definition ssm_wait (fuel : nat) (command_id instance_id : string) (timeout_sec poll_sec : Z)
    : M (bool * option string) :=
  t ← do_ TimeTime;
  ssm_wait_loop fuel command_id instance_id (t + timeout_sec * 1000000) timeout_sec poll_sec "Pending".

(** ** Lemmas *)

(** The event of a command that succeeded. *)
Definition succeeded (command_id instance_id : string) (e : ev) : Prop :=
  exists inv, e = Ev (S := aws) (GetCommandInvocation command_id instance_id) (inl inv) /\
              inv_status inv = Some "Success".

Lemma ssm_run_loop_sound n cid i p :
  awp (ssm_run_loop n cid i p) (fun o t =>
    (exists e, o = Exn e) \/
    exists ok out, o = Ok (ok, out) /\ (ok = true -> exists e, list.last t = Some e /\ succeeded cid i e)).
Proof.
  induction n as [|n IH]; cbn [ssm_run_loop]; [by right; exists false, "timeout"|].
  assert (Hsl : forall (Q : outcome (bool * string) -> list ev -> Prop),
    (forall e t, Q (Exn e) t) ->
    awp (ssm_run_loop n cid i p) (fun o t => forall l, Q o (l ++ t)) ->
    awp (_ ← do_ (Sleep p); ssm_run_loop n cid i p) Q).
  { intros Q He H. do_bind; do_call. intros [[]|e]; [|apply He].
    eapply awp_mono; [apply H|]. intros o t Ht. apply (Ht [_]). }
  assert (Hrec : forall l0, awp (_ ← do_ (Sleep p); ssm_run_loop n cid i p) (fun o t =>
    (exists e, o = Exn e) \/ exists ok out, o = Ok (ok, out) /\
      (ok = true -> exists e, list.last (l0 ++ t) = Some e /\ succeeded cid i e))).
  { intros l0. apply Hsl; [eauto|]. eapply awp_mono; [apply IH|].
    intros o t [He|(ok & out & Ho & Hok)] l; [by left|]. right. exists ok, out. split; [done|].
    intros H. destruct (Hok H) as (e & He & Hs). exists e.
    by rewrite app_assoc, last_app, He. }
  do_bind; do_attempt; do_call. intros [inv|e].
  - destruct (inv_status inv) as [s|] eqn:Es; cbn [mbind prog_bind pbind]; [|by left; eexists].
    change (mret s ≫= ?f) with (f s). cbn beta.
    destruct (bool_decide_reflect (s = "Success")) as [->|].
    { right. exists true, (default "" (inv_stdout inv)). split; [done|]. intros _.
      eexists; split; [done|]. by exists inv. }
    destruct (failed_status s); [by right; eexists false, _|]. apply Hrec.
  - destruct (is_code e InvocationDoesNotExist); [apply Hrec|by left; exists e].
Qed.

(** The clock: [time.time()] never goes back, and a sleep of [s] seconds takes
    at least that long. *)
Definition clock_step (c : op aws) (now : Z) : (reply aws c + exn) -> Z -> Prop :=
  match c return (aws_reply c + exn) -> Z -> Prop with
  | TimeTime => fun r now' => now <= now' /\ r = inl now'
  | Sleep s => fun r now' => Z.max now (now + s * 1000000) <= now' /\ r = inl tt
  | _ => fun r now' => now <= now'
  end.

(** A sleep of [p] seconds before the deadline costs a round. *)
Lemma rounds_left deadline now now' p :
  0 < p -> now < deadline -> now + p * 1000000 <= now' ->
  (deadline - now') / (p * 1000000) <= (deadline - now) / (p * 1000000) - 1 /\
  0 <= (deadline - now) / (p * 1000000).
Proof.
  intros Hp Hd Hs. split; [|apply Z.div_pos; lia].
  replace ((deadline - now) / (p * 1000000) - 1)
    with ((deadline - now + -1 * (p * 1000000)) / (p * 1000000)) by (rewrite Z.div_add; lia).
  apply Z.div_le_mono; lia.
Qed.

(** The clock does not go back while a program runs. *)
Lemma clock_mono {A} (p : M A) : forall now, wp (S := aws) clock_step p now (fun _ now' _ => now <= now').
Proof.
  induction p as [o|c k IH]; intros now; cbn [wp]; [lia|]. intros r now' Hs.
  assert (now <= now') by (destruct c; cbn in Hs; lia). eapply wp_mono; [apply IH|]. cbn. lia.
Qed.

Lemma ssm_wait_loop_terminates fuel cid i deadline timeout p ls now :
  0 < p ->
  (deadline - now) / (p * 1000000) + 2 <= Z.of_nat fuel -> 0 < Z.of_nat fuel ->
  wp (S := aws) clock_step (ssm_wait_loop fuel cid i deadline timeout p ls) now
    (fun o _ _ => exists ok err, o = Ok (ok, err)).
Proof.
  intros Hp. revert now ls; induction fuel as [|fuel IH]; intros now ls Hf Hf0; [lia|].
  cbn [ssm_wait_loop]. do_bind; do_call. intros r now1 [Hle ->].
  destruct (Z.ltb_spec now1 deadline) as [Hd|]; [|by cbn; eauto].
  do_bind; do_call. intros r now2 [Hle2 ->]. do_bind; do_attempt; do_call.
  intros r now3 Hle3.
  assert (Hrec : forall ls', wp (S := aws) clock_step
    (ssm_wait_loop fuel cid i deadline timeout p ls') now3 (fun o _ _ => exists ok err, o = Ok (ok, err))).
  { intros ls'. cbn in Hle3. destruct (rounds_left deadline now now3 p) as [? ?]; [lia..|]. apply IH; lia. }
  destruct r as [inv|e].
  - cbn zeta. destruct (bool_decide _); [by cbn; eauto|].
    destruct (failed_status _); [by cbn; eauto|]. apply Hrec.
  - destruct (is_code e _); [apply Hrec|by cbn; eauto].
Qed.

(** ** Properties *)

(** A blocking run is total and sound in every environment: it always
    answers, never raising, whatever SSM does, and it answers [true] only when
    the last thing it saw is SSM reporting the status Success. *)
Theorem ssm_run_sound (instance_id command : string) (timeout initial_sleep poll_sec : Z) :
  awp (ssm_run instance_id command timeout initial_sleep poll_sec) (fun o t =>
    exists ok out, o = Ok (ok, out) /\
      (ok = true -> exists cid e, list.last t = Some e /\ succeeded cid instance_id e)).
Proof.
  unfold ssm_run, send_command. do_catch; do_bind; do_call. intros [cid|e]; [|by exists false, (exn_str e)].
  do_bind; do_call. intros [[]|e]; [|by exists false, (exn_str e)].
  eapply awp_mono; [apply ssm_run_loop_sound|].
  intros o t [[e ->]|(ok & out & -> & Hok)]; [by exists false, (exn_str e)|].
  exists ok, out. split; [done|]. intros H. destruct (Hok H) as (e & He & Hs).
  exists cid, e. split; [|done]. by rewrite !last_app, He.
Qed.

(** Waiting for a command terminates: with a clock that follows its
    sleeps, [timeout/poll + 2] rounds are enough for an answer, whatever SSM
    replies. *)
Theorem ssm_wait_terminates {W} (E : env aws W) (clock : W -> Z) (w : W)
    (fuel : nat) (command_id instance_id : string) (timeout_sec poll_sec : Z) :
  obeys (S := aws) clock_step clock E ->
  0 < poll_sec -> 0 <= timeout_sec ->
  timeout_sec / poll_sec + 2 <= Z.of_nat fuel ->
  exists ok err, (run E (ssm_wait fuel command_id instance_id timeout_sec poll_sec) w).1.1 = Ok (ok, err).
Proof.
  intros HE Hp Ht Hf.
  assert (wp (S := aws) clock_step (ssm_wait fuel command_id instance_id timeout_sec poll_sec) (clock w)
    (fun o _ _ => exists ok err, o = Ok (ok, err))) as Hwp.
  { do_bind; do_call. intros r now [Hle ->].
    assert (0 <= timeout_sec / poll_sec) by (apply Z.div_pos; lia).
    apply ssm_wait_loop_terminates; [done| |lia].
    replace (now + timeout_sec * 1000000 - now) with (timeout_sec * 1000000) by lia.
    rewrite Z.div_mul_cancel_r by lia. lia. }
  pose proof (run_wp _ clock E _ w (fun o _ _ => exists ok err, o = Ok (ok, err)) HE Hwp) as R.
  by destruct (run E _ w) as [[o w'] t].
Qed.

(** ** Witnesses *)

(** A service whose command never finishes and whose clock advances by exactly
    the time slept. *)
Definition stuck_env : env aws Z := fun c now =>
  match c as c return (aws_reply c + exn) * Z with
  | TimeTime => (inl now, now)
  | Sleep s => (inl tt, Z.max now (now + s * 1000000))
  | GetCommandInvocation _ _ => (inl (Invocation (Some "InProgress") None None), now)
  | _ => (inr (PyExn "EndpointConnectionError" "no endpoint"), now)
  end.

Lemma ssm_wait_terminates_witness :
  exists ok err, (run stuck_env (ssm_wait 32 "cmd-1" "i-1" 90 3) 0).1.1 = Ok (ok, err).
Proof.
  apply (ssm_wait_terminates stuck_env (fun now => now) 0 32 "cmd-1" "i-1" 90 3);
    [intros c w; destruct c; cbn; repeat split; lia|lia..|vm_decide].
Defined.
