(* ===== verification/AuditLog.v ===== *)
(** * Audit rows: [deploy/lambda/common/audit.py]

    The one writer of the audit schema, shared by the API, the health check and
    the scaler. *)

From S2P Require Import Prelude Py Effects Aws Iso Config.

(** The keyword arguments of [put_audit_row]. *)
Record audit_args := AuditArgs {
  aa_event : string;
  aa_obj : string;
  aa_resource_id : val;
  aa_actor : val;
  aa_actor_role : string;
  aa_operation : option string;
  aa_response_status : val;
  aa_detail : option val;
  aa_ttl_days : Z;
  aa_api_key_id : option val;
  aa_ts : option string
}.

Section Audit.
Context `{Config}.

Definition audit_item (a : audit_args) (now : Z) (uuid ts : string) : item :=
  let base : item := list_to_map [
    ("pk", VStr "audit");
    ("id", VStr uuid);
    ("ts", VStr ts);
    ("operation", VStr (default (aa_event a) (aa_operation a)));
    ("resource_id", v_or (aa_resource_id a) (VStr ""));
    ("api_key_id", default (aa_actor a) (aa_api_key_id a));
    ("response_status", aa_response_status a);
    ("expires_ttl", VInt (now / 1000000 + aa_ttl_days a * 86400));
    ("event", VStr (aa_event a));
    ("object", VStr (aa_obj a));
    ("actor", aa_actor a);
    ("actor_role", VStr (aa_actor_role a))] in
  match aa_detail a with
  | None => base
  | Some d =>
      let text := match d with VStr s => s | _ => json_dumps repr_float d end in
      <["detail" := VStr (str_take 1000 text)]> base
  end.

Definition put_audit_row (a : audit_args) : M unit :=
  if has_audit then
    try_ (now ← do_ TimeTime;
          uuid ← do_ Uuid4;
          ts ← match aa_ts a with
               | Some t => if bool_decide (t = "") then (us ← do_ NowUtc; mret (isoformat us)) else mret t
               | None => us ← do_ NowUtc; mret (isoformat us)
               end;
          do_ (PutItem Audit (audit_item a now uuid ts) None))
    except _ => mret tt
  else mret tt.

(** What writing an audit row may do: read the clock, draw an identifier, and
    put one row in the audit table. *)
Definition audit_event (e : ev) : Prop :=
  match ev_call e with
  | TimeTime | Uuid4 | NowUtc => True
  | PutItem Audit _ None => True
  | _ => False
  end.

Lemma put_audit_row_events a : awp (put_audit_row a) (fun _ t => Forall audit_event t).
Proof.
  unfold put_audit_row. destruct has_audit; [|by constructor].
  all_calls; done.
Qed.

Lemma put_audit_row_ok a : awp (put_audit_row a) (fun o _ => o = Ok tt).
Proof.
  unfold put_audit_row. destruct has_audit; [|done].
  eapply awp_mono; [apply (catch_returns _ (fun _ => tt)); all_total|]. by intros o t [[] ->].
Qed.

(** The row of the audit schema, field by field. *)
Definition audit_row (a : audit_args) (now : Z) (uuid ts : string) (row : item) : Prop :=
  row !! "pk" = Some (VStr "audit") /\
  row !! "id" = Some (VStr uuid) /\
  row !! "ts" = Some (VStr ts) /\
  row !! "event" = Some (VStr (aa_event a)) /\
  row !! "operation" = Some (VStr match aa_operation a with Some op => op | None => aa_event a end) /\
  row !! "object" = Some (VStr (aa_obj a)) /\
  row !! "resource_id" = Some (if truthy (aa_resource_id a) then aa_resource_id a else VStr "") /\
  row !! "actor" = Some (aa_actor a) /\
  row !! "actor_role" = Some (VStr (aa_actor_role a)) /\
  row !! "api_key_id" = Some match aa_api_key_id a with Some k => k | None => aa_actor a end /\
  row !! "response_status" = Some (aa_response_status a) /\
  row !! "expires_ttl" = Some (VInt (now / 1000000 + aa_ttl_days a * 86400)) /\
  row !! "detail" = match aa_detail a with
                    | None => None
                    | Some (VStr s) => Some (VStr (str_take 1000 s))
                    | Some d => Some (VStr (str_take 1000 (json_dumps repr_float d)))
                    end /\
  dom row = list_to_set (["pk"; "id"; "ts"; "event"; "operation"; "object"; "resource_id"; "actor"; "actor_role";
                          "api_key_id"; "response_status"; "expires_ttl"] ++
                         match aa_detail a with Some _ => ["detail"] | None => [] end).

(** The time stamp of the row: the caller's, or the clock's, read by [calls]. *)
Definition stamped (a : audit_args) (ts : string) (calls : list ev) : Prop :=
  match aa_ts a with
  | Some (String _ _ as t) => ts = t /\ calls = []
  | _ => exists us, ts = isoformat us /\ calls = [Ev (S := aws) NowUtc (inl us)]
  end.

(** The calls of one audit row: the clock, an identifier, the clock again when
    the caller gives no time stamp, and the one write; an error ends them. *)
Inductive audit_calls (a : audit_args) : list ev -> Prop :=
| NoClock e : audit_calls a [Ev (S := aws) TimeTime (inr e)]
| NoUuid now e : audit_calls a [Ev (S := aws) TimeTime (inl now); Ev (S := aws) Uuid4 (inr e)]
| NoStamp now uuid e :
    aa_ts a = None \/ aa_ts a = Some "" ->
    audit_calls a [Ev (S := aws) TimeTime (inl now); Ev (S := aws) Uuid4 (inl uuid); Ev (S := aws) NowUtc (inr e)]
| OneRow now uuid ts stamp row r :
    stamped a ts stamp -> audit_row a now uuid ts row ->
    audit_calls a ([Ev (S := aws) TimeTime (inl now); Ev (S := aws) Uuid4 (inl uuid)] ++ stamp ++
                   [Ev (S := aws) (PutItem Audit row None) r]).

Lemma audit_item_row a now uuid ts : audit_row a now uuid ts (audit_item a now uuid ts).
Proof.
  unfold audit_row, audit_item, v_or. destruct (aa_detail a) as [d|]; [|repeat split; reflexivity].
  destruct d; repeat split; reflexivity.
Qed.

(** C38: Writing an audit row never disturbs its caller and writes what the
    schema says, in every environment: it returns normally, without a table it
    makes no call, and with one it makes at most one write, of one row of the
    audit table, which it reaches unless the clock or the identifier fails. Each
    field of the row is as the schema has it: the drawn identifier, the caller's
    time stamp or the clock's, the operation or else the event, the key or else
    the actor, the expiry the given number of days after now, and the detail,
    when there is one, cut to a thousand characters; and it has no other field. *)
Theorem put_audit_row_safe (a : audit_args) :
  awp (put_audit_row a) (fun o t => o = Ok tt /\ if has_audit then audit_calls a t else t = []).
Proof.
  unfold put_audit_row. destruct has_audit; [|by do_ret].
  do_catch. do_bind. do_call. intros [now|e]; cbn beta match; [|do_ret; split; [done|constructor]].
  do_bind. do_call. intros [uuid|e]; cbn beta match; [|do_ret; split; [done|constructor]].
  assert (Hrow : forall ts stamp r, stamped a ts stamp ->
    audit_calls a ([Ev (S := aws) TimeTime (inl now); Ev (S := aws) Uuid4 (inl uuid)] ++ stamp ++
                   [Ev (S := aws) (PutItem Audit (audit_item a now uuid ts) None) r])).
  { intros ts stamp r Hs. by apply (OneRow a now uuid ts); [|apply audit_item_row]. }
  unfold stamped in Hrow. destruct (aa_ts a) as [[|c s]|] eqn:Ets; do_bind.
  2: { rewrite bool_decide_eq_false_2 by done. do_ret. do_call. intros [[]|e]; cbn beta match; [|do_ret]; (split; [done|]); by apply (Hrow _ []). }
  1: rewrite bool_decide_eq_true_2 by done.
  all: do_bind; do_call; intros [us|e]; cbn beta match; [do_ret|do_ret; split; [done|]; apply NoStamp; auto].
  all: do_call; intros [[]|e]; cbn beta match; [|do_ret]; (split; [done|]);
    apply (Hrow _ [Ev (S := aws) NowUtc (inl us)]); by exists us.
Qed.
End Audit.
