(* ===== verification/Rbac.v ===== *)
(** * Requests, roles and the audit trail of the API

    [deploy/lambda/api/handler.py]: the verification of Cognito tokens, the
    role checks, the principal recorded in the audit log, and the part of
    [lambda_handler] around a handler ([dispatch]): role check, handler, audit
    row, error response. *)

From S2P Require Import Prelude Py Effects Aws Iso Config Validate AuditLog.

(** ** Requests *)

(** The body of a request: absent, the empty string, text that [json.loads]
    rejects with a message, or the value it returns. *)
Inductive req_body := NoBody | EmptyBody | Malformed (msg : string) | Json (v : val).

(** An API Gateway proxy event.  Null maps are empty ones: the code reads them
    as [event.get(...) or {}]. *)
Record request := Request {
  httpMethod : string;
  resource : string;
  pathParameters : list (string * string);
  queryParams : query;
  headers : list (string * string);
  rq_body : req_body;
  apiKeyId : option string
}.

Definition json_decode_error {A} (m : string) : outcome A := Exn (PyExn "JSONDecodeError" m).

(** [json.loads(body)] *)
Definition load_body (b : req_body) : outcome val :=
  match b with
  | Json v => Ok v
  | Malformed m => json_decode_error m
  | EmptyBody => json_decode_error "Expecting value: line 1 column 1 (char 0)"
  | NoBody => type_error "the JSON object must be str, bytes or bytearray, not NoneType"
  end.

(** [json.loads(body_str or "{}")] *)
Definition load_body_or_empty (b : req_body) : outcome val :=
  match b with NoBody | EmptyBody => Ok (VDict []) | b => load_body b end.

(** The parameter [path_params\[k\]]. *)
Definition path_param (rq : request) (k : string) : outcome string :=
  match alist_get k (pathParameters rq) with Some v => Ok v | None => key_error k end.

(** [for x in v] over a value. *)
Definition py_iter (v : val) : outcome (list val) :=
  match v with
  | VList l => Ok l
  | VDict d => Ok (map (fun kv => VStr kv.1) d)
  | VStr s => Ok (map (fun c => VStr (String c "")) (String.list_ascii_of_string s))
  | _ => type_error "object is not iterable"
  end.

Section Rbac.
Context `{Config}.

(** ** Token verification *)

Definition pool_url : string :=
  "https://cognito-idp." +:+ COGNITO_REGION +:+ ".amazonaws.com/" +:+ COGNITO_USER_POOL_ID.

(** The JWKS address of the client, or [None].  The cache of the client only
    saves its construction. *)
Definition _get_jwks_client : option string :=
  if bool_decide (COGNITO_USER_POOL_ID = "") || bool_decide (COGNITO_REGION = "") then None
  else if jwt_available then Some (pool_url +:+ "/.well-known/jwks.json")
  else None.

Definition _verify_and_decode (token : string) : M (option val) :=
  match _get_jwks_client with
  | None => mret None
  | Some jwks_url =>
      if bool_decide (token = "") then mret None
      else
        try_ (signing_key ← do_ (JwksSigningKey jwks_url token);
              claims ← do_ (JwtDecode token signing_key pool_url);
              if bool_decide (COGNITO_CLIENT_ID = "") then mret (Some claims)
              else
                aud0 ← lift (vget claims "aud");
                cid ← lift (vget claims "client_id");
                let aud := v_or aud0 cid in
                if truthy aud && negb (is_str aud COGNITO_CLIENT_ID) then mret None
                else mret (Some claims))
        except _ => mret None
  end.

(** ** Roles *)

Definition role_rank (r : string) : option Z :=
  if bool_decide (r = "viewer") then Some 0
  else if bool_decide (r = "operator") then Some 1
  else if bool_decide (r = "admin") then Some 2
  else None.

(** One turn of the loop over the groups: [best] is replaced by a group of
    higher rank. *)
Definition better_role (best : option string) (g : val) : outcome (option string) :=
  match g with
  | VStr g =>
      match role_rank g with
      | Some r =>
          match best with
          | None => Ok (Some g)
          | Some b => if default (-1) (role_rank b) <? r then Ok (Some g) else Ok best
          end
      | None => Ok best
      end
  | VList _ | VDict _ => type_error "unhashable type"
  | _ => Ok best
  end.

Fixpoint best_role (groups : list val) (best : option string) : outcome (option string) :=
  match groups with
  | [] => Ok best
  | g :: gs => best' ← better_role best g; best_role gs best'
  end.

Definition _role_from_claims (claims : val) : outcome string :=
  g0 ← vget_or (v_or claims (VDict [])) "cognito:groups" (VList []);
  let g1 := v_or g0 (VList []) in
  groups ← match g1 with VStr _ => Ok [g1] | _ => py_iter g1 end;
  best ← best_role groups None;
  Ok (default "viewer" best).

Definition auth_header (rq : request) : string :=
  let h k := default "" (alist_get k (headers rq)) in
  if bool_decide (h "Authorization" = "") then h "authorization" else h "Authorization".

(** The bearer token of a request, or [None] when there is none. *)
Definition bearer_token (rq : request) : option string :=
  let auth := auth_header rq in
  if starts_with "Bearer " auth then Some (strip (str_drop 7 auth)) else None.

Definition _get_user_role (rq : request) : M string :=
  match bearer_token rq with
  | None => mret DEFAULT_NO_JWT_ROLE
  | Some token =>
      claims ← _verify_and_decode token;
      match claims with
      | None => mret "viewer"
      | Some claims => lift (_role_from_claims claims)
      end
  end.

Definition _role_satisfies (actual required : string) : bool :=
  default 99 (role_rank required) <=? default (-1) (role_rank actual).

(** ** Principals *)

(** The API key of a request: its id in the request context, or else the start
    of the [x-api-key] header. *)
Definition api_key_id (rq : request) : string :=
  let header := str_take 32 (default "" (alist_get "x-api-key" (headers rq))) in
  match apiKeyId rq with
  | Some k => if bool_decide (k = "") then header else k
  | None => header
  end.

Definition api_key_principal (rq : request) : val :=
  let k := api_key_id rq in
  VStr (if bool_decide (k = "") then "api-key" else "api-key:" +:+ k).

Definition _get_principal (rq : request) : M (val * string) :=
  let fallback := (api_key_principal rq, DEFAULT_NO_JWT_ROLE) in
  match bearer_token rq with
  | None => mret fallback
  | Some token =>
      claims ← _verify_and_decode token;
      match claims with
      | None => mret fallback
      | Some claims =>
          email ← lift (vget claims "email");
          user ← lift (vget claims "cognito:username");
          sub ← lift (vget claims "sub");
          role ← lift (_role_from_claims claims);
          mret (v_or (v_or (v_or email user) sub) (VStr "cognito-user"), role)
      end
  end.

(** ** Audit rows of API requests *)

Definition _AUDIT_EVENT_MAP : list ((string * string) * string) := [
  (("POST", "/tenants"), "tenant.created");
  (("DELETE", "/tenants/{id}"), "tenant.deleted");
  (("POST", "/batch/tenants"), "tenant.batch");
  (("POST", "/hosts"), "host.registered");
  (("DELETE", "/hosts/{instance_id}"), "host.deregistered");
  (("POST", "/hosts/refresh-rootfs"), "host.rootfs_refreshed");
  (("POST", "/groups"), "group.created");
  (("POST", "/groups/{name}/skills"), "group.skill_added");
  (("DELETE", "/groups/{name}/skills/{skill}"), "group.skill_removed");
  (("PUT", "/skills/{name}"), "skill.updated");
  (("DELETE", "/skills/{name}"), "skill.deleted");
  (("PUT", "/templates/{name}"), "template.updated");
  (("DELETE", "/templates/{name}"), "template.deleted");
  (("POST", "/hosts/{instance_id}/drain"), "host.drain_started");
  (("POST", "/failover/{az}"), "az.failover_requested")].

Definition _AUDIT_ACTION_MAP : list (string * string) := [
  ("migrate", "vm.migrate_requested");
  ("cancel-migration", "vm.migrate_cancelled");
  ("backup", "backup.created");
  ("resize", "tenant.resized");
  ("resize-disk", "tenant.disk_resized");
  ("stop", "tenant.stopped");
  ("start", "tenant.started");
  ("restart", "tenant.restarted");
  ("pause", "tenant.paused");
  ("resume", "tenant.resumed");
  ("reset", "tenant.reset");
  ("clone", "tenant.cloned")].

Fixpoint route_get {A} (method resource : string) (l : list ((string * string) * A)) : option A :=
  match l with
  | [] => None
  | ((m, r), a) :: l' =>
      if bool_decide (m = method) && bool_decide (r = resource) then Some a
      else route_get method resource l'
  end.

Definition _audit_event_name (rq : request) : string :=
  let dflt := httpMethod rq +:+ " " +:+ resource rq in
  if bool_decide (resource rq = "/tenants/{id}/{action}") then
    let action := default "" (alist_get "action" (pathParameters rq)) in
    match alist_get action _AUDIT_ACTION_MAP with
    | Some n => n
    | None => if bool_decide (action = "") then dflt else "tenant." +:+ action
    end
  else default dflt (route_get (httpMethod rq) (resource rq) _AUDIT_EVENT_MAP).

Definition _audit_object (rq : request) : string * string :=
  let pp k := default "" (alist_get k (pathParameters rq)) in
  let typed kind rid := (if bool_decide (rid = "") then kind else kind +:+ ":" +:+ rid, rid) in
  if starts_with "/tenants" (resource rq) then typed "tenant" (pp "id")
  else if starts_with "/hosts" (resource rq) then typed "host" (pp "instance_id")
  else if starts_with "/groups" (resource rq) then typed "group" (pp "name")
  else if starts_with "/skills" (resource rq) then typed "skill" (pp "name")
  else if starts_with "/templates" (resource rq) then typed "template" (pp "name")
  else if starts_with "/batch" (resource rq) then ("batch", "")
  else (resource rq, if bool_decide (pp "id" = "") then pp "instance_id" else pp "id").

Definition _audit_system (event_name obj resource_id : string) (actor : string)
    (detail : option val) (status : Z) : M unit :=
  ts ← _now;
  put_audit_row (AuditArgs event_name obj (VStr resource_id) (VStr actor) "system"
                   (Some event_name) (VInt status) detail AUDIT_TTL_DAYS (Some (VStr actor)) (Some ts)).

Definition _audit_write (rq : request) (result : resp) : M unit :=
  if has_audit then
    let '(obj, resource_id) := _audit_object rq in
    '(actor, actor_role) ← _get_principal rq;
    ts ← _now;
    put_audit_row (AuditArgs (_audit_event_name rq) obj (VStr resource_id) actor actor_role
                     (Some (httpMethod rq +:+ " " +:+ resource rq)) (VInt (statusCode result))
                     None AUDIT_TTL_DAYS (Some (VStr (api_key_id rq))) (Some ts))
  else mret tt.

(** ** Role checks *)

Definition _VIEWER_OK : list (string * string) := [
  ("GET", "/tenants"); ("GET", "/tenants/{id}"); ("GET", "/tenants/{id}/{action}");
  ("GET", "/backups"); ("GET", "/hosts"); ("GET", "/hosts/rootfs-version");
  ("GET", "/agentcore/status"); ("GET", "/agentcore/tools"); ("GET", "/system/info");
  ("GET", "/audit-log"); ("GET", "/admin/routing/status"); ("GET", "/groups");
  ("GET", "/skills/{name}")].

Definition _ADMIN_ONLY : list (string * string) := [
  ("POST", "/failover/{az}"); ("POST", "/admin/routing/rebuild");
  ("POST", "/admin/routing/purge-per-tenant")].

Definition needed_role (method resource : string) : string :=
  if bool_decide ((method, resource) ∈ _ADMIN_ONLY) then "admin"
  else if bool_decide ((method, resource) ∈ _VIEWER_OK) then "viewer"
  else "operator".

Definition _rbac_check (rq : request) : M (option resp) :=
  if negb RBAC_ENABLED then mret None
  else
    role ← _get_user_role rq;
    let needed := needed_role (httpMethod rq) (resource rq) in
    if negb (_role_satisfies role needed) then
      mret (Some (_resp 403 (VDict [("error", VStr "forbidden");
                    ("rbac", VDict [("role", VStr role); ("required", VStr needed)])])))
    else mret None.

Definition is_mutating (method : string) : bool :=
  bool_decide (method ∈ ["POST"; "PUT"; "DELETE"]).

(** [lambda_handler] once the route is looked up: [handler] is the handler of
    the route, if there is one. *)
Definition dispatch (rq : request) (handler : option (M resp)) : M resp :=
  match handler with
  | None => mret (error_resp 404 "not found")
  | Some handler =>
      forbidden ← _rbac_check rq;
      match forbidden with
      | Some forbidden =>
          _ ← (if is_mutating (httpMethod rq) then _audit_write rq forbidden else mret tt);
          mret forbidden
      | None =>
          try_ (result ← handler;
                _ ← (if is_mutating (httpMethod rq) then _audit_write rq result else mret tt);
                mret result)
          except e => mret (error_resp 500 (exn_str e))
      end
  end.

(** ** Lemmas *)

(** The calls a denied request may make: token verification and its audit row. *)
Definition gate_event (e : ev) : Prop :=
  match ev_call e with
  | JwksSigningKey _ _ | JwtDecode _ _ _ => True
  | _ => audit_event e
  end.

(** Who may use a route: administrators every one, operators all but the three
    that move a zone or rewrite the routing, viewers the thirteen that only
    read; any other role none. *)
Definition may_use (role method resource : string) : bool :=
  if bool_decide (role = "admin") then true
  else if bool_decide (role = "operator") then
    negb (bool_decide (method = "POST") && bool_decide (resource ∈
      ["/failover/{az}"; "/admin/routing/rebuild"; "/admin/routing/purge-per-tenant"]))
  else if bool_decide (role = "viewer") then
    bool_decide (method = "GET") && bool_decide (resource ∈
      ["/tenants"; "/tenants/{id}"; "/tenants/{id}/{action}"; "/backups"; "/hosts"; "/hosts/rootfs-version";
       "/agentcore/status"; "/agentcore/tools"; "/system/info"; "/audit-log"; "/admin/routing/status"; "/groups";
       "/skills/{name}"])
  else false.

(** The claims put their bearer in a group of Cognito: a list of names, or one
    name. *)
Definition in_group (g : string) (claims : val) : Prop :=
  exists d v, claims = VDict d /\ alist_get "cognito:groups" d = Some v /\
    (v = VStr g \/ (exists l, v = VList l /\ VStr g ∈ l) \/ (exists m, v = VDict m /\ g ∈ map fst m)).

(** The claims were issued for this deployment's client: their audience, or
    without one their client, if they name any. *)
Definition for_this_client (claims : val) : Prop :=
  COGNITO_CLIENT_ID = "" \/
  exists d, claims = VDict d /\
    let aud := v_or (default VNone (alist_get "aud" d)) (default VNone (alist_get "client_id" d)) in
    truthy aud = true -> aud = VStr COGNITO_CLIENT_ID.

(** The request's own bearer token was verified in the trace, against a key of
    the pool, and its claims carry a group that may use the route. *)
Definition verified_group (rq : request) (t : list ev) : Prop :=
  exists token key claims g,
    bearer_token rq = Some token /\
    Ev (S := aws) (JwksSigningKey (pool_url +:+ "/.well-known/jwks.json") token) (inl key) ∈ t /\
    Ev (S := aws) (JwtDecode token key pool_url) (inl claims) ∈ t /\
    for_this_client claims /\ in_group g claims /\ may_use g (httpMethod rq) (resource rq) = true.

(** Why a request with the given trace was let in. *)
Definition authorized (rq : request) (t : list ev) : Prop :=
  (bearer_token rq = None /\ may_use DEFAULT_NO_JWT_ROLE (httpMethod rq) (resource rq) = true) \/
  (is_Some (bearer_token rq) /\ may_use "viewer" (httpMethod rq) (resource rq) = true) \/
  verified_group rq t.

Lemma role_rank_cases r :
  (r = "admin" /\ role_rank r = Some 2) \/ (r = "operator" /\ role_rank r = Some 1) \/
  (r = "viewer" /\ role_rank r = Some 0) \/ (r <> "admin" /\ r <> "operator" /\ r <> "viewer" /\ role_rank r = None).
Proof.
  unfold role_rank. destruct (bool_decide_reflect (r = "viewer")) as [->|]; [by right; right; left|].
  destruct (bool_decide_reflect (r = "operator")) as [->|]; [by right; left|].
  destruct (bool_decide_reflect (r = "admin")) as [->|]; [by left|]. by right; right; right.
Qed.

(** The role check is the table. *)
Lemma role_satisfies_may role method res :
  _role_satisfies role (needed_role method res) = may_use role method res.
Proof.
  unfold _role_satisfies, needed_role, may_use.
  destruct (bool_decide_reflect ((method, res) ∈ _ADMIN_ONLY)) as [Ha|Ha].
  - assert (method = "POST" /\ res ∈ ["/failover/{az}"; "/admin/routing/rebuild"; "/admin/routing/purge-per-tenant"]) as [-> Hr].
    { unfold _ADMIN_ONLY in Ha. set_solver. }
    rewrite (bool_decide_eq_true_2 (res ∈ _)) by exact Hr.
    destruct (role_rank_cases role) as [[-> _]|[[-> _]|[[-> _]|(H1 & H2 & H3 & ->)]]]; [done..|].
    by rewrite !bool_decide_eq_false_2 by done.
  - assert (bool_decide (method = "POST") && bool_decide (res ∈ ["/failover/{az}"; "/admin/routing/rebuild";
      "/admin/routing/purge-per-tenant"]) = false) as ->.
    { apply andb_false_iff. destruct (decide (method = "POST")) as [->|?]; [right|left; by apply bool_decide_eq_false].
      apply bool_decide_eq_false. intros Hr. apply Ha. unfold _ADMIN_ONLY. set_solver. }
    assert (bool_decide ((method, res) ∈ _VIEWER_OK) = bool_decide (method = "GET") && bool_decide (res ∈
      ["/tenants"; "/tenants/{id}"; "/tenants/{id}/{action}"; "/backups"; "/hosts"; "/hosts/rootfs-version";
       "/agentcore/status"; "/agentcore/tools"; "/system/info"; "/audit-log"; "/admin/routing/status"; "/groups";
       "/skills/{name}"])) as ->.
    { rewrite <- bool_decide_and. apply bool_decide_ext. unfold _VIEWER_OK. set_solver. }
    destruct (_ && _);
      destruct (role_rank_cases role) as [[-> _]|[[-> _]|[[-> _]|(H1 & H2 & H3 & ->)]]]; try done;
      by rewrite !bool_decide_eq_false_2 by done.
Qed.

(** A role read from claims is one of their groups, or viewer. *)
Lemma best_role_in groups best b :
  best_role groups best = Ok (Some b) -> best = Some b \/ VStr b ∈ groups.
Proof.
  revert best; induction groups as [|g gs IH]; intros best; cbn [best_role]; [by intros [= ->]; left|].
  intros (best' & Hb & Hr)%outcome_bind_Ok. destruct (IH _ Hr) as [->|Hin]; [|right; by right].
  unfold better_role in Hb. destruct g as [| | | |g| |]; try done; try (injection Hb as ->; by left).
  destruct (role_rank g); [|injection Hb as ->; by left].
  destruct best as [b0|]; [destruct (_ <? _)|]; injection Hb as ->; try (by left); right; left.
Qed.

Lemma role_from_claims_group claims role :
  _role_from_claims claims = Ok role -> role = "viewer" \/ in_group role claims.
Proof.
  unfold _role_from_claims. intros (g0 & Hg & Hr)%outcome_bind_Ok.
  apply outcome_bind_Ok in Hr as (groups & Hgs & Hr). apply outcome_bind_Ok in Hr as (best & Hb & Hr).
  injection Hr as <-. destruct best as [b|]; [|by left]. right. cbn.
  destruct (best_role_in _ _ _ Hb) as [?|Hin]; [done|]. clear Hb.
  assert (Hf : forall v, v_or v (VList []) = v \/ v_or v (VList []) = VList []) by (intros v; unfold v_or; destruct (truthy v); auto).
  destruct (Hf g0) as [E|E]; rewrite E in Hgs; [|injection Hgs as <-; by apply elem_of_nil in Hin].
  assert (exists d, claims = VDict d /\ (alist_get "cognito:groups" d = Some g0 \/ g0 = VList [])) as (d & -> & Hd).
  { unfold v_or in Hg. destruct (truthy claims) eqn:Et; [|].
    - destruct claims; try done. cbn in Hg. injection Hg as <-. exists d. split; [done|].
      destruct (alist_get "cognito:groups" d); [by left|by right].
    - cbn in Hg. injection Hg as <-. destruct groups; [by apply elem_of_nil in Hin|done]. }
  destruct Hd as [Hd| ->]; [|injection Hgs as <-; by apply elem_of_nil in Hin].
  exists d, g0. split; [done|]. split; [done|].
  destruct g0 as [| | | |x|l|m]; cbn in Hgs; try done; injection Hgs as <-.
  - apply list_elem_of_singleton in Hin as [= ->]. by left.
  - right. left. by exists l.
  - right. right. exists m. split; [done|]. apply list_elem_of_fmap in Hin as (kv & [= ->] & Hk). by apply list_elem_of_fmap_2.
Qed.

Lemma verify_events token : awp (_verify_and_decode token) (fun _ t => Forall gate_event t).
Proof. unfold _verify_and_decode. all_calls; done. Qed.

Lemma verify_claims token :
  awp (_verify_and_decode token) (fun o t =>
    forall claims, o = Ok (Some claims) ->
      for_this_client claims /\
      exists key, Ev (S := aws) (JwksSigningKey (pool_url +:+ "/.well-known/jwks.json") token) (inl key) ∈ t /\
        Ev (S := aws) (JwtDecode token key pool_url) (inl claims) ∈ t).
Proof.
  unfold _verify_and_decode, _get_jwks_client, for_this_client. destruct (_ || _); [done|]. destruct jwt_available; [|done].
  destruct (bool_decide (token = "")); [done|]. do_catch. do_bind. do_call.
  intros [key|e]; [|done]. do_bind. do_call. intros [claims|e]; [|done].
  assert (exists k, Ev (S := aws) (JwksSigningKey (pool_url +:+ "/.well-known/jwks.json") token) (inl k) ∈
      [Ev (S := aws) (JwksSigningKey (pool_url +:+ "/.well-known/jwks.json") token) (inl key);
       Ev (S := aws) (JwtDecode token key pool_url) (inl claims)] /\
    Ev (S := aws) (JwtDecode token k pool_url) (inl claims) ∈
      [Ev (S := aws) (JwksSigningKey (pool_url +:+ "/.well-known/jwks.json") token) (inl key);
       Ev (S := aws) (JwtDecode token key pool_url) (inl claims)]) as Hin.
  { exists key. split; [apply list_elem_of_here|apply list_elem_of_further, list_elem_of_here]. }
  destruct (bool_decide_reflect (COGNITO_CLIENT_ID = "")) as [E|E]; [intros c [= <-]; split; [by left|exact Hin]|].
  destruct claims as [| | | | | |d]; try done. cbn [vget vget_or]. do_bind. do_ret. do_bind. do_ret. cbn zeta.
  match goal with |- context [truthy ?a && negb _] => set (aud := a) end.
  destruct (truthy aud) eqn:Et; cbn [andb].
  - destruct (is_str aud COGNITO_CLIENT_ID) eqn:Es; cbn [negb]; [|done].
    intros c [= <-]. split; [|exact Hin]. right. exists d. split; [done|]. cbn. intros _. by apply is_str_true in Es.
  - intros c [= <-]. split; [|exact Hin]. right. exists d. split; [done|]. cbn. fold aud. by rewrite Et.
Qed.

Lemma user_role_events rq : awp (_get_user_role rq) (fun _ t => Forall gate_event t).
Proof.
  unfold _get_user_role. destruct (bearer_token rq); [|by constructor].
  apply awp_all_events_bind; [apply verify_events|]. intros [c|]; [|by constructor].
  apply awp_all_events_done.
Qed.

Lemma user_role_authorized rq :
  awp (_get_user_role rq) (fun o t => forall role, o = Ok role ->
    _role_satisfies role (needed_role (httpMethod rq) (resource rq)) = true -> authorized rq t).
Proof.
  unfold _get_user_role, authorized. destruct (bearer_token rq) as [tok|] eqn:Eb.
  - do_bind. eapply awp_mono; [apply verify_claims|]. intros [[claims|]| |] t Ht; try done.
    + do_ret. intros role Hr Hs. rewrite role_satisfies_may in Hs.
      destruct (role_from_claims_group _ _ Hr) as [->|Hg]; [right; left; by split|right; right].
      destruct (Ht claims eq_refl) as (Hc & key & H1 & H2). by exists tok, key, claims, role.
    + do_ret. intros role [= <-] Hs. rewrite role_satisfies_may in Hs. right; left. by split.
  - do_ret. intros role [= <-] Hs. rewrite role_satisfies_may in Hs. left. by split.
Qed.

Lemma principal_events rq : awp (_get_principal rq) (fun _ t => Forall gate_event t).
Proof.
  unfold _get_principal. destruct (bearer_token rq); [|by constructor].
  apply awp_all_events_bind; [apply verify_events|]. intros [c|]; all_calls.
Qed.

Lemma audit_gate e : audit_event e -> gate_event e.
Proof. unfold gate_event. by destruct (ev_call e). Qed.

Lemma audit_write_events rq r : awp (_audit_write rq r) (fun _ t => Forall gate_event t).
Proof.
  unfold _audit_write. destruct has_audit; [|by constructor]. destruct (_audit_object rq) as [obj rid].
  apply awp_all_events_bind; [apply principal_events|]. intros [actor role].
  apply awp_all_events_bind; [unfold _now; all_calls; done|]. intros ts.
  eapply awp_mono; [apply put_audit_row_events|]. intros o t Ht.
  by apply (List.Forall_impl _ audit_gate).
Qed.

Lemma authorized_app rq t t' : authorized rq t -> authorized rq (t ++ t').
Proof.
  unfold authorized, verified_group. intros [?|[?|(tok & key & claims & g & ? & ? & ? & ?)]]; auto.
  right; right. exists tok, key, claims, g. set_solver.
Qed.

(** What a request that was not let in comes to: the calls of the gate only, and
    a refusal when there is an answer. *)
Definition turned_away (o : outcome resp) (t : list ev) : Prop :=
  Forall gate_event t /\ forall r, o = Ok r -> statusCode r = 403 \/ statusCode r = 404.

(** ** Properties *)

(** C10: Where role checks are on (they are off by default), there is no
    unauthorised effect, in any environment: for every request and every
    handler, either all the calls made are token verification and the audit row
    of the denial, and an answer is a 403, or a 404 for a route that has no
    handler; or the request was authorised by the table of roles and routes: it
    has no bearer token and the configured role of requests without one may use
    the route, it has a token, of whatever worth, and viewers may use the route,
    or its own token was verified against a key of the pool, for this client,
    with a group in its claims that may use the route. *)
Theorem dispatch_authorized (rq : request) (handler : option (M resp)) :
  RBAC_ENABLED = true ->
  awp (dispatch rq handler) (fun o t => turned_away o t \/ authorized rq t).
Proof.
  intros Er. destruct handler as [h|]; [|left; split; [constructor|intros r [= <-]; by right]].
  unfold dispatch, _rbac_check. do_bind. rewrite Er. cbn [negb].
  do_bind. eapply awp_mono; [apply awp_and; [apply user_role_events|apply user_role_authorized]|].
  intros [role| |] t [Hg Ha]; [|by left..].
  destruct (_role_satisfies role _) eqn:Es; cbn [negb]; do_ret.
  - eapply awp_mono; [apply awp_trivial|]. intros o t' _. right. apply authorized_app. by apply (Ha role).
  - do_bind.
    eapply awp_mono; [instantiate (1 := fun _ t => Forall gate_event t);
      destruct (is_mutating _); [apply audit_write_events|by constructor]|].
    intros [[]| |] t' Ht'; [do_ret|..]; left; (split; [by apply Forall_app|]); try done. intros r [= <-]. by left.
Qed.
End Rbac.

(** A deletion without a token, under the sample configuration. *)
Definition sample_delete : request :=
  Request "DELETE" "/tenants/{id}" [("id", "web-1a2b")] (Query [] []) [] NoBody None.

Lemma dispatch_authorized_witness :
  awp (dispatch (H := sample_config) sample_delete (Some (mret (error_resp 200 "deleted"))))
    (fun o t => turned_away o t \/ authorized (H := sample_config) sample_delete t).
Proof. apply (dispatch_authorized (H := sample_config)). reflexivity. Defined.
