(* ===== verification/Placement.v ===== *)
(** * Placement: hosts, reservations, scale-out

    [deploy/lambda/api/handler.py]: which host a new tenant goes to, and the
    booking of its capacity by one conditional update of the host row.  The
    row update is atomic, so any interleaving of clients is a sequence of
    bookings and releases; [run_ops] runs such a sequence. *)

From S2P Require Import Prelude Py Effects Aws Ddb Config Capacity.

Section Placement.
Context `{Config}.

Definition _host_free (h : item) : outcome (Z * Z) :=
  host_free h CPU_OVERCOMMIT_RATIO MEM_OVERCOMMIT_RATIO.

Definition _host_fits (h : item) (vcpu_needed mem_needed : Z) : outcome bool :=
  host_fits h vcpu_needed mem_needed CPU_OVERCOMMIT_RATIO MEM_OVERCOMMIT_RATIO MAX_VMS_PER_HOST.

(** [status IN ("active", "idle")] *)
Definition placeable : cond := CIn (Attr "status") [VStr "active"; VStr "idle"].

(** The loop that keeps the fitting hosts with their sort keys. *)
Fixpoint fitting (hosts : list item) (vcpu_needed mem_needed : Z) : outcome (list candidate) :=
  match hosts with
  | [] => Ok []
  | h :: hs =>
      fits ← _host_fits h vcpu_needed mem_needed;
      if negb fits then fitting hs vcpu_needed mem_needed
      else
        '(free_vcpu, free_mem) ← _host_free h;
        i ← instance_id h;
        cs ← fitting hs vcpu_needed mem_needed;
        Ok (Candidate (- free_vcpu, - free_mem, i) h :: cs)
  end.

Definition _rank_candidate_hosts (vcpu_needed mem_needed : Z) : M (list item) :=
  hosts ← _scan_all Hosts (Some placeable);
  ranked ← lift (fitting hosts vcpu_needed mem_needed);
  mret (map c_host (merge_sort cand_le ranked)).

Definition _find_host (vcpu_needed mem_needed : Z) : M (option item) :=
  ranked ← _rank_candidate_hosts vcpu_needed mem_needed;
  mret (head ranked).

(** [random.shuffle(l)]: the service answers with a permutation of the indices. *)
Definition shuffle {A} (l : list A) : M (list A) :=
  perm ← do_ (RandomShuffle (length l));
  mret (omap (M := list) (fun i : nat => l !! i) perm).

Definition _pick_hosts_for_create (vcpu_needed mem_needed : Z) : M (list item) :=
  ranked ← _rank_candidate_hosts vcpu_needed mem_needed;
  match ranked with
  | [] => mret []
  | _ =>
      let k := Z.to_nat (Z.max 1 HOST_PICK_TOP_K) in
      head ← shuffle (take k ranked);
      mret (head ++ drop (length (take k ranked)) ranked)
  end.

(** ** Booking *)

Definition reserve_actions (vcpu mem_mb : Z) : list action := [
  SET "used_vcpu" (Add (Attr "used_vcpu") (Lit (VInt vcpu)));
  SET "used_mem_mb" (Add (Attr "used_mem_mb") (Lit (VInt mem_mb)));
  SET "vm_count" (Add (Attr "vm_count") (Lit (VInt 1)));
  SET "next_vm_num" (Add (Attr "next_vm_num") (Lit (VInt 1)));
  SET "status" (Lit (VStr "active"));
  REMOVE "idle_since"].

Definition reserve_cond (max_used_v max_used_m : Z) : cond :=
  let c := CAnd (CLe (Attr "used_vcpu") (Lit (VInt max_used_v)))
                (CLe (Attr "used_mem_mb") (Lit (VInt max_used_m))) in
  if negb (MAX_VMS_PER_HOST =? 0)
  then CAnd c (CLt (Attr "vm_count") (Lit (VInt MAX_VMS_PER_HOST))) else c.

(** The ceilings computed from the caller's copy of the host row. *)
Definition reserve_limits (host : item) : outcome (Z * Z) :=
  tv ← req host "total_vcpu"; tv ← py_int tv; a_vcpu ← int_scale tv CPU_OVERCOMMIT_RATIO;
  tm ← req host "total_mem_mb"; tm ← py_int tm; a_mem ← int_scale tm MEM_OVERCOMMIT_RATIO;
  Ok (a_vcpu, a_mem).

(** The number booked, from the counter that the update returned. *)
Definition booked_vm_num (host : item) (attributes : option item) : outcome Z :=
  let from_host := py_int (get_or host "next_vm_num" (VInt 1)) in
  match attributes with
  | None => from_host
  | Some a =>
      match a !! "next_vm_num" with
      | None => from_host
      | Some v =>
          match py_int v with
          | Ok new_next => Ok (new_next - 1)
          | Exn (PyExn "TypeError" _) => from_host
          | o => o
          end
      end
  end.

Definition conditional_failed (e : exn) : bool :=
  bool_decide (exn_code e = Some "ConditionalCheckFailedException").

Definition _reserve_host_slot (host : item) (vcpu mem_mb : Z) : M (option Z) :=
  iid ← lift (instance_id host);
  '(allocatable_vcpu, allocatable_mem) ← lift (reserve_limits host);
  resp ← attempt (do_ (UpdateItem Hosts iid (reserve_actions vcpu mem_mb)
           (Some (reserve_cond (allocatable_vcpu - vcpu) (allocatable_mem - mem_mb))) UpdatedNew));
  match resp with
  | inr e => if conditional_failed e then mret None else raise e
  | inl attributes => n ← lift (booked_vm_num host attributes); mret (Some n)
  end.

Definition release_actions (vcpu mem_mb : Z) : list action := [
  SET "used_vcpu" (Sub (Attr "used_vcpu") (Lit (VInt vcpu)));
  SET "used_mem_mb" (Sub (Attr "used_mem_mb") (Lit (VInt mem_mb)));
  SET "vm_count" (Sub (Attr "vm_count") (Lit (VInt 1)))].

Definition _release_host_slot (iid : string) (vcpu mem_mb : Z) : M unit :=
  _ ← do_ (UpdateItem Hosts iid (release_actions vcpu mem_mb) None RvNone); mret tt.

Definition _get_specific_host_with_capacity (iid : string) (vcpu_needed mem_needed : Z)
    : M (option item) :=
  it ← do_ (GetItem Hosts iid);
  match it with
  | None => mret None
  | Some h =>
      if negb (is_str_in (get h "status") ["active"; "idle"]) then mret None
      else
        fits ← lift (_host_fits h vcpu_needed mem_needed);
        mret (if fits : bool then Some h else None)
  end.

(** ** Backups and the host fleet *)

(** The object with the highest [LastModified], the first one among equals. *)
Definition latest (objs : list s3_object) : option s3_object :=
  foldl (fun best o => match best with
                       | None => Some o
                       | Some b => if so_modified b <? so_modified o then Some o else best
                       end) None objs.

Definition _resolve_backup (src_tenant_id : string) (timestamp : val) : M string :=
  let bucket := env_or "ASSETS_BUCKET" "" in
  let prefix := env_or "BACKUP_PREFIX" "backups" in
  objs ← do_ (ListObjects bucket (prefix +:+ "/" +:+ src_tenant_id +:+ "/"));
  match objs with
  | [] => mret ""
  | _ =>
      if truthy timestamp then
        let key := prefix +:+ "/" +:+ src_tenant_id +:+ "/" +:+ str_of timestamp +:+ ".gz" in
        mret (if existsb (fun o => bool_decide (so_key o = key)) objs then key else "")
      else mret (match latest objs with Some o => so_key o | None => "" end)
  end.

Definition _scale_out : M unit :=
  try_ (gs ← do_ (DescribeAsg ASG_NAME);
        match gs with
        | [] => raise (PyExn "IndexError" "list index out of range")
        | g :: _ =>
            if asg_desired g <? asg_max g
            then do_ (SetDesiredCapacity ASG_NAME (asg_desired g + 1))
            else mret tt
        end)
  except _ => mret tt.

(** ** A host row *)

(** A row with its counters, as [register_host] creates it. *)
Record host_row (r : item) (uv um n next : Z) : Prop := HostRow {
  hr_vcpu : r !! "used_vcpu" = Some (VInt uv);
  hr_mem : r !! "used_mem_mb" = Some (VInt um);
  hr_count : r !! "vm_count" = Some (VInt n);
  hr_next : r !! "next_vm_num" = Some (VInt next) }.

(** The row after a booking and after a release. *)
Definition booked (r : item) (uv um n next v m : Z) : item :=
  delete "idle_since"
    (<["status" := VStr "active"]>
    (<["next_vm_num" := VInt (next + 1)]>
    (<["vm_count" := VInt (n + 1)]>
    (<["used_mem_mb" := VInt (um + m)]>
    (<["used_vcpu" := VInt (uv + v)]> r))))).

Definition released (r : item) (uv um n v m : Z) : item :=
  <["vm_count" := VInt (n - 1)]>
  (<["used_mem_mb" := VInt (um - m)]>
  (<["used_vcpu" := VInt (uv - v)]> r)).

Lemma apply_reserve r uv um n next v m :
  host_row r uv um n next ->
  apply_actions r (reserve_actions v m) r = Ok (booked r uv um n next v m).
Proof. intros []. cbn. by rewrite hr_vcpu0, hr_mem0, hr_count0, hr_next0. Qed.

Lemma apply_release r uv um n next v m :
  host_row r uv um n next ->
  apply_actions r (release_actions v m) r = Ok (released r uv um n v m).
Proof. intros []. cbn. by rewrite hr_vcpu0, hr_mem0, hr_count0. Qed.

Lemma booked_row r uv um n next v m :
  host_row (booked r uv um n next v m) (uv + v) (um + m) (n + 1) (next + 1).
Proof. by split; unfold booked; simplify_map_eq. Qed.

Lemma released_row r uv um n next v m :
  host_row r uv um n next -> host_row (released r uv um n v m) (uv - v) (um - m) (n - 1) next.
Proof. intros []. split; unfold released; by simplify_map_eq. Qed.

(** What the booking condition says of a row. *)
Definition admits (uv um n lv lm v m : Z) : bool :=
  (uv <=? lv - v) && (um <=? lm - m) && ((MAX_VMS_PER_HOST =? 0) || (n <? MAX_VMS_PER_HOST)).

Lemma reserve_cond_holds r uv um n next lv lm v m :
  host_row r uv um n next ->
  holds r (reserve_cond (lv - v) (lm - m)) = admits uv um n lv lm v m.
Proof.
  intros []. unfold reserve_cond, admits. destruct (MAX_VMS_PER_HOST =? 0); cbn;
    unfold cmp; cbn; rewrite ?hr_vcpu0, ?hr_mem0, ?hr_count0; cbn; by rewrite ?andb_true_r.
Qed.

(** The booking as an atomic operation on the row of its host: it answers a
    number exactly when the row admits the VM, and then the number is the
    row's counter and the row is the booked one. *)
Lemma reserve_spec host iid d r uv um n next lv lm v m :
  instance_id host = Ok iid -> reserve_limits host = Ok (lv, lm) ->
  db_get d Hosts iid = Some r -> host_row r uv um n next ->
  wp (S := aws) dynamo_step (_reserve_host_slot host v m) d (fun o d' _ =>
    if admits uv um n lv lm v m
    then o = Ok (Some next) /\
         d' = db_set d Hosts (<[iid := booked r uv um n next v m]> (db_rows d Hosts))
    else o = Ok None /\ d' = d).
Proof.
  intros Hi Hl Hr Hrow. unfold _reserve_host_slot. rewrite Hi, Hl.
  do_bind. cbn [lift wp]. do_bind. cbn [lift wp]. do_bind. do_attempt. do_call.
  intros rep d'. cbn [dynamo_step]. unfold update_row. rewrite Hr. cbn [default cond_holds base_item].
  unfold id. rewrite (reserve_cond_holds _ _ _ _ _ _ _ _ _ Hrow).
  destruct (admits _ _ _ _ _ _ _).
  - rewrite (apply_reserve _ _ _ _ _ _ _ Hrow). intros [-> ->].
    do_bind. cbn [lift wp]. unfold returned, booked_vm_num.
    rewrite map_lookup_filter.
    destruct (booked_row r uv um n next v m) as [_ _ _ Hn]. rewrite Hn. cbn.
    case_guard as Hg; [|exfalso; apply Hg; set_solver]. cbn.
    replace (next + 1 - 1) with next by lia. done.
  - intros [-> ->]. done.
Qed.

Lemma release_spec iid d r uv um n next v m :
  db_get d Hosts iid = Some r -> host_row r uv um n next ->
  wp (S := aws) dynamo_step (_release_host_slot iid v m) d (fun o d' _ =>
    o = Ok tt /\ d' = db_set d Hosts (<[iid := released r uv um n v m]> (db_rows d Hosts))).
Proof.
  intros Hr Hrow. unfold _release_host_slot. do_bind. do_call.
  intros rep d'. cbn [dynamo_step]. unfold update_row. rewrite Hr. cbn [default cond_holds base_item].
  unfold id. rewrite (apply_release _ _ _ _ _ _ _ Hrow). by intros [-> ->].
Qed.
(** ** Sequences of bookings, releases and other calls *)

(** A booking, a release, or any other call of anyone. *)
Inductive host_op := Reserve (host : item) (v m : Z) | Release (v m : Z) | Other (c : aws_op).

(** Run the clients' operations on host [iid] in the order their updates reach
    the table; the result lists the numbers booked. *)
Fixpoint run_ops {W} (E : env aws W) (iid : string) (ops : list host_op) (w : W) : list Z * W :=
  match ops with
  | [] => ([], w)
  | o :: ops' =>
      let '(got, w1) :=
        match o with
        | Reserve h v m =>
            let '(r, w1, _) := run E (_reserve_host_slot h v m) w in
            (match r with Ok (Some n) => [n] | _ => [] end, w1)
        | Release v m => let '(_, w1, _) := run E (_release_host_slot iid v m) w in ([], w1)
        | Other c => ([], (E c w).2)
        end in
      let '(rest, w2) := run_ops E iid ops' w1 in (got ++ rest, w2)
  end.

(** The fields of a host that a booking reads and writes. *)
Definition booking_fields : list string := ["used_vcpu"; "used_mem_mb"; "vm_count"; "next_vm_num"].

(** A call that leaves them alone on host [iid]: a heartbeat, a change of status,
    a stamp, any write of another row or table, any call of another service. *)
Definition spares_booking (iid : string) (c : aws_op) : Prop :=
  match c with
  | UpdateItem Hosts k acts _ _ => k <> iid \/ forall f, f ∈ booking_fields -> f ∉ touched acts
  | PutItem Hosts it _ => item_key Hosts it <> Some iid
  | DeleteItem Hosts k => k <> iid
  | _ => True
  end.

(** A client's copy of the host row names the host and has its totals; sizes
    are not negative; the other calls spare the fields of the bookings. *)
Definition op_ok (iid : string) (lv lm : Z) (o : host_op) : Prop :=
  match o with
  | Reserve h v m => instance_id h = Ok iid /\ reserve_limits h = Ok (lv, lm) /\ 0 <= v /\ 0 <= m
  | Release v m => 0 <= v /\ 0 <= m
  | Other c => spares_booking iid c
  end.

(** The row of host [iid] is within its limits, and its counter is [next]. *)
Definition within (d : db) (iid : string) (lv lm next : Z) : Prop :=
  exists r uv um n, db_get d Hosts iid = Some r /\ host_row r uv um n next /\
    uv <= lv /\ um <= lm /\ (MAX_VMS_PER_HOST <> 0 -> n <= MAX_VMS_PER_HOST).

Lemma db_get_set d t k x : db_get (db_set d t (<[k := x]> (db_rows d t))) t k = Some x.
Proof. unfold db_get, db_set. cbn. rewrite decide_True by done. apply lookup_insert_eq. Qed.

Lemma db_get_set_ne d t k x t' k' : t <> t' \/ k <> k' -> db_get (db_set d t (<[k := x]> (db_rows d t))) t' k' = db_get d t' k'.
Proof.
  intros Hne. unfold db_get, db_set. cbn. destruct (decide (t' = t)) as [->|]; [|done].
  apply lookup_insert_ne. by destruct Hne.
Qed.

(** A call that spares the fields of the bookings keeps them. *)
Lemma other_row iid c d r d' row uv um n next : dynamo_step c d r d' -> spares_booking iid c ->
  db_get d Hosts iid = Some row -> host_row row uv um n next ->
  exists row', db_get d' Hosts iid = Some row' /\ host_row row' uv um n next.
Proof.
  intros Hs Hc Hr Hrow. assert (Hsame : exists row', db_get d Hosts iid = Some row' /\ host_row row' uv um n next) by eauto.
  destruct c; cbn in Hs, Hc; try (clear Hsame; repeat deex; subst; by eauto).
  - destruct (item_key t it) as [k|] eqn:Ek; [destruct (cond_holds _ _)|]; destruct Hs as [_ ->]; try done.
    rewrite db_get_set_ne; [done|]. destruct t; first [by left | right; congruence].
  - destruct (update_row t key acts c (db_get d t key)) as [new|e|] eqn:Eu; destruct Hs as [_ ->] || done; [|done].
    destruct (decide (t = Hosts /\ key = iid)) as [[-> ->]|Hne].
    + destruct Hc as [Hc|Hc]; [done|]. rewrite db_get_set. exists new. split; [done|].
      unfold update_row in Eu. rewrite Hr in Eu. destruct (cond_holds _ _); [|done]. cbn [base_item default] in Eu.
      destruct Hrow. split; (rewrite (apply_untouched _ _ _ _ _ Eu); [done|apply Hc; by apply (bool_decide_eq_true_1 (_ ∈ _))]).
    + rewrite db_get_set_ne; [done|]. destruct (decide (t = Hosts)) as [->|]; [right; naive_solver|by left].
  - destruct Hs as [_ ->]. unfold db_get, db_set. cbn. destruct (decide (Hosts = t)) as [<-|]; [|done].
    by rewrite lookup_delete_ne.
Qed.

Lemma run_op_within {W} (E : env aws W) (view : W -> db) w iid lv lm next o ops :
  obeys (S := aws) dynamo_step view E -> op_ok iid lv lm o -> within (view w) iid lv lm next ->
  exists got w1, run_ops E iid (o :: ops) w =
      (let '(rest, w2) := run_ops E iid ops w1 in (got ++ rest, w2)) /\
    ((got = [] /\ within (view w1) iid lv lm next) \/
     (got = [next] /\ within (view w1) iid lv lm (next + 1))).
Proof.
  intros HE Hok (r & uv & um & n & Hr & Hrow & Huv & Hum & Hn). destruct o as [h v m|v m|c]; cbn [op_ok run_ops] in Hok |- *.
  - destruct Hok as (Hi & Hl & Hv & Hm).
    pose proof (run_wp _ view E _ w _ HE (reserve_spec h iid _ r uv um n next lv lm v m Hi Hl Hr Hrow)) as R.
    destruct (run E (_reserve_host_slot h v m) w) as [[o w1] t].
    cbn beta match in R. destruct (admits uv um n lv lm v m) eqn:Ha; destruct R as [-> Hd].
    + exists [next], w1. split; [done|]. right. split; [done|].
      exists (booked r uv um n next v m), (uv + v), (um + m), (n + 1).
      rewrite Hd, db_get_set. split; [done|]. split; [apply booked_row|].
      unfold admits in Ha. destruct (Z.leb_spec uv (lv - v)), (Z.leb_spec um (lm - m)); try done.
      split; [lia|]. split; [lia|]. intros Hmx. rewrite (proj2 (Z.eqb_neq _ _) Hmx) in Ha. cbn in Ha.
      apply Z.ltb_lt in Ha. lia.
    + exists [], w1. split; [done|]. left. split; [done|]. rewrite Hd. exists r, uv, um, n. auto.
  - destruct Hok as [Hv Hm].
    pose proof (run_wp _ view E _ w _ HE (release_spec iid _ r uv um n next v m Hr Hrow)) as R.
    destruct (run E (_release_host_slot iid v m) w) as [[o w1] t]. destruct R as [-> Hd].
    exists [], w1. split; [done|]. left. split; [done|].
    exists (released r uv um n v m), (uv - v), (um - m), (n - 1).
    rewrite Hd, db_get_set. split; [done|]. split; [by apply released_row|].
    split; [lia|]. split; [lia|]. intros Hmx. specialize (Hn Hmx). lia.
  - exists [], (E c w).2. split; [done|]. left. split; [done|].
    destruct (other_row iid c (view w) (E c w).1 (view (E c w).2) r uv um n next (HE c w) Hok Hr Hrow) as (r' & Hr' & Hrow').
    exists r', uv, um, n. auto.
Qed.

Lemma run_ops_within {W} (E : env aws W) (view : W -> db) w iid lv lm next ops :
  obeys (S := aws) dynamo_step view E -> Forall (op_ok iid lv lm) ops ->
  within (view w) iid lv lm next ->
  let '(got, w') := run_ops E iid ops w in
  within (view w') iid lv lm (next + Z.of_nat (length got)) /\
  got = map (fun i => next + Z.of_nat i) (seq 0 (length got)).
Proof.
  intros HE. revert w next; induction ops as [|o ops IH]; intros w next Hops Hw.
  - cbn [run_ops length seq map]. by rewrite Z.add_0_r.
  - inversion_clear Hops as [|? ? Ho Hops'].
    destruct (run_op_within E view w iid lv lm next o ops HE Ho Hw) as (got & w1 & -> & [[-> Hw1]|[-> Hw1]]).
    + specialize (IH w1 next Hops' Hw1). by destruct (run_ops E iid ops w1).
    + specialize (IH w1 (next + 1) Hops' Hw1). destruct (run_ops E iid ops w1) as [rest w2].
      destruct IH as [Hw2 Hrest]. cbn [app length]. split.
          * by replace (next + Z.of_nat (S (length rest))) with (next + 1 + Z.of_nat (length rest)) by lia.
      * cbn [seq map]. f_equal; [lia|]. rewrite Hrest at 1. rewrite <- seq_shift, map_map.
        apply map_ext. intros i. lia.
Qed.

(** ** Properties *)

(** C1: Bookings never overcommit a host and never give a number twice: starting
    from a row within the limits of the host, after any sequence of bookings and
    releases of it by any clients, among any other calls of anyone that leave
    its counters alone, the row is still within the limits (vCPU, memory, and
    the VM cap when there is one), and the numbers booked are consecutive values
    of the row's counter, hence all different. The code that writes the counters
    without a condition (the placement of waiting tenants, resizing,
    registration, migration) is outside. *)
Theorem reservations_safe {W} (E : env aws W) (view : W -> db) (w : W)
    (iid : string) (lv lm next : Z) (ops : list host_op) :
  obeys (S := aws) dynamo_step view E ->
  Forall (op_ok iid lv lm) ops ->
  within (view w) iid lv lm next ->
  let '(got, w') := run_ops E iid ops w in
  within (view w') iid lv lm (next + Z.of_nat (length got)) /\ NoDup got /\
  Forall (fun n => next <= n < next + Z.of_nat (length got)) got.
Proof.
  intros HE Hops Hw. pose proof (run_ops_within E view w iid lv lm next ops HE Hops Hw) as R.
  destruct (run_ops E iid ops w) as [got w']. destruct R as [Hw' Hgot]. split; [done|].
  rewrite Hgot, length_map, length_seq. split.
  - apply NoDup_fmap_2; [intros i j ?; lia|apply NoDup_seq].
  - apply Forall_map, Forall_forall. intros i Hi%in_seq. lia.
Qed.
End Placement.

(** ** Witnesses *)

Definition witness_host : item := list_to_map [
  ("instance_id", VStr "i-1"); ("status", VStr "idle"); ("idle_since", VStr "2025-01-01T00:00:00+00:00");
  ("total_vcpu", VInt 8); ("total_mem_mb", VInt 16384);
  ("used_vcpu", VInt 2); ("used_mem_mb", VInt 4096); ("vm_count", VInt 1); ("next_vm_num", VInt 5)].

Definition witness_db : db := Db (fun t => match t with Hosts => {["i-1" := witness_host]} | _ => ∅ end).

Lemma reservations_safe_witness :
  let ops := [Reserve witness_host 2 4096; Other (UpdateItem Hosts "i-1" [SET "last_seen" (Lit (VStr "now"))] None RvNone);
              Reserve witness_host 4 4096; Reserve witness_host 2 4096; Release 4 4096; Reserve witness_host 2 4096] in
  let w := Mem witness_db 0 in
  let '(got, w') := run_ops (H := sample_config) (mem_env 1 no_service) "i-1" ops w in
  within (H := sample_config) (mem_db w') "i-1" 8 16384 (5 + Z.of_nat (length got)) /\ NoDup got /\
  Forall (fun n => 5 <= n < 5 + Z.of_nat (length got)) got.
Proof.
  intros ops w.
  apply (reservations_safe (H := sample_config) (mem_env 1 no_service) mem_db w "i-1" 8 16384 5 ops).
  - apply mem_env_obeys.
  - repeat apply List.Forall_cons; try apply List.Forall_nil; cbn [op_ok]; try (split_and!; first [lia | vm_compute; reflexivity]); try lia.
    right. intros f Hf. cbn. rewrite list_elem_of_singleton. intros ->. revert Hf. by apply (bool_decide_eq_true_1 (_ ∉ _)).
  - exists witness_host, 2, 4096, 1. split; [vm_decide|]. split; [split; vm_decide|]. vm_decide.
Defined.
