(* ===== verification/Alb.v ===== *)
(** * Load-balancer routing: [deploy/lambda/api/handler.py]

    Target groups of hosts and listener rules of tenants, and the SSM wrappers
    that launch a VM.  In the [host-tg] routing mode the per-tenant helpers do
    nothing unless forced. *)

From S2P Require Import Prelude Py Effects Aws Config Ssm.

Section Alb.
Context `{Config}.

Definition host_tg_mode : bool := bool_decide (ROUTING_MODE = "host-tg").

(** [/vm/{tenant_id}] *)
Definition vm_path (tenant_id : string) : string := "/vm/" +:+ tenant_id.

Definition index_error {A} : outcome A := Exn (PyExn "IndexError" "list index out of range").

(** [resp\["TargetGroups"\]\[0\]\["TargetGroupArn"\]] *)
Definition first_tg (tgs : list target_group) : outcome string :=
  match tgs with t :: _ => Ok (tg_arn_ t) | [] => index_error end.

Definition _ensure_host_tg (instance_id private_ip : string) (force : bool) : M string :=
  if host_tg_mode && negb force then mret ""
  else
    let tg_name := "oc-" +:+ str_last 8 instance_id in
    r ← attempt (tgs ← do_ (DescribeTargetGroups (Some [tg_name])); lift (first_tg tgs));
    match r with
    | inl arn => mret arn
    | inr _ =>
        tgs ← do_ (CreateTargetGroup tg_name VPC_ID);
        tg_arn ← lift (first_tg tgs);
        _ ← do_ (RegisterTargets tg_arn private_ip);
        mret tg_arn
    end.

(** Some condition value of some rule contains the tenant's path. *)
Definition mentions (tenant_id : string) (rules : list rule) : bool :=
  existsb (fun r => existsb (fun c : string * list string =>
    existsb (str_contains (vm_path tenant_id)) c.2) (r_conditions r)) rules.

(** The priorities in use, as integers. *)
Fixpoint used_priorities (rules : list rule) : outcome (list Z) :=
  match rules with
  | [] => Ok []
  | r :: rules' =>
      if bool_decide (r_priority r = "default") then used_priorities rules'
      else p ← py_int (VStr (r_priority r)); ps ← used_priorities rules'; Ok (p :: ps)
  end.

(** [sorted(set(range(MIN, MAX + 1)) - used)] *)
Definition free_priorities (used : list Z) : list Z :=
  List.filter (fun p => negb (bool_decide (p ∈ used)))
    (seqZ PER_TENANT_PRIORITY_MIN (PER_TENANT_PRIORITY_MAX + 1 - PER_TENANT_PRIORITY_MIN)).

Definition runtime_error {A} (m : string) : outcome A := Exn (PyExn "RuntimeError" m).

Definition no_priority_msg (used : list Z) : string :=
  "no free ALB listener rule priority (" +:+ pretty PER_TENANT_PRIORITY_MIN +:+ "-" +:+
  pretty PER_TENANT_PRIORITY_MAX +:+ " exhausted, " +:+ pretty (Z.of_nat (length (remove_dups used))) +:+
  " rules in use). Per-tenant routing is capped by the ALB 'Rules per Application Load Balancer' " +:+
  "quota (default 100). Switch routing.mode to host-tg " +:+
  "— it uses ONE shared rule for every tenant. See docs/RUNBOOK.md §2.1 for the cutover procedure.".

Definition tenant_conditions (tenant_id : string) : list (string * list string) :=
  [("path-pattern", [vm_path tenant_id; vm_path tenant_id +:+ "/*"])].

(** [random.choice(l)] *)
Definition choice (l : list Z) : M Z :=
  i ← do_ (RandomIndex (length l));
  lift (match l !! (i : nat) with Some x => Ok x | None => index_error end).

Fixpoint add_rule_attempts (n : nat) (max_attempts : Z) (arn tenant_id tg_arn : string) : M unit :=
  match n with
  | O => lift (runtime_error ("could not add ALB rule for " +:+ tenant_id +:+ " after " +:+
                              pretty max_attempts +:+ " attempts (priority contention)"))
  | S n' =>
      rules ← do_ (DescribeRules arn);
      if mentions tenant_id rules then mret tt
      else
        used ← lift (used_priorities rules);
        match free_priorities used with
        | [] => lift (runtime_error (no_priority_msg used))
        | free =>
            priority ← choice free;
            r ← attempt (do_ (CreateRule arn priority (tenant_conditions tenant_id) tg_arn));
            match r with
            | inl _ => mret tt
            | inr e =>
                if is_code e "PriorityInUseException"
                then add_rule_attempts n' max_attempts arn tenant_id tg_arn
                else raise e
            end
        end
  end.

Definition _add_alb_rule (tenant_id tg_arn : string) (force : bool) : M unit :=
  if host_tg_mode && negb force then mret tt
  else if bool_decide (ALB_LISTENER_ARN = "") then mret tt
  else add_rule_attempts 6 6 ALB_LISTENER_ARN tenant_id tg_arn.

(** The first rule one of whose path patterns contains the tenant's path. *)
Definition path_rule (tenant_id : string) (rules : list rule) : option rule :=
  List.find (fun r => negb (bool_decide (r_arn r = "")) &&
    existsb (fun c : string * list string =>
      bool_decide (c.1 = "path-pattern") && existsb (str_contains (vm_path tenant_id)) c.2)
    (r_conditions r)) rules.

Definition _repoint_alb_rule_to_tg (tenant_id tg_arn : string) : M unit :=
  if host_tg_mode then mret tt
  else if bool_decide (ALB_LISTENER_ARN = "") then mret tt
  else
    rules ← do_ (DescribeRules ALB_LISTENER_ARN);
    match path_rule tenant_id rules with
    | Some r => _ ← do_ (ModifyRule (r_arn r) tg_arn); mret tt
    | None => _add_alb_rule tenant_id tg_arn false
    end.

(** The first rule with the tenant's path among the values of a path pattern. *)
Definition exact_rule (tenant_id : string) (rules : list rule) : option rule :=
  List.find (fun r => existsb (fun c : string * list string =>
    bool_decide (c.1 = "path-pattern") && bool_decide (vm_path tenant_id ∈ c.2)) (r_conditions r)) rules.

Definition _remove_alb_rule (tenant_id : string) : M unit :=
  if host_tg_mode then mret tt
  else if bool_decide (ALB_LISTENER_ARN = "") then mret tt
  else
    rules ← do_ (DescribeRules ALB_LISTENER_ARN);
    match exact_rule tenant_id rules with
    | Some r => _ ← do_ (DeleteRule (r_arn r)); mret tt
    | None => mret tt
    end.

Definition _remove_host_tg (instance_id : string) : M unit :=
  let tg_name := "oc-" +:+ str_last 8 instance_id in
  try_ (tgs ← do_ (DescribeTargetGroups (Some [tg_name]));
        tg_arn ← lift (first_tg tgs);
        _ ← (if bool_decide (ALB_LISTENER_ARN = "") then mret tt
             else
               rules ← do_ (DescribeRules ALB_LISTENER_ARN);
               for_each rules (fun r =>
                 for_each (r_targets r) (fun a =>
                   if bool_decide (a = tg_arn) then _ ← do_ (DeleteRule (r_arn r)); mret tt
                   else mret tt)));
        do_ (DeleteTargetGroup tg_arn))
  except _ => mret tt.

(** ** Commands on hosts *)

Definition _ssm_send (instance_id command : string) (timeout : Z) : M (option string) :=
  ssm_send instance_id command timeout.

Definition _ssm_run (instance_id command : string) (timeout : Z) : M bool :=
  '(ok, _) ← ssm_run instance_id command timeout 3 2; mret (ok : bool).

(** The same on a field of a row: botocore rejects a value that is not a string,
    and both helpers catch it. *)
Definition _ssm_send_val (instance_id : val) (command : string) (timeout : Z) : M (option string) :=
  match instance_id with VStr i => _ssm_send i command timeout | _ => mret None end.
Definition _ssm_run_val (instance_id : val) (command : string) (timeout : Z) : M bool :=
  match instance_id with VStr i => _ssm_run i command timeout | _ => mret false end.

Definition quoted_empty : string := String dquote (String dquote "").
Definition or_quoted (s : string) : string := if bool_decide (s = "") then quoted_empty else s.

Definition launch_command (tenant_id : string) (vm_num vcpu mem_mb : Z) (guest_ip : string)
    (host_port : Z) (config_template restore_backup_key : string) (skills : option (list string)) : string :=
  let skills_arg := match skills with Some (s :: l) => str_join "," (s :: l) | _ => quoted_empty end in
  "/home/ubuntu/launch-vm.sh " +:+ tenant_id +:+ " " +:+ pretty vm_num +:+ " " +:+ pretty vcpu +:+ " " +:+
  pretty mem_mb +:+ " " +:+ or_quoted config_template +:+ " " +:+ or_quoted restore_backup_key +:+ " " +:+
  skills_arg +:+ " && " +:+
  "sudo iptables -t nat -A PREROUTING -i $(ip route show default | awk '{print $5}' | head -1) " +:+
  "-p tcp --dport " +:+ pretty host_port +:+ " -j DNAT --to-destination " +:+ guest_ip +:+ ":" +:+
  pretty VM_PORT_BASE.

Definition _launch_vm (instance_id tenant_id : string) (vm_num vcpu mem_mb : Z) (guest_ip : string)
    (host_port : Z) (config_template restore_backup_key : string) (skills : option (list string)) : M unit :=
  _ ← _ssm_send instance_id
        (launch_command tenant_id vm_num vcpu mem_mb guest_ip host_port config_template
           restore_backup_key skills) 300;
  mret tt.

(** ** Lemmas *)

Lemma free_priorities_spec used p :
  p ∈ free_priorities used <->
  PER_TENANT_PRIORITY_MIN <= p <= PER_TENANT_PRIORITY_MAX /\ p ∉ used.
Proof.
  unfold free_priorities. rewrite list_elem_of_In, filter_In, <- list_elem_of_In, elem_of_seqZ.
  rewrite negb_true_iff, bool_decide_eq_false. split; intros []; split; try done; lia.
Qed.

Lemma used_priorities_spec rules used r n :
  used_priorities rules = Ok used -> r ∈ rules -> r_priority r <> "default" ->
  py_int (VStr (r_priority r)) = Ok n -> n ∈ used.
Proof.
  revert used; induction rules as [|r' rules IH]; intros used; cbn [used_priorities]; [set_solver|].
  intros Hu [->|Hin]%elem_of_cons Hd Hn.
  - rewrite bool_decide_eq_false_2 in Hu by done. rewrite Hn in Hu. cbn in Hu.
    destruct (used_priorities rules); [|done..]. cbn in Hu. injection Hu as <-. set_solver.
  - destruct (bool_decide _); [by eapply IH|].
    destruct (py_int (VStr (r_priority r'))); [|done..]. cbn in Hu.
    destruct (used_priorities rules) as [us| |]; [|done..]. cbn in Hu. injection Hu as <-.
    apply elem_of_cons. right. by eapply IH.
Qed.

Lemma used_priorities_no_fuel rules : used_priorities rules <> NoFuel.
Proof.
  induction rules as [|r rules IH]; [done|]. cbn [used_priorities py_int].
  destruct (bool_decide _); [done|]. destruct (parse_int _); [|done]. cbn.
  by destruct (used_priorities rules).
Qed.

(** A condition value of one of the rules has [/vm/{tenant_id}] in it: the
    tenant's own path, or that of a tenant whose id begins with this one. *)
Definition path_known (tenant_id : string) (rules : list rule) : Prop :=
  exists r c value before after, r ∈ rules /\ c ∈ r_conditions r /\ value ∈ (c.2 : list string) /\
    value = before +:+ "/vm/" +:+ tenant_id +:+ after.

Lemma mentions_iff tenant_id rules : mentions tenant_id rules = true <-> path_known tenant_id rules.
Proof.
  unfold mentions. rewrite existsb_exists. split.
  - intros (r & Hr & (c & Hc & (v & Hv & (a & b & ->)%str_contains_iff)%existsb_exists)%existsb_exists).
    apply list_elem_of_In in Hr, Hc, Hv. by exists r, c, (a +:+ vm_path tenant_id +:+ b), a, b.
  - intros (r & c & v & a & b & Hr & Hc & Hv & E). apply list_elem_of_In in Hr, Hc, Hv. exists r. split; [done|].
    apply existsb_exists. exists c. split; [done|]. apply existsb_exists. exists v. split; [done|].
    apply str_contains_iff. by exists a, b.
Qed.

Lemma mentions_false tenant_id rules : mentions tenant_id rules = false <-> ~ path_known tenant_id rules.
Proof. rewrite <- mentions_iff. by destruct (mentions _ _). Qed.

(** A rule was created at [priority] for the tenant right after the rules
    [rules] were read: it takes a slot of the tenants' window that none of
    them uses, and none of them has the tenant's path. *)
Definition good_create (arn tenant_id tg_arn : string) (e0 e1 e : ev) : Prop :=
  exists rules p x r,
    e0 = Ev (S := aws) (DescribeRules arn) (inl rules) /\
    e1 = Ev (S := aws) (RandomIndex (length (free_priorities (ok_or [] (used_priorities rules))))) (inl x) /\
    e = Ev (S := aws) (CreateRule arn p [("path-pattern", ["/vm/" +:+ tenant_id; "/vm/" +:+ tenant_id +:+ "/*"])] tg_arn) r /\
    ~ path_known tenant_id rules /\
    PER_TENANT_PRIORITY_MIN <= p <= PER_TENANT_PRIORITY_MAX /\
    (forall r', r' ∈ rules -> r_priority r' <> "default" -> py_int (VStr (r_priority r')) <> Ok p).

(** The trace of the attempts: triples ending in a good creation, then the
    calls of the last attempt. *)
Inductive attempts (arn tenant_id tg_arn : string) : nat -> list ev -> list ev -> Prop :=
| attempts_nil t : (length t <= 2)%nat -> Forall (fun e : ev => match ev_call e with CreateRule _ _ _ _ => False | _ => True end) t ->
    attempts arn tenant_id tg_arn 0 t t
| attempts_cons n e0 e1 e t u :
    good_create arn tenant_id tg_arn e0 e1 e -> attempts arn tenant_id tg_arn n t u ->
    attempts arn tenant_id tg_arn (S n) (e0 :: e1 :: e :: t) u.

(** How a run that returns normally ends: with a successful creation, or with
    the sight of a rule that has its path. *)
Definition routed (arn tenant_id tg_arn : string) (t : list ev) : Prop :=
  exists e, list.last t = Some e /\
    ((exists p, e = Ev (S := aws) (CreateRule arn p
        [("path-pattern", ["/vm/" +:+ tenant_id; "/vm/" +:+ tenant_id +:+ "/*"])] tg_arn) (inl tt)) \/
     (exists rules, e = Ev (S := aws) (DescribeRules arn) (inl rules) /\ path_known tenant_id rules)).

Lemma add_rule_attempts_spec n mx arn tid tg :
  awp (add_rule_attempts n mx arn tid tg) (fun o t =>
    (exists k u, (k <= n)%nat /\ attempts arn tid tg k t u) /\
    (o = Ok tt -> routed arn tid tg t) /\ o <> NoFuel).
Proof.
  induction n as [|n IH]; cbn [add_rule_attempts].
  { apply awp_done. split; [|done]. exists 0%nat, []. split; [lia|]. constructor; [cbn; lia|done]. }
  assert (Hnil : forall t, (length t <= 2)%nat ->
    Forall (fun e : ev => match ev_call e with CreateRule _ _ _ _ => False | _ => True end) t ->
    exists k u, (k <= S n)%nat /\ attempts arn tid tg k t u).
  { intros t H1 H2. exists 0%nat, t. split; [lia|]. by constructor. }
  do_bind. do_call. intros [rules|e]; [|split; [apply Hnil; [cbn; lia|repeat constructor]|done]].
  destruct (mentions tid rules) eqn:Em.
  { split; [apply Hnil; [cbn; lia|repeat constructor]|]. split; [|done]. intros _. eexists; split; [done|].
    right. exists rules. split; [done|]. by apply mentions_iff. }
  pose proof (used_priorities_no_fuel rules) as Hnf.
  do_bind. destruct (used_priorities rules) as [used|e|] eqn:Eu; apply awp_done; [| |done].
  2: { split; [apply Hnil; [cbn; lia|repeat constructor]|done]. }
  destruct (free_priorities used) as [|f0 fs] eqn:Ef.
  { apply awp_done. split; [apply Hnil; [cbn; lia|repeat constructor]|done]. }
  set (free := f0 :: fs) in *. do_bind. unfold choice. do_bind. do_call.
  intros [x|e]; [|split; [apply Hnil; [cbn; lia|repeat constructor]|done]].
  match goal with |- awp (lift ?m) _ => destruct m as [p|e|] eqn:Ep end; apply awp_done;
    [|split; [apply Hnil; [cbn; lia|repeat constructor]|done]|by destruct (free !! _)].
  assert (free !! (x : nat) = Some p) as Ep' by (by destruct (free !! _); simplify_eq).
  assert (p ∈ free_priorities used) as Hp by (rewrite Ef; by eapply list_elem_of_lookup_2).
  apply free_priorities_spec in Hp as [Hw Hfree].
  do_bind. do_attempt. do_call. intros r.
  assert (forall x', good_create arn tid tg (Ev (S := aws) (DescribeRules arn) (inl rules))
    (Ev (S := aws) (RandomIndex (length free)) (inl x'))
    (Ev (S := aws) (CreateRule arn p (tenant_conditions tid) tg) r)) as Hgood.
  { intros x'. exists rules, p, x', r. rewrite Eu. cbn [ok_or]. rewrite Ef.
    repeat split; try done; try lia; [by apply mentions_false|].
    intros r' Hr' Hd Hpi. apply Hfree. by eapply used_priorities_spec. }
  destruct r as [[]|e].
  - do_ret. split; [|split; [|done]].
    + exists 1%nat, []. split; [lia|]. apply attempts_cons; [apply Hgood|].
      constructor; [cbn; lia|done].
    + intros _. eexists; split; [done|]. left. by exists p.
  - destruct (is_code e _).
    + eapply awp_mono; [apply IH|]. intros o t ((k & u & Hk & Hat) & Ho & Hnf'). cbn. split; [|split; [|done]].
      * exists (S k), u. split; [lia|]. by apply attempts_cons.
      * intros Hok. destruct (Ho Hok) as (e' & He' & Hr). exists e'. split; [|done].
        by rewrite !last_cons, He'.
    + apply awp_done. split; [|done]. exists 1%nat, []. split; [lia|]. apply attempts_cons; [apply Hgood|].
      constructor; [cbn; lia|done].
Qed.

(** ** Properties *)

(** The cases in which the helper is to do nothing: the shared target-group mode,
    unless forced, and a deployment without a listener. *)
Definition unrouted (force : bool) : bool :=
  (host_tg_mode && negb force) || bool_decide (ALB_LISTENER_ARN = "").

(** C32: Adding the route of a tenant, in every environment: it terminates; in
    the host-tg mode without [force], or without a listener, it makes no call;
    otherwise it makes at most six creations of a rule for the tenant's two path
    patterns, each right after reading the live rules, at a priority of the
    tenants' window that none of these rules uses, and when none of these rules
    has the text /vm/ followed by the tenant's id in a condition value - a test
    that the rule of a tenant with a longer id also meets; and when it returns
    normally its last call either created the tenant's rule or read a rule that
    has this text. *)
Theorem add_alb_rule_spec (tenant_id tg_arn : string) (force : bool) :
  awp (_add_alb_rule tenant_id tg_arn force) (fun o t =>
    if unrouted force then o = Ok tt /\ t = []
    else
      (exists k u, (k <= 6)%nat /\ attempts ALB_LISTENER_ARN tenant_id tg_arn k t u) /\
      (o = Ok tt -> routed ALB_LISTENER_ARN tenant_id tg_arn t) /\ o <> NoFuel).
Proof.
  unfold _add_alb_rule, unrouted. destruct (host_tg_mode && negb force); [by do_ret|]. cbn [orb].
  destruct (bool_decide (ALB_LISTENER_ARN = "")); [by do_ret|]. apply add_rule_attempts_spec.
Qed.
End Alb.
