(* ===== verification/Tenants.v ===== *)
(** * Tenants: creation, deletion, listing

    [deploy/lambda/api/handler.py].  A row that exists holds its key, so the
    code's [if not item] on the reply of [get_item] is the absence of the row.
    A handler that answers before its end is written with [x ⇐ p; k], which
    stops at a response. *)

From S2P Require Import Prelude Py Effects Aws Iso Re Config Validate Ssm Capacity Rbac Placement Alb.

(** A row as the JSON value the API returns. *)
Definition item_val (it : item) : val := VDict (map_to_list it).

(** ** Early answers *)

Definition ebind {A B} (k : A -> M (resp + B)) (p : M (resp + A)) : M (resp + B) :=
  r ← p; match r with inl x => mret (inl x) | inr a => k a end.
Definition answer {A} (r : resp) : M (resp + A) := mret (inl r).
Definition go {A} (a : A) : M (resp + A) := mret (inr a).
Definition run_lift {A} (p : M A) : M (resp + A) := a ← p; mret (inr a).
(** [if c: return r] *)
Definition answer_if (c : bool) (r : resp) : M (resp + unit) := if c then answer r else go tt.
(** The value of an option, or an answer. *)
Definition answer_none {A} (o : option A) (r : resp) : M (resp + A) :=
  match o with Some a => go a | None => answer r end.
(** The end of a handler. *)
Definition finish (p : M (resp + resp)) : M resp :=
  r ← p; match r with inl x => mret x | inr x => mret x end.

Lemma awp_ebind {A B} (k : A -> M (resp + B)) (p : M (resp + A)) (Q : outcome (resp + B) -> list ev -> Prop) :
  awp p (fun o t => match o with
    | Ok (inl r) => Q (Ok (inl r)) t
    | Ok (inr a) => awp (k a) (fun o' t' => Q o' (t ++ t'))
    | Exn e => Q (Exn e) t
    | NoFuel => Q NoFuel t end) ->
  awp (ebind k p) Q.
Proof.
  intros H. apply awp_bind. eapply awp_mono; [apply H|]. intros [[r|a]| |] t Ht; try done.
  do_ret. exact Ht.
Qed.

Lemma awp_run_lift {A} (p : M A) (Q : outcome (resp + A) -> list ev -> Prop) :
  awp p (fun o t => Q (match o with Ok a => Ok (inr a) | Exn e => Exn e | NoFuel => NoFuel end) t) ->
  awp (run_lift p) Q.
Proof.
  intros H. apply awp_bind. eapply awp_mono; [apply H|]. intros [a| |] t Ht; try done. do_ret. exact Ht.
Qed.

Lemma awp_finish (p : M (resp + resp)) (Q : outcome resp -> list ev -> Prop) :
  awp p (fun o t => Q (match o with Ok (inl r) => Ok r | Ok (inr r) => Ok r | Exn e => Exn e | NoFuel => NoFuel end) t) ->
  awp (finish p) Q.
Proof.
  intros H. apply awp_bind. eapply awp_mono; [apply H|]. intros [[r|a]| |] t Ht; try done; do_ret; exact Ht.
Qed.

Notation "x ⇐ p ; k" := (ebind (fun x => k) p)
  (at level 20, p at level 100, k at level 200, right associativity).
Notation "' x ⇐ p ; k" := (ebind (fun y => match y with x => k end) p)
  (at level 20, x pattern, p at level 100, k at level 200, right associativity).

Section Tenants.
Context `{Config}.

(** [^[a-z0-9]([a-z0-9-]{0,62}[a-z0-9])?$] *)
Definition _SKILL_NAME_RE : re :=
  Seq (Chr lower_alnum)
    (Seq (Opt (Seq (upto 62 (Chr lower_alnum_hyphen)) (Chr lower_alnum))) Dollar).

(** [RE.match(v)] on a value: a [TypeError] unless it is a string. *)
Definition re_match_val (r : re) (v : val) : outcome bool :=
  match v with VStr s => Ok (re_match r s) | _ => type_error "expected string or bytes-like object" end.

(** [(v or "").strip()] *)
Definition stripped (v : val) : outcome string :=
  match v_or v (VStr "") with VStr s => Ok (strip s) | _ => attribute_error "object has no attribute 'strip'" end.

(** A value used as a partition key. *)
Definition as_key (v : val) : outcome string :=
  match v with
  | VStr s => if bool_decide (s = "") then validation_error "empty key" else Ok s
  | _ => validation_error "the provided key element does not match the schema"
  end.

Definition str_keys (v : val) : option (list string) :=
  match v with
  | VList l => if forallb is_string l then Some (omap (M := list) (fun x => match x with VStr s => Some s | _ => None end) l) else None
  | _ => None
  end.

Definition nonempty (s : string) : bool := negb (bool_decide (s = "")).

(** ** Quotas and notifications *)

Definition _check_quota (vcpu mem_mb data_disk_mb : Z) : option string :=
  if negb QUOTAS_ENABLED then None
  else if negb (QUOTAS_MAX_VCPU =? 0) && (QUOTAS_MAX_VCPU <? vcpu) then
    Some ("vcpu=" +:+ pretty vcpu +:+ " exceeds quota (max " +:+ pretty QUOTAS_MAX_VCPU +:+ ")")
  else if negb (QUOTAS_MAX_MEM_MB =? 0) && (QUOTAS_MAX_MEM_MB <? mem_mb) then
    Some ("mem_mb=" +:+ pretty mem_mb +:+ " exceeds quota (max " +:+ pretty QUOTAS_MAX_MEM_MB +:+ ")")
  else if negb (QUOTAS_MAX_DATA_DISK_MB =? 0) && (QUOTAS_MAX_DATA_DISK_MB <? data_disk_mb) then
    Some ("data_disk_mb=" +:+ pretty data_disk_mb +:+ " exceeds quota (max " +:+ pretty QUOTAS_MAX_DATA_DISK_MB +:+ ")")
  else None.

Definition _publish_event (event_name tenant_id : string) (details : val) : M unit :=
  if bool_decide (NOTIFICATIONS_TOPIC_ARN = "") then mret tt
  else
    try_ (ts ← _now;
          do_ (SnsPublish NOTIFICATIONS_TOPIC_ARN
                 ("OpenClaw: " +:+ event_name +:+ " (" +:+ tenant_id +:+ ")")
                 (VDict [("event", VStr event_name); ("tenant_id", VStr tenant_id);
                         ("timestamp", VStr ts); ("details", v_or details (VDict []))])))
    except _ => mret tt.

(** ** Skills of a tenant *)

(** The truthy elements of an iterable. *)
Definition truthy_elems (v : val) : outcome (list val) := l ← py_iter v; Ok (List.filter truthy l).

(** [set(l)]: its elements must be hashable. *)
Definition hash_all (l : list val) : outcome (list val) :=
  if forallb hashable l then Ok l else type_error "unhashable type".

(** The elements added to a set until one is not hashable. *)
Fixpoint hash_prefix (l : list val) : list val :=
  match l with
  | [] => []
  | v :: l' => if hashable v then v :: hash_prefix l' else []
  end.

(** The strings of a list of values. *)
Definition strings_of (l : list val) : list string :=
  omap (M := list) (fun x => match x with VStr s => Some s | _ => None end) l.

(** [sorted(s)] on skill names: strings do not compare with other types. *)
Definition sort_names (l : list val) : outcome (list string) :=
  if forallb is_string l then Ok (sorted_set (strings_of l))
  else type_error "'<' not supported between instances".

Definition _resolve_effective_skills (tenant_item : item) : M (option (list string)) :=
  let tenant_skills := v_or (get tenant_item "skills") (VList []) in
  group_name ← lift (stripped (get tenant_item "group"));
  if negb (truthy tenant_skills) && bool_decide (group_name = "") then mret None
  else
    own ← lift (l ← truthy_elems tenant_skills; hash_all l);
    shared ← (if nonempty group_name && has_groups then
                try_ (grp ← do_ (GetItem Groups group_name);
                      l ← lift (truthy_elems (v_or (get (default ∅ (grp : option item)) "skills") (VList [])));
                      mret (hash_prefix l))
                except _ => mret []
              else mret []);
    match own ++ shared with
    | [] => mret None
    | effective => names ← lift (sort_names effective); mret (Some names)
    end.

(** ** Listing *)

Definition setdefault (it : item) (k : string) (v : val) : item :=
  match it !! k with Some _ => it | None => <[k := v]> it end.

Definition live : cond := CNe (Attr "status") (Lit (VStr "deleted")).

Fixpoint keep_matching (items : list item) (filters : list (option (string * string))) : outcome (list item) :=
  match items with
  | [] => Ok []
  | it :: items' =>
      b ← _matches_all_tags it filters; rest ← keep_matching items' filters;
      Ok (if b : bool then it :: rest else rest)
  end.

Definition list_tenants (q : query) : M resp :=
  items ← _scan_all Tenants (Some live);
  let items := map (fun it => setdefault it "tags" (VDict [])) items in
  let tag_filters := _collect_tag_filters q in
  items ← lift (match tag_filters with [] => Ok items | _ => keep_matching items tag_filters end);
  mret (_resp 200 (VList (map item_val items))).

Definition get_tenant (tenant_id : string) : M resp :=
  it ← do_ (GetItem Tenants tenant_id);
  match it with
  | None => mret (error_resp 404 "tenant not found")
  | Some it =>
      let it := setdefault it "tags" (VDict []) in
      eff ← _resolve_effective_skills it;
      let eff := match eff with Some l => VList (map VStr l) | None => VStr "*" end in
      mret (_resp 200 (item_val (<["effective_skills" := eff]> it)))
  end.

(** ** Creation *)

(** A validated creation request. *)
Record create_req := CreateReq {
  cr_name : string;
  cr_vcpu : Z;
  cr_mem_mb : Z;
  cr_config_template : val;
  cr_skills : option (list string);
  cr_group : string;
  cr_clone_from : val;
  cr_clone_src : option item;
  cr_tags : val;
  cr_ttl : option ttl_fields;
  cr_schedule : val;
  cr_restore_key : string;
  cr_preferred : val
}.

Definition bad_name_re : string := "^[a-z0-9]([a-z0-9-]{0,62}[a-z0-9])?$".

(** The [skills] field: absent, or a list of strings, trimmed, without
    duplicates, sorted, each a skill name. *)
Definition parse_skills (skills_in : val) : M (resp + option (list string)) :=
  if bool_decide (skills_in = VNone) then go None
  else
    l ⇐ answer_none (str_keys skills_in) (error_resp 400 "skills must be a list of strings");
    let skills := sorted_set (List.filter nonempty (map strip l)) in
    let bad := List.filter (fun s => negb (re_match _SKILL_NAME_RE s)) skills in
    match bad with
    | [] => go (Some skills)
    | _ => answer (error_resp 400 ("invalid skill name(s): " +:+ repr_of (VList (map VStr bad)) +:+
                                   " — must match " +:+ bad_name_re))
    end.

(** The [group] field: empty or the name of an existing group; a failing lookup
    is ignored. *)
Definition parse_group (group : val) : M (resp + string) :=
  group_in ⇐ run_lift (lift (stripped group));
  _ ⇐ answer_if (nonempty group_in && negb (re_match _NAME_RE group_in))
        (error_resp 400 "group must match ^[a-z0-9]([a-z0-9-]{0,30}[a-z0-9])?$");
  if nonempty group_in && has_groups then
    r ⇐ run_lift (attempt (do_ (GetItem Groups group_in)));
    match r with
    | inl None => answer (error_resp 404 ("group '" +:+ group_in +:+ "' not found — create it first via POST /groups"))
    | _ => go group_in
    end
  else go group_in.

(** The source of a clone: an existing running tenant. *)
Definition parse_clone (clone_from : val) : M (resp + option item) :=
  if truthy clone_from then
    key ⇐ run_lift (lift (as_key clone_from));
    src ⇐ run_lift (do_ (GetItem Tenants key));
    src ⇐ answer_none (src : option item) (error_resp 404 ("clone source not found: " +:+ str_of clone_from));
    _ ⇐ answer_if (negb (is_str (get src "status") "running"))
          (error_resp 400 ("clone source must be running (current: " +:+ str_of (get src "status") +:+ ")"));
    go (Some src)
  else go None.

(** The backup to restore: its key, which must exist. *)
Definition parse_restore (restore_from : val) : M (resp + string) :=
  if truthy restore_from then
    src_id ⇐ run_lift (lift (vget restore_from "tenant_id"));
    _ ⇐ answer_if (negb (truthy src_id)) (error_resp 400 "restore_from.tenant_id required");
    ts ⇐ run_lift (lift (vget restore_from "timestamp"));
    key ⇐ run_lift (_resolve_backup (str_of src_id) ts);
    _ ⇐ answer_if (negb (nonempty key))
          (if truthy ts then error_resp 404 ("backup not found: " +:+ str_of src_id +:+ "/" +:+ str_of ts)
           else error_resp 404 ("no backups found for tenant_id=" +:+ str_of src_id));
    go key
  else go "".

Definition parse_create (body : val) : M (resp + create_req) :=
  let field k d := run_lift (lift (vget_or body k d)) in
  name ⇐ field "name" (VStr "");
  _ ⇐ match _validate_name name with Some e => answer (error_resp 400 e) | None => go tt end;
  vcpu ⇐ run_lift (lift (v ← vget_or body "vcpu" (VInt VM_DEFAULT_VCPU); py_int v));
  mem_mb ⇐ run_lift (lift (v ← vget_or body "mem_mb" (VInt VM_DEFAULT_MEM); py_int v));
  data_disk_mb ⇐ run_lift (lift (v ← vget_or body "data_disk_mb" (VInt VM_DATA_DISK_MB); py_int v));
  _ ⇐ match _check_quota vcpu mem_mb data_disk_mb with Some e => answer (error_resp 400 e) | None => go tt end;
  config_template ⇐ field "config_template" (VStr "");
  bad_template ⇐ run_lift (lift (if truthy config_template
                                  then b ← re_match_val _SKILL_NAME_RE config_template; Ok (negb b)
                                  else Ok false));
  _ ⇐ answer_if bad_template (error_resp 400 ("config_template must match " +:+ bad_name_re));
  restore_from ⇐ field "restore_from" VNone;
  clone_from ⇐ field "clone_from" VNone;
  skills_in ⇐ field "skills" VNone;
  skills ⇐ parse_skills skills_in;
  group ⇐ field "group" VNone;
  group_in ⇐ parse_group group;
  _ ⇐ answer_if (truthy clone_from && truthy restore_from)
        (error_resp 400 "clone_from and restore_from are mutually exclusive");
  clone_src ⇐ parse_clone clone_from;
  tags ⇐ field "tags" VNone;
  _ ⇐ match _validate_tags tags with Some e => answer (error_resp 400 e) | None => go tt end;
  ttl_hours ⇐ field "ttl_hours" VNone;
  on_expiry ⇐ field "on_expiry" VNone;
  '(ttl_fields, ttl_err) ⇐ run_lift (_parse_ttl ttl_hours on_expiry);
  _ ⇐ match ttl_err with Some e => answer (error_resp 400 e) | None => go tt end;
  schedule ⇐ field "schedule" VNone;
  '(sched, sched_err) ⇐ run_lift (lift (_parse_schedule schedule));
  _ ⇐ match sched_err with Some e => answer (error_resp 400 e) | None => go tt end;
  restore_key ⇐ parse_restore restore_from;
  preferred ⇐ field "preferred_host_id" VNone;
  go (CreateReq (match name with VStr s => s | _ => "" end) vcpu mem_mb config_template skills group_in
        clone_from clone_src (v_or tags (VDict [])) ttl_fields sched restore_key preferred).

(** The host and the candidates of a new tenant: pinned to the clone's source
    host or to the preferred host, or ranked. *)
Definition choose_host (c : create_req) : M (resp + (option item * list item * bool)) :=
  let vcpu := cr_vcpu c in
  let mem_mb := cr_mem_mb c in
  let size := "(vcpu=" +:+ pretty vcpu +:+ ", mem_mb=" +:+ pretty mem_mb +:+ ")" in
  preferred ⇐ run_lift (lift (stripped (cr_preferred c)));
  match cr_clone_src c with
  | Some src =>
      hid ⇐ run_lift (lift (h ← req src "host_id"; as_key h));
      host ⇐ run_lift (_get_specific_host_with_capacity hid vcpu mem_mb);
      match host with
      | Some h => go (Some h, [], true)
      | None => answer (error_resp 400 ("clone source's host " +:+ hid +:+ " lacks capacity for clone " +:+ size))
      end
  | None =>
      if nonempty preferred then
        host ⇐ run_lift (_get_specific_host_with_capacity preferred vcpu mem_mb);
        match host with
        | Some h => go (Some h, [], true)
        | None =>
            existing ⇐ run_lift (do_ (GetItem Hosts preferred));
            let gone := match (existing : option item) with
                        | None => true
                        | Some e => is_str_in (get e "status") ["deleted"; "draining"]
                        end in
            if gone then answer (error_resp 404 ("preferred_host_id " +:+ preferred +:+ " not found or draining"))
            else answer (error_resp 400 ("preferred_host_id " +:+ preferred +:+ " lacks capacity " +:+ size))
        end
      else
        candidates ⇐ run_lift (_pick_hosts_for_create vcpu mem_mb);
        go (head candidates, candidates, false)
  end.

(** The fields of the request kept on the row when they are set. *)
Definition with_options (c : create_req) (it : item) : item :=
  let it := match cr_skills c with Some l => <["skills" := VList (map VStr l)]> it | None => it end in
  let it := if nonempty (cr_group c) then <["group" := VStr (cr_group c)]> it else it in
  it.
Definition with_ttl_schedule (c : create_req) (it : item) : item :=
  let it := match cr_ttl c with
            | Some f => <["expires_at" := VStr (tf_expires_at f)]>
                       (<["on_expiry" := tf_on_expiry f]>
                       (<["ttl_hours" := VInt (tf_ttl_hours f)]> it))
            | None => it
            end in
  if truthy (cr_schedule c) then <["schedule" := cr_schedule c]> it else it.

Definition pending_item (c : create_req) (tenant_id now : string) : item :=
  with_ttl_schedule c (with_options c (list_to_map [
    ("id", VStr tenant_id); ("name", VStr (cr_name c));
    ("vcpu", VInt (cr_vcpu c)); ("mem_mb", VInt (cr_mem_mb c));
    ("status", VStr "pending"); ("health_failures", VInt 0);
    ("config_template", cr_config_template c);
    ("restore_backup_key", VStr (cr_restore_key c));
    ("tags", cr_tags c); ("created_at", VStr now); ("updated_at", VStr now)])).

Definition creating_item (c : create_req) (tenant_id now hid : string) (host : item) (vm_num : Z)
    (guest_ip : string) (host_port : Z) : item :=
  let it := with_options c (list_to_map [
    ("id", VStr tenant_id); ("name", VStr (cr_name c));
    ("host_id", VStr hid); ("vm_num", VInt vm_num);
    ("guest_ip", VStr guest_ip); ("host_port", VInt host_port);
    ("vcpu", VInt (cr_vcpu c)); ("mem_mb", VInt (cr_mem_mb c));
    ("status", VStr "creating"); ("health_failures", VInt 0);
    ("rootfs_version", get_or host "rootfs_version" (VStr ""));
    ("config_template", cr_config_template c);
    ("restore_backup_key", VStr (cr_restore_key c));
    ("tags", cr_tags c); ("creation_started_at", VStr now);
    ("created_at", VStr now); ("updated_at", VStr now)]) in
  let it := if truthy (cr_clone_from c) then <["clone_from" := cr_clone_from c]> it else it in
  with_ttl_schedule c it.

(** No capacity: the tenant waits, and the fleet grows. *)
Definition park_pending (c : create_req) (tenant_id now message : string) : M resp :=
  _ ← do_ (PutItem Tenants (pending_item c tenant_id now) None);
  _ ← _scale_out;
  _ ← _publish_event "tenant.created" tenant_id
        (VDict [("name", VStr (cr_name c)); ("vcpu", VInt (cr_vcpu c));
                ("mem_mb", VInt (cr_mem_mb c)); ("status", VStr "pending")]);
  mret (_resp 201 (VDict [("id", VStr tenant_id); ("status", VStr "pending"); ("message", VStr message)])).

(** Book the first candidate that accepts. *)
Fixpoint reserve_first (candidates : list item) (vcpu mem_mb : Z) : M (option (item * Z)) :=
  match candidates with
  | [] => mret None
  | cand :: cs =>
      n ← _reserve_host_slot cand vcpu mem_mb;
      match n with
      | Some n => mret (Some (cand, n))
      | None => reserve_first cs vcpu mem_mb
      end
  end.

Definition set_status (tenant_id status now : string) : aws_op :=
  UpdateItem Tenants tenant_id
    [SET "status" (Lit (VStr status)); SET "updated_at" (Lit (VStr now))] None RvNone.

Definition guest_ip_of (vm_num : Z) : string := VM_SUBNET_PREFIX +:+ "." +:+ pretty vm_num +:+ ".2".
Definition host_port_of (vm_num : Z) : Z := VM_PORT_BASE + vm_num - 1.

(** The disks of a clone are copied before its launch; on failure the booking
    is undone and the row marked deleted. *)
Definition clone_disks (c : create_req) (hid tenant_id : string) (vm_num : Z) : M (resp + unit) :=
  match cr_clone_src c with
  | None => go tt
  | Some src =>
      src_vm_num ⇐ run_lift (lift (py_int (get_or src "vm_num" (VInt 1))));
      ok ⇐ run_lift (_ssm_run hid
             ("/home/ubuntu/clone-data.sh " +:+ str_of (cr_clone_from c) +:+ " " +:+ pretty src_vm_num +:+ " " +:+
              tenant_id +:+ " " +:+ pretty vm_num) 180);
      if ok : bool then go tt
      else
        _ ⇐ run_lift (_release_host_slot hid (cr_vcpu c) (cr_mem_mb c));
        now ⇐ run_lift _now;
        _ ⇐ run_lift (do_ (set_status tenant_id "deleted" now));
        answer (error_resp 502 "clone-data.sh failed; tenant rolled back")
  end.

(** The text of a falsy or validated template. *)
Definition template_text (v : val) : string := match v with VStr s => s | _ => "" end.

(** The booked tenant: its row, its VM, its route. *)
Definition place_tenant (c : create_req) (tenant_id now : string) (host : item) (vm_num : Z) : M (resp + resp) :=
  let guest_ip := guest_ip_of vm_num in
  let host_port := host_port_of vm_num in
  hid ⇐ run_lift (lift (instance_id host));
  let it := creating_item c tenant_id now hid host vm_num guest_ip host_port in
  _ ⇐ run_lift (do_ (PutItem Tenants it None));
  _ ⇐ clone_disks c hid tenant_id vm_num;
  skills ⇐ run_lift (_resolve_effective_skills it);
  _ ⇐ run_lift (_launch_vm hid tenant_id vm_num (cr_vcpu c) (cr_mem_mb c) guest_ip host_port
                  (template_text (cr_config_template c)) (cr_restore_key c) skills);
  ip ⇐ run_lift (lift (req host "private_ip"));
  tg_arn ⇐ run_lift (_ensure_host_tg hid (str_of ip) false);
  _ ⇐ run_lift (_add_alb_rule tenant_id tg_arn false);
  _ ⇐ run_lift (_publish_event "tenant.created" tenant_id
        (VDict [("name", VStr (cr_name c)); ("vcpu", VInt (cr_vcpu c)); ("mem_mb", VInt (cr_mem_mb c));
                ("host_id", VStr hid); ("guest_ip", VStr guest_ip)]));
  go (_resp 201 (VDict [("id", VStr tenant_id); ("host_id", VStr hid); ("guest_ip", VStr guest_ip);
                        ("host_port", VInt host_port); ("status", VStr "creating")])).

(** From the choice of the host to the answer. *)
Definition create_on_host (c : create_req) (tenant_id now : string) : M (resp + resp) :=
  '(host, candidates, pinned) ⇐ choose_host c;
  match host with
  | None => run_lift (park_pending c tenant_id now "scaling out, VM will be created when host is ready")
  | Some host =>
      booked ⇐ run_lift (reserve_first
        (if pinned : bool then [host] else take (Z.to_nat (Z.max 1 HOST_RESERVE_ATTEMPTS)) candidates)
        (cr_vcpu c) (cr_mem_mb c));
      match booked with
      | None => run_lift (park_pending c tenant_id now "host contention, VM will be created when a host is ready")
      | Some (host, vm_num) => place_tenant c tenant_id now host vm_num
      end
  end.

Definition create_tenant (body : req_body) : M resp :=
  match body with
  | NoBody => mret (error_resp 400 "missing body")
  | _ =>
      body ← lift (load_body body);
      finish (
        c ⇐ parse_create body;
        tenant_id ⇐ run_lift (_gen_id (cr_name c));
        now ⇐ run_lift _now;
        create_on_host c tenant_id now)
  end.

(** ** Deletion *)

(** The optional cleanup of a host after its tenant left: the counters, and
    [idle_since] when it became empty. *)
Definition free_host (host_id : string) (it : item) : M unit :=
  v ← lift (req it "vcpu");
  m ← lift (req it "mem_mb");
  attrs ← do_ (UpdateItem Hosts host_id [
      SET "used_vcpu" (Sub (Attr "used_vcpu") (Lit v));
      SET "used_mem_mb" (Sub (Attr "used_mem_mb") (Lit m));
      SET "vm_count" (Sub (Attr "vm_count") (Lit (VInt 1)))] None AllNew);
  match attrs with
  | None => mret tt
  | Some attrs =>
      n ← lift (py_int (get_or attrs "vm_count" (VInt 0)));
      if n =? 0 then
        now ← _now;
        _ ← do_ (UpdateItem Hosts host_id [SET "idle_since" (Lit (VStr now))] None RvNone);
        mret tt
      else mret tt
  end.

Definition vm_dir (tenant_id : string) : string := "/data/firecracker-vms/" +:+ tenant_id.

Definition stop_on_host (host_id : val) (tenant_id : string) (it : item) : M unit :=
  vm_num ← lift (py_int (get_or it "vm_num" (VInt 1)));
  _ ← _ssm_run_val host_id ("/home/ubuntu/stop-vm.sh " +:+ tenant_id +:+ " " +:+ pretty vm_num) 30;
  _ ← _ssm_run_val host_id ("rm -f " +:+ vm_dir tenant_id +:+ "/vm.json") 30;
  mret tt.

Definition clean_host (host_id : val) (tenant_id : string) (it : item) (keep_data : bool) : M unit :=
  _ ← _ssm_run_val host_id
        ("sudo iptables -t nat -D PREROUTING -i $(ip route show default | awk '{print $5}' | head -1) -p tcp --dport " +:+
         str_of (get_or it "host_port" (VInt 0)) +:+ " -j DNAT --to-destination " +:+
         str_of (get_or it "guest_ip" (VStr "")) +:+ ":" +:+ pretty VM_PORT_BASE +:+ " 2>/dev/null || true") 30;
  _ ← (if keep_data then mret true else _ssm_run_val host_id ("rm -rf " +:+ vm_dir tenant_id) 30);
  hid ← lift (as_key host_id);
  free_host hid it.

Definition delete_tenant (tenant_id : string) (query_params : list (string * string)) : M resp :=
  it ← do_ (GetItem Tenants tenant_id);
  match it with
  | None => mret (error_resp 404 "tenant not found")
  | Some it =>
      let gone := _resp 200 (VDict [("id", VStr tenant_id); ("status", VStr "deleted")]) in
      if is_str (get it "status") "deleted" then mret gone
      else
        let keep_data := bool_decide (lower (default "true" (alist_get "keep_data" query_params)) = "true") in
        let host_id := get it "host_id" in
        _ ← (if truthy host_id then stop_on_host host_id tenant_id it else mret tt);
        _ ← _remove_alb_rule tenant_id;
        _ ← (if truthy host_id then clean_host host_id tenant_id it keep_data else mret tt);
        now ← _now;
        _ ← do_ (set_status tenant_id "deleted" now);
        _ ← _publish_event "tenant.deleted" tenant_id (VDict [("keep_data", VBool keep_data)]);
        mret gone
  end.
End Tenants.
