(* ===== verification/Actions.v ===== *)
(** * Actions on a tenant

    [deploy/lambda/api/handler.py]: [tenant_action] and what it dispatches to
    (live resize, disk resize, the start of a migration and its cancellation,
    power actions, backups), batch operations, and the backup listings. *)

From Stdlib Require Import SpecFloat.
From S2P Require Import Prelude Py Effects Aws Iso Re Config Validate Ssm Capacity Rbac Placement Alb Tenants.

Section Actions.
Context `{Config}.

(** [json.loads(body) if isinstance(body, str) else (body or {})], where any
    error gives [{}]. *)
Definition payload_of (b : req_body) : val :=
  match b with Json v => v_or v (VDict []) | _ => VDict [] end.

(** ** Live resize *)

Definition resize_command (tenant_id : string) (new_vcpu mem_mb : Z) : string :=
  "curl -sf --unix-socket " +:+ vm_dir tenant_id +:+ "/fc.sock -X PATCH http://localhost/machine-config -H " +:+
  json_str "Content-Type: application/json" +:+ " -d '{" +:+ json_str "vcpu_count" +:+ ":" +:+ pretty new_vcpu +:+
  "," +:+ json_str "mem_size_mib" +:+ ":" +:+ pretty mem_mb +:+ "}'".

Definition grow_vcpu (delta : Z) : list action := [SET "used_vcpu" (Add (Attr "used_vcpu") (Lit (VInt delta)))].

(** The host side of a resize: room for [delta] more vCPUs, the change on the
    host, and the two rows. *)
Definition resize_on_host (tenant_id : string) (it : item) (host_id : string) (host : item)
    (new_vcpu delta : Z) : M resp :=
  tv ← lift (v ← req host "total_vcpu"; py_int v);
  allocatable ← lift (int_scale tv CPU_OVERCOMMIT_RATIO);
  used ← lift (v ← req host "used_vcpu"; py_int v);
  let free := allocatable - used in
  if free <? delta then
    mret (error_resp 400 ("insufficient host capacity: need " +:+ pretty delta +:+ " more vCPU, host has " +:+
      pretty free +:+ " free (allocatable=" +:+ pretty allocatable +:+ ", used=" +:+
      str_of (get host "used_vcpu") +:+ ")"))
  else
    mem ← lift (v ← req it "mem_mb"; py_int v);
    ok ← _ssm_run host_id (resize_command tenant_id new_vcpu mem) 30;
    if negb ok then mret (error_resp 502 "Firecracker machine-config PATCH failed; tenant unchanged")
    else
      now ← _now;
      _ ← do_ (UpdateItem Tenants tenant_id
                 [SET "vcpu" (Lit (VInt new_vcpu)); SET "updated_at" (Lit (VStr now))] None RvNone);
      _ ← do_ (UpdateItem Hosts host_id (grow_vcpu delta) None RvNone);
      mret (_resp 200 (VDict [("id", VStr tenant_id); ("vcpu", VInt new_vcpu); ("mem_mb", VInt mem);
                              ("delta", VInt delta)])).

(** The checks on the body: the new number of vCPUs. *)
Definition parse_resize (body : req_body) : M (resp + Z) :=
  match body with
  | NoBody => answer (error_resp 400 "missing body")
  | _ =>
      body ⇐ run_lift (lift (load_body body));
      new_vcpu ⇐ run_lift (lift (vget body "vcpu"));
      new_mem ⇐ run_lift (lift (vget body "mem_mb"));
      _ ⇐ answer_if (bool_decide (new_vcpu = VNone) && bool_decide (new_mem = VNone))
            (error_resp 400 "specify vcpu (memory live-resize not supported)");
      _ ⇐ answer_if (negb (bool_decide (new_mem = VNone)))
            (error_resp 400 "memory live-resize is not supported; stop the tenant, recreate with new mem_mb, then start");
      match py_int new_vcpu with
      | Ok n => go n
      | Exn e => if is_class e "TypeError" || is_class e "ValueError"
                 then answer (error_resp 400 "vcpu must be an integer") else run_lift (raise e)
      | NoFuel => run_lift no_fuel
      end
  end.

Definition tenant_resize (tenant_id : string) (body : req_body) : M resp :=
  finish (
    new_vcpu ⇐ parse_resize body;
    it ⇐ run_lift (do_ (GetItem Tenants tenant_id));
    it ⇐ answer_none (it : option item) (error_resp 404 "tenant not found");
    _ ⇐ answer_if (negb (is_str (get it "status") "running"))
          (error_resp 400 ("tenant must be running (current: " +:+ str_of (get it "status") +:+ ")"));
    current_vcpu ⇐ run_lift (lift (py_int (get_or it "vcpu" (VInt 0))));
    _ ⇐ answer_if (new_vcpu <=? current_vcpu)
          (error_resp 400 ("vcpu must be greater than current (" +:+ pretty current_vcpu +:+
             "); Firecracker cannot shrink — restart to decrease"));
    mem ⇐ run_lift (lift (py_int (get_or it "mem_mb" (VInt 0))));
    disk ⇐ run_lift (lift (py_int (get_or it "data_disk_mb" (VInt 0))));
    _ ⇐ match _check_quota new_vcpu mem disk with
         | Some e => answer (error_resp 400 e) | None => go tt end;
    let host_id := get_or it "host_id" (VStr "") in
    _ ⇐ answer_if (negb (truthy host_id)) (error_resp 400 "tenant has no host assigned");
    hid ⇐ run_lift (lift (as_key host_id));
    host ⇐ run_lift (do_ (GetItem Hosts hid));
    host ⇐ answer_none (host : option item) (error_resp 400 ("host " +:+ hid +:+ " not found"));
    run_lift (resize_on_host tenant_id it hid host new_vcpu (new_vcpu - current_vcpu))).

(** ** Disk resize *)

Definition resize_disk (tenant_id : string) (it : item) (body : req_body) : M resp :=
  new_size_v ← lift (vget (payload_of body) "new_size_mb");
  if negb (is_int new_size_v) then mret (error_resp 400 "missing or invalid new_size_mb")
  else
    new_size ← lift (py_int new_size_v);
    current ← lift (py_int (get_or it "data_disk_mb" (VInt VM_DATA_DISK_MB)));
    if new_size <=? current then
      mret (error_resp 400 ("new_size_mb must be larger (current " +:+ pretty current +:+ "MB); shrink not supported"))
    else if 1048576 <? new_size then mret (error_resp 400 "new_size_mb exceeds 1 TiB ceiling")
    else
      let host_id := get it "host_id" in
      vm_num ← lift (py_int (get_or it "vm_num" (VInt 1)));
      if negb (truthy host_id) then mret (error_resp 400 "tenant has no host (still pending?)")
      else
        ok ← _ssm_run_val host_id ("/home/ubuntu/resize-disk.sh " +:+ tenant_id +:+ " " +:+ pretty vm_num +:+ " " +:+
                                   str_of new_size_v) 120;
        if negb ok then
          mret (_resp 502 (VDict [("error", VStr "resize-disk.sh failed on host; size unchanged");
                                  ("id", VStr tenant_id); ("data_disk_mb", VInt current)]))
        else
          now ← _now;
          _ ← do_ (UpdateItem Tenants tenant_id
                     [SET "data_disk_mb" (Lit new_size_v); SET "updated_at" (Lit (VStr now))] None RvNone);
          mret (_resp 200 (VDict [("id", VStr tenant_id); ("status", VStr "running");
                                  ("old_size_mb", VInt current); ("new_size_mb", new_size_v)])).

(** ** Migration: start and cancellation *)

(** The fields of a tenant row that hold the context of a migration. *)
Definition migration_fields : list string := [
  "migration_target"; "migration_target_vm_num"; "migration_source"; "migration_snap_cmd";
  "migration_restore_cmd"; "migration_phase"; "migration_mode"; "migration_started_at";
  "migration_snapshot_uri"].

Definition cancel_migration (tenant_id : string) (it : item) : M resp :=
  if negb (is_str (get it "status") "migrating") then
    mret (error_resp 409 ("tenant is " +:+ str_of (get it "status") +:+ ", not migrating"))
  else
    now ← _now;
    _ ← do_ (UpdateItem Tenants tenant_id
               ([SET "status" (Lit (VStr "running"));
                 SET "migration_failed" (Lit (VStr "cancelled by operator"));
                 SET "updated_at" (Lit (VStr now))] ++ map REMOVE migration_fields) None RvNone);
    _ ← _publish_event "migration.cancelled" tenant_id (VDict []);
    mret (_resp 200 (VDict [("id", VStr tenant_id); ("status", VStr "running");
                            ("message", VStr "migration cancelled; tenant remains on source host")])).

(** [live], [cold], or an answer. *)
Definition migrate_mode : resp + string :=
  if BALLOON_ENABLED then
    if bool_decide (BALLOON_MIGRATE_MODE = "reject") then
      inl (_resp 409 (VDict [("error", VStr ("Live migration is disabled while memory overcommit (balloon) is on " +:+
        "(balloon.migrate_mode=reject). Set balloon.migrate_mode to 'cold' (restart-based, always safe) " +:+
        "or 'live' (snapshot-based) to enable it.")); ("reason", VStr "balloon_enabled")]))
    else inr (if bool_decide (BALLOON_MIGRATE_MODE = "cold") then "cold" else "live")
  else inr "live".

(** The checks on the target host. *)
Definition check_target (target_id : val) (target : item) (it : item) : M (resp + unit) :=
  _ ⇐ answer_if (is_str_in (get target "status") ["draining"; "deleted"])
        (error_resp 409 ("target host " +:+ str_of target_id +:+ " is " +:+ str_of (get target "status")));
  vcpu ⇐ run_lift (lift (py_int (get_or it "vcpu" (VInt 0))));
  mem_mb ⇐ run_lift (lift (py_int (get_or it "mem_mb" (VInt 0))));
  fits ⇐ run_lift (lift (_host_fits target vcpu mem_mb));
  if fits : bool then go tt
  else
    '(free_vcpu, free_mem) ⇐ run_lift (lift (_host_free target));
    n ⇐ run_lift (lift (py_int (get_or target "vm_count" (VInt 0))));
    answer (error_resp 409 ("target host has insufficient capacity (free vcpu=" +:+ pretty free_vcpu +:+
      ", free mem=" +:+ pretty free_mem +:+ "MB; need vcpu=" +:+ pretty vcpu +:+ ", mem=" +:+ pretty mem_mb +:+
      "MB; vm_count=" +:+ pretty n +:+ ", max=" +:+
      (if MAX_VMS_PER_HOST =? 0 then "none" else pretty MAX_VMS_PER_HOST) +:+ ")")).

Definition migrating_actions (target_id source_id : val) (target_vm_num : Z) (snap_cmd mode uri now : string)
    : list action := [
  SET "status" (Lit (VStr "migrating"));
  SET "migration_target" (Lit target_id);
  SET "migration_target_vm_num" (Lit (VInt target_vm_num));
  SET "migration_source" (Lit source_id);
  SET "migration_snap_cmd" (Lit (VStr snap_cmd));
  SET "migration_phase" (Lit (VStr "snapshot"));
  SET "migration_mode" (Lit (VStr mode));
  SET "migration_started_at" (Lit (VStr now));
  SET "migration_snapshot_uri" (Lit (VStr uri));
  SET "updated_at" (Lit (VStr now));
  REMOVE "migration_failed"].

Definition start_migration (tenant_id : string) (it : item) (body : req_body) : M resp :=
  finish (
    mode ⇐ match migrate_mode with inl r => answer r | inr m => go m end;
    target_id ⇐ run_lift (lift (vget (payload_of body) "target_host_id"));
    _ ⇐ answer_if (negb (truthy target_id)) (error_resp 400 "missing target_host_id");
    let source_id := get it "host_id" in
    _ ⇐ answer_if (bool_decide (target_id = source_id)) (error_resp 400 "target_host_id must be different from source");
    key ⇐ run_lift (lift (as_key target_id));
    target ⇐ run_lift (do_ (GetItem Hosts key));
    target ⇐ answer_none (target : option item) (error_resp 404 ("target host " +:+ str_of target_id +:+ " not found"));
    _ ⇐ check_target target_id target it;
    vm_num ⇐ run_lift (lift (py_int (get_or it "vm_num" (VInt 1))));
    target_vm_num ⇐ run_lift (lift (py_int (get_or target "next_vm_num" (VInt 1))));
    now ⇐ run_lift _now;
    let uri := "s3://" +:+ env_or "ASSETS_BUCKET" "" +:+ "/migrations/" +:+ tenant_id in
    let verb := if bool_decide (mode = "cold") then "cold-dump" else "snapshot" in
    snap_cmd ⇐ run_lift (_ssm_send_val source_id
      ("/home/ubuntu/migrate-vm.sh " +:+ verb +:+ " " +:+ tenant_id +:+ " " +:+ pretty vm_num +:+ " " +:+ uri) 600);
    match snap_cmd with
    | Some cmd =>
        if bool_decide (cmd = "") then
          answer (_resp 502 (VDict [("error", VStr "failed to start migration (SSM submit)"); ("id", VStr tenant_id);
                                    ("source_host_id", source_id); ("target_host_id", target_id)]))
        else
          _ ⇐ run_lift (do_ (UpdateItem Tenants tenant_id
                 (migrating_actions target_id source_id target_vm_num cmd mode uri now) None RvNone));
          go (_resp 202 (VDict [("id", VStr tenant_id); ("status", VStr "migrating"); ("mode", VStr mode);
                ("source_host_id", source_id); ("target_host_id", target_id); ("snapshot_uri", VStr uri);
                ("poll", VStr ("/tenants/" +:+ tenant_id))]))
    | None =>
        answer (_resp 502 (VDict [("error", VStr "failed to start migration (SSM submit)"); ("id", VStr tenant_id);
                                  ("source_host_id", source_id); ("target_host_id", target_id)]))
    end).

(** ** Power actions *)

Definition dnat_rule (verb : string) (host_port guest_ip : val) : string :=
  "sudo iptables -t nat " +:+ verb +:+ " PREROUTING -i $(ip route show default | awk '{print $5}' | head -1) -p tcp --dport " +:+
  str_of host_port +:+ " -j DNAT --to-destination " +:+ str_of guest_ip +:+ ":" +:+ pretty VM_PORT_BASE.

Definition power_actions : list string := ["restart"; "stop"; "start"; "reset"; "pause"; "resume"].

(** The command of a power action and its time limit. *)
Definition power_command (tenant_id action : string) (it : item) : outcome (string * Z) :=
  if str_in action ["pause"; "resume"] then
    let state := if bool_decide (action = "pause") then "Paused" else "Resumed" in
    Ok ("curl -s --unix-socket " +:+ vm_dir tenant_id +:+ "/fc.sock -X PATCH http://localhost/vm -H " +:+
        json_str "Content-Type: application/json" +:+ " -d '{" +:+ json_str "state" +:+ ":" +:+ json_str state +:+ "}'", 30)
  else
    vm_num ← py_int (get_or it "vm_num" (VInt 1));
    let guest_ip := get_or it "guest_ip" (VStr "") in
    let host_port := get_or it "host_port" (VStr "") in
    let has_dnat := truthy guest_ip && truthy host_port in
    let stop_cmd := "/home/ubuntu/stop-vm.sh " +:+ tenant_id +:+ " " +:+ pretty vm_num in
    if bool_decide (action = "stop") then
      Ok (stop_cmd +:+ (if has_dnat then " && " +:+ dnat_rule "-D" host_port guest_ip +:+ " 2>/dev/null || true" else ""), 30)
    else
      v ← req it "vcpu"; m ← req it "mem_mb";
      let launch_cmd := "/home/ubuntu/launch-vm.sh " +:+ tenant_id +:+ " " +:+ pretty vm_num +:+ " " +:+
                        str_of v +:+ " " +:+ str_of m in
      let cmd :=
        if bool_decide (action = "restart") then stop_cmd +:+ " && sleep 2 && " +:+ launch_cmd
        else if bool_decide (action = "reset") then
          stop_cmd +:+ " && rm -f " +:+ vm_dir tenant_id +:+ "/overlay.ext4 && sleep 2 && " +:+ launch_cmd
        else launch_cmd in
      Ok (cmd +:+ (if has_dnat then " && " +:+ dnat_rule "-A" host_port guest_ip else ""), 300).

Definition power_status (action : string) : string :=
  if bool_decide (action = "stop") then "stopped" else if bool_decide (action = "pause") then "paused" else "running".

Definition _action_to_event : list (string * string) := [
  ("stop", "tenant.stopped"); ("start", "tenant.started"); ("restart", "tenant.restarted");
  ("pause", "tenant.paused"); ("resume", "tenant.resumed"); ("reset", "tenant.reset")].

Definition power_action (tenant_id action : string) (it : item) : M resp :=
  '(cmd, timeout) ← lift (power_command tenant_id action it);
  host_id ← lift (req it "host_id");
  _ ← _ssm_run_val host_id cmd timeout;
  let new_status := power_status action in
  now ← _now;
  extra ← (if bool_decide (action = "reset") then
             key ← lift (as_key host_id);
             host ← do_ (GetItem Hosts key);
             mret [SET "rootfs_version" (Lit (get_or (default ∅ (host : option item)) "rootfs_version" (VStr "")))]
           else mret []);
  _ ← do_ (UpdateItem Tenants tenant_id
             ([SET "status" (Lit (VStr new_status)); SET "updated_at" (Lit (VStr now))] ++ extra) None RvNone);
  _ ← _publish_event (default ("tenant." +:+ new_status) (alist_get action _action_to_event)) tenant_id
        (VDict [("action", VStr action); ("status", VStr new_status)]);
  mret (_resp 200 (VDict [("id", VStr tenant_id); ("status", VStr new_status)])).

Definition start_backup (tenant_id : string) : M resp :=
  _ ← do_ (LambdaInvoke (env_or "BACKUP_FUNCTION" "openclaw-backup") (VDict [("tenant_id", VStr tenant_id)]));
  _ ← _publish_event "tenant.backup_started" tenant_id (VDict []);
  mret (_resp 202 (VDict [("id", VStr tenant_id); ("action", VStr "backup"); ("status", VStr "started")])).

Definition tenant_action (tenant_id action : string) (body : req_body) : M resp :=
  it ← do_ (GetItem Tenants tenant_id);
  match it with
  | None => mret (error_resp 404 "tenant not found")
  | Some it =>
      if bool_decide (action = "cancel-migration") then cancel_migration tenant_id it
      else if bool_decide (action = "resize") then tenant_resize tenant_id body
      else if bool_decide (action = "resize-disk") then resize_disk tenant_id it body
      else if bool_decide (action = "migrate") then start_migration tenant_id it body
      else if str_in action power_actions then power_action tenant_id action it
      else if bool_decide (action = "backup") then start_backup tenant_id
      else mret (error_resp 400 ("unknown action: " +:+ action))
  end.

(** ** Batches *)

Definition _BATCH_VALID_ACTIONS : list string := ["stop"; "start"; "delete"; "backup"].
Definition _BATCH_MAX_IDS : nat := 100.

Fixpoint keep_tag (items : list item) (k v : string) : outcome (list item) :=
  match items with
  | [] => Ok []
  | it :: items' =>
      x ← vget (v_or (get it "tags") (VDict [])) k; rest ← keep_tag items' k v;
      Ok (if is_str x v then it :: rest else rest)
  end.

Definition _resolve_filter (flt : val) : M (list val) :=
  items ← _scan_all Tenants (Some live);
  let items := List.filter (fun it => negb (is_str (get it "status") "deleted")) items in
  tag_expr ← lift (vget_or flt "tag" (VStr ""));
  items ← lift (
    if negb (truthy tag_expr) then Ok items
    else match tag_expr with
         | VStr s => match split_once colon s with
                     | (k, Some v) => keep_tag items k v
                     | (_, None) => Ok []
                     end
         | _ => type_error "argument is not iterable"
         end);
  lift (mapM (M := outcome) (fun it => req it "id") items).

(** The ids a batch applies to. *)
Definition batch_targets (ids flt : val) : M (resp + list val) :=
  if negb (bool_decide (ids = VNone)) then
    match ids with
    | VList l => if (_BATCH_MAX_IDS <? length l)%nat then answer (error_resp 400 "too many ids (max 100)") else go l
    | _ => answer (error_resp 400 "ids must be an array")
    end
  else
    match flt with
    | VDict d =>
        let unknown := List.filter (fun k => negb (bool_decide (k = "tag"))) (map fst d) in
        match unknown with
        | [] => run_lift (_resolve_filter flt)
        | _ => answer (error_resp 400 ("unknown filter key(s): " +:+ repr_of (VList (map VStr (sorted_set unknown)))))
        end
    | _ => answer (error_resp 400 "filter must be an object")
    end.

Inductive batch_result := Succeeded (v : val) | Failed (v : val).

(** One element of a batch; an exception is its failure. *)
Definition batch_one (action : string) (tid : val) : M batch_result :=
  let failed msg := Failed (VDict [("id", tid); ("error", msg)]) in
  try_ (key ← lift (as_key tid);
        tenant ← do_ (GetItem Tenants key);
        match (tenant : option item) with
        | None => mret (failed (VStr "tenant not found"))
        | Some _ =>
            result ← (if bool_decide (action = "delete") then delete_tenant key [] else tenant_action key action NoBody);
            if 400 <=? statusCode result then
              err ← lift (vget_or (body result) "error" (VStr "unknown error")); mret (failed err)
            else mret (Succeeded (VDict [("id", tid); ("action", VStr action)]))
        end)
  except e => mret (failed (VStr (exn_str e))).

Fixpoint batch_all (action : string) (tids : list val) : M (list val * list val) :=
  match tids with
  | [] => mret ([], [])
  | tid :: tids' =>
      r ← batch_one action tid;
      '(s, f) ← batch_all action tids';
      mret (match r with Succeeded v => (v :: s, f) | Failed v => (s, v :: f) end)
  end.

Definition batch_tenants (body : req_body) : M resp :=
  match body with
  | NoBody => mret (error_resp 400 "missing body")
  | _ =>
      finish (
        body ⇐ run_lift (lift (load_body body));
        action ⇐ run_lift (lift (a ← vget body "action";
                   match a with VList _ | VDict _ => type_error "unhashable type" | _ => Ok a end));
        _ ⇐ answer_if (negb (is_str_in action _BATCH_VALID_ACTIONS))
              (error_resp 400 ("action must be one of " +:+ repr_of (VList (map VStr (sorted_set _BATCH_VALID_ACTIONS)))));
        ids ⇐ run_lift (lift (vget body "ids"));
        flt ⇐ run_lift (lift (vget body "filter"));
        _ ⇐ answer_if (Bool.eqb (bool_decide (ids = VNone)) (bool_decide (flt = VNone)))
              (error_resp 400 "specify exactly one of 'ids' or 'filter'");
        target_ids ⇐ batch_targets ids flt;
        '(succeeded, failed) ⇐ run_lift (batch_all (str_of action) target_ids);
        go (_resp 200 (VDict [("succeeded", VList succeeded); ("failed", VList failed)])))
  end.

(** ** Backups *)

(** [round(size / 1048576, 1)] *)
Definition size_mb (size : Z) : val :=
  VFloat (round1 (SFdiv 53 1024 (binary_normalize 53 1024 size 0 false) (binary_normalize 53 1024 1048576 0 false))).

(** [s.replace(".gz", "")] *)
Fixpoint drop_gz (fuel : nat) (s : string) : string :=
  match fuel with
  | O => s
  | S n => match s with
           | EmptyString => EmptyString
           | String c s' => if starts_with ".gz" s then drop_gz n (str_drop 3 s) else String c (drop_gz n s')
           end
  end.

Definition last_part (parts : list string) : string := default "" (list.last parts).

Definition list_backups (tenant_id : string) : M resp :=
  let bucket := env_or "ASSETS_BUCKET" "" in
  let prefix := env_or "BACKUP_PREFIX" "backups" in
  objs ← do_ (ListObjects bucket (prefix +:+ "/" +:+ tenant_id +:+ "/"));
  let backups := map (fun o =>
    let name := last_part (str_split "/" (so_key o)) in
    VDict [("key", VStr (so_key o)); ("timestamp", VStr (drop_gz (S (String.length name)) name));
           ("size_mb", size_mb (so_size o))])
    (sort_by (fun a b => str_le (so_key b) (so_key a)) objs) in
  mret (_resp 200 (VDict [("tenant_id", VStr tenant_id); ("backups", VList backups)])).

(** The tenants by id: their name, and whether they are not deleted. *)
Fixpoint tenant_info (tenants : list item) : outcome (list (string * (val * bool))) :=
  match tenants with
  | [] => Ok []
  | t :: ts =>
      i ← req t "id"; rest ← tenant_info ts;
      let info := (get_or t "name" (VStr ""), negb (is_str (get t "status") "deleted")) in
      Ok (match i with VStr i => (i, info) :: rest | _ => rest end)
  end.

(** A backup object: its tenant id and timestamp, from its key. *)
Definition backup_of (o : s3_object) : option (string * string) :=
  let parts := str_split "/" (so_key o) in
  let name := last_part parts in
  if (length parts <? 3)%nat || negb (ends_with ".gz" name) then None
  else Some (default "" (parts !! (length parts - 2)%nat), str_take (String.length name - 3) name).

Definition list_all_backups : M resp :=
  let bucket := env_or "ASSETS_BUCKET" "" in
  let prefix := env_or "BACKUP_PREFIX" "backups" in
  tenants ← _scan_all Tenants None;
  info ← lift (tenant_info tenants);
  objs ← do_ (ListObjects bucket (prefix +:+ "/"));
  let rows := omap (M := list) (fun o =>
    match backup_of o with
    | None => None
    | Some (src, ts) =>
        let '(name, exists_) := default (VNone, false) (alist_get src info) in
        Some (isoformat (so_modified o),
              VDict [("tenant_id", VStr src); ("tenant_name", name); ("tenant_exists", VBool exists_);
                     ("timestamp", VStr ts); ("size_bytes", VInt (so_size o));
                     ("last_modified", VStr (isoformat (so_modified o)))])
    end) objs in
  mret (_resp 200 (VList (map snd (sort_by (fun a b => str_le b.1 a.1) rows)))).

Definition tenant_get_action (tenant_id action : string) : M resp :=
  if bool_decide (action = "backups") then list_backups tenant_id
  else mret (error_resp 400 ("unknown GET action: " +:+ action)).
End Actions.
