(* ===== verification/Accounting.v ===== *)
(** * Capacity accounting

    The invariant that ties the two tables together: the counters of every host
    row are the sums over the tenants placed on it that are not deleted.
    [keeps p] says that a program preserves it, in every environment whose
    tables behave as documented and whatever the other services answer. *)

From S2P Require Import Prelude Py Effects Aws Iso Ddb Config Validate Ssm Capacity Rbac Placement Alb Tenants.

(** A tenant that occupies its host. *)
Definition occupies (iid : string) (it : item) : bool :=
  is_str (get it "host_id") iid && negb (is_str (get it "status") "deleted").

(** The integer in a field. *)
Definition int_field (k : string) (it : item) : Z :=
  match it !! k with Some (VInt z) => z | _ => 0 end.

(** A sum over the occupants of a host. *)
Definition occupancy (f : item -> Z) (iid : string) (rows : gmap string item) : Z :=
  zsum (fun kv : string * item => if occupies iid kv.2 then f kv.2 else 0) (map_to_list rows).

(** A tenant row as the API writes it. *)
Definition tenant_row (tid : string) (it : item) : Prop :=
  it !! "id" = Some (VStr tid) /\
  (exists v, it !! "vcpu" = Some (VInt v)) /\ (exists m, it !! "mem_mb" = Some (VInt m)).

(** The health check keeps bookkeeping records of its own in the hosts table,
    under keys that start with two underscores: they are not hosts. *)
Definition real_host (i : string) : bool := nonempty i && negb (starts_with "__" i).

(** The accounting, when host [iid] carries [v], [m] and [n] more than its
    tenants explain. *)
Definition accounted_with (d : db) (iid : string) (v m n : Z) : Prop :=
  (forall i r, db_get d Hosts i = Some r -> real_host i = true ->
     let e x := if decide (i = iid) then x else 0 in
     r !! "instance_id" = Some (VStr i) /\
     exists next, host_row r
       (occupancy (int_field "vcpu") i (db_rows d Tenants) + e v)
       (occupancy (int_field "mem_mb") i (db_rows d Tenants) + e m)
       (occupancy (fun _ => 1) i (db_rows d Tenants) + e n) next) /\
  (forall tid it, db_get d Tenants tid = Some it -> tenant_row tid it).

Definition accounted (d : db) : Prop := accounted_with d "" 0 0 0.

(** ** Sums over the tenants *)

Definition share (f : item -> Z) (iid : string) (it : option item) : Z :=
  match it with Some it => if occupies iid it then f it else 0 | None => 0 end.

Lemma occupancy_insert f iid rows k it :
  occupancy f iid (<[k := it]> rows) = occupancy f iid rows - share f iid (rows !! k) + share f iid (Some it).
Proof.
  assert (forall m, m !! k = None ->
    occupancy f iid (<[k := it]> m) = occupancy f iid m + share f iid (Some it)) as Hnew.
  { intros m Hm. unfold occupancy. rewrite (zsum_Permutation _ _ _ (map_to_list_insert m k it Hm)).
    unfold zsum. cbn. lia. }
  destruct (rows !! k) as [old|] eqn:Ek; [|rewrite Hnew by done; cbn; lia].
  rewrite <- (insert_delete_eq rows k it), Hnew by apply lookup_delete_eq.
  assert (occupancy f iid rows = occupancy f iid (delete k rows) + share f iid (Some old)) as ->; [|lia].
  unfold occupancy. rewrite <- (zsum_Permutation _ _ _ (map_to_list_delete rows k old Ek)).
  unfold zsum. cbn. lia.
Qed.

Lemma accounted_with_zero d iid : accounted_with d iid 0 0 0 <-> accounted d.
Proof.
  unfold accounted, accounted_with. split; intros [Hh Ht]; split; try done; intros i r Hr Hreal;
    specialize (Hh i r Hr Hreal); cbn beta zeta in Hh |- *; repeat case_decide; done.
Qed.

(** Nothing is booked on what is not a host. *)
Lemma accounted_with_unreal d i v m n v' m' n' :
  real_host i = false -> accounted_with d i v m n -> accounted_with d i v' m' n'.
Proof.
  intros Hu [Hh Ht]. split; [|done]. intros j r Hr Hreal. specialize (Hh j r Hr Hreal).
  cbn beta zeta in Hh |- *. by rewrite !decide_False in Hh |- * by congruence.
Qed.

(** The rows of the other tables do not matter. *)
Lemma db_rows_set_ne d t t' m : t <> t' -> db_rows (db_set d t m) t' = db_rows d t'.
Proof. intros. unfold db_set. cbn. by rewrite decide_False. Qed.
Lemma db_rows_set_eq d t m : db_rows (db_set d t m) t = m.
Proof. unfold db_set. cbn. by rewrite decide_True. Qed.

(** The three quantities that are accounted. *)
Definition measures : list (item -> Z) := [int_field "vcpu"; int_field "mem_mb"; fun _ => 1].

(** A change of one tenant row moves its share. *)
Lemma accounted_tenant d iid v m n tid it :
  accounted_with d iid v m n -> tenant_row tid it ->
  (forall i, i <> iid -> real_host i = true -> forall f, In f measures ->
     share f i (db_get d Tenants tid) = share f i (Some it)) ->
  accounted_with (db_set d Tenants (<[tid := it]> (db_rows d Tenants))) iid
    (v + share (int_field "vcpu") iid (db_get d Tenants tid) - share (int_field "vcpu") iid (Some it))
    (m + share (int_field "mem_mb") iid (db_get d Tenants tid) - share (int_field "mem_mb") iid (Some it))
    (n + share (fun _ => 1) iid (db_get d Tenants tid) - share (fun _ => 1) iid (Some it)).
Proof.
  intros [Hh Ht] Hrow Hother. split.
  - intros i r Hr Hreal. unfold db_get in Hr. rewrite db_rows_set_ne in Hr by done.
    rewrite db_rows_set_eq, !occupancy_insert. fold (db_get d Tenants tid).
    destruct (Hh i r Hr Hreal) as (Hi & next & Hrow'). split; [done|]. exists next. cbn beta zeta in Hrow' |- *.
    case_decide as Hd.
    + subst i.
      replace (occupancy (int_field "vcpu") iid (db_rows d Tenants) - _ + _ + _)
        with (occupancy (int_field "vcpu") iid (db_rows d Tenants) + v) by lia.
      replace (occupancy (int_field "mem_mb") iid (db_rows d Tenants) - _ + _ + _)
        with (occupancy (int_field "mem_mb") iid (db_rows d Tenants) + m) by lia.
      replace (occupancy (fun _ => 1) iid (db_rows d Tenants) - _ + _ + _)
        with (occupancy (fun _ => 1) iid (db_rows d Tenants) + n) by lia. done.
    + rewrite !(Hother i Hd Hreal) by (cbn; tauto). rewrite !Z.sub_add. done.
  - intros t' it' Ht'. unfold db_get in Ht'. rewrite db_rows_set_eq in Ht'.
    destruct (decide (t' = tid)) as [->|Hne].
    + rewrite lookup_insert_eq in Ht'. by injection Ht' as <-.
    + rewrite lookup_insert_ne in Ht' by done. by apply Ht.
Qed.

(** A host row and the counters it should have. *)
Definition explained (d : db) (i : string) (r : item) (v m n : Z) : Prop :=
  r !! "instance_id" = Some (VStr i) /\ exists next, host_row r
    (occupancy (int_field "vcpu") i (db_rows d Tenants) + v)
    (occupancy (int_field "mem_mb") i (db_rows d Tenants) + m)
    (occupancy (fun _ => 1) i (db_rows d Tenants) + n) next.

Lemma accounted_this d iid v m n r :
  accounted_with d iid v m n -> real_host iid = true -> db_get d Hosts iid = Some r ->
  explained d iid r v m n.
Proof.
  intros [Hh _] Hreal Hr. specialize (Hh iid r Hr Hreal). cbn beta zeta in Hh.
  by rewrite !decide_True in Hh by done.
Qed.

(** A change of one host row, from the accounting with other offsets. *)
Lemma accounted_host d iid v m n v' m' n' r' :
  accounted_with d iid v m n ->
  (real_host iid = true -> explained d iid r' v' m' n') ->
  accounted_with (db_set d Hosts (<[iid := r']> (db_rows d Hosts))) iid v' m' n'.
Proof.
  intros [Hh Ht] Hrow. split.
  - intros i r Hr Hreal. unfold db_get in Hr. rewrite db_rows_set_eq in Hr. rewrite db_rows_set_ne by done.
    cbn beta zeta. destruct (decide (i = iid)) as [->|Hne].
    + rewrite lookup_insert_eq in Hr. injection Hr as <-. by apply Hrow.
    + rewrite lookup_insert_ne in Hr by done. specialize (Hh i r Hr Hreal). cbn beta zeta in Hh.
      by rewrite !decide_False in Hh by done.
  - intros tid it Hit. unfold db_get in Hit. rewrite db_rows_set_ne in Hit by done. by apply Ht.
Qed.

(** An update of a row of the hosts table. *)
Lemma update_host_step iid acts c rv d r d' :
  dynamo_step (UpdateItem Hosts iid acts c rv) d r d' ->
  match r with
  | inl x => exists new, update_row Hosts iid acts c (db_get d Hosts iid) = Ok new /\
      x = returned rv acts (db_get d Hosts iid) new /\
      d' = db_set d Hosts (<[iid := new]> (db_rows d Hosts))
  | inr _ => d' = d
  end.
Proof.
  cbn. destruct (update_row _ _ _ _ _) as [new|e|]; [intros [-> ->]; eauto|by intros [-> ->]|done].
Qed.

(** ** Programs that keep the accounting *)

Definition after (P : db -> Prop) {A} (p : M A) (d : db) : Prop :=
  wp (S := aws) dynamo_step p d (fun _ d' _ => P d').

Definition keeps {A} (p : M A) : Prop := forall d, accounted d -> after accounted p d.

Definition quiet {A} (p : M A) : Prop := awp p (fun _ t => Forall no_write t).

Lemma after_quiet {A} (P : db -> Prop) (p : M A) d : quiet p -> P d -> after P p d.
Proof.
  intros Hq HP. eapply wp_mono; [apply (wp_no_write p d (fun _ _ => True))|].
  - eapply awp_mono; [apply Hq|]. auto.
  - by intros o d' t [_ ->].
Qed.

Lemma after_bind {A B} (P : db -> Prop) (f : A -> M B) (p : M A) d :
  wp (S := aws) dynamo_step p d (fun o d' _ => match o with Ok a => after P (f a) d' | _ => P d' end) ->
  after P (p ≫= f) d.
Proof.
  intros Hp. apply wp_bind. eapply wp_mono; [apply Hp|]. by intros [a| |] d' t.
Qed.

(** A quiet program in front. *)
Lemma after_quiet_bind {A B} (P : db -> Prop) (f : A -> M B) (p : M A) d :
  quiet p -> P d -> (forall a, after P (f a) d) -> after P (p ≫= f) d.
Proof.
  intros Hq HP Hf. apply after_bind. eapply wp_mono; [apply (wp_no_write p d (fun _ _ => True))|].
  - eapply awp_mono; [apply Hq|]. auto.
  - intros [a| |] d' t [_ ->]; auto.
Qed.

Lemma after_ebind_quiet {A B} (P : db -> Prop) (k : A -> M (resp + B)) (p : M (resp + A)) d :
  quiet p -> P d -> (forall a, after P (k a) d) -> after P (ebind k p) d.
Proof. intros Hq HP Hk. apply after_quiet_bind; [done..|]. intros [r|a]; [done|apply Hk]. Qed.

Lemma after_finish (P : db -> Prop) (p : M (resp + resp)) d : after P p d -> after P (finish p) d.
Proof. intros Hp. apply after_bind. eapply wp_mono; [apply Hp|]. by intros [[]| |] d' t ?. Qed.

Lemma quiet_bind {A B} (p : M A) (f : A -> M B) : quiet p -> (forall a, quiet (f a)) -> quiet (p ≫= f).
Proof. apply awp_all_events_bind. Qed.
Lemma quiet_ret {A} (a : A) : quiet (mret a : M A).
Proof. apply awp_all_events_done. Qed.
Lemma quiet_lift {A} (o : outcome A) : quiet (lift o : M A).
Proof. apply awp_all_events_done. Qed.
Lemma quiet_do c : (forall r, no_write (Ev (S := aws) c r)) -> quiet (do_ c).
Proof. exact (awp_all_events_call (S := aws) c no_write). Qed.
Lemma quiet_ebind {A B} (p : M (resp + A)) (k : A -> M (resp + B)) :
  quiet p -> (forall a, quiet (k a)) -> quiet (ebind k p).
Proof. intros Hp Hk. apply quiet_bind; [done|]. intros [r|a]; [apply quiet_ret|apply Hk]. Qed.
Lemma quiet_run_lift {A} (p : M A) : quiet p -> quiet (run_lift p).
Proof. intros Hp. apply quiet_bind; [done|]. intros a. apply quiet_ret. Qed.
Lemma quiet_catch {A} (p : M A) h : quiet p -> (forall e, quiet (h e)) -> quiet (catch p h).
Proof. apply awp_all_events_catch. Qed.
Lemma quiet_attempt {A} (p : M A) : quiet p -> quiet (attempt p).
Proof. apply awp_all_events_attempt. Qed.
Lemma quiet_no_fuel {A} : quiet (no_fuel : M A).
Proof. apply awp_all_events_done. Qed.
Lemma quiet_raise {A} e : quiet (raise e : M A).
Proof. apply awp_all_events_done. Qed.
Lemma quiet_for {A} (l : list A) (body : A -> M unit) : (forall x, quiet (body x)) -> quiet (for_each l body).
Proof. intros Hb. apply awp_all_events_for. intros x _. apply Hb. Qed.

#[export] Hint Resolve quiet_ret quiet_lift quiet_no_fuel quiet_raise : oc.

(** Peel a quiet program; the calls that are themselves proved quiet are left
    to the hints. *)
Ltac quiet_step :=
  match goal with
  | |- quiet (mret _) => apply quiet_ret
  | |- quiet (lift _) => apply quiet_lift
  | |- quiet no_fuel => apply quiet_no_fuel
  | |- quiet (raise _) => apply quiet_raise
  | |- quiet (go _) => apply quiet_ret
  | |- quiet (answer _) => apply quiet_ret
  | |- quiet (answer_if _ _) => unfold answer_if
  | |- quiet (answer_none _ _) => unfold answer_none
  | |- quiet (do_ ?c) => apply (quiet_do c); intros ?; exact I
  | |- quiet _now => apply quiet_bind; [apply (quiet_do NowUtc); intros ?; exact I|intros ?; apply quiet_ret]
  | |- quiet (run_lift _) => apply quiet_run_lift
  | |- quiet (ebind _ _) => apply quiet_ebind; [|intros ?]
  | |- quiet (catch _ _) => apply quiet_catch; [|intros ?]
  | |- quiet (attempt _) => apply quiet_attempt
  | |- quiet (for_each _ _) => apply quiet_for; intros ?
  | |- quiet (_ ≫= _) => apply quiet_bind; [|intros ?]
  | |- quiet (pbind _ _) => apply quiet_bind; [|intros ?]
  | |- context [match ?x with _ => _ end] => destruct x
  end.
Ltac quiet := repeat (cbn beta zeta; first [quiet_step | solve [auto 2 with oc nocore]]).

(** ** The parts of the API that do not write the tables *)

Section Quiet.
Context `{Config}.

Lemma quiet_scan n t f start items : quiet (scan_pages n t f start items).
Proof.
  revert start items; induction n as [|n IH]; intros start items; cbn [scan_pages]; [quiet|].
  apply quiet_bind; [quiet|]. intros p. cbn zeta. destruct (pg_last p); [apply IH|quiet].
Qed.
Lemma quiet_scan_all t f : quiet (_scan_all t f).
Proof. apply quiet_scan. Qed.

Lemma quiet_run_loop n cid i p : quiet (ssm_run_loop n cid i p).
Proof.
  induction n as [|n IH]; cbn [ssm_run_loop]; [quiet|]. repeat first [apply IH|quiet_step].
Qed.
Lemma quiet_ssm_run i c t : quiet (_ssm_run i c t).
Proof.
  unfold _ssm_run, ssm_run, send_command. repeat first [apply quiet_run_loop|quiet_step].
Qed.
Lemma quiet_ssm_send i c t : quiet (_ssm_send i c t).
Proof. unfold _ssm_send, ssm_send, send_command. quiet. Qed.

Lemma quiet_rank v m : quiet (_rank_candidate_hosts v m).
Proof. unfold _rank_candidate_hosts. apply quiet_bind; [apply quiet_scan|]. intros. quiet. Qed.
Lemma quiet_pick v m : quiet (_pick_hosts_for_create v m).
Proof. unfold _pick_hosts_for_create, shuffle. apply quiet_bind; [apply quiet_rank|]. intros. quiet. Qed.
Lemma quiet_specific i v m : quiet (_get_specific_host_with_capacity i v m).
Proof. unfold _get_specific_host_with_capacity. quiet. Qed.
Lemma quiet_backup s t : quiet (_resolve_backup s t).
Proof. unfold _resolve_backup. quiet. Qed.
Lemma quiet_scale_out : quiet _scale_out.
Proof. unfold _scale_out. quiet. Qed.

Lemma quiet_ensure_tg i ip f : quiet (_ensure_host_tg i ip f).
Proof. unfold _ensure_host_tg. quiet. Qed.
Lemma quiet_add_attempts n mx arn tid tg : quiet (add_rule_attempts n mx arn tid tg).
Proof.
  induction n as [|n IH]; cbn [add_rule_attempts]; [quiet|]. unfold choice. repeat first [apply IH|quiet_step].
Qed.
Lemma quiet_add_rule tid tg f : quiet (_add_alb_rule tid tg f).
Proof. unfold _add_alb_rule. repeat first [apply quiet_add_attempts|quiet_step]. Qed.
Lemma quiet_remove_rule tid : quiet (_remove_alb_rule tid).
Proof. unfold _remove_alb_rule. quiet. Qed.
Lemma quiet_launch i tid n v m ip p c k s : quiet (_launch_vm i tid n v m ip p c k s).
Proof. unfold _launch_vm. apply quiet_bind; [apply quiet_ssm_send|]. intros. quiet. Qed.

Lemma quiet_ssm_run_val v c t : quiet (_ssm_run_val v c t).
Proof. destruct v; cbn [_ssm_run_val]; first [apply quiet_ssm_run|quiet]. Qed.
Lemma quiet_ssm_send_val v c t : quiet (_ssm_send_val v c t).
Proof. destruct v; cbn [_ssm_send_val]; first [apply quiet_ssm_send|quiet]. Qed.
Lemma quiet_stop h t it : quiet (stop_on_host h t it).
Proof. unfold stop_on_host. repeat first [apply quiet_ssm_run_val|quiet_step]. Qed.
Lemma quiet_publish e t d : quiet (_publish_event e t d).
Proof. unfold _publish_event. quiet. Qed.
Lemma quiet_skills it : quiet (_resolve_effective_skills it).
Proof. unfold _resolve_effective_skills. quiet. Qed.
Lemma quiet_gen_id n : quiet (_gen_id n).
Proof. unfold _gen_id. quiet. Qed.
Lemma quiet_ttl a b : quiet (_parse_ttl a b).
Proof. unfold _parse_ttl. quiet. Qed.
End Quiet.

#[export] Hint Resolve quiet_scan_all quiet_ssm_run quiet_ssm_send quiet_pick quiet_specific quiet_backup
  quiet_scale_out quiet_ensure_tg quiet_add_rule quiet_remove_rule quiet_launch quiet_publish
  quiet_skills quiet_gen_id quiet_ttl : oc.

Section Keeps.
Context `{Config}.

Lemma quiet_parse_create body : quiet (parse_create body).
Proof.
  unfold parse_create, parse_skills, parse_group, parse_clone, parse_restore.
  repeat first [apply quiet_ttl | apply quiet_backup | quiet_step].
Qed.

Lemma quiet_choose c : quiet (choose_host c).
Proof.
  unfold choose_host. repeat first [apply quiet_specific | apply quiet_pick | quiet_step].
Qed.
(** A booking adds the size of the VM to one host, or changes nothing that is
    accounted. *)
Lemma reserve_accounted h v m d :
  accounted d ->
  wp (S := aws) dynamo_step (_reserve_host_slot h v m) d (fun o d' _ =>
    db_rows d' Tenants = db_rows d Tenants /\
    match o with
    | Ok (Some _) => exists iid, instance_id h = Ok iid /\ accounted_with d' iid v m 1
    | _ => accounted d'
    end).
Proof.
  intros Ha. destruct (instance_id h) as [iid|e|] eqn:Ei;
    [|unfold _reserve_host_slot; rewrite Ei; do_bind; cbn [lift wp]; done..].
  destruct (reserve_limits h) as [[lv lm]|e|] eqn:El;
    [|unfold _reserve_host_slot; rewrite Ei, El; do_bind; cbn [lift wp]; do_bind; cbn [lift wp]; done..].
  assert (Hgen : (forall r, real_host iid = true -> db_get d Hosts iid <> Some r) ->
    wp (S := aws) dynamo_step (_reserve_host_slot h v m) d (fun o d' _ =>
      db_rows d' Tenants = db_rows d Tenants /\
      match o with
      | Ok (Some _) => exists iid', Ok iid = Ok iid' /\ accounted_with d' iid' v m 1
      | _ => accounted d'
      end)).
  { intros Hno. unfold _reserve_host_slot. rewrite Ei, El. do_bind. do_ret. do_bind. do_ret.
    do_bind. do_attempt. do_call. intros rep d' Hs.
    destruct rep as [x|e]; [|apply update_host_step in Hs as ->; destruct (conditional_failed e); done].
    destruct (real_host iid) eqn:Hreal.
    { exfalso. cbn in Hs. unfold update_row in Hs. destruct (db_get d Hosts iid) as [r|]; [by eapply Hno|].
      unfold reserve_cond in Hs. destruct (MAX_VMS_PER_HOST =? 0); cbn in Hs; by destruct Hs. }
    apply update_host_step in Hs as (new & _ & _ & ->).
    assert (forall v' m' n', accounted_with (db_set d Hosts (<[iid:=new]> (db_rows d Hosts))) iid v' m' n') as Hun
      by (intros; apply (accounted_host d iid 0 0 0); [by apply accounted_with_zero|congruence]).
    assert (accounted (db_set d Hosts (<[iid:=new]> (db_rows d Hosts)))) as Ha'
      by (by apply (accounted_with_zero _ iid)).
    do_bind. do_ret. destruct (booked_vm_num h x); (split; [by apply db_rows_set_ne|]); [|done..].
    exists iid. split; [done|apply Hun]. }
  destruct (real_host iid) eqn:Hreal; [|by apply Hgen].
  destruct (db_get d Hosts iid) as [r|] eqn:Er; [|by apply Hgen].
  destruct (accounted_this d iid 0 0 0 r) as (Hid & next & Hrow); [by apply accounted_with_zero|done..|].
  eapply wp_mono; [apply (reserve_spec h iid d r _ _ _ next lv lm v m Ei El Er Hrow)|].
  cbn beta. intros o d' t. destruct (admits _ _ _ _ _ _ _); [|by intros [-> ->]].
  intros [-> ->]. split; [by apply db_rows_set_ne|]. exists iid. split; [done|].
  apply (accounted_host d iid 0 0 0); [by apply accounted_with_zero|]. intros _.
  split; [unfold booked; by simplify_map_eq|].
  exists (next + 1). pose proof (booked_row r (occupancy (int_field "vcpu") iid (db_rows d Tenants) + 0)
    (occupancy (int_field "mem_mb") iid (db_rows d Tenants) + 0)
    (occupancy (fun _ => 1) iid (db_rows d Tenants) + 0) next v m) as Hb.
  by rewrite !Z.add_0_r in Hb |- *.
Qed.

Lemma reserve_first_accounted l v m d :
  accounted d ->
  wp (S := aws) dynamo_step (reserve_first l v m) d (fun o d' _ =>
    db_rows d' Tenants = db_rows d Tenants /\
    match o with
    | Ok (Some (h, _)) => exists iid, instance_id h = Ok iid /\ accounted_with d' iid v m 1
    | _ => accounted d'
    end).
Proof.
  revert d; induction l as [|h l IH]; intros d Ha; cbn [reserve_first]; [done|].
  do_bind. eapply wp_mono; [by apply reserve_accounted|].
  intros [[n|]| |] d' t [Ht Hd]; try done.
  eapply wp_mono; [by apply IH|]. intros o d2 t' [Ht' Hd']. by rewrite Ht'.
Qed.

Lemma put_tenant_step tid it d r d' :
  it !! "id" = Some (VStr tid) ->
  dynamo_step (PutItem Tenants it None) d r d' ->
  r = inl tt /\ d' = db_set d Tenants (<[tid := it]> (db_rows d Tenants)).
Proof. intros Hid. cbn. unfold item_key. cbn. by rewrite Hid. Qed.

(** The fields that the accounting reads, on the two rows of a creation. *)
Lemma with_options_lookup c it k :
  k <> "skills" -> k <> "group" -> with_options c it !! k = it !! k.
Proof.
  intros H1 H2. unfold with_options. destruct (nonempty _); rewrite ?lookup_insert_ne by done;
    destruct (cr_skills c); by rewrite ?lookup_insert_ne by done.
Qed.
Lemma with_ttl_lookup c it k :
  k <> "expires_at" -> k <> "on_expiry" -> k <> "ttl_hours" -> k <> "schedule" ->
  with_ttl_schedule c it !! k = it !! k.
Proof.
  intros. unfold with_ttl_schedule. destruct (truthy _); rewrite ?lookup_insert_ne by done;
    destruct (cr_ttl c); by rewrite ?lookup_insert_ne by done.
Qed.

Lemma pending_row c tid now k v :
  alist_get k [("id", VStr tid); ("vcpu", VInt (cr_vcpu c)); ("mem_mb", VInt (cr_mem_mb c));
               ("status", VStr "pending")] = Some v ->
  pending_item c tid now !! k = Some v.
Proof.
  intros Hk. unfold pending_item. cbn in Hk. repeat case_bool_decide; subst; try done;
    rewrite with_ttl_lookup, with_options_lookup by done; injection Hk as <-; reflexivity.
Qed.
Lemma pending_no_host c tid now : pending_item c tid now !! "host_id" = None.
Proof. unfold pending_item. by rewrite with_ttl_lookup, with_options_lookup by done. Qed.

Lemma creating_row c tid now hid h n ip p k v :
  alist_get k [("id", VStr tid); ("vcpu", VInt (cr_vcpu c)); ("mem_mb", VInt (cr_mem_mb c));
               ("status", VStr "creating"); ("host_id", VStr hid)] = Some v ->
  creating_item c tid now hid h n ip p !! k = Some v.
Proof.
  intros Hk. unfold creating_item. cbn in Hk. repeat case_bool_decide; subst; try done;
    rewrite with_ttl_lookup by done; destruct (truthy _);
    rewrite ?lookup_insert_ne, with_options_lookup by done; injection Hk as <-; reflexivity.
Qed.

Lemma share_absent f i : share f i None = 0.
Proof. done. Qed.
Lemma share_none f i it : it !! "host_id" = None -> share f i (Some it) = 0.
Proof. intros Hh. unfold share, occupies, get, get_or. by rewrite Hh. Qed.
Lemma share_deleted f i it : it !! "status" = Some (VStr "deleted") -> share f i (Some it) = 0.
Proof.
  intros Hs. unfold share, occupies, get, get_or. rewrite Hs. cbn. by rewrite andb_false_r.
Qed.
Lemma share_placed f i it hid st :
  it !! "host_id" = Some (VStr hid) -> it !! "status" = Some (VStr st) -> st <> "deleted" ->
  share f i (Some it) = if decide (i = hid) then f it else 0.
Proof.
  intros Hh Hs Hst. unfold share, occupies, get, get_or. rewrite Hh, Hs. cbn.
  rewrite (bool_decide_eq_false_2 (st = "deleted")) by done. cbn. rewrite andb_true_r.
  destruct (decide (i = hid)) as [->|]; [by rewrite bool_decide_eq_true_2|by rewrite bool_decide_eq_false_2 by congruence].
Qed.

Lemma pending_tenant_row c tid now : tenant_row tid (pending_item c tid now).
Proof. split; [|split; eexists]; by apply pending_row. Qed.
Lemma creating_tenant_row c tid now hid h n ip p : tenant_row tid (creating_item c tid now hid h n ip p).
Proof. split; [|split; eexists]; by apply creating_row. Qed.

(** A waiting tenant occupies no host. *)
Lemma put_pending_accounted c tid now d :
  accounted d -> db_get d Tenants tid = None ->
  accounted (db_set d Tenants (<[tid := pending_item c tid now]> (db_rows d Tenants))).
Proof.
  intros Ha Hnew. apply (accounted_with_zero _ "").
  pose proof (accounted_tenant d "" 0 0 0 tid (pending_item c tid now) Ha (pending_tenant_row c tid now)) as Hp.
  assert (forall f i, share f i (Some (pending_item c tid now)) = 0) as Hz
    by (intros; apply share_none, pending_no_host).
  rewrite Hnew, !Hz, !share_absent in Hp. apply Hp. intros i _ _ f _. by rewrite Hz.
Qed.

Lemma park_pending_keeps c tid now msg d :
  accounted d -> db_get d Tenants tid = None -> after accounted (park_pending c tid now msg) d.
Proof.
  intros Ha Hnew. unfold park_pending. apply after_bind. do_call. intros r d' Hs.
  apply (put_tenant_step tid) in Hs as [-> ->]; [|by apply (pending_tenant_row c tid now)].
  apply after_quiet; [|by apply put_pending_accounted]. repeat first [apply quiet_scale_out|apply quiet_publish|quiet_step].
Qed.

(** The row of a placed tenant explains the booking made for it. *)
Lemma put_creating_accounted c tid now hid h n ip p d :
  accounted_with d hid (cr_vcpu c) (cr_mem_mb c) 1 -> db_get d Tenants tid = None ->
  accounted (db_set d Tenants (<[tid := creating_item c tid now hid h n ip p]> (db_rows d Tenants))).
Proof.
  intros Ha Hnew. apply (accounted_with_zero _ hid).
  set (it := creating_item c tid now hid h n ip p).
  assert (forall f i, share f i (Some it) = if decide (i = hid) then f it else 0) as Hz.
  { intros. apply (share_placed _ _ _ _ "creating"); by try apply creating_row. }
  pose proof (accounted_tenant d hid _ _ _ tid it Ha (creating_tenant_row c tid now hid h n ip p)) as Hp.
  assert (int_field "vcpu" it = cr_vcpu c) as Ev by (unfold int_field, it;
    by rewrite (creating_row c tid now hid h n ip p "vcpu" (VInt (cr_vcpu c)) eq_refl)).
  assert (int_field "mem_mb" it = cr_mem_mb c) as Em by (unfold int_field, it;
    by rewrite (creating_row c tid now hid h n ip p "mem_mb" (VInt (cr_mem_mb c)) eq_refl)).
  rewrite Hnew, !Hz, !decide_True, Ev, Em in Hp by done.
  rewrite !share_absent, !Z.add_0_r, !Z.sub_diag in Hp.
  apply Hp. intros i Hi _ f _. by rewrite Hz, decide_False.
Qed.

(** Marking a tenant deleted takes its share away. *)
Definition mark (status now : string) (it : item) : item :=
  <["updated_at" := VStr now]> (<["status" := VStr status]> it).

Lemma set_status_step tid st now d r d' it :
  db_get d Tenants tid = Some it ->
  dynamo_step (set_status tid st now) d r d' ->
  (exists x, r = inl x) /\ d' = db_set d Tenants (<[tid := mark st now it]> (db_rows d Tenants)).
Proof. intros Hit. cbn. unfold update_row. rewrite Hit. cbn. intros [-> ->]. by eauto. Qed.

Lemma mark_tenant_row tid st now it : tenant_row tid it -> tenant_row tid (mark st now it).
Proof. intros (Hid & Hv & Hm). unfold tenant_row, mark. by rewrite !lookup_insert_ne by done. Qed.

Lemma delete_row_accounted d hid v m n tid it now :
  accounted_with d hid v m n -> db_get d Tenants tid = Some it ->
  (forall i, i <> hid -> real_host i = true -> forall f, share f i (Some it) = 0) ->
  accounted_with (db_set d Tenants (<[tid := mark "deleted" now it]> (db_rows d Tenants))) hid
    (v + share (int_field "vcpu") hid (Some it)) (m + share (int_field "mem_mb") hid (Some it))
    (n + share (fun _ => 1) hid (Some it)).
Proof.
  intros Ha Hit Hother. set (it' := mark "deleted" now it).
  assert (forall f i, share f i (Some it') = 0) as Hz.
  { intros. apply share_deleted. unfold it', mark. by simplify_map_eq. }
  pose proof (accounted_tenant d hid v m n tid it' Ha) as Hp. rewrite Hit, !Hz, !Z.sub_0_r in Hp.
  apply Hp; [apply mark_tenant_row; by apply Ha|]. intros i Hi He f _. by rewrite Hz, Hother.
Qed.

Lemma released_count r v m new :
  apply_actions r (release_actions v m) r = Ok new -> exists n, new !! "vm_count" = Some (VInt n).
Proof.
  cbn. destruct (r !! "used_vcpu") as [[]|]; try done. cbn. destruct (r !! "used_mem_mb") as [[]|]; try done.
  cbn. destruct (r !! "vm_count") as [[]|]; try done. cbn. intros [= <-]. eexists. by rewrite lookup_insert_eq.
Qed.

(** Giving back the size of a VM: one atomic update of the host row, which
    fails when the row is gone. *)
Lemma release_step iid v m v0 m0 n0 rv d r d' :
  accounted_with d iid v0 m0 n0 ->
  dynamo_step (UpdateItem Hosts iid (release_actions v m) None rv) d r d' ->
  match r with
  | inl x => accounted_with d' iid (v0 - v) (m0 - m) (n0 - 1) /\ db_rows d' Tenants = db_rows d Tenants /\
             (rv = AllNew -> exists row n, x = Some row /\ row !! "vm_count" = Some (VInt n))
  | inr _ => d' = d
  end.
Proof.
  intros Ha Hs%update_host_step. destruct r as [x|e]; [|done]. destruct Hs as (new & Hnew & -> & ->).
  unfold update_row in Hnew. cbn [cond_holds] in Hnew.
  split; [|split; [by apply db_rows_set_ne|]].
  2: { intros ->. apply released_count in Hnew as [n Hn]. cbn. eauto. }
  apply (accounted_host d iid v0 m0 n0); [done|]. intros Hreal.
  destruct (db_get d Hosts iid) as [row|] eqn:Er; [|done].
  destruct (accounted_this _ _ _ _ _ _ Ha Hreal Er) as (Hid & next & Hrow).
  cbn [base_item default] in Hnew. unfold id in Hnew.
  rewrite (apply_release _ _ _ _ _ _ _ Hrow) in Hnew. injection Hnew as <-.
  split; [unfold released; by simplify_map_eq|].
  exists next. pose proof (released_row _ _ _ _ _ v m Hrow) as Hr. by rewrite <- !Z.add_sub_assoc in Hr.
Qed.

Lemma wp_now (Q : outcome string -> db -> list ev -> Prop) d :
  (forall us, Q (Ok (isoformat us)) d [Ev (S := aws) NowUtc (inl us)]) -> wp (S := aws) dynamo_step _now d Q.
Proof.
  intros HQ. unfold _now. do_bind. do_call. cbn [dynamo_step]. intros r d' [(us & ->) ->]. do_ret. apply HQ.
Qed.

Lemma clone_disks_keeps c hid tid n d it :
  accounted d -> db_get d Tenants tid = Some it ->
  (forall f i, share f i (Some it) = if decide (i = hid) then f it else 0) ->
  int_field "vcpu" it = cr_vcpu c -> int_field "mem_mb" it = cr_mem_mb c ->
  after accounted (clone_disks c hid tid n) d.
Proof.
  intros Ha Hit Hz Hv Hm. unfold clone_disks. destruct (cr_clone_src c) as [src|]; [|done].
  apply after_ebind_quiet; [quiet|done|]. intros vn. apply after_ebind_quiet; [quiet|done|].
  intros [|]; [done|]. apply after_bind. unfold run_lift. do_bind. unfold _release_host_slot. do_bind. do_call.
  intros r d1 Hs. apply (release_step hid _ _ 0 0 0) in Hs; [|by apply accounted_with_zero].
  destruct r as [x|e]; [|by subst]. destruct Hs as (Ha1 & Ht1 & _). do_ret. do_ret.
  apply after_bind. do_bind. apply wp_now. intros us. do_ret.
  apply after_bind. do_bind. do_call. intros r d2 Hs.
  assert (db_get d1 Tenants tid = Some it) as Hit1 by (unfold db_get; by rewrite Ht1).
  apply (set_status_step _ _ _ _ _ _ it Hit1) in Hs as [[x' ->] ->]. do_ret. cbn.
  pose proof (delete_row_accounted _ _ _ _ _ _ _ (isoformat us) Ha1 Hit1) as Hd.
  rewrite !Hz, !decide_True, Hv, Hm in Hd by done.
  apply (accounted_with_zero _ hid). replace 0 with (0 - cr_vcpu c + cr_vcpu c) at 1 by lia.
  replace 0 with (0 - cr_mem_mb c + cr_mem_mb c) at 2 by lia. replace 0 with (0 - 1 + 1) at 3 by lia.
  apply Hd. intros i Hi _ f. by rewrite Hz, decide_False.
Qed.

Lemma place_tenant_keeps c tid now h n d iid :
  instance_id h = Ok iid -> accounted_with d iid (cr_vcpu c) (cr_mem_mb c) 1 ->
  db_get d Tenants tid = None ->
  after accounted (place_tenant c tid now h n) d.
Proof.
  intros Hi Ha Hnew. unfold place_tenant. cbn zeta. rewrite Hi.
  apply after_bind. do_bind. cbn [lift wp]. do_ret. cbn beta match.
  set (it := creating_item c tid now iid h n (guest_ip_of n) (host_port_of n)).
  apply after_bind. do_bind. do_call. intros r d1 Hs.
  apply (put_tenant_step tid) in Hs as [-> ->]; [|by apply creating_tenant_row]. do_ret.
  assert (accounted (db_set d Tenants (<[tid := it]> (db_rows d Tenants)))) as Ha1
    by (by apply put_creating_accounted).
  apply after_bind.
  assert (after accounted (clone_disks c iid tid n) (db_set d Tenants (<[tid := it]> (db_rows d Tenants)))) as Hc.
  { apply (clone_disks_keeps _ _ _ _ _ it); [done|unfold db_get; by rewrite db_rows_set_eq, lookup_insert_eq| | |].
    - intros. apply (share_placed _ _ _ _ "creating"); by try apply creating_row.
    - unfold int_field, it. by rewrite (creating_row c tid now iid h n _ _ "vcpu" (VInt (cr_vcpu c)) eq_refl).
    - unfold int_field, it. by rewrite (creating_row c tid now iid h n _ _ "mem_mb" (VInt (cr_mem_mb c)) eq_refl). }
  eapply wp_mono; [apply Hc|]. intros [[r|a]| |] d2 t Ha2; try done.
  apply after_quiet; [|done].
  repeat first [apply quiet_skills|apply quiet_launch|apply quiet_ensure_tg|apply quiet_add_rule|
    apply quiet_publish|quiet_step].
Qed.

(** The four hexadecimal digits of the identifier were those of a tenant that
    already has a row. *)
Definition collision (d : db) (t : list ev) : Prop :=
  exists name text digest, Ev (S := aws) (Sha256Hex text) (inl digest) ∈ t /\
    is_Some (db_get d Tenants (name +:+ "-" +:+ str_take 4 digest)).

Lemma gen_id_spec name d :
  wp (S := aws) dynamo_step (_gen_id name) d (fun o d' t =>
    d' = d /\ exists text digest, o = Ok (name +:+ "-" +:+ str_take 4 digest) /\
      Ev (S := aws) (Sha256Hex text) (inl digest) ∈ t).
Proof.
  unfold _gen_id. do_bind. do_call. intros r d1 [(us & ->) ->]. cbn beta match.
  do_bind. do_call. intros r d2 [(digest & ->) ->]. do_ret. split; [done|].
  eexists _, digest. split; [done|]. apply elem_of_app. right. apply list_elem_of_singleton. done.
Qed.

Lemma create_on_host_keeps c tid now d :
  accounted d -> db_get d Tenants tid = None -> after accounted (create_on_host c tid now) d.
Proof.
  intros Ha Hnew.
  assert (forall msg d, accounted d -> db_get d Tenants tid = None ->
    after accounted (run_lift (park_pending c tid now msg)) d) as Hpark.
  { intros msg d0 Ha0 Hn0. apply after_bind. eapply wp_mono; [by apply park_pending_keeps|]. by intros [a| |] d2 t. }
  apply after_ebind_quiet; [apply quiet_choose|done|]. intros [[[h|] cands] pinned]; [|by apply Hpark].
  apply after_bind. unfold run_lift at 1. do_bind.
  eapply wp_mono; [by apply reserve_first_accounted|].
  intros [[[h' n]|]| |] d' t [Ht Hd]; cbn beta match; try done.
  - destruct Hd as (iid & Hi & Ha'). do_ret.
    apply (place_tenant_keeps _ _ _ _ _ _ iid); [done..|]. unfold db_get. by rewrite Ht.
  - do_ret. apply Hpark; [done|]. unfold db_get. by rewrite Ht.
Qed.

Lemma wp_trivial {A} (p : M A) d : wp (S := aws) dynamo_step p d (fun _ _ _ => True).
Proof. revert d; induction p as [r|c k IH]; simpl; auto. Qed.

Lemma collision_app d t t' : collision d t -> collision d (t ++ t').
Proof.
  intros (name & text & digest & Hin & Hd). exists name, text, digest. split; [|done].
  apply elem_of_app. by left.
Qed.

(** From a validated request to the end, on the tables [d]. *)
Lemma create_validated_keeps c d :
  accounted d ->
  wp (S := aws) dynamo_step (tenant_id ⇐ run_lift (_gen_id (cr_name c)); now ⇐ run_lift _now;
     create_on_host c tenant_id now) d (fun _ d' t => accounted d' \/ collision d t).
Proof.
  intros Ha. do_bind. unfold run_lift at 1. do_bind. eapply wp_mono; [apply gen_id_spec|].
  intros o d' t (-> & text & digest & -> & Hin). do_ret.
  assert (is_Some (db_get d Tenants (cr_name c +:+ "-" +:+ str_take 4 digest)) -> collision d t) as Hcol
    by (intros; by exists (cr_name c), text, digest).
  destruct (db_get d Tenants (cr_name c +:+ "-" +:+ str_take 4 digest)) as [old|] eqn:Ed.
  - eapply wp_mono; [apply wp_trivial|]. intros o d' t' _. right. apply collision_app, Hcol. eauto.
  - do_bind. unfold run_lift. do_bind. apply wp_now. intros us. do_ret.
    eapply wp_mono; [by apply create_on_host_keeps|]. intros o d' t' Hd. by left.
Qed.

Lemma create_body_keeps v d :
  accounted d ->
  wp (S := aws) dynamo_step (finish (c ⇐ parse_create v;
        tenant_id ⇐ run_lift (_gen_id (cr_name c)); now ⇐ run_lift _now;
        create_on_host c tenant_id now)) d (fun _ d' t => accounted d' \/ collision d t).
Proof.
  intros Ha. do_bind. do_bind.
  eapply wp_mono; [apply (wp_no_write _ _ (fun _ _ => True)); eapply awp_mono; [apply quiet_parse_create|auto]|].
  intros [[rs|c]| |] d' t [_ ->]; cbn beta match; try (by left).
  eapply wp_mono; [by apply create_validated_keeps|].
  intros [[r|r]| |] d' t' Hd; cbn beta match; try do_ret;
    (destruct Hd as [Hd|(name & text & digest & Hin & Hd)]; [by left|right; exists name, text, digest;
     split; [apply elem_of_app; by right|done]]).
Qed.

(** C4: Creating a tenant preserves the accounting, in every environment whose
    tables behave as documented and whatever the other services answer, on
    every path, errors included: after the request the counters of every host
    are again the sums over its tenants, unless the four hexadecimal digits
    drawn for the identifier were those of an existing row. *)
Theorem create_tenant_accounted {W} (E : env aws W) (view : W -> db) (w : W) (body : req_body) :
  obeys (S := aws) dynamo_step view E ->
  accounted (view w) ->
  let '(o, w', t) := run E (create_tenant body) w in
  accounted (view w') \/ collision (view w) t.
Proof.
  intros HE Ha.
  apply (run_wp _ view E (create_tenant body) w (fun _ d' t => accounted d' \/ collision (view w) t) HE).
  destruct body as [| |m|v]; [by left|..];
    (unfold create_tenant; do_bind; do_ret; cbn [load_body]; try (by left)).
  by apply create_body_keeps.
Qed.

(** ** Deletion *)

(** The end of a deletion: the row is marked, which settles the offset. *)
Lemma mark_deleted_keeps d hid v m n tid it kd (r : resp) :
  accounted_with d hid v m n -> db_get d Tenants tid = Some it ->
  (forall i, i <> hid -> real_host i = true -> forall f, share f i (Some it) = 0) ->
  v + share (int_field "vcpu") hid (Some it) = 0 -> m + share (int_field "mem_mb") hid (Some it) = 0 ->
  n + share (fun _ => 1) hid (Some it) = 0 ->
  after accounted (now ← _now; _ ← do_ (set_status tid "deleted" now);
                   _ ← _publish_event "tenant.deleted" tid kd; mret r) d.
Proof.
  intros Ha Hit Hother Hv Hm Hn. apply after_bind. apply wp_now. intros us. cbn beta match.
  apply after_bind. do_call. intros x d1 Hs. apply (set_status_step _ _ _ _ _ _ it Hit) in Hs as [[x' ->] ->].
  cbn beta match. apply after_quiet; [apply quiet_bind; [apply quiet_publish|intros; quiet]|].
  apply (accounted_with_zero _ hid). rewrite <- Hv at 1. rewrite <- Hm at 1. rewrite <- Hn at 1.
  by apply delete_row_accounted.
Qed.

Lemma set_idle_step hid now v m n d r d' :
  accounted_with d hid v m n -> db_get d Hosts hid <> None ->
  dynamo_step (UpdateItem Hosts hid [SET "idle_since" (Lit (VStr now))] None RvNone) d r d' ->
  (exists x, r = inl x) /\ accounted_with d' hid v m n /\ db_rows d' Tenants = db_rows d Tenants.
Proof.
  intros Ha Hsome. cbn. unfold update_row. cbn. destruct (db_get d Hosts hid) as [row|] eqn:Hr; [|done].
  cbn. intros [-> ->]. split; [eauto|]. split; [|by apply db_rows_set_ne].
  apply (accounted_host d hid v m n); [done|]. intros Hreal.
  destruct (accounted_this _ _ _ _ _ _ Ha Hreal Hr) as (Hid & next & [Hv Hm Hn Hx]).
  split; [unfold id; by simplify_map_eq|]. exists next. unfold id. split; by simplify_map_eq.
Qed.

(** Freeing the host takes the size of the tenant off its counters, or raises
    and changes nothing. *)
Lemma free_host_step hid it v m d :
  accounted d -> it !! "vcpu" = Some (VInt v) -> it !! "mem_mb" = Some (VInt m) ->
  wp (S := aws) dynamo_step (free_host hid it) d (fun o d' _ =>
    match o with
    | Ok _ => accounted_with d' hid (0 - v) (0 - m) (0 - 1) /\ db_rows d' Tenants = db_rows d Tenants
    | _ => d' = d
    end).
Proof.
  intros Ha Hv Hm. unfold free_host, req. rewrite Hv, Hm. do_bind. do_ret. do_bind. do_ret.
  do_bind. do_call. intros r d' Hs.
  assert (match r with inl _ => db_get d' Hosts hid <> None | inr _ => True end) as Hsome.
  { destruct r; [|done]. apply update_host_step in Hs as (new & _ & _ & ->).
    unfold db_get. by rewrite db_rows_set_eq, lookup_insert_eq. }
  apply (release_step hid v m 0 0 0 AllNew) in Hs; [|by apply accounted_with_zero].
  destruct r as [x|e]; [|done]. destruct Hs as (Ha' & Ht & Hnew).
  destruct (Hnew eq_refl) as (row & n & -> & Hn). unfold get_or. rewrite Hn. cbn beta match.
  do_bind. unfold default, id. do_ret. change (py_int (VInt n)) with (Ok n). cbn beta match. destruct (n =? 0); [|by do_ret].
  do_bind. apply wp_now. intros us. cbn beta match. do_bind. do_call. intros r d2 Hs.
  apply (set_idle_step hid _ _ _ _ _ _ _ Ha' Hsome) in Hs as ([x ->] & Ha2 & Ht2). do_ret.
  split; [done|]. by rewrite Ht2.
Qed.

(** A host id that is not a key stops the clean-up before any write. *)
Lemma clean_host_bad h tid it kd e :
  as_key h = Exn e ->
  awp (clean_host h tid it kd) (fun o t => (forall a, o <> Ok a) /\ Forall no_write t).
Proof.
  intros He. unfold clean_host. rewrite He. do_bind. eapply awp_mono; [apply quiet_ssm_run_val|].
  intros [b| |] t Ht; [|done..]. do_bind.
  eapply awp_mono; [instantiate (1 := fun _ t => Forall no_write t);
    destruct kd; [apply quiet_ret|apply quiet_ssm_run_val]|].
  intros [b'| |] t' Ht'; [|by split; [|apply Forall_app]..]. do_bind. do_ret.
  split; [done|]. by apply Forall_app.
Qed.

Lemma delete_keeps tid qp d : accounted d -> after accounted (delete_tenant tid qp) d.
Proof.
  intros Ha. unfold delete_tenant. apply after_bind. do_call. intros r d' [-> ->]. cbn beta match.
  destruct (db_get d Tenants tid) as [it|] eqn:Hit; [|done].
  destruct (is_str (get it "status") "deleted") eqn:Hs; [done|]. cbn beta zeta.
  assert (forall f i, share f i (Some it) = if is_str (get it "host_id") i then f it else 0) as Hsh
    by (intros; unfold share, occupies; by rewrite Hs, andb_true_r).
  pose proof (proj2 Ha tid it Hit) as (Hid & [v Hv] & [m Hm]).
  destruct (truthy (get it "host_id")) eqn:Htr.
  - apply after_quiet_bind; [apply quiet_stop|done|intros _].
    apply after_quiet_bind; [apply quiet_remove_rule|done|intros _].
    destruct (get it "host_id") as [| | | |hid| |] eqn:Eh;
      try (apply after_bind; eapply wp_mono;
           [apply (wp_no_write _ _ (fun o _ => forall a, o <> Ok a)); by eapply clean_host_bad|];
           intros [[]| |] d' t [Hno ->]; [by destruct (Hno tt)|done..]).
    assert (hid <> "") as Hne by (intros ->; done).
    apply after_bind. unfold clean_host. do_bind.
    eapply wp_mono; [apply (wp_no_write _ _ (fun _ _ => True)); eapply awp_mono; [apply quiet_ssm_run_val|auto]|].
    intros [b| |] d' t [_ ->]; [|done..]. do_bind.
    eapply wp_mono; [apply (wp_no_write _ _ (fun _ _ => True));
      eapply awp_mono; [instantiate (1 := fun _ t => Forall no_write t)|auto]|].
    { match goal with |- awp ?p _ => change (quiet p) end. repeat first [apply quiet_ssm_run_val|quiet_step]. }
    intros [b'| |] d' t' [_ ->]; [|done..].
    cbn [as_key]. rewrite (bool_decide_eq_false_2 (hid = "")) by done. do_bind. do_ret.
    eapply wp_mono; [by apply (free_host_step hid it v m)|].
    intros [[]| |] d' t'' Hd; cbn beta match; [|by subst..]. destruct Hd as [Ha' Ht'].
    eapply mark_deleted_keeps; [exact Ha'|unfold db_get; by rewrite Ht'|..].
    + intros i Hi _ f. rewrite Hsh. cbn. by rewrite bool_decide_eq_false_2 by congruence.
    + rewrite Hsh. cbn. rewrite bool_decide_eq_true_2 by done. unfold int_field. rewrite Hv. lia.
    + rewrite Hsh. cbn. rewrite bool_decide_eq_true_2 by done. unfold int_field. rewrite Hm. lia.
    + rewrite Hsh. cbn. rewrite bool_decide_eq_true_2 by done. lia.
  - apply after_quiet_bind; [quiet|done|intros _].
    apply after_quiet_bind; [apply quiet_remove_rule|done|intros _].
    apply after_quiet_bind; [quiet|done|intros _].
    apply (mark_deleted_keeps d "" (0 - share (int_field "vcpu") "" (Some it))
             (0 - share (int_field "mem_mb") "" (Some it)) (0 - share (fun _ => 1) "" (Some it)) tid it); try lia;
      [by eapply accounted_with_unreal|done|].
    intros i Hi Hreal f. rewrite Hsh. destruct (get it "host_id") as [| | | |h| |]; try done. cbn in Htr |- *.
    destruct (bool_decide_reflect (h = "")) as [->|]; [|done]. by rewrite bool_decide_eq_false_2 by congruence.
Qed.

(** C5: Deleting a tenant preserves the accounting, in every environment whose
    tables behave as documented and whatever the other services answer, on
    every path, errors included; deleting it again changes nothing. *)
Theorem delete_tenant_accounted {W} (E : env aws W) (view : W -> db) (w : W) (tid : string)
    (query_params : list (string * string)) :
  obeys (S := aws) dynamo_step view E ->
  accounted (view w) ->
  accounted (view (run E (delete_tenant tid query_params) w).1.2).
Proof.
  intros HE Ha.
  pose proof (run_wp _ view E _ w _ HE (delete_keeps tid query_params (view w) Ha)) as R.
  by destruct (run E _ w) as [[o w'] t].
Qed.

(** ** Actions on a live tenant *)

(** An update that keeps what is accounted: the row keeps its identity, size
    and host, and stays live. *)
Definition neutral (it new : item) : Prop :=
  (forall k, k ∈ ["id"; "vcpu"; "mem_mb"; "host_id"] -> new !! k = it !! k) /\
  is_str (get new "status") "deleted" = false.

Lemma neutral_accounted d tid it new :
  accounted d -> db_get d Tenants tid = Some it -> is_str (get it "status") "deleted" = false ->
  neutral it new -> accounted (db_set d Tenants (<[tid := new]> (db_rows d Tenants))).
Proof.
  intros Ha Hit Hlive [Hk Hs].
  assert (forall f i, In f measures -> share f i (Some it) = share f i (Some new)) as Hsh.
  { intros f i Hf. unfold share, occupies. rewrite Hlive, Hs, !andb_true_r. unfold get, get_or.
    rewrite (Hk "host_id") by set_solver. cbn in Hf. unfold int_field in Hf.
    destruct Hf as [<-|[<-|[<-|[]]]]; rewrite ?(Hk "vcpu"), ?(Hk "mem_mb") by set_solver; done. }
  apply (accounted_with_zero _ "").
  pose proof (accounted_tenant d "" 0 0 0 tid new Ha) as Hp. rewrite Hit in Hp.
  rewrite <- !Hsh, !Z.add_0_l, !Z.sub_diag in Hp by (cbn; tauto). apply Hp.
  - pose proof (proj2 Ha tid it Hit) as (H1 & H2 & H3). unfold tenant_row.
    rewrite !Hk by set_solver. done.
  - intros i _ _ f Hf. by apply Hsh.
Qed.

(** The same for an update expression. *)
Lemma update_neutral_keeps {A} (k : option item -> M A) d tid it acts rv :
  accounted d -> db_get d Tenants tid = Some it -> is_str (get it "status") "deleted" = false ->
  (forall new, apply_actions it acts it = Ok new -> neutral it new) ->
  (forall x, quiet (k x)) ->
  after accounted (x ← do_ (UpdateItem Tenants tid acts None rv); k x) d.
Proof.
  intros Ha Hit Hlive Hn Hk. apply after_bind. do_call. intros r d'.
  cbn [dynamo_step]. unfold update_row. rewrite Hit. cbn [cond_holds base_item default]. unfold id.
  destruct (apply_actions it acts it) as [new|e|] eqn:Ea; [|by intros [-> ->]|done].
  intros [-> ->]. apply after_quiet; [apply Hk|]. apply (neutral_accounted _ _ it); auto.
Qed.

Lemma after_run_lift {A} (P : db -> Prop) (p : M A) d : after P p d -> after P (run_lift p) d.
Proof. intros Hp. apply after_bind. eapply wp_mono; [apply Hp|]. by intros [a| |] d' t. Qed.

(** Reading a row, in front of a program. *)
Lemma after_get {A} (P : db -> Prop) t k (f : option item -> M A) d :
  after P (f (db_get d t k)) d -> after P (x ← do_ (GetItem t k); f x) d.
Proof. intros Hf. apply after_bind. do_call. by intros r d' [-> ->]. Qed.
End Keeps.

(** ** Witnesses *)

(** One host with one tenant. *)
Definition acc_tenant : item := list_to_map [
  ("id", VStr "web-1a2b"); ("host_id", VStr "i-1"); ("status", VStr "running"); ("vm_num", VInt 1);
  ("vcpu", VInt 2); ("mem_mb", VInt 4096)].
Definition acc_host : item := list_to_map [
  ("instance_id", VStr "i-1"); ("status", VStr "active"); ("private_ip", VStr "10.0.0.5");
  ("total_vcpu", VInt 8); ("total_mem_mb", VInt 16384);
  ("used_vcpu", VInt 2); ("used_mem_mb", VInt 4096); ("vm_count", VInt 1); ("next_vm_num", VInt 2)].
Definition acc_db : db := Db (fun t => match t with
  | Hosts => {["i-1" := acc_host]} | Tenants => {["web-1a2b" := acc_tenant]} | _ => ∅ end).

Lemma acc_db_accounted : accounted acc_db.
Proof.
  split.
  - intros i r Hr Hreal. unfold db_get in Hr. cbn [acc_db db_rows] in Hr.
    apply lookup_singleton_Some in Hr as [<- <-]. cbn zeta. split; [vm_decide|]. exists 2. split; vm_decide.
  - intros tid it Hit. unfold db_get in Hit. cbn [acc_db db_rows] in Hit. apply lookup_singleton_Some in Hit as [<- <-].
    split; [vm_decide|]. split; eexists; vm_compute; reflexivity.
Qed.

(** A service with an empty listener where commands are accepted; everything
    else is down. *)
Definition sample_service (c : aws_op) (tick : nat) : aws_reply c + exn :=
  match c as c return aws_reply c + exn with
  | DescribeRules _ => inl []
  | CreateRule _ _ _ _ => inl tt
  | DescribeTargetGroups _ => inl [TargetGroup "arn:tg" "vpc-1"]
  | SendCommand _ _ _ _ => inl "cmd-1"
  | GetCommandInvocation _ _ => inl (Invocation (Some "Success") (Some "") None)
  | Sleep _ => inl tt
  | c => no_service c tick
  end.

Lemma create_tenant_accounted_witness :
  let w := Mem acc_db 0 in
  let '(o, w', t) := run (mem_env 1 sample_service)
    (create_tenant (H := sample_config) (Json (VDict [("name", VStr "db"); ("vcpu", VInt 2)]))) w in
  accounted (mem_db w') \/ collision acc_db t.
Proof.
  apply (create_tenant_accounted (H := sample_config) (mem_env 1 sample_service) mem_db (Mem acc_db 0)).
  - apply mem_env_obeys.
  - apply acc_db_accounted.
Defined.

Lemma delete_tenant_accounted_witness :
  accounted (mem_db (run (mem_env 1 sample_service)
    (delete_tenant (H := sample_config) "web-1a2b" []) (Mem acc_db 0)).1.2).
Proof.
  apply (delete_tenant_accounted (H := sample_config) (mem_env 1 sample_service) mem_db (Mem acc_db 0)).
  - apply mem_env_obeys.
  - apply acc_db_accounted.
Defined.
