(* ===== verification/ActionsAccounting.v ===== *)
(** * Actions and capacity accounting

    Every action of the API on a live tenant preserves the invariant of
    [Accounting]; on a tenant that was deleted it need not
    ([start_after_delete]). *)

From S2P Require Import Prelude Py Effects Aws Iso Ddb Config Validate Ssm Capacity Rbac Placement Alb Tenants Actions Accounting.

(** A list of actions leaves given fields alone. *)
Ltac untouched := repeat constructor; vm_compute; set_solver.

Section ActionsAccounting.
Context `{Config}.

(** ** Updates that leave the accounted fields alone *)

(** The fields that the accounting reads besides the status. *)
Definition kept : list string := ["id"; "vcpu"; "mem_mb"; "host_id"].

Lemma neutral_update it acts new s :
  Forall (fun k => k ∉ touched acts) ("status" :: kept) -> s <> "deleted" ->
  apply_actions it (SET "status" (Lit (VStr s)) :: acts) it = Ok new -> neutral it new.
Proof.
  intros Hf Hs Hn. rewrite Forall_forall in Hf. cbn [apply_actions eval mbind outcome_bind] in Hn. split.
  - intros k Hk. rewrite (apply_untouched _ _ _ _ _ Hn) by (apply Hf; unfold kept; set_solver).
    rewrite lookup_insert_ne; [done|]. intros <-. by vm_compute in Hk; set_solver.
  - unfold get, get_or. rewrite (apply_untouched _ _ _ _ _ Hn) by (apply Hf; set_solver).
    rewrite lookup_insert_eq. cbn. by apply bool_decide_eq_false_2.
Qed.

Lemma neutral_update_status it acts new :
  Forall (fun k => k ∉ touched acts) ("status" :: kept) -> is_str (get it "status") "deleted" = false ->
  apply_actions it acts it = Ok new -> neutral it new.
Proof.
  intros Hf Hs Hn. rewrite Forall_forall in Hf. split.
  - intros k Hk. apply (apply_untouched _ _ _ _ _ Hn). apply Hf. unfold kept. set_solver.
  - unfold get, get_or. rewrite (apply_untouched _ _ _ _ _ Hn) by (apply Hf; set_solver). done.
Qed.

Lemma cancel_keeps tid it d :
  accounted d -> db_get d Tenants tid = Some it -> is_str (get it "status") "deleted" = false ->
  after accounted (cancel_migration tid it) d.
Proof.
  intros Ha Hit Hl. unfold cancel_migration. destruct (negb _); [done|].
  apply after_bind. apply wp_now. intros us. cbn beta match.
  apply (update_neutral_keeps _ _ _ it); [done..| |].
  - intros new. apply neutral_update; [untouched|done].
  - intros x. apply quiet_bind; [apply quiet_publish|]. intros. quiet.
Qed.

(** An update of other fields keeps what a row counts for, deleted or not. *)
Lemma update_untouched_keeps {A} (k : option item -> M A) d tid it acts rv :
  accounted d -> db_get d Tenants tid = Some it -> Forall (fun k => k ∉ touched acts) ("status" :: kept) ->
  (forall x, quiet (k x)) -> after accounted (x ← do_ (UpdateItem Tenants tid acts None rv); k x) d.
Proof.
  intros Ha Hit Hf Hk. rewrite Forall_forall in Hf. apply after_bind. do_call. intros r d'. cbn [dynamo_step].
  unfold update_row. rewrite Hit. cbn [cond_holds base_item default]. unfold id.
  destruct (apply_actions it acts it) as [new|e|] eqn:Ea; [|by intros [-> ->]|done].
  intros [-> ->]. apply after_quiet; [apply Hk|].
  assert (Hs : forall k, k ∈ "status" :: kept -> new !! k = it !! k) by (intros j Hj; apply (apply_untouched _ _ _ _ _ Ea), Hf; first [done | by apply list_elem_of_In]).
  unfold kept in Hs. assert (Hsh : forall f i, In f measures -> share f i (Some it) = share f i (Some new)).
  { intros f i Hfm. unfold share, occupies, get, get_or. rewrite (Hs "host_id"), (Hs "status") by set_solver. cbn in Hfm. unfold int_field in Hfm.
    destruct Hfm as [<-|[<-|[<-|[]]]]; rewrite ?(Hs "vcpu"), ?(Hs "mem_mb") by set_solver; done. }
  apply (accounted_with_zero _ ""). pose proof (accounted_tenant d "" 0 0 0 tid new Ha) as Hp. rewrite Hit in Hp.
  rewrite <- !Hsh, !Z.add_0_l, !Z.sub_diag in Hp by (cbn; tauto). apply Hp; [|by intros; apply Hsh].
  pose proof (proj2 Ha tid it Hit) as (H1 & H2 & H3). unfold tenant_row. rewrite !Hs by set_solver. done.
Qed.

Lemma disk_keeps tid it body d :
  accounted d -> db_get d Tenants tid = Some it ->
  after accounted (resize_disk tid it body) d.
Proof.
  intros Ha Hit. unfold resize_disk. apply after_quiet_bind; [quiet|done|intros nv].
  destruct (negb (is_int nv)); [done|]. apply after_quiet_bind; [quiet|done|intros n].
  apply after_quiet_bind; [quiet|done|intros c]. destruct (n <=? c); [done|]. destruct (1048576 <? n); [done|].
  cbn zeta. apply after_quiet_bind; [quiet|done|intros vn]. destruct (negb (truthy _)); [done|].
  apply after_quiet_bind; [apply quiet_ssm_run_val|done|intros ok]. destruct (negb ok); [done|].
  apply after_bind. apply wp_now. intros us. cbn beta match.
  apply (update_untouched_keeps _ _ _ it); [done..|untouched|intros; quiet].
Qed.

Lemma migrate_keeps tid it body d :
  accounted d -> db_get d Tenants tid = Some it -> is_str (get it "status") "deleted" = false ->
  after accounted (start_migration tid it body) d.
Proof.
  intros Ha Hit Hl. unfold start_migration. apply after_finish.
  apply after_ebind_quiet; [quiet|done|intros mode]. apply after_ebind_quiet; [quiet|done|intros tgt].
  apply after_ebind_quiet; [quiet|done|intros _]. cbn zeta. apply after_ebind_quiet; [quiet|done|intros _].
  apply after_ebind_quiet; [unfold as_key; quiet|done|intros key]. apply after_ebind_quiet; [quiet|done|intros t0].
  apply after_ebind_quiet; [quiet|done|intros target].
  apply after_ebind_quiet; [unfold check_target; quiet|done|intros _].
  apply after_ebind_quiet; [quiet|done|intros n]. apply after_ebind_quiet; [quiet|done|intros tn].
  apply after_ebind_quiet; [quiet|done|intros now].
  apply after_ebind_quiet; [apply quiet_run_lift, quiet_ssm_send_val|done|intros cmd].
  destruct cmd as [cmd|]; [|done]. destruct (bool_decide (cmd = "")); [done|].
  apply after_bind. unfold run_lift. do_bind.
  match goal with |- wp _ ?p _ _ => change p with (do_ (UpdateItem Tenants tid
    (migrating_actions tgt (get it "host_id") tn cmd mode
       ("s3://" +:+ env_or "ASSETS_BUCKET" "" +:+ "/migrations/" +:+ tid) now) None RvNone)) end.
  do_call. intros r d'. cbn [dynamo_step]. unfold update_row. rewrite Hit. cbn [cond_holds base_item default]. unfold id.
  destruct (apply_actions it _ it) as [new|e|] eqn:Ea; [|by intros [-> ->]|done].
  intros [-> ->]. apply (neutral_accounted _ _ it); [done..|].
  revert Ea. apply neutral_update; [untouched|done].
Qed.

Lemma power_keeps tid action it d :
  accounted d -> db_get d Tenants tid = Some it -> is_str (get it "status") "deleted" = false ->
  after accounted (power_action tid action it) d.
Proof.
  intros Ha Hit Hl. unfold power_action. apply after_quiet_bind; [quiet|done|intros [cmd tm]].
  apply after_quiet_bind; [quiet|done|intros hid].
  apply after_quiet_bind; [apply quiet_ssm_run_val|done|intros ok]. cbn zeta.
  apply after_bind. apply wp_now. intros us. cbn beta match.
  assert (Hend : forall extra, (extra = [] \/ exists v, extra = [SET "rootfs_version" (Lit v)]) ->
    after accounted (_ ← do_ (UpdateItem Tenants tid
             ([SET "status" (Lit (VStr (power_status action))); SET "updated_at" (Lit (VStr (isoformat us)))] ++ extra)
             None RvNone);
       _ ← _publish_event (default ("tenant." +:+ power_status action) (alist_get action _action_to_event)) tid
         (VDict [("action", VStr action); ("status", VStr (power_status action))]);
       mret (_resp 200 (VDict [("id", VStr tid); ("status", VStr (power_status action))]))) d).
  { intros extra He. apply (update_neutral_keeps _ _ _ it); [done..| |].
    - intros new. apply neutral_update; [destruct He as [->|[v ->]]; untouched|].
      unfold power_status. by repeat case_bool_decide.
    - intros x. apply quiet_bind; [apply quiet_publish|]. intros. quiet. }
  apply after_bind. destruct (bool_decide (action = "reset")).
  - do_bind. eapply wp_mono; [apply (wp_no_write _ _ (fun _ _ => True)); eapply awp_mono; [apply quiet_lift|auto]|].
    intros [key| |] d' t [_ ->]; try done. do_bind. do_call. intros r d' [-> ->]. do_ret. apply Hend. eauto.
  - do_ret. apply Hend. auto.
Qed.

(** ** Resize *)

(** Reading a row in the middle of a handler. *)
Lemma after_eget {A} (P : db -> Prop) t k (f : option item -> M (resp + A)) d :
  after P (f (db_get d t k)) d -> after P (x ⇐ run_lift (do_ (GetItem t k)); f x) d.
Proof. intros Hf. apply after_bind. unfold run_lift. do_bind. do_call. intros r d' [-> ->]. by do_ret. Qed.

(** The rows after a resize. *)
Lemma resize_rows_keep tid it hid host n v (k : option item -> M resp) now d :
  accounted d -> db_get d Tenants tid = Some it -> is_str (get it "status") "deleted" = false ->
  it !! "vcpu" = Some (VInt v) -> it !! "host_id" = Some (VStr hid) -> db_get d Hosts hid = Some host ->
  (forall x, quiet (k x)) ->
  after accounted (_ ← do_ (UpdateItem Tenants tid
                     [SET "vcpu" (Lit (VInt n)); SET "updated_at" (Lit (VStr now))] None RvNone);
                   x ← do_ (UpdateItem Hosts hid (grow_vcpu (n - v)) None RvNone); k x) d.
Proof.
  intros Ha Hit Hl Hv Hh Hhost Hk. apply after_bind. do_call. intros r d1.
  cbn [dynamo_step]. unfold update_row. rewrite Hit. cbn [cond_holds base_item default apply_actions eval mbind outcome_bind].
  unfold id. set (new := <["updated_at" := VStr now]> (<["vcpu" := VInt n]> it)). intros [-> ->].
  assert (forall i f, share f i (Some it) = if bool_decide (hid = i) then f it else 0) as Hs.
  { intros. unfold share, occupies. rewrite Hl, andb_true_r. unfold get, get_or. by rewrite Hh. }
  assert (forall i f, share f i (Some new) = if bool_decide (hid = i) then f new else 0) as Hs'.
  { intros. unfold share, occupies, get, get_or, new. rewrite !lookup_insert_ne, Hh by done. fold (get_or it "status" VNone).
    fold (get it "status"). by rewrite Hl, andb_true_r. }
  pose proof (accounted_tenant d hid 0 0 0 tid new) as Hp. rewrite Hit, !Hs, !Hs' in Hp.
  rewrite bool_decide_eq_true_2 in Hp by done.
  assert (int_field "vcpu" it = v) as Ev by (unfold int_field; by rewrite Hv).
  assert (int_field "vcpu" new = n) as En by (unfold int_field, new; by simplify_map_eq).
  assert (int_field "mem_mb" new = int_field "mem_mb" it) as Em
    by (unfold int_field, new; by rewrite !lookup_insert_ne by done).
  rewrite Ev, En, Em in Hp.
  assert (accounted_with (db_set d Tenants (<[tid := new]> (db_rows d Tenants))) hid (v - n) 0 0) as Ha1.
  { replace (v - n) with (0 + v - n) by lia. replace 0 with (0 + int_field "mem_mb" it - int_field "mem_mb" it) at 2 by lia.
    replace 0 with (0 + 1 - 1) at 4 by lia. apply Hp; [by apply accounted_with_zero| |].
    - pose proof (proj2 Ha tid it Hit) as (H1 & H2 & H3). unfold tenant_row, new.
      rewrite !(lookup_insert_ne _ "updated_at"), !(lookup_insert_ne _ "vcpu" "id"), !(lookup_insert_ne _ "vcpu" "mem_mb") by done.
      split; [done|]. split; [|done]. exists n. by simplify_map_eq.
    - intros i Hi _ f _. by rewrite Hs, Hs', !bool_decide_eq_false_2 by congruence. }
  clear Hp Ha. set (d1 := db_set d Tenants (<[tid := new]> (db_rows d Tenants))) in *. cbn beta match.
  assert (db_get d1 Hosts hid = Some host) as Hh1 by (unfold d1, db_get; rewrite db_rows_set_ne; done).
  apply after_bind. do_call. intros r d2 Hst. cbn beta.
  destruct (real_host hid) eqn:Hreal.
  - destruct (accounted_this _ _ _ _ _ _ Ha1 Hreal Hh1) as (Hid & next & [R1 R2 R3 R4]).
    cbn in Hst. unfold update_row in Hst. rewrite Hh1 in Hst. cbn in Hst. rewrite R1 in Hst. cbn in Hst.
    destruct Hst as [-> ->]. cbn beta match. apply after_quiet; [apply Hk|]. apply (accounted_with_zero _ hid).
    apply (accounted_host d1 hid (v - n) 0 0); [done|]. intros _. unfold id.
    split; [by simplify_map_eq|]. exists next. split; simplify_map_eq; try done. do 2 f_equal. lia.
  - apply update_host_step in Hst. destruct r as [x|e].
    + destruct Hst as (row & _ & _ & ->). cbn beta match. apply after_quiet; [apply Hk|].
      apply (accounted_with_zero _ hid). apply (accounted_host d1 hid (v - n) 0 0); [done|congruence].
    + rewrite Hst. apply (accounted_with_zero _ hid). by eapply accounted_with_unreal.
Qed.

Lemma resize_keeps tid body d :
  accounted d -> after accounted (tenant_resize tid body) d.
Proof.
  intros Ha. unfold tenant_resize. apply after_finish.
  apply after_ebind_quiet; [unfold parse_resize; quiet|done|intros n]. apply after_eget.
  destruct (db_get d Tenants tid) as [it|] eqn:Hit; [|done].
  unfold answer_none, go. apply after_bind. do_ret.
  destruct (negb (is_str (get it "status") "running")) eqn:Hr; [done|]. apply negb_false_iff in Hr.
  assert (is_str (get it "status") "deleted" = false) as Hl by (apply is_str_true in Hr as ->; done).
  pose proof (proj2 Ha tid it Hit) as (_ & [v Hv] & [m Hm]).
  unfold answer_if. apply after_bind. unfold go. do_ret. apply after_bind. unfold run_lift at 1. do_bind.
  unfold get_or at 1. rewrite Hv. change (py_int (default (VInt 0) (Some (VInt v)))) with (Ok v). do_ret. do_ret.
  apply after_ebind_quiet; [quiet|done|intros _]. apply after_ebind_quiet; [quiet|done|intros mem].
  apply after_ebind_quiet; [quiet|done|intros disk]. apply after_ebind_quiet; [quiet|done|intros _].
  cbn zeta. apply after_ebind_quiet; [quiet|done|intros _].
  destruct (get_or it "host_id" (VStr "")) as [| | | |hid| |] eqn:Eh;
    try (apply after_bind; cbn [as_key]; unfold run_lift, validation_error; do_bind; do_ret; exact Ha).
  apply after_bind. unfold run_lift at 1. do_bind. cbn [as_key].
  destruct (bool_decide_reflect (hid = "")) as [->|Hne]; [unfold validation_error; do_ret; exact Ha|].
  do_ret. do_ret. apply after_eget. destruct (db_get d Hosts hid) as [host|] eqn:Hhost; [|done].
  apply after_bind. do_ret. apply after_run_lift. unfold resize_on_host.
  apply after_quiet_bind; [quiet|done|intros tv]. apply after_quiet_bind; [quiet|done|intros al].
  apply after_quiet_bind; [quiet|done|intros used]. cbn zeta. destruct (_ <? _); [done|].
  apply after_quiet_bind; [quiet|done|intros mm]. apply after_quiet_bind; [apply quiet_ssm_run|done|intros ok].
  destruct (negb ok); [done|]. apply after_bind. apply wp_now. intros us. cbn beta match.
  apply (resize_rows_keep _ it _ host); try done; [|intros; quiet].
  unfold get_or in Eh. destruct (it !! "host_id") eqn:E; cbn in Eh; [by subst|by injection Eh as <-].
Qed.

(** C6: Every action on a live tenant - resize, disk resize, start or
    cancellation of a migration, power actions, backup - preserves the
    accounting, in every environment whose tables behave as documented,
    whatever the other services answer and on every path. *)
Theorem tenant_action_accounted {W} (E : env aws W) (view : W -> db) (w : W) (tid action : string) (body : req_body) :
  obeys (S := aws) dynamo_step view E ->
  accounted (view w) ->
  (forall it, db_get (view w) Tenants tid = Some it -> is_str (get it "status") "deleted" = false) ->
  accounted (view (run E (tenant_action tid action body) w).1.2).
Proof.
  intros HE Ha Hl.
  assert (after accounted (tenant_action tid action body) (view w)) as Haft.
  { unfold tenant_action. apply after_get. destruct (db_get (view w) Tenants tid) as [it|] eqn:Hit; [|done].
    specialize (Hl it eq_refl).
    destruct (bool_decide (action = "cancel-migration")); [by apply cancel_keeps|].
    destruct (bool_decide (action = "resize")); [by apply resize_keeps|].
    destruct (bool_decide (action = "resize-disk")); [by apply disk_keeps|].
    destruct (bool_decide (action = "migrate")); [by apply migrate_keeps|].
    destruct (str_in action power_actions); [by apply power_keeps|].
    destruct (bool_decide (action = "backup")); [|done].
    apply after_quiet; [|done]. unfold start_backup. repeat first [apply quiet_publish|quiet_step]. }
  pose proof (run_wp _ view E _ w _ HE Haft) as R. by destruct (run E _ w) as [[o w'] t].
Qed.
End ActionsAccounting.

(** ** Witnesses *)

Lemma tenant_action_accounted_witness :
  accounted (mem_db (run (mem_env 1 sample_service)
    (tenant_action (H := sample_config) "web-1a2b" "stop" NoBody) (Mem acc_db 0)).1.2).
Proof.
  apply (tenant_action_accounted (H := sample_config) (mem_env 1 sample_service) mem_db (Mem acc_db 0)).
  - apply mem_env_obeys.
  - apply acc_db_accounted.
  - intros it Hit. unfold db_get in Hit. cbn [mem_db acc_db db_rows] in Hit.
    apply lookup_singleton_Some in Hit as [_ <-]. vm_compute. reflexivity.
Defined.

(** The power actions do not look at the status: starting a tenant after its
    deletion leaves a live tenant that its host does not account for. *)
Definition deleted_db : db := mem_db (run (mem_env 1 sample_service)
  (delete_tenant (H := sample_config) "web-1a2b" []) (Mem acc_db 0)).1.2.

Definition revived_db : db := mem_db (run (mem_env 1 sample_service)
  (tenant_action (H := sample_config) "web-1a2b" "start" NoBody) (Mem deleted_db 0)).1.2.

Lemma start_after_delete : accounted deleted_db /\ ~ accounted revived_db.
Proof.
  split.
  - apply delete_tenant_accounted_witness.
  - intros [Hh _]. pose (r := default ∅ (db_get revived_db Hosts "i-1")).
    destruct (Hh "i-1" r) as (_ & next & [_ _ Hn _]); [vm_decide|done|].
    assert (r !! "vm_count" = Some (VInt 0)) as E by vm_decide. rewrite E in Hn.
    assert (occupancy (fun _ => 1) "i-1" (db_rows revived_db Tenants) = 1) as Eo by vm_decide.
    rewrite Eo in Hn. by injection Hn.
Qed.
