(* ===== verification/Balance.v ===== *)
(** * Balances of several hosts

    [Accounting] with an offset for every host at once, for the operations that
    move a tenant between two hosts, and the programs that spare a table. *)

From S2P Require Import Prelude Py Effects Aws Iso Ddb Config Validate Ssm Capacity AuditLog Rbac Placement Alb Tenants Accounting.

(** What each host carries beyond what its tenants explain. *)
Definition offset : Type := string -> Z * Z * Z.

Definition balanced (d : db) (e : offset) : Prop :=
  (forall i r, db_get d Hosts i = Some r -> real_host i = true ->
     explained d i r (e i).1.1 (e i).1.2 (e i).2) /\
  (forall tid it, db_get d Tenants tid = Some it -> tenant_row tid it).

Lemma accounted_balanced d : accounted d <-> balanced d (fun _ => (0, 0, 0)).
Proof.
  unfold accounted, accounted_with, balanced, explained. split; intros [Hh Ht]; (split; [|done]);
    intros i r Hr Hreal; specialize (Hh i r Hr Hreal); cbn beta zeta in Hh |- *; repeat case_decide; done.
Qed.

Lemma balanced_ext d e e' :
  (forall i, real_host i = true -> e i = e' i) -> balanced d e -> balanced d e'.
Proof. intros He [Hh Ht]. split; [|done]. intros i r Hr Hreal. rewrite <- He by done. by apply Hh. Qed.

(** The balance depends on the rows of two tables only. *)
Lemma balanced_rows d d' e :
  db_rows d' Tenants = db_rows d Tenants -> db_rows d' Hosts = db_rows d Hosts -> balanced d e -> balanced d' e.
Proof. unfold balanced, explained, db_get. by intros -> ->. Qed.

(** A change of one tenant row. *)
Definition shares (i : string) (it : option item) : Z * Z * Z :=
  (share (int_field "vcpu") i it, share (int_field "mem_mb") i it, share (fun _ => 1) i it).
Definition plus3 (x y : Z * Z * Z) : Z * Z * Z := (x.1.1 + y.1.1, x.1.2 + y.1.2, x.2 + y.2).
Definition minus3 (x y : Z * Z * Z) : Z * Z * Z := (x.1.1 - y.1.1, x.1.2 - y.1.2, x.2 - y.2).

Lemma balanced_tenant d e tid it :
  balanced d e -> tenant_row tid it ->
  balanced (db_set d Tenants (<[tid := it]> (db_rows d Tenants)))
    (fun i => minus3 (plus3 (e i) (shares i (db_get d Tenants tid))) (shares i (Some it))).
Proof.
  intros [Hh Ht] Hrow. split.
  - intros i r Hr Hreal. unfold db_get in Hr. rewrite db_rows_set_ne in Hr by done.
    destruct (Hh i r Hr Hreal) as (Hi & next & Hx). split; [done|]. exists next.
    unfold explained. rewrite db_rows_set_eq, !occupancy_insert. fold (db_get d Tenants tid).
    cbn [minus3 plus3 shares fst snd].
    match goal with |- host_row _ ?a ?b ?c _ => match type of Hx with host_row _ ?a' ?b' ?c' _ =>
      replace a with a' by lia; replace b with b' by lia; replace c with c' by lia end end. done.
  - intros t' it' Ht'. unfold db_get in Ht'. rewrite db_rows_set_eq in Ht'.
    destruct (decide (t' = tid)) as [->|Hne].
    + rewrite lookup_insert_eq in Ht'. by injection Ht' as <-.
    + rewrite lookup_insert_ne in Ht' by done. by apply Ht.
Qed.

(** A change of one host row. *)
Definition add_at (hid : string) (x : Z * Z * Z) (e : offset) : offset :=
  fun i => if decide (i = hid) then plus3 (e i) x else e i.

Lemma balanced_host d e hid r x r' :
  balanced d e -> db_get d Hosts hid = Some r ->
  (forall uv um n next, host_row r uv um n next -> r' !! "instance_id" = r !! "instance_id" /\
     exists next', host_row r' (uv + x.1.1) (um + x.1.2) (n + x.2) next') ->
  balanced (db_set d Hosts (<[hid := r']> (db_rows d Hosts))) (add_at hid x e).
Proof.
  intros [Hh Ht] Hr Hrow. split.
  - intros i r0 Hr0 Hreal. unfold db_get in Hr0. rewrite db_rows_set_eq in Hr0. unfold explained.
    rewrite db_rows_set_ne by done. unfold add_at. destruct (decide (i = hid)) as [->|Hne].
    + rewrite lookup_insert_eq in Hr0. injection Hr0 as <-.
      destruct (Hh hid r Hr Hreal) as (Hi & next & Hx). destruct (Hrow _ _ _ _ Hx) as (Hi' & next' & Hx').
      split; [by rewrite Hi'|]. exists next'. cbn [plus3 fst snd]. by rewrite !Z.add_assoc.
    + rewrite lookup_insert_ne in Hr0 by done. by apply Hh.
  - intros tid it Hit. unfold db_get in Hit. rewrite db_rows_set_ne in Hit by done. by apply Ht.
Qed.

Lemma host_rows_grow d hid row i :
  is_Some (db_get d Hosts i) -> is_Some (db_get (db_set d Hosts (<[hid := row]> (db_rows d Hosts))) Hosts i).
Proof.
  unfold db_get. rewrite db_rows_set_eq. intros Hi. destruct (decide (i = hid)) as [->|].
  - rewrite lookup_insert_eq. eauto.
  - by rewrite lookup_insert_ne.
Qed.

(** An unconditional update of counters cannot fail on the row of a host. *)
Lemma counters_step hid acts rv x d e r d' :
  balanced d e -> is_Some (db_get d Hosts hid) ->
  (forall row uv um n next, host_row row uv um n next -> exists new next',
     apply_actions row acts row = Ok new /\ new !! "instance_id" = row !! "instance_id" /\
     host_row new (uv + x.1.1) (um + x.1.2) (n + x.2) next') ->
  dynamo_step (UpdateItem Hosts hid acts None rv) d r d' ->
  balanced d' (add_at hid x e) /\ db_rows d' Tenants = db_rows d Tenants /\
  (forall i, is_Some (db_get d Hosts i) -> is_Some (db_get d' Hosts i)).
Proof.
  intros Hb [row Hr] Hacts Hs. cbn in Hs. unfold update_row in Hs. rewrite Hr in Hs.
  cbn [cond_holds base_item default] in Hs. unfold id in Hs.
  assert (Hext : forall d0, real_host hid = false -> balanced d0 e -> balanced d0 (add_at hid x e)).
  { intros d0 Hu. apply balanced_ext. intros i Hi. unfold add_at. by rewrite decide_False by congruence. }
  destruct (apply_actions row acts row) as [new|ex|] eqn:Ea; [| |done]; destruct Hs as [-> ->].
  - split; [|split; [by apply db_rows_set_ne|by apply host_rows_grow]].
    destruct (real_host hid) eqn:Hreal.
    + apply (balanced_host d e hid row x new Hb Hr). intros uv um n next Hx.
      destruct (Hacts _ _ _ _ _ Hx) as (new' & next' & Hn & Hi & Hx'). rewrite Ea in Hn. injection Hn as <-. eauto.
    + apply Hext; [done|]. destruct Hb as [Hh Ht]. split.
      * intros i r0 Hr0 Hi. unfold db_get in Hr0. rewrite db_rows_set_eq, lookup_insert_ne in Hr0 by congruence.
        unfold explained. rewrite db_rows_set_ne by done. by apply Hh.
      * intros tid it Hit. unfold db_get in Hit. rewrite db_rows_set_ne in Hit by done. by apply Ht.
  - split; [|done]. destruct (real_host hid) eqn:Hreal; [|by apply Hext]. exfalso.
    destruct (proj1 Hb hid row Hr Hreal) as (_ & next & Hx).
    destruct (Hacts _ _ _ _ _ Hx) as (new' & next' & Hn & _). congruence.
Qed.

(** An update of the next VM number, under a condition. *)
Lemma next_step hid z c rv d e r d' :
  balanced d e -> is_Some (db_get d Hosts hid) ->
  dynamo_step (UpdateItem Hosts hid [SET "next_vm_num" (Lit (VInt z))] c rv) d r d' ->
  balanced d' e /\ db_rows d' Tenants = db_rows d Tenants /\
  (forall i, is_Some (db_get d Hosts i) -> is_Some (db_get d' Hosts i)).
Proof.
  intros Hb [row Hr] Hs. cbn in Hs. unfold update_row in Hs. rewrite Hr in Hs.
  destruct (cond_holds c (default ∅ (Some row))); [|by destruct Hs as [_ ->]].
  cbn in Hs. destruct Hs as [_ ->]. unfold id.
  split; [|split; [by apply db_rows_set_ne|by apply host_rows_grow]].
  apply (balanced_ext _ (add_at hid (0, 0, 0) e)).
  { intros i _. unfold add_at, plus3. destruct (decide (i = hid)); [|done]. cbn.
    destruct (e i) as [[a b] q]. cbn. by rewrite !Z.add_0_r. }
  apply (balanced_host d e hid row (0, 0, 0)); [done..|]. intros uv um n next [H1 H2 H3 H4]. cbn.
  rewrite !Z.add_0_r. split; [by rewrite lookup_insert_ne|].
  exists z. split; by simplify_map_eq.
Qed.

(** Programs all of whose calls keep something. *)
Lemma after_events {A} (F : ev -> Prop) (P : db -> Prop) (p : M A) d :
  (forall c r d d', dynamo_step c d r d' -> F (Ev c r) -> P d -> P d') ->
  awp p (fun _ t => Forall F t) -> P d -> after P p d.
Proof.
  intros Hstep. unfold after. revert d; induction p as [r|c k IH]; intros d Ha Hd; [done|]. cbn. intros r d' Hs.
  assert (awp (k r) (fun _ t => Forall F (Ev c r :: t))) as Hk by apply (Ha r tt I).
  assert (F (Ev (S := aws) c r)) as He by (destruct (awp_nonempty _ _ Hk) as (o & t & Ht); by inversion Ht).
  apply IH; [|by apply (Hstep c r d d')]. eapply awp_mono; [apply Hk|]. intros o t Ht. by inversion Ht.
Qed.

(** ** Programs that write other tables only *)

Definition aside_event (ev0 : ev) : Prop :=
  match ev_call ev0 with
  | PutItem t _ _ | UpdateItem t _ _ _ _ | DeleteItem t _ => t <> Tenants /\ t <> Hosts
  | _ => True
  end.
Definition aside {A} (p : M A) : Prop := awp p (fun _ t => Forall aside_event t).

(** What depends on the rows of tenants and hosts only. *)
Definition on_rows (P : db -> Prop) : Prop :=
  forall d d', db_rows d' Tenants = db_rows d Tenants -> db_rows d' Hosts = db_rows d Hosts -> P d -> P d'.

Lemma balanced_on_rows e : on_rows (fun d => balanced d e).
Proof. intros d d'. apply balanced_rows. Qed.
Lemma accounted_rows : on_rows accounted.
Proof.
  intros d d' E1 E2 Ha. apply accounted_balanced. apply (balanced_rows d); [done..|]. by apply accounted_balanced.
Qed.

Lemma aside_step c d r d' :
  dynamo_step c d r d' -> aside_event (Ev c r) ->
  db_rows d' Tenants = db_rows d Tenants /\ db_rows d' Hosts = db_rows d Hosts.
Proof.
  unfold aside_event. destruct c; cbn; try (intros Hs _; repeat deex; by subst).
  - intros Hs [H1 H2]. destruct (item_key t it); [destruct (cond_holds _ _)|]; repeat deex; subst;
      rewrite ?db_rows_set_ne by done; done.
  - intros Hs [H1 H2]. destruct (update_row _ _ _ _ _); repeat deex; subst; rewrite ?db_rows_set_ne by done; done.
  - intros [_ ->] [H1 H2]. by rewrite !db_rows_set_ne by done.
Qed.

Lemma after_aside {A} (P : db -> Prop) (p : M A) d : on_rows P -> aside p -> P d -> after P p d.
Proof.
  intros HP. apply (after_events aside_event). intros c r d1 d2 Hs He Hd.
  destruct (aside_step _ _ _ _ Hs He) as [E1 E2]. by apply (HP d1).
Qed.

(** What holds in every environment holds here. *)
Lemma awp_wp {A D} step (p : M A) (d : D) (Q : outcome A -> list ev -> Prop) :
  awp p Q -> wp (S := aws) step p d (fun o _ t => Q o t).
Proof.
  unfold awp. revert d Q; induction p as [r|c k IH]; intros d Q Ha; [done|]. cbn. intros r d' _.
  apply (IH r d' (fun o t => Q o (Ev c r :: t))). by apply (Ha r tt).
Qed.

Lemma aside_quiet {A} (p : M A) : quiet p -> aside p.
Proof.
  intros Hp. eapply awp_mono; [apply Hp|]. intros o t. apply List.Forall_impl. intros e.
  unfold no_write, aside_event. destruct (ev_call e); tauto.
Qed.
Lemma aside_bind {A B} (p : M A) (f : A -> M B) : aside p -> (forall a, aside (f a)) -> aside (p ≫= f).
Proof. apply awp_all_events_bind. Qed.
Lemma aside_audit `{Config} a : aside (put_audit_row a).
Proof.
  eapply awp_mono; [apply put_audit_row_events|]. intros o t. apply List.Forall_impl. intros e.
  unfold audit_event, aside_event. destruct (ev_call e); try done. by destruct t0.
Qed.

(** ** An invariant, then a goal *)

Lemma after_seq {A B} (I P : db -> Prop) (f : A -> M B) (p : M A) d :
  after I p d -> (forall d', I d' -> P d') -> (forall a d', I d' -> after P (f a) d') -> after P (p ≫= f) d.
Proof.
  intros Hp HP Hf. apply after_bind. eapply wp_mono; [apply Hp|]. intros [a| |] d' t Hd'; auto.
Qed.
Lemma after_catch {A} (P : db -> Prop) (p : M A) h d :
  after P p d -> (forall e d', P d' -> after P (h e) d') -> after P (catch p h) d.
Proof.
  intros Hp Hh. apply wp_catch. eapply wp_mono; [apply Hp|]. intros [a|e|] d' t Hd'; try done. by apply Hh.
Qed.
Lemma after_attempt {A} (P : db -> Prop) (p : M A) d : after P p d -> after P (attempt p) d.
Proof. intros Hp. apply wp_attempt. eapply wp_mono; [apply Hp|]. done. Qed.

(** ** Programs that leave one table alone *)

Definition spare_event (t : table) (e : ev) : Prop :=
  match ev_call e with
  | PutItem t' _ _ | UpdateItem t' _ _ _ _ | DeleteItem t' _ => t' <> t
  | _ => True
  end.
Definition spares (t : table) {A} (p : M A) : Prop := awp p (fun _ tr => Forall (spare_event t) tr).

Lemma spare_step t c d r d' : dynamo_step c d r d' -> spare_event t (Ev c r) -> db_rows d' t = db_rows d t.
Proof.
  unfold spare_event. destruct c; cbn; try (intros Hs _; repeat deex; by subst).
  - intros Hs Ht. destruct (item_key t0 it); [destruct (cond_holds _ _)|]; repeat deex; subst;
      rewrite ?db_rows_set_ne by done; done.
  - intros Hs Ht. destruct (update_row _ _ _ _ _); repeat deex; subst; rewrite ?db_rows_set_ne by done; done.
  - intros [_ ->] Ht. by rewrite db_rows_set_ne.
Qed.

Lemma after_spares {A} t rows (p : M A) d :
  spares t p -> db_rows d t = rows -> after (fun d' => db_rows d' t = rows) p d.
Proof.
  apply (after_events (spare_event t) (fun d' => db_rows d' t = rows)). intros c r d1 d2 Hs He Hd.
  by rewrite (spare_step _ _ _ _ _ Hs He).
Qed.

Lemma spares_quiet {A} t (p : M A) : quiet p -> spares t p.
Proof.
  intros Hp. eapply awp_mono; [apply Hp|]. intros o tr. apply List.Forall_impl. intros e.
  unfold no_write, spare_event. destruct (ev_call e); tauto.
Qed.
Lemma spares_bind {A B} t (p : M A) (f : A -> M B) : spares t p -> (forall a, spares t (f a)) -> spares t (p ≫= f).
Proof. apply awp_all_events_bind. Qed.
Lemma spares_catch {A} t (p : M A) h : spares t p -> (forall e, spares t (h e)) -> spares t (catch p h).
Proof. apply awp_all_events_catch. Qed.
Lemma spares_do t c : (forall r, spare_event t (Ev (S := aws) c r)) -> spares t (do_ c).
Proof. exact (awp_all_events_call (S := aws) c (spare_event t)). Qed.
Lemma spares_tenants {A} (p : M A) : aside p -> spares Tenants p.
Proof.
  intros Hp. eapply awp_mono; [apply Hp|]. intros o tr. apply List.Forall_impl. intros e.
  unfold aside_event, spare_event. destruct (ev_call e); tauto.
Qed.

(** A part in front that keeps [I], for a postcondition on the outcome and the
    tables. *)
Lemma wp_prefix {A B} (I : db -> Prop) (Q : outcome B -> db -> Prop) (p : M A) (f : A -> M B) d :
  after I p d -> (forall e d', I d' -> Q (Exn e) d') -> (forall d', I d' -> Q NoFuel d') ->
  (forall a d', I d' -> wp (S := aws) dynamo_step (f a) d' (fun o d'' _ => Q o d'')) ->
  wp (S := aws) dynamo_step (p ≫= f) d (fun o d' _ => Q o d').
Proof.
  intros Hp He Hn Hf. do_bind. eapply wp_mono; [apply Hp|]. intros [a|e|] d' tr Hd'; [|by apply He|by apply Hn].
  eapply wp_mono; [by apply Hf|]. done.
Qed.
