(* ===== verification/Hosts.v ===== *)
(** * Hosts: registration, draining, termination, waiting tenants

    [deploy/lambda/api/handler.py]. *)

From Stdlib Require Import SpecFloat.
From S2P Require Import Prelude Py Effects Aws Iso Re Config Validate Ssm Capacity AuditLog Rbac Placement Alb Tenants Actions.

Section Hosts.
Context `{Config}.

Definition list_hosts : M resp :=
  items ← _scan_all Hosts (Some live);
  let items := List.filter (fun h => negb (starts_with "__" (str_of (get_or h "instance_id" (VStr ""))))) items in
  let with_ratios h := <["mem_overcommit_ratio" := VFloat MEM_OVERCOMMIT_RATIO]>
                       (<["cpu_overcommit_ratio" := VFloat CPU_OVERCOMMIT_RATIO]> h) in
  mret (_resp 200 (VList (map (fun h => item_val (with_ratios h)) items))).

(** ** Registration *)

Definition _SIZE_TO_VCPU : list (string * Z) := [
  ("medium", 1); ("large", 2); ("xlarge", 4); ("2xlarge", 8); ("4xlarge", 16); ("8xlarge", 32);
  ("12xlarge", 48); ("16xlarge", 64); ("24xlarge", 96)].
Definition _FAMILY_LETTER_TO_MEM_PER_VCPU : list (string * Z) := [("c", 2048); ("m", 4096); ("r", 8192)].

(** The static lookup by family and size, with its default. *)
Definition memory_fallback (instance_type : string) : Z :=
  match str_split "." instance_type with
  | [family; size] =>
      match alist_get size _SIZE_TO_VCPU, alist_get (str_take 1 family) _FAMILY_LETTER_TO_MEM_PER_VCPU with
      | Some vcpu, Some per => vcpu * per
      | _, _ => 16384
      end
  | _ => 16384
  end.

Definition _resolve_instance_memory_mb (instance_type : string) : M Z :=
  if nonempty instance_type then
    try_ (do_ (DescribeInstanceType instance_type)) except _ => mret (memory_fallback instance_type)
  else mret (memory_fallback instance_type).

Definition host_item (instance_id private_ip az : string) (vcpu_total mem_total : Z) (now : string) : item :=
  list_to_map [
    ("instance_id", VStr instance_id); ("private_ip", VStr private_ip); ("az", VStr az);
    ("total_vcpu", VInt (vcpu_total - HOST_RESERVED_VCPU));
    ("total_mem_mb", VInt (mem_total - HOST_RESERVED_MEM));
    ("used_vcpu", VInt 0); ("used_mem_mb", VInt 0); ("vm_count", VInt 0); ("next_vm_num", VInt 1);
    ("status", VStr "active"); ("idle_since", VStr now)].

Definition register_host (body : req_body) : M resp :=
  match body with
  | NoBody => mret (error_resp 400 "missing body")
  | _ =>
      body ← lift (load_body body);
      id_v ← lift (vget body "instance_id");
      if negb (truthy id_v) then mret (error_resp 400 "missing instance_id")
      else
        instance_id ← lift (match id_v with VStr s => Ok s | _ => Exn (PyExn "ParamValidationError" "InstanceIds") end);
        inst ← do_ (DescribeInstance instance_id);
        let az := default "" (ei_az inst) in
        mem_total ← _resolve_instance_memory_mb (default "" (ei_type inst));
        now ← _now;
        _ ← do_ (PutItem Hosts (host_item instance_id (ei_private_ip inst) az
                                  (ei_cores inst * ei_threads inst) mem_total now) None);
        mret (_resp 201 (VDict [("instance_id", VStr instance_id); ("status", VStr "active"); ("az", VStr az)]))
  end.

(** ** Draining *)

Definition deregister_host (instance_id : string) : M resp :=
  _ ← do_ (UpdateItem Hosts instance_id [SET "status" (Lit (VStr "draining"))] None RvNone);
  _ ← (try_ (do_ (TerminateInstance instance_id false)) except _ => mret tt);
  mret (_resp 200 (VDict [("instance_id", VStr instance_id); ("status", VStr "draining")])).

(** One tenant of a draining host: the migration started, or the failure. *)
Definition drain_one (instance_id : string) (t : item) : M batch_result :=
  tid_v ← lift (req t "id");
  tid ← lift (as_key tid_v);
  vcpu ← lift (py_int (get_or t "vcpu" (VInt 0)));
  mem_mb ← lift (py_int (get_or t "mem_mb" (VInt 0)));
  target ← _find_host vcpu mem_mb;
  let no_target := Failed (VDict [("id", tid_v); ("error", VStr "no target host with capacity")]) in
  match target with
  | None => mret no_target
  | Some target =>
      target_id ← lift (req target "instance_id");
      if is_str target_id instance_id then mret no_target
      else
        r ← tenant_action tid "migrate" (Json (VDict [("target_host_id", target_id)]));
        if statusCode r =? 202 then mret (Succeeded (VDict [("id", tid_v); ("target", target_id)]))
        else
          err ← lift (vget_or (body r) "error" (VStr "migrate failed"));
          mret (Failed (VDict [("id", tid_v); ("error", err)]))
  end.

Fixpoint drain_all (instance_id : string) (tenants : list item) : M (list val * list val) :=
  match tenants with
  | [] => mret ([], [])
  | t :: ts =>
      r ← drain_one instance_id t;
      '(started, failed) ← drain_all instance_id ts;
      mret (match r with Succeeded v => (v :: started, failed) | Failed v => (started, v :: failed) end)
  end.

Definition on_host_with_status (instance_id status : string) : cond :=
  CAnd (CEq (Attr "host_id") (Lit (VStr instance_id))) (CEq (Attr "status") (Lit (VStr status))).

Definition drain_host (instance_id : string) : M resp :=
  host ← do_ (GetItem Hosts instance_id);
  match host with
  | None => mret (error_resp 404 ("host " +:+ instance_id +:+ " not found"))
  | Some _ =>
      tenants ← _scan_all Tenants (Some (on_host_with_status instance_id "running"));
      now ← _now;
      _ ← do_ (UpdateItem Hosts instance_id
                 [SET "status" (Lit (VStr "draining")); SET "updated_at" (Lit (VStr now))] None RvNone);
      '(started, failed) ← drain_all instance_id tenants;
      _ ← _audit_system "host.drain_started" ("host:" +:+ instance_id) instance_id "api"
            (Some (VDict [("migrations", VList started); ("failed", VList failed)])) 200;
      mret (_resp (match started, tenants with _ :: _, _ | _, [] => 202 | _, _ => 409 end)
        (VDict [("instance_id", VStr instance_id); ("status", VStr "draining");
                ("migrations_started", VList started); ("failed", VList failed);
                ("message", VStr ("host will be empty once migrations complete; terminate it then " +:+
                   "(DELETE /hosts/{id}) — it will NOT hard-delete tenants"))]))
  end.

Definition trigger_failover (az : string) : M resp :=
  let fn := env_or "HEALTH_CHECK_FUNCTION" "" in
  if negb (nonempty fn) then
    mret (error_resp 501 "manual failover unavailable (HEALTH_CHECK_FUNCTION not configured)")
  else
    r ← attempt (do_ (LambdaInvoke fn (VDict [("manual_failover_az", VStr az)])));
    match r with
    | inr e => mret (error_resp 502 ("failed to invoke health check: " +:+ exn_str e))
    | inl _ =>
        _ ← _audit_system "az.failover_requested" ("az:" +:+ az) az "api" None 200;
        mret (_resp 202 (VDict [("az", VStr az); ("status", VStr "failover_triggered");
                ("message", VStr "health-check sweep invoked; poll tenants for recovery")]))
    end.

(** ** Termination *)

Definition on_host_live (instance_id : string) : cond :=
  CAnd (CEq (Attr "host_id") (Lit (VStr instance_id))) (CNe (Attr "status") (Lit (VStr "deleted"))).

(** One tenant of a terminated host: its route and its row. *)
Definition reap_tenant (t : item) : M unit :=
  tid_v ← lift (req t "id");
  tid ← lift (as_key tid_v);
  _ ← _remove_alb_rule tid;
  now ← _now;
  _ ← do_ (set_status tid "deleted" now);
  mret tt.

(** The lifecycle event: the instance, its hook and its group. *)
Record lifecycle := Lifecycle { lc_instance : string; lc_hook : string; lc_asg : string }.

Definition cleanup_terminated_host (detail : lifecycle) : M unit :=
  let iid := lc_instance detail in
  tenants ← _scan_all Tenants (Some (on_host_live iid));
  _ ← for_each tenants reap_tenant;
  _ ← _remove_host_tg iid;
  _ ← do_ (DeleteItem Hosts iid);
  ids ← lift (mapM (M := outcome) (fun t => req t "id") tenants);
  _ ← _audit_system "host.terminated" ("host:" +:+ iid) iid "system:asg-lifecycle"
        (Some (VDict [("instance_id", VStr iid); ("tenants_reaped", VList ids)])) 200;
  try_ (do_ (CompleteLifecycleAction (lc_hook detail) (lc_asg detail) iid)) except _ => mret tt.

(** ** Rootfs *)

Definition _get_manifest : M val :=
  try_ (text ← do_ (GetObject (env_or "ASSETS_BUCKET" "") (env_or "ROOTFS_PREFIX" "rootfs" +:+ "/manifest.json"));
        lift (json_loads text))
  except _ => mret (VDict []).

Definition rootfs_version : M resp :=
  manifest ← _get_manifest;
  v ← lift (vget_or manifest "version" (VStr "unknown"));
  mret (_resp 200 (VDict [("version", v)])).

Definition nl : string := String Re.newline "".

Definition refresh_script (bucket prefix region rootfs data : string) : string :=
  let q s := String dquote (s +:+ String dquote "") in
  let a s := q ("$ASSETS/" +:+ s) in
  let s3 s := q ("s3://$BUCKET/$PREFIX/" +:+ s) in
  let cp src dst := "aws s3 cp " +:+ s3 src +:+ " " +:+ a dst +:+ " --region " +:+ q "$REGION" in
  str_join nl [
    "set -euo pipefail"; "ASSETS=/data/firecracker-assets"; "BUCKET=" +:+ bucket; "PREFIX=" +:+ prefix;
    "REGION=" +:+ region; "ROOTFS_GZ=" +:+ rootfs; "DATA_GZ=" +:+ data;
    cp "manifest.json" "manifest.json"; cp "$ROOTFS_GZ" "rootfs.gz"; cp "$DATA_GZ" "data.gz";
    "pigz -dc " +:+ a "rootfs.gz" +:+ " > " +:+ a "openclaw-rootfs.ext4.tmp";
    "[ -s " +:+ a "openclaw-rootfs.ext4.tmp" +:+ " ]";
    "mv " +:+ a "openclaw-rootfs.ext4.tmp" +:+ " " +:+ a "openclaw-rootfs.ext4";
    "rm -f " +:+ a "rootfs.gz";
    "pigz -dc " +:+ a "data.gz" +:+ " > " +:+ a "openclaw-data-template.ext4.tmp";
    "[ -s " +:+ a "openclaw-data-template.ext4.tmp" +:+ " ]";
    "mv " +:+ a "openclaw-data-template.ext4.tmp" +:+ " " +:+ a "openclaw-data-template.ext4";
    "rm -f " +:+ a "data.gz";
    "fallocate --dig-holes " +:+ a "openclaw-data-template.ext4"].

Definition refresh_rootfs : M resp :=
  manifest ← _get_manifest;
  if negb (truthy manifest) then mret (error_resp 500 "manifest.json not found")
  else
    version ← lift (vreq manifest "version");
    hosts ← _scan_all Hosts (Some placeable);
    match hosts with
    | [] => mret (_resp 200 (VDict [("message", VStr "no active hosts"); ("updated", VInt 0)]))
    | _ =>
        ids ← lift (mapM (M := outcome) instance_id hosts);
        rootfs ← lift (vreq manifest "rootfs");
        data ← lift (vreq manifest "data_template");
        let script := refresh_script (env_or "ASSETS_BUCKET" "") (env_or "ROOTFS_PREFIX" "rootfs")
                        (env_or "AWS_REGION" "ap-northeast-1") (str_of rootfs) (str_of data) in
        r ← attempt (do_ (SendCommand ids [script] (Some 600) None));
        match r with
        | inr e => mret (error_resp 500 (exn_str e))
        | inl _ =>
            _ ← for_each ids (fun i =>
                  _ ← do_ (UpdateItem Hosts i [SET "rootfs_version" (Lit version)] None RvNone); mret tt);
            mret (_resp 200 (VDict [("message", VStr "refresh started"); ("version", version);
                                    ("hosts", VList (map VStr ids))]))
        end
    end.

(** ** Waiting tenants *)

Definition created_at (t : item) : string :=
  match get_or t "created_at" (VStr "") with VStr s => s | _ => "" end.

(** Assign one waiting tenant; [false] when no host has room. *)
Definition assign_pending (tenant : item) : M bool :=
  vcpu ← lift (v ← req tenant "vcpu"; py_int v);
  mem_mb ← lift (v ← req tenant "mem_mb"; py_int v);
  host ← _find_host vcpu mem_mb;
  match host with
  | None => mret false
  | Some host =>
      vm_num ← lift (py_int (get_or host "next_vm_num" (VInt 1)));
      let guest_ip := guest_ip_of vm_num in
      let host_port := host_port_of vm_num in
      now ← _now;
      tid_v ← lift (req tenant "id");
      tid ← lift (as_key tid_v);
      hid ← lift (instance_id host);
      _ ← do_ (UpdateItem Tenants tid [
            SET "status" (Lit (VStr "creating")); SET "host_id" (Lit (VStr hid));
            SET "vm_num" (Lit (VInt vm_num)); SET "guest_ip" (Lit (VStr guest_ip));
            SET "host_port" (Lit (VInt host_port));
            SET "rootfs_version" (Lit (get_or host "rootfs_version" (VStr "")));
            SET "creation_started_at" (Lit (VStr now)); SET "updated_at" (Lit (VStr now))] None RvNone);
      _ ← do_ (UpdateItem Hosts hid [
            SET "used_vcpu" (Add (Attr "used_vcpu") (Lit (VInt vcpu)));
            SET "used_mem_mb" (Add (Attr "used_mem_mb") (Lit (VInt mem_mb)));
            SET "vm_count" (Add (Attr "vm_count") (Lit (VInt 1)));
            SET "next_vm_num" (Lit (VInt (vm_num + 1)))] None RvNone);
      skills ← _resolve_effective_skills tenant;
      _ ← _launch_vm hid tid vm_num vcpu mem_mb guest_ip host_port
            (template_text (get_or tenant "config_template" (VStr "")))
            (template_text (get_or tenant "restore_backup_key" (VStr ""))) skills;
      ip ← lift (req host "private_ip");
      tg_arn ← _ensure_host_tg hid (str_of ip) false;
      _ ← _add_alb_rule tid tg_arn false;
      mret true
  end.

(** Assign in order until one does not fit. *)
Fixpoint assign_all (pending : list item) (assigned : Z) : M Z :=
  match pending with
  | [] => mret assigned
  | t :: ts =>
      ok ← assign_pending t;
      if ok : bool then assign_all ts (assigned + 1) else mret assigned
  end.

Definition process_pending : M resp :=
  pending ← _scan_all Tenants (Some (CEq (Attr "status") (Lit (VStr "pending"))));
  match pending with
  | [] => mret (_resp 200 (VStr "no pending tenants"))
  | _ =>
      let pending := sort_by (fun a b => str_le (created_at a) (created_at b)) pending in
      assigned ← assign_all pending 0;
      mret (_resp 200 (VStr ("assigned " +:+ pretty assigned +:+ "/" +:+ pretty (Z.of_nat (length pending)) +:+
                             " pending tenants")))
  end.
End Hosts.
