(* ===== verification/Routing.v ===== *)
(** * Routing administration: rebuild, status, purge

    [deploy/lambda/api/handler.py]: the endpoints of the cut-over between
    per-tenant listener rules and the shared target group. *)

From S2P Require Import Prelude Py Effects Aws Iso Config Validate Ssm AuditLog Rbac Placement Alb Tenants Actions.

(** [s.split(p, 1)\[1\]]: the text after the first occurrence of [p]. *)
Fixpoint after_sub (p s : string) : option string :=
  if starts_with p s then Some (str_drop (String.length p) s)
  else match s with EmptyString => None | String _ s' => after_sub p s' end.

Section Routing.
Context `{Config}.

(** [v.split("/vm/", 1)\[1\].split("/", 1)\[0\]] for a value that contains [/vm/]. *)
Definition path_tenant (v : string) : option string :=
  (fun s => fst (split_once "/" s)) <$> after_sub "/vm/" v.

Definition rule_values (r : rule) : list string := concat (map snd (r_conditions r)).
Definition is_default (r : rule) : bool := bool_decide (r_priority r = "default").

(** The counts of the results by action, in order of first appearance. *)
Fixpoint bump (k : string) (l : list (string * Z)) : list (string * Z) :=
  match l with
  | [] => [(k, 1)]
  | (j, n) :: l' => if bool_decide (j = k) then (j, n + 1) :: l' else (j, n) :: bump k l'
  end.
Definition counts (actions : list string) : list (string * Z) := foldl (fun l k => bump k l) [] actions.
Definition counts_val (l : list (string * Z)) : val := VDict (map (fun kn => (kn.1, VInt kn.2)) l).

(** [json.loads(body) if isinstance(body, str) else (body or {})] *)
Definition admin_body (b : req_body) : outcome val :=
  match b with NoBody => Ok (VDict []) | b => load_body b end.

(** A result line: its action and its JSON form. *)
Record line := Line { ln_action : string; ln_val : val }.
Definition mk_line (fields : list (string * val)) (action : string) (more : list (string * val)) : line :=
  Line action (VDict (fields ++ [("action", VStr action)] ++ more)).

(** ** Rebuild *)

(** The target group of a host, looked up once per host. *)
Definition resolve_tg (host_id : val) : M (option string) :=
  key ← lift (as_key host_id);
  host ← do_ (GetItem Hosts key);
  let ip := get (default ∅ (host : option item)) "private_ip" in
  if negb (truthy ip) then mret None
  else arn ← _ensure_host_tg key (str_of ip) true; mret (Some arn).

Definition seen_hosts : Type := list (val * option string).
Fixpoint seen_get (k : val) (l : seen_hosts) : option (option string) :=
  match l with [] => None | (j, a) :: l' => if bool_decide (j = k) then Some a else seen_get k l' end.

(** One tenant of the rebuild. *)
Definition rebuild_one (dry_run : bool) (have : list string) (st : seen_hosts * list line) (t : item)
    : M (seen_hosts * list line) :=
  let '(seen, results) := st in
  let tid := get t "id" in
  let host_id := get t "host_id" in
  let add l := mret (seen, results ++ [l]) in
  if negb (truthy tid) then mret st
  else if is_str_in tid have then add (mk_line [("tenant_id", tid)] "existing" [])
  else if negb (truthy host_id) then
    add (mk_line [("tenant_id", tid)] "skipped" [("reason", VStr "no host_id")])
  else if dry_run then add (mk_line [("tenant_id", tid)] "would_create" [("host_id", host_id)])
  else
    let failed why := mk_line [("tenant_id", tid)] "failed" [("reason", VStr why)] in
    r ← attempt (match seen_get host_id seen with
                 | Some a => mret a
                 | None => resolve_tg host_id
                 end);
    match r with
    | inr e => add (failed (exn_str e))
    | inl tg =>
        let seen' := match seen_get host_id seen with Some _ => seen | None => (host_id, tg) :: seen end in
        match tg with
        | None | Some EmptyString =>
            mret (seen', results ++ [failed ("host " +:+ str_of host_id +:+ " has no private_ip")])
        | Some tg_arn =>
            r ← attempt (key ← lift (as_key tid); _add_alb_rule key tg_arn true);
            mret (seen', results ++ [match r with
              | inl _ => mk_line [("tenant_id", tid)] "created" [("host_id", host_id)]
              | inr e => failed (exn_str e) end])
        end
    end.

Definition routable : cond :=
  CIn (Attr "status") [VStr "running"; VStr "failover_queued"; VStr "failover_recovering"].

(** [except ClientError as e: return 502] around [describe_rules]. *)
Definition listener_rules (listener : string) : M (resp + list rule) :=
  r ⇐ run_lift (attempt (do_ (DescribeRules listener)));
  match r with
  | inl rules => go (rules : list rule)
  | inr (ClientError c m) => answer (error_resp 502 ("describe_rules failed: " +:+ m))
  | inr e => run_lift (raise e)
  end.

Definition dry_run_of (body : val) : M (resp + bool) :=
  d ⇐ run_lift (lift (vget_or body "dry_run" (VBool true)));
  match d with VBool b => go b | _ => answer (error_resp 400 "dry_run must be a boolean") end.

Definition no_listener : resp := error_resp 501 "ALB listener not configured (ALB_LISTENER_ARN unset)".

Definition rebuild_routing (body : req_body) : M resp :=
  finish (
    body ⇐ run_lift (lift (admin_body body));
    dry_run ⇐ dry_run_of body;
    mode_v ⇐ run_lift (lift (vget body "mode"));
    mode ⇐ run_lift (lift (stripped (v_or mode_v (VStr "per-tenant"))));
    _ ⇐ answer_if (negb (bool_decide (mode = "per-tenant")))
          (error_resp 400 ("unsupported mode " +:+ repr_str mode +:+
             "; only 'per-tenant' can be rebuilt (host-tg routing is a static template rule)"));
    _ ⇐ answer_if (bool_decide (ALB_LISTENER_ARN = "")) no_listener;
    tenants ⇐ run_lift (_scan_all Tenants (Some routable));
    existing ⇐ listener_rules ALB_LISTENER_ARN;
    let have := omap (M := list) path_tenant (concat (map rule_values existing)) in
    let used := length (List.filter (fun r => negb (is_default r)) existing) in
    st ⇐ run_lift (fold_prog (rebuild_one dry_run have) tenants ([], []));
    let results := snd st in
    _ ⇐ run_lift (if negb dry_run then _audit_system "routing.rebuilt" "routing:per-tenant" "per-tenant" "api" None 200
                  else mret tt);
    go (_resp 200 (VDict [
      ("mode", VStr mode); ("dry_run", VBool dry_run); ("routing_mode_env", VStr ROUTING_MODE);
      ("tenants_considered", VInt (Z.of_nat (length tenants)));
      ("existing_listener_rules", VInt (Z.of_nat used));
      ("counts", counts_val (counts (map ln_action results)));
      ("results", VList (map ln_val results))]))).

(** ** Status *)

Definition is_catch_all (v : string) : bool := bool_decide (v = "/vm/*").

Definition is_static (r : rule) : bool :=
  existsb is_catch_all (rule_values r) || negb (existsb (str_contains "/vm/") (rule_values r)).

Definition routing_status : M resp :=
  let base := [("mode", VStr ROUTING_MODE);
               ("per_tenant_priority_window", VList [VInt PER_TENANT_PRIORITY_MIN; VInt PER_TENANT_PRIORITY_MAX])] in
  if bool_decide (ALB_LISTENER_ARN = "") then
    mret (_resp 200 (VDict (base ++ [("error", VStr "ALB listener not configured (ALB_LISTENER_ARN unset)")])))
  else finish (
    rules ⇐ listener_rules ALB_LISTENER_ARN;
    let non_default := List.filter (fun r => negb (is_default r)) rules in
    let static := List.filter is_static non_default in
    let per_tenant := List.filter (fun r => negb (is_static r)) non_default in
    quota ⇐ run_lift (lift (py_int (VStr (env_or "ALB_RULES_QUOTA" "100"))));
    let headroom := Z.max 0 (quota - Z.of_nat (length non_default)) in
    let figures := [
      ("listener_rules_total", VInt (Z.of_nat (length non_default)));
      ("per_tenant_rules", VInt (Z.of_nat (length per_tenant)));
      ("static_rules", VInt (Z.of_nat (length static)));
      ("alb_rules_quota", VInt quota);
      ("quota_headroom", VInt headroom);
      ("has_shared_catch_all", VBool (existsb (fun r => existsb is_catch_all (rule_values r)) static))] in
    let tail :=
      if host_tg_mode then
        [("tenant_ceiling", VStr "hosts x vms_per_host (no ALB rule per tenant)");
         ("cutover_complete", VBool (Nat.eqb (length per_tenant) 0))] ++
        match per_tenant with
        | [] => []
        | _ => [("note", VStr (pretty (Z.of_nat (length per_tenant)) +:+
                 " legacy per-tenant rule(s) remain and still win over the catch-all (lower priority matches first). " +:+
                 "Purge them with POST /admin/routing/purge-per-tenant."))]
        end
      else
        [("tenant_ceiling", VInt headroom);
         ("note", VStr ("per-tenant routing consumes one ALB listener rule per tenant; the ALB rules quota is the " +:+
            "real ceiling, not the priority window. Switch routing.mode to host-tg to remove it."))] in
    go (_resp 200 (VDict (base ++ figures ++ tail)))).

(** ** Purge *)

(** The tenants a rule routes, the catch-all apart. *)
Definition rule_tenants (r : rule) : list string :=
  omap (M := list) (fun v => if is_catch_all v then None else path_tenant v) (rule_values r).

(** The rule is one to delete: its first tenant in order. *)
Definition purge_target (only : option (list val)) (r : rule) : option string :=
  if is_default r then None
  else
    let tids := rule_tenants r in
    match sorted_set tids with
    | [] => None
    | tid :: _ =>
        match only with
        | Some only => if existsb (fun t => bool_decide (VStr t ∈ only)) tids then Some tid else None
        | None => Some tid
        end
    end.

Definition purge_one (dry_run : bool) (only : option (list val)) (results : list line) (r : rule) : M (list line) :=
  match purge_target only r with
  | None => mret results
  | Some tid =>
      let fields := [("tenant_id", VStr tid); ("priority", VStr (r_priority r))] in
      if dry_run then mret (results ++ [mk_line fields "would_delete" []])
      else
        d ← attempt (do_ (DeleteRule (r_arn r)));
        mret (results ++ [match d with
          | inl _ => mk_line fields "deleted" []
          | inr e => mk_line fields "failed" [("reason", VStr (exn_str e))] end])
  end.

(** [tenant_ids]: absent, or a list of hashable values; an empty list is no
    restriction. *)
Definition parse_only (v : val) : M (resp + option (list val)) :=
  match v with
  | VNone => go None
  | VList [] => go None
  | VList l => if existsb (fun x => is_list x || is_dict x) l then run_lift (lift (type_error "unhashable type"))
               else go (Some l)
  | _ => answer (error_resp 400 "tenant_ids must be a list of tenant ids")
  end.

Definition purge_per_tenant_routing (body : req_body) : M resp :=
  finish (
    body ⇐ run_lift (lift (admin_body body));
    dry_run ⇐ dry_run_of body;
    only_v ⇐ run_lift (lift (vget body "tenant_ids"));
    only ⇐ parse_only only_v;
    _ ⇐ answer_if (bool_decide (ALB_LISTENER_ARN = "")) no_listener;
    rules ⇐ listener_rules ALB_LISTENER_ARN;
    results ⇐ run_lift (fold_prog (purge_one dry_run only) rules []);
    let cs := counts (map ln_action results) in
    _ ⇐ run_lift (match alist_get "deleted" cs with
                  | Some n => if dry_run then mret tt
                              else _audit_system "routing.per_tenant_purged" "routing:per-tenant"
                                     (pretty n +:+ " rules") "api" None 200
                  | None => mret tt end);
    go (_resp 200 (VDict [("dry_run", VBool dry_run); ("routing_mode_env", VStr ROUTING_MODE);
                          ("counts", counts_val cs); ("results", VList (map ln_val results))]))).

(** ** Lemmas *)

(** The calls that change the load balancer. *)
Definition elb_write (e : ev) : Prop :=
  match ev_call e with
  | CreateRule _ _ _ _ | ModifyRule _ _ | DeleteRule _ | CreateTargetGroup _ _ | RegisterTargets _ _
  | DeleteTargetGroup _ => True
  | _ => False
  end.

(** A rule that may be purged: not the default one, and one of its values
    routes tenants and is not the catch-all. *)
Definition purgeable (r : rule) : Prop :=
  r_priority r <> "default" /\
  exists v tid, v ∈ rule_values r /\ v <> "/vm/*" /\ path_tenant v = Some tid.

Lemma purge_target_purgeable only r tid : purge_target only r = Some tid -> purgeable r.
Proof.
  unfold purge_target, is_default. destruct (bool_decide_reflect (r_priority r = "default")); [done|].
  destruct (sorted_set (rule_tenants r)) as [|t l] eqn:E; [done|]. intros _. split; [done|].
  assert (t ∈ rule_tenants r) as Hin by (apply sorted_set_elem; rewrite E; set_solver).
  unfold rule_tenants in Hin. apply list_elem_of_omap in Hin as (v & Hv & Ht).
  unfold is_catch_all in Ht. destruct (bool_decide_reflect (v = "/vm/*")); [done|]. eauto.
Qed.

(** A deletion of one of the rules, allowed by [ok]. *)
Definition deletes_only (rules : list rule) (ok : rule -> Prop) (e : ev) : Prop :=
  elb_write e -> exists r, r ∈ rules /\ ok r /\ ev_call e = DeleteRule (r_arn r).

Lemma purge_one_events rules dry only acc r :
  r ∈ rules ->
  awp (purge_one dry only acc r) (fun _ t => Forall (fun e =>
    deletes_only rules (fun r => purgeable r /\ is_Some (purge_target only r) /\ dry = false) e) t).
Proof.
  intros Hr. unfold purge_one. destruct (purge_target only r) as [tid|] eqn:E; [|apply awp_all_events_done].
  destruct dry; [apply awp_all_events_done|].
  apply awp_all_events_bind; [|intros; apply awp_all_events_done].
  apply awp_all_events_attempt. apply (awp_all_events_call (S := aws)). intros x _.
  exists r. split; [done|]. split; [|done]. split; [by eapply purge_target_purgeable|]. by rewrite E.
Qed.

(** The scope of a purge: with [tenant_ids] absent, null or the empty list, every
    rule is in it; with a list of tenants, the rules that route one of them;
    any other value is refused. *)
Definition purge_scope (only_v : val) (r : rule) : Prop :=
  match only_v with
  | VNone | VList [] => True
  | VList l => exists t, t ∈ rule_tenants r /\ VStr t ∈ l
  | _ => False
  end.

(** The request asks for a real purge, and the rule is in its scope. *)
Definition purge_asked (body : req_body) (r : rule) : Prop :=
  exists v only_v, load_body body = Ok v /\ vget v "dry_run" = Ok (VBool false) /\
    vget v "tenant_ids" = Ok only_v /\ purge_scope only_v r.

Lemma audit_no_elb e : audit_event e -> ~ elb_write e.
Proof. unfold audit_event, elb_write. destruct (ev_call e); try tauto. Qed.

Lemma audit_system_events n o r a d st : awp (_audit_system n o r a d st) (fun _ t => Forall audit_event t).
Proof.
  unfold _audit_system, _now. apply awp_all_events_bind; [all_calls; done|]. intros ts. apply put_audit_row_events.
Qed.

Lemma purge_target_scope only r tid l :
  purge_target only r = Some tid -> only = Some l -> exists t, t ∈ rule_tenants r /\ VStr t ∈ l.
Proof.
  unfold purge_target. destruct (is_default r); [done|]. destruct (sorted_set _); [done|]. intros Hp ->.
  destruct (existsb _ _) eqn:E; [|done]. apply existsb_exists in E as (t & Ht & Hl).
  apply bool_decide_eq_true in Hl. exists t. by rewrite list_elem_of_In.
Qed.

Lemma purge_fold_events rules dry only :
  awp (fold_prog (purge_one dry only) rules []) (fun _ t => Forall (fun e =>
    deletes_only rules (fun r => purgeable r /\ is_Some (purge_target only r) /\ dry = false) e) t).
Proof. apply awp_all_events_fold. intros r acc Hr. by apply purge_one_events. Qed.

(** What is left of a purge once the rules were read. *)
Definition purge_tail (dry_run : bool) (only : option (list val)) (rules : list rule) : M (resp + resp) :=
  results ⇐ run_lift (fold_prog (purge_one dry_run only) rules []);
  let cs := counts (map ln_action results) in
  _ ⇐ run_lift (match alist_get "deleted" cs with
                | Some n => if dry_run then mret tt
                            else _audit_system "routing.per_tenant_purged" "routing:per-tenant"
                                   (pretty n +:+ " rules") "api" None 200
                | None => mret tt end);
  go (_resp 200 (VDict [("dry_run", VBool dry_run); ("routing_mode_env", VStr ROUTING_MODE);
                        ("counts", counts_val cs); ("results", VList (map ln_val results))])).

Lemma purge_tail_events dry only rules :
  awp (purge_tail dry only rules) (fun _ t => Forall (fun e =>
    deletes_only rules (fun r => purgeable r /\ is_Some (purge_target only r) /\ dry = false) e) t).
Proof.
  unfold purge_tail, run_lift. apply awp_ebind, awp_bind. eapply awp_mono; [apply purge_fold_events|].
  intros [rs| |] t Ht; try done. do_ret. cbn zeta. apply awp_ebind, awp_bind.
  assert (awp (match alist_get "deleted" (counts (map ln_action rs)) with
                | Some n => if dry then mret tt
                            else _audit_system "routing.per_tenant_purged" "routing:per-tenant"
                                   (pretty n +:+ " rules") "api" None 200
                | None => mret tt end) (fun _ t => Forall audit_event t)) as Ha.
  { destruct (alist_get _ _); [destruct dry|]; try apply awp_all_events_done. apply audit_system_events. }
  eapply awp_mono; [apply Ha|]. intros o t' Ht'.
  assert (Forall (fun e => deletes_only rules
    (fun r => purgeable r /\ is_Some (purge_target only r) /\ dry = false) e) (t ++ t')) as Hall.
  { apply Forall_app. split; [done|]. eapply List.Forall_impl; [|apply Ht'].
    intros e He Hw. by destruct (audit_no_elb e He). }
  destruct o as [[]| |]; [do_ret; unfold go; do_ret|..]; exact Hall.
Qed.

(** ** Properties *)

(** What a purge asked for by [body] may do to the rules. *)
Definition purge_safe (body : req_body) (t : list ev) : Prop :=
  forall e, e ∈ t -> elb_write e ->
    exists rules r, Ev (S := aws) (DescribeRules ALB_LISTENER_ARN) (inl rules) ∈ t /\ r ∈ rules /\
      purgeable r /\ purge_asked body r /\ ev_call e = DeleteRule (r_arn r).

(** The purge after its arguments were read. *)
Lemma purge_listed_safe (body : req_body) (v ov : val) (dry : bool) (only : option (list val)) :
  admin_body body = Ok v -> vget_or v "dry_run" (VBool true) = Ok (VBool dry) -> vget v "tenant_ids" = Ok ov ->
  (ov = VNone \/ ov = VList [] \/ exists l, l <> [] /\ ov = VList l /\ only = Some l) ->
  awp (_ ⇐ (if bool_decide (ALB_LISTENER_ARN = "") then mret (inl no_listener) else mret (inr tt));
       rules ⇐ listener_rules ALB_LISTENER_ARN; purge_tail dry only rules) (fun _ t => purge_safe body t).
Proof.
  intros Eb Ed Eo Honly.
  apply awp_ebind. destruct (bool_decide _); do_ret; [set_solver|].
  apply awp_ebind. unfold listener_rules. apply awp_ebind, awp_run_lift. do_attempt. do_call.
  assert (Hone : forall x (e : ev), e ∈ [Ev (S := aws) (DescribeRules ALB_LISTENER_ARN) x] -> ~ elb_write e).
  { intros x e He%list_elem_of_singleton. subst e. cbn. tauto. }
  intros [rules|[c m|c m]]; cbn beta match; unfold go, answer, run_lift, raise;
    [do_ret|do_ret; intros e He Hw; by destruct (Hone _ _ He)
     |do_bind; apply awp_done; intros e He Hw; by destruct (Hone _ _ He)].
  eapply awp_mono; [apply purge_tail_events|]. intros o t Ht e He Hw. cbn [app] in He |- *.
  apply elem_of_cons in He as [He|He]; [subst e; done|].
  rewrite Forall_forall in Ht. destruct (Ht e) as (r & Hr & (Hp & [tid Htid] & Hdry) & Hc);
    [by apply list_elem_of_In|done|].
  exists rules, r. split; [apply elem_of_cons; by left|].
  split; [done|]. split; [done|]. split; [|done]. subst dry.
  destruct body as [| |m|w]; cbn in Eb; try done.
  - injection Eb as <-. cbn in Ed. done.
  - injection Eb as ->. exists v, ov. split; [done|]. split.
    { revert Ed. unfold vget, vget_or. destruct v; try done. destruct (alist_get "dry_run" d); [by intros [= ->]|done]. }
    split; [done|]. destruct Honly as [->|[->|(l & Hne & -> & ->)]]; [done..|].
    destruct l as [|x l]; [done|]. by eapply purge_target_scope.
Qed.

(** C33: A purge touches nothing but what it is asked to: in every environment,
    every change it makes to the load balancer is the deletion of a rule that
    the listener held when it was read, that is not the default rule, that
    routes some tenant by a pattern other than the shared catch-all, and only
    when the request says [dry_run: false]. A request with a list of tenants
    reaches the rules that route one of them; one without it, and also one whose
    list is empty, reaches the rule of every tenant. *)
Theorem purge_spares_static (body : req_body) :
  awp (purge_per_tenant_routing body) (fun _ t =>
    forall e, e ∈ t -> elb_write e ->
      exists rules r, Ev (S := aws) (DescribeRules ALB_LISTENER_ARN) (inl rules) ∈ t /\ r ∈ rules /\
        purgeable r /\ purge_asked body r /\ ev_call e = DeleteRule (r_arn r)).
Proof.
  unfold purge_per_tenant_routing. apply awp_finish.
  assert (Hnil : purge_safe body []) by (intros e He; set_solver).
  apply awp_ebind, awp_run_lift. do_ret. destruct (admin_body body) as [v|e|] eqn:Eb; [|exact Hnil..].
  unfold dry_run_of. apply awp_ebind, awp_ebind, awp_run_lift. do_ret.
  destruct (vget_or v "dry_run" (VBool true)) as [dv|e|] eqn:Ed; [|exact Hnil..].
  destruct dv as [|dry| | | | |]; try exact Hnil. unfold go, answer, answer_if. do_ret.
  apply awp_ebind, awp_run_lift. do_ret. destruct (vget v "tenant_ids") as [ov|e|] eqn:Eo; [|exact Hnil..].
  apply awp_ebind. unfold parse_only, go, answer, run_lift.
  destruct ov as [| | | | |l|]; try exact Hnil.
  - do_ret. eapply purge_listed_safe; [done..|]. by left.
  - destruct l as [|x l]; [do_ret; eapply purge_listed_safe; [done..|]; right; by left|].
    destruct (existsb _ _); [do_bind; do_ret; exact Hnil|]. do_ret. eapply purge_listed_safe; [done..|].
    right; right. by exists (x :: l).
Qed.
End Routing.
