(* ===== verification/Skills.v ===== *)
(** * Groups and skills: [deploy/lambda/api/handler.py]

    Skill scopes of groups, and the SKILL.md files kept in S3.  Skill lists in
    the groups table are lists of strings: [create_group] and
    [add_skill_to_group] only write such lists. *)

From S2P Require Import Prelude Py PyNum Effects Aws Iso Re Config Validate Ssm Rbac Placement Alb Tenants Actions.

Section Skills.
Context `{Config}.

(** ** Groups *)

Definition no_groups (m : string) : resp := error_resp 503 m.
Definition no_groups_long : string := "groups table not configured (1.3.x deployment?)".
Definition no_groups_short : string := "groups table not configured".

Definition list_groups : M resp :=
  if has_groups then
    try_ (groups ← _scan_all Groups None; mret (_resp 200 (VDict [("groups", VList (map item_val groups))])))
    except e => mret (error_resp 500 (exn_str e))
  else mret (no_groups no_groups_long).

(** [json.loads(body_str or "{}")], an invalid text being an answer. *)
Definition body_or_400 (b : req_body) (msg : string) : M (resp + val) :=
  match load_body_or_empty b with
  | Ok v => go v
  | Exn _ => answer (error_resp 400 msg)
  | NoFuel => run_lift no_fuel
  end.

Definition group_item (name : string) (skills : list string) (description now : string) : item :=
  list_to_map [("name", VStr name); ("skills", VList (map VStr skills));
               ("description", VStr description); ("created_at", VStr now)].

Definition create_group (body : req_body) : M resp :=
  if has_groups then finish (
    body ⇐ body_or_400 body "invalid JSON";
    name_v ⇐ run_lift (lift (vget body "name"));
    name ⇐ run_lift (lift (stripped name_v));
    _ ⇐ answer_if (negb (nonempty name)) (error_resp 400 "name is required");
    _ ⇐ answer_if (negb (re_match _NAME_RE name))
          (error_resp 400 "name must match ^[a-z0-9]([a-z0-9-]{0,30}[a-z0-9])?$");
    skills_v ⇐ run_lift (lift (vget body "skills"));
    skills ⇐ answer_none (str_keys (v_or skills_v (VList []))) (error_resp 400 "skills must be a list of strings");
    desc_v ⇐ run_lift (lift (vget body "description"));
    description ⇐ run_lift (lift (stripped desc_v));
    now ⇐ run_lift _now;
    let it := group_item name (sorted_set (List.filter nonempty skills)) description now in
    r ⇐ run_lift (attempt (do_ (PutItem Groups it (Some (CNotExists "name")))));
    match r with
    | inl _ => go (_resp 201 (item_val it))
    | inr e => if conditional_failed e then answer (error_resp 409 ("group '" +:+ name +:+ "' already exists"))
               else answer (error_resp 500 (exn_str e))
    end)
  else mret (no_groups no_groups_long).

(** The read and the write of a group's skills around [f]. *)
Definition edit_group (name : string) (f : list string -> list string) : M resp :=
  try_ (existing ← do_ (GetItem Groups name);
        match (existing : option item) with
        | None => mret (error_resp 404 ("group '" +:+ name +:+ "' not found"))
        | Some g =>
            cur ← lift (l ← py_iter (v_or (get g "skills") (VList []));
                        match str_keys (VList l) with Some l => Ok l | None => type_error "unhashable type" end);
            let skills := sorted_set (f cur) in
            _ ← do_ (UpdateItem Groups name [SET "skills" (Lit (VList (map VStr skills)))] None RvNone);
            mret (_resp 200 (VDict [("name", VStr name); ("skills", VList (map VStr skills))]))
        end)
  except e => mret (error_resp 500 (exn_str e)).

Definition add_skill_to_group (name : string) (body : req_body) : M resp :=
  if has_groups then finish (
    body ⇐ body_or_400 body "invalid JSON";
    skill_v ⇐ run_lift (lift (vget body "skill"));
    skill ⇐ run_lift (lift (stripped skill_v));
    _ ⇐ answer_if (negb (nonempty skill)) (error_resp 400 "skill is required");
    run_lift (edit_group name (fun cur => skill :: cur)))
  else mret (no_groups no_groups_short).

Definition remove_skill_from_group (name skill : string) : M resp :=
  if has_groups then edit_group name (List.filter (fun s => negb (bool_decide (s = skill))))
  else mret (no_groups no_groups_short).

(** ** SKILL.md files *)

Definition _SKILL_MAX_BYTES : Z := 256 * 1024.

Definition skill_key (name : string) : string := "skills/" +:+ name +:+ "/SKILL.md".
Definition not_found_skill (name : string) : resp := error_resp 404 ("skill '" +:+ name +:+ "' not found").
Definition no_bucket : resp := error_resp 503 "ASSETS_BUCKET not configured".

Definition read_skill (name : string) : M resp :=
  if negb (re_match _SKILL_NAME_RE name) then mret (error_resp 400 "invalid skill name")
  else
    let bucket := env_or "ASSETS_BUCKET" "" in
    if negb (nonempty bucket) then mret no_bucket
    else
      try_ (content ← do_ (GetObject bucket (skill_key name));
            meta ← do_ (HeadObject bucket (skill_key name));
            mret (_resp 200 (VDict [("name", VStr name); ("content", VStr content); ("size", VInt (so_size meta));
                                    ("last_modified", VStr (isoformat (so_modified meta)))])))
      except e =>
        let msg := exn_str e in
        if is_code e "NoSuchKey" || str_contains "NoSuchKey" msg || str_contains "404" msg
        then mret (not_found_skill name) else mret (error_resp 500 msg).

(** A top-level Markdown title. *)
Definition is_title (ln : string) : bool :=
  let ln := lstrip ln in starts_with "# " ln && nonempty (strip (str_drop 2 ln)).

(** Bytes of the UTF-8 form of Latin-1 text. *)
Fixpoint utf8_length (s : string) : Z :=
  match s with
  | EmptyString => 0
  | String c s' => (if (nat_of_ascii c <? 128)%nat then 1 else 2) + utf8_length s'
  end.

Definition update_skill (name : string) (body : req_body) : M resp :=
  finish (
    _ ⇐ answer_if (negb (re_match _SKILL_NAME_RE name))
          (error_resp 400 "invalid skill name (lowercase letters, digits, hyphens)");
    body ⇐ body_or_400 body "invalid JSON body";
    content_v ⇐ run_lift (lift (vget body "content"));
    content ⇐ answer_none (match content_v with VStr s => if nonempty (strip s) then Some s else None | _ => None end)
                (error_resp 400 "missing or empty 'content' field");
    _ ⇐ answer_if (_SKILL_MAX_BYTES <? utf8_length content) (error_resp 400 "content exceeds 262144 bytes");
    _ ⇐ answer_if (negb (existsb is_title (split_lines content "")))
          (error_resp 400 "SKILL.md must contain at least one top-level '# Title' line");
    let bucket := env_or "ASSETS_BUCKET" "" in
    _ ⇐ answer_if (negb (nonempty bucket)) no_bucket;
    run_lift (
      try_ (existed ← (try_ (_ ← do_ (HeadObject bucket (skill_key name)); mret true) except _ => mret false);
            _ ← do_ (PutObject bucket (skill_key name) content);
            mret (_resp (if existed : bool then 200 else 201)
                    (VDict [("name", VStr name); ("size", VInt (utf8_length content)); ("created", VBool (negb existed))])))
      except e => mret (error_resp 500 (exn_str e)))).

(** The keys in groups of at most a thousand. *)
Fixpoint chunks (fuel : nat) (n : nat) (l : list string) : list (list string) :=
  match fuel with
  | O => []
  | S fuel' => match l with [] => [] | _ => take n l :: chunks fuel' n (drop n l) end
  end.

Definition delete_skill (name : string) : M resp :=
  if negb (re_match _SKILL_NAME_RE name) then mret (error_resp 400 "invalid skill name")
  else
    let bucket := env_or "ASSETS_BUCKET" "" in
    if negb (nonempty bucket) then mret no_bucket
    else
      try_ (objs ← do_ (ListObjects bucket ("skills/" +:+ name +:+ "/"));
            let keys := map so_key objs in
            match keys with
            | [] => mret (not_found_skill name)
            | _ =>
                _ ← for_each (chunks (length keys) 1000 keys) (fun ks => _ ← do_ (DeleteObjects bucket ks); mret tt);
                mret (_resp 200 (VDict [("name", VStr name); ("deleted", VInt (Z.of_nat (length keys)))]))
            end)
      except e => mret (error_resp 500 (exn_str e)).
End Skills.
