(* ===== verification/ApiEvents.v ===== *)
(** * The writes of the API to the rows of tenants

    Which states a handler of [api/handler.py] can bring a tenant to: no action
    deletes a tenant, and none sends one with a host back to the queue of
    [process_pending]. *)

From S2P Require Import Prelude Py Effects Aws Iso Ddb Config Validate Ssm Capacity AuditLog Rbac Placement Alb Tenants Actions.
From S2P Require Import Hosts Routing Skills Accounting ActionsAccounting Balance.

(** ** What the writes say of the status *)

(** An update of a tenant that writes no status, or at last another one than
    [bad]; and then the host is written only with a status. *)
Definition avoids (bad : string) (acts : list action) : Prop :=
  (exists pre s rest, acts = pre ++ SET "status" (Lit (VStr s)) :: rest /\ ("status" ∉ touched rest) /\ s <> bad) \/
  (("status" ∉ touched acts) /\ ("host_id" ∉ touched acts)).

(** Writes of tenants that neither delete one nor send it back to the queue. *)
Definition steady (e : ev) : Prop :=
  match ev_call e with
  | UpdateItem Tenants _ acts _ _ => avoids "deleted" acts /\ avoids "pending" acts
  | PutItem Tenants _ _ => False
  | _ => True
  end.
Definition live_row (d : db) (tid : string) : Prop :=
  forall it, db_get d Tenants tid = Some it -> is_str (get it "status") "deleted" = false.

Lemma apply_actions_app old l1 l2 n :
  apply_actions old (l1 ++ l2) n = (m ← apply_actions old l1 n; apply_actions old l2 m).
Proof.
  revert n; induction l1 as [|[a x|a] l1 IH]; intros n; cbn [app apply_actions]; [done| |apply IH].
  destruct (eval old x) as [v| |]; [|done..]. apply IH.
Qed.

Lemma avoids_status bad acts old new : avoids bad acts -> apply_actions old acts old = Ok new ->
  is_str (get new "status") bad = false \/ (new !! "status" = old !! "status" /\ new !! "host_id" = old !! "host_id").
Proof.
  intros [(pre & s & rest & -> & Hr & Hs)|[Hs Hh]] E; [left|right; split; by apply (apply_untouched _ _ _ _ _ E)].
  rewrite apply_actions_app in E. apply outcome_bind_Ok in E as (mid & _ & E).
  cbn [apply_actions eval mbind outcome_bind] in E. unfold get, get_or.
  rewrite (apply_untouched _ _ _ _ _ E) by done. rewrite lookup_insert_eq. cbn. by apply bool_decide_eq_false_2.
Qed.

(** What a call does to the row of a tenant: nothing, a new row, an update, a
    deletion. *)
Lemma tenant_row_step c d r d' tid : dynamo_step c d r d' ->
  db_get d' Tenants tid = db_get d Tenants tid \/
  (exists it cnd, c = PutItem Tenants it cnd /\ db_get d' Tenants tid = Some it) \/
  (exists acts cnd rv new, c = UpdateItem Tenants tid acts cnd rv /\ db_get d' Tenants tid = Some new /\
     let old := base_item Tenants tid (db_get d Tenants tid) in apply_actions old acts old = Ok new) \/
  db_get d' Tenants tid = None.
Proof.
  assert (Hset : forall t k x, db_get (db_set d t (<[k := x]> (db_rows d t))) Tenants tid = db_get d Tenants tid \/
    (t = Tenants /\ k = tid /\ db_get (db_set d t (<[k := x]> (db_rows d t))) Tenants tid = Some x)).
  { intros t k x. unfold db_get. destruct (decide (t = Tenants)) as [->|]; [|left; by rewrite db_rows_set_ne].
    rewrite db_rows_set_eq. destruct (decide (k = tid)) as [->|]; [right; by rewrite lookup_insert_eq|left; by rewrite lookup_insert_ne]. }
  destruct c; cbn; try (intros Hs; left; repeat deex; by subst).
  - destruct (item_key t it) as [k|]; [|by intros [_ ->]; left]. destruct (cond_holds _ _); [|by intros [_ ->]; left].
    intros [_ ->]. destruct (Hset t k it) as [E|(-> & -> & E)]; [by left|right; left; eauto].
  - destruct (update_row t key acts c (db_get d t key)) as [new| |] eqn:Eu; [|by intros [_ ->]; left|done].
    intros [_ ->]. destruct (Hset t key new) as [E|(-> & -> & E)]; [by left|right; right; left].
    exists acts, c, rv, new. split_and!; [done..|]. unfold update_row in Eu. by destruct (cond_holds _ _).
  - intros [_ ->]. unfold db_get. destruct (decide (t = Tenants)) as [->|]; [|left; by rewrite db_rows_set_ne].
    rewrite db_rows_set_eq. destruct (decide (key = tid)) as [->|]; [right; right; right; by rewrite lookup_delete_eq|].
    left. by rewrite lookup_delete_ne.
Qed.

Lemma steady_step c d r d' tid : dynamo_step c d r d' -> steady (Ev c r) -> live_row d tid -> live_row d' tid.
Proof.
  intros Hs He Hl it Hit. destruct (tenant_row_step _ _ _ _ tid Hs) as [E|[(x & cnd & -> & E)|[(acts & cnd & rv & new & -> & E & Ea)|E]]].
  - rewrite E in Hit. by apply Hl.
  - done.
  - rewrite E in Hit. injection Hit as ->. destruct He as [He _]. cbn zeta in Ea.
    destruct (avoids_status _ _ _ _ He Ea) as [|[Es _]]; [done|]. unfold get, get_or. rewrite Es.
    destruct (db_get d Tenants tid) as [old|] eqn:Eo; [by apply (Hl old)|done].
  - by rewrite E in Hit.
Qed.

(** Tenants in the queue have no host. *)
Definition waiting (d : db) : Prop :=
  forall tid it, db_get d Tenants tid = Some it -> is_str (get it "status") "pending" = true -> it !! "host_id" = None.

Definition orderly (e : ev) : Prop :=
  match ev_call e with
  | UpdateItem Tenants _ acts _ _ => avoids "pending" acts
  | PutItem Tenants it _ => is_str (get it "status") "pending" = false \/ it !! "host_id" = None
  | _ => True
  end.

Lemma orderly_step c d r d' : dynamo_step c d r d' -> orderly (Ev c r) -> waiting d -> waiting d'.
Proof.
  intros Hs He Hw tid it Hit Hp.
  destruct (tenant_row_step _ _ _ _ tid Hs) as [E|[(x & cnd & -> & E)|[(acts & cnd & rv & new & -> & E & Ea)|E]]].
  - rewrite E in Hit. by apply (Hw tid).
  - rewrite E in Hit. injection Hit as ->. destruct He as [He|He]; [congruence|done].
  - rewrite E in Hit. injection Hit as ->. cbn zeta in Ea.
    destruct (avoids_status _ _ _ _ He Ea) as [Hn|[Es Eh]]; [congruence|]. rewrite Eh.
    unfold get, get_or in Hp. rewrite Es in Hp. destruct (db_get d Tenants tid) as [old|] eqn:Eo; [by apply (Hw tid old)|done].
  - by rewrite E in Hit.
Qed.

(** ** Programs all of whose writes are so *)

(** A predicate of events that concerns writes only. *)
Class OfWrites (F : ev -> Prop) := of_writes : forall e, no_write e -> F e.
#[export] Instance steady_of_writes : OfWrites steady.
Proof. intros [c r]. by destruct c. Qed.
#[export] Instance orderly_of_writes : OfWrites orderly.
Proof. intros [c r]. by destruct c. Qed.
#[export] Instance aside_of_writes : OfWrites aside_event.
Proof. intros [c r]. by destruct c. Qed.

Lemma steady_orderly e : steady e -> orderly e.
Proof. destruct e as [c r]. destruct c; try done; destruct t; try done. by intros []. Qed.
Lemma aside_orderly e : aside_event e -> orderly e.
Proof. destruct e as [c r]. destruct c; try done; intros []; by destruct t. Qed.

Definition only (F : ev -> Prop) {A} (p : M A) : Prop := awp p (fun _ t => Forall F t).

Section Only.
Context (F : ev -> Prop) {HF : OfWrites F}.

Lemma only_quiet {A} (p : M A) : quiet p -> only F p.
Proof using HF. intros Hq. eapply awp_mono; [apply Hq|]. intros o t. apply List.Forall_impl. apply HF. Qed.
Lemma only_weaken (G : ev -> Prop) {A} (p : M A) : (forall e, G e -> F e) -> only G p -> only F p.
Proof. intros Hw Hp. eapply awp_mono; [apply Hp|]. intros o t. by apply List.Forall_impl. Qed.
Lemma only_fold {A B} (body : B -> A -> M B) l acc : (forall x b, only F (body b x)) -> only F (fold_prog body l acc).
Proof. intros Hb. apply awp_all_events_fold. intros x b _. apply Hb. Qed.
Lemma only_bind {A B} (p : M A) (f : A -> M B) : only F p -> (forall a, only F (f a)) -> only F (p ≫= f).
Proof. apply awp_all_events_bind. Qed.
Lemma only_ebind {A B} (p : M (resp + A)) (k : A -> M (resp + B)) :
  only F p -> (forall a, only F (k a)) -> only F (ebind k p).
Proof using HF. intros Hp Hk. apply only_bind; [done|]. intros [r|a]; [apply only_quiet, quiet_ret|apply Hk]. Qed.
Lemma only_run_lift {A} (p : M A) : only F p -> only F (run_lift p).
Proof using HF. intros Hp. apply only_bind; [done|]. intros a. apply only_quiet, quiet_ret. Qed.
Lemma only_finish p : only F p -> only F (finish p).
Proof using HF. intros Hp. apply only_bind; [done|]. intros [r|r]; apply only_quiet, quiet_ret. Qed.
Lemma only_catch {A} (p : M A) h : only F p -> (forall e, only F (h e)) -> only F (catch p h).
Proof. apply awp_all_events_catch. Qed.
Lemma only_attempt {A} (p : M A) : only F p -> only F (attempt p).
Proof. apply awp_all_events_attempt. Qed.
Lemma only_do c : (forall r, F (Ev (S := aws) c r)) -> only F (do_ c).
Proof. exact (awp_all_events_call (S := aws) c F). Qed.
Lemma only_for {A} (l : list A) (body : A -> M unit) : (forall x, only F (body x)) -> only F (for_each l body).
Proof. intros Hb. apply awp_all_events_for. intros x _. apply Hb. Qed.
End Only.

(** A program in front whose value matters. *)
Lemma only_bind_value (F : ev -> Prop) {A B} (R : A -> Prop) (p : M A) (f : A -> M B) :
  awp p (fun o t => Forall F t /\ forall a, o = Ok a -> R a) -> (forall a, R a -> only F (f a)) -> only F (p ≫= f).
Proof.
  intros Hp Hf. apply awp_bind. eapply awp_mono; [apply Hp|]. intros [a|e|] t [Ht Ha]; [|done..].
  eapply awp_mono; [by apply Hf, Ha|]. intros o t' Ht'. by apply Forall_app.
Qed.

#[export] Hint Resolve quiet_ssm_run_val quiet_ssm_send_val quiet_remove_rule quiet_ensure_tg quiet_add_rule quiet_stop quiet_rank : oc.

(** The lemmas on whole functions. *)
Create HintDb writes.

(** Peel a program; the reads go, the writes are left. *)
Ltac only_step :=
  match goal with
  | |- only _ (mret _) => apply only_quiet, quiet_ret; apply _
  | |- only _ (lift _) => apply only_quiet, quiet_lift; apply _
  | |- only ?F (do_ ?c) => apply (only_do F c); intros ?; try exact I
  | |- only _ (run_lift _) => apply only_run_lift; [apply _|]
  | |- only _ (finish _) => apply only_finish; [apply _|]
  | |- only _ (ebind _ _) => apply only_ebind; [apply _| |intros ?]
  | |- only _ (catch _ _) => apply only_catch; [|intros ?]
  | |- only _ (attempt _) => apply only_attempt
  | |- only _ (for_each _ _) => apply only_for; intros ?
  | |- only _ (fold_prog _ _ _) => apply only_fold; intros ? ?
  | |- only _ (_ ≫= _) => apply only_bind; [|intros ?]
  | |- only _ (pbind _ _) => apply only_bind; [|intros ?]
  | |- only _ _ => solve [auto 2 with writes nocore]
  | |- only _ _ => apply only_quiet; [apply _|]; solve [quiet]
  | |- context [match ?x with _ => _ end] => destruct x
  end.
Ltac only_writes := repeat (cbn beta zeta; only_step).

Ltac status_here := split_and!; [reflexivity|by apply (bool_decide_eq_true_1 (_ ∉ _))|done].
Ltac status_written := left; first
  [ eexists [], _, _; status_here | eexists [_], _, _; status_here
  | eexists [_; _], _, _; status_here | eexists [_; _; _], _, _; status_here ].
Ltac status_untouched := right; split; by apply (bool_decide_eq_true_1 (_ ∉ _)).
Ltac avoided := cbn; try split; first [status_written | status_untouched].

Section Api.
Context `{Config}.

(** ** Actions *)

Lemma steady_power tid a it : only steady (power_action tid a it).
Proof.
  unfold power_action. apply only_bind; [only_writes|intros [cmd tm]]. do 2 (apply only_bind; [only_writes|intros ?]).
  cbn zeta. apply only_bind; [only_writes|intros now].
  apply (only_bind_value _ (fun extra => extra = [] \/ exists v, extra = [SET "rootfs_version" (Lit v)])).
  - destruct (bool_decide (a = "reset")); [|do_ret; split; [constructor|intros ? [= <-]; by left]].
    do_bind. do_ret. destruct (as_key _); [|by split; [constructor|]..]. do_bind. do_call. intros [h|e]; [|by split; [repeat constructor|]].
    do_ret. split; [by repeat constructor|]. intros ? [= <-]. right. eauto.
  - intros extra He. apply only_bind; [|intros ?; only_writes]. only_step.
    assert (power_status a <> "deleted" /\ power_status a <> "pending") as [? ?] by (unfold power_status; by repeat case_bool_decide).
    destruct He as [->|[v ->]]; avoided.
Qed.
Lemma steady_cancel tid it : only steady (cancel_migration tid it).
Proof. unfold cancel_migration. only_writes. avoided. Qed.
Lemma steady_disk tid it b : only steady (resize_disk tid it b).
Proof. unfold resize_disk. only_writes. avoided. Qed.
Lemma steady_migrate tid it b : only steady (start_migration tid it b).
Proof. unfold start_migration, check_target, as_key. only_writes. avoided. Qed.
Lemma steady_resize tid b : only steady (tenant_resize tid b).
Proof. unfold tenant_resize, parse_resize, resize_on_host. only_writes. avoided. Qed.
#[local] Hint Resolve steady_power steady_cancel steady_disk steady_migrate steady_resize : writes.
Lemma steady_action tid a b : only steady (tenant_action tid a b).
Proof. unfold tenant_action, start_backup. only_writes. Qed.

(** ** Reads, and writes of other tables *)

Lemma aside_system e o r a dt st : only aside_event (_audit_system e o r a dt st).
Proof. unfold _audit_system. apply only_bind; [only_writes|intros ts]. apply aside_audit. Qed.
#[local] Hint Resolve aside_system : writes.

Lemma aside_list_tenants q : only aside_event (list_tenants q).
Proof. unfold list_tenants. only_writes. Qed.
Lemma aside_get_tenant i : only aside_event (get_tenant i).
Proof. unfold get_tenant. only_writes. Qed.
Lemma aside_get_action i a : only aside_event (tenant_get_action i a).
Proof. unfold tenant_get_action, list_backups. only_writes. Qed.
Lemma aside_backups : only aside_event list_all_backups.
Proof. unfold list_all_backups. only_writes. Qed.
Lemma aside_list_hosts : only aside_event list_hosts.
Proof. unfold list_hosts. only_writes. Qed.
Lemma aside_rootfs_version : only aside_event rootfs_version.
Proof. unfold rootfs_version, _get_manifest. only_writes. Qed.
Lemma aside_trigger az : only aside_event (trigger_failover az).
Proof. unfold trigger_failover. only_writes. Qed.
Lemma aside_routing_status : only aside_event routing_status.
Proof. unfold routing_status, listener_rules. only_writes. Qed.
Lemma aside_rebuild b : only aside_event (rebuild_routing b).
Proof. unfold rebuild_routing, dry_run_of, listener_rules, rebuild_one, resolve_tg. only_writes. Qed.
Lemma aside_purge b : only aside_event (purge_per_tenant_routing b).
Proof. unfold purge_per_tenant_routing, dry_run_of, parse_only, listener_rules, purge_one. only_writes. Qed.

Lemma aside_list_groups : only aside_event list_groups.
Proof. unfold list_groups. only_writes. Qed.
Lemma aside_create_group b : only aside_event (create_group b).
Proof. unfold create_group, body_or_400. only_writes. by split. Qed.
Lemma aside_edit_group n f : only aside_event (edit_group n f).
Proof. unfold edit_group. only_writes. by split. Qed.
#[local] Hint Resolve aside_edit_group : writes.
Lemma aside_add_skill n b : only aside_event (add_skill_to_group n b).
Proof. unfold add_skill_to_group, body_or_400. only_writes. Qed.
Lemma aside_remove_skill n k : only aside_event (remove_skill_from_group n k).
Proof. unfold remove_skill_from_group. only_writes. Qed.
Lemma aside_read_skill n : only aside_event (read_skill n).
Proof. unfold read_skill. only_writes. Qed.
Lemma aside_update_skill n b : only aside_event (update_skill n b).
Proof. unfold update_skill, body_or_400. only_writes. Qed.
Lemma aside_delete_skill n : only aside_event (delete_skill n).
Proof. unfold delete_skill. only_writes. Qed.

(** ** Creation and deletion *)

Lemma orderly_steady {A} (p : M A) : only steady p -> only orderly p.
Proof. apply only_weaken, steady_orderly. Qed.
Lemma orderly_aside {A} (p : M A) : only aside_event p -> only orderly p.
Proof. apply only_weaken, aside_orderly. Qed.

Lemma orderly_park c tid now m : only orderly (park_pending c tid now m).
Proof.
  unfold park_pending. apply only_bind; [|intros ?; only_writes]. only_step. right. apply pending_no_host.
Qed.
Lemma orderly_reserve_first l v m : only orderly (reserve_first l v m).
Proof.
  induction l as [|h l IH]; cbn [reserve_first]; [only_writes|].
  apply only_bind; [unfold _reserve_host_slot; only_writes|]. intros [n|]; [only_writes|apply IH].
Qed.
Lemma orderly_clone c h tid n : only orderly (clone_disks c h tid n).
Proof. unfold clone_disks, _release_host_slot. only_writes. avoided. Qed.
#[local] Hint Resolve orderly_park orderly_reserve_first orderly_clone : writes.
Lemma orderly_place c tid now h n : only orderly (place_tenant c tid now h n).
Proof.
  unfold place_tenant. only_writes. left. unfold get, get_or. by erewrite creating_row by reflexivity.
Qed.
#[local] Hint Resolve orderly_place quiet_choose quiet_parse_create : writes oc.
Lemma orderly_create b : only orderly (create_tenant b).
Proof.
  unfold create_tenant, create_on_host. destruct b; only_writes.
Qed.

Lemma orderly_delete tid q : only orderly (delete_tenant tid q).
Proof. unfold delete_tenant, clean_host, free_host. only_writes. avoided. Qed.
#[local] Hint Resolve orderly_delete : writes.
Lemma orderly_action tid a b : only orderly (tenant_action tid a b).
Proof. apply orderly_steady, steady_action. Qed.
#[local] Hint Resolve orderly_action : writes.
Lemma orderly_batch_one a v : only orderly (batch_one a v).
Proof. unfold batch_one. only_writes. Qed.
#[local] Hint Resolve orderly_batch_one : writes.
Lemma orderly_batch_all a l : only orderly (batch_all a l).
Proof. induction l as [|v l IH]; cbn [batch_all]; [only_writes|]. apply only_bind; [only_writes|intros r]. apply only_bind; [done|intros ?; only_writes]. Qed.
#[local] Hint Resolve orderly_batch_all : writes.
Lemma orderly_batch b : only orderly (batch_tenants b).
Proof. unfold batch_tenants, batch_targets, _resolve_filter. only_writes. Qed.

(** ** Hosts *)

Lemma orderly_register b : only orderly (register_host b).
Proof. unfold register_host, _resolve_instance_memory_mb. only_writes. Qed.
Lemma orderly_deregister i : only orderly (deregister_host i).
Proof. unfold deregister_host. only_writes. Qed.
Lemma orderly_drain_all i l : only orderly (drain_all i l).
Proof.
  induction l as [|t l IH]; cbn [drain_all]; [only_writes|]. apply only_bind; [unfold drain_one, _find_host; only_writes|].
  intros r. apply only_bind; [done|intros ?; only_writes].
Qed.
#[local] Hint Resolve orderly_drain_all : writes.
Lemma orderly_system e o r a dt st : only orderly (_audit_system e o r a dt st).
Proof. apply orderly_aside, aside_system. Qed.
#[local] Hint Resolve orderly_system : writes.
Lemma orderly_drain i : only orderly (drain_host i).
Proof. unfold drain_host. only_writes. Qed.
Lemma orderly_refresh : only orderly refresh_rootfs.
Proof. unfold refresh_rootfs, _get_manifest. only_writes. Qed.
Lemma orderly_assign_all l n : only orderly (assign_all l n).
Proof.
  revert n; induction l as [|t l IH]; intros n; cbn [assign_all]; [only_writes|].
  apply only_bind; [unfold assign_pending, _find_host; only_writes; avoided|]. intros []; [apply IH|only_writes].
Qed.
#[local] Hint Resolve orderly_assign_all : writes.
Lemma orderly_pending : only orderly process_pending.
Proof. unfold process_pending. only_writes. Qed.
Lemma orderly_cleanup dt : only orderly (cleanup_terminated_host dt).
Proof. unfold cleanup_terminated_host, reap_tenant, _remove_host_tg. only_writes; avoided. Qed.
End Api.
