(* ===== verification/HostsAccounting.v ===== *)
(** * The operations on hosts and capacity accounting

    Registration, draining, termination, the refresh of the images and the
    placement of waiting tenants ([Hosts]), against the invariant of
    [Accounting]. *)

From S2P Require Import Prelude Py Effects Aws Iso Ddb Config Validate Ssm Capacity AuditLog Rbac Placement Alb Tenants Actions.
From S2P Require Import Hosts Accounting ActionsAccounting Balance ApiEvents.

(** ** Scans *)

Lemma mapM_values {A B} (f : A -> outcome B) l l' : mapM f l = Ok l' -> Forall2 (fun x y => f x = Ok y) l l'.
Proof.
  revert l'; induction l as [|x l IH]; intros l' E; [injection E as <-; constructor|].
  change (mapM f (x :: l)) with (y ← f x; k ← mapM f l; mret (M := outcome) (y :: k)) in E.
  apply outcome_bind_Ok in E as (y & Ey & E). apply outcome_bind_Ok in E as (k & Ek & E). injection E as <-.
  constructor; [done|by apply IH].
Qed.

Lemma holds_attr it a v : holds it (CEq (Attr a) (Lit v)) = true -> it !! a = Some v.
Proof. cbn. unfold cmp. cbn. destruct (it !! a); [|done]. by intros ->%val_eqb_eq. Qed.

(** Whatever its fuel, a scan that ends returns the matching rows. *)
Lemma scan_pages_hold fuel t f start items d pre : remains d t start pre ->
  wp (S := aws) dynamo_step (scan_pages fuel t f start items) d (fun o d' _ =>
    d' = d /\ forall l, o = Ok l -> l = items ++ List.filter (cond_holds f) (map snd (rows_from d t start))).
Proof.
  revert start items pre; induction fuel as [|fuel IH]; intros start items pre Hr; [by cbn|].
  cbn. intros [p|e] d' [(p' & Hp & (n & Hn & Hitems & Hlast)) ->]; [|done]. injection Hp as <-.
  cbn. destruct (pg_last p) as [k|] eqn:Ek.
  - destruct (remains_next _ _ _ _ _ _ Hr Hlast) as [Hd Hr']. eapply wp_mono; [apply (IH _ _ _ Hr')|].
    intros o d'' _ [-> Ho]. split; [done|]. intros l ->. rewrite (Ho l eq_refl), Hitems, Hd, <- app_assoc. f_equal.
    rewrite <- List.filter_app, <- map_app, take_drop. done.
  - cbn. split; [done|]. intros l [= <-]. rewrite Hitems. do 2 f_equal.
    rewrite <- (take_drop n (rows_from d t start)) at 2. by rewrite Hlast, app_nil_r.
Qed.

(** The matching rows, by key. *)
Definition rows_at (d : db) (t : table) (f : option cond) (ks : list string) (l : list item) : Prop :=
  NoDup ks /\ Forall2 (fun k it => db_get d t k = Some it /\ cond_holds f it = true) ks l.

Lemma matching_rows d t f : exists ks, rows_at d t f ks (matching d t f) /\
  forall k it, db_get d t k = Some it -> cond_holds f it = true -> k ∈ ks.
Proof.
  assert (Hgen : forall rows, NoDup (map fst rows) -> (forall k it, (k, it) ∈ rows -> db_get d t k = Some it) ->
    exists ks, (forall k, k ∈ ks -> k ∈ map fst rows) /\ rows_at d t f ks (List.filter (cond_holds f) (map snd rows)) /\
      forall k it, (k, it) ∈ rows -> cond_holds f it = true -> k ∈ ks).
  { induction rows as [|[k it] rows IH]; intros Hnd Hin; [exists []; split_and!; [done|split; [constructor|done]|]|].
    { intros k it Hk. by apply elem_of_nil in Hk. }
    cbn in Hnd. apply list.NoDup_cons in Hnd as [Hk Hnd].
    destruct IH as (ks & Hks & [Hnd' Hall] & Hall'); [done|intros; apply Hin; by right|]. cbn [map snd List.filter].
    destruct (cond_holds f it) eqn:Hc.
    - exists (k :: ks). split_and!; [|split; [apply list.NoDup_cons; split; [intros Hx; by apply Hk, Hks|done]|]|].
      + intros j [->|Hj]%elem_of_cons; [by left|right; by apply Hks].
      + constructor; [|done]. split; [apply Hin; by left|done].
      + intros j x [[= -> ->]|Hj]%elem_of_cons Hx; [by left|right; by apply (Hall' j x)].
    - exists ks. split_and!; [intros; right; by apply Hks|by split|].
      intros j x [[= -> ->]|Hj]%elem_of_cons Hx; [congruence|by apply (Hall' j x)]. }
  destruct (Hgen (row_list d t)) as (ks & _ & Hr & Hc); [apply row_list_NoDup| |exists ks].
  - intros k it Hin. unfold db_get. by apply elem_of_map_to_list.
  - split; [done|]. intros k it Hk. apply Hc. by apply elem_of_map_to_list.
Qed.

(** A pure step in front of a program. *)
Lemma after_lift {A B} (P : db -> Prop) (o : outcome A) (f : A -> M B) d :
  P d -> (forall a, o = Ok a -> after P (f a) d) -> after P (lift o ≫= f) d.
Proof. intros HP Hf. apply after_bind. do_ret. destruct o; [by apply Hf|done..]. Qed.

(** A scan in front of a program: it goes on with rows of the tables. *)
Lemma after_scan {A} (P : db -> Prop) t f (k : list item -> M A) fuel d :
  P d -> (forall ks l, rows_at d t f ks l -> after P (k l) d) -> after P (l ← scan_all fuel t f; k l) d.
Proof.
  intros HP Hk. apply after_bind. eapply wp_mono; [apply (scan_pages_hold _ _ _ None [] d [] (remains_start d t))|].
  intros [l|e|] d' _ [-> Hl]; [|done..]. specialize (Hl l eq_refl). cbn in Hl. subst l.
  destruct (matching_rows d t f) as (ks & Hks & _). by apply (Hk ks).
Qed.

Lemma rows_at_in d t f ks l it : rows_at d t f ks l -> it ∈ l -> exists k, k ∈ ks /\ db_get d t k = Some it /\ cond_holds f it = true.
Proof.
  intros [_ Hall] Hit. induction Hall as [|k x ks l [Hk Hx] _ IH]; [by apply elem_of_nil in Hit|].
  apply elem_of_cons in Hit as [->|Hit]; [exists k; by split; [left|]|].
  destruct (IH Hit) as (j & Hj & ?). exists j. by split; [right|].
Qed.

(** ** Rows of hosts *)

Definition counters : list string := ["instance_id"; "used_vcpu"; "used_mem_mb"; "vm_count"; "next_vm_num"].

Lemma explained_same d i r r' v m n : (forall k, k ∈ counters -> r' !! k = r !! k) ->
  explained d i r v m n -> explained d i r' v m n.
Proof.
  intros Hk (Hi & next & [H1 H2 H3 H4]). unfold explained. rewrite (Hk "instance_id") by (by left). split; [done|].
  exists next. split; (rewrite Hk; [done|by apply (bool_decide_eq_true_1 (_ ∈ _))]).
Qed.

(** An update of other fields of a host that has a row. *)
Lemma update_host_keeps i acts c rv d r d' : accounted d -> is_Some (db_get d Hosts i) ->
  Forall (fun k => k ∉ touched acts) counters ->
  dynamo_step (UpdateItem Hosts i acts c rv) d r d' ->
  accounted d' /\ db_rows d' Tenants = db_rows d Tenants /\ (forall j, is_Some (db_get d Hosts j) -> is_Some (db_get d' Hosts j)).
Proof.
  intros Ha [row Hrow] Hf Hs. apply update_host_step in Hs. destruct r as [x|e]; [|by subst].
  destruct Hs as (new & Hn & _ & ->). split; [|split; [by apply db_rows_set_ne|by apply host_rows_grow]].
  apply (accounted_with_zero _ i). apply (accounted_host d i 0 0 0); [by apply accounted_with_zero|]. intros Hreal.
  apply (explained_same _ _ row); [|by apply accounted_this; [apply accounted_with_zero| |]].
  intros k Hk. unfold update_row in Hn. rewrite Hrow in Hn. destruct (cond_holds _ _); [|done]. cbn [base_item default] in Hn.
  apply (apply_untouched _ _ _ _ _ Hn). rewrite List.Forall_forall in Hf. apply Hf. by apply list_elem_of_In.
Qed.

(** A host that has no row explains anything. *)
Lemma accounted_with_absent d i v m n v' m' n' :
  db_get d Hosts i = None -> accounted_with d i v m n -> accounted_with d i v' m' n'.
Proof.
  intros Hn [Hh Ht]. split; [|done]. intros j r Hr Hreal. specialize (Hh j r Hr Hreal). cbn beta zeta in Hh |- *.
  by rewrite !decide_False in Hh |- * by congruence.
Qed.

Lemma accounted_delete_host d i v m n : accounted_with d i v m n ->
  accounted (db_set d Hosts (delete i (db_rows d Hosts))).
Proof.
  intros [Hh Ht]. apply (accounted_with_zero _ i).
  assert (Hn : db_get (db_set d Hosts (delete i (db_rows d Hosts))) Hosts i = None).
  { unfold db_get. by rewrite db_rows_set_eq, lookup_delete_eq. }
  apply (accounted_with_absent _ _ v m n); [done|]. split.
  - intros j r Hr Hreal. unfold db_get in Hr. rewrite db_rows_set_eq in Hr. apply lookup_delete_Some in Hr as [Hne Hr].
    rewrite db_rows_set_ne by done. by apply Hh.
  - intros tid it Hit. unfold db_get in Hit. rewrite db_rows_set_ne in Hit by done. by apply Ht.
Qed.

(** No tenant occupies the host. *)
Definition unoccupied (d : db) (i : string) : Prop :=
  forall tid it, db_get d Tenants tid = Some it -> occupies i it = false.

Lemma occupancy_zero f d i : unoccupied d i -> occupancy f i (db_rows d Tenants) = 0.
Proof.
  intros Hu. unfold occupancy.
  assert (Hin : forall kv, kv ∈ map_to_list (db_rows d Tenants) -> occupies i kv.2 = false).
  { intros [k it] Hk%elem_of_map_to_list. by apply (Hu k). }
  induction (map_to_list (db_rows d Tenants)) as [|kv l IH]; [done|]. unfold zsum in *. cbn.
  rewrite (Hin kv) by (by left). rewrite IH; [done|]. intros x Hx. apply Hin. by right.
Qed.

Section HostOperations.
Context `{Config}.

Lemma aside_audit_system e o r a dt s : aside (_audit_system e o r a dt s).
Proof. unfold _audit_system. apply aside_bind; [apply aside_quiet; quiet|]. intros ts. apply aside_audit. Qed.

Lemma after_accounted_aside {A} (p : M A) d : aside p -> accounted d -> after accounted p d.
Proof. apply after_aside, accounted_rows. Qed.

(** ** Registration *)

(** The row of a host that holds no tenant. *)
Lemma register_row d i ip az v m now : accounted d -> unoccupied d i ->
  accounted (db_set d Hosts (<[i := host_item i ip az v m now]> (db_rows d Hosts))).
Proof.
  intros Ha Hu. apply (accounted_with_zero _ i). apply (accounted_host d i 0 0 0); [by apply accounted_with_zero|].
  intros _. split; [done|]. exists 1. by split; rewrite ?occupancy_zero.
Qed.

(** The instance that a body registers. *)
Definition registers (b : req_body) (i : string) : Prop :=
  exists v, load_body b = Ok v /\ vget v "instance_id" = Ok (VStr i).

Lemma quiet_memory s : quiet (_resolve_instance_memory_mb s).
Proof. unfold _resolve_instance_memory_mb. quiet. Qed.

Lemma register_keeps b d : accounted d -> (forall i, registers b i -> unoccupied d i) ->
  after accounted (register_host b) d.
Proof.
  intros Ha Hu. unfold register_host. destruct b as [| |e|v]; try done. cbn beta match.
  apply after_lift; [done|intros ? [= <-]]. apply after_lift; [done|intros iv Ei].
  destruct (negb (truthy iv)); [done|]. apply after_lift; [done|intros i Ev].
  destruct iv as [| | | |s| |]; try done. injection Ev as ->.
  apply after_quiet_bind; [quiet|done|intros inst]. cbn zeta.
  apply after_quiet_bind; [apply quiet_memory|done|intros mem]. apply after_quiet_bind; [quiet|done|intros now].
  apply after_bind. do_call. intros r d' Hs. cbn [dynamo_step] in Hs. unfold item_key in Hs. cbn in Hs.
  destruct Hs as [-> ->]. cbn beta match. apply after_quiet; [quiet|].
  apply register_row; [done|]. apply Hu. by exists v.
Qed.

(** ** Draining *)

Lemma deregister_keeps i d : accounted d -> is_Some (db_get d Hosts i) -> after accounted (deregister_host i) d.
Proof.
  intros Ha Hi. unfold deregister_host. apply after_bind. do_call. intros r d' Hs.
  apply update_host_keeps in Hs as (Ha' & _); [|done|done|untouched]. destruct r as [x|e]; [|done]. cbn beta match.
  apply after_quiet; [quiet|done].
Qed.

(** The refresh of the images, on a table whose rows are at their keys. *)
Definition keyed (d : db) : Prop := forall k r, db_get d Hosts k = Some r -> r !! "instance_id" = Some (VStr k).

Definition known (ids : list string) (d : db) : Prop := accounted d /\ forall i, i ∈ ids -> is_Some (db_get d Hosts i).

Lemma mark_version_keeps version ids l d : known ids d -> (forall i, i ∈ l -> i ∈ ids) ->
  after (known ids) (for_each l (fun i => _ ← do_ (UpdateItem Hosts i [SET "rootfs_version" (Lit version)] None RvNone); mret tt)) d.
Proof.
  revert d; induction l as [|i l IH]; intros d Hk Hl; cbn [for_each]; [done|].
  apply after_bind. do_bind. do_call. intros r d' Hs. destruct Hk as [Ha Hk].
  apply update_host_keeps in Hs as (Ha' & _ & Hrows); [|done|by apply Hk, Hl; left|untouched].
  assert (known ids d') by (split; [done|]; intros j Hj; by apply Hrows, Hk).
  destruct r as [x|e]; [|done]. do_ret. apply IH; [done|]. intros j Hj. apply Hl. by right.
Qed.

Lemma instance_ids d f ks l ids : keyed d -> rows_at d Hosts f ks l ->
  mapM (M := outcome) instance_id l = Ok ids -> forall i, i ∈ ids -> is_Some (db_get d Hosts i).
Proof.
  intros Hkey [_ Hall] E i Hi. apply mapM_values in E. apply list_elem_of_In in Hi.
  revert ids E Hi. induction Hall as [|k it ks l [Hk _] _ IH]; intros ids E Hi; inversion E as [|? y ? ids' Ey E']; subst; [done|].
  destruct Hi as [->|Hi]; [|by apply (IH ids')].
  unfold instance_id, req in Ey. rewrite (Hkey _ _ Hk) in Ey. injection Ey as <-. eauto.
Qed.


Lemma refresh_keeps d : accounted d -> keyed d -> after accounted refresh_rootfs d.
Proof.
  intros Ha Hkey. unfold refresh_rootfs, _get_manifest. apply after_quiet_bind; [quiet|done|intros manifest].
  destruct (negb (truthy manifest)); [done|]. apply after_quiet_bind; [quiet|done|intros version].
  apply after_scan; [done|intros ks hosts Hrows]. destruct hosts as [|h hosts]; [done|].
  apply after_lift; [done|intros ids Eids]. apply after_quiet_bind; [quiet|done|intros rootfs].
  apply after_quiet_bind; [quiet|done|intros data]. cbn zeta. apply after_quiet_bind; [quiet|done|intros [x|e]]; [|done].
  assert (Hk : known ids d) by (split; [done|]; by apply (instance_ids d _ _ _ _ Hkey Hrows)).
  eapply (after_seq (known ids) accounted); [by apply mark_version_keeps|by intros d' []|]. intros u d' [Ha' _]. done.
Qed.


(** ** Draining a host *)

(** An action on a tenant that is live, or that revives none. *)
Definition revives (action : string) : bool := bool_decide (action = "migrate") || str_in action power_actions.

Lemma action_keeps tid a b d : accounted d -> (revives a = true -> live_row d tid) ->
  after accounted (tenant_action tid a b) d.
Proof.
  intros Ha Hl. unfold tenant_action. apply after_get. destruct (db_get d Tenants tid) as [it|] eqn:Hit; [|done].
  unfold revives in Hl. destruct (bool_decide_reflect (a = "cancel-migration")) as [|_].
  { destruct (is_str (get it "status") "deleted") eqn:Hd; [|by apply cancel_keeps].
    unfold cancel_migration. apply is_str_true in Hd as ->. done. }
  destruct (bool_decide (a = "resize")); [by apply resize_keeps|].
  destruct (bool_decide (a = "resize-disk")); [by apply disk_keeps|].
  destruct (bool_decide (a = "migrate")); [apply migrate_keeps; [done..|by apply Hl]|].
  destruct (str_in a power_actions); [apply power_keeps; [done..|by apply Hl; [rewrite orb_true_r|]]|].
  destruct (bool_decide (a = "backup")); [|done].
  apply after_quiet; [|done]. unfold start_backup. repeat first [apply quiet_publish|quiet_step].
Qed.

(** The accounting, and tenants that are live. *)
Definition lives (tids : list string) (d : db) : Prop := accounted d /\ forall tid, tid ∈ tids -> live_row d tid.

Lemma wp_both {A} (p : M A) d (P P' : db -> Prop) : after P p d -> after P' p d -> after (fun d' => P d' /\ P' d') p d.
Proof. apply wp_and. Qed.

Lemma action_lives tids tid a b d : lives tids d -> (revives a = true -> tid ∈ tids) ->
  after (lives tids) (tenant_action tid a b) d.
Proof.
  intros [Ha Hl] Hin. apply wp_both; [apply action_keeps; [done|auto]|].
  apply (after_events steady (fun d => forall t, t ∈ tids -> live_row d t)); [|apply steady_action|done].
  intros c r d1 d2 Hs He Hd t Ht. eapply steady_step; [done..|]. by apply Hd.
Qed.

Lemma drain_one_lives tids i t d tid : lives tids d -> t !! "id" = Some (VStr tid) -> tid ∈ tids ->
  after (lives tids) (drain_one i t) d.
Proof.
  intros Hl Hid Hin. unfold drain_one.
  assert (Hq : forall A (p : M A) B (f : A -> M B), quiet p -> (forall a, after (lives tids) (f a) d) -> after (lives tids) (p ≫= f) d)
    by (intros; by apply after_quiet_bind).
  apply after_lift; [done|intros v Ev]. unfold req in Ev. rewrite Hid in Ev. injection Ev as <-.
  apply after_lift; [done|intros k Ek]. cbn in Ek.
  assert (k = tid) as -> by (destruct (bool_decide (tid = "")); [done|by injection Ek]).
  apply Hq; [quiet|intros vcpu]. apply Hq; [quiet|intros mem]. apply Hq; [unfold _find_host; quiet|intros target]. cbn zeta.
  destruct target as [target|]; [|done]. apply Hq; [quiet|intros tg]. destruct (is_str tg i); [done|].
  eapply after_seq; [by apply (action_lives tids)|done|intros r d' Hd'].
  destruct (statusCode r =? 202); [done|]. apply after_lift; [done|]. by intros.
Qed.

Lemma drain_all_lives tids i l d : lives tids d ->
  (forall t, t ∈ l -> exists tid, t !! "id" = Some (VStr tid) /\ tid ∈ tids) -> after (lives tids) (drain_all i l) d.
Proof.
  revert d; induction l as [|t l IH]; intros d Hl Hin; cbn [drain_all]; [done|].
  destruct (Hin t) as (tid & Hid & Ht); [by left|].
  eapply after_seq; [by apply (drain_one_lives tids i t d tid)|done|intros r d1 H1].
  eapply after_seq; [apply IH; [done|intros x Hx; apply Hin; by right]|done|intros [sl fl] d2 H2]. done.
Qed.

Lemma drain_keeps i d : accounted d -> after accounted (drain_host i) d.
Proof.
  intros Ha. unfold drain_host. apply after_get. destruct (db_get d Hosts i) as [h|] eqn:Hh; [|done].
  apply after_scan; [done|intros ks l Hrows]. apply after_quiet_bind; [quiet|done|intros now].
  apply after_bind. do_call. intros r d1 Hs. apply update_host_keeps in Hs as (Ha1 & Ht & _); [|done|by exists h|untouched].
  destruct r as [x|e]; [|done]. cbn beta match.
  assert (Hl : lives ks d1).
  { split; [done|]. intros tid Hin it Hit. unfold db_get in Hit. rewrite Ht in Hit. destruct Hrows as [_ Hall].
    induction Hall as [|k t ks l [Hk Hc] _ IH]; [by apply elem_of_nil in Hin|]. apply elem_of_cons in Hin as [->|Hin]; [|by apply IH].
    unfold db_get in Hk. rewrite Hk in Hit. injection Hit as ->. 
    apply andb_true_iff in Hc as [_ Hc%holds_attr]. unfold get, get_or. by rewrite Hc. }
  eapply (after_seq (lives ks)); [|by intros d' []|].
  - apply drain_all_lives; [done|]. intros t Hin. destruct (rows_at_in _ _ _ _ _ _ Hrows Hin) as (k & Hk & Hrow & _).
    exists k. split; [|done]. by apply (proj2 Ha k t).
  - intros [started failed] d2 [Ha2 _]. eapply after_seq; [by apply after_accounted_aside; [apply aside_audit_system|]|done|].
    intros u d3 Ha3. done.
Qed.

(** ** Waiting tenants *)

(** The row of a waiting tenant once it is assigned. *)
Definition assigned_actions (hid now : string) (vm_num : Z) (host : item) : list action := [
  SET "status" (Lit (VStr "creating")); SET "host_id" (Lit (VStr hid));
  SET "vm_num" (Lit (VInt vm_num)); SET "guest_ip" (Lit (VStr (guest_ip_of vm_num)));
  SET "host_port" (Lit (VInt (host_port_of vm_num)));
  SET "rootfs_version" (Lit (get_or host "rootfs_version" (VStr "")));
  SET "creation_started_at" (Lit (VStr now)); SET "updated_at" (Lit (VStr now))].

Definition booking_actions (v m n : Z) : list action := [
  SET "used_vcpu" (Add (Attr "used_vcpu") (Lit (VInt v)));
  SET "used_mem_mb" (Add (Attr "used_mem_mb") (Lit (VInt m)));
  SET "vm_count" (Add (Attr "vm_count") (Lit (VInt 1)));
  SET "next_vm_num" (Lit (VInt n))].

Definition others_same (k : string) (d d' : db) : Prop := forall j, j <> k -> db_get d' Tenants j = db_get d Tenants j.

(** The row first: its host carries less than its tenants explain. *)
Lemma assigned_row k t v m hid now n host d r d' : accounted d -> db_get d Tenants k = Some t -> t !! "host_id" = None ->
  t !! "vcpu" = Some (VInt v) -> t !! "mem_mb" = Some (VInt m) ->
  dynamo_step (UpdateItem Tenants k (assigned_actions hid now n host) None RvNone) d r d' ->
  (exists x, r = inl x) /\ accounted_with d' hid (- v) (- m) (-1) /\ others_same k d d' /\ db_rows d' Hosts = db_rows d Hosts.
Proof.
  intros Ha Ht Hh Hv Hm Hs. cbn in Hs. unfold update_row in Hs. rewrite Ht in Hs. cbn in Hs. unfold id in Hs.
  match type of Hs with _ = inl ?x /\ _ = db_set _ _ (<[_ := ?new]> _) => set (row := new) in Hs end.
  destruct Hs as [-> ->]. split; [by eexists|]. split; [|split; [|by apply db_rows_set_ne]].
  2: { intros j Hj. unfold db_get. by rewrite db_rows_set_eq, lookup_insert_ne. }
  assert (Hz : forall f i, share f i (Some row) = if decide (i = hid) then f row else 0).
  { intros. apply (share_placed _ _ _ _ "creating"); unfold row; by simplify_map_eq. }
  pose proof (accounted_tenant d hid 0 0 0 k row) as Hp. rewrite Ht, !Hz, !(share_none _ _ _ Hh), !decide_True in Hp by done.
  assert (int_field "vcpu" row = v) as Ev by (unfold int_field, row; simplify_map_eq; by rewrite ?Hv).
  assert (int_field "mem_mb" row = m) as Em by (unfold int_field, row; simplify_map_eq; by rewrite ?Hm).
  rewrite Ev, Em in Hp. change (- v) with (0 + 0 - v). change (- m) with (0 + 0 - m). change (-1) with (0 + 0 - 1).
  apply Hp; [by apply accounted_with_zero| |].
  - destruct (proj2 Ha k t Ht) as (Hid & _). split; [|split; eexists]; unfold row; by simplify_map_eq.
  - intros i Hi _ f _. by rewrite Hz, (share_none _ _ _ Hh), decide_False.
Qed.

(** Then the booking, which settles it. *)
Lemma booking_step hid v m n d r d' : accounted_with d hid (- v) (- m) (-1) ->
  dynamo_step (UpdateItem Hosts hid (booking_actions v m n) None RvNone) d r d' ->
  accounted d' /\ db_rows d' Tenants = db_rows d Tenants.
Proof.
  intros Ha Hs. destruct (db_get d Hosts hid) as [row|] eqn:Er.
  2: { cbn in Hs. unfold update_row in Hs. rewrite Er in Hs. cbn in Hs. destruct Hs as [_ ->]. split; [|done].
       apply (accounted_with_zero _ hid). by apply (accounted_with_absent _ _ (- v) (- m) (-1)). }
  destruct (real_host hid) eqn:Hreal.
  - destruct (accounted_this _ _ _ _ _ _ Ha Hreal Er) as (Hid & next & [R1 R2 R3 R4]).
    cbn in Hs. unfold update_row in Hs. rewrite Er in Hs. cbn in Hs. unfold id in Hs. rewrite R1, R2, R3 in Hs. cbn in Hs.
    destruct Hs as [_ ->]. split; [|by apply db_rows_set_ne]. apply (accounted_with_zero _ hid).
    apply (accounted_host d hid (- v) (- m) (-1)); [done|]. intros _. split; [by simplify_map_eq|]. exists n.
    split; simplify_map_eq; do 2 f_equal; lia.
  - apply update_host_step in Hs. destruct r as [x|e].
    + destruct Hs as (new & _ & _ & ->). split; [|by apply db_rows_set_ne].
      apply (accounted_with_zero _ hid). apply (accounted_host d hid (- v) (- m) (-1)); [done|congruence].
    + subst. split; [|done]. apply (accounted_with_zero _ hid). by apply (accounted_with_unreal _ _ (- v) (- m) (-1)).
Qed.

Definition settled (k : string) (d d' : db) : Prop := accounted d' /\ others_same k d d'.

Lemma assign_keeps k t d : accounted d -> db_get d Tenants k = Some t -> t !! "host_id" = None ->
  after (settled k d) (assign_pending t) d.
Proof.
  intros Ha Ht Hh. assert (Hd : settled k d d) by (by split).
  destruct (proj2 Ha k t Ht) as (Hid & (v & Hv) & (m & Hm)). unfold assign_pending.
  apply after_lift; [done|intros v' Ev]. unfold req in Ev. rewrite Hv in Ev. injection Ev as <-.
  apply after_lift; [done|intros m' Em]. unfold req in Em. rewrite Hm in Em. injection Em as <-.
  apply after_quiet_bind; [unfold _find_host; quiet|done|intros host]. destruct host as [host|]; [|done].
  apply after_quiet_bind; [quiet|done|intros n]. cbn zeta. apply after_quiet_bind; [quiet|done|intros now].
  apply after_lift; [done|intros tv Etv]. unfold req in Etv. rewrite Hid in Etv. injection Etv as <-.
  apply after_lift; [done|intros k' Ek]. cbn in Ek.
  assert (k' = k) as -> by (destruct (bool_decide (k = "")); [done|by injection Ek]).
  apply after_quiet_bind; [quiet|done|intros hid].
  apply after_bind. do_call. intros r d1 Hs1. apply (assigned_row k t v m) in Hs1 as ((x & ->) & Ha1 & Ho & _); try done.
  apply after_bind. do_call. intros r d2 Hs2. apply (booking_step hid v m) in Hs2 as (Ha2 & Ht2); [|done].
  assert (Hd2 : settled k d d2).
  { split; [done|]. intros j Hj. rewrite <- (Ho j Hj). unfold db_get. by rewrite Ht2. }
  destruct r as [y|e]; [|done]. cbn beta match. apply after_quiet; [|done].
  repeat first [apply quiet_skills | apply quiet_launch | apply quiet_ensure_tg | apply quiet_add_rule | quiet_step].
Qed.

(** Rows of waiting tenants, each at its own key. *)
Definition queued (d : db) (ks : list string) (l : list item) : Prop :=
  NoDup ks /\ Forall2 (fun k t => db_get d Tenants k = Some t /\ t !! "host_id" = None) ks l.

Lemma assign_all_keeps ks l n d : accounted d -> queued d ks l -> after accounted (assign_all l n) d.
Proof.
  revert ks n d; induction l as [|t l IH]; intros ks n d Ha [Hnd Hall]; cbn [assign_all]; [done|].
  apply Forall2_cons_inv_r in Hall as (k & ks' & [Hk Hh] & Hall & ->). apply list.NoDup_cons in Hnd as [Hnk Hnd].
  eapply after_seq; [by apply (assign_keeps k)|by intros d' []|]. intros ok d' [Ha' Ho]. destruct ok; [|done].
  apply (IH ks'); [done|]. split; [done|]. clear IH. induction Hall as [|j x ks' l [Hj Hx] _ IH]; [constructor|].
  apply not_elem_of_cons in Hnk as [Hne Hnk]. apply list.NoDup_cons in Hnd as [_ Hnd].
  constructor; [|by apply IH]. split; [|done]. by rewrite Ho.
Qed.

Lemma queued_perm d ks l l' : queued d ks l -> Permutation l l' -> exists ks', queued d ks' l'.
Proof.
  intros [Hnd Hall] Hp. apply Forall2_flip in Hall.
  destruct (Permutation.Permutation_Forall2 Hp Hall) as (ks' & Hks & Hall'). exists ks'.
  split; [by rewrite <- Hks|by apply Forall2_flip].
Qed.

Lemma pending_keeps d : accounted d -> waiting d -> after accounted process_pending d.
Proof.
  intros Ha Hw. unfold process_pending. apply after_scan; [done|intros ks l [Hnd Hall]].
  destruct l as [|x l']; [done|]. set (l := x :: l') in *. cbn zeta.
  assert (Hq : queued d ks l).
  { split; [done|]. eapply list.Forall2_impl; [exact Hall|]. intros k t [Hk Hc%holds_attr]. split; [done|].
    apply (Hw k); [done|]. unfold get, get_or. rewrite Hc. by apply bool_decide_eq_true. }
  destruct (queued_perm d ks l _ Hq (symmetry (sort_by_perm (fun a b => str_le (created_at a) (created_at b)) l))) as [ks' Hq'].
  eapply after_seq; [by apply (assign_all_keeps ks')|done|]. by intros n d' Ha'.
Qed.

(** ** Termination *)

Definition dead_row (d : db) (tid : string) : Prop :=
  exists it, db_get d Tenants tid = Some it /\ is_str (get it "status") "deleted" = true.

(** A row that was closed at most: its status and the time of its last change. *)
Definition closed (it it' : item) : Prop := forall k, k ∉ ["status"; "updated_at"] -> it' !! k = it !! k.

(** The tables while a host is cleaned: only its own counters are off, the
    tenants that were found on it are still rows of it, those of [reaped] are
    deleted, and the other tenants are as they were. *)
Record cleaning (iid : string) (tids reaped : list string) (d0 d : db) : Prop := {
  cl_accounted : exists v m n, accounted_with d iid v m n;
  cl_rows : forall tid, tid ∈ tids -> exists it0 it, db_get d0 Tenants tid = Some it0 /\ closed it0 it /\
    db_get d Tenants tid = Some it /\ it !! "host_id" = Some (VStr iid);
  cl_reaped : forall tid, tid ∈ reaped -> dead_row d tid;
  cl_others : forall tid, tid ∉ tids -> db_get d Tenants tid = db_get d0 Tenants tid
}.

Lemma cleaning_mono iid tids r r' d0 d : (forall x, x ∈ r' -> x ∈ r) -> cleaning iid tids r d0 d -> cleaning iid tids r' d0 d.
Proof. intros Hi [H1 H2 H3 H4]. split; auto. Qed.

(** One tenant: reaped if the call returns. *)
Lemma reap_cleaning iid tids reaped t tid d0 d : cleaning iid tids reaped d0 d -> t !! "id" = Some (VStr tid) -> tid ∈ tids ->
  wp (S := aws) dynamo_step (reap_tenant t) d (fun o d' _ =>
    match o with Ok _ => cleaning iid tids (tid :: reaped) d0 d' | _ => cleaning iid tids reaped d0 d' end).
Proof.
  intros Hd Hid Hin. unfold reap_tenant. do_bind. do_ret. unfold req. rewrite Hid. cbn beta match.
  do_bind. do_ret. cbn [as_key]. destruct (bool_decide (tid = "")); [done|]. cbn beta match.
  do_bind. eapply wp_mono; [apply (wp_no_write _ _ (fun _ _ => True)); eapply awp_mono; [apply quiet_remove_rule|auto]|].
  intros [u|e|] d1 _ [_ ->]; [|done..]. cbn beta match. do_bind. apply wp_now. intros us.
  destruct Hd as [(v & m & n & Ha) Hrows Hdead Hoth]. destruct (Hrows tid Hin) as (it0 & it & Hit0 & Hcl & Hit & Hh).
  do_bind. do_call. intros r d' Hs. apply (set_status_step _ _ _ _ _ _ it Hit) in Hs as [[x ->] ->]. do_ret.
  assert (Hnew : forall j, j <> tid -> db_get (db_set d Tenants (<[tid := mark "deleted" (isoformat us) it]> (db_rows d Tenants))) Tenants j =
    db_get d Tenants j) by (intros j Hj; unfold db_get; by rewrite db_rows_set_eq, lookup_insert_ne).
  assert (Hthis : db_get (db_set d Tenants (<[tid := mark "deleted" (isoformat us) it]> (db_rows d Tenants))) Tenants tid =
    Some (mark "deleted" (isoformat us) it)) by (unfold db_get; by rewrite db_rows_set_eq, lookup_insert_eq).
  assert (Hmark : is_str (get (mark "deleted" (isoformat us) it) "status") "deleted" = true) by
    (unfold get, get_or, mark; rewrite lookup_insert_ne, lookup_insert_eq by done; by apply bool_decide_eq_true).
  split.
  - eexists _, _, _. apply delete_row_accounted; [done..|]. intros i Hi _ f. unfold share, occupies, get, get_or. rewrite Hh. cbn.
    by rewrite bool_decide_eq_false_2 by congruence.
  - intros j Hj. destruct (decide (j = tid)) as [->|Hne]; [|rewrite Hnew by done; by apply Hrows].
    rewrite Hthis. exists it0. eexists. split; [done|]. split; [|split; [done|unfold mark; by rewrite !lookup_insert_ne]].
    intros k Hk. unfold mark. rewrite !lookup_insert_ne by set_solver. by apply Hcl.
  - intros j Hj. unfold dead_row. destruct (decide (j = tid)) as [->|Hne]; [rewrite Hthis; by eexists|].
    rewrite Hnew by done. apply elem_of_cons in Hj as [->|Hj]; [done|by apply Hdead].
  - intros j Hj. rewrite Hnew; [by apply Hoth|]. by intros ->.
Qed.

Lemma reap_all_cleaning iid tids reaped l ks d0 d : cleaning iid tids reaped d0 d ->
  Forall2 (fun k t => t !! "id" = Some (VStr k) /\ k ∈ tids) ks l ->
  wp (S := aws) dynamo_step (for_each l reap_tenant) d (fun o d' _ =>
    match o with Ok _ => cleaning iid tids (rev ks ++ reaped) d0 d' | _ => cleaning iid tids [] d0 d' end).
Proof.
  intros Hd Hall. revert reaped d Hd. induction Hall as [|k t ks l [Hid Hin] _ IH]; intros reaped d Hd; cbn [for_each]; [done|].
  do_bind. eapply wp_mono; [by apply (reap_cleaning iid tids reaped t k d0 d)|]. intros [u|e|] d' _ Hd'; cbn beta match.
  - eapply wp_mono; [by apply IH|]. intros [u'|e|] d2 _ Hd2; [|done..]. cbn [rev]. by rewrite <- app_assoc.
  - eapply cleaning_mono; [|exact Hd']. set_solver.
  - eapply cleaning_mono; [|exact Hd']. set_solver.
Qed.

Lemma quiet_remove_tg i : quiet (_remove_host_tg i).
Proof. unfold _remove_host_tg. quiet. Qed.

(** What a completed clean-up leaves. *)
Record cleaned (iid : string) (d d' : db) : Prop := {
  cd_accounted : accounted d';
  cd_host : db_get d' Hosts iid = None;
  cd_tenants : unoccupied d' iid;
  cd_others : forall tid it, db_get d Tenants tid = Some it -> occupies iid it = false -> db_get d' Tenants tid = Some it
}.

(** What no clean-up, completed or not, goes beyond: the tenants found live on
    the host are closed at most; the other tenants, the other hosts and the
    groups are as they were. *)
Record cleanup_frame (iid : string) (d d' : db) : Prop := {
  cf_live : forall tid it, db_get d Tenants tid = Some it -> occupies iid it = true ->
    exists it', db_get d' Tenants tid = Some it' /\ closed it it';
  cf_others : forall tid, (forall it, db_get d Tenants tid = Some it -> occupies iid it = false) ->
    db_get d' Tenants tid = db_get d Tenants tid;
  cf_hosts : forall h, h <> iid -> db_get d' Hosts h = db_get d Hosts h;
  cf_groups : db_rows d' Groups = db_rows d Groups
}.

(** The writes of a clean-up outside the rows of the tenants. *)
Definition cleanup_event (iid : string) (e : ev) : Prop :=
  match ev_call e with
  | UpdateItem t _ _ _ _ => t = Tenants
  | PutItem t _ _ => t = Audit
  | DeleteItem t k => t = Hosts /\ k = iid
  | _ => True
  end.

Definition beyond_kept (iid : string) (d d' : db) : Prop :=
  (forall h, h <> iid -> db_get d' Hosts h = db_get d Hosts h) /\ db_rows d' Groups = db_rows d Groups.

Lemma cleanup_step iid d0 c r d d' : dynamo_step c d r d' -> cleanup_event iid (Ev c r) ->
  beyond_kept iid d0 d -> beyond_kept iid d0 d'.
Proof.
  intros Hs He [H1 H2].
  assert (Hother : forall t m, t = Tenants \/ t = Audit -> beyond_kept iid d0 (db_set d t m)).
  { intros t m Ht. split; [|by rewrite db_rows_set_ne by (destruct Ht; congruence)].
    intros h Hh. rewrite <- (H1 h Hh). unfold db_get. by rewrite db_rows_set_ne by (destruct Ht; congruence). }
  unfold cleanup_event in He. destruct c; cbn in Hs, He; try (by repeat deex; subst).
  - subst t. destruct (item_key Audit it); [destruct (cond_holds _ _)|]; repeat deex; subst; try done; apply Hother; by right.
  - subst t. destruct (update_row _ _ _ _ _); repeat deex; subst; try done; apply Hother; by left.
  - destruct He as [-> ->], Hs as [_ ->]. split; [|by rewrite db_rows_set_ne by done].
    intros h Hh. rewrite <- (H1 h Hh). unfold db_get. rewrite db_rows_set_eq. by apply lookup_delete_ne.
Qed.

Lemma cleanup_events dt : awp (cleanup_terminated_host dt) (fun _ t => Forall (cleanup_event (lc_instance dt)) t).
Proof.
  assert (Hq : forall {A} (p : M A), quiet p -> awp p (fun _ t => Forall (cleanup_event (lc_instance dt)) t)).
  { intros A p Hp. eapply awp_mono; [apply Hp|]. intros o t. apply List.Forall_impl. intros e.
    unfold no_write, cleanup_event. destruct (ev_call e); tauto. }
  assert (Hreap : forall t, awp (reap_tenant t) (fun _ t => Forall (cleanup_event (lc_instance dt)) t)).
  { intros t. unfold reap_tenant. apply awp_all_events_bind; [apply Hq; quiet|intros v].
    apply awp_all_events_bind; [apply Hq; quiet|intros k]. apply awp_all_events_bind; [apply Hq, quiet_remove_rule|intros _].
    apply awp_all_events_bind; [apply Hq; quiet|intros now]. apply awp_all_events_bind; [|intros; apply awp_all_events_done].
    apply (awp_all_events_call (S := aws)). done. }
  unfold cleanup_terminated_host. apply awp_all_events_bind; [apply Hq, quiet_scan|intros l].
  apply awp_all_events_bind; [induction l; cbn [for_each]; [apply awp_all_events_done|by apply awp_all_events_bind]|intros _].
  apply awp_all_events_bind; [apply Hq, quiet_remove_tg|intros _].
  apply awp_all_events_bind; [by apply (awp_all_events_call (S := aws))|intros _].
  apply awp_all_events_bind; [apply Hq; quiet|intros ids].
  apply awp_all_events_bind; [|intros _; apply Hq; quiet].
  unfold _audit_system. apply awp_all_events_bind; [apply Hq; quiet|intros ts].
  eapply awp_mono; [apply put_audit_row_events|]. intros o t. apply List.Forall_impl. intros e.
  unfold audit_event, cleanup_event. destruct (ev_call e); try done. by destruct t0.
Qed.

(** The tenants' part of the frame. *)
Definition tenants_framed (iid : string) (d d' : db) : Prop :=
  (forall tid it, db_get d Tenants tid = Some it -> occupies iid it = true ->
    exists it', db_get d' Tenants tid = Some it' /\ closed it it') /\
  (forall tid, (forall it, db_get d Tenants tid = Some it -> occupies iid it = false) ->
    db_get d' Tenants tid = db_get d Tenants tid).

Lemma tenants_framed_refl iid d : tenants_framed iid d d.
Proof. split; [|done]. intros tid it Hit _. by exists it. Qed.

Lemma tenants_framed_same iid d d1 d2 : db_rows d2 Tenants = db_rows d1 Tenants ->
  tenants_framed iid d d1 -> tenants_framed iid d d2.
Proof. intros E [H1 H2]. split; intros tid; unfold db_get at 2; rewrite E; [apply H1|apply H2]. Qed.

Lemma cleaning_framed iid ks r d d1 : cleaning iid ks r d d1 ->
  (forall tid, tid ∈ ks -> exists it, db_get d Tenants tid = Some it /\ occupies iid it = true) -> tenants_framed iid d d1.
Proof.
  intros [_ Hrows _ Hoth] Hocc. split.
  - intros tid it Hit Ho. destruct (decide (tid ∈ ks)) as [Hin|Hn].
    + destruct (Hrows tid Hin) as (it0 & it' & Hit0 & Hcl & Hit' & _). exists it'. split; [done|].
      by assert (it0 = it) as -> by congruence.
    + exists it. split; [by rewrite Hoth|done].
  - intros tid Hno. apply Hoth. intros Hin. destruct (Hocc tid Hin) as (it & Hit & Ho). specialize (Hno it Hit). congruence.
Qed.

(** The filter of the clean-up finds the tenants that occupy the host. *)
Lemma holds_occupies it iid : holds it (on_host_live iid) = occupies iid it.
Proof.
  cbn. unfold occupies, cmp, get, get_or. cbn. destruct (it !! "host_id") as [[| | | |h| |]|], (it !! "status") as [[| | | |st| |]|];
    cbn; rewrite ?andb_true_r; try done.
Qed.

Lemma cleaned_rows iid d : on_rows (cleaned iid d).
Proof.
  intros d1 d2 Et Eh [H1 H2 H3 H4]. assert (Hg : forall tid, db_get d2 Tenants tid = db_get d1 Tenants tid)
    by (intros; unfold db_get; by rewrite Et).
  split; [by apply (accounted_rows d1)|unfold db_get; by rewrite Eh| |].
  - intros tid it. rewrite Hg. apply H3.
  - intros tid it. rewrite Hg. apply H4.
Qed.

(** The row of the host goes last: nothing is left to explain. *)
Lemma host_removed iid ks d d1 : cleaning iid ks ks d d1 -> (forall tid it, db_get d Tenants tid = Some it -> occupies iid it = true -> tid ∈ ks) ->
  (forall tid, tid ∈ ks -> exists it, db_get d Tenants tid = Some it /\ occupies iid it = true) ->
  cleaned iid d (db_set d1 Hosts (delete iid (db_rows d1 Hosts))).
Proof.
  intros [(v & m & n & Ha) Hrows Hdead Hoth] Hall Hocc.
  assert (Ht : forall tid, db_get (db_set d1 Hosts (delete iid (db_rows d1 Hosts))) Tenants tid = db_get d1 Tenants tid)
    by (intros; unfold db_get; by rewrite db_rows_set_ne).
  split.
  - by apply (accounted_delete_host _ _ v m n).
  - unfold db_get. by rewrite db_rows_set_eq, lookup_delete_eq.
  - intros tid it Hit. rewrite Ht in Hit. destruct (decide (tid ∈ ks)) as [Hin|Hn].
    + destruct (Hdead tid Hin) as (it' & Hit' & Hd). rewrite Hit in Hit'. injection Hit' as ->. unfold occupies. by rewrite Hd, andb_false_r.
    + rewrite (Hoth tid Hn) in Hit. destruct (occupies iid it) eqn:Ho; [|done]. by destruct Hn; apply (Hall tid it).
  - intros tid it Hit Ho. rewrite Ht. destruct (decide (tid ∈ ks)) as [Hin|Hn]; [|by rewrite Hoth].
    destruct (Hocc tid Hin) as (it' & Hit' & Ho'). congruence.
Qed.

(** At any point only the counters of that host may be off; at the end none is. *)
Lemma cleanup_keeps dt d : accounted d ->
  wp (S := aws) dynamo_step (cleanup_terminated_host dt) d (fun o d' _ =>
    ((o = Ok tt -> cleaned (lc_instance dt) d d') /\ exists v m n, accounted_with d' (lc_instance dt) v m n) /\
    tenants_framed (lc_instance dt) d d').
Proof.
  intros Ha. unfold cleanup_terminated_host. cbn zeta. set (iid := lc_instance dt).
  assert (H0 : exists v m n, accounted_with d iid v m n) by (exists 0, 0, 0; by apply accounted_with_zero).
  do_bind. eapply wp_mono; [apply (scan_pages_hold _ _ _ None [] d [] (remains_start d Tenants))|].
  pose proof (tenants_framed_refl iid d) as Hf0.
  intros [l|e|] d' _ [-> Hl]; [|done..]. specialize (Hl l eq_refl). cbn in Hl. cbn beta match.
  destruct (matching_rows d Tenants (Some (on_host_live iid))) as (ks & Hks & Hcomplete). unfold matching in Hks.
  rewrite <- Hl in Hks. clear Hl.
  assert (Hocc : forall tid, tid ∈ ks -> exists it, db_get d Tenants tid = Some it /\ occupies iid it = true).
  { destruct Hks as [_ Hall]. intros tid Hin. clear Hcomplete. induction Hall as [|k t ks l [Hk Hc] _ IH]; [by apply elem_of_nil in Hin|].
    apply elem_of_cons in Hin as [->|Hin]; [|by apply IH]. exists t. split; [done|]. by rewrite <- holds_occupies. }
  assert (Hc : cleaning iid ks [] d d).
  { split; [done| |by intros tid Hn%elem_of_nil|done]. intros tid Hin. destruct (Hocc tid Hin) as (it & Hit & Ho). exists it, it.
    split; [done|]. split; [done|]. split; [done|]. apply andb_true_iff in Ho as [Ho%is_str_true _]. unfold get, get_or in Ho. by destruct (it !! "host_id"); cbn in Ho; subst. }
  do_bind. eapply wp_mono; [apply (reap_all_cleaning iid ks [] l ks d d Hc)|].
  { destruct Hks as [_ Hall]. clear -Hall Ha. assert (Hsub : forall k, k ∈ ks -> k ∈ ks) by done. revert Hsub. generalize ks at 2 3 as all.
    intros all Hsub. induction Hall as [|k t ks l [Hk _] _ IH]; constructor.
    - split; [by apply (proj2 Ha k t)|apply Hsub; by left].
    - apply IH. intros j Hj. apply Hsub. by right. }
  intros [u|e|] d1 _ Hw1; pose proof (cleaning_framed _ _ _ _ _ Hw1 Hocc) as Hf1; [|destruct Hw1; by split..]. cbn beta match.
  assert (Hw : cleaning iid ks ks d d1).
  { eapply cleaning_mono; [|exact Hw1]. intros tid Hin. rewrite app_nil_r. by apply list_elem_of_In, (proj1 (in_rev _ _)), list_elem_of_In. }
  do_bind. eapply wp_mono; [apply (wp_no_write _ _ (fun _ _ => True)); eapply awp_mono; [apply quiet_remove_tg|auto]|].
  intros [u'|e|] d2 _ [_ ->]; [|destruct Hw; by split..]. cbn beta match. do_bind. do_call. intros r d2 Hs. cbn in Hs.
  destruct Hs as [-> ->]. cbn beta match. eapply wp_mono with (Q := fun _ d' _ => cleaned iid d d' /\ tenants_framed iid d d').
  - assert (Hcl : cleaned iid d (db_set d1 Hosts (delete iid (db_rows d1 Hosts)))).
    { apply (host_removed iid ks); [done| |done]. intros tid it Hit Ho. apply (Hcomplete tid it Hit). cbn [cond_holds]. by rewrite holds_occupies. }
    assert (tenants_framed iid d (db_set d1 Hosts (delete iid (db_rows d1 Hosts)))) as Hf2
      by (apply (tenants_framed_same _ _ d1); [by rewrite db_rows_set_ne|done]).
    apply (after_lift (fun d' => cleaned iid d d' /\ tenants_framed iid d d')); [done|intros ids _].
    eapply (after_seq (fun d' => cleaned iid d d' /\ tenants_framed iid d d')).
    + apply after_aside; [|apply aside_audit_system|done]. intros d2 d3 Et Eh [? ?].
      split; [by apply (cleaned_rows iid d d2)|by apply (tenants_framed_same _ _ d2)].
    + done.
    + intros u2 d3 Ha3. apply after_quiet; [quiet|done].
  - intros o d' _ [Hcl Hf']. split; [|done]. split; [done|]. exists 0, 0, 0. apply accounted_with_zero, Hcl.
Qed.
End HostOperations.

(** C14: When a host is terminated, the clean-up that its lifecycle event runs, if it
    ends, leaves no row of the host and no live tenant on it, leaves every
    tenant that was not on it as it was, and keeps the accounting of the other
    hosts; and wherever it may be cut short only the counters of that host are
    off, the tenants that were live on it have at most their status and their
    time of change rewritten, and the rows of the other tenants, of the other
    hosts and of the groups are exactly as they were. *)
Theorem cleanup_terminated_host_spec `{Config} {W} (E : env aws W) (view : W -> db) (w : W) (dt : lifecycle) :
  obeys (S := aws) dynamo_step view E -> accounted (view w) ->
  let '(o, w', _) := run E (cleanup_terminated_host dt) w in
  (o = Ok tt -> cleaned (lc_instance dt) (view w) (view w')) /\
  (exists v m n, accounted_with (view w') (lc_instance dt) v m n) /\
  cleanup_frame (lc_instance dt) (view w) (view w').
Proof.
  intros HE Ha.
  pose proof (run_wp _ view E _ w _ HE (wp_and _ _ _ _ _ (cleanup_keeps dt (view w) Ha)
    (after_events (cleanup_event (lc_instance dt)) (beyond_kept (lc_instance dt) (view w)) _ (view w)
      (fun c r d d' => cleanup_step _ _ c r d d') (cleanup_events dt) (conj (fun _ _ => eq_refl) eq_refl)))) as R.
  destruct (run E _ w) as [[o w'] t]. destruct R as [[[R1 R2] [R3 R4]] [R5 R6]]. split; [done|]. split; [done|]. by split.
Qed.

Lemma cleanup_terminated_host_spec_witness :
  cleaned "i-1" acc_db (mem_db (run (mem_env 1 sample_service)
    (cleanup_terminated_host (H := sample_config) (Lifecycle "i-1" "hook" "asg")) (Mem acc_db 0)).1.2).
Proof.
  pose proof (cleanup_terminated_host_spec (H := sample_config) (mem_env 1 sample_service) mem_db (Mem acc_db 0)
    (Lifecycle "i-1" "hook" "asg") (mem_env_obeys 1 sample_service) acc_db_accounted) as R.
  assert (Ho : (run (mem_env 1 sample_service)
    (cleanup_terminated_host (H := sample_config) (Lifecycle "i-1" "hook" "asg")) (Mem acc_db 0)).1.1 = Ok tt) by (by vm_compute).
  destruct (run _ _ _) as [[o w'] t]. cbn [fst snd] in *. by apply R.
Defined.
