(* ===== verification/RowLoops.v ===== *)
(** * Loops over scanned rows

    The periodic functions scan a table and then work on its rows one by one:
    what a loop keeps when every turn writes no other row of the table than its
    own. *)

From S2P Require Import Prelude Py Effects Aws Iso Ddb Config Validate Ssm Capacity AuditLog Rbac Placement Alb Tenants Actions.
From S2P Require Import Accounting ActionsAccounting Balance Hosts ApiEvents HostsAccounting.

(** ** Loops *)

Lemma after_for {A} (P : db -> Prop) (l : list A) (body : A -> M unit) d :
  P d -> (forall x d', x ∈ l -> P d' -> after P (body x) d') -> after P (for_each l body) d.
Proof.
  revert d; induction l as [|x l IH]; intros d HP Hb; cbn [for_each]; [done|].
  eapply after_seq; [by apply Hb; [left|]|done|]. intros _ d' HP'. apply IH; [done|]. intros y d2 Hy. apply Hb. by right.
Qed.

Lemma after_fold {A B} (P : db -> Prop) (l : list A) (body : B -> A -> M B) acc d :
  P d -> (forall b x d', x ∈ l -> P d' -> after P (body b x) d') -> after P (fold_prog body l acc) d.
Proof.
  revert acc d; induction l as [|x l IH]; intros acc d HP Hb; cbn [fold_prog]; [done|].
  eapply after_seq; [by apply Hb; [left|]|done|]. intros b d' HP'. apply IH; [done|]. intros b' y d2 Hy. apply Hb. by right.
Qed.

(** Distinct rows, each at its own key; a turn leaves the other rows as they are. *)
Lemma after_rows (P : db -> Prop) (R : item -> Prop) (body : item -> M unit) ks l d :
  NoDup ks -> Forall2 (fun k it => db_get d Tenants k = Some it /\ R it) ks l -> P d ->
  (forall k it d', P d' -> R it -> db_get d' Tenants k = Some it ->
     after (fun d'' => P d'' /\ others_same k d' d'') (body it) d') ->
  after P (for_each l body) d.
Proof.
  intros Hnd Hall HP Hb. revert d Hnd Hall HP. revert ks. induction l as [|it l IH]; intros ks d Hnd Hall HP; cbn [for_each]; [done|].
  apply Forall2_cons_inv_r in Hall as (k & ks' & [Hk HR] & Hall & ->). apply list.NoDup_cons in Hnd as [Hin Hnd].
  eapply after_seq; [by apply (Hb k)|by intros d' []|]. intros _ d' [HP' Ho]. apply (IH ks'); [done| |done].
  clear IH. induction Hall as [|j x ks' l [Hj Hx] _ IH]; [constructor|].
  apply not_elem_of_cons in Hin as [Hne Hin]. apply list.NoDup_cons in Hnd as [_ Hnd].
  constructor; [|by apply IH]. split; [|done]. by rewrite Ho.
Qed.

(** The rows of a scan, with what they satisfy. *)
Lemma rows_at_with (R : item -> Prop) d t f ks l : rows_at d t f ks l ->
  (forall k it, db_get d t k = Some it -> cond_holds f it = true -> R it) ->
  NoDup ks /\ Forall2 (fun k it => db_get d t k = Some it /\ R it) ks l.
Proof.
  intros [Hnd Hall] HR. split; [done|]. eapply list.Forall2_impl; [exact Hall|]. intros k it [Hk Hc]. split; [done|by apply (HR k)].
Qed.

(** ** Writes to one tenant *)

(** Of the tenants, only the one that [v] names is written; no host goes. *)
Definition at_tenant (v : val) (e : ev) : Prop :=
  match ev_call e with
  | UpdateItem Tenants k _ _ _ => v = VStr k
  | PutItem Tenants _ _ | DeleteItem Tenants _ | DeleteItem Hosts _ => False
  | _ => True
  end.

#[export] Instance at_tenant_of_writes v : OfWrites (at_tenant v).
Proof. intros [c r]. by destruct c. Qed.

(** What the other rows are then. *)
Definition beside (k : string) (d d' : db) : Prop :=
  others_same k d d' /\ forall i, is_Some (db_get d Hosts i) -> is_Some (db_get d' Hosts i).

(** Rows stay rows unless they are deleted. *)
Lemma row_stays c d r d' t i : dynamo_step c d r d' -> (forall k, c <> DeleteItem t k) ->
  is_Some (db_get d t i) -> is_Some (db_get d' t i).
Proof.
  intros Hs Hne Hi.
  assert (Hset : forall t' k x, is_Some (db_get (db_set d t' (<[k := x]> (db_rows d t'))) t i)).
  { intros t' k x. unfold db_get. destruct (decide (t' = t)) as [->|]; [|by rewrite db_rows_set_ne].
    rewrite db_rows_set_eq. destruct (decide (i = k)) as [->|]; [rewrite lookup_insert_eq; by eexists|by rewrite lookup_insert_ne]. }
  destruct c; cbn in Hs; try (repeat deex; by subst).
  - destruct (item_key t0 it); [destruct (cond_holds _ _)|]; destruct Hs as [_ ->]; first [apply Hset|done].
  - destruct (update_row _ _ _ _ _); [destruct Hs as [_ ->]; apply Hset|by destruct Hs as [_ ->]|done].
  - destruct Hs as [_ ->]. unfold db_get. rewrite db_rows_set_ne; [done|]. intros ->. by destruct (Hne key).
Qed.

Lemma at_tenant_step k c d r d' d0 : dynamo_step c d r d' -> at_tenant (VStr k) (Ev c r) -> beside k d0 d -> beside k d0 d'.
Proof.
  intros Hs He [Ho Hi]. split.
  - intros j Hj. rewrite <- (Ho j Hj).
    assert (Hset : forall t x y, t <> Tenants \/ x = k -> db_get (db_set d t (<[x := y]> (db_rows d t))) Tenants j = db_get d Tenants j).
    { intros t x y [Hx| ->]; unfold db_get; [by rewrite db_rows_set_ne|]. destruct (decide (t = Tenants)) as [->|];
        [by rewrite db_rows_set_eq, lookup_insert_ne|by rewrite db_rows_set_ne]. }
    destruct c; cbn in Hs, He; try (repeat deex; by subst).
    + destruct (item_key t it); [destruct (cond_holds _ _)|]; destruct Hs as [_ ->]; try done. apply Hset. left. by destruct t.
    + destruct (update_row _ _ _ _ _); [destruct Hs as [_ ->]|by destruct Hs as [_ ->]|done]. apply Hset.
      destruct t; try (by left). right. by injection He.
    + destruct Hs as [_ ->]. unfold db_get. rewrite db_rows_set_ne; [done|by destruct t].
  - intros i Hi'. eapply row_stays; [done| |by apply Hi]. by intros j ->.
Qed.

Lemma after_beside {A} k (p : M A) d : only (at_tenant (VStr k)) p -> after (beside k d) p d.
Proof. intros Hp. apply (after_events (at_tenant (VStr k)) (beside k d)); [intros; by eapply at_tenant_step|done|]. by split. Qed.

(** A part that may only write one tenant, in front. *)
Lemma only_lift_bind (F : ev -> Prop) {A B} (o : outcome A) (f : A -> M B) :
  (forall a, o = Ok a -> only F (f a)) -> only F (lift o ≫= f).
Proof. intros Hf. apply awp_bind. do_ret. destruct o as [a|e|]; [by apply Hf|apply Forall_nil..]. Qed.

Lemma only_aside_at {A} v (p : M A) : only aside_event p -> only (at_tenant v) p.
Proof.
  apply only_weaken. intros [c r] He. destruct c; try done; destruct t; try done; by destruct He.
Qed.

#[export] Instance spare_of_writes t : OfWrites (spare_event t).
Proof. intros [c r]. by destruct c. Qed.
Lemma only_aside_spare {A} (p : M A) : only aside_event p -> only (spare_event Hosts) p.
Proof. apply only_weaken. intros [c r] He. destruct c; try done; by destruct He. Qed.

Lemma as_key_str k k' : as_key (VStr k) = Ok k' -> k' = k.
Proof. cbn. destruct (bool_decide (k = "")); [done|]. by intros [= ->]. Qed.

(** An update that keeps what a live row counts for. *)
Lemma after_update_neutral `{Config} d tid it acts c rv : accounted d -> db_get d Tenants tid = Some it ->
  (cond_holds c it = true -> is_str (get it "status") "deleted" = false) ->
  (forall new, apply_actions it acts it = Ok new -> neutral it new) ->
  after accounted (do_ (UpdateItem Tenants tid acts c rv)) d.
Proof.
  intros Ha Hit Hl Hn. unfold after. do_call. intros r d'. cbn [dynamo_step]. unfold update_row. rewrite Hit.
  cbn [base_item default]. unfold id. destruct (cond_holds c it); [|by intros [-> ->]].
  destruct (apply_actions it acts it) as [new|e|] eqn:Ea; [|by intros [-> ->]|done].
  intros [-> ->]. apply (neutral_accounted _ _ it); auto.
Qed.
