(* ===== verification/Api.v ===== *)
(** * The API Lambda: [deploy/lambda/api/handler.py]

    The remaining read-only endpoints, the audit log query, and
    [lambda_handler]: the route table and the dispatch of lifecycle events. *)

From Stdlib Require Import SpecFloat.
From S2P Require Import Prelude Py Effects Aws Iso Re Config Validate Ssm AuditLog Rbac Placement Alb Tenants Actions Hosts Routing Skills.

Section Api.
Context `{Config}.

Definition env_flag (k : string) : bool := bool_decide (env_or k "false" = "true").

Definition agentcore_status : M resp :=
  let enabled := env_flag "AGENTCORE_ENABLED" in
  mret (_resp 200 (VDict [("enabled", VBool enabled);
    ("gateway_url", if enabled then VStr (env_or "AGENTCORE_GATEWAY_URL" "") else VNone)])).

Definition _AGENTCORE_BUILTIN_TOOLS : val := VList [
  VDict [("name", VStr "hello");
         ("description", VStr "Say hello — test tool for verifying AgentCore Gateway connectivity");
         ("input_schema", VDict [("type", VStr "object");
           ("properties", VDict [("name", VDict [("type", VStr "string"); ("description", VStr "Name to greet")])])])];
  VDict [("name", VStr "system_info"); ("description", VStr "Get Lambda runtime system information");
         ("input_schema", VDict [("type", VStr "object")])];
  VDict [("name", VStr "timestamp"); ("description", VStr "Get current UTC timestamp");
         ("input_schema", VDict [("type", VStr "object");
           ("properties", VDict [("format", VDict [("type", VStr "string"); ("description", VStr "iso or unix")])])])]].

Definition agentcore_tools : M resp :=
  if negb (env_flag "AGENTCORE_ENABLED") then mret (_resp 200 (VDict [("enabled", VBool false); ("tools", VList [])]))
  else mret (_resp 200 (VDict [("enabled", VBool true); ("tools", _AGENTCORE_BUILTIN_TOOLS)])).

Definition system_info : M resp :=
  az_count ← lift (py_int (v_or (VStr (env_or "MULTI_AZ_COUNT" "1")) (VStr "1")));
  mret (_resp 200 (VDict [
    ("version", VStr (env_or "PROJECT_VERSION" "dev"));
    ("region", VStr (env_or "AWS_REGION" ""));
    ("agentcore", VDict [("enabled", VBool (env_flag "AGENTCORE_ENABLED"));
                         ("gateway_url", env_or_none "AGENTCORE_GATEWAY_URL")]);
    ("metrics", VDict [("enabled", VBool (nonempty (env_or "AMP_REMOTE_WRITE_URL" "")));
                       ("amp_remote_write_url", env_or_none "AMP_REMOTE_WRITE_URL");
                       ("grafana_url", env_or_none "GRAFANA_WORKSPACE_URL")]);
    ("multi_az", VDict [("enabled", VBool (env_flag "MULTI_AZ_ENABLED")); ("az_count", VInt az_count)]);
    ("waf", VDict [("enabled", VBool (env_flag "WAF_ENABLED"))]);
    ("cognito", VDict [("enabled", VBool (env_flag "CONSOLE_AUTH_ENABLED"));
                       ("user_pool_id", env_or_none "COGNITO_USER_POOL_ID");
                       ("rbac_enabled", VBool RBAC_ENABLED)]);
    ("notifications", VDict [("enabled", VBool (nonempty NOTIFICATIONS_TOPIC_ARN));
       ("topic_arn", if nonempty NOTIFICATIONS_TOPIC_ARN then VStr NOTIFICATIONS_TOPIC_ARN else VNone)]);
    ("quotas", VDict [("enabled", VBool QUOTAS_ENABLED); ("max_vcpu_per_tenant", VInt QUOTAS_MAX_VCPU);
                      ("max_mem_mb_per_tenant", VInt QUOTAS_MAX_MEM_MB);
                      ("max_data_disk_mb", VInt QUOTAS_MAX_DATA_DISK_MB)]);
    ("host_config", VDict [("cpu_overcommit_ratio", VFloat CPU_OVERCOMMIT_RATIO);
                           ("mem_overcommit_ratio", VFloat MEM_OVERCOMMIT_RATIO);
                           ("vm_default_vcpu", VInt VM_DEFAULT_VCPU); ("vm_default_mem_mb", VInt VM_DEFAULT_MEM)])])).

(** ** The audit log *)

(** [l\[:n\]] *)
Definition py_take {A} (n : Z) (l : list A) : list A :=
  if n <? 0 then take (Z.to_nat (Z.of_nat (length l) + n)) l else take (Z.to_nat n) l.

Definition audit_limit (qp : list (string * string)) : Z :=
  match py_int (match alist_get "limit" qp with Some s => VStr s | None => VInt 50 end) with
  | Ok n => Z.min n 500
  | _ => 50
  end.

(** The range of timestamps: both bounds inclusive, or one bound, the upper one
    then being exclusive ([true]). *)
Definition audit_range (qp : list (string * string)) : option string * option string * bool :=
  let opt k := match alist_get k qp with Some s => if nonempty s then Some s else None | None => None end in
  match opt "since", opt "before" with
  | Some s, Some b => (Some s, Some b, false)
  | Some s, None => (Some s, None, false)
  | None, Some b => (None, Some b, true)
  | None, None => (None, None, false)
  end.

Definition _list_audit_log (qp : list (string * string)) : M resp :=
  if has_audit then
    let limit := audit_limit qp in
    let '(lo, hi, before) := audit_range qp in
    items ← (try_ (do_ (QueryAudit lo hi before limit)) except _ => mret []);
    mret (_resp 200 (VList (map item_val (py_take limit items))))
  else mret (_resp 200 (VList [])).

(** ** Routes *)

(** A handler that takes a path parameter. *)
Definition with_param (rq : request) (k : string) (h : string -> M resp) : M resp :=
  v ← lift (path_param rq k); h v.

Definition routes (rq : request) : list ((string * string) * M resp) := [
  (("GET", "/tenants"), list_tenants (queryParams rq));
  (("POST", "/tenants"), create_tenant (rq_body rq));
  (("GET", "/tenants/{id}"), with_param rq "id" get_tenant);
  (("DELETE", "/tenants/{id}"), with_param rq "id" (fun i => delete_tenant i (q_single (queryParams rq))));
  (("POST", "/tenants/{id}/{action}"), with_param rq "id" (fun i => with_param rq "action" (fun a =>
     tenant_action i a (rq_body rq))));
  (("GET", "/tenants/{id}/{action}"), with_param rq "id" (fun i => with_param rq "action" (tenant_get_action i)));
  (("GET", "/backups"), list_all_backups);
  (("POST", "/batch/tenants"), batch_tenants (rq_body rq));
  (("GET", "/hosts"), list_hosts);
  (("POST", "/hosts"), register_host (rq_body rq));
  (("POST", "/hosts/refresh-rootfs"), refresh_rootfs);
  (("GET", "/hosts/rootfs-version"), rootfs_version);
  (("GET", "/agentcore/status"), agentcore_status);
  (("GET", "/agentcore/tools"), agentcore_tools);
  (("GET", "/system/info"), system_info);
  (("GET", "/audit-log"), _list_audit_log (q_single (queryParams rq)));
  (("DELETE", "/hosts/{instance_id}"), with_param rq "instance_id" deregister_host);
  (("POST", "/hosts/{instance_id}/drain"), with_param rq "instance_id" drain_host);
  (("POST", "/failover/{az}"), with_param rq "az" trigger_failover);
  (("GET", "/admin/routing/status"), routing_status);
  (("POST", "/admin/routing/rebuild"), rebuild_routing (rq_body rq));
  (("POST", "/admin/routing/purge-per-tenant"), purge_per_tenant_routing (rq_body rq));
  (("GET", "/groups"), list_groups);
  (("POST", "/groups"), create_group (rq_body rq));
  (("POST", "/groups/{name}/skills"), with_param rq "name" (fun n => add_skill_to_group n (rq_body rq)));
  (("DELETE", "/groups/{name}/skills/{skill}"), with_param rq "name" (fun n => with_param rq "skill"
     (remove_skill_from_group n)));
  (("GET", "/skills/{name}"), with_param rq "name" read_skill);
  (("PUT", "/skills/{name}"), with_param rq "name" (fun n => update_skill n (rq_body rq)));
  (("DELETE", "/skills/{name}"), with_param rq "name" delete_skill)].

(** An invocation: a lifecycle event of the Auto Scaling group, with its
    detail-type, or an API request. *)
Inductive invocation_event :=
| AutoScaling (detail_type : string) (detail : lifecycle)
| ApiRequest (rq : request).

Definition lambda_handler (event : invocation_event) : M (option resp) :=
  match event with
  | AutoScaling detail_type detail =>
      if str_contains "terminate" (lower detail_type) then _ ← cleanup_terminated_host detail; mret None
      else r ← process_pending; mret (Some r)
  | ApiRequest rq => r ← dispatch rq (route_get (httpMethod rq) (resource rq) (routes rq)); mret (Some r)
  end.
End Api.
