(* ===== verification/ApiAccounting.v ===== *)
(** * The API as a whole and capacity accounting

    Every invocation of [lambda_handler] - a request for any route, with its
    role check and its audit row, or a lifecycle event of the group -, and any
    sequence of them, against the invariant of [Accounting]. *)

From S2P Require Import Prelude Py Effects Aws Iso Ddb Config Validate Ssm Capacity AuditLog Rbac Placement Alb Tenants Actions.
From S2P Require Import Hosts Routing Skills Api Accounting ActionsAccounting Balance ApiEvents HostsAccounting.

Section ApiAccounting.
Context `{Config}.

(** ** The other endpoints *)

Lemma aside_agentcore_status : only aside_event agentcore_status.
Proof. unfold agentcore_status. only_writes. Qed.
Lemma aside_agentcore_tools : only aside_event agentcore_tools.
Proof. unfold agentcore_tools. only_writes. Qed.
Lemma aside_system_info : only aside_event system_info.
Proof. unfold system_info. only_writes. Qed.
Lemma aside_list_audit qp : only aside_event (_list_audit_log qp).
Proof. unfold _list_audit_log. only_writes. Qed.

Lemma gate_aside e : gate_event e -> aside_event e.
Proof. destruct e as [c r]. destruct c; try done. by destruct t. Qed.
Lemma quiet_rbac rq : quiet (_rbac_check rq).
Proof. unfold _rbac_check, _get_user_role, _verify_and_decode. quiet. Qed.
Lemma aside_audit_write rq r : only aside_event (_audit_write rq r).
Proof. apply (only_weaken _ gate_event); [apply gate_aside|apply audit_write_events]. Qed.

(** ** Batches *)

Lemma after_elift {A B} (P : db -> Prop) (o : outcome A) (k : A -> M (resp + B)) d :
  P d -> (forall a, o = Ok a -> after P (k a) d) -> after P (x ⇐ run_lift (lift o); k x) d.
Proof.
  intros HP Hk. apply after_bind. unfold run_lift. do_bind. do_ret. destruct o as [a|e|]; [|done..]. do_ret. by apply Hk.
Qed.

Lemma keep_tag_sub items k v l : keep_tag items k v = Ok l -> forall it, it ∈ l -> it ∈ items.
Proof.
  revert l; induction items as [|x items IH]; cbn; intros l E it Hit; [injection E as <-; by apply elem_of_nil in Hit|].
  destruct (vget _ k) as [y| |]; [|done..]. cbn in E. destruct (keep_tag items k v) as [rest| |]; [|done..]. cbn in E.
  injection E as <-. destruct (is_str y v); [apply elem_of_cons in Hit as [->|Hit]; [by left|]|]; right; by apply (IH rest).
Qed.

Lemma ids_in items l : mapM (M := outcome) (fun it => req it "id") items = Ok l ->
  forall v, v ∈ l -> exists it, it ∈ items /\ it !! "id" = Some v.
Proof.
  intros E%mapM_values v Hv%list_elem_of_In. induction E as [|x y items l Ey _ IH]; [done|].
  destruct Hv as [->|Hv].
  - exists x. split; [by left|]. unfold req in Ey. destruct (x !! "id"); [by injection Ey as ->|done].
  - destruct (IH Hv) as (it & Hin & Hi). exists it. by split; [right|].
Qed.

(** A filter names live tenants. *)
Lemma resolve_filter_live flt d : accounted d ->
  wp (S := aws) dynamo_step (_resolve_filter flt) d (fun o d' _ => d' = d /\
    forall l, o = Ok l -> forall tid, VStr tid ∈ l -> live_row d tid).
Proof.
  intros Ha. unfold _resolve_filter. do_bind.
  eapply wp_mono; [apply (scan_pages_hold _ _ _ None [] d [] (remains_start d Tenants))|].
  intros [l|e|] d' _ [-> Hl]; [|done..]. specialize (Hl l eq_refl). cbn in Hl. cbn beta match.
  destruct (matching_rows d Tenants (Some live)) as (ks & Hks & _). unfold matching in Hks. rewrite <- Hl in Hks. clear Hl.
  cbn zeta. set (items := List.filter _ l).
  assert (Hitems : forall it, it ∈ items -> exists tid, it !! "id" = Some (VStr tid) /\ live_row d tid).
  { intros it Hin%list_elem_of_In. apply filter_In in Hin as [Hin Hlive%negb_true_iff]. apply list_elem_of_In in Hin.
    destruct (rows_at_in _ _ _ _ _ _ Hks Hin) as (tid & _ & Hrow & _). exists tid. split; [by apply (proj2 Ha tid it)|].
    intros it' Hit'. congruence. }
  clearbody items. do_bind. do_ret. destruct (vget_or flt "tag" (VStr "")) as [tag|e|]; [|done..]. cbn beta match.
  do_bind. do_ret. match goal with |- context [match ?o with Ok _ => _ | _ => _ end] => destruct o as [items'|e|] eqn:Et end; [|done..].
  assert (Hsub : forall it, it ∈ items' -> it ∈ items).
  { destruct (negb (truthy tag)); [by injection Et as <-|]. destruct tag as [| | | |s| |]; try done.
    destruct (split_once colon s) as [k [v|]]; [by apply (keep_tag_sub _ k v)|]. injection Et as <-. by intros it Hn%elem_of_nil. }
  do_ret. split; [done|]. intros l0 E tid Hin. destruct (ids_in _ _ E _ Hin) as (it & Hit & Hid).
  destruct (Hitems it (Hsub it Hit)) as (tid' & Hid' & Hlive). rewrite Hid in Hid'. by injection Hid' as ->.
Qed.

(** The tenants a batch names. *)
Definition batch_names (b : req_body) (tid : string) : Prop :=
  exists v l, load_body b = Ok v /\ vget v "ids" = Ok (VList l) /\ VStr tid ∈ l.
(** A batch that starts or stops tenants. *)
Definition batch_revives (b : req_body) : Prop :=
  exists v a, load_body b = Ok v /\ vget v "action" = Ok (VStr a) /\ revives a = true.

Definition batch_ok (d : db) (b : req_body) : Prop := batch_revives b -> forall tid, batch_names b tid -> live_row d tid.

Lemma batch_one_lives tids a v d : lives tids d -> (revives a = true -> forall tid, v = VStr tid -> tid ∈ tids) ->
  (a = "delete" -> tids = []) -> after (lives tids) (batch_one a v) d.
Proof.
  intros Hl Hin Hdel. unfold batch_one. apply after_catch; [|by intros].
  apply after_lift; [done|intros key Ek]. assert (v = VStr key) as ->.
  { destruct v; try done. cbn in Ek. destruct (bool_decide _); [done|by injection Ek as ->]. }
  apply after_get. destruct (db_get d Tenants key) as [it|]; [|done]. eapply (after_seq (lives tids)); [|done|].
  - destruct (bool_decide_reflect (a = "delete")) as [->|Hne].
    + rewrite (Hdel eq_refl). eapply wp_mono; [apply delete_keeps, Hl|]. intros o d' t Ha'. split; [done|]. by intros tid Hn%elem_of_nil.
    + apply action_lives; [done|]. intros Hr. by apply Hin.
  - intros r d' Hd'. destruct (400 <=? statusCode r); [|done]. apply after_lift; [done|]. by intros.
Qed.

Lemma batch_all_lives tids a l d : lives tids d -> (revives a = true -> forall tid, VStr tid ∈ l -> tid ∈ tids) ->
  (a = "delete" -> tids = []) -> after (lives tids) (batch_all a l) d.
Proof.
  intros Hl Hin Hdel. revert d Hl Hin. induction l as [|v l IH]; intros d Hl Hin; cbn [batch_all]; [done|].
  eapply after_seq; [apply batch_one_lives; [done| |done]|done|intros r d1 H1].
  - intros Hr tid ->. apply Hin; [done|by left].
  - eapply after_seq; [apply IH; [done|]|done|intros [s f] d2 H2; done]. intros Hr tid Ht. apply Hin; [done|by right].
Qed.

(** The strings among values. *)
Definition strings (l : list val) : list string := omap (fun v => match v with VStr s => Some s | _ => None end) l.
Lemma strings_in l tid : VStr tid ∈ l <-> tid ∈ strings l.
Proof.
  unfold strings. rewrite list_elem_of_omap. split; [intros Hin; by exists (VStr tid)|].
  intros (v & Hin & Hv). destruct v; try done. by injection Hv as ->.
Qed.

Lemma batch_keeps b d : accounted d -> batch_ok d b -> after accounted (batch_tenants b) d.
Proof.
  intros Ha Hok. unfold batch_tenants. destruct b as [| |m|v]; [done|..].
  1-2: apply after_finish; by apply after_elift.
  apply after_finish. apply after_elift; [done|intros ? [= <-]]. apply after_elift; [done|intros a Ea].
  unfold answer_if at 1. destruct (is_str_in a _BATCH_VALID_ACTIONS) eqn:Hv; [|by apply after_bind]. cbn [negb].
  destruct a as [| | | |a| |]; try done.
  apply after_ebind_quiet; [quiet|done|intros _]. apply after_elift; [done|intros ids Ei]. apply after_elift; [done|intros flt _].
  apply after_ebind_quiet; [quiet|done|intros _].
  assert (Hrun : forall l, (revives a = true -> forall tid, VStr tid ∈ l -> live_row d tid) ->
    after accounted ('(succeeded, failed) ⇐ run_lift (batch_all a l);
       go (_resp 200 (VDict [("succeeded", VList succeeded); ("failed", VList failed)]))) d).
  { intros l Hl. set (tids := if revives a then strings l else []).
    eapply (after_seq (lives tids)); [|by intros d' []|].
    - apply after_run_lift. apply batch_all_lives.
      + split; [done|]. intros tid Hin. unfold tids in Hin. destruct (revives a); [by apply Hl, strings_in|by apply elem_of_nil in Hin].
      + intros Hr tid Hin. unfold tids. rewrite Hr. by apply strings_in.
      + intros Hd. unfold tids. by rewrite Hd.
    - intros [r|[s f]] d' [Ha' _]; done. }
  assert (Ha' : vget v "action" = Ok (VStr a)).
  { destruct (vget v "action") as [x| |]; [|done..]. cbn in Ea. by destruct x. }
  unfold batch_targets. destruct (negb (bool_decide (ids = VNone))).
  - destruct ids as [| | | | |l|]; try by apply after_bind. destruct (_ <? _)%nat; [by apply after_bind|].
    apply after_bind. unfold go at 1. do_ret. apply Hrun. intros Hr tid Hin. apply Hok; [by exists v, a|by exists v, l].
  - destruct flt as [| | | | | |fd]; try by apply after_bind. destruct (List.filter _ (map fst fd)); [|by apply after_bind].
    apply after_bind. unfold run_lift at 1. do_bind. eapply wp_mono; [by apply resolve_filter_live|].
    intros [l|e|] d' _ [-> Hl]; [|done..]. do_ret. apply Hrun. intros _. by apply Hl.
Qed.

(** ** Requests *)

(** The request is for a route. *)
Definition is_for (rq : request) (m p : string) : Prop := httpMethod rq = m /\ resource rq = p.

(** What a request asks of the tables it finds: no action revives a deleted
    tenant, a host that is registered holds no tenant, a host that is
    deregistered is known, and the images are refreshed on rows that are at their
    keys. *)
Record admissible (d : db) (rq : request) : Prop := {
  ad_action : is_for rq "POST" "/tenants/{id}/{action}" -> forall tid a, path_param rq "id" = Ok tid ->
    path_param rq "action" = Ok a -> revives a = true -> live_row d tid;
  ad_batch : is_for rq "POST" "/batch/tenants" -> batch_ok d (rq_body rq);
  ad_register : is_for rq "POST" "/hosts" -> forall i, registers (rq_body rq) i -> unoccupied d i;
  ad_deregister : is_for rq "DELETE" "/hosts/{instance_id}" -> forall i, path_param rq "instance_id" = Ok i ->
    is_Some (db_get d Hosts i);
  ad_refresh : is_for rq "POST" "/hosts/refresh-rootfs" -> keyed d
}.

(** The accounting is kept, unless a new id was taken. *)
Definition accounts {A} (p : M A) (d : db) : Prop :=
  wp (S := aws) dynamo_step p d (fun _ d' t => accounted d' \/ collision d t).

Lemma accounts_after {A} (p : M A) d : after accounted p d -> accounts p d.
Proof. intros Hp. eapply wp_mono; [apply Hp|]. by left. Qed.
Lemma accounts_aside {A} (p : M A) d : accounted d -> only aside_event p -> accounts p d.
Proof. intros Ha Hp. by apply accounts_after, after_accounted_aside. Qed.

Lemma create_accounts b d : accounted d -> accounts (create_tenant b) d.
Proof.
  intros Ha. unfold accounts, create_tenant. destruct b as [| |m|v]; [by left|..]; (do_bind; do_ret; cbn [load_body]; try (by left)).
  by apply create_body_keeps.
Qed.

Lemma with_param_after rq k h (P : db -> Prop) d : P d -> (forall v, path_param rq k = Ok v -> after P (h v) d) ->
  after P (with_param rq k h) d.
Proof. intros HP Hh. by apply after_lift. Qed.
Lemma with_param_aside rq k h : (forall v, only aside_event (h v)) -> only aside_event (with_param rq k h).
Proof. intros Hh. unfold with_param. apply only_bind; [only_writes|done]. Qed.

#[local] Hint Resolve aside_list_tenants aside_get_tenant aside_get_action aside_backups aside_list_hosts aside_rootfs_version
  aside_trigger aside_routing_status aside_rebuild aside_purge aside_list_groups aside_create_group aside_add_skill
  aside_remove_skill aside_read_skill aside_update_skill aside_delete_skill aside_agentcore_status aside_agentcore_tools
  aside_system_info aside_list_audit with_param_aside : writes.

Lemma routes_account rq d : accounted d -> admissible d rq ->
  List.Forall (fun r : (string * string) * M resp => is_for rq r.1.1 r.1.2 -> accounts r.2 d) (routes rq).
Proof.
  intros Ha [A1 A2 A3 A4 A5]. unfold routes.
  repeat (apply List.Forall_cons; [first
    [ intros _; apply accounts_aside; [done|]; cbn [snd]; solve [auto 4 with writes nocore]
    | intros Hfor; cbn [fst snd] in Hfor |- * ]|]); [..|apply List.Forall_nil].
  - by apply create_accounts.
  - apply accounts_after, with_param_after; [done|intros tid _]. by apply delete_keeps.
  - apply accounts_after, with_param_after; [done|intros tid Ht]. apply with_param_after; [done|intros a Hact].
    apply action_keeps; [done|]. by apply (A1 Hfor tid a).
  - apply accounts_after, batch_keeps; auto.
  - apply accounts_after, register_keeps; auto.
  - apply accounts_after, refresh_keeps; auto.
  - apply accounts_after, with_param_after; [done|intros i Hi]. apply deregister_keeps; auto.
  - apply accounts_after, with_param_after; [done|intros i Hi]. by apply drain_keeps.
Qed.

Lemma route_get_Forall {A} (P : string -> string -> A -> Prop) m p (l : list ((string * string) * A)) x :
  List.Forall (fun r => m = r.1.1 /\ p = r.1.2 -> P r.1.1 r.1.2 r.2) l -> route_get m p l = Some x -> P m p x.
Proof.
  induction l as [|[[m' p'] y] l IH]; [done|]. intros Hall. inversion Hall as [|? ? Hy Hl]; subst. cbn.
  destruct (bool_decide_reflect (m' = m)) as [->|]; [destruct (bool_decide_reflect (p' = p)) as [->|]|]; cbn; try by apply IH.
  intros [= <-]. by apply Hy.
Qed.

Lemma collision_after d t t' : collision d t -> collision d (t' ++ t).
Proof.
  intros (name & text & digest & Hin & Hd). exists name, text, digest. split; [|done]. apply elem_of_app. by right.
Qed.

(** What may happen in front of a program and behind it. *)
Lemma accounts_before {A B} (p : M A) (f : A -> M B) d : accounted d -> quiet p -> (forall a, accounts (f a) d) -> accounts (p ≫= f) d.
Proof.
  intros Ha Hp Hf. unfold accounts. do_bind. eapply wp_mono; [apply (wp_no_write _ _ (fun _ _ => True)); eapply awp_mono; [apply Hp|auto]|].
  intros [a|e|] d' t [_ ->]; [|by left..]. eapply wp_mono; [apply Hf|]. intros o d' t' [Hd|Hd]; [by left|right; by apply collision_after].
Qed.

Lemma accounts_then {A B} (p : M A) (f : A -> M B) d : accounts p d -> (forall a, only aside_event (f a)) -> accounts (p ≫= f) d.
Proof.
  intros Hp Hf. unfold accounts. do_bind. eapply wp_mono; [apply Hp|]. intros [a|e|] d' t Hd; [|done..].
  destruct Hd as [Hd|Hd].
  - eapply wp_mono; [apply (after_accounted_aside (f a) d' (Hf a) Hd)|]. intros o d2 t' Hd2. by left.
  - eapply wp_mono; [apply wp_trivial|]. intros o d2 t' _. right. by apply collision_app.
Qed.

Lemma dispatch_accounts rq h d : accounted d -> accounts h d -> accounts (dispatch rq (Some h)) d.
Proof.
  intros Ha Hh. unfold dispatch.
  assert (Hw : forall r, only aside_event (if is_mutating (httpMethod rq) then _audit_write rq r else mret tt))
    by (intros r; destruct (is_mutating _); [apply aside_audit_write|only_writes]).
  apply accounts_before; [done|apply quiet_rbac|]. intros [r|].
  - apply accounts_aside; [done|]. apply only_bind; [apply Hw|intros ?; only_writes].
  - unfold accounts. do_catch.
    assert (Hin : accounts (result ← h; _ ← (if is_mutating (httpMethod rq) then _audit_write rq result else mret tt); mret result) d)
      by (apply accounts_then; [done|]; intros r; apply only_bind; [apply Hw|intros ?; only_writes]).
    eapply wp_mono; [apply Hin|]. intros [r|e|] d' t Hd; [done|..|done]. do_ret. done.
Qed.

Lemma request_accounts rq d : accounted d -> admissible d rq ->
  accounts (dispatch rq (route_get (httpMethod rq) (resource rq) (routes rq))) d.
Proof.
  intros Ha Had. destruct (route_get _ _ _) as [h|] eqn:E; [|by left].
  apply dispatch_accounts; [done|]. apply (route_get_Forall (fun _ _ h => accounts h d) _ _ _ _ (routes_account rq d Ha Had) E).
Qed.

(** ** Order of the queue *)

#[local] Hint Resolve orderly_aside orderly_create orderly_delete orderly_action orderly_batch orderly_register orderly_deregister
  orderly_drain orderly_refresh orderly_pending orderly_cleanup : writes.

Lemma with_param_orderly rq k h : (forall v, only orderly (h v)) -> only orderly (with_param rq k h).
Proof. intros Hh. unfold with_param. apply only_bind; [only_writes|done]. Qed.
#[local] Hint Resolve with_param_orderly : writes.

Lemma routes_orderly rq : List.Forall (fun r : (string * string) * M resp => only orderly r.2) (routes rq).
Proof. unfold routes. repeat (apply List.Forall_cons; [cbn [snd]; solve [auto 5 with writes nocore]|]). apply List.Forall_nil. Qed.

Lemma handler_orderly event : only orderly (lambda_handler event).
Proof.
  destruct event as [ty dt|rq]; cbn [lambda_handler].
  - destruct (str_contains _ _); only_writes.
  - apply only_bind; [|intros ?; only_writes]. destruct (route_get _ _ _) as [h|] eqn:E; [|only_writes]. unfold dispatch.
    assert (Hw : forall r, only orderly (if is_mutating (httpMethod rq) then _audit_write rq r else mret tt))
      by (intros r; destruct (is_mutating _); [apply orderly_aside, aside_audit_write|only_writes]).
    assert (Hh : only orderly h).
    { refine (route_get_Forall (fun _ _ h => only orderly h) _ _ _ _ _ E).
      eapply List.Forall_impl; [|apply routes_orderly]. intros r Hr _. exact Hr. }
    apply only_bind; [apply only_quiet; [apply _|apply quiet_rbac]|]. intros [r|].
    + apply only_bind; [apply Hw|intros ?; only_writes].
    + apply only_catch; [|intros ?; only_writes]. apply only_bind; [done|intros r]. apply only_bind; [apply Hw|intros ?; only_writes].
Qed.

(** ** Histories *)

Definition terminates (event : invocation_event) : bool :=
  match event with AutoScaling ty _ => str_contains "terminate" (lower ty) | ApiRequest _ => false end.

(** An invocation that finds what it needs: a request that is admissible, whose
    new id, if any, is free; a clean-up that ends. *)
Definition in_order (d : db) (event : invocation_event) (o : outcome (option resp)) (t : list ev) : Prop :=
  (forall rq, event = ApiRequest rq -> admissible d rq) /\ ~ collision d t /\ (terminates event = true -> o = Ok None).

Lemma handler_accounts event d : accounted d -> waiting d ->
  (forall rq, event = ApiRequest rq -> admissible d rq) ->
  wp (S := aws) dynamo_step (lambda_handler event) d (fun o d' t =>
    (accounted d' \/ collision d t \/ (terminates event = true /\ o <> Ok None)) /\ waiting d').
Proof.
  intros Ha Hw Had. apply wp_and; [|by apply (after_events orderly waiting); [intros; eapply orderly_step|apply handler_orderly|]].
  destruct event as [ty dt|rq]; cbn [lambda_handler terminates].
  - destruct (str_contains _ _).
    + do_bind. eapply wp_mono; [by apply cleanup_keeps|]. intros [[]|e|] d' t [[Hd _] _]; [|by right; right..].
      do_ret. left. by apply Hd.
    + eapply wp_mono; [eapply after_seq; [by apply pending_keeps|done|]|].
      * intros r d' Ha'. by apply after_quiet; [quiet|].
      * intros o d' t Ha'. by left.
  - eapply wp_mono; [apply (accounts_then (dispatch rq (route_get (httpMethod rq) (resource rq) (routes rq)))
      (fun r => mret (Some r)) d); [by apply request_accounts; [|apply Had]|intros ?; only_writes]|].
    intros o d' t [Hd|Hd]; [by left|by right; left].
Qed.

(** The states that sequences of invocations lead to. *)
Inductive history {W} (E : env aws W) (view : W -> db) (w0 : W) : W -> Prop :=
| history_start : history E view w0 w0
| history_next w event :
    history E view w0 w ->
    in_order (view w) event (run E (lambda_handler event) w).1.1 (run E (lambda_handler event) w).2 ->
    history E view w0 (run E (lambda_handler event) w).1.2.

(** C2: Along every sequence of completed invocations of the API Lambda that are in
    order - requests for any of its routes, with their role checks and audit
    rows, launch events that place the waiting tenants, termination events that
    clean a host up - the counters of every host stay the sums over its live
    tenants, and no waiting tenant has a host; whatever the services other than
    the tables answer, and on every path, errors included. An invocation is in
    order when it revives no deleted tenant, registers no host that holds tenants, deregisters a known host,
    refreshes the images on hosts that stand at their keys, draws a free id,
    and, for a clean-up, ends: the code checks none of this. *)
Theorem api_history_accounted {W} (E : env aws W) (view : W -> db) (w w' : W) :
  obeys (S := aws) dynamo_step view E -> history E view w w' ->
  accounted (view w) -> waiting (view w) -> accounted (view w') /\ waiting (view w').
Proof.
  intros HE Hh Ha Hw. induction Hh as [|w1 event _ [Ha1 Hw1] (Had & Hcol & Hend)]; [done|].
  pose proof (run_wp _ view E _ w1 _ HE (handler_accounts event (view w1) Ha1 Hw1 Had)) as R.
  destruct (run E _ w1) as [[o w2] t]. cbn [fst snd] in *. destruct R as [[R|[R|[R1 R2]]] R']; [done|done|].
  by destruct R2; apply Hend.
Qed.
End ApiAccounting.

(** ** Witness *)

(** A host with one tenant, and a tenant that waits. *)
Definition waiting_tenant : item := list_to_map [
  ("id", VStr "db-9f9f"); ("status", VStr "pending"); ("vcpu", VInt 1); ("mem_mb", VInt 2048);
  ("created_at", VStr "2026-01-01T00:00:00Z")].
Definition queue_db : db := Db (fun t => match t with
  | Hosts => {["i-1" := acc_host]}
  | Tenants => <["db-9f9f" := waiting_tenant]> {["web-1a2b" := acc_tenant]} | _ => ∅ end).

(** A request of an administrator. *)
Definition api_request (m p : string) (params : list (string * string)) (b : req_body) : invocation_event :=
  ApiRequest (Rbac.Request m p params (Validate.Query [] []) [("Authorization", "Bearer t")] b None).
Definition admin_service (c : aws_op) (tick : nat) : aws_reply c + exn :=
  match c as c return aws_reply c + exn with
  | JwksSigningKey _ _ => inl "key"
  | JwtDecode _ _ _ => inl (VDict [("cognito:groups", VList [VStr "admin"])])
  | c => sample_service c tick
  end.

(** Stop the tenant, launch the one that waits, delete the first, and lose the
    host. *)
Definition busy_day : list invocation_event := [
  api_request "POST" "/tenants/{id}/{action}" [("id", "web-1a2b"); ("action", "stop")] NoBody;
  AutoScaling "EC2 Instance-launch Lifecycle Action" (Lifecycle "i-1" "hook" "asg");
  api_request "DELETE" "/tenants/{id}" [("id", "web-1a2b")] NoBody;
  AutoScaling "EC2 Instance-terminate Lifecycle Action" (Lifecycle "i-1" "hook" "asg")].

Definition day_step (w : mem) (event : invocation_event) : mem :=
  (run (mem_env 1 admin_service) (lambda_handler (H := sample_config) event) w).1.2.
Definition day_end : mem := fold_left day_step busy_day (Mem queue_db 0).

Lemma no_digest d t :
  forallb (fun e : ev => match ev_call e with Sha256Hex _ => false | _ => true end) t = true -> ~ collision d t.
Proof.
  rewrite forallb_forall. intros Hf (name & text & digest & Hin & _). by specialize (Hf _ (proj1 (list_elem_of_In _ _) Hin)).
Qed.

Lemma live_row_check d tid :
  match db_get d Tenants tid with Some it => negb (is_str (get it "status") "deleted") | None => true end = true -> live_row d tid.
Proof. intros Hc it Hit. rewrite Hit in Hc. by apply negb_true_iff. Qed.

Lemma queue_db_accounted : accounted queue_db.
Proof.
  split.
  - intros i r Hr Hreal. unfold db_get in Hr. cbn [queue_db db_rows] in Hr.
    apply lookup_singleton_Some in Hr as [<- <-]. cbn zeta. split; [vm_decide|]. exists 2. split; vm_decide.
  - intros tid it Hit. unfold db_get in Hit. cbn [queue_db db_rows] in Hit.
    apply lookup_insert_Some in Hit as [[<- <-]|[_ Hit]]; [|apply lookup_singleton_Some in Hit as [<- <-]];
      (split; [vm_decide|]; split; eexists; vm_compute; reflexivity).
Qed.

Lemma queue_db_waiting : waiting queue_db.
Proof.
  intros tid it Hit Hp. unfold db_get in Hit. cbn [queue_db db_rows] in Hit.
  apply lookup_insert_Some in Hit as [[<- <-]|[_ Hit]]; [vm_decide|].
  apply lookup_singleton_Some in Hit as [<- <-]. by vm_compute in Hp.
Qed.

(** An invocation of the day is in order. *)
Ltac day_in_order :=
  split; [|split; [apply no_digest; vm_compute; reflexivity|]];
  [first [intros rq E; discriminate E | intros rq [= <-]; split; try (intros [E1 E2]; first [discriminate E1 | discriminate E2])]
  |let E := fresh in intros E; first [discriminate E | vm_compute in E; discriminate E | vm_compute; reflexivity]].

Lemma api_history_accounted_witness :
  accounted (mem_db day_end) /\ db_get (mem_db day_end) Hosts "i-1" = None.
Proof.
  split; [|by vm_compute].
  apply (api_history_accounted (H := sample_config) (mem_env 1 admin_service) mem_db (Mem queue_db 0) day_end).
  - apply mem_env_obeys.
  - change day_end with (day_step (day_step (day_step (day_step (Mem queue_db 0) (nth 0 busy_day (AutoScaling "" (Lifecycle "" "" ""))))
      (nth 1 busy_day (AutoScaling "" (Lifecycle "" "" "")))) (nth 2 busy_day (AutoScaling "" (Lifecycle "" "" ""))))
      (nth 3 busy_day (AutoScaling "" (Lifecycle "" "" "")))).
    cbn [nth busy_day]. unfold day_step. repeat apply history_next; [apply history_start|day_in_order..].
    intros _ tid a [= <-] _ _. apply live_row_check. by vm_compute.
  - apply queue_db_accounted.
  - apply queue_db_waiting.
Defined.
