(* ===== verification/Health.v ===== *)
(** * Health check: configuration, audit, host health and recovery gates

    [deploy/lambda/health_check/handler.py]: the parts shared by the migration
    sweep and by the AZ failover.  A host's timestamps are compared in
    microseconds: the code divides them into binary64 seconds, which orders
    every interval shorter than a century in the same way.  The loops that poll
    until a deadline take [wait_fuel] rounds at most; [verify_dashboard_terminates]
    shows how many rounds a deadline allows. *)

From S2P Require Import Prelude Py Effects Aws Iso Config Validate Ssm Capacity AuditLog Placement Alb Tenants Hosts.

(** The module constants of the health check; those it shares with the API are
    the fields of [Config]. *)
Class HcConfig := {
  hc_config :: Config;
  wait_fuel : nat;
  SNS_TOPIC_ARN : string;
  AZ_FAILOVER_ENABLED : bool;
  AZ_UNHEALTHY_THRESHOLD_MINUTES : Z;
  AZ_COOLDOWN_MINUTES : Z;
  ASSETS_BUCKET : string;
  PUBLIC_BASE_URL : string;
  VERIFY_CONSECUTIVE_OK : Z;
  FAILOVER_QUEUE_URL : string;
  FAILOVER_WATCHDOG_MINUTES : Z;
  MIGRATION_WATCHDOG_MINUTES : Z
}.

Definition STALE_SECONDS : Z := 120.
Definition RESTART_COOLDOWN_SECONDS : Z := 600.

(** [n] seconds in microseconds. *)
Definition seconds (n : Z) : Z := n * 1000000.

Section Health.
Context `{HcConfig}.

(** [int(row.get(k) or d)] *)
Definition int_or (it : item) (k : string) (d : Z) : outcome Z := py_int (v_or (get it k) (VInt d)).

(** [row\["id"\]], the partition key of a tenant. *)
Definition tenant_id_of (t : item) : outcome string := v ← req t "id"; as_key v.

(** ** Audit and notification *)

Definition _HC_EVENT_MAP : list (string * string) := [
  ("MIGRATION_COMPLETED", "vm.migrated"); ("MIGRATION_FAILED", "vm.migrate_failed");
  ("AZ_FAILOVER_TRIGGERED", "az.failover_triggered"); ("AZ_FAILOVER_COMPLETED", "az.failover_completed");
  ("AZ_FAILOVER_NO_TENANTS_AFFECTED", "az.failover_noop"); ("AZ_FAILOVER_NO_TARGET", "az.failover_no_target");
  ("AZ_FAILOVER_PARTIAL", "az.failover_partial"); ("AZ_FAILOVER_SKIPPED_COOLDOWN", "az.failover_cooldown");
  ("HOST_TERMINATED", "host.terminated"); ("HOST_REAPED_TENANTS", "host.tenants_reaped")].

(** The object, the resource and the actor of an audit detail. *)
Definition hc_object (detail : list (string * val)) : string * val :=
  let field k := default VNone (alist_get k detail) in
  let host_id := v_or (field "host_id") (field "instance_id") in
  if truthy (field "tenant_id") then ("tenant:" +:+ str_of (field "tenant_id"), field "tenant_id")
  else if truthy host_id then ("host:" +:+ str_of host_id, host_id)
  else if truthy (field "az") then ("az:" +:+ str_of (field "az"), field "az")
  else ("system", VStr "").

Definition hc_source (operation : string) (detail : list (string * val)) : val :=
  let field k := default VNone (alist_get k detail) in
  v_or (field "source")
    (VStr (if truthy (field "az") && str_contains "FAILOVER" operation then "az-failover" else "health-check")).

Definition _emit_audit (operation : string) (detail : list (string * val)) : M unit :=
  let '(obj, rid) := hc_object detail in
  put_audit_row (AuditArgs (default (lower operation) (alist_get operation _HC_EVENT_MAP)) obj rid
    (VStr ("system:" +:+ str_of (hc_source operation detail))) "system" (Some operation) (VInt 200)
    (Some (VDict detail)) AUDIT_TTL_DAYS (Some (VStr "system:health-check-lambda")) None).

(** An outage: its zone, the hosts in it. *)
Record outage := Outage { o_az : val; o_host_ids : list val }.
Definition host_count (o : outage) : Z := Z.of_nat (length (o_host_ids o)).

Definition _emit_sns_notification (az : val) (o : outage) (recovered_count : Z) : M unit :=
  if negb (nonempty SNS_TOPIC_ARN) then mret tt
  else
    try_ (ts ← _now;
          do_ (SnsPublish SNS_TOPIC_ARN ("[OpenClaw] AZ failover triggered: " +:+ str_of az)
                 (VDict [("event", VStr "az_failover"); ("az", az); ("host_ids", VList (o_host_ids o));
                         ("host_count", VInt (host_count o)); ("tenants_recovered", VInt recovered_count);
                         ("timestamp", VStr ts)])))
    except _ => mret tt.

(** ** Commands *)

Definition _poll_ssm (command_id : val) (instance_id : val) : M (bool * bool) :=
  match command_id, instance_id with
  | VStr c, VStr i => ssm_poll c i
  | _, _ => mret (false, false)
  end.
Definition _ssm_send_hc (instance_id : val) (command : string) (timeout : Z) : M (option string) :=
  try_ (_ssm_send_val instance_id command timeout) except _ => mret None.
Definition _wait_ssm_done (command_id instance_id : string) (timeout_sec poll_sec : Z)
    : M (bool * option string) :=
  ssm_wait wait_fuel command_id instance_id timeout_sec poll_sec.

(** ** Health of hosts *)

Definition is_host_unhealthy (host : item) (now threshold_minutes : Z) : bool :=
  if bool_decide (host = ∅) then true
  else if is_str (get host "status") "deleted" then true
  else
    let last := v_or (get host "last_health_check") (v_or (get host "last_seen") (VStr "")) in
    if negb (truthy last) then true
    else match elapsed_us now last with
         | Ok us => seconds (threshold_minutes * 60) <=? us
         | _ => true
         end.

Fixpoint add_to_group (k : val) (h : item) (l : list (val * list item)) : list (val * list item) :=
  match l with
  | [] => [(k, [h])]
  | (j, hs) :: l' => if bool_decide (j = k) then (j, hs ++ [h]) :: l' else (j, hs) :: add_to_group k h l'
  end.

Fixpoint group_from (hosts : list item) (out : list (val * list item)) : outcome (list (val * list item)) :=
  match hosts with
  | [] => Ok out
  | h :: hs =>
      let az := get h "az" in
      if negb (truthy az) then group_from hs out
      else if hashable az then group_from hs (add_to_group az h out)
      else type_error "unhashable type"
  end.
Definition group_hosts_by_az (hosts : list item) : outcome (list (val * list item)) := group_from hosts [].

Fixpoint outages_of (groups : list (val * list item)) (now threshold_minutes : Z) : outcome (list outage) :=
  match groups with
  | [] => Ok []
  | (az, hs) :: gs =>
      if forallb (fun h => is_host_unhealthy h now threshold_minutes) hs && negb (bool_decide (hs = [])) then
        ids ← mapM (M := outcome) (fun h => req h "instance_id") hs;
        rest ← outages_of gs now threshold_minutes;
        Ok (Outage az ids :: rest)
      else outages_of gs now threshold_minutes
  end.
Definition detect_unhealthy_azs (hosts : list item) (now threshold_minutes : Z) : outcome (list outage) :=
  groups ← group_hosts_by_az hosts; outages_of groups now threshold_minutes.

Definition eligible (now threshold_minutes : Z) (exclude_azs : list val) (h : item) : bool :=
  negb (bool_decide (get_or h "az" (VStr "") ∈ exclude_azs)) &&
  negb (is_host_unhealthy h now threshold_minutes) && negb (is_str (get h "status") "deleted").

Definition pick_target_host (hosts : list item) (now threshold_minutes : Z) (exclude_azs : list val)
    (required_vcpu required_mem : Z) : outcome (option item) :=
  ranked ← rank_hosts (List.filter (eligible now threshold_minutes exclude_azs) hosts)
             required_vcpu required_mem CPU_OVERCOMMIT_RATIO MEM_OVERCOMMIT_RATIO MAX_VMS_PER_HOST [];
  Ok (head ranked).

Definition should_skip_az_for_cooldown (az_state az : val) (now cooldown_minutes : Z) : outcome bool :=
  last ← match az with VStr k => vget az_state k | _ => vget az_state "" ≫= fun _ => Ok VNone end;
  if negb (truthy last) then Ok false
  else match elapsed_us now last with
       | Ok us => Ok (us <? seconds (cooldown_minutes * 60))
       | _ => Ok false
       end.
End Health.
