(* ===== verification/Gates.v ===== *)
(** * Recovery gates: probes and rerouting before a tenant changes host

    [deploy/lambda/health_check/handler.py]: a tenant is only declared to run on
    a new host after its VM answered on the host, its rule was pointed at the
    host and its public URL answered [VERIFY_CONSECUTIVE_OK] times in a row. *)

From S2P Require Import Prelude Py Effects Aws Iso Config Validate Ssm Capacity AuditLog Placement Alb Tenants Hosts Health.

Section Gates.
Context `{HcConfig}.

Definition _find_latest_backup_key (tenant_id : string) : M (option string) :=
  if negb (nonempty ASSETS_BUCKET) || negb (nonempty tenant_id) then mret None
  else
    try_ (objs ← do_ (ListObjects ASSETS_BUCKET ("backups/" +:+ tenant_id +:+ "/"));
          mret (so_key <$> latest objs))
    except _ => mret None.

(** ** Probes *)

Definition probe_cmd (tenant_id : string) : string :=
  let q := String dquote "" in
  "pgrep -f 'api-sock /data/firecracker-vms/" +:+ tenant_id +:+ "/fc.sock' " +:+
  ">/dev/null || (echo NOT_RUNNING_NO_PROCESS; exit 1); " +:+
  "test -f /etc/nginx/conf.d/tenants/" +:+ tenant_id +:+ ".conf " +:+
  "|| (echo NOT_RUNNING_NO_NGINX_CONF; exit 1); " +:+
  "code=$(curl -s -o /dev/null -w '%{http_code}' --max-time 5 " +:+
  "http://127.0.0.1/vm/" +:+ tenant_id +:+ "/); " +:+
  "if [ " +:+ q +:+ "$code" +:+ q +:+ " = " +:+ q +:+ "000" +:+ q +:+ " ] || [ " +:+ q +:+ "$code" +:+ q +:+
  " -ge 500 ] 2>/dev/null; then " +:+
  "echo NOT_RUNNING_HTTP_$code; exit 1; " +:+
  "else echo VERIFIED_HTTP_$code; fi".

(** One probe of a VM on its host. *)
Definition probe_vm (host_id tenant_id : string) : M bool :=
  cmd_id ← do_ (SendCommand [host_id] [probe_cmd tenant_id] (Some 15) None);
  '(ok, _) ← _wait_ssm_done cmd_id host_id 20 2;
  if ok : bool then
    inv ← do_ (GetCommandInvocation cmd_id host_id);
    mret (str_contains "VERIFIED" (default "" (inv_stdout inv)))
  else mret false.

Fixpoint verify_vm_loop (fuel : nat) (host_id tenant_id : string) (deadline poll_sec : Z) : M bool :=
  match fuel with
  | O => no_fuel
  | S fuel' =>
      t ← do_ TimeTime;
      if t <? deadline then
        ok ← (try_ (probe_vm host_id tenant_id) except _ => mret false);
        if ok : bool then mret true
        else _ ← do_ (Sleep poll_sec); verify_vm_loop fuel' host_id tenant_id deadline poll_sec
      else mret false
  end.

Definition _verify_vm_actually_running (host_id tenant_id : string) (timeout_sec poll_sec : Z) : M bool :=
  t ← do_ TimeTime;
  verify_vm_loop wait_fuel host_id tenant_id (t + seconds timeout_sec) poll_sec.

Definition _reachable_status (status : Z) : bool :=
  ((200 <=? status) && (status <? 400)) || (status =? 401) || (status =? 403).

(** One request of the public URL. *)
Definition probe_url (url : string) : M bool :=
  r ← attempt (do_ (HttpGet url));
  mret (match r with
        | inl (HttpResponse status) => _reachable_status status
        | inl (HttpError code) => _reachable_status code
        | inr _ => false
        end).

Fixpoint dashboard_loop (fuel : nat) (url : string) (deadline poll_sec needed streak : Z) : M bool :=
  match fuel with
  | O => no_fuel
  | S fuel' =>
      t ← do_ TimeTime;
      if t <? deadline then
        ok ← probe_url url;
        if (ok : bool) && (needed <=? streak + 1) then mret true
        else
          _ ← do_ (Sleep poll_sec);
          dashboard_loop fuel' url deadline poll_sec needed (if ok : bool then streak + 1 else 0)
      else mret false
  end.

Definition dashboard_url (tenant_id public_base_url : string) : string :=
  rstrip_char "/" public_base_url +:+ "/vm/" +:+ tenant_id +:+ "/".

Definition probes_needed : Z := Z.max 1 VERIFY_CONSECUTIVE_OK.

Definition _verify_dashboard_reachable_via_alb (tenant_id public_base_url : string)
    (timeout_sec poll_sec : Z) : M bool :=
  if negb (nonempty public_base_url) then mret false
  else
    t ← do_ TimeTime;
    dashboard_loop wait_fuel (dashboard_url tenant_id public_base_url) (t + seconds timeout_sec)
      poll_sec probes_needed 0.

(** ** Rerouting *)

(** The target group of a host, created in the configured VPC or in that of an
    existing group. *)
Definition host_tg (target_host_id : string) : M string :=
  let tg_name := "oc-" +:+ str_last 8 target_host_id in
  r ← attempt (tgs ← do_ (DescribeTargetGroups (Some [tg_name])); lift (first_tg tgs));
  match r with
  | inl arn => mret arn
  | inr _ =>
      vpc_id ← (if nonempty VPC_ID then mret VPC_ID
                else
                  existing ← do_ (DescribeTargetGroups None);
                  match existing with
                  | [] => lift (runtime_error ("cannot create target group: VPC_ID env not set and no " +:+
                                               "existing target group to clone VPC from"))
                  | g :: _ => mret (tg_vpc g)
                  end);
      tgs ← do_ (CreateTargetGroup tg_name vpc_id);
      lift (first_tg tgs)
  end.

Definition no_free_priority_msg (used : list Z) : string :=
  "no free ALB listener rule priority (" +:+ pretty PER_TENANT_PRIORITY_MIN +:+ "-" +:+
  pretty PER_TENANT_PRIORITY_MAX +:+ " exhausted, " +:+ pretty (Z.of_nat (length (remove_dups used))) +:+
  " in use). Per-tenant routing is capped by the ALB rules-per-load-balancer quota " +:+
  "(default 100); host-tg uses one shared rule for all tenants. See docs/RUNBOOK.md §2.1.".

(** The creation of a missing rule: after the last attempt it gives up without
    an error. *)
Fixpoint create_attempts (n : nat) (tenant_id tg_arn : string) : M unit :=
  match n with
  | O => mret tt
  | S n' =>
      live ← do_ (DescribeRules ALB_LISTENER_ARN);
      if mentions tenant_id live then mret tt
      else
        used ← lift (used_priorities live);
        match free_priorities used with
        | [] => lift (runtime_error (no_free_priority_msg used))
        | free =>
            r ← attempt (p ← choice free;
                         do_ (CreateRule ALB_LISTENER_ARN p (tenant_conditions tenant_id) tg_arn));
            match r with
            | inl _ => mret tt
            | inr e => if is_code e "PriorityInUseException" then create_attempts n' tenant_id tg_arn
                       else raise e
            end
        end
  end.

Definition _repoint_alb_rule (tenant_id target_host_id : string) (target_private_ip : val) : M unit :=
  if host_tg_mode then mret tt
  else if negb (nonempty ALB_LISTENER_ARN) then mret tt
  else
    tg_arn ← host_tg target_host_id;
    _ ← (match target_private_ip with
         | VStr ip => try_ (do_ (RegisterTargets tg_arn ip)) except _ => mret tt
         | _ => mret tt
         end);
    rules ← do_ (DescribeRules ALB_LISTENER_ARN);
    match path_rule tenant_id rules with
    | Some r => _ ← do_ (ModifyRule (r_arn r) tg_arn); mret tt
    | None => create_attempts 6 tenant_id tg_arn
    end.

(** Drop the target's stale peer configuration of a tenant, best effort. *)
Definition drop_peer_conf (target_host_id : val) (tenant_id : string) : M unit :=
  _ ← _ssm_send_hc target_host_id
        ("rm -f /etc/nginx/conf.d/tenant-peers/" +:+ tenant_id +:+ ".conf && nginx -s reload") 15;
  mret tt.

(** The time the public URL is given: under host-tg routing the peers converge
    within a synchronisation interval. *)
Definition verify_timeout : Z := if host_tg_mode then 90 else 30.
End Gates.

(** ** The public probe: [n] reachable answers in a row *)

(** The verdict of an event that is a request of [url]. *)
Definition probe_verdict (url : string) (e : ev) : option bool :=
  match e with
  | Ev (HttpGet u) r =>
      if bool_decide (u = url) then
        Some (match r with
              | inl (HttpResponse status) => _reachable_status status
              | inl (HttpError code) => _reachable_status code
              | inr _ => false
              end)
      else None
  | _ => None
  end.
Definition verdicts (url : string) (t : list ev) : list bool := omap (M := list) (probe_verdict url) t.

(** The last [n] requests of [url] were all answered by a backend that serves. *)
Definition reachable_for (url : string) (n : Z) (t : list ev) : Prop :=
  exists l1 l2, verdicts url t = l1 ++ l2 /\ Forall (eq true) l2 /\ n <= Z.of_nat (length l2).

Lemma verdicts_app url t t' : verdicts url (t ++ t') = verdicts url t ++ verdicts url t'.
Proof. apply omap_app. Qed.

Lemma reachable_for_app url n t t' :
  reachable_for url n t -> verdicts url t' = [] -> reachable_for url n (t ++ t').
Proof. intros (l1 & l2 & E & H2) Ht. exists l1, l2. by rewrite verdicts_app, Ht, app_nil_r. Qed.

Lemma reachable_for_after url n t t' : reachable_for url n t' -> reachable_for url n (t ++ t').
Proof.
  intros (l1 & l2 & E & H2). exists (verdicts url t ++ l1), l2. by rewrite verdicts_app, E, app_assoc.
Qed.

(** A run of answers that completes a streak already begun. *)
Definition completes (needed streak : Z) (l : list bool) : Prop :=
  exists l1 l2, l = l1 ++ l2 /\ Forall (eq true) l2 /\
    (needed <= Z.of_nat (length l2) \/ l1 = [] /\ needed <= streak + Z.of_nat (length l2)).

Lemma completes_true needed streak l : completes needed (streak + 1) l -> completes needed streak (true :: l).
Proof.
  intros (l1 & l2 & -> & H2 & [Hn|[-> Hn]]).
  - exists (true :: l1), l2. auto.
  - exists [], (true :: l2). cbn. split_and!; [done|by constructor|]. right. split; [done|lia].
Qed.
Lemma completes_false needed streak l : completes needed 0 l -> completes needed streak (false :: l).
Proof.
  intros (l1 & l2 & -> & H2 & [Hn|[-> Hn]]); eexists (false :: _), l2; (split_and!; [done|done|left; lia]).
Qed.

Section Probes.
Context `{HcConfig}.

Lemma probe_url_spec url :
  awp (probe_url url) (fun o t => exists b, o = Ok b /\ verdicts url t = [b]).
Proof.
  unfold probe_url. do_bind. do_attempt. do_call. intros r. destruct r as [[s|c]|e]; do_ret;
    (eexists; split; [done|]); unfold verdicts; cbn; by rewrite bool_decide_eq_true_2.
Qed.

Lemma dashboard_loop_sound fuel url deadline poll needed streak :
  awp (dashboard_loop fuel url deadline poll needed streak)
    (fun o t => o = Ok true -> completes needed streak (verdicts url t)).
Proof.
  revert streak; induction fuel as [|fuel IH]; intros streak; cbn [dashboard_loop]; [done|].
  do_bind. do_call. intros [now|e]; [|done]. cbn beta match. destruct (now <? deadline); [|by do_ret].
  do_bind. eapply awp_mono; [apply probe_url_spec|]. intros o t (b & -> & Hv). cbn beta match.
  destruct (b && (needed <=? streak + 1)) eqn:Eb.
  - do_ret. intros _. change (Ev (S := aws) TimeTime (inl now) :: t) with ([Ev (S := aws) TimeTime (inl now)] ++ t).
    rewrite verdicts_app, Hv. apply andb_true_iff in Eb as [-> Hn]. exists [], [true]. cbn.
    split_and!; [done|by repeat constructor|]. right. split; [done|lia].
  - do_bind. do_call. intros r. destruct r; [|done]. cbn beta match.
    eapply awp_mono; [apply IH|]. intros o t' Ht' Ho. specialize (Ht' Ho).
    change (Ev (S := aws) TimeTime (inl now) :: t ++ _ :: t')
      with ([Ev (S := aws) TimeTime (inl now)] ++ t ++ [Ev (S := aws) (Sleep poll) (inl ())] ++ t').
    rewrite !verdicts_app, Hv. cbn. destruct b; [by apply completes_true|by apply completes_false].
Qed.

Lemma verify_dashboard_sound tid base timeout_sec poll_sec :
  awp (_verify_dashboard_reachable_via_alb tid base timeout_sec poll_sec)
    (fun o t => o = Ok true -> reachable_for (dashboard_url tid base) probes_needed t).
Proof.
  unfold _verify_dashboard_reachable_via_alb. destruct (nonempty base); cbn [negb]; [|by do_ret].
  do_bind. do_call. intros [now|e]; [|done]. cbn beta match.
  eapply awp_mono; [apply dashboard_loop_sound|]. intros o t Ht Ho.
  change (Ev (S := aws) TimeTime (inl now) :: t) with ([Ev (S := aws) TimeTime (inl now)] ++ t).
  apply reachable_for_after. destruct (Ht Ho) as (l1 & l2 & E & H2 & [Hn|[-> Hn]]); exists l1, l2 || exists [], l2;
    split_and!; try done; lia.
Qed.

(** C31: A tenant is declared reachable only after [VERIFY_CONSECUTIVE_OK]
    requests of its public URL in a row, the last ones made, were answered by a
    backend that serves (2xx, 3xx, 401 or 403): one failure in between starts
    the count again. *)
Theorem verify_dashboard_consecutive (tid base : string) (timeout_sec poll_sec : Z) :
  awp (_verify_dashboard_reachable_via_alb tid base timeout_sec poll_sec)
    (fun o t => o = Ok true -> reachable_for (dashboard_url tid base) probes_needed t).
Proof. apply verify_dashboard_sound. Qed.

Lemma dashboard_loop_terminates fuel url deadline poll needed streak now :
  0 < poll -> (deadline - now) / (poll * 1000000) + 2 <= Z.of_nat fuel -> 0 < Z.of_nat fuel ->
  wp (S := aws) clock_step (dashboard_loop fuel url deadline poll needed streak) now
    (fun o _ _ => exists b, o = Ok b).
Proof.
  intros Hp. revert now streak; induction fuel as [|fuel IH]; intros now streak Hf Hf0; [lia|].
  cbn [dashboard_loop]. do_bind. do_call. intros r now1 [Hle ->].
  destruct (Z.ltb_spec now1 deadline) as [Hd|]; [|by cbn; eauto].
  do_bind. unfold probe_url. do_bind. do_attempt. do_call. intros r now2 Hle2. cbn [clock_step] in Hle2.
  assert (Hrest : forall b : bool, wp (S := aws) clock_step
    (if b && (needed <=? streak + 1) then mret true
     else _ ← do_ (Sleep poll);
          dashboard_loop fuel url deadline poll needed (if b then streak + 1 else 0)) now2
    (fun o _ _ => exists b, o = Ok b)).
  { intros b. destruct (b && _); [do_ret; eauto|]. do_bind. do_call. intros x now3 [Hle3 ->].
    destruct (rounds_left deadline now now3 poll) as [? ?]; [lia..|]. apply IH; lia. }
  destruct r as [[]|]; do_ret; apply Hrest.
Qed.

(** The probe of a VM on its host comes to an answer: twelve rounds are enough
    for the command of each probe, and [timeout/poll + 2] probes. *)
Lemma probe_vm_answers host_id tid now :
  12 <= Z.of_nat wait_fuel ->
  wp (S := aws) clock_step (try_ (probe_vm host_id tid) except _ => mret false) now
    (fun o now' _ => (exists b, o = Ok b) /\ now <= now').
Proof.
  intros Hf. apply wp_and; [|apply clock_mono]. apply wp_catch.
  eapply (wp_mono _ _ _ (fun o _ _ => o <> NoFuel)); [|intros [b|e|] now' t Ho; [by eauto|do_ret; eauto|done]].
  unfold probe_vm, _wait_ssm_done, ssm_wait. do_bind. do_call. intros [cid|e] now1 Hle; [|done]. cbn beta match.
  do_bind. do_bind. do_call. intros r now2 [Hle2 ->]. cbn beta match.
  eapply wp_mono; [apply ssm_wait_loop_terminates; [done| |lia]|].
  - replace (now2 + 20 * 1000000 - now2) with (20 * 1000000) by lia. vm_compute (20 * 1000000 / (2 * 1000000)). lia.
  - intros o now3 t (ok & err & ->). cbn beta match. destruct ok; [|by do_ret].
    do_bind. do_call. by intros [inv|e] now4 _; [do_ret|].
Qed.

Lemma verify_vm_loop_terminates fuel host_id tid deadline poll now :
  0 < poll -> 12 <= Z.of_nat wait_fuel ->
  (deadline - now) / (poll * 1000000) + 2 <= Z.of_nat fuel -> 0 < Z.of_nat fuel ->
  wp (S := aws) clock_step (verify_vm_loop fuel host_id tid deadline poll) now (fun o _ _ => exists b, o = Ok b).
Proof.
  intros Hp Hw. revert now; induction fuel as [|fuel IH]; intros now Hf Hf0; [lia|].
  cbn [verify_vm_loop]. do_bind. do_call. intros r now1 [Hle ->].
  destruct (Z.ltb_spec now1 deadline) as [Hd|]; [|by cbn; eauto].
  do_bind. eapply wp_mono; [by apply probe_vm_answers|]. intros o now2 t [[b ->] Hle2]. cbn beta match.
  destruct b; [do_ret; eauto|]. do_bind. do_call. intros r now3 [Hle3 ->].
  destruct (rounds_left deadline now now3 poll) as [? ?]; [lia..|]. apply IH; lia.
Qed.

(** The probe of the public URL comes to an answer: with a clock that
    follows its sleeps, [timeout/poll + 2] rounds are enough, whatever the URL
    replies. *)
Theorem verify_dashboard_terminates {W} (E : env aws W) (clock : W -> Z) (w : W)
    (tid base : string) (timeout_sec poll_sec : Z) :
  obeys (S := aws) clock_step clock E ->
  0 < poll_sec -> 0 <= timeout_sec -> timeout_sec / poll_sec + 2 <= Z.of_nat wait_fuel ->
  exists b, (run E (_verify_dashboard_reachable_via_alb tid base timeout_sec poll_sec) w).1.1 = Ok b.
Proof.
  intros HE Hp Ht Hf.
  assert (wp (S := aws) clock_step (_verify_dashboard_reachable_via_alb tid base timeout_sec poll_sec) (clock w)
    (fun o _ _ => exists b, o = Ok b)) as Hwp.
  { unfold _verify_dashboard_reachable_via_alb. destruct (nonempty base); cbn [negb]; [|do_ret; eauto].
    do_bind. do_call. intros r now [Hle ->]. assert (0 <= timeout_sec / poll_sec) by (apply Z.div_pos; lia).
    apply dashboard_loop_terminates; [done| |lia]. unfold seconds.
    replace (now + timeout_sec * 1000000 - now) with (timeout_sec * 1000000) by lia.
    rewrite Z.div_mul_cancel_r by lia. lia. }
  pose proof (run_wp _ clock E _ w (fun o _ _ => exists b, o = Ok b) HE Hwp) as R.
  by destruct (run E _ w) as [[o w'] t].
Qed.
End Probes.

(** A configuration of the health check for the witnesses. *)
Definition sample_hc : HcConfig := {|
  hc_config := sample_config;
  wait_fuel := 64;
  SNS_TOPIC_ARN := "";
  AZ_FAILOVER_ENABLED := true;
  AZ_UNHEALTHY_THRESHOLD_MINUTES := 10;
  AZ_COOLDOWN_MINUTES := 30;
  ASSETS_BUCKET := "assets";
  PUBLIC_BASE_URL := "http://alb";
  VERIFY_CONSECUTIVE_OK := 3;
  FAILOVER_QUEUE_URL := "";
  FAILOVER_WATCHDOG_MINUTES := 30;
  MIGRATION_WATCHDOG_MINUTES := 15
|}.

Lemma verify_dashboard_terminates_witness :
  exists b, (run stuck_env (_verify_dashboard_reachable_via_alb (H := sample_hc) "web-1a2b" "http://alb" 90 3) 0).1.1 = Ok b.
Proof.
  apply (verify_dashboard_terminates (H := sample_hc) stuck_env (fun now => now) 0 "web-1a2b" "http://alb" 90 3);
    [intros c w; destruct c; cbn; repeat split; lia|lia..|vm_decide].
Defined.
