(* ===== verification/Migration.v ===== *)
(** * Migration of a tenant between hosts

    [deploy/lambda/health_check/handler.py]: the sweep advances a migration by
    one step at a time - snapshot, restore, gates, change of owner - and rolls
    back on a failure or after [MIGRATION_WATCHDOG_MINUTES]. *)

From S2P Require Import Prelude Py Effects Aws Iso Config Validate Ssm Capacity AuditLog Placement Alb Tenants Actions Hosts Health Gates.

Section Migration.
Context `{HcConfig}.

(** [if_not_exists(a, 0) + n], and its opposite. *)
Definition plus_counter (a : string) (n : Z) : action := SET a (Add (IfNotExists a (VInt 0)) (Lit (VInt n))).
Definition minus_counter (a : string) (n : Z) : action := SET a (Sub (IfNotExists a (VInt 0)) (Lit (VInt n))).

Definition _bump_target_counters (target_host_id : string) (target_vm_num vcpu mem_mb : Z) : M unit :=
  _ ← (try_ (_ ← do_ (UpdateItem Hosts target_host_id
                        [plus_counter "vm_count" 1; plus_counter "used_vcpu" vcpu;
                         plus_counter "used_mem_mb" mem_mb] None RvNone); mret tt)
       except _ => mret tt);
  try_ (_ ← do_ (UpdateItem Hosts target_host_id [SET "next_vm_num" (Lit (VInt (target_vm_num + 1)))]
                   (Some (COr (CNotExists "next_vm_num")
                              (CLt (Attr "next_vm_num") (Lit (VInt (target_vm_num + 1)))))) RvNone); mret tt)
  except _ => mret tt.

(** The release of the source host's share. *)
Definition release_source (source_host_id : val) (vcpu mem_mb : Z) : M unit :=
  if truthy source_host_id then
    try_ (hid ← lift (as_key source_host_id);
          _ ← do_ (UpdateItem Hosts hid
                     [minus_counter "used_vcpu" vcpu; minus_counter "used_mem_mb" mem_mb;
                      minus_counter "vm_count" 1] None RvNone); mret tt)
    except _ => mret tt
  else mret tt.

Definition rolled_back (reason now : string) : list action :=
  SET "status" (Lit (VStr "running")) :: SET "migration_failed" (Lit (VStr (str_take 500 reason))) ::
  SET "updated_at" (Lit (VStr now)) :: map REMOVE migration_fields.

Definition relaunch_source (t : item) (tid : string) : M unit :=
  let src := v_or (get_or t "migration_source" (VStr "")) (get_or t "host_id" (VStr "")) in
  vm_num ← lift (py_int (get_or t "vm_num" (VInt 1)));
  vcpu ← lift (py_int (get_or t "vcpu" (VInt 2)));
  mem_mb ← lift (py_int (get_or t "mem_mb" (VInt 4096)));
  if truthy src then
    _ ← _ssm_send_hc src ("/home/ubuntu/launch-vm.sh " +:+ tid +:+ " " +:+ pretty vm_num +:+ " " +:+
                          pretty vcpu +:+ " " +:+ pretty mem_mb) 300;
    mret tt
  else mret tt.

Definition _rollback_migration (t : item) (reason : string) : M unit :=
  tid ← lift (tenant_id_of t);
  let mode := get_or t "migration_mode" (VStr "live") in
  _ ← (if is_str mode "cold" then relaunch_source t tid else mret tt);
  now ← _now;
  _ ← do_ (UpdateItem Tenants tid (rolled_back reason now) None RvNone);
  _emit_audit "MIGRATION_FAILED"
    [("tenant_id", VStr tid); ("reason", VStr (str_take 200 reason)); ("mode", mode)].

(** The watchdog: [true] when the migration was rolled back; any exception,
    also of the rollback, is ignored. *)
Definition migration_watchdog (t : item) (now : Z) : M bool :=
  let started := get_or t "migration_started_at" (VStr "") in
  if truthy started then
    try_ (us ← lift (elapsed_us now started);
          if seconds (MIGRATION_WATCHDOG_MINUTES * 60) <? us then
            _ ← _rollback_migration t ("watchdog: stuck in " +:+ str_of (get_or t "migration_phase" (VStr "")) +:+
                                       " for " +:+ pretty (Z.quot us (seconds 60)) +:+ "min");
            mret true
          else mret false)
    except _ => mret false
  else mret false.

(** The step of a migration whose snapshot was ordered. *)
Definition advance_snapshot (t : item) (tid : string) (target_vm_num : Z) : M unit :=
  let cmd_id := get_or t "migration_snap_cmd" (VStr "") in
  if negb (truthy cmd_id) then _rollback_migration t "snapshot phase but no migration_snap_cmd"
  else
    '(done, ok) ← _poll_ssm cmd_id (get_or t "migration_source" (VStr ""));
    if negb (done : bool) then mret tt
    else if negb (ok : bool) then _rollback_migration t "snapshot command failed on source host"
    else
      let verb := if is_str (get_or t "migration_mode" (VStr "live")) "cold" then "cold-restore" else "restore" in
      restore_cmd ← _ssm_send_hc (get_or t "migration_target" (VStr ""))
        ("/home/ubuntu/migrate-vm.sh " +:+ verb +:+ " " +:+ tid +:+ " " +:+ pretty target_vm_num +:+ " " +:+
         str_of (get_or t "migration_snapshot_uri" (VStr ""))) 600;
      match restore_cmd with
      | None => _rollback_migration t "failed to submit restore SSM command"
      | Some restore_cmd =>
          if negb (nonempty restore_cmd) then _rollback_migration t "failed to submit restore SSM command"
          else
            now ← _now;
            _ ← do_ (UpdateItem Tenants tid
                  [SET "migration_phase" (Lit (VStr "restore"));
                   SET "migration_restore_cmd" (Lit (VStr restore_cmd));
                   SET "updated_at" (Lit (VStr now))] None RvNone);
            mret tt
      end.

(** The route to the target; [false] when the migration was rolled back. *)
Definition reroute (t : item) (tid target_id : string) : M bool :=
  target ← do_ (GetItem Hosts target_id);
  let target_ip := get_or (default ∅ (target : option item)) "private_ip" (VStr "") in
  if host_tg_mode then _ ← drop_peer_conf (VStr target_id) tid; mret true
  else
    r ← attempt (if truthy target_ip then _ ← _repoint_alb_rule tid target_id target_ip; mret true
                 else _ ← _rollback_migration t "target host has no private_ip"; mret false);
    match r with
    | inl go_on => mret go_on
    | inr e => _ ← _rollback_migration t ("ALB repoint failed: " +:+ exn_str e); mret false
    end.

Definition moved (target_id now : string) (target_vm_num : Z) : list action :=
  SET "host_id" (Lit (VStr target_id)) :: SET "vm_num" (Lit (VInt target_vm_num)) ::
  SET "status" (Lit (VStr "running")) :: SET "updated_at" (Lit (VStr now)) ::
  map REMOVE (migration_fields ++ ["migration_failed"]).

(** The change of owner: the row, the counters of both hosts, the old VM. *)
Definition complete_move (t : item) (tid target_id : string) (target_vm_num vm_num : Z) : M unit :=
  let source := get_or t "migration_source" (VStr "") in
  vcpu ← lift (py_int (get_or t "vcpu" (VInt 0)));
  mem_mb ← lift (py_int (get_or t "mem_mb" (VInt 0)));
  now ← _now;
  _ ← do_ (UpdateItem Tenants tid (moved target_id now target_vm_num) None RvNone);
  _ ← release_source source vcpu mem_mb;
  _ ← _bump_target_counters target_id target_vm_num vcpu mem_mb;
  _ ← (if truthy source then
         _ ← _ssm_send_hc source ("/home/ubuntu/stop-vm.sh " +:+ tid +:+ " " +:+ pretty vm_num +:+
               " ; sudo rm -f /etc/nginx/conf.d/tenants/" +:+ tid +:+ ".conf && sudo nginx -s reload") 60;
         mret tt
       else mret tt);
  _emit_audit "MIGRATION_COMPLETED"
    [("tenant_id", VStr tid); ("source_host_id", source); ("target_host_id", VStr target_id)].

(** The public URL answers, or no public URL is configured. *)
Definition dashboard_gate (tid : string) : M bool :=
  if nonempty PUBLIC_BASE_URL
  then _verify_dashboard_reachable_via_alb tid PUBLIC_BASE_URL verify_timeout 3
  else mret true.

(** The step of a migration whose restore was ordered. *)
Definition advance_restore (t : item) (tid : string) (target_vm_num vm_num : Z) : M unit :=
  let cmd_id := get_or t "migration_restore_cmd" (VStr "") in
  let target := get_or t "migration_target" (VStr "") in
  if negb (truthy cmd_id) then _rollback_migration t "restore phase but no migration_restore_cmd"
  else
    '(done, ok) ← _poll_ssm cmd_id target;
    if negb (done : bool) then mret tt
    else if negb (ok : bool) then _rollback_migration t "restore command failed on target host"
    else
      target_id ← lift (as_key target);
      routed ← reroute t tid target_id;
      if negb (routed : bool) then mret tt
      else
        ok ← dashboard_gate tid;
        if ok : bool then complete_move t tid target_id target_vm_num vm_num
        else _rollback_migration t "dashboard not reachable via ALB after restore".

Definition _advance_migration (t : item) (now : Z) : M unit :=
  tid ← lift (tenant_id_of t);
  let phase := get_or t "migration_phase" (VStr "") in
  if negb (truthy phase) then mret tt
  else
    target_vm_num ← lift (py_int (get_or t "migration_target_vm_num" (VInt 1)));
    vm_num ← lift (py_int (get_or t "vm_num" (VInt 1)));
    stuck ← migration_watchdog t now;
    if stuck : bool then mret tt
    else if is_str phase "snapshot" then advance_snapshot t tid target_vm_num
    else if is_str phase "restore" then advance_restore t tid target_vm_num vm_num
    else _rollback_migration t ("unknown migration_phase: " +:+ repr_of phase).

(** The migrations of one sweep: a failing one does not stop the others. *)
Definition sweep_migrations (now : Z) : M unit :=
  try_ (migrating ← _scan_all Tenants (Some (CEq (Attr "status") (Lit (VStr "migrating"))));
        for_each migrating (fun t =>
          if negb (is_str (get t "status") "migrating") || negb (truthy (get t "migration_phase")) then mret tt
          else try_ (_advance_migration t now) except _ => mret tt))
  except _ => mret tt.
End Migration.
