(* ===== verification/MigrationSafety.v ===== *)
(** * Migration: gates

    A tenant changes host only after the restore on its new host was reported
    successful and its public URL answered.  The accounting of a migration is
    in [MigrationAccounting]. *)

From S2P Require Import Prelude Py Effects Aws Iso Ddb Config Validate Ssm Capacity AuditLog Rbac Placement Alb Tenants Actions Accounting ActionsAccounting Hosts Health Gates Migration.

(** A write that moves a tenant. *)
Definition is_move (e : ev) : Prop :=
  match ev_call e with UpdateItem Tenants _ acts _ _ => "host_id" ∈ touched acts | _ => False end.

Section MigrationSafety.
Context `{HcConfig}.

(** ** The parts that do not move a tenant *)

Definition still {A} (p : M A) : Prop := awp p (fun _ t => Forall (fun e => ~ is_move e) t).

Lemma still_quiet {A} (p : M A) : quiet p -> still p.
Proof.
  intros Hq. eapply awp_mono; [apply Hq|]. intros o t. apply List.Forall_impl. intros e.
  unfold no_write, is_move. destruct (ev_call e); tauto.
Qed.

Lemma still_bind {A B} (p : M A) (f : A -> M B) : still p -> (forall a, still (f a)) -> still (p ≫= f).
Proof. apply awp_all_events_bind. Qed.
Lemma still_do c : (forall r, ~ is_move (Ev (S := aws) c r)) -> still (do_ c).
Proof. exact (awp_all_events_call (S := aws) c (fun e => ~ is_move e)). Qed.
Lemma still_ret {A} (a : A) : still (mret a : M A).
Proof. apply awp_all_events_done. Qed.
Lemma still_catch {A} (p : M A) h : still p -> (forall e, still (h e)) -> still (catch p h).
Proof. apply awp_all_events_catch. Qed.

Lemma quiet_send_hc i c t : quiet (_ssm_send_hc i c t).
Proof. unfold _ssm_send_hc. apply quiet_catch; [apply quiet_ssm_send_val|intros; quiet]. Qed.
Lemma quiet_poll c i : quiet (_poll_ssm c i).
Proof. unfold _poll_ssm, ssm_poll. destruct c, i; quiet. Qed.
Lemma quiet_repoint tid hid ip : quiet (_repoint_alb_rule tid hid ip).
Proof.
  unfold _repoint_alb_rule, host_tg.
  assert (forall n tg, quiet (create_attempts n tid tg)) as Hc.
  { intros n tg. induction n as [|n IH]; cbn [create_attempts]; [quiet|]. unfold choice. repeat first [apply IH|quiet_step]. }
  repeat first [apply Hc|quiet_step].
Qed.
Lemma quiet_dashboard tid : quiet (dashboard_gate tid).
Proof.
  unfold dashboard_gate, _verify_dashboard_reachable_via_alb, probe_url.
  assert (forall n u d p k s, quiet (dashboard_loop n u d p k s)) as Hl.
  { intros n u d p k. induction n as [|n IH]; intros s; cbn [dashboard_loop]; [quiet|]. unfold probe_url.
    repeat first [apply IH|quiet_step]. }
  repeat first [apply Hl|quiet_step].
Qed.

Lemma still_audit op d : still (_emit_audit op d).
Proof.
  unfold _emit_audit. destruct (hc_object d). eapply awp_mono; [apply put_audit_row_events|].
  intros o t. apply List.Forall_impl. intros e. unfold audit_event, is_move. destruct (ev_call e); tauto.
Qed.

Lemma rolled_back_still reason now : "host_id" ∉ touched (rolled_back reason now).
Proof. vm_compute. set_solver. Qed.

Lemma still_rollback t reason : still (_rollback_migration t reason).
Proof.
  unfold _rollback_migration. apply still_bind; [apply still_quiet; quiet|intros tid].
  apply still_bind; [|intros _].
  { apply still_quiet. unfold relaunch_source. repeat first [apply quiet_send_hc|quiet_step]. }
  apply still_bind; [apply still_quiet; quiet|intros now]. apply still_bind; [|intros _; apply still_audit].
  apply still_do. intros r. apply rolled_back_still.
Qed.

Lemma still_watchdog t now : still (migration_watchdog t now).
Proof.
  unfold migration_watchdog. destruct (truthy _); [|apply still_ret]. apply still_catch; [|intros; apply still_ret].
  apply still_bind; [apply still_quiet; quiet|intros us]. destruct (_ <? _); [|apply still_ret].
  apply still_bind; [apply still_rollback|intros; apply still_ret].
Qed.

Lemma still_reroute t tid i : still (reroute t tid i).
Proof.
  unfold reroute. apply still_bind; [apply still_quiet; quiet|intros tg]. cbn zeta. destruct host_tg_mode.
  - apply still_bind; [|intros; apply still_ret]. apply still_quiet. unfold drop_peer_conf.
    apply quiet_bind; [apply quiet_send_hc|intros; quiet].
  - apply still_bind.
    + apply awp_all_events_attempt. destruct (truthy _).
      * apply still_bind; [apply still_quiet, quiet_repoint|intros; apply still_ret].
      * apply still_bind; [apply still_rollback|intros; apply still_ret].
    + intros [b|e]; [apply still_ret|]. apply still_bind; [apply still_rollback|intros; apply still_ret].
Qed.

Lemma still_snapshot t tid n : still (advance_snapshot t tid n).
Proof.
  unfold advance_snapshot. cbn zeta. destruct (negb _); [apply still_rollback|].
  apply still_bind; [apply still_quiet, quiet_poll|intros [done_ ok]]. destruct (negb done_); [apply still_ret|].
  destruct (negb ok); [apply still_rollback|]. apply still_bind; [apply still_quiet, quiet_send_hc|].
  intros [c|]; [|apply still_rollback]. destruct (negb _); [apply still_rollback|].
  apply still_bind; [apply still_quiet; quiet|intros now]. apply still_bind; [|intros; apply still_ret].
  apply still_do. intros r. vm_compute. set_solver.
Qed.

(** ** Gates *)

(** What must have been seen before a tenant is moved: the restore command of
    its row reported successful on the target of its row, and, when a public
    URL is configured, the last requests of the tenant's URL answered.  The
    write itself makes that target the tenant's host. *)
Definition cleared (t : item) (pre : list ev) (e : ev) : Prop :=
  exists tid cmd target n now r,
    tenant_id_of t = Ok tid /\
    get_or t "migration_restore_cmd" (VStr "") = VStr cmd /\
    get_or t "migration_target" (VStr "") = VStr target /\
    (exists s, s ∈ pre /\ succeeded cmd target s) /\
    (nonempty PUBLIC_BASE_URL = true -> reachable_for (dashboard_url tid PUBLIC_BASE_URL) probes_needed pre) /\
    e = Ev (S := aws) (UpdateItem Tenants tid (moved target now n) None RvNone) r.

Lemma poll_success c i :
  awp (_poll_ssm c i) (fun o t => forall a, o = Ok a -> a = (true, true) ->
    exists cmd target, c = VStr cmd /\ i = VStr target /\ exists s, s ∈ t /\ succeeded cmd target s).
Proof.
  unfold _poll_ssm. destruct c as [| | | |c| |], i as [| | | |i| |];
    try (do_ret; by intros ? [= <-]). unfold ssm_poll. do_bind. do_attempt. do_call.
  intros [inv|e]; [|do_ret; by intros ? [= <-]]. cbn beta match zeta.
  destruct (bool_decide_reflect (default "Pending" (inv_status inv) = "Success")) as [Hs|].
  - do_ret. intros a _ _. exists c, i. split_and!; [done..|]. eexists. split; [apply list_elem_of_here|].
    exists inv. split; [done|]. destruct (inv_status inv); cbn in Hs; by subst.
  - destruct (failed_status _); do_ret; by intros ? [= <-].
Qed.

Lemma dashboard_gate_spec tid :
  awp (dashboard_gate tid) (fun o t => forall a, o = Ok a -> a = true -> nonempty PUBLIC_BASE_URL = true ->
    reachable_for (dashboard_url tid PUBLIC_BASE_URL) probes_needed t).
Proof.
  unfold dashboard_gate. destruct (nonempty PUBLIC_BASE_URL); [|by do_ret].
  eapply awp_mono; [apply verify_dashboard_sound|]. intros o t Ht a -> -> _. by apply Ht.
Qed.

(** The rest of a move, after the write of the row. *)
Lemma still_host i acts c rv : still (do_ (UpdateItem Hosts i acts c rv)).
Proof. apply still_do. auto. Qed.

Lemma complete_move_cleared t tid target n vm pre cmd :
  tenant_id_of t = Ok tid -> get_or t "migration_restore_cmd" (VStr "") = VStr cmd ->
  get_or t "migration_target" (VStr "") = VStr target ->
  (exists s, s ∈ pre /\ succeeded cmd target s) ->
  (nonempty PUBLIC_BASE_URL = true -> reachable_for (dashboard_url tid PUBLIC_BASE_URL) probes_needed pre) ->
  awp (complete_move t tid target n vm) (fun _ tr => guarded is_move (cleared t) pre tr).
Proof.
  intros Hid Hc Ht Hs Hr. unfold complete_move. cbn zeta.
  apply (awp_guarded_free_bind _ _ _ (fun _ tr => tr = [])); [do_ret; constructor|by do_ret|intros v ? ->].
  apply (awp_guarded_free_bind _ _ _ (fun _ tr => tr = [])); [do_ret; constructor|by do_ret|intros m ? ->].
  rewrite !app_nil_r. do_bind. unfold _now. do_bind. do_call. intros [us|e]; cbn beta match.
  2: { apply guarded_free. repeat constructor. auto. }
  do_ret. do_bind. do_call. intros r.
  assert (Hg : forall post, Forall (fun e => ~ is_move e) post ->
    guarded is_move (cleared t) pre (Ev (S := aws) NowUtc (inl us) ::
      Ev (S := aws) (UpdateItem Tenants tid (moved target (isoformat us) n) None RvNone) r :: post)).
  { intros post Hpost. apply guarded_cons; [done|]. apply guarded_cons; [|by apply guarded_free]. intros _.
    exists tid, cmd, target, n, (isoformat us), r. split_and!; try done.
    - destruct Hs as (s & Hin & Hs). exists s. split; [set_solver|done].
    - intros Hp. by apply reachable_for_app; [apply Hr|]. }
  destruct r as [x|e]; cbn beta match; [|by apply Hg].
  eapply awp_mono; [|intros o t' Ht'; apply Hg, Ht'].
  apply still_bind; [|intros _; apply still_bind; [|intros _; apply still_bind; [|intros; apply still_audit]]].
  - unfold release_source. destruct (truthy _); [|apply still_ret]. apply still_catch; [|intros; apply still_ret].
    apply still_bind; [apply still_quiet; quiet|intros hid]. apply still_bind; [apply still_host|intros; apply still_ret].
  - unfold _bump_target_counters. apply still_bind; [|intros _]; (apply still_catch; [|intros; apply still_ret]);
      (apply still_bind; [apply still_host|intros; apply still_ret]).
  - destruct (truthy _); [|apply still_ret]. apply still_quiet. apply quiet_bind; [apply quiet_send_hc|intros; quiet].
Qed.

Lemma still_guarded {A} (p : M A) G pre : still p -> awp p (fun _ tr => guarded is_move G pre tr).
Proof. intros Hp. eapply awp_mono; [apply Hp|]. intros o tr. apply guarded_free. Qed.

Lemma advance_restore_cleared t tid n vm pre :
  tenant_id_of t = Ok tid ->
  awp (advance_restore t tid n vm) (fun _ tr => guarded is_move (cleared t) pre tr).
Proof.
  intros Hid. unfold advance_restore. cbn zeta.
  destruct (get_or t "migration_restore_cmd" (VStr "")) as [| | | |cmd| |] eqn:Hc.
  all: destruct (negb (truthy _)); [apply still_guarded, still_rollback|].
  all: eapply awp_guarded_free_bind; [apply still_quiet, quiet_poll|apply poll_success|].
  all: intros [done_ ok] t1 H1; destruct done_; cbn [negb]; [|apply still_guarded, still_ret].
  all: destruct ok; cbn [negb]; [|apply still_guarded, still_rollback].
  all: destruct (H1 eq_refl) as (c & target & Ec & Htg & Hs); try done.
  injection Ec as <-. rewrite Htg.
  apply (awp_guarded_free_bind _ _ _ (fun k tr => k = target /\ tr = [])).
  { apply still_quiet. quiet. }
  { cbn [as_key]. destruct (bool_decide _); do_ret; [done|]. by intros ? [= <-]. }
  intros k tr [-> ->]. rewrite app_nil_r.
  apply (awp_guarded_free_bind _ _ _ (fun _ _ => True)); [apply still_reroute|by eapply awp_mono; [apply awp_trivial|]|].
  intros [|] t2 _; cbn [negb]; [|apply still_guarded, still_ret].
  eapply awp_guarded_free_bind; [apply still_quiet, quiet_dashboard|apply dashboard_gate_spec|].
  intros [|] t3 H3; [|apply still_guarded, still_rollback].
  apply (complete_move_cleared _ _ _ _ _ _ cmd); try done.
  - destruct Hs as (s & Hin & Hs). exists s. split; [set_solver|done].
  - intros Hp. apply reachable_for_after. by apply H3.
Qed.

(** C17: A sweep never moves a tenant to another host, in any environment,
    before it has seen the restore command of that tenant reported successful on
    the target of its row and, when a public URL is configured, the required
    number of consecutive answers on the tenant's URL; and it moves it to that
    target, in one write that also makes it running. *)
Theorem migration_gated (t : item) (now : Z) :
  awp (_advance_migration t now) (fun _ tr => guarded is_move (cleared t) [] tr).
Proof.
  unfold _advance_migration. destruct (tenant_id_of t) as [tid|e|] eqn:Hid;
    [|do_bind; do_ret; by apply guarded_free..].
  apply (awp_guarded_free_bind _ _ _ (fun k tr => k = tid /\ tr = []));
    [do_ret; constructor|do_ret; by intros ? [= <-]|intros k ? [-> ->]]. rewrite app_nil_r. cbn zeta.
  destruct (negb (truthy _)); [apply still_guarded, still_ret|].
  apply (awp_guarded_free_bind _ _ _ (fun _ _ => True)); [apply still_quiet; quiet|by do_ret|intros n ? _].
  apply (awp_guarded_free_bind _ _ _ (fun _ _ => True)); [apply still_quiet; quiet|by do_ret|intros vm ? _].
  apply (awp_guarded_free_bind _ _ _ (fun _ _ => True));
    [apply still_watchdog|by eapply awp_mono; [apply awp_trivial|]|intros stuck ? _].
  destruct stuck; [apply still_guarded, still_ret|].
  destruct (is_str _ "snapshot"); [apply still_guarded, still_snapshot|].
  destruct (is_str _ "restore"); [by apply advance_restore_cleared|apply still_guarded, still_rollback].
Qed.
End MigrationSafety.
