(* ===== verification/Failover.v ===== *)
(** * Failover of an availability zone

    [deploy/lambda/health_check/handler.py] and its worker
    [deploy/lambda/health_check/worker.py]: detection of a lost zone, the claim
    of its tenants and their recovery on hosts of other zones, at once or
    through the queue of the workers, and the watchdog of claimed tenants. *)

From S2P Require Import Prelude Py Effects Aws Iso Config Validate Ssm Capacity AuditLog Placement Alb Tenants Actions Hosts Health Gates Migration.

Section Failover.
Context `{HcConfig}.

(** ** Recovery of one tenant *)

Definition contains_any (ps : list string) (s : string) : bool := existsb (fun p => str_contains p s) ps.

(** What a recovery reports: a VM that runs, a failure, or a refusal. *)
Inductive fo_outcome := Recovered | FoFailed | FoBlocked | FoQueued.

#[export] Instance fo_outcome_eq_dec : EqDecision fo_outcome.
Proof. solve_decision. Defined.

Definition fo_launch_command (tenant_id : string) (vm_num vcpu mem_mb : Z) (config_template backup_key : string) : string :=
  let q s := String dquote (s +:+ String dquote "") in
  "/home/ubuntu/launch-vm.sh " +:+ tenant_id +:+ " " +:+ pretty vm_num +:+ " " +:+ pretty vcpu +:+ " " +:+
  pretty mem_mb +:+ " " +:+ q config_template +:+ " " +:+ q backup_key.

(** Launch on the target: whether the command succeeded, and its error. *)
Definition fo_launch (t : item) (tid target_id backup_key : string) (vm_num vcpu mem_mb : Z)
    : M (bool * option string) :=
  cmd_id ← do_ (SendCommand [target_id]
    [fo_launch_command tid vm_num vcpu mem_mb (str_of (v_or (get t "config_template") (VStr ""))) backup_key]
    (Some 600) None);
  _wait_ssm_done cmd_id target_id 90 3.

(** Point the tenant's rule at the target. *)
Definition fo_reroute (tid target_id : string) (target_host : item) : M unit :=
  if nonempty ALB_LISTENER_ARN && negb host_tg_mode then
    let ip := get target_host "private_ip" in
    if negb (truthy ip) then
      lift (runtime_error ("target host " +:+ target_id +:+ " has no private_ip in DDB; cannot re-point ALB. " +:+
                           "Refusing to flip status to running."))
    else
      try_ (_repoint_alb_rule tid target_id ip)
      except e => _ ← _emit_audit "AZ_FAILOVER_ALB_REPOINT_FAILED"
                        [("tenant_id", VStr tid); ("error", VStr (str_take 200 (exn_str e)))];
                  lift (runtime_error ("ALB repoint failed: " +:+ exn_str e))
  else mret tt.

Definition clean_source (source : val) (tid : string) : M unit :=
  match source with
  | VStr src =>
      if nonempty src then
        try_ (_ ← do_ (SendCommand [src] ["sudo rm -f /etc/nginx/conf.d/tenants/" +:+ tid +:+
                         ".conf && sudo nginx -s reload || true"] (Some 10) None); mret tt)
        except _ => mret tt
      else mret tt
  | _ => mret tt
  end.

Definition recovered_actions (target_id backup_key : string) (vm_num : Z) : list action := [
  SET "host_id" (Lit (VStr target_id)); SET "vm_num" (Lit (VInt vm_num));
  SET "status" (Lit (VStr "running")); SET "restored_from" (Lit (VStr backup_key))].

(** Launch, gates, change of owner: the body of the [try]. *)
Definition fo_steps (t : item) (tid target_id : string) (target_host : item) (source_az : val)
    (backup_key : string) (vm_num vcpu mem_mb : Z) (source : val) : M unit :=
  '(ok, ssm_err) ← fo_launch t tid target_id backup_key vm_num vcpu mem_mb;
  _ ← (if host_tg_mode then drop_peer_conf (VStr target_id) tid else mret tt);
  running ← _verify_vm_actually_running target_id tid 120 10;
  _ ← (if running : bool then mret tt
       else lift (runtime_error ("VM verify gate failed on target " +:+ target_id +:+
              " (process / nginx conf / local HTTP all checked); refusing to flip DDB to running. SSM err: " +:+
              match ssm_err with Some e => if nonempty e then e else "(none)" | None => "(none)" end)));
  _ ← (if ok : bool then mret tt
       else _emit_audit "AZ_FAILOVER_RECOVERED_BY_VERIFY"
              [("tenant_id", VStr tid); ("from_az", source_az); ("to_host", VStr target_id);
               ("ssm_err", VStr (str_take 200 (default "" ssm_err)))]);
  _ ← fo_reroute tid target_id target_host;
  reachable ← dashboard_gate tid;
  _ ← (if reachable : bool then mret tt
       else lift (runtime_error ("dashboard not reachable via ALB at " +:+ PUBLIC_BASE_URL +:+ "/vm/" +:+ tid +:+
              "/ after 30s of polling (5xx or connection refused). " +:+
              "Refusing to flip DDB — operator must investigate.")));
  _ ← clean_source source tid;
  _ ← do_ (UpdateItem Tenants tid (recovered_actions target_id backup_key vm_num) None RvNone);
  _ ← _bump_target_counters target_id vm_num vcpu mem_mb;
  _emit_audit "AZ_FAILOVER_TENANT_RECOVERED"
    [("tenant_id", VStr tid); ("from_az", source_az); ("to_host", VStr target_id);
     ("to_az", get_or target_host "az" (VStr "")); ("restored_from", VStr backup_key)].

Definition failure_status (err : string) : string :=
  if contains_any ["ALB repoint failed"; "dashboard not reachable"; "no private_ip"] err
  then "failover_failed_partial" else "failover_failed".

Definition fail_tenant (tid status err : string) : aws_op :=
  UpdateItem Tenants tid
    [SET "status" (Lit (VStr status)); SET "failover_error" (Lit (VStr err))] None RvNone.

Definition _execute_failover (t target_host : item) (source_az : val) (backup_key : string)
    (target_vm_num : Z) : M bool :=
  tid ← lift (tenant_id_of t);
  vcpu ← lift (int_or t "vcpu" 2);
  mem_mb ← lift (int_or t "mem_mb" 4096);
  target_id ← lift (instance_id target_host);
  let source := v_or (get_or t "host_id" (VStr "")) (get_or t "previous_host_id" (VStr "")) in
  r ← attempt (fo_steps t tid target_id target_host source_az backup_key target_vm_num vcpu mem_mb source);
  match r with
  | inl _ => mret true
  | inr e =>
      let err := exn_str e in
      let status := failure_status err in
      _ ← (try_ (_ ← do_ (fail_tenant tid status (str_take 500 err)); mret tt) except _ => mret tt);
      _ ← _emit_audit "AZ_FAILOVER_TENANT_FAILED"
            [("tenant_id", VStr tid); ("error", VStr (str_take 200 err)); ("status_set", VStr status)];
      mret false
  end.

(** ** Claims *)

(** A tenant without a backup is not moved: its data would be lost. *)
Definition refuse_no_backup (tid : string) (source_az : val) : M unit :=
  _ ← _emit_audit "AZ_FAILOVER_NO_BACKUP"
        [("tenant_id", VStr tid); ("from_az", source_az);
         ("reason", VStr "no backup available — failover refused to avoid data loss")];
  _ ← (try_ (_ ← do_ (fail_tenant tid "failover_blocked" "no_backup_available"); mret tt) except _ => mret tt);
  if nonempty SNS_TOPIC_ARN then
    try_ (do_ (SnsPublish SNS_TOPIC_ARN ("[OpenClaw] AZ failover BLOCKED: " +:+ tid +:+ " has no backup")
            (VDict [("event", VStr "az_failover_blocked"); ("tenant_id", VStr tid);
                    ("reason", VStr "no_backup_available"); ("source_az", source_az);
                    ("action_required", VStr "manual recovery — restore from snapshot or accept data loss")])))
    except _ => mret tt
  else mret tt.

Definition claim_actions (source source_az : val) (now_iso status : string) : list action := [
  SET "previous_host_id" (Lit source); SET "failover_from_az" (Lit source_az);
  SET "failover_at" (Lit (VStr now_iso)); SET "status" (Lit (VStr status))].

(** A conditional update: [false] when the condition does not hold. *)
Definition claim (tid : string) (acts : list action) (c : cond) : M bool :=
  r ← attempt (do_ (UpdateItem Tenants tid acts (Some c) RvNone));
  match r with
  | inl _ => mret true
  | inr e => if conditional_failed e then mret false else raise e
  end.

Definition skipped_concurrent (tid : string) (source_az : val) : M unit :=
  _emit_audit "AZ_FAILOVER_SKIPPED_CONCURRENT" [("tenant_id", VStr tid); ("from_az", source_az)].

Definition _failover_tenant_to_host (t target_host : item) (source_az : val) (now : Z) : M fo_outcome :=
  tid ← lift (tenant_id_of t);
  target_vm_num ← lift (int_or target_host "next_vm_num" 1);
  let source := get_or t "host_id" (VStr "") in
  backup_key ← _find_latest_backup_key tid;
  match backup_key with
  | None => _ ← refuse_no_backup tid source_az; mret FoBlocked
  | Some backup_key =>
      if negb (nonempty backup_key) then _ ← refuse_no_backup tid source_az; mret FoBlocked
      else
        claimed ← claim tid (claim_actions source source_az (isoformat now) "failover_recovering")
                    (CEq (Attr "host_id") (Lit source));
        if negb (claimed : bool) then _ ← skipped_concurrent tid source_az; mret FoFailed
        else
          ok ← _execute_failover t target_host source_az backup_key target_vm_num;
          mret (if ok : bool then Recovered else FoFailed)
  end.

Definition _reserve_target_vm_num (target_host_id : string) : M Z :=
  try_ (attrs ← do_ (UpdateItem Hosts target_host_id
          [SET "next_vm_num" (Add (IfNotExists "next_vm_num" (VInt 1)) (Lit (VInt 1)))] None UpdatedOld);
        match get (default ∅ (attrs : option item)) "next_vm_num" with
        | VNone => mret 1
        | old => lift (py_int old)
        end)
  except _ => mret 1.

Definition job (tid : string) (source_az source : val) (target_id : string) (vm_num : Z)
    (backup_key now_iso : string) : val :=
  VDict [("tenant_id", VStr tid); ("source_az", source_az); ("source_host_id", source);
         ("target_host_id", VStr target_id); ("target_vm_num", VInt vm_num);
         ("backup_key", VStr backup_key); ("queued_at", VStr now_iso)].

Definition _enqueue_failover (t target_host : item) (source_az : val) (now : Z) : M fo_outcome :=
  tid ← lift (tenant_id_of t);
  let source := get_or t "host_id" (VStr "") in
  target_id ← lift (instance_id target_host);
  backup_key ← _find_latest_backup_key tid;
  match backup_key with
  | None => _ ← refuse_no_backup tid source_az; mret FoBlocked
  | Some backup_key =>
      if negb (nonempty backup_key) then _ ← refuse_no_backup tid source_az; mret FoBlocked
      else
        claimed ← claim tid (claim_actions source source_az (isoformat now) "failover_queued")
                    (CAnd (CEq (Attr "host_id") (Lit source)) (CEq (Attr "status") (Lit (VStr "running"))));
        if negb (claimed : bool) then _ ← skipped_concurrent tid source_az; mret FoFailed
        else
          vm_num ← _reserve_target_vm_num target_id;
          r ← attempt (do_ (SqsSend FAILOVER_QUEUE_URL
                (job tid source_az source target_id vm_num backup_key (isoformat now))));
          match r with
          | inr e =>
              _ ← _emit_audit "AZ_FAILOVER_ENQUEUE_FAILED"
                    [("tenant_id", VStr tid); ("error", VStr (str_take 200 (exn_str e)))];
              mret FoFailed
          | inl _ =>
              _ ← _emit_audit "AZ_FAILOVER_TENANT_QUEUED"
                    [("tenant_id", VStr tid); ("from_az", source_az);
                     ("to_host", VStr target_id); ("target_vm_num", VInt vm_num)];
              mret FoQueued
          end
  end.

(** ** Watchdog of the claimed tenants *)

Definition in_failover : cond :=
  COr (CEq (Attr "status") (Lit (VStr "failover_queued"))) (CEq (Attr "status") (Lit (VStr "failover_recovering"))).

Definition reap_stuck (now : Z) (t : item) : M unit :=
  let at_ := get_or t "failover_at" (VStr "") in
  let fresh := truthy at_ && match elapsed_us now at_ with
                             | Ok us => us <? seconds (FAILOVER_WATCHDOG_MINUTES * 60)
                             | _ => false
                             end in
  if fresh then mret tt
  else
    tid ← lift (tenant_id_of t);
    try_ (_ ← do_ (UpdateItem Tenants tid
            [SET "status" (Lit (VStr "failover_failed"));
             SET "failover_error" (Lit (VStr ("watchdog: stuck > " +:+ pretty FAILOVER_WATCHDOG_MINUTES +:+ "min")))]
            (Some in_failover) RvNone);
          _emit_audit "AZ_FAILOVER_WATCHDOG_REAPED" [("tenant_id", VStr tid); ("stuck_since", at_)])
    except _ => mret tt.

Definition _sweep_stuck_failovers (now : Z) : M unit :=
  stuck ← _scan_all Tenants (Some in_failover);
  for_each stuck (reap_stuck now).
End Failover.
