(* ===== verification/MigrationAccounting.v ===== *)
(** * Migration and failover: capacity accounting

    A migration moves a tenant's share from the counters of its source to those
    of its target and keeps the accounting of every host; a failover books the
    target only: what its source carried stays on the source's counters. *)

From S2P Require Import Prelude Py Effects Aws Iso Ddb Config Validate Ssm Capacity AuditLog Rbac Placement Alb Tenants Actions Accounting ActionsAccounting Balance Hosts Health Gates Migration MigrationSafety Failover.

Section MigrationAccounting.
Context `{HcConfig}.

(** The tables while a tenant is on its way: the accounting holds, the
    tenant's row is live and has the identity, size and host of [t], and the
    rows of the hosts [hs] exist. *)
Definition in_flight (t : item) (tid : string) (hs : list string) (d : db) : Prop :=
  accounted d /\
  (exists cur, db_get d Tenants tid = Some cur /\ is_str (get cur "status") "deleted" = false /\
     forall k, k ∈ kept -> cur !! k = t !! k) /\
  (forall i, i ∈ hs -> is_Some (db_get d Hosts i)).

(** The hosts of a migration. *)
Definition move_hosts (t : item) (src : string) : list string :=
  src :: match t !! "migration_target" with Some (VStr i) => [i] | _ => [] end.

Lemma in_flight_rows t tid hs : on_rows (in_flight t tid hs).
Proof.
  intros d d' E1 E2 (Ha & Hcur & Hs). unfold in_flight, db_get. rewrite E1, E2.
  split; [|done]. by apply (accounted_rows d).
Qed.
Lemma in_flight_accounted t tid hs d : in_flight t tid hs d -> accounted d.
Proof. by intros [? _]. Qed.
#[local] Hint Resolve in_flight_rows in_flight_accounted : core.

Lemma in_flight_update t tid hs acts rv d :
  in_flight t tid hs d ->
  (forall cur new, is_str (get cur "status") "deleted" = false ->
     apply_actions cur acts cur = Ok new -> neutral cur new) ->
  after (in_flight t tid hs) (do_ (UpdateItem Tenants tid acts None rv)) d.
Proof.
  intros (Ha & (cur & Hc & Hl & Hk) & Hs) Hn. unfold after. do_call. intros r d'.
  cbn [dynamo_step]. unfold update_row. rewrite Hc. cbn [cond_holds base_item default]. unfold id.
  destruct (apply_actions cur acts cur) as [new|e|] eqn:Ea; [| |done]; intros [-> ->]; [|by split_and!; eauto].
  destruct (Hn _ _ Hl Ea) as [Hkeep Hlive]. split; [by apply (neutral_accounted _ _ cur)|].
  split; [|by unfold db_get; rewrite db_rows_set_ne]. exists new.
  split; [unfold db_get; by rewrite db_rows_set_eq, lookup_insert_eq|]. split; [done|].
  intros k Hin. rewrite Hkeep by done. by apply Hk.
Qed.

Lemma aside_emit op d : aside (_emit_audit op d).
Proof. unfold _emit_audit. destruct (hc_object d). apply aside_audit. Qed.

Lemma emit_ok op d : awp (_emit_audit op d) (fun o _ => o = Ok tt).
Proof. unfold _emit_audit. destruct (hc_object d). apply put_audit_row_ok. Qed.

Lemma flight_quiet {A} t tid hs (p : M A) d : quiet p -> in_flight t tid hs d -> after (in_flight t tid hs) p d.
Proof. intros. apply after_aside; auto using aside_quiet. Qed.
Lemma flight_bind {A B} t tid hs (p : M A) (f : A -> M B) d :
  after (in_flight t tid hs) p d ->
  (forall a d', in_flight t tid hs d' -> after (in_flight t tid hs) (f a) d') ->
  after (in_flight t tid hs) (p ≫= f) d.
Proof. intros Hp Hf. by apply (after_seq (in_flight t tid hs)). Qed.

Lemma flight_rollback t tid hs reason d :
  tenant_id_of t = Ok tid -> in_flight t tid hs d -> after (in_flight t tid hs) (_rollback_migration t reason) d.
Proof.
  intros Hid Hd. unfold _rollback_migration. rewrite Hid. apply after_bind. do_ret. cbn zeta.
  apply flight_bind; [|intros _ d1 Hd1].
  { apply flight_quiet; [|done]. unfold relaunch_source. repeat first [apply quiet_send_hc|quiet_step]. }
  apply flight_bind; [by apply flight_quiet; [quiet|]|intros now d2 Hd2].
  apply flight_bind; [|intros _ d3 Hd3; apply after_aside; auto using aside_emit].
  apply in_flight_update; [done|]. intros cur new Hl. unfold rolled_back. apply neutral_update; [untouched|done].
Qed.

Lemma flight_watchdog t tid hs now d :
  tenant_id_of t = Ok tid -> in_flight t tid hs d -> after (in_flight t tid hs) (migration_watchdog t now) d.
Proof.
  intros Hid Hd. unfold migration_watchdog. cbn zeta. destruct (truthy _); [|done].
  apply after_catch; [|by intros]. apply flight_bind; [by apply flight_quiet; [quiet|]|intros us d1 Hd1].
  destruct (_ <? _); [|done]. apply flight_bind; [by apply flight_rollback|done].
Qed.

Lemma flight_snapshot t tid hs n d :
  tenant_id_of t = Ok tid -> in_flight t tid hs d -> after (in_flight t tid hs) (advance_snapshot t tid n) d.
Proof.
  intros Hid Hd. unfold advance_snapshot. cbn zeta. destruct (negb _); [by apply flight_rollback|].
  apply flight_bind; [by apply flight_quiet; [apply quiet_poll|]|intros [dn ok] d1 Hd1].
  destruct (negb dn); [done|]. destruct (negb ok); [by apply flight_rollback|].
  apply flight_bind; [by apply flight_quiet; [apply quiet_send_hc|]|intros [c|] d2 Hd2]; [|by apply flight_rollback].
  destruct (negb _); [by apply flight_rollback|].
  apply flight_bind; [by apply flight_quiet; [quiet|]|intros now d3 Hd3].
  apply flight_bind; [|done]. apply in_flight_update; [done|]. intros cur new Hl.
  apply neutral_update_status; [untouched|done].
Qed.

Lemma flight_reroute t tid hs i d :
  tenant_id_of t = Ok tid -> in_flight t tid hs d -> after (in_flight t tid hs) (reroute t tid i) d.
Proof.
  intros Hid Hd. unfold reroute. apply after_get. cbn zeta. destruct host_tg_mode.
  - apply flight_bind; [|done]. apply flight_quiet; [|done]. unfold drop_peer_conf.
    apply quiet_bind; [apply quiet_send_hc|intros; quiet].
  - apply flight_bind.
    + apply after_attempt. destruct (truthy _).
      * apply flight_bind; [by apply flight_quiet; [apply quiet_repoint|]|done].
      * apply flight_bind; [by apply flight_rollback|done].
    + intros [b|e] d1 Hd1; [done|]. apply flight_bind; [by apply flight_rollback|done].
Qed.

(** ** The move of a share *)

(** The size of the tenant, on the host [h]. *)
Definition at_host (sz : Z * Z * Z) (h i : string) : Z * Z * Z := if decide (i = h) then sz else (0, 0, 0).

Lemma shares_at it i hid v m :
  it !! "host_id" = Some (VStr hid) -> is_str (get it "status") "deleted" = false ->
  it !! "vcpu" = Some (VInt v) -> it !! "mem_mb" = Some (VInt m) ->
  shares i (Some it) = at_host (v, m, 1) hid i.
Proof.
  intros Hh Hl Hv Hm. unfold shares, at_host, share, occupies. rewrite Hl, andb_true_r.
  unfold get at 1, get_or at 1. unfold get at 1, get_or at 1. unfold get at 1, get_or at 1. rewrite Hh. cbn.
  unfold int_field. rewrite Hv, Hm.
  destruct (decide (i = hid)) as [->|]; [by rewrite bool_decide_eq_true_2|by rewrite bool_decide_eq_false_2 by congruence].
Qed.

(** A write that gives the row another host. *)
Lemma relocate_step tid cur acts rv src tgt v m d r d' :
  accounted d -> db_get d Tenants tid = Some cur -> is_str (get cur "status") "deleted" = false ->
  cur !! "host_id" = Some (VStr src) -> cur !! "vcpu" = Some (VInt v) -> cur !! "mem_mb" = Some (VInt m) ->
  (forall new, apply_actions cur acts cur = Ok new ->
     new !! "host_id" = Some (VStr tgt) /\ is_str (get new "status") "deleted" = false /\
     forall k, k ∈ ["id"; "vcpu"; "mem_mb"] -> new !! k = cur !! k) ->
  dynamo_step (UpdateItem Tenants tid acts None rv) d r d' ->
  match r with
  | inl _ => balanced d' (fun i => minus3 (at_host (v, m, 1) src i) (at_host (v, m, 1) tgt i)) /\
             db_rows d' Hosts = db_rows d Hosts
  | inr _ => d' = d
  end.
Proof.
  intros Ha Hc Hl Hh Hv Hm Hn. cbn [dynamo_step]. unfold update_row. rewrite Hc. cbn [cond_holds base_item default]. unfold id.
  destruct (apply_actions cur acts cur) as [new|e|] eqn:Ea; [| |done]; intros [-> ->]; [|done].
  destruct (Hn _ eq_refl) as (Hh' & Hl' & Hk). split; [|by apply db_rows_set_ne].
  apply (balanced_ext _ (fun i => minus3 (plus3 (0, 0, 0) (shares i (db_get d Tenants tid))) (shares i (Some new)))).
  { intros i _. rewrite Hc, (shares_at cur i src v m), (shares_at new i tgt v m); try done; try (rewrite Hk; [done|set_solver]). }
  apply (balanced_tenant d (fun _ => (0, 0, 0)) tid new); [by apply accounted_balanced|].
  destruct (proj2 Ha tid cur Hc) as (H1 & H2 & H3). unfold tenant_row. by rewrite !Hk by set_solver.
Qed.

Ltac offsets := let i := fresh "i" in intros i _; unfold add_at, at_host, minus3, plus3;
  repeat (case_decide; subst); cbn; repeat f_equal; lia.

Lemma plus_row v m row uv um n next :
  host_row row uv um n next -> exists new next',
    apply_actions row [plus_counter "vm_count" 1; plus_counter "used_vcpu" v; plus_counter "used_mem_mb" m] row = Ok new /\
    new !! "instance_id" = row !! "instance_id" /\
    host_row new (uv + v) (um + m) (n + 1) next'.
Proof.
  intros [H1 H2 H3 H4]. cbn. rewrite H1, H2, H3. cbn. eexists _, next. split; [done|].
  split; [by rewrite !lookup_insert_ne|]. split; by simplify_map_eq.
Qed.
Lemma minus_row v m row uv um n next :
  host_row row uv um n next -> exists new next',
    apply_actions row [minus_counter "used_vcpu" v; minus_counter "used_mem_mb" m; minus_counter "vm_count" 1] row = Ok new /\
    new !! "instance_id" = row !! "instance_id" /\
    host_row new (uv + - v) (um + - m) (n + - 1) next'.
Proof.
  intros [H1 H2 H3 H4]. cbn. rewrite H1, H2, H3. cbn. eexists _, next. split; [done|].
  split; [by rewrite !lookup_insert_ne|]. rewrite !Z.add_opp_r. split; by simplify_map_eq.
Qed.

(** Booking the target settles its offset. *)
Lemma bump_balanced tgt n v m e d :
  balanced d (fun i => minus3 (e i) (at_host (v, m, 1) tgt i)) -> is_Some (db_get d Hosts tgt) ->
  wp (S := aws) dynamo_step (_bump_target_counters tgt n v m) d (fun o d' _ =>
    o = Ok tt /\ balanced d' e /\ db_rows d' Tenants = db_rows d Tenants).
Proof.
  intros Hb Hs. unfold _bump_target_counters. do_bind. do_catch. do_bind. do_call. intros r d1 Hst.
  destruct (counters_step tgt _ _ (v, m, 1) d _ r d1 Hb Hs (plus_row v m) Hst) as (Hb1 & Et & Hg).
  assert (balanced d1 e) as Hb1'.
  { revert Hb1. apply balanced_ext. intros i _. unfold add_at, at_host, minus3, plus3.
    destruct (e i) as [[a b] c]. case_decide; cbn; repeat f_equal; lia. }
  assert (wp (S := aws) dynamo_step (try_ (_ ← do_ (UpdateItem Hosts tgt
      [SET "next_vm_num" (Lit (VInt (n + 1)))] (Some (COr (CNotExists "next_vm_num")
         (CLt (Attr "next_vm_num") (Lit (VInt (n + 1)))))) RvNone); mret tt) except _ => mret tt) d1
      (fun o d' _ => o = Ok tt /\ balanced d' e /\ db_rows d' Tenants = db_rows d Tenants)) as Hnext.
  { do_catch. do_bind. do_call. intros r2 d2 Hst2.
    destruct (next_step _ _ _ _ _ _ _ _ Hb1' (Hg _ Hs) Hst2) as (Hb2 & Et2 & _).
    rewrite Et in Et2. by destruct r2; do_ret. }
  destruct r; do_ret; (eapply wp_mono; [exact Hnext|done]).
Qed.

(** Releasing the source settles its offset. *)
Lemma release_balanced src v m e d :
  balanced d (fun i => plus3 (at_host (v, m, 1) src i) (e i)) -> is_Some (db_get d Hosts src) ->
  wp (S := aws) dynamo_step (release_source (VStr src) v m) d (fun o d' _ =>
    o = Ok tt /\ balanced d' e /\ forall i, is_Some (db_get d Hosts i) -> is_Some (db_get d' Hosts i)).
Proof.
  intros Hb Hs. unfold release_source. cbn [truthy].
  assert (Hout : real_host src = false -> balanced d e).
  { intros Hu. revert Hb. apply balanced_ext. intros i Hi. unfold at_host, plus3. rewrite decide_False by congruence.
    by destruct (e i) as [[]]. }
  destruct (bool_decide_reflect (src = "")) as [->|Hne]; cbn [negb]; [do_ret; by split; [|split; [apply Hout|]]|].
  assert (as_key (VStr src) = Ok src) as -> by (cbn; by rewrite bool_decide_eq_false_2).
  do_catch. do_bind. do_ret. do_bind. do_call. intros r d1 Hst.
  destruct (counters_step src _ _ (- v, - m, - 1) d _ r d1 Hb Hs (minus_row v m) Hst) as (Hb1 & _ & Hg).
  assert (balanced d1 e /\ forall i, is_Some (db_get d Hosts i) -> is_Some (db_get d1 Hosts i)) as Hd1.
  { split; [|done]. revert Hb1. apply balanced_ext. intros i _. unfold add_at, at_host, plus3.
    destruct (e i) as [[a b] c]. case_decide; cbn; repeat f_equal; lia. }
  by destruct r; do_ret.
Qed.

Lemma moved_row target now n cur new :
  apply_actions cur (moved target now n) cur = Ok new ->
  new !! "host_id" = Some (VStr target) /\ is_str (get new "status") "deleted" = false /\
  forall k, k ∈ ["id"; "vcpu"; "mem_mb"] -> new !! k = cur !! k.
Proof.
  unfold moved. cbn [apply_actions eval mbind outcome_bind]. intros Hn.
  split; [|split].
  - rewrite (apply_untouched _ _ _ _ _ Hn) by (vm_compute; set_solver). by simplify_map_eq.
  - unfold get, get_or. rewrite (apply_untouched _ _ _ _ _ Hn) by (vm_compute; set_solver). by simplify_map_eq.
  - intros k Hk. rewrite (apply_untouched _ _ _ _ _ Hn).
    + rewrite !lookup_insert_ne; [done|..]; intros <-; vm_compute in Hk; set_solver.
    + intros Hin. rewrite !elem_of_cons in Hk. destruct Hk as [->|[->|[->|Hk]]]; [vm_compute in Hin; set_solver..|set_solver].
Qed.

(** The row of the tenant, as the sweep read it. *)
Definition moves_from (t : item) (tid src : string) : Prop :=
  tenant_row tid t /\ t !! "host_id" = Some (VStr src) /\ t !! "migration_source" = Some (VStr src).

Lemma kept_same (cur t : item) :
  (forall k, k ∈ kept -> cur !! k = t !! k) ->
  cur !! "host_id" = t !! "host_id" /\ cur !! "vcpu" = t !! "vcpu" /\ cur !! "mem_mb" = t !! "mem_mb".
Proof. unfold kept. intros Hk. split_and!; apply Hk; set_solver. Qed.

Lemma complete_move_accounted t tid src tgt hs n vm d :
  moves_from t tid src -> src ∈ hs -> tgt ∈ hs ->
  in_flight t tid hs d -> after accounted (complete_move t tid tgt n vm) d.
Proof.
  intros ((Hid & [v Hv] & [m Hm]) & Hh & Hsrc) Hs Ht Hd. pose proof Hd as (Ha & (cur & Hc & Hl & Hk) & Hhs).
  unfold complete_move. unfold get_or. rewrite Hv, Hm, Hsrc. cbn [default from_option]. unfold id.
  change (py_int (VInt v)) with (Ok v). change (py_int (VInt m)) with (Ok m).
  apply after_bind. do_ret. apply after_bind. do_ret. apply after_bind. apply wp_now. intros us. cbn beta match.
  apply after_bind. do_call. intros r d1 Hst.
  assert (Hst' := relocate_step tid cur _ _ src tgt v m d r d1 Ha Hc Hl).
  destruct (kept_same _ _ Hk) as (K1 & K2 & K3). rewrite K1, K2, K3 in Hst'.
  specialize (Hst' Hh Hv Hm (moved_row _ _ _ _) Hst). destruct r as [x|e]; [|cbn beta match; by rewrite Hst'].
  destruct Hst' as [Hb1 Eh]. cbn beta match. pose (e1 i := minus3 (0, 0, 0) (at_host (v, m, 1) tgt i)).
  assert (forall i, is_Some (db_get d Hosts i) -> is_Some (db_get d1 Hosts i)) as Hg by (unfold db_get; by rewrite Eh).
  apply after_bind. eapply wp_mono; [apply (release_balanced src v m e1)|].
  { revert Hb1. apply balanced_ext. intros i _. unfold e1, plus3, minus3, at_host. by repeat case_decide; cbn. }
  { by apply Hg, Hhs. }
  intros o d2 tr (-> & Hb2 & Hg2). cbn beta match.
  apply (after_seq accounted); [|done|].
  - eapply wp_mono; [apply (bump_balanced tgt n v m (fun _ => (0, 0, 0))); [exact Hb2|by apply Hg2, Hg, Hhs]|].
    intros o' d3 t' (_ & Hb3 & _). by apply accounted_balanced.
  - intros _ d3 Hd3. apply after_aside; [apply accounted_rows| |done].
    apply aside_bind; [|intros; apply aside_emit]. apply aside_quiet. destruct (truthy _); [|quiet].
    apply quiet_bind; [apply quiet_send_hc|intros; quiet].
Qed.

Lemma flight_to {A B} t tid hs (p : M A) (f : A -> M B) d :
  after (in_flight t tid hs) p d ->
  (forall a d', in_flight t tid hs d' -> after accounted (f a) d') -> after accounted (p ≫= f) d.
Proof. intros Hp Hf. apply (after_seq (in_flight t tid hs)); eauto. Qed.
Lemma flight_end {A} t tid hs (p : M A) d : after (in_flight t tid hs) p d -> after accounted p d.
Proof. intros Hp. eapply wp_mono; [apply Hp|]. intros o d' tr. apply in_flight_accounted. Qed.

Lemma advance_restore_accounted t tid src n vm d :
  tenant_id_of t = Ok tid -> moves_from t tid src -> in_flight t tid (move_hosts t src) d ->
  after accounted (advance_restore t tid n vm) d.
Proof.
  intros Hid Hm Hd. unfold advance_restore. cbn zeta.
  destruct (negb (truthy _)); [by eapply flight_end, flight_rollback|].
  eapply flight_to; [apply flight_quiet; [apply quiet_poll|exact Hd]|intros [dn ok] d1 Hd1].
  destruct (negb dn); [by eapply flight_end, flight_quiet; [quiet|]|].
  destruct (negb ok); [by eapply flight_end, flight_rollback|].
  destruct (as_key (get_or t "migration_target" (VStr ""))) as [tgt|e|] eqn:Ek;
    [|apply after_bind; do_ret; by eapply in_flight_accounted..].
  apply after_bind. do_ret.
  assert (t !! "migration_target" = Some (VStr tgt)) as Ht.
  { unfold get_or in Ek. destruct (t !! "migration_target") as [[| | | |s| |]|]; cbn in Ek; try done.
    destruct (bool_decide (s = "")); [done|]. by injection Ek as ->. }
  eapply flight_to; [apply flight_reroute; [done|exact Hd1]|intros routed d2 Hd2].
  destruct (negb routed); [by eapply flight_end, flight_quiet; [quiet|]|].
  eapply flight_to; [apply flight_quiet; [apply quiet_dashboard|exact Hd2]|intros up d3 Hd3].
  destruct up; [by eapply complete_move_accounted; [..|exact Hd3]; [done|unfold move_hosts; rewrite ?Ht; set_solver..]|by eapply flight_end, flight_rollback].
Qed.

Lemma advance_accounted t tid src now d :
  moves_from t tid src -> in_flight t tid (move_hosts t src) d -> after accounted (_advance_migration t now) d.
Proof.
  intros Hm Hd. unfold _advance_migration.
  destruct (tenant_id_of t) as [k|e|] eqn:Hid; [|apply after_bind; do_ret; by eapply in_flight_accounted..].
  assert (k = tid) as ->.
  { destruct Hm as ((Hk & _) & _). unfold tenant_id_of, req in Hid. rewrite Hk in Hid. cbn in Hid.
    by destruct (bool_decide (tid = "")); [|injection Hid]. }
  apply after_bind. do_ret. cbn zeta. destruct (negb (truthy _)); [by eapply flight_end, flight_quiet; [quiet|]|].
  eapply flight_to; [apply flight_quiet; [quiet|exact Hd]|intros n d1 Hd1].
  eapply flight_to; [apply flight_quiet; [quiet|exact Hd1]|intros vm d2 Hd2].
  eapply flight_to; [by apply flight_watchdog|intros stuck d3 Hd3].
  destruct stuck; [by eapply flight_end, flight_quiet; [quiet|]|].
  destruct (is_str _ "snapshot"); [by eapply flight_end, flight_snapshot|].
  destruct (is_str _ "restore"); [by eapply advance_restore_accounted|by eapply flight_end, flight_rollback].
Qed.

(** C7: Advancing a migration by a step, to any end - nothing to do, restore
    ordered, rollback, completion, an error anywhere - preserves the accounting
    of every host: on completion the share of the tenant leaves the counters of
    its source and enters those of its target, atomically on each row. *)
Theorem migration_accounted {W} (E : env aws W) (view : W -> db) (w : W) (t : item) (tid src : string) (now : Z) :
  obeys (S := aws) dynamo_step view E ->
  accounted (view w) ->
  db_get (view w) Tenants tid = Some t ->
  is_str (get t "status") "deleted" = false ->
  t !! "host_id" = Some (VStr src) ->
  t !! "migration_source" = Some (VStr src) ->
  is_Some (db_get (view w) Hosts src) ->
  (forall i, t !! "migration_target" = Some (VStr i) -> is_Some (db_get (view w) Hosts i)) ->
  accounted (view (run E (_advance_migration t now) w).1.2).
Proof.
  intros HE Ha Ht Hl Hh Hms Hs Htg.
  assert (moves_from t tid src) as Hm by (split; [by apply Ha|done]).
  assert (in_flight t tid (move_hosts t src) (view w)) as Hd.
  { split; [done|]. split; [by exists t|]. unfold move_hosts. intros i [->|Hi]%elem_of_cons; [done|].
    destruct (t !! "migration_target") as [[| | | |j| |]|]; set_solver. }
  pose proof (run_wp _ view E _ w _ HE (advance_accounted t tid src now (view w) Hm Hd)) as R.
  by destruct (run E _ w) as [[o w'] tr].
Qed.

(** ** Failover *)

Lemma quiet_wait c i a b : quiet (_wait_ssm_done c i a b).
Proof.
  unfold _wait_ssm_done, ssm_wait.
  assert (forall n d q l, quiet (ssm_wait_loop n c i d a q l)) as Hl.
  { intros n. induction n as [|n IH]; intros; cbn [ssm_wait_loop]; [quiet|]. repeat first [apply IH|quiet_step]. }
  repeat first [apply Hl|quiet_step].
Qed.
Lemma quiet_verify_vm h tid a b : quiet (_verify_vm_actually_running h tid a b).
Proof.
  unfold _verify_vm_actually_running.
  assert (forall n d p, quiet (verify_vm_loop n h tid d p)) as Hl.
  { intros n d p. induction n as [|n IH]; cbn [verify_vm_loop]; [quiet|]. unfold probe_vm.
    repeat first [apply quiet_wait|apply IH|quiet_step]. }
  repeat first [apply Hl|quiet_step].
Qed.
Lemma aside_catch {A} (p : M A) h : aside p -> (forall e, aside (h e)) -> aside (catch p h).
Proof. apply awp_all_events_catch. Qed.
Lemma aside_reroute tid tgt h : aside (fo_reroute tid tgt h).
Proof.
  unfold fo_reroute. destruct (_ && _); [|apply aside_quiet; quiet]. cbn zeta.
  destruct (negb _); [apply aside_quiet; quiet|]. apply aside_catch; [apply aside_quiet, quiet_repoint|].
  intros e. apply aside_bind; [apply aside_emit|intros; apply aside_quiet; quiet].
Qed.

(** What a recovery leaves: on success the tenant is on the target, whose
    counters are in order, while the source still carries the tenant's size;
    the tables are as accounted for otherwise. *)
Definition recovered (t : item) (tid src tgt : string) (sz : Z * Z * Z) {A} (o : outcome A) (d : db) : Prop :=
  match o with
  | Ok _ => balanced d (at_host sz src) /\
            (db_get d Tenants tid ≫= fun it => it !! "host_id") = Some (VStr tgt)
  | _ => in_flight t tid [tgt] d
  end.

Lemma recovered_bind {A B} t tid src tgt sz (p : M A) (f : A -> M B) d :
  aside p -> in_flight t tid [tgt] d ->
  (forall a d', in_flight t tid [tgt] d' -> wp (S := aws) dynamo_step (f a) d' (fun o d'' _ => recovered t tid src tgt sz o d'')) ->
  wp (S := aws) dynamo_step (p ≫= f) d (fun o d' _ => recovered t tid src tgt sz o d').
Proof.
  intros Hp Hd Hf. apply (wp_prefix (in_flight t tid [tgt])); [by apply after_aside; auto|done|done|done].
Qed.

Lemma recovered_row target bk n cur new :
  apply_actions cur (recovered_actions target bk n) cur = Ok new ->
  new !! "host_id" = Some (VStr target) /\ is_str (get new "status") "deleted" = false /\
  forall k, k ∈ ["id"; "vcpu"; "mem_mb"] -> new !! k = cur !! k.
Proof.
  cbn. intros [= <-]. unfold get, get_or. split; [by simplify_map_eq|]. split; [by simplify_map_eq|].
  intros k Hk. rewrite !elem_of_cons in Hk. destruct Hk as [->|[->|[->|Hk]]]; [by simplify_map_eq..|set_solver].
Qed.

Lemma fo_steps_recovered t tid src tgt h az bk n v m source d :
  t !! "host_id" = Some (VStr src) -> t !! "vcpu" = Some (VInt v) -> t !! "mem_mb" = Some (VInt m) ->
  in_flight t tid [tgt] d ->
  wp (S := aws) dynamo_step (fo_steps t tid tgt h az bk n v m source) d
    (fun o d' _ => recovered t tid src tgt (v, m, 1) o d').
Proof.
  intros Hh Hv Hm Hd. unfold fo_steps, fo_launch.
  apply recovered_bind; [apply aside_quiet; repeat first [apply quiet_wait|quiet_step]|done|intros [ok err] d1 Hd1].
  apply recovered_bind; [apply aside_quiet; unfold drop_peer_conf; repeat first [apply quiet_send_hc|quiet_step]|done|intros _ d2 Hd2].
  apply recovered_bind; [apply aside_quiet, quiet_verify_vm|done|intros up d3 Hd3].
  apply recovered_bind; [apply aside_quiet; quiet|done|intros _ d4 Hd4].
  apply recovered_bind; [destruct ok; [apply aside_quiet; quiet|apply aside_emit]|done|intros _ d5 Hd5].
  apply recovered_bind; [apply aside_reroute|done|intros _ d6 Hd6].
  apply recovered_bind; [apply aside_quiet, quiet_dashboard|done|intros reach d7 Hd7].
  apply recovered_bind; [apply aside_quiet; quiet|done|intros _ d8 Hd8].
  apply recovered_bind; [apply aside_quiet; unfold clean_source; quiet|done|intros _ d9 Hd9].
  clear - Hh Hv Hm Hd9. pose proof Hd9 as (Ha & (cur & Hc & Hl & Hk) & Hhs).
  destruct (kept_same _ _ Hk) as (K1 & K2 & K3). rewrite <- K1 in Hh. rewrite <- K2 in Hv. rewrite <- K3 in Hm.
  do_bind. do_call. intros r d1 Hst.
  assert (Hst' := relocate_step tid cur _ _ src tgt v m d9 r d1 Ha Hc Hl Hh Hv Hm (recovered_row _ _ _ _) Hst).
  destruct r as [x|e]; [|by subst]. destruct Hst' as [Hb1 Eh]. cbn beta match.
  assert ((db_get d1 Tenants tid ≫= fun it => it !! "host_id") = Some (VStr tgt)) as Hrow.
  { cbn in Hst. unfold update_row in Hst. rewrite Hc in Hst. cbn in Hst. destruct Hst as [_ ->].
    unfold db_get. rewrite db_rows_set_eq, lookup_insert_eq. cbn. unfold id. by simplify_map_eq. }
  do_bind. eapply wp_mono; [apply (bump_balanced tgt n v m (at_host (v, m, 1) src)); [exact Hb1|]|].
  { unfold db_get. rewrite Eh. apply Hhs. set_solver. }
  intros o d2 tr (-> & Hb2 & Et). cbn beta match.
  eapply wp_mono; [apply wp_and; [apply (after_aside (fun d' => balanced d' (at_host (v, m, 1) src) /\
    (db_get d' Tenants tid ≫= fun it => it !! "host_id") = Some (VStr tgt)));
    [|apply aside_emit|]|apply (awp_wp _ _ _ (fun o _ => o = Ok tt)), emit_ok]|].
  - intros y z E1 E2 [Hy Hz]. split; [by apply (balanced_rows y)|]. unfold db_get. by rewrite E1.
  - split; [done|]. unfold db_get. by rewrite Et.
  - by intros o d3 tr' [Hd3 ->].
Qed.

Lemma int_or_present t k z d0 : t !! k = Some (VInt z) -> z <> 0 -> int_or t k d0 = Ok z.
Proof.
  intros Hk Hz. unfold int_or, get, get_or. rewrite Hk. cbn [default from_option]. unfold id, v_or. cbn [truthy].
  by rewrite (proj2 (Z.eqb_neq z 0) Hz).
Qed.

Lemma failure_status_live err : failure_status err <> "deleted".
Proof. unfold failure_status. by destruct (contains_any _ _). Qed.

(** The outcome of a failover and the tables after it. *)
Definition failed_over (tid src tgt : string) (sz : Z * Z * Z) (o : outcome bool) (d : db) : Prop :=
  match o with
  | Ok true => balanced d (at_host sz src) /\
               (db_get d Tenants tid ≫= fun it => it !! "host_id") = Some (VStr tgt)
  | Ok false | NoFuel => accounted d
  | Exn _ => False
  end.

Lemma execute_failover_spec t tid src tgt h az bk n v m d :
  tenant_id_of t = Ok tid -> instance_id h = Ok tgt ->
  t !! "host_id" = Some (VStr src) -> t !! "vcpu" = Some (VInt v) -> t !! "mem_mb" = Some (VInt m) ->
  v <> 0 -> m <> 0 -> in_flight t tid [tgt] d ->
  wp (S := aws) dynamo_step (_execute_failover t h az bk n) d (fun o d' _ => failed_over tid src tgt (v, m, 1) o d').
Proof.
  intros Hid Hi Hh Hv Hm Hv0 Hm0 Hd. unfold _execute_failover.
  rewrite Hid, (int_or_present t "vcpu" v), (int_or_present t "mem_mb" m), Hi by done.
  do_bind. do_ret. do_bind. do_ret. do_bind. do_ret. do_bind. do_ret. cbn zeta.
  do_bind. do_attempt. eapply wp_mono; [by apply (fo_steps_recovered t tid src tgt h az bk n v m)|].
  intros [[]|e|] d1 tr Hd1; cbn beta match; [by do_ret| |by eapply in_flight_accounted].
  do_bind. do_catch. do_bind.
  eapply wp_mono; [apply (in_flight_update t tid [tgt]); [exact Hd1|]|].
  { intros cur new Hl. apply neutral_update; [untouched|apply failure_status_live]. }
  assert (Haudit : forall d2, in_flight t tid [tgt] d2 ->
    wp (S := aws) dynamo_step (_ ← _emit_audit "AZ_FAILOVER_TENANT_FAILED"
            [("tenant_id", VStr tid); ("error", VStr (str_take 200 (exn_str e)));
             ("status_set", VStr (failure_status (exn_str e)))]; mret false) d2
      (fun o d' _ => failed_over tid src tgt (v, m, 1) o d')).
  { intros d2 Hd2. do_bind. eapply wp_mono; [apply wp_and; [apply (after_aside (in_flight t tid [tgt]));
      [auto|apply aside_emit|exact Hd2]|apply (awp_wp _ _ _ (fun o _ => o = Ok tt)), emit_ok]|].
    intros o d3 tr3 [Hd3 ->]. do_ret. by eapply in_flight_accounted. }
  intros [x|e'|] d2 tr2 Hd2; cbn beta match; try do_ret; try (by eapply in_flight_accounted);
    (eapply wp_mono; [by apply Haudit|done]).
Qed.

(** C15: A failover ends with a verdict, never with an exception.  When it
    reports success the tenant is on the target and the counters of every host
    are the sums over its tenants, except that those of the source still carry
    the size of the tenant that left it; when it reports failure the accounting
    is as it was. *)
Theorem failover_accounting {W} (E : env aws W) (view : W -> db) (w : W) (t cur target_host : item)
    (tid src tgt backup_key : string) (source_az : val) (n v m : Z) :
  obeys (S := aws) dynamo_step view E ->
  accounted (view w) ->
  tenant_id_of t = Ok tid -> instance_id target_host = Ok tgt ->
  db_get (view w) Tenants tid = Some cur -> is_str (get cur "status") "deleted" = false ->
  (forall k, k ∈ kept -> cur !! k = t !! k) ->
  t !! "host_id" = Some (VStr src) -> t !! "vcpu" = Some (VInt v) -> t !! "mem_mb" = Some (VInt m) ->
  v <> 0 -> m <> 0 -> is_Some (db_get (view w) Hosts tgt) ->
  let '(o, w', _) := run E (_execute_failover t target_host source_az backup_key n) w in
  failed_over tid src tgt (v, m, 1) o (view w').
Proof.
  intros HE Ha Hid Hi Hc Hl Hk Hh Hv Hm Hv0 Hm0 Htg.
  apply (run_wp _ view E _ w (fun o d' _ => failed_over tid src tgt (v, m, 1) o d') HE).
  apply execute_failover_spec; try done. split; [done|]. split; [by exists cur|].
  by intros i ->%list_elem_of_singleton.
Qed.
End MigrationAccounting.

(** ** Witnesses *)

(** A tenant whose restore on a second host was ordered. *)
Definition moving_tenant : item := list_to_map [
  ("id", VStr "web-1a2b"); ("host_id", VStr "i-1"); ("status", VStr "migrating"); ("vm_num", VInt 1);
  ("vcpu", VInt 2); ("mem_mb", VInt 4096); ("migration_phase", VStr "restore"); ("migration_source", VStr "i-1");
  ("migration_target", VStr "i-2"); ("migration_target_vm_num", VInt 4); ("migration_restore_cmd", VStr "cmd-9")].
Definition second_host : item := list_to_map [
  ("instance_id", VStr "i-2"); ("status", VStr "active"); ("private_ip", VStr "10.0.0.6");
  ("total_vcpu", VInt 8); ("total_mem_mb", VInt 16384);
  ("used_vcpu", VInt 0); ("used_mem_mb", VInt 0); ("vm_count", VInt 0); ("next_vm_num", VInt 1)].
Definition moving_db : db := Db (fun t => match t with
  | Hosts => {["i-1" := acc_host; "i-2" := second_host]} | Tenants => {["web-1a2b" := moving_tenant]} | _ => ∅ end).

Lemma moving_db_accounted : accounted moving_db.
Proof.
  split.
  - intros i r Hr Hreal. unfold db_get in Hr. cbn [moving_db db_rows] in Hr.
    apply lookup_insert_Some in Hr as [[<- <-]|[Hne Hr]]; [|apply lookup_singleton_Some in Hr as [<- <-]];
      (split; [vm_decide|]); [exists 2|exists 1]; split; vm_decide.
  - intros tid it Hit. unfold db_get in Hit. cbn [moving_db db_rows] in Hit. apply lookup_singleton_Some in Hit as [<- <-].
    split; [vm_decide|]. split; eexists; vm_compute; reflexivity.
Qed.

(** Commands succeed and the public URL answers. *)
Definition moving_service (c : aws_op) (tick : nat) : aws_reply c + exn :=
  match c as c return aws_reply c + exn with
  | HttpGet _ => inl (HttpResponse 200)
  | TimeTime => inl (Z.of_nat tick)
  | c => sample_service c tick
  end.

Lemma migration_accounted_witness :
  let w := (run (mem_env 1 moving_service)
    (_advance_migration (H := sample_hc) moving_tenant 1000) (Mem moving_db 0)).1.2 in
  accounted (mem_db w) /\
  (db_get (mem_db w) Tenants "web-1a2b" ≫= fun t => t !! "host_id") = Some (VStr "i-2").
Proof.
  split; [|vm_decide].
  apply (migration_accounted (H := sample_hc) (mem_env 1 moving_service) mem_db (Mem moving_db 0) moving_tenant "web-1a2b" "i-1").
  - apply mem_env_obeys.
  - apply moving_db_accounted.
  - vm_decide.
  - vm_decide.
  - vm_decide.
  - vm_decide.
  - vm_decide.
  - intros i Hi. assert (i = "i-2") as -> by (vm_compute in Hi; congruence). vm_decide.
Defined.

(** The probe of the VM reports it verified. *)
Definition failover_service (c : aws_op) (tick : nat) : aws_reply c + exn :=
  match c as c return aws_reply c + exn with
  | GetCommandInvocation _ _ => inl (Invocation (Some "Success") (Some "VERIFIED_HTTP_200") None)
  | c => moving_service c tick
  end.

Lemma failover_accounting_witness :
  let '(o, w', _) := run (mem_env 1 failover_service)
    (_execute_failover (H := sample_hc) moving_tenant second_host (VStr "az-a") "backups/web-1a2b/1.gz" 4) (Mem moving_db 0) in
  failed_over "web-1a2b" "i-1" "i-2" (2, 4096, 1) o (mem_db w') /\ o = Ok true.
Proof.
  pose proof (failover_accounting (H := sample_hc) (mem_env 1 failover_service) mem_db (Mem moving_db 0) moving_tenant
    moving_tenant second_host "web-1a2b" "i-1" "i-2" "backups/web-1a2b/1.gz" (VStr "az-a") 4 2 4096) as Hf.
  assert ((run (mem_env 1 failover_service)
    (_execute_failover (H := sample_hc) moving_tenant second_host (VStr "az-a") "backups/web-1a2b/1.gz" 4)
    (Mem moving_db 0)).1.1 = Ok true) as Ho by vm_decide.
  destruct (run (mem_env 1 failover_service) _ (Mem moving_db 0)) as [[o w'] tr]. split; [apply Hf|exact Ho].
  - apply mem_env_obeys.
  - apply moving_db_accounted.
  - vm_decide.
  - vm_decide.
  - vm_decide.
  - vm_decide.
  - done.
  - vm_decide.
  - vm_decide.
  - vm_decide.
  - done.
  - done.
  - vm_decide.
Defined.
