(* ===== verification/Sweep.v ===== *)
(** * The health-check sweep and the failover worker

    [deploy/lambda/health_check/handler.py]: [lambda_handler], the restart of
    host agents and the handling of zone outages;
    [deploy/lambda/health_check/worker.py]: one job of the failover queue.  The
    sweep keeps the rows of the hosts in memory and books the tenants it places
    on them: [edit_host] changes the row that the scan returned once per key. *)

From S2P Require Import Prelude Py Effects Aws Iso Config Validate Ssm Capacity AuditLog Placement Alb Tenants Actions Hosts Health Gates Migration Failover.

Section Sweep.
Context `{HcConfig}.

(** ** Host agents *)

Definition _restart_host_agent (host_id : val) (now : Z) : M bool :=
  hid ← lift (as_key host_id);
  host ← do_ (GetItem Hosts hid);
  match host with
  | None => mret false
  | Some host =>
      if is_str (get host "status") "deleted" then mret false
      else
        let last_restart := get_or host "agent_restart_at" (VStr "") in
        let cooling := truthy last_restart && match elapsed_us now last_restart with
                                              | Ok us => us <? seconds RESTART_COOLDOWN_SECONDS
                                              | _ => false
                                              end in
        if cooling then mret false
        else
          try_ (_ ← do_ (SendCommand [hid] ["systemctl restart host-agent"] (Some 30) None);
                _ ← do_ (UpdateItem Hosts hid [SET "agent_restart_at" (Lit (VStr (isoformat now)))] None RvNone);
                mret true)
          except _ => mret false
  end.

Definition is_fresh (t : item) (now : Z) : bool :=
  let last_check := get_or t "last_health_check" (VStr "") in
  truthy last_check && match elapsed_us now last_check with
                       | Ok us => us <? seconds STALE_SECONDS
                       | _ => false
                       end.

Fixpoint add_stale (k : val) (l : list (val * Z)) : list (val * Z) :=
  match l with
  | [] => [(k, 1)]
  | (j, n) :: l' => if bool_decide (j = k) then (j, n + 1) :: l' else (j, n) :: add_stale k l'
  end.

(** One tenant of the watchdog: marked stale and counted on its host. *)
Definition mark_stale (now : Z) (stale_by_host : list (val * Z)) (t : item) : M (list (val * Z)) :=
  tid ← lift (tenant_id_of t);
  if is_fresh t now then mret stale_by_host
  else
    _ ← do_ (UpdateItem Tenants tid
               [SET "vm_health" (Lit (VStr "stale")); SET "app_health" (Lit (VStr "unknown"))] None RvNone);
    let host_id := get_or t "host_id" (VStr "") in
    if truthy host_id then
      if hashable host_id then mret (add_stale host_id stale_by_host)
      else lift (type_error "unhashable type")
    else mret stale_by_host.

(** A host whose tenants are all stale gets its agent restarted. *)
Definition recover_host (tenants : list item) (now : Z) (hn : val * Z) : M unit :=
  let host_tenants := List.filter (fun t => bool_decide (get t "host_id" = hn.1)) tenants in
  if hn.2 <? Z.of_nat (length host_tenants) then mret tt
  else _ ← _restart_host_agent hn.1 now; mret tt.

(** ** Zone outages *)

Record summary := Summary {
  s_outages : Z; s_failed_over : Z; s_failed : Z; s_blocked : Z; s_queued : Z; s_skipped : list val }.
Definition no_summary : summary := Summary 0 0 0 0 0 [].
Definition count_outcome (o : fo_outcome) (s : summary) : summary :=
  match o with
  | Recovered => Summary (s_outages s) (s_failed_over s + 1) (s_failed s) (s_blocked s) (s_queued s) (s_skipped s)
  | FoFailed => Summary (s_outages s) (s_failed_over s) (s_failed s + 1) (s_blocked s) (s_queued s) (s_skipped s)
  | FoBlocked => Summary (s_outages s) (s_failed_over s) (s_failed s) (s_blocked s + 1) (s_queued s) (s_skipped s)
  | FoQueued => Summary (s_outages s) (s_failed_over s) (s_failed s) (s_blocked s) (s_queued s + 1) (s_skipped s)
  end.

(** The scanned rows, with the row of [hid] replaced. *)
Definition edit_host (hid : string) (h : item) (hosts : list item) : list item :=
  map (fun x => if is_str (get x "instance_id") hid then h else x) hosts.

(** The bookings kept in memory for the next tenants of the batch. *)
Definition book_queued (t target : item) : outcome item :=
  n ← int_or target "vm_count" 0; uv ← int_or target "used_vcpu" 0; v ← int_or t "vcpu" 1;
  Ok (<["used_vcpu" := VInt (uv + v)]> (<["vm_count" := VInt (n + 1)]> target)).
Definition book_sync (o : fo_outcome) (target : item) : outcome item :=
  target ← (if bool_decide (o = Recovered)
            then n ← int_or target "vm_count" 0; Ok (<["vm_count" := VInt (n + 1)]> target)
            else Ok target);
  if bool_decide (o = FoBlocked) then Ok target
  else n ← int_or target "next_vm_num" 1; Ok (<["next_vm_num" := VInt (n + 1)]> target).

(** One affected tenant. *)
Definition recover_tenant (az : val) (exclude : list val) (now : Z) (st : list item * summary) (t : item)
    : M (list item * summary) :=
  let '(hosts, s) := st in
  tid ← lift (tenant_id_of t);
  vcpu ← lift (int_or t "vcpu" 1);
  mem_mb ← lift (int_or t "mem_mb" 4096);
  target ← lift (pick_target_host hosts now AZ_UNHEALTHY_THRESHOLD_MINUTES exclude vcpu mem_mb);
  match target with
  | None =>
      _ ← _emit_audit "AZ_FAILOVER_NO_TARGET" [("tenant_id", VStr tid); ("from_az", az)];
      mret (hosts, count_outcome FoFailed s)
  | Some target =>
      hid ← lift (instance_id target);
      if nonempty FAILOVER_QUEUE_URL then
        o ← _enqueue_failover t target az now;
        target ← (if bool_decide (o = FoQueued) then lift (book_queued t target) else mret target);
        mret (edit_host hid target hosts, count_outcome o s)
      else
        o ← _failover_tenant_to_host t target az now;
        target ← lift (book_sync o target);
        mret (edit_host hid target hosts, count_outcome o s)
  end.

(** [d\[k\] = v] on the state of the zones. *)
Fixpoint alist_set (k : string) (v : val) (l : list (string * val)) : list (string * val) :=
  match l with
  | [] => [(k, v)]
  | (j, w) :: l' => if bool_decide (j = k) then (j, v) :: l' else (j, w) :: alist_set k v l'
  end.
Definition stamp (az_state az : val) (now_iso : string) : outcome val :=
  match az_state, az with
  | VDict d, VStr k => Ok (VDict (alist_set k (VStr now_iso) d))
  | VDict d, _ => Ok (VDict d)
  | _, _ => type_error "object does not support item assignment"
  end.

Definition az_state_key : string := "__az_failover_state__".

(** One outage: the cooldown, the affected tenants, the notification. *)
Definition handle_outage (tenants : list item) (force_azs exclude : list val) (now : Z)
    (st : list item * val * summary) (o : outage) : M (list item * val * summary) :=
  let '(hosts, az_state, s) := st in
  let az := o_az o in
  skip ← (if bool_decide (az ∈ force_azs) then mret false
          else lift (should_skip_az_for_cooldown az_state az now AZ_COOLDOWN_MINUTES));
  if skip : bool then
    mret (hosts, az_state, Summary (s_outages s) (s_failed_over s) (s_failed s) (s_blocked s) (s_queued s)
                             (s_skipped s ++ [az]))
  else
    az_state ← lift (stamp az_state az (isoformat now));
    _ ← (try_ (do_ (PutItem Hosts (list_to_map [("instance_id", VStr az_state_key);
                 ("az_last_failover", az_state); ("updated_at", VStr (isoformat now))]) None))
         except _ => mret tt);
    let affected := List.filter (fun t => bool_decide (get_or t "host_id" (VStr "") ∈ o_host_ids o)) tenants in
    match affected with
    | [] =>
        _ ← _emit_audit "AZ_FAILOVER_NO_TENANTS_AFFECTED" [("az", az); ("host_ids", VList (o_host_ids o))];
        _ ← _emit_sns_notification az o 0;
        mret (hosts, az_state, s)
    | _ =>
        '(hosts, s) ← fold_prog (recover_tenant az exclude now) affected (hosts, s);
        _ ← _emit_sns_notification az o (if nonempty FAILOVER_QUEUE_URL then s_queued s else s_failed_over s);
        mret (hosts, az_state, s)
    end.

(** The detected outages and the forced ones. *)
Fixpoint forced_outages (force_azs : list val) (detected : list val) (hosts : list item) : outcome (list outage) :=
  match force_azs with
  | [] => Ok []
  | faz :: fs =>
      if bool_decide (faz ∈ detected) then forced_outages fs detected hosts
      else
        ids ← mapM (M := outcome) (fun h => req h "instance_id")
                (List.filter (fun h => bool_decide (get h "az" = faz)) hosts);
        rest ← forced_outages fs detected hosts;
        Ok (Outage faz ids :: rest)
  end.

Definition healthy_az_exists (hosts : list item) (force_azs : list val) (now : Z) : bool :=
  existsb (fun h => truthy (get h "az") && negb (bool_decide (get h "az" ∈ force_azs)) &&
                    negb (is_host_unhealthy h now AZ_UNHEALTHY_THRESHOLD_MINUTES)) hosts.

Definition _check_and_handle_az_failover (now : Z) (tenants : list item) (force_azs : list val) : M summary :=
  rows ← _scan_all Hosts None;
  let hosts := List.filter (fun h => negb (is_str (get h "status") "deleted")) rows in
  detected ← lift (detect_unhealthy_azs hosts now AZ_UNHEALTHY_THRESHOLD_MINUTES);
  forced ← lift (forced_outages force_azs (map o_az detected) hosts);
  let outages := detected ++ forced in
  match outages with
  | [] => mret no_summary
  | _ =>
      let s := Summary (Z.of_nat (length outages)) 0 0 0 0 [] in
      state ← do_ (GetItem Hosts az_state_key);
      let az_state := v_or (get_or (default ∅ (state : option item)) "az_last_failover" (VDict [])) (VDict []) in
      if negb (healthy_az_exists hosts force_azs now) then
        _ ← _emit_audit "AZ_FAILOVER_SKIPPED" [("reason", VStr "no_healthy_az"); ("outages", VList (map o_az outages))];
        mret s
      else
        '(_, _, s) ← fold_prog (handle_outage tenants force_azs (map o_az outages ++ force_azs) now) outages
                       (hosts, az_state, s);
        mret s
  end.

(** ** The sweep *)

(** [{force_az} if force_az else set()] of the event's [manual_failover_az]. *)
Definition forced_azs (event : val) : outcome (list val) :=
  match event with
  | VDict d =>
      let az := default VNone (alist_get "manual_failover_az" d) in
      if negb (truthy az) then Ok [] else if hashable az then Ok [az] else type_error "unhashable type"
  | _ => Ok []
  end.

Definition health_check_handler (event : val) : M unit :=
  force_azs ← lift (forced_azs event);
  tenants ← _scan_all Tenants (Some (CEq (Attr "status") (Lit (VStr "running"))));
  now ← do_ NowUtc;
  stale_by_host ← fold_prog (mark_stale now) tenants [];
  _ ← for_each stale_by_host (recover_host tenants now);
  _ ← (if AZ_FAILOVER_ENABLED || negb (bool_decide (force_azs = [])) then
         try_ (_ ← _check_and_handle_az_failover now tenants force_azs; mret tt) except _ => mret tt
       else mret tt);
  _ ← (if nonempty FAILOVER_QUEUE_URL then try_ (_sweep_stuck_failovers now) except _ => mret tt
       else mret tt);
  sweep_migrations now.

(** ** The worker *)

Definition _claim (tid now_iso : string) : M bool :=
  claim tid [SET "status" (Lit (VStr "failover_recovering")); SET "failover_at" (Lit (VStr now_iso))] in_failover.

(** One job of the queue: the body of the record, already parsed. *)
Definition process_job (job : val) (now : Z) : M unit :=
  tid ← lift (v ← vreq job "tenant_id"; as_key v);
  t ← do_ (GetItem Tenants tid);
  match t with
  | None => mret tt
  | Some t =>
      claimed ← _claim tid (isoformat now);
      if negb (claimed : bool) then mret tt
      else
        target_v ← lift (vreq job "target_host_id");
        target_id ← lift (as_key target_v);
        target_host ← do_ (GetItem Hosts target_id);
        match target_host with
        | None =>
            _ ← do_ (fail_tenant tid "failover_failed" ("target host " +:+ target_id +:+ " not found at execution"));
            _emit_audit "AZ_FAILOVER_TENANT_FAILED"
              [("tenant_id", VStr tid); ("error", VStr "target host vanished"); ("status_set", VStr "failover_failed")]
        | Some target_host =>
            source_az ← lift (vget_or job "source_az" (VStr ""));
            backup_key ← lift (vreq job "backup_key");
            vm_num ← lift (v ← vreq job "target_vm_num"; py_int v);
            _ ← _execute_failover t target_host source_az (str_of backup_key) vm_num;
            mret tt
        end
  end.

Definition _process_record (body : string) (now : Z) : M unit :=
  job ← lift (json_loads body); process_job job now.

Definition worker_handler (records : list string) : M Z :=
  now ← do_ NowUtc;
  _ ← for_each records (fun body => _process_record body now);
  mret (Z.of_nat (length records)).
End Sweep.
