(* ===== verification/SweepAccounting.v ===== *)
(** * The health-check sweep and capacity accounting

    A run of the health check - stale tenants, host agents, stuck failovers,
    migrations - against the invariant of [Accounting]: it is kept unless the
    run sees an availability zone lost ([failover_accounting] says what a
    failover leaves). *)

From S2P Require Import Prelude Py Effects Aws Iso Ddb Config Validate Ssm Capacity AuditLog Rbac Placement Alb Tenants Actions.
From S2P Require Import Accounting ActionsAccounting Balance Hosts ApiEvents HostsAccounting RowLoops.
From S2P Require Import Health Gates Migration MigrationSafety Failover MigrationAccounting Sweep.

(** ** Migrations that are well placed *)

(** A tenant on its way is still on its source; the hosts of the migration have rows. *)
Definition settled_move (d : db) (t : item) : Prop :=
  is_str (get t "status") "migrating" = true -> truthy (get t "migration_phase") = true ->
  exists src, t !! "host_id" = Some (VStr src) /\ t !! "migration_source" = Some (VStr src) /\
    forall i, i ∈ move_hosts t src -> is_Some (db_get d Hosts i).
Definition moves_placed (d : db) : Prop := forall tid t, db_get d Tenants tid = Some t -> settled_move d t.

Definition move_fields : list string := ["migration_phase"; "migration_source"; "migration_target"].

(** Writes that start no migration, touch none, and delete no row. *)
Definition calm (e : ev) : Prop :=
  match ev_call e with
  | UpdateItem Tenants _ acts _ _ => avoids "migrating" acts /\ Forall (fun k => k ∉ touched acts) move_fields
  | PutItem Tenants _ _ | DeleteItem _ _ => False
  | _ => True
  end.
#[export] Instance calm_of_writes : OfWrites calm.
Proof. intros [c r]. by destruct c. Qed.

Definition grown (d d' : db) : Prop := forall t k, is_Some (db_get d t k) -> is_Some (db_get d' t k).

Lemma calm_grown c d r d' d0 : dynamo_step c d r d' -> calm (Ev c r) -> grown d0 d -> grown d0 d'.
Proof. intros Hs He Hg t k Hk. eapply row_stays; [done| |by apply Hg]. intros j ->. by destruct t. Qed.

Lemma move_fields_same (t t' : item) d : (forall k, k ∈ "host_id" :: "status" :: move_fields -> t' !! k = t !! k) ->
  settled_move d t -> settled_move d t'.
Proof.
  intros Hk Hs. unfold settled_move, move_hosts, get, get_or in *. unfold move_fields in Hk.
  rewrite !(Hk "status"), !(Hk "migration_phase"), !(Hk "host_id"), !(Hk "migration_source"), !(Hk "migration_target") by set_solver. done.
Qed.

Lemma settled_grown d d' t : (forall i, is_Some (db_get d Hosts i) -> is_Some (db_get d' Hosts i)) -> settled_move d t -> settled_move d' t.
Proof. intros Hg Hs H1 H2. destruct (Hs H1 H2) as (src & E1 & E2 & Hi). exists src. auto. Qed.

Lemma calm_step c d r d' : dynamo_step c d r d' -> calm (Ev c r) -> moves_placed d -> moves_placed d'.
Proof.
  intros Hs He Hm tid t Ht.
  assert (Hg : forall i, is_Some (db_get d Hosts i) -> is_Some (db_get d' Hosts i)).
  { intros i. apply (calm_grown _ _ _ _ d Hs He). by intros ? ?. }
  destruct (tenant_row_step _ _ _ _ tid Hs) as [E|[(x & cnd & -> & E)|[(acts & cnd & rv & new & -> & E & Ea)|E]]]; [..|by rewrite E in Ht].
  - rewrite E in Ht. by apply (settled_grown d), (Hm tid).
  - done.
  - rewrite E in Ht. injection Ht as ->. destruct He as [He Hf]. cbn zeta in Ea.
    destruct (avoids_status _ _ _ _ He Ea) as [Hn|[Es Eh]]; [intros Hy; congruence|].
    destruct (db_get d Tenants tid) as [old|] eqn:Eo.
    + apply (settled_grown d); [done|]. apply (move_fields_same old); [|by apply (Hm tid)].
      intros k [->|[->|Hk]%elem_of_cons]%elem_of_cons; [done..|]. rewrite List.Forall_forall in Hf.
      by apply (apply_untouched _ _ _ _ _ Ea), Hf, list_elem_of_In.
    + intros Hy _. unfold get, get_or in Hy. rewrite Es in Hy. done.
Qed.

Section SweepAccounting.
Context `{HcConfig}.

(** The tables during a run that began with [d0]. *)
Definition sweeping (d0 d : db) : Prop := accounted d /\ moves_placed d /\ grown d0 d.

Lemma sweeping_accounted d0 d : sweeping d0 d -> accounted d.
Proof using Type. by intros [? _]. Qed.

Lemma calm_keeps {A} (p : M A) d0 d : sweeping d0 d -> only calm p -> after accounted p d -> after (sweeping d0) p d.
Proof using Type.
  intros (Ha & Hm & Hg) Hp Hacc. apply wp_and; [exact Hacc|].
  apply (after_events calm (fun d' => moves_placed d' /\ grown d0 d')); [|done|done].
  intros c r d1 d2 Hs He [H1 H2]. split; [by eapply calm_step|by eapply calm_grown].
Qed.

Lemma emit_events op dt : only audit_event (_emit_audit op dt).
Proof using Type. unfold _emit_audit. destruct (hc_object dt). apply put_audit_row_events. Qed.
Lemma calm_emit op dt : only calm (_emit_audit op dt).
Proof using Type. apply (only_weaken _ audit_event); [|apply emit_events]. intros [c r]. destruct c; try done. by destruct t. Qed.
Lemma emit_aside op dt : only aside_event (_emit_audit op dt).
Proof using Type. apply aside_emit. Qed.
#[local] Hint Resolve calm_emit emit_aside only_aside_at orderly_aside : writes.

Ltac calmly := split; [avoided|untouched].

(** ** Stale tenants *)

Lemma mark_stale_keeps now b d0 d k t : sweeping d0 d -> db_get d0 Tenants k = Some t -> t !! "id" = Some (VStr k) ->
  after (sweeping d0) (mark_stale now b t) d.
Proof using Type.
  intros Hd Hk Hid. apply calm_keeps; [done|unfold mark_stale; only_writes; calmly|].
  unfold mark_stale. apply after_lift; [apply Hd|intros tid Et]. unfold tenant_id_of, req in Et. rewrite Hid in Et.
  apply as_key_str in Et as ->. destruct (is_fresh t now); [apply Hd|].
  destruct (proj2 (proj2 Hd) Tenants k) as [row Hrow]; [by eexists|].
  apply (update_untouched_keeps _ _ _ row); [apply Hd|done|untouched|intros x; quiet].
Qed.

(** ** Host agents *)

Lemma restart_keeps v now d0 d : sweeping d0 d -> after (sweeping d0) (_restart_host_agent v now) d.
Proof using Type.
  intros Hd. apply calm_keeps; [done|unfold _restart_host_agent; only_writes|].
  unfold _restart_host_agent. apply after_lift; [apply Hd|intros hid _]. apply after_get.
  destruct (db_get d Hosts hid) as [host|] eqn:Hh; [|apply Hd]. destruct (is_str _ "deleted"); [apply Hd|]. cbn zeta.
  destruct (_ && _); [apply Hd|]. apply after_catch; [|by intros].
  apply after_quiet_bind; [quiet|apply Hd|intros _]. apply after_bind. do_call. intros r d' Hs.
  apply update_host_keeps in Hs as (Ha' & _); [|apply Hd|by exists host|untouched]. by destruct r.
Qed.

Lemma recover_host_keeps tenants now hn d0 d : sweeping d0 d -> after (sweeping d0) (recover_host tenants now hn) d.
Proof using Type.
  intros Hd. unfold recover_host. cbn zeta. destruct (_ <? _); [done|].
  eapply after_seq; [by apply restart_keeps|done|by intros].
Qed.

(** ** Stuck failovers *)

Lemma reap_keeps now d0 d k t : sweeping d0 d -> is_Some (db_get d Tenants k) -> t !! "id" = Some (VStr k) ->
  after (sweeping d0) (reap_stuck now t) d.
Proof using Type.
  intros Hd [row Hrow] Hid. apply calm_keeps; [done|unfold reap_stuck; only_writes; calmly|].
  unfold reap_stuck. cbn zeta. match goal with |- context [if ?b then _ else _] => destruct b; [apply Hd|] end.
  apply after_lift; [apply Hd|intros tid Et]. unfold tenant_id_of, req in Et. rewrite Hid in Et. apply as_key_str in Et as ->.
  apply after_catch; [|by intros]. eapply (after_seq accounted); [|done|intros _ d' Hd'; by apply after_accounted_aside; [apply emit_aside|]].
  apply (after_update_neutral _ _ row); [apply Hd|done|..].
  - intros [Hc|Hc]%orb_true_iff; unfold cmp in Hc; cbn in Hc; unfold get, get_or; destruct (row !! "status") as [[]|]; try done;
      cbn in Hc |- *; unfold id; by apply bool_decide_eq_true in Hc as ->.
  - intros new. apply neutral_update; [untouched|done].
Qed.

Lemma stuck_keep now d0 d : sweeping d0 d -> after (sweeping d0) (_sweep_stuck_failovers now) d.
Proof using Type.
  intros Hd. unfold _sweep_stuck_failovers. apply after_scan; [done|intros ks l Hks].
  eapply wp_mono; [apply (after_for (fun d' => sweeping d0 d' /\ grown d d'))|by intros o d' t []].
  - split; [done|by intros ? ?].
  - intros t d' Ht [Hd' Hg]. destruct (rows_at_in _ _ _ _ _ _ Hks Ht) as (k & _ & Hrow & _).
    apply wp_both.
    + apply (reap_keeps now d0 d' k); [done|by apply Hg; eexists|]. by apply (proj2 (proj1 Hd) k t).
    + apply (after_events calm (grown d)); [intros; by eapply calm_grown| |done]. change (only calm (reap_stuck now t)).
      unfold reap_stuck. only_writes; calmly.
Qed.
(** ** Lost zones *)

(** The run sees a zone lost: it reads the state of the zones. *)
Definition outage_seen (t : list ev) : Prop := exists r, Ev (S := aws) (GetItem Hosts az_state_key) r ∈ t.

Definition unless_outage (P : db -> Prop) {A} (p : M A) (d : db) : Prop :=
  wp (S := aws) dynamo_step p d (fun _ d' t => P d' \/ outage_seen t).

Lemma unless_after (P : db -> Prop) {A} (p : M A) d : after P p d -> unless_outage P p d.
Proof using Type. intros Hp. eapply wp_mono; [apply Hp|]. by left. Qed.

Lemma unless_seq {A B} (I P : db -> Prop) (f : A -> M B) (p : M A) d :
  unless_outage I p d -> (forall d', I d' -> P d') -> (forall a d', I d' -> unless_outage P (f a) d') -> unless_outage P (p ≫= f) d.
Proof using Type.
  intros Hp HP Hf. unfold unless_outage. do_bind. eapply wp_mono; [apply Hp|].
  intros [a|e|] d' t [Hd|[r Hr]]; try (left; by apply HP); try (by right; exists r).
  - eapply wp_mono; [by apply Hf|]. intros o d2 t' [Hd2|[r Hr]]; [by left|]. right. exists r. apply elem_of_app. by right.
  - eapply wp_mono; [apply wp_trivial|]. intros o d2 t' _. right. exists r. apply elem_of_app. by left.
Qed.

Lemma unless_catch {A} (P : db -> Prop) (p : M A) h d :
  unless_outage P p d -> (forall e d', P d' -> unless_outage P (h e) d') -> unless_outage P (catch p h) d.
Proof using Type.
  intros Hp Hh. apply wp_catch. eapply wp_mono; [apply Hp|]. intros [a|e|] d' t Hd; try done.
  destruct Hd as [Hd|[r Hr]].
  - eapply wp_mono; [by apply Hh|]. intros o d2 t' [Hd2|[r Hr]]; [by left|]. right. exists r. apply elem_of_app. by right.
  - eapply wp_mono; [apply wp_trivial|]. intros o d2 t' _. right. exists r. apply elem_of_app. by left.
Qed.

Lemma zones_keep (P : db -> Prop) now tenants force d : P d -> unless_outage P (_check_and_handle_az_failover now tenants force) d.
Proof using Type.
  intros HP. unfold _check_and_handle_az_failover.
  apply (unless_seq P P); [apply unless_after, after_quiet; [apply quiet_scan_all|done]|done|intros rows d1 H1]. cbn zeta.
  apply (unless_seq P P); [apply unless_after, after_quiet; [quiet|done]|done|intros det d2 H2].
  apply (unless_seq P P); [apply unless_after, after_quiet; [quiet|done]|done|intros forced d3 H3].
  destruct (det ++ forced); [by left|]. unfold unless_outage. do_bind. do_call. intros r d4 _.
  assert (Hr : outage_seen [Ev (S := aws) (GetItem Hosts az_state_key) r]) by (exists r; by left).
  destruct r as [st|e]; cbn beta match; [|by right].
  eapply wp_mono; [apply wp_trivial|]. intros oc d5 t _. right. destruct Hr as [r Hr]. exists r.
  apply elem_of_cons in Hr as [->|Hr]; [by left|by apply elem_of_nil in Hr].
Qed.
(** ** Migrations *)

Section At.
Context (t : item) (k : string) (Hk : forall tid, tenant_id_of t = Ok tid -> tid = k).

Ltac quietly := apply only_quiet; [apply _|]; repeat first
  [apply quiet_send_hc|apply quiet_poll|apply quiet_repoint|apply quiet_dashboard|quiet_step].

Lemma at_rollback reason : only (at_tenant (VStr k)) (_rollback_migration t reason).
Proof using Hk.
  unfold _rollback_migration. apply only_lift_bind. intros tid ->%Hk. cbn zeta.
  apply only_bind; [unfold relaunch_source; quietly|intros _]. only_writes. done.
Qed.

Lemma at_watchdog now : only (at_tenant (VStr k)) (migration_watchdog t now).
Proof using Hk.
  unfold migration_watchdog. cbn zeta. destruct (truthy _); [|only_writes]. apply only_catch; [|intros; only_writes].
  apply only_bind; [only_writes|intros us]. destruct (_ <? _); [|only_writes]. apply only_bind; [apply at_rollback|intros; only_writes].
Qed.

Lemma at_snapshot n : only (at_tenant (VStr k)) (advance_snapshot t k n).
Proof using Hk.
  unfold advance_snapshot. cbn zeta. destruct (negb _); [apply at_rollback|].
  apply only_bind; [quietly|intros [dn ok]]. destruct (negb dn); [only_writes|]. destruct (negb ok); [apply at_rollback|].
  apply only_bind; [quietly|intros [c|]]; [|apply at_rollback]. destruct (negb _); [apply at_rollback|]. only_writes. done.
Qed.

Lemma at_reroute i : only (at_tenant (VStr k)) (reroute t k i).
Proof using Hk.
  unfold reroute. apply only_bind; [only_writes|intros tg]. cbn zeta. destruct host_tg_mode; [unfold drop_peer_conf; quietly|].
  apply only_bind; [|intros [b|e]; [only_writes|apply only_bind; [apply at_rollback|intros; only_writes]]].
  apply only_attempt. destruct (truthy _); [quietly|]. apply only_bind; [apply at_rollback|intros; only_writes].
Qed.

Lemma at_complete i n vm : only (at_tenant (VStr k)) (complete_move t k i n vm).
Proof using Type.
  unfold complete_move, release_source, _bump_target_counters. cbn zeta.
  apply only_bind; [only_writes|intros v]. apply only_bind; [only_writes|intros m]. apply only_bind; [only_writes|intros now].
  apply only_bind; [only_writes; done|intros _]. apply only_bind; [only_writes|intros _]. apply only_bind; [only_writes|intros _].
  apply only_bind; [quietly|intros _]. only_writes.
Qed.

Lemma at_restore n vm : only (at_tenant (VStr k)) (advance_restore t k n vm).
Proof using Hk.
  unfold advance_restore. cbn zeta. destruct (negb _); [apply at_rollback|].
  apply only_bind; [quietly|intros [dn ok]]. destruct (negb dn); [only_writes|]. destruct (negb ok); [apply at_rollback|].
  apply only_bind; [only_writes|intros i]. apply only_bind; [apply at_reroute|intros b]. destruct (negb b); [only_writes|].
  apply only_bind; [quietly|intros up]. destruct up; [apply at_complete|apply at_rollback].
Qed.

Lemma at_advance now : only (at_tenant (VStr k)) (_advance_migration t now).
Proof using Hk.
  unfold _advance_migration. apply only_lift_bind. intros tid ->%Hk. cbn zeta. destruct (negb _); [only_writes|].
  apply only_bind; [only_writes|intros n]. apply only_bind; [only_writes|intros vm].
  apply only_bind; [apply at_watchdog|intros stuck]. destruct stuck; [only_writes|].
  destruct (is_str _ "snapshot"); [apply at_snapshot|]. destruct (is_str _ "restore"); [apply at_restore|apply at_rollback].
Qed.
End At.

(** The tables during the migrations: the hosts that were there stay. *)
Definition moving (d0 d : db) : Prop := accounted d /\ forall i, is_Some (db_get d0 Hosts i) -> is_Some (db_get d Hosts i).

Lemma advance_one now d0 k t d :
  moving d0 d -> is_str (get t "status") "migrating" = true /\ settled_move d0 t -> db_get d Tenants k = Some t ->
  after (fun d' => moving d0 d' /\ others_same k d d')
    (if negb (is_str (get t "status") "migrating") || negb (truthy (get t "migration_phase")) then mret tt
     else try_ (_advance_migration t now) except _ => mret tt) d.
Proof using Type.
  intros [Ha Hg] [Hs Hm] Ht. rewrite Hs. cbn [negb orb]. destruct (truthy (get t "migration_phase")) eqn:Hp; [|by split].
  cbn [negb]. destruct (Hm Hs Hp) as (src & Hh & Hms & Hi). pose proof (proj2 Ha k t Ht) as Hrow.
  assert (Hk : forall tid, tenant_id_of t = Ok tid -> tid = k).
  { intros tid E. unfold tenant_id_of, req in E. rewrite (proj1 Hrow) in E. by apply as_key_str. }
  apply after_catch; [|by intros].
  eapply wp_mono; [apply wp_and; [apply (advance_accounted t k src)|apply (after_beside k), at_advance, Hk]|].
  - done.
  - split; [done|]. split; [|intros i Hin; by apply Hg, Hi]. exists t. split; [done|]. split; [|done].
    apply is_str_true in Hs as ->. done.
  - intros o d' tr [Ha' [Ho Hgr]]. split; [|done]. split; [done|]. intros i Hin. by apply Hgr, Hg.
Qed.

Lemma migrations_keep now d : accounted d -> moves_placed d -> after accounted (sweep_migrations now) d.
Proof using Type.
  intros Ha Hm. unfold sweep_migrations. apply after_catch; [|by intros]. apply after_scan; [done|intros ks l Hks].
  destruct (rows_at_with (fun t => is_str (get t "status") "migrating" = true /\ settled_move d t) _ _ _ _ _ Hks) as [Hnd Hall].
  { intros k t Hk Hc%holds_attr. split; [unfold get, get_or; rewrite Hc; by apply bool_decide_eq_true|by apply (Hm k)]. }
  eapply wp_mono; [apply (after_rows (moving d) _ _ ks _ _ Hnd Hall)|by intros o d' t []]; [done|].
  intros k t d' Hd' Ht Hrow. by apply advance_one.
Qed.

(** ** The run *)

Lemma sweep_keeps event d : accounted d -> moves_placed d -> unless_outage accounted (health_check_handler event) d.
Proof using Type.
  intros Ha Hm. assert (Hd : sweeping d d) by (split; [done|]; split; [done|]; by intros ? ?).
  unfold health_check_handler.
  assert (HQ : forall A (p : M A) B (f : A -> M B), quiet p -> (forall a, unless_outage accounted (f a) d) -> unless_outage accounted (p ≫= f) d).
  { intros A p B f Hp Hf. unfold unless_outage. do_bind.
    eapply wp_mono; [apply (wp_no_write p d (fun _ _ => True)); eapply awp_mono; [apply Hp|auto]|].
    intros [a|e|] d' t [_ ->]; [|by left..]. eapply wp_mono; [apply Hf|]. intros o d' t' [Hd'|[r Hr]]; [by left|].
    right. exists r. apply elem_of_app. by right. }
  apply HQ; [quiet|intros force]. unfold unless_outage. do_bind.
  eapply wp_mono; [apply (scan_pages_hold _ _ _ None [] d [] (remains_start d Tenants))|].
  intros [l|e|] d' tr [-> Hl]; [|by left..]. specialize (Hl l eq_refl). cbn in Hl. cbn beta match.
  match goal with |- wp _ ?p _ _ => enough (Hx : unless_outage accounted p d) end.
  { eapply wp_mono; [exact Hx|]. intros o d' t' [Hd'|[r Hr]]; [by left|]. right. exists r. apply elem_of_app. by right. }
  destruct (matching_rows d Tenants (Some (CEq (Attr "status") (Lit (VStr "running"))))) as (ks & Hks & _).
  unfold matching in Hks. rewrite <- Hl in Hks. clear Hl.
  apply HQ; [quiet|intros now].
  apply (unless_seq (sweeping d) accounted); [apply unless_after, (after_fold (sweeping d)); [done|]|apply sweeping_accounted|].
  { intros b t d' Ht Hd'. destruct (rows_at_in _ _ _ _ _ _ Hks Ht) as (k & _ & Hrow & _).
    apply (mark_stale_keeps _ _ _ _ k); [done..|]. by apply (proj2 Ha k t). }
  intros stale d1 H1. apply (unless_seq (sweeping d) accounted); [apply unless_after, after_for; [done|]|apply sweeping_accounted|].
  { intros hn d' _ Hd'. by apply recover_host_keeps. }
  intros _ d2 H2. apply (unless_seq (sweeping d) accounted); [|apply sweeping_accounted|].
  { destruct (_ || _); [|by left]. apply unless_catch; [|by left].
    apply (unless_seq (sweeping d) (sweeping d)); [by apply zones_keep|done|by left]. }
  intros _ d3 H3. apply (unless_seq (sweeping d) accounted); [|apply sweeping_accounted|].
  { destruct (nonempty _); [|by left]. apply unless_after, after_catch; [by apply stuck_keep|by intros]. }
  intros _ d4 (Ha4 & Hm4 & _). apply unless_after. by apply migrations_keep.
Qed.
(** ** Order of the queue *)

Ltac in_queue := repeat first
  [ apply only_quiet; [apply _|]; solve [apply quiet_send_hc|apply quiet_poll|apply quiet_repoint|apply quiet_dashboard|apply quiet_wait
      |apply quiet_verify_vm|apply quiet_scan_all]
  | apply orderly_aside, emit_aside
  | progress cbn beta zeta
  | only_step ].

Lemma orderly_rollback t r : only orderly (_rollback_migration t r).
Proof using Type. unfold _rollback_migration, relaunch_source. in_queue; avoided. Qed.
#[local] Hint Resolve orderly_rollback : writes.
Lemma orderly_bump i n v m : only orderly (_bump_target_counters i n v m).
Proof using Type. unfold _bump_target_counters. in_queue. Qed.
#[local] Hint Resolve orderly_bump : writes.
Lemma orderly_advance t now : only orderly (_advance_migration t now).
Proof using Type.
  unfold _advance_migration, migration_watchdog, advance_snapshot, advance_restore, reroute, drop_peer_conf, complete_move, release_source.
  in_queue; avoided.
Qed.
#[local] Hint Resolve orderly_advance : writes.
Lemma failure_not_pending err : failure_status err <> "pending".
Proof using Type. unfold failure_status. by destruct (contains_any _ _). Qed.
Lemma orderly_steps t tid i h az b n v m src : only orderly (fo_steps t tid i h az b n v m src).
Proof using Type. unfold fo_steps, fo_launch, drop_peer_conf, fo_reroute, clean_source. in_queue; avoided. Qed.
#[local] Hint Resolve orderly_steps : writes.
Lemma orderly_execute t h az b n : only orderly (_execute_failover t h az b n).
Proof using Type.
  pose proof failure_not_pending. unfold _execute_failover. in_queue; avoided.
Qed.
#[local] Hint Resolve orderly_execute : writes.
Lemma orderly_refuse tid az : only orderly (refuse_no_backup tid az).
Proof using Type. unfold refuse_no_backup. in_queue; avoided. Qed.
#[local] Hint Resolve orderly_refuse : writes.
Lemma orderly_failover t h az now : only orderly (_failover_tenant_to_host t h az now).
Proof using Type. unfold _failover_tenant_to_host, _find_latest_backup_key, claim, skipped_concurrent. in_queue; avoided. Qed.
Lemma orderly_enqueue t h az now : only orderly (_enqueue_failover t h az now).
Proof using Type. unfold _enqueue_failover, _find_latest_backup_key, claim, skipped_concurrent, _reserve_target_vm_num. in_queue; avoided. Qed.
#[local] Hint Resolve orderly_failover orderly_enqueue : writes.
Lemma orderly_outage ts f x now st o : only orderly (handle_outage ts f x now st o).
Proof using Type. unfold handle_outage, _emit_sns_notification, recover_tenant. in_queue. Qed.
#[local] Hint Resolve orderly_outage : writes.
Lemma orderly_sweep event : only orderly (health_check_handler event).
Proof using Type.
  unfold health_check_handler, mark_stale, recover_host, _restart_host_agent, _check_and_handle_az_failover, _sweep_stuck_failovers,
    reap_stuck, sweep_migrations. in_queue; avoided.
Qed.

(** A run of the health check keeps the accounting, unless it sees a zone lost,
    and the order of the queue. *)
Lemma sweep_accounts event d : accounted d -> waiting d -> moves_placed d ->
  wp (S := aws) dynamo_step (health_check_handler event) d (fun o d' t => (accounted d' \/ outage_seen t) /\ waiting d').
Proof using Type.
  intros Ha Hw Hm. apply wp_and; [by apply sweep_keeps|].
  apply (after_events orderly waiting); [intros; by eapply orderly_step|apply orderly_sweep|done].
Qed.
End SweepAccounting.
