(* ===== verification/FailoverSafety.v ===== *)
(** * Failover: gates, claims and the worker's contract

    A recovery moves a tenant only after its VM was seen serving on the target,
    its path was led there and its public URL answered; a job of the queue
    changes nothing unless the tenant is claimable, and one that returns leaves
    it recovered or failed. *)

From S2P Require Import Prelude Py Effects Aws Iso Ddb Config Validate Ssm Capacity AuditLog Rbac Placement Alb Tenants Actions Accounting ActionsAccounting Balance Hosts Health Gates Migration MigrationSafety Failover MigrationAccounting Sweep.

Section Gated.
Context `{HcConfig}.

(** ** Gates *)

(** The probe of the tenant's VM was sent to the host, and its answer shows the
    VM serving. *)
Definition probed (host_id tid : string) (pre : list ev) : Prop :=
  exists cmd inv,
    Ev (S := aws) (SendCommand [host_id] [probe_cmd tid] (Some 15) None) (inl cmd) ∈ pre /\
    Ev (S := aws) (GetCommandInvocation cmd host_id) (inl inv) ∈ pre /\
    str_contains "VERIFIED" (default "" (inv_stdout inv)) = true.

Lemma probed_incl host_id tid l l' : probed host_id tid l -> l ⊆ l' -> probed host_id tid l'.
Proof. intros (cmd & inv & H1 & H2 & H3) Hl. exists cmd, inv. auto. Qed.

Lemma probe_vm_spec host_id tid :
  awp (probe_vm host_id tid) (fun o t => o = Ok true -> probed host_id tid t).
Proof.
  unfold probe_vm. do_bind. do_call. intros [cmd|e]; [|done]. cbn beta match.
  do_bind. eapply awp_mono; [apply awp_trivial|]. intros [[ok err]|e|] t _; [|done..]. cbn beta match.
  destruct ok; [|by do_ret]. do_bind. do_call. intros [inv|e]; [|done]. cbn beta match. do_ret. intros [= Hv].
  exists cmd, inv. split_and!; [apply list_elem_of_here|apply list_elem_of_further|done].
  rewrite elem_of_app. right. apply list_elem_of_here.
Qed.

Lemma verify_vm_spec host_id tid timeout_sec poll_sec :
  awp (_verify_vm_actually_running host_id tid timeout_sec poll_sec) (fun o t => o = Ok true -> probed host_id tid t).
Proof.
  unfold _verify_vm_actually_running. do_bind. do_call. intros [now|e]; [|done]. cbn beta match.
  assert (forall n d, awp (verify_vm_loop n host_id tid d poll_sec) (fun o t => o = Ok true -> probed host_id tid t)) as Hl.
  { intros n d. induction n as [|n IH]; cbn [verify_vm_loop]; [done|]. do_bind. do_call. intros [us|e]; [|done].
    cbn beta match. destruct (us <? d); [|by do_ret]. do_bind. do_catch.
    assert (Hrest : forall t, awp (_ ← do_ (Sleep poll_sec); verify_vm_loop n host_id tid d poll_sec) (fun o t' =>
      o = Ok true -> probed host_id tid (Ev (S := aws) TimeTime (inl us) :: t ++ t'))).
    { intros t. do_bind. do_call. intros [x|e]; [|done]. cbn beta match. eapply awp_mono; [apply IH|].
      intros o t' Ht' Ho. eapply probed_incl; [by apply Ht'|]. set_solver. }
    eapply awp_mono; [apply probe_vm_spec|]. intros [[|]|e|] t Ht; cbn beta match; try done.
    - do_ret. intros _. eapply probed_incl; [by apply Ht|]. set_solver.
    - apply Hrest.
    - do_ret. apply Hrest. }
  eapply awp_mono; [apply Hl|]. intros o t Ht Ho. eapply probed_incl; [by apply Ht|]. set_solver.
Qed.

(** A rule that the tenant's path is looked for in: one of its path patterns has
    the text /vm/ followed by the tenant's id. *)
Definition path_routed (tid : string) (r : rule) : Prop :=
  r_arn r <> "" /\ exists patterns v before after,
    ("path-pattern", patterns) ∈ r_conditions r /\ v ∈ (patterns : list string) /\
    v = before +:+ "/vm/" +:+ tid +:+ after.

Lemma path_rule_Some tid rules r : path_rule tid rules = Some r -> r ∈ rules /\ path_routed tid r.
Proof.
  intros [Hin Hr]%find_some. apply andb_true_iff in Hr as [Ha Hr]. apply negb_true_iff, bool_decide_eq_false in Ha.
  apply existsb_exists in Hr as ([k vs] & Hc & [Hk Hv]%andb_true_iff). apply bool_decide_eq_true in Hk. cbn in Hk. subst k.
  apply existsb_exists in Hv as (v & Hv & (a & b & ->)%str_contains_iff). apply list_elem_of_In in Hin, Hc, Hv.
  split; [done|]. split; [done|]. by exists vs, (a +:+ vm_path tid +:+ b), a, b.
Qed.

Lemma path_rule_None tid rules : path_rule tid rules = None -> Forall (fun r => ~ path_routed tid r) rules.
Proof.
  intros Hn. apply List.Forall_forall. intros r Hr (Ha & vs & v & a & b & Hc & Hv & ->).
  pose proof (find_none _ _ Hn r Hr) as Hf. cbv beta in Hf. rewrite bool_decide_eq_false_2 in Hf by done. cbn [negb andb] in Hf.
  enough (existsb (fun c : string * list string => bool_decide (c.1 = "path-pattern") && existsb (str_contains (vm_path tid)) c.2)
    (r_conditions r) = true) by congruence.
  apply existsb_exists. exists ("path-pattern", vs). split; [by apply list_elem_of_In|]. rewrite bool_decide_eq_true_2 by done. cbn.
  apply existsb_exists. exists (a +:+ "/vm/" +:+ tid +:+ b). split; [by apply list_elem_of_In|].
  apply str_contains_iff. by exists a, b.
Qed.

(** [tg] is the target group of the host: found under its name, or created. *)
Definition group_of (host_id tg : string) (pre : list ev) : Prop :=
  exists g tgs, tg_arn_ g = tg /\
    (Ev (S := aws) (DescribeTargetGroups (Some ["oc-" +:+ str_last 8 host_id])) (inl (g :: tgs)) ∈ pre \/
     exists vpc, Ev (S := aws) (CreateTargetGroup ("oc-" +:+ str_last 8 host_id) vpc) (inl (g :: tgs)) ∈ pre).

(** A creation of the tenant's rule, and an attempt at it that ended in the error
    that the priority is taken (formally the draw of the priority, which is in
    the same [try], may end in it as well). *)
Definition creation (tid tg : string) (answer : unit + exn) (e : ev) : Prop :=
  exists p, e = Ev (S := aws) (CreateRule ALB_LISTENER_ARN p
    [("path-pattern", ["/vm/" +:+ tid; "/vm/" +:+ tid +:+ "/*"])] tg) answer.
Definition priority_taken (tid tg : string) (e : ev) : Prop :=
  exists x, is_code x "PriorityInUseException" = true /\
    (creation tid tg (inr x) e \/ exists n, e = Ev (S := aws) (RandomIndex n) (inr x)).

(** What rerouting did before it returned: the tenant's rule was pointed at the
    group; or the listener had none, and the rule was created for the group, or
    was seen to be there after all, or six creations found their priority
    taken. *)
Definition rerouted (tid tg : string) (pre : list ev) : Prop :=
  exists rules, Ev (S := aws) (DescribeRules ALB_LISTENER_ARN) (inl rules) ∈ pre /\
    ((exists r, r ∈ rules /\ path_routed tid r /\ Ev (S := aws) (ModifyRule (r_arn r) tg) (inl tt) ∈ pre) \/
     (Forall (fun r => ~ path_routed tid r) rules /\
      ((exists e, e ∈ pre /\ creation tid tg (inl tt) e) \/
       (exists live, Ev (S := aws) (DescribeRules ALB_LISTENER_ARN) (inl live) ∈ pre /\ path_known tid live) \/
       (exists six, sublist six pre /\ length six = 6%nat /\ Forall (priority_taken tid tg) six)))).

(** The path of the tenant was led to the host: the address of the host was
    sent to its group, and the listener was rerouted to that group. *)
Definition led_to (tid host_id : string) (ip : val) (pre : list ev) : Prop :=
  exists tg, group_of host_id tg pre /\ rerouted tid tg pre /\
    (forall a, ip = VStr a -> exists r, Ev (S := aws) (RegisterTargets tg a) r ∈ pre).

Lemma rerouted_mid tid tg l pre l' : rerouted tid tg pre -> rerouted tid tg (l ++ pre ++ l').
Proof.
  assert (forall e : ev, e ∈ pre -> e ∈ l ++ pre ++ l') as Hi by set_solver.
  intros (rules & Hr & Hw). exists rules. split; [by apply Hi|].
  destruct Hw as [(r & H1 & H2 & H3)|[Hf Hw]]; [left; exists r; eauto|right]. split; [done|].
  destruct Hw as [(e & He & Hc)|[(live & Hl & Hk)|(six & Hs & Hn & Ht)]]; [left; eauto|right; left; eauto|right; right].
  exists six. split; [|done]. by apply sublist_inserts_l, sublist_inserts_r.
Qed.

Lemma group_of_incl h tg l l' : group_of h tg l -> l ⊆ l' -> group_of h tg l'.
Proof. intros (g & tgs & Hg & [He|[vpc He]]) Hl; exists g, tgs; eauto. Qed.

Lemma led_to_mid tid h ip l pre l' : led_to tid h ip pre -> led_to tid h ip (l ++ pre ++ l').
Proof.
  intros (tg & Hg & Hr & Ha). exists tg. split; [eapply group_of_incl; [done|set_solver]|]. split; [by apply rerouted_mid|].
  intros a Hip. destruct (Ha a Hip) as [r Hin]. exists r. set_solver.
Qed.

Lemma led_to_before tid h ip pre l : led_to tid h ip pre -> led_to tid h ip (pre ++ l).
Proof. apply (led_to_mid _ _ _ []). Qed.

Lemma led_to_after tid h ip l pre : led_to tid h ip pre -> led_to tid h ip (l ++ pre).
Proof. intros Hp. rewrite <- (app_nil_r pre). by apply led_to_mid. Qed.

(** What must have been seen before a tenant is failed over, and the write
    itself. *)
Definition recovery_cleared (t target_host : item) (backup_key : string) (n : Z) (pre : list ev) (e : ev) : Prop :=
  exists tid target r,
    tenant_id_of t = Ok tid /\ instance_id target_host = Ok target /\
    probed target tid pre /\
    (host_tg_mode = false -> nonempty ALB_LISTENER_ARN = true -> led_to tid target (get target_host "private_ip") pre) /\
    (nonempty PUBLIC_BASE_URL = true -> reachable_for (dashboard_url tid PUBLIC_BASE_URL) probes_needed pre) /\
    e = Ev (S := aws) (UpdateItem Tenants tid (recovered_actions target backup_key n) None RvNone) r.

Lemma first_tg_Ok tgs tg : first_tg tgs = Ok tg -> exists g l, tgs = g :: l /\ tg_arn_ g = tg.
Proof. destruct tgs as [|g l]; [done|]. intros [= <-]. by exists g, l. Qed.

Lemma host_tg_spec h : awp (host_tg h) (fun o t => forall tg, o = Ok tg -> group_of h tg t).
Proof.
  unfold host_tg. cbn zeta.
  assert (Hnew : forall vpc t0, awp (tgs ← do_ (CreateTargetGroup ("oc-" +:+ str_last 8 h) vpc); lift (first_tg tgs))
    (fun o t => forall tg, o = Ok tg -> group_of h tg (t0 ++ t))).
  { intros vpc t0. do_bind. do_call. intros [tgs|e]; [|done]. cbn beta match. apply awp_lift.
    intros tg (g & l & -> & Hg)%first_tg_Ok. exists g, l. split; [done|]. right. exists vpc. set_solver. }
  assert (Hmake : forall t0, awp
    (vpc_id ← (if nonempty VPC_ID then mret VPC_ID
               else existing ← do_ (DescribeTargetGroups None);
                    match existing with
                    | [] => lift (runtime_error ("cannot create target group: VPC_ID env not set and no " +:+
                                                 "existing target group to clone VPC from"))
                    | g :: _ => mret (tg_vpc g)
                    end);
     tgs ← do_ (CreateTargetGroup ("oc-" +:+ str_last 8 h) vpc_id); lift (first_tg tgs))
    (fun o t => forall tg, o = Ok tg -> group_of h tg (t0 ++ t))).
  { intros t0. destruct (nonempty VPC_ID); [do_bind; do_ret; apply Hnew|].
    do_bind. do_bind. do_call. intros [[|g l]|e']; try done. cbn beta match. do_ret.
    eapply awp_mono; [apply (Hnew _ t0)|]. intros o t Ht tg Ho. eapply group_of_incl; [by apply Ht|]. set_solver. }
  do_bind. do_attempt. do_bind. do_call. intros [tgs|e]; cbn beta match; [|apply (Hmake [_])].
  apply awp_lift. destruct tgs as [|g l]; [apply (Hmake [_])|]. apply awp_ret. intros ? [= <-]. exists g, l.
  split; [done|]. left. set_solver.
Qed.

(** A missing rule is created, seen, or its priority is taken every time. *)
Definition created (n : nat) (tid tg : string) (t : list ev) : Prop :=
  (exists e, e ∈ t /\ creation tid tg (inl tt) e) \/
  (exists live, Ev (S := aws) (DescribeRules ALB_LISTENER_ARN) (inl live) ∈ t /\ path_known tid live) \/
  (exists taken, sublist taken t /\ length taken = n /\ Forall (priority_taken tid tg) taken).

Lemma created_taken n tid tg e t1 t2 :
  priority_taken tid tg e -> created n tid tg t2 -> created (S n) tid tg (t1 ++ e :: t2).
Proof.
  intros He [(x & Hx & Hc)|[(live & Hl & Hk)|(l & Hs & Hn & Hf)]].
  - left. exists x. split; [set_solver|done].
  - right; left. exists live. split; [set_solver|done].
  - right; right. exists (e :: l). split; [by apply sublist_inserts_l, sublist_skip|]. split; [by f_equal/=|by constructor].
Qed.

Lemma create_attempts_spec n tid tg :
  awp (create_attempts n tid tg) (fun o t => o = Ok tt -> created n tid tg t).
Proof.
  induction n as [|n IH]; cbn [create_attempts]; [do_ret; intros _; right; right; by exists []|].
  do_bind. do_call. intros [live|e]; [|done]. cbn beta match.
  destruct (mentions tid live) eqn:Em.
  { do_ret. intros _. right; left. exists live. split; [set_solver|by apply mentions_iff]. }
  do_bind. apply awp_lift. destruct (used_priorities live) as [used|e|]; [|done..].
  destruct (free_priorities used) as [|f fs]; [by apply awp_lift|]. set (free := f :: fs).
  do_bind. do_attempt. unfold choice. do_bind. do_bind. do_call. intros [i|e]; cbn beta match.
  - apply awp_lift. destruct (free !! (i : nat)) as [p|]; cbn beta match.
    + do_call. intros [[]|x]; cbn beta match.
      * do_ret. intros _. left. eexists. split; [apply list_elem_of_further, list_elem_of_further, list_elem_of_here|by exists p].
      * destruct (is_code x _) eqn:Ex; [|done]. eapply awp_mono; [apply IH|]. intros o t Ht Ho.
        apply (created_taken n _ _ _ [_; _]); [|by apply Ht]. exists x. split; [done|]. left. by exists p.
    + cbn [is_code]. by apply awp_done.
  - destruct (is_code e _) eqn:Ex; [|done]. eapply awp_mono; [apply IH|]. intros o t Ht Ho.
    apply (created_taken n _ _ _ [_]); [|by apply Ht]. exists e. split; [done|]. right. by eexists.
Qed.

Lemma repoint_spec tid h ip :
  host_tg_mode = false -> nonempty ALB_LISTENER_ARN = true ->
  awp (_repoint_alb_rule tid h ip) (fun o t => o = Ok tt -> led_to tid h ip t).
Proof.
  intros Hm Ha. unfold _repoint_alb_rule. rewrite Hm, Ha. cbn [negb].
  do_bind. eapply awp_mono; [apply host_tg_spec|]. intros [tg|e|] t1 Hg; [|done..]. specialize (Hg tg eq_refl).
  do_bind.
  assert (awp (match ip with VStr i => try_ (do_ (RegisterTargets tg i)) except _ => mret tt | _ => mret tt end)
    (fun o t => o = Ok tt /\ forall a, ip = VStr a -> exists r, Ev (S := aws) (RegisterTargets tg a) r ∈ t)) as Hreg.
  { destruct ip; try by do_ret. do_catch. do_call. intros [[]|e]; [|do_ret]; (split; [done|]); intros ? [= <-]; eexists; apply list_elem_of_here. }
  eapply awp_mono; [exact Hreg|]. intros o t2 [-> Hr]. clear Hreg.
  assert (Hled : forall t3, rerouted tid tg t3 -> led_to tid h ip (t1 ++ t2 ++ t3)).
  { intros t3 Ht3. exists tg. split; [eapply group_of_incl; [done|set_solver]|]. split.
    - rewrite app_assoc. rewrite <- (app_nil_r t3). by apply rerouted_mid.
    - intros a Hip. destruct (Hr a Hip) as [r Hin]. exists r. set_solver. }
  do_bind. do_call. intros [rules|e]; [|done]. cbn beta match.
  destruct (path_rule tid rules) as [r|] eqn:Ep.
  - do_bind. do_call. intros [[]|e]; [|done]. do_ret. intros _. apply Hled. exists rules. split; [set_solver|]. left.
    apply path_rule_Some in Ep as [Hin Hp]. exists r. split_and!; try done. set_solver.
  - eapply awp_mono; [apply create_attempts_spec|]. intros o t3 Hc Ho. apply Hled. exists rules. split; [set_solver|].
    right. split; [by apply path_rule_None|]. destruct (Hc Ho) as [(x & Hx & Hc')|[(live & Hl & Hk)|(l & Hs & Hn & Hf)]].
    + left. exists x. split; [set_solver|done].
    + right; left. exists live. split; [set_solver|done].
    + right; right. exists l. split; [by apply sublist_cons|done].
Qed.

Lemma fo_reroute_spec tid target h :
  host_tg_mode = false -> nonempty ALB_LISTENER_ARN = true ->
  awp (fo_reroute tid target h) (fun o t => forall a, o = Ok a -> led_to tid target (get h "private_ip") t).
Proof.
  intros Hm Ha. unfold fo_reroute. rewrite Hm, Ha. cbn [negb andb]. cbn zeta.
  destruct (negb _); [by apply awp_lift|]. do_catch. eapply awp_mono; [by apply repoint_spec|].
  intros [[]|e|] t Ht; [intros [] _; by apply Ht| |done].
  do_bind. eapply awp_mono; [apply awp_trivial|]. intros [x|e'|] t' _; [|done..]. by apply awp_lift.
Qed.

Lemma still_fo_reroute tid tgt h : still (fo_reroute tid tgt h).
Proof.
  unfold fo_reroute. destruct (_ && _); [|apply still_ret]. cbn zeta.
  destruct (negb _); [apply still_quiet; quiet|]. apply still_catch; [apply still_quiet, quiet_repoint|].
  intros e. apply still_bind; [apply still_audit|intros; apply still_quiet; quiet].
Qed.

Lemma still_bump i n v m : still (_bump_target_counters i n v m).
Proof.
  unfold _bump_target_counters. apply still_bind; [|intros _]; (apply still_catch; [|intros; apply still_ret]);
    (apply still_bind; [apply still_host|intros; apply still_ret]).
Qed.

Lemma clean_source_verdicts source tid url : awp (clean_source source tid) (fun _ tr => verdicts url tr = []).
Proof.
  unfold clean_source. destruct source; try by do_ret. destruct (nonempty s); [|by do_ret].
  do_catch. do_bind. do_call. by intros [x|e]; do_ret.
Qed.

Lemma fo_steps_cleared t h tid target az bk n v m source pre :
  tenant_id_of t = Ok tid -> instance_id h = Ok target ->
  awp (fo_steps t tid target h az bk n v m source) (fun _ tr => guarded is_move (recovery_cleared t h bk n) pre tr).
Proof.
  intros Hid Hi. unfold fo_steps, fo_launch.
  apply (awp_guarded_free_bind _ _ _ (fun _ _ => True));
    [apply still_quiet; repeat first [apply quiet_wait|quiet_step]|by eapply awp_mono; [apply awp_trivial|]|intros [ok err] t1 _].
  apply (awp_guarded_free_bind _ _ _ (fun _ _ => True));
    [apply still_quiet; unfold drop_peer_conf; repeat first [apply quiet_send_hc|quiet_step]
    |by eapply awp_mono; [apply awp_trivial|]|intros _ t2 _].
  apply (awp_guarded_free_bind _ _ _ (fun a tr => a = true -> probed target tid tr));
    [apply still_quiet, quiet_verify_vm| |intros up t3 H3].
  { eapply awp_mono; [apply verify_vm_spec|]. intros o tr Ht a -> ->. by apply Ht. }
  apply (awp_guarded_free_bind _ _ _ (fun _ _ => up = true)); [apply still_quiet; quiet| |intros _ t4 ->].
  { by destruct up; do_ret. }
  apply (awp_guarded_free_bind _ _ _ (fun _ _ => True));
    [destruct ok; [apply still_ret|apply still_audit]|by eapply awp_mono; [apply awp_trivial|]|intros _ t5 _].
  apply (awp_guarded_free_bind _ _ _ (fun _ tr => host_tg_mode = false -> nonempty ALB_LISTENER_ARN = true ->
      led_to tid target (get h "private_ip") tr)); [apply still_fo_reroute| |intros _ t6 H6].
  { destruct host_tg_mode eqn:Em; [by eapply awp_mono; [apply awp_trivial|]|].
    destruct (nonempty ALB_LISTENER_ARN) eqn:Ea; [|by eapply awp_mono; [apply awp_trivial|]].
    eapply awp_mono; [by apply fo_reroute_spec|]. intros o tr Ht a Ho _ _. by eapply Ht. }
  eapply awp_guarded_free_bind; [apply still_quiet, quiet_dashboard|apply dashboard_gate_spec|intros reach t7 H7].
  apply (awp_guarded_free_bind _ _ _ (fun _ tr => reach = true /\ tr = [])); [apply still_quiet; quiet| |intros _ t8 [-> ->]].
  { by destruct reach; do_ret. }
  apply (awp_guarded_free_bind _ _ _ (fun _ tr => verdicts (dashboard_url tid PUBLIC_BASE_URL) tr = []));
    [apply still_quiet; unfold clean_source; quiet| |intros _ t9 H9].
  { eapply awp_mono; [apply clean_source_verdicts|]. intros o tr Ht a _. apply Ht. }
  apply awp_guarded_bind. do_call. intros r. split.
  - apply guarded_cons; [|by apply guarded_free]. intros _. exists tid, target, r. split_and!; try done.
    + eapply probed_incl; [by apply H3|]. set_solver.
    + intros Hm Ha. rewrite app_nil_r. do 2 apply led_to_before. apply led_to_after. by apply H6.
    + intros Hp. rewrite app_nil_r. apply reachable_for_app; [|done]. apply reachable_for_after. by apply H7.
  - intros x _. apply still_guarded. apply still_bind; [apply still_bump|intros; apply still_audit].
Qed.

End Gated.

(** ** The worker's contract *)

Section Worker.
Context `{HcConfig}.

Definition no_command (e : ev) : Prop := match ev_call e with SendCommand _ _ _ _ => False | _ => True end.

(** A row that a worker may claim. *)
Definition claimable (it : item) : bool :=
  is_str (get it "status") "failover_queued" || is_str (get it "status") "failover_recovering".

(** The rows of a job. *)
Definition claimed_row (now_iso : string) (it : item) : item :=
  <["failover_at" := VStr now_iso]> (<["status" := VStr "failover_recovering"]> it).
Definition recovered_row_of (target bk : string) (n : Z) (it : item) : item :=
  <["restored_from" := VStr bk]> (<["status" := VStr "running"]> (<["vm_num" := VInt n]>
    (<["host_id" := VStr target]> it))).
Definition failed_row (status err : string) (it : item) : item :=
  <["failover_error" := VStr err]> (<["status" := VStr status]> it).

(** A job that can be carried out: its fields are there, and the resources of its
    tenant are numbers. *)
Definition job_tenant (job : val) : outcome string := v ← vreq job "tenant_id"; as_key v.
Definition job_target (job : val) : outcome string := v ← vreq job "target_host_id"; as_key v.
Definition job_vm_num (job : val) : outcome Z := v ← vreq job "target_vm_num"; py_int v.
Definition sized (it : item) : Prop := exists v m, int_or it "vcpu" 2 = Ok v /\ int_or it "mem_mb" 4096 = Ok m.
Definition well_formed (job : val) (it : item) : Prop :=
  sized it /\ exists target bk n, job_target job = Ok target /\ vreq job "backup_key" = Ok bk /\ job_vm_num job = Ok n.

(** What a job makes of the row of its tenant, and how it ends: a job that
    returns has declined, or has written one of the three documented results.
    The row of a claimed tenant stays as it was claimed only when the job did
    not return: its message, or its tenant, is malformed, or a wait never ends. *)
Inductive job_result (job : val) (now_iso : string) : outcome unit -> option item -> option item -> Prop :=
| JobDeclined before :
    (forall it, before = Some it -> claimable it = false) -> job_result job now_iso (Ok tt) before before
| JobRecovered it target bk n :
    claimable it = true ->
    job_target job = Ok target -> vreq job "backup_key" = Ok bk -> job_vm_num job = Ok n ->
    job_result job now_iso (Ok tt) (Some it) (Some (recovered_row_of target (str_of bk) n (claimed_row now_iso it)))
| JobFailed it status err :
    claimable it = true -> status ∈ ["failover_failed"; "failover_failed_partial"] ->
    job_result job now_iso (Ok tt) (Some it) (Some (failed_row status err (claimed_row now_iso it)))
| JobInterrupted it e :
    claimable it = true -> ~ well_formed job it ->
    job_result job now_iso (Exn e) (Some it) (Some (claimed_row now_iso it))
| JobUnfinished it :
    claimable it = true -> job_result job now_iso NoFuel (Some it) (Some (claimed_row now_iso it)).

Lemma holds_in_failover it : holds it in_failover = claimable it.
Proof.
  unfold in_failover, claimable, cmp, get, get_or. cbn [holds]. unfold cmp. cbn [eval].
  destruct (it !! "status") as [[]|]; done.
Qed.

(** The rows of the tenants, with that of [tid]. *)
Definition rows_with (rows : gmap string item) (tid : string) (it : item) (d : db) : Prop :=
  db_rows d Tenants = <[tid := it]> rows.

Lemma rows_with_get rows tid it d : rows_with rows tid it d -> db_get d Tenants tid = Some it.
Proof. unfold rows_with, db_get. intros ->. apply lookup_insert_eq. Qed.

Lemma rows_with_set rows tid it it' d :
  rows_with rows tid it d -> rows_with rows tid it' (db_set d Tenants (<[tid := it']> (db_rows d Tenants))).
Proof. unfold rows_with. intros E. by rewrite db_rows_set_eq, E, insert_insert_eq. Qed.

Lemma bump_ok i n v m : awp (_bump_target_counters i n v m) (fun o _ => o = Ok tt).
Proof.
  unfold _bump_target_counters. do_bind.
  eapply awp_mono; [apply (catch_returns _ (fun _ => tt)); all_total|]. intros o tr [[] ->]. cbn beta match.
  eapply awp_mono; [apply (catch_returns _ (fun _ => tt)); all_total|]. by intros o tr' [[] ->].
Qed.

Lemma spares_bump i n v m : spares Tenants (_bump_target_counters i n v m).
Proof.
  unfold _bump_target_counters. apply spares_bind; [|intros _]; (apply spares_catch; [|intros; apply spares_quiet; quiet]);
    (apply spares_bind; [by apply spares_do|intros; apply spares_quiet; quiet]).
Qed.

(** A program that returns and leaves the tenants alone. *)
Lemma rows_tail {A} rows tid it (p : M A) d a :
  spares Tenants p -> awp p (fun o _ => o = Ok a) -> rows_with rows tid it d ->
  wp (S := aws) dynamo_step p d (fun o d' _ => o = Ok a /\ rows_with rows tid it d').
Proof.
  intros Hp Ha Hd. eapply wp_mono; [apply wp_and; [by apply (awp_wp _ p d (fun o _ => o = Ok a))|
    apply (after_spares Tenants _ p d Hp Hd)]|]. done.
Qed.

Lemma fo_steps_rows t tid target h az bk n v m source rows c d :
  rows_with rows tid c d ->
  wp (S := aws) dynamo_step (fo_steps t tid target h az bk n v m source) d (fun o d' _ =>
    match o with
    | Ok _ => rows_with rows tid (recovered_row_of target bk n c) d'
    | _ => rows_with rows tid c d'
    end).
Proof.
  intros Hd. unfold fo_steps, fo_launch.
  assert (Hpre : forall {A} (p : M A) (f : A -> M unit) d0,
    spares Tenants p -> rows_with rows tid c d0 ->
    (forall a d', rows_with rows tid c d' -> wp (S := aws) dynamo_step (f a) d' (fun o d' _ =>
      match o with Ok _ => rows_with rows tid (recovered_row_of target bk n c) d' | _ => rows_with rows tid c d' end)) ->
    wp (S := aws) dynamo_step (p ≫= f) d0 (fun o d' _ =>
      match o with Ok _ => rows_with rows tid (recovered_row_of target bk n c) d' | _ => rows_with rows tid c d' end)).
  { intros A p f d0 Hp Hd0 Hf. apply (wp_prefix (rows_with rows tid c) (fun o d' =>
      match o with Ok _ => rows_with rows tid (recovered_row_of target bk n c) d' | _ => rows_with rows tid c d' end));
      [by apply after_spares|done..]. }
  apply Hpre; [apply spares_quiet; repeat first [apply quiet_wait|quiet_step]|done|intros [ok err] d1 Hd1].
  apply Hpre; [apply spares_quiet; unfold drop_peer_conf; repeat first [apply quiet_send_hc|quiet_step]|done|intros _ d2 Hd2].
  apply Hpre; [apply spares_quiet, quiet_verify_vm|done|intros up d3 Hd3].
  apply Hpre; [apply spares_quiet; quiet|done|intros _ d4 Hd4].
  apply Hpre; [destruct ok; [apply spares_quiet; quiet|apply spares_tenants, aside_emit]|done|intros _ d5 Hd5].
  apply Hpre; [apply spares_tenants, aside_reroute|done|intros _ d6 Hd6].
  apply Hpre; [apply spares_quiet, quiet_dashboard|done|intros reach d7 Hd7].
  apply Hpre; [apply spares_quiet; quiet|done|intros _ d8 Hd8].
  apply Hpre; [apply spares_quiet; unfold clean_source; quiet|done|intros _ d9 Hd9].
  clear - Hd9. do_bind. do_call. intros r d1. cbn [dynamo_step].
  rewrite (rows_with_get _ _ _ _ Hd9). change (update_row _ _ _ _ _) with (Ok (recovered_row_of target bk n c)).
  cbn beta match. intros [-> ->]. cbn beta match.
  apply (rows_with_set _ _ _ (recovered_row_of target bk n c)) in Hd9.
  do_bind. eapply wp_mono; [eapply rows_tail; [apply spares_bump|apply bump_ok|exact Hd9]|].
  intros o d2 tr [-> Hd2]. cbn beta match.
  eapply wp_mono; [eapply rows_tail; [apply spares_tenants, aside_emit|apply emit_ok|exact Hd2]|].
  by intros o d3 tr' [-> Hd3].
Qed.

(** What the recovery of a claimed tenant makes of its row, and how it ends. *)
Definition executed (target bk : string) (n : Z) (t c : item) (o : outcome bool) (c' : item) : Prop :=
  match o with
  | Ok true => c' = recovered_row_of target bk n c
  | Ok false => exists status err, status ∈ ["failover_failed"; "failover_failed_partial"] /\ c' = failed_row status err c
  | Exn _ => c' = c /\ ~ sized t
  | NoFuel => c' = c
  end.

Lemma failure_status_in err : failure_status err ∈ ["failover_failed"; "failover_failed_partial"].
Proof. unfold failure_status. destruct (contains_any _ _); set_solver. Qed.

Lemma fail_tenant_step tid status err rows c d r d' :
  rows_with rows tid c d -> dynamo_step (fail_tenant tid status err) d r d' ->
  (exists x, r = inl x) /\ rows_with rows tid (failed_row status err c) d'.
Proof.
  intros Hd. cbn [dynamo_step fail_tenant]. rewrite (rows_with_get _ _ _ _ Hd).
  change (update_row _ _ _ _ _) with (Ok (failed_row status err c)). cbn beta match. intros [-> ->].
  split; [by eexists|]. by apply (rows_with_set _ _ _ (failed_row status err c)) in Hd.
Qed.

Lemma execute_rows t h az bk n tid target rows c d :
  tenant_id_of t = Ok tid -> instance_id h = Ok target -> rows_with rows tid c d ->
  wp (S := aws) dynamo_step (_execute_failover t h az bk n) d (fun o d' _ =>
    exists c', rows_with rows tid c' d' /\ executed target bk n t c o c').
Proof.
  intros Hid Hh Hd. unfold _execute_failover. rewrite Hid, Hh. do_bind. do_ret. do_bind.
  destruct (int_or t "vcpu" 2) as [v|e|] eqn:Hv;
    [|do_ret; exists c; split; [done|]; split; [done|]; intros (v & m & ? & ?); congruence|do_ret; by exists c].
  do_ret. do_bind.
  destruct (int_or t "mem_mb" 4096) as [m|e|] eqn:Hm;
    [|do_ret; exists c; split; [done|]; split; [done|]; intros (v' & m & ? & ?); congruence|do_ret; by exists c].
  do_ret. do_bind. do_ret. cbn zeta. do_bind. do_attempt.
  eapply wp_mono; [by apply fo_steps_rows|]. intros o d1 tr Hd1. destruct o as [[]|e|]; cbn beta match.
  - do_ret. eexists. by split.
  - do_bind. do_catch. do_bind. do_call. intros r d2 Hs.
    destruct (fail_tenant_step _ _ _ _ _ _ _ _ Hd1 Hs) as [[x ->] Hd2]. cbn beta match. do_ret. do_bind.
    eapply wp_mono; [eapply rows_tail; [apply spares_tenants, aside_emit|apply emit_ok|exact Hd2]|].
    intros o d3 tr3 [-> Hd3]. cbn beta match. do_ret. eexists. split; [exact Hd3|]. eexists _, _. split; [apply failure_status_in|done].
  - exists c. by split.
Qed.

(** The claim of a job, on the row of its tenant. *)
Lemma claim_step tid now_iso it d :
  db_get d Tenants tid = Some it ->
  wp (S := aws) dynamo_step (_claim tid now_iso) d (fun o d' tr =>
    o = Ok (claimable it) /\ Forall no_command tr /\
    d' = if claimable it then db_set d Tenants (<[tid := claimed_row now_iso it]> (db_rows d Tenants)) else d).
Proof.
  intros Hit. unfold _claim, claim. do_bind. do_attempt. do_call. intros r d'. cbn [dynamo_step]. rewrite Hit.
  unfold update_row. cbn [cond_holds default]. unfold id. rewrite holds_in_failover. destruct (claimable it).
  - change (apply_actions _ _ _) with (Ok (claimed_row now_iso it)). cbn beta match. intros [-> ->]. do_ret.
    split_and!; [done|by repeat constructor|done].
  - intros [-> ->]. cbn. split_and!; [done|by repeat constructor|done].
Qed.

(** A host row answers to its key. *)
Definition host_named (d : db) : Prop := forall k h, db_get d Hosts k = Some h -> h !! "instance_id" = Some (VStr k).

Lemma host_named_id d k h : host_named d -> db_get d Hosts k = Some h -> instance_id h = Ok k.
Proof. intros Hn Hh. unfold instance_id, req. by rewrite (Hn _ _ Hh). Qed.

(** What a job that got past its claim does. *)
Definition job_body (job : val) (tid : string) (t : item) : M unit :=
  target_v ← lift (vreq job "target_host_id");
  target_id ← lift (as_key target_v);
  target_host ← do_ (GetItem Hosts target_id);
  match target_host with
  | None =>
      _ ← do_ (fail_tenant tid "failover_failed" ("target host " +:+ target_id +:+ " not found at execution"));
      _emit_audit "AZ_FAILOVER_TENANT_FAILED"
        [("tenant_id", VStr tid); ("error", VStr "target host vanished"); ("status_set", VStr "failover_failed")]
  | Some target_host =>
      source_az ← lift (vget_or job "source_az" (VStr ""));
      backup_key ← lift (vreq job "backup_key");
      vm_num ← lift (v ← vreq job "target_vm_num"; py_int v);
      _ ← _execute_failover t target_host source_az (str_of backup_key) vm_num;
      mret tt
  end.

Lemma job_body_spec job tid now_iso it rows d :
  job_tenant job = Ok tid -> tenant_id_of it = Ok tid -> host_named d -> claimable it = true ->
  rows_with rows tid (claimed_row now_iso it) d ->
  wp (S := aws) dynamo_step (job_body job tid it) d (fun o d' _ =>
    exists c', rows_with rows tid c' d' /\ job_result job now_iso o (Some it) (Some c')).
Proof.
  intros Hjob Hid Hn Hc Hd. unfold job_body.
  assert (Hbad : forall {A} (x : outcome A) (f : A -> M unit),
    (forall a, x = Ok a -> wp (S := aws) dynamo_step (f a) d (fun o d' _ =>
      exists c', rows_with rows tid c' d' /\ job_result job now_iso o (Some it) (Some c'))) ->
    (well_formed job it -> exists a, x = Ok a) ->
    wp (S := aws) dynamo_step (lift x ≫= f) d (fun o d' _ =>
      exists c', rows_with rows tid c' d' /\ job_result job now_iso o (Some it) (Some c'))).
  { intros A x f Hf Hw. do_bind. destruct x as [a|e|]; do_ret; [by apply Hf|..].
    - eexists. split; [exact Hd|]. apply JobInterrupted; [done|]. intros Hwf. by destruct (Hw Hwf).
    - eexists. split; [exact Hd|]. by apply JobUnfinished. }
  apply Hbad; [intros tv Htv|intros (_ & target & bk & n & H1 & _)].
  2: { unfold job_target in H1. destruct (vreq job "target_host_id"); try done. by eexists. }
  apply Hbad; [intros target Ht|intros (_ & target & bk & n & H1 & _)].
  2: { unfold job_target in H1. rewrite Htv in H1. cbn in H1. by eexists. }
  assert (job_target job = Ok target) as Htarget by (unfold job_target; by rewrite Htv).
  do_bind. do_call. intros r d0 [-> ->]. cbn beta match.
  destruct (db_get d Hosts target) as [h|] eqn:Hh.
  - apply Hbad; [intros az _|intros _; unfold job_tenant in Hjob; destruct job; try done; by eexists].
    apply Hbad; [intros bk Hbk|intros (_ & ? & bk & n & _ & H2 & _); by eexists].
    apply Hbad; [intros n Hnum|intros (_ & ? & bk' & n & _ & _ & H3); unfold job_vm_num in H3; by eexists].
    do_bind. eapply wp_mono; [by apply (execute_rows it h az (str_of bk) n tid target rows _ d Hid (host_named_id _ _ _ Hn Hh) Hd)|].
    intros o d2 tr2 (c' & Hd2 & He). destruct o as [[]|e|]; cbn in He; cbn beta match.
    + subst c'. do_ret. eexists. split; [exact Hd2|]. by apply JobRecovered.
    + destruct He as (st & err & Hin & ->). do_ret. eexists. split; [exact Hd2|]. by apply JobFailed.
    + destruct He as [-> Hs]. eexists. split; [exact Hd2|]. apply JobInterrupted; [done|]. by intros [? _].
    + subst c'. eexists. split; [exact Hd2|]. by apply JobUnfinished.
  - do_bind. do_call. intros r d2 Hs. destruct (fail_tenant_step _ _ _ _ _ _ _ _ Hd Hs) as [[x ->] Hd2]. cbn beta match.
    eapply wp_mono; [eapply rows_tail; [apply spares_tenants, aside_emit|apply emit_ok|exact Hd2]|].
    intros o d3 tr3 [-> Hd3]. eexists. split; [exact Hd3|]. apply JobFailed; [done|set_solver].
Qed.

Lemma job_key_id job tid it :
  job_tenant job = Ok tid -> it !! "id" = Some (VStr tid) -> tenant_id_of it = Ok tid.
Proof.
  intros Hjob Hkey. unfold tenant_id_of, req. rewrite Hkey. cbn. unfold job_tenant in Hjob.
  destruct (vreq job "tenant_id") as [v| |]; try done. cbn in Hjob. destruct v; try done. cbn in Hjob.
  destruct (bool_decide (s = "")) eqn:E; [done|]. injection Hjob as ->. by rewrite E.
Qed.

Lemma process_job_spec job now tid d :
  job_tenant job = Ok tid ->
  (forall it, db_get d Tenants tid = Some it -> it !! "id" = Some (VStr tid)) -> host_named d ->
  wp (S := aws) dynamo_step (process_job job now) d (fun o d' _ =>
    job_result job (isoformat now) o (db_get d Tenants tid) (db_get d' Tenants tid) /\
    forall k, k <> tid -> db_get d' Tenants k = db_get d Tenants k).
Proof.
  intros Hjob Hkey Hn. unfold process_job. fold (job_tenant job). rewrite Hjob. do_bind. do_ret.
  do_bind. do_call. intros r d0 [-> ->]. cbn beta match.
  destruct (db_get d Tenants tid) as [it|] eqn:Hit.
  2: { do_ret. rewrite Hit. by split; [apply JobDeclined|]. }
  do_bind. eapply wp_mono; [by apply claim_step|]. intros o d1 tr (-> & _ & Hd1). cbn beta match.
  destruct (claimable it) eqn:Hc; cbn [negb].
  2: { subst d1. do_ret. rewrite Hit. split; [|done]. apply JobDeclined. by intros ? [= <-]. }
  assert (rows_with (db_rows d Tenants) tid (claimed_row (isoformat now) it) d1) as Hcl
    by (subst d1; unfold rows_with; by rewrite db_rows_set_eq).
  assert (host_named d1) as Hn1.
  { intros k h. subst d1. unfold db_get. rewrite db_rows_set_ne by done. apply Hn. }
  fold (job_body job tid it). eapply wp_mono; [apply job_body_spec; [done|by apply (job_key_id job); [|apply Hkey]|done..|exact Hcl]|].
  intros o d2 tr2 (c' & Hd2 & Hr). split; [by rewrite (rows_with_get _ _ _ _ Hd2)|].
  intros k Hk. unfold db_get. rewrite Hd2. by rewrite lookup_insert_ne.
Qed.

(** C8: The contract of a failover job, on tables whose rows stand at their
    keys. A job that returns either declined - its tenant is gone or not in
    failover any more, and its row is as before - or has left the row of its
    tenant recovered on the very host, VM number and backup of its message, or
    in one of the two failed states. A tenant is left claimed, for a redelivery,
    only by a job that does not return: one that raises, which a well-formed
    message of a tenant with numeric resources never does, or one whose wait
    does not end. No other tenant is touched. *)
Theorem worker_refines {W} (E : env aws W) (view : W -> db) (w : W) (job : val) (now : Z) (tid : string) :
  obeys (S := aws) dynamo_step view E ->
  job_tenant job = Ok tid ->
  (forall it, db_get (view w) Tenants tid = Some it -> it !! "id" = Some (VStr tid)) ->
  host_named (view w) ->
  let '(o, w', _) := run E (process_job job now) w in
  job_result job (isoformat now) o (db_get (view w) Tenants tid) (db_get (view w') Tenants tid) /\
  forall k, k <> tid -> db_get (view w') Tenants k = db_get (view w) Tenants k.
Proof.
  intros HE Hjob Hkey Hn.
  exact (run_wp _ view E _ w _ HE (process_job_spec job now tid (view w) Hjob Hkey Hn)).
Qed.

(** A job whose tenant is gone, or is not claimable any more - it was
    recovered by an earlier delivery, stopped, deleted, or reaped by the
    watchdog - returns normally, changes no table and sends no command. *)
Theorem worker_redelivery {W} (E : env aws W) (view : W -> db) (w : W) (job : val) (now : Z) (tid : string) :
  obeys (S := aws) dynamo_step view E ->
  job_tenant job = Ok tid ->
  (forall it, db_get (view w) Tenants tid = Some it -> claimable it = false) ->
  let '(o, w', t) := run E (process_job job now) w in
  o = Ok tt /\ view w' = view w /\ Forall no_command t.
Proof.
  intros HE Hjob Hno.
  apply (run_wp _ view E (process_job job now) w (fun o d' t => o = Ok tt /\ d' = view w /\ Forall no_command t) HE).
  unfold process_job. fold (job_tenant job). rewrite Hjob. do_bind. do_ret. do_bind. do_call. intros r d0 [-> ->]. cbn beta match.
  destruct (db_get (view w) Tenants tid) as [it|] eqn:Hit; [|do_ret; split_and!; [done..|by repeat constructor]].
  do_bind. eapply wp_mono; [by apply claim_step|]. intros o d1 tr (-> & Htr & Hd1). cbn beta match.
  rewrite (Hno it eq_refl) in Hd1 |- *. cbn [negb]. do_ret. split_and!; [done..|]. by constructor.
Qed.
End Worker.

(** ** Witnesses *)

(** The job of a queued tenant, and the tables it is run on. *)
Definition sample_job : val := VDict [
  ("tenant_id", VStr "web-1a2b"); ("source_az", VStr "az-a"); ("target_host_id", VStr "i-2");
  ("target_vm_num", VInt 4); ("backup_key", VStr "backups/web-1a2b/1.gz")].
Definition with_status (st : string) : db := Db (fun t => match t with
  | Hosts => {["i-1" := acc_host; "i-2" := second_host]}
  | Tenants => {["web-1a2b" := <["status" := VStr st]> acc_tenant]}
  | _ => ∅ end).

Lemma worker_refines_witness :
  (let '(o, w', _) := run (mem_env 1 failover_service) (process_job (H := sample_hc) sample_job 1000)
                        (Mem (with_status "failover_queued") 0) in
   job_result (H := sample_hc) sample_job (isoformat 1000) o (db_get (with_status "failover_queued") Tenants "web-1a2b")
     (db_get (mem_db w') Tenants "web-1a2b") /\
   forall k, k <> "web-1a2b" -> db_get (mem_db w') Tenants k = db_get (with_status "failover_queued") Tenants k) /\
  (let '(o, w', _) := run (mem_env 1 failover_service) (process_job (H := sample_hc) sample_job 1000)
                        (Mem (with_status "failover_queued") 0) in
   (o, db_get (mem_db w') Tenants "web-1a2b" ≫= fun it => it !! "host_id")) = (Ok tt, Some (VStr "i-2")).
Proof.
  split; [|vm_decide].
  apply (worker_refines (H := sample_hc) (mem_env 1 failover_service) mem_db (Mem (with_status "failover_queued") 0)).
  - apply mem_env_obeys.
  - vm_decide.
  - intros it Hit. unfold db_get in Hit. cbn [with_status mem_db db_rows] in Hit.
    apply lookup_singleton_Some in Hit as [_ <-]. vm_decide.
  - intros k h Hh. unfold db_get in Hh. cbn [with_status mem_db db_rows] in Hh.
    apply lookup_insert_Some in Hh as [[<- <-]|[_ Hh]]; [vm_decide|].
    apply lookup_singleton_Some in Hh as [<- <-]. vm_decide.
Defined.

Lemma worker_redelivery_witness :
  let '(o, w', t) := run (mem_env 1 failover_service) (process_job (H := sample_hc) sample_job 1000)
               (Mem (with_status "running") 0) in
  o = Ok tt /\ mem_db w' = with_status "running" /\ Forall no_command t.
Proof.
  apply (worker_redelivery (H := sample_hc) (mem_env 1 failover_service) mem_db (Mem (with_status "running") 0)
           sample_job 1000 "web-1a2b").
  - apply mem_env_obeys.
  - vm_decide.
  - intros it Hit. unfold db_get in Hit. cbn [with_status mem_db db_rows] in Hit.
    apply lookup_singleton_Some in Hit as [_ <-]. vm_decide.
Defined.
