(* ===== verification/Scaler.v ===== *)
(** * Scaler: idle hosts, expired tenants, schedules

    [deploy/lambda/scaler/handler.py].  [local_time] gives the wall clock of a
    time zone ([astimezone(ZoneInfo(tz))]); the zone database is not part of the
    program.  The Lambda runs with TENANTS_TABLE set, as the stack deploys it. *)

From S2P Require Import Prelude Py Effects Aws Iso Config Validate Capacity AuditLog Placement Alb Tenants Hosts Health.

(** The variables of the scaler. *)
Class ScalerConfig := {
  sc_config :: Config;
  IDLE_TIMEOUT : Z;
  (** The wall clock of a zone at an instant, in microseconds as if it were UTC. *)
  local_time : string -> Z -> outcome Z
}.

Section Scaler.
Context `{ScalerConfig}.

Definition _audit (event_name obj : string) (resource_id : val) (actor : string) (detail : option val) : M unit :=
  put_audit_row (AuditArgs event_name obj resource_id (VStr actor) "system" (Some event_name) (VInt 200)
    detail AUDIT_TTL_DAYS (Some (VStr actor)) None).

(** ** Idle hosts *)

Definition _set_status (iid status : string) : M unit :=
  _ ← do_ (UpdateItem Hosts iid [SET "status" (Lit (VStr status))] None RvNone); mret tt.
Definition _set_idle_since (iid ts : string) : M unit :=
  _ ← do_ (UpdateItem Hosts iid [SET "idle_since" (Lit (VStr ts))] None RvNone); mret tt.

Definition _can_scale_in : M bool :=
  groups ← do_ (DescribeAsg ASG_NAME);
  match groups with
  | asg :: _ => mret (asg_min asg <? asg_desired asg)
  | [] => lift index_error
  end.

(** The decision for one host. *)
Inductive host_decision := Keep | Activate | StampIdle | MarkIdle | Retire.

#[export] Instance host_decision_eq_dec : EqDecision host_decision.
Proof. solve_decision. Defined.

Definition decide_host (h : item) (now : Z) : outcome host_decision :=
  vm_count ← py_int (get_or h "vm_count" (VInt 0));
  let status := get h "status" in
  if 0 <? vm_count then Ok (if is_str status "idle" then Activate else Keep)
  else if is_str status "active" then
    let idle_since := get h "idle_since" in
    if negb (truthy idle_since) then Ok StampIdle
    else
      us ← elapsed_us now idle_since;
      Ok (if seconds (IDLE_TIMEOUT * 60) <=? us then MarkIdle else Keep)
  else if is_str status "idle" then Ok Retire
  else Ok Keep.

Definition retire_host (iid : string) : M unit :=
  can ← _can_scale_in;
  if can : bool then
    try_ (_ ← do_ (TerminateInstance iid true);
          _audit "host.scale_in" ("host:" +:+ iid) (VStr iid) "system:scaler" (Some (VDict [("reason", VStr "idle")])))
    except _ => mret tt
  else mret tt.

Definition scale_host (now : Z) (h : item) : M unit :=
  iid ← lift (instance_id h);
  d ← lift (decide_host h now);
  match d with
  | Keep => mret tt
  | Activate => _set_status iid "active"
  | StampIdle => _set_idle_since iid (isoformat now)
  | MarkIdle => _set_status iid "idle"
  | Retire => retire_host iid
  end.

(** ** Expired tenants *)

Definition _TTL_TERMINAL : list string := ["stopped"; "deleted"; "failed"].

Definition _update_tenant_status (tid : val) (status : string) : M unit :=
  try_ (k ← lift (as_key tid);
        now ← _now;
        _ ← do_ (set_status k status now); mret tt)
  except _ => mret tt.

(** What an expired tenant calls for: nothing, a stop or a deletion. *)
Inductive ttl_decision := NotExpired | ExpireStop | ExpireDelete | ExpireOther.

Definition ttl_decide (t : item) (now : Z) : outcome ttl_decision :=
  if is_str_in (get_or t "status" (VStr "")) _TTL_TERMINAL then Ok NotExpired
  else match req t "expires_at" ≫= fromisoformat with
       | Ok (Aware us) =>
           if now <? us then Ok NotExpired
           else
             let action := get_or t "on_expiry" (VStr "stop") in
             Ok (if is_str action "stop" then ExpireStop
                 else if is_str action "delete" then ExpireDelete else ExpireOther)
       | Ok (Naive _) => type_error "can't compare offset-naive and offset-aware datetimes"
       | Exn _ => Ok NotExpired
       | NoFuel => NoFuel
       end.

Definition ttl_audit (event : string) (t : item) (tid : val) : M unit :=
  _audit event ("tenant:" +:+ str_of tid) tid "system:ttl-expiry" (Some (VDict [("expires_at", get t "expires_at")])).

Definition expire_tenant (now : Z) (t : item) : M unit :=
  let tid := get_or t "id" (VStr "") in
  d ← lift (ttl_decide t now);
  match d with
  | ExpireStop =>
      let host_id := get_or t "host_id" (VStr "") in
      _ ← (if truthy host_id then
             vm_num ← lift (py_int (get_or t "vm_num" (VInt 1)));
             match host_id with
             | VStr hid =>
                 try_ (_ ← do_ (SendCommand [hid] ["/home/ubuntu/stop-vm.sh " +:+ str_of tid +:+ " " +:+ pretty vm_num]
                                  None (Some 60)); mret tt)
                 except _ => mret tt
             | _ => mret tt
             end
           else mret tt);
      _ ← _update_tenant_status tid "stopped";
      ttl_audit "tenant.stopped" t tid
  | ExpireDelete =>
      _ ← _update_tenant_status tid "deleted";
      ttl_audit "tenant.deleted" t tid
  | _ => mret tt
  end.

Definition _process_ttl_expirations : M unit :=
  r ← attempt (_scan_all Tenants (Some (CExists "expires_at")));
  match r with
  | inr _ => mret tt
  | inl items => now ← do_ NowUtc; for_each items (expire_tenant now)
  end.

(** ** Schedules *)

Definition _SCHED_DAY_NAMES : list string := ["Mon"; "Tue"; "Wed"; "Thu"; "Fri"; "Sat"; "Sun"].

(** [cur < v] and [cur >= v] on texts. *)
Definition text_of (v : val) : outcome string :=
  match v with VStr s => Ok s | _ => type_error "'<=' not supported between instances" end.

(** [x in days] for a list of days; a text is searched for the name. *)
Definition day_in (day : string) (days : val) : outcome bool :=
  match days with
  | VList l => Ok (existsb (fun d => is_str d day) l)
  | VDict d => Ok (existsb (fun kv => bool_decide (kv.1 = day)) d)
  | VStr s => Ok (str_contains day s)
  | _ => type_error "argument of type is not iterable"
  end.

(** The window of a day: from [start] to [stop], across midnight when it ends
    before it starts. *)
Definition in_window (start stop cur : string) : bool :=
  if str_le start stop then str_le start cur && str_lt cur stop
  else str_le start cur || str_lt cur stop.

Definition _schedule_should_run (sched : val) (now_utc : Z) : outcome bool :=
  if negb (truthy sched) then Ok true
  else
    tz_name ← vget_or sched "timezone" (VStr "UTC");
    match (match tz_name with VStr z => local_time z now_utc | _ => type_error "zone name" end) with
    | NoFuel => NoFuel
    | Exn _ => Ok true
    | Ok local =>
        let day_name := nth (Z.to_nat (weekday local)) _SCHED_DAY_NAMES "" in
        days ← vget sched "days";
        today ← day_in day_name (v_or days (VList (map VStr _SCHED_DAY_NAMES)));
        if negb today then Ok false
        else
          start ← vget_or sched "start" (VStr "00:00");
          stop ← vget_or sched "stop" (VStr "23:59");
          start ← text_of start;
          stop ← text_of stop;
          Ok (in_window start stop (hhmm local))
    end.

(** The command and the status that bring a tenant to its schedule. *)
Definition reconcile_command (it : item) (should_run : bool) : outcome (option (string * string * string)) :=
  let tid := str_of (get it "id") in
  let status := get it "status" in
  if should_run && is_str status "stopped" then
    vm_num ← py_int (get_or it "vm_num" (VInt 1));
    vcpu ← py_int (get_or it "vcpu" (VInt 2));
    mem_mb ← py_int (get_or it "mem_mb" (VInt 4096));
    Ok (Some ("/home/ubuntu/launch-vm.sh " +:+ tid +:+ " " +:+ pretty vm_num +:+ " " +:+ pretty vcpu +:+ " " +:+ pretty mem_mb,
              "running", "tenant.started"))
  else if negb should_run && is_str status "running" then
    vm_num ← py_int (get_or it "vm_num" (VInt 1));
    Ok (Some ("/home/ubuntu/stop-vm.sh " +:+ tid +:+ " " +:+ pretty vm_num, "stopped", "tenant.stopped"))
  else Ok None.

Definition reconcile_tenant (now : Z) (it : item) : M unit :=
  let sched := get it "schedule" in
  let host_id := get it "host_id" in
  if negb (truthy sched) || negb (truthy host_id) then mret tt
  else
    should_run ← lift (_schedule_should_run sched now);
    c ← lift (reconcile_command it should_run);
    match c with
    | None => mret tt
    | Some (command, status, event) =>
        hid ← lift (as_key host_id);
        _ ← do_ (SendCommand [hid] [command] None None);
        tid ← lift (as_key (get it "id"));
        _ ← do_ (UpdateItem Tenants tid [SET "status" (Lit (VStr status))] None RvNone);
        _audit event ("tenant:" +:+ tid) (VStr tid) "system:schedule" None
    end.

Definition _reconcile_schedules : M unit :=
  items ← _scan_all Tenants None;
  now ← do_ NowUtc;
  for_each items (reconcile_tenant now).

(** ** The run *)

Definition scaler_handler : M unit :=
  _ ← _process_ttl_expirations;
  _ ← _reconcile_schedules;
  now ← do_ NowUtc;
  hosts ← _scan_all Hosts (Some live);
  for_each hosts (scale_host now).
End Scaler.
