(* ===== verification/ScalerAccounting.v ===== *)
(** * The scaler and capacity accounting

    A run of the scaler - expired tenants, schedules, idle hosts - against the
    invariant of [Accounting].  It marks an expired tenant as deleted without
    freeing its host ([ttl_delete_leaks]), so the accounting is kept when the
    tenants to be deleted at expiry have no host. *)

From S2P Require Import Prelude Py Effects Aws Iso Ddb Config Validate Ssm Capacity AuditLog Rbac Placement Alb Tenants Actions.
From S2P Require Import Accounting ActionsAccounting Balance Hosts ApiEvents HostsAccounting RowLoops Health Scaler.

Section ScalerAccounting.
Context `{ScalerConfig}.

Lemma aside_scaler_audit e o r a dt : only aside_event (_audit e o r a dt).
Proof. apply aside_audit. Qed.
#[local] Hint Resolve aside_scaler_audit : writes.

(** An expiry that deletes no tenant that is on a host. *)
Definition expiry_spared (it : item) : Prop :=
  forall now i, ttl_decide it now = Ok ExpireDelete -> real_host i = true -> occupies i it = false.
Definition expiry_spares (d : db) : Prop :=
  forall tid it, db_get d Tenants tid = Some it -> expiry_spared it.

(** ** A change of status *)

Lemma status_update_keeps k st it d :
  accounted d -> db_get d Tenants k = Some it ->
  (st <> "deleted" /\ is_str (get it "status") "deleted" = false \/
   st = "deleted" /\ forall i, real_host i = true -> occupies i it = false) ->
  after accounted (_update_tenant_status (VStr k) st) d.
Proof using Type.
  intros Ha Hit Hst. unfold _update_tenant_status. apply after_catch; [|by intros].
  apply after_lift; [done|intros k' Ek]. cbn in Ek. assert (k' = k) as -> by (destruct (bool_decide (k = "")); [done|by injection Ek]).
  apply after_quiet_bind; [quiet|done|intros now]. destruct Hst as [[Hst Hl]|[-> Hno]].
  - apply (update_neutral_keeps _ _ _ it); [done..| |intros; quiet]. intros new. apply neutral_update; [untouched|done].
  - apply after_bind. do_call. intros r d' Hs. apply (set_status_step _ _ _ _ _ _ it Hit) in Hs as [[x ->] ->].
    assert (Hz : forall i, real_host i = true -> forall f, share f i (Some it) = 0) by (intros i Hi f; unfold share; by rewrite Hno).
    pose proof (delete_row_accounted d "" (0 - share (int_field "vcpu") "" (Some it)) (0 - share (int_field "mem_mb") "" (Some it))
      (0 - share (fun _ => 1) "" (Some it)) k it now) as Hd.
    rewrite !Z.sub_add in Hd. cbn beta match. apply after_quiet; [quiet|]. apply (accounted_with_zero _ ""). apply Hd; [|done|by intros i _ Hi f; apply Hz].
    apply (accounted_with_unreal d "" 0 0 0); [done|by apply accounted_with_zero].
Qed.

(** The tables between the scans: accounted for, the hosts at their keys. *)
Definition ticking (d : db) : Prop := accounted d /\ keyed d.

(** A turn of a loop over tenants. *)
Lemma turn_keeps (p : M unit) k d : ticking d -> only (at_tenant (VStr k)) p -> only (spare_event Hosts) p -> after accounted p d ->
  after (fun d' => ticking d' /\ others_same k d d') p d.
Proof using Type.
  intros [Ha Hk] Hp Hh Hacc.
  eapply wp_mono; [apply wp_and; [exact Hacc|apply wp_and; [by apply (after_beside k)|by apply (after_spares Hosts (db_rows d Hosts) p d Hh)]]|].
  intros o d' t (Ha' & [Ho _] & Hr). split; [split; [done|]|done]. intros i r Hi. apply Hk. unfold db_get in Hi |- *. by rewrite <- Hr.
Qed.

(** ** Expired tenants *)

Lemma stop_live it now : ttl_decide it now = Ok ExpireStop -> is_str (get it "status") "deleted" = false.
Proof using Type.
  unfold ttl_decide. destruct (is_str_in _ _) eqn:Hs; [done|]. intros _. unfold get, get_or in *.
  destruct (it !! "status") as [[]|]; try done. cbn in Hs |- *. unfold id in *.
  repeat (apply orb_false_iff in Hs as [? Hs]). done.
Qed.

Lemma row_key k it d : accounted d -> db_get d Tenants k = Some it -> get_or it "id" (VStr "") = VStr k.
Proof using Type. intros Ha Hit. unfold get_or. by rewrite (proj1 (proj2 Ha k it Hit)). Qed.

Lemma at_update_status k st : only (at_tenant (VStr k)) (_update_tenant_status (VStr k) st).
Proof using Type.
  unfold _update_tenant_status. apply only_catch; [|intros ?; only_writes].
  apply only_lift_bind. intros k' ->%as_key_str. only_writes. done.
Qed.
Lemma spare_update_status v st : only (spare_event Hosts) (_update_tenant_status v st).
Proof using Type. unfold _update_tenant_status. only_writes. done. Qed.
#[local] Hint Resolve only_aside_at only_aside_spare aside_scaler_audit at_update_status spare_update_status : writes.

Lemma expire_keeps now k it d : ticking d -> expiry_spared it -> db_get d Tenants k = Some it ->
  after (fun d' => ticking d' /\ others_same k d d') (expire_tenant now it) d.
Proof using Type.
  intros Hd Hsp Hit. pose proof (row_key k it d (proj1 Hd) Hit) as Hid.
  apply turn_keeps; [done|..]; unfold expire_tenant, ttl_audit; rewrite Hid; cbn zeta; [only_writes..|].
  apply after_lift; [apply Hd|intros c Ec]. destruct c; try apply Hd.
  - apply after_quiet_bind; [quiet|apply Hd|intros _].
    eapply (after_seq accounted); [|done|intros _ d' Hd'; by apply after_accounted_aside; [apply aside_scaler_audit|]].
    apply (status_update_keeps _ _ it); [apply Hd|done|]. left. split; [done|by apply (stop_live it now)].
  - eapply (after_seq accounted); [|done|intros _ d' Hd'; by apply after_accounted_aside; [apply aside_scaler_audit|]].
    apply (status_update_keeps _ _ it); [apply Hd|done|]. right. split; [done|]. intros i. by apply (Hsp now).
Qed.

Lemma ttl_keeps d : ticking d -> expiry_spares d -> after ticking _process_ttl_expirations d.
Proof using Type.
  intros Hd Hsp. unfold _process_ttl_expirations.
  apply after_bind. do_attempt. eapply wp_mono; [apply (scan_pages_hold _ _ _ None [] d [] (remains_start d Tenants))|].
  intros [l|e|] d' _ [-> Hl]; cbn beta match; [|done..]. specialize (Hl l eq_refl). cbn in Hl. subst l.
  destruct (matching_rows d Tenants (Some (CExists "expires_at"))) as (ks & Hks & _).
  apply after_quiet_bind; [quiet|done|intros now].
  destruct (rows_at_with expiry_spared _ _ _ _ _ Hks) as [Hnd Hall]; [by intros k it Hk _; apply (Hsp k)|].
  apply (after_rows ticking expiry_spared _ ks); [done..|]. intros k it d' Hd' Hit Hrow. by apply expire_keeps.
Qed.

(** ** Schedules *)

(** What a schedule orders starts a stopped tenant or stops a running one. *)
Lemma reconcile_live it b cmd st e : reconcile_command it b = Ok (Some (cmd, st, e)) ->
  (st = "running" \/ st = "stopped") /\ is_str (get it "status") "deleted" = false.
Proof using Type.
  unfold reconcile_command.
  destruct (b && is_str (get it "status") "stopped") eqn:E1; [|destruct (negb b && is_str (get it "status") "running") eqn:E2; [|done]].
  - apply andb_true_iff in E1 as [_ E1%is_str_true]. rewrite E1.
    destruct (py_int (get_or it "vm_num" _)); [|done..]. destruct (py_int (get_or it "vcpu" _)); [|done..].
    destruct (py_int (get_or it "mem_mb" _)); [|done..]. intros [= _ <- _]. split; [by left|done].
  - apply andb_true_iff in E2 as [_ E2%is_str_true]. rewrite E2.
    destruct (py_int (get_or it "vm_num" _)); [|done..]. intros [= _ <- _]. split; [by right|done].
Qed.

Lemma reconcile_keeps now k it d : ticking d -> db_get d Tenants k = Some it ->
  after (fun d' => ticking d' /\ others_same k d d') (reconcile_tenant now it) d.
Proof using Type.
  intros Hd Hit. assert (Hid : get it "id" = VStr k) by (unfold get, get_or; by rewrite (proj1 (proj2 (proj1 Hd) k it Hit))).
  apply turn_keeps; [done|..]; unfold reconcile_tenant; cbn zeta; (destruct (_ || _); [by first [apply Hd|only_writes]|]).
  - apply only_bind; [only_writes|intros b]. apply only_bind; [only_writes|intros [[[cmd st] e]|]]; [|only_writes].
    apply only_bind; [only_writes|intros hid]. apply only_bind; [only_writes|intros _].
    rewrite Hid. apply only_lift_bind. intros k' ->%as_key_str. only_writes. done.
  - only_writes. done.
  - apply after_lift; [apply Hd|intros b _]. apply after_lift; [apply Hd|intros c Ec].
    destruct c as [[[cmd st] e]|]; [|apply Hd]. destruct (reconcile_live _ _ _ _ _ Ec) as [Hst Hl].
    apply after_lift; [apply Hd|intros hid _]. apply after_quiet_bind; [quiet|apply Hd|intros _].
    rewrite Hid. apply after_lift; [apply Hd|intros k' ->%as_key_str].
    eapply (after_seq accounted); [|done|intros _ d' Hd'; by apply after_accounted_aside; [apply aside_scaler_audit|]].
    apply (after_update_neutral _ _ it); [apply Hd|done..|].
    intros new. apply neutral_update; [untouched|by destruct Hst as [-> | ->]].
Qed.

Lemma schedules_keep d : ticking d -> after ticking _reconcile_schedules d.
Proof using Type.
  intros Hd. unfold _reconcile_schedules. apply after_scan; [done|intros ks l Hks].
  apply after_quiet_bind; [quiet|done|intros now].
  destruct (rows_at_with (fun _ => True) _ _ _ _ _ Hks) as [Hnd Hall]; [done|].
  apply (after_rows ticking (fun _ => True) _ ks); [done..|]. intros k it d' Hd' _ Hrow. by apply reconcile_keeps.
Qed.

(** ** Idle hosts *)

Lemma mark_host_keeps acts ids i d : Forall (fun k => k ∉ touched acts) counters -> known ids d -> i ∈ ids ->
  after (known ids) (_ ← do_ (UpdateItem Hosts i acts None RvNone); mret tt) d.
Proof using Type.
  intros Hf [Ha Hk] Hi. apply after_bind. do_call. intros r d' Hs.
  apply update_host_keeps in Hs as (Ha' & _ & Hrows); [|done|by apply Hk|done].
  assert (known ids d') by (split; [done|]; intros j Hj; by apply Hrows, Hk). destruct r; [|done]. by apply after_quiet; [quiet|].
Qed.

Lemma known_rows ids : on_rows (known ids).
Proof using Type.
  intros d d' E1 E2 [Ha Hk]. split; [by apply (accounted_rows d)|]. intros i Hi. unfold db_get. rewrite E2. by apply Hk.
Qed.

Lemma scale_keeps now ids h i d : known ids d -> instance_id h = Ok i -> i ∈ ids -> after (known ids) (scale_host now h) d.
Proof using Type.
  intros Hd Hi Hin. unfold scale_host. apply after_lift; [done|intros i' Ei]. assert (i' = i) as -> by congruence.
  apply after_lift; [done|intros c _]. destruct c; [done|..].
  1-3: apply mark_host_keeps; [untouched|done..].
  unfold retire_host, _can_scale_in. apply after_quiet_bind; [quiet|done|intros can]. destruct can; [|done].
  apply after_aside; [apply known_rows| |done].
  match goal with |- aside ?p => change (only aside_event p) end. only_writes.
Qed.

(** ** The run *)

Lemma scaler_keeps d : ticking d -> expiry_spares d -> after accounted scaler_handler d.
Proof using Type.
  intros Hd Hsp. unfold scaler_handler. eapply (after_seq ticking); [by apply ttl_keeps|by intros d' []|intros _ d1 Hd1].
  eapply (after_seq ticking); [by apply schedules_keep|by intros d' []|intros _ d2 [Ha2 Hk2]].
  apply after_quiet_bind; [quiet|done|intros now]. apply after_scan; [done|intros ks l Hks].
  eapply wp_mono; [apply (after_for (known ks))|by intros o d' t []].
  - split; [done|]. intros i Hi. destruct Hks as [_ Hall]. clear -Hall Hi.
    induction Hall as [|k it ks l [Hk _] _ IH]; [by apply elem_of_nil in Hi|]. apply elem_of_cons in Hi as [->|Hi]; [by eexists|by apply IH].
  - intros h d' Hh Hd'. destruct (rows_at_in _ _ _ _ _ _ Hks Hh) as (k & Hk & Hrow & _).
    apply (scale_keeps now ks h k); [done| |done]. unfold instance_id, req. by rewrite (Hk2 _ _ Hrow).
Qed.

Lemma orderly_scaler : only orderly scaler_handler.
Proof using Type.
  unfold scaler_handler, _process_ttl_expirations, expire_tenant, _update_tenant_status, ttl_audit, _reconcile_schedules,
    scale_host, retire_host, _can_scale_in, _set_status, _set_idle_since.
  assert (Ha : forall e o r a dt, only orderly (_audit e o r a dt)) by (intros; apply orderly_aside, aside_scaler_audit).
  assert (Hr : forall now it, only orderly (reconcile_tenant now it)).
  { intros now it. unfold reconcile_tenant. cbn zeta. destruct (_ || _); [only_writes|]. apply only_bind; [only_writes|intros b].
    apply only_lift_bind. intros [[[cmd st] e]|] Ec; [|only_writes]. destruct (reconcile_live _ _ _ _ _ Ec) as [[-> | ->] _];
      repeat (cbn beta zeta; first [apply Ha|only_step]); avoided. }
  repeat (cbn beta zeta; first [apply Ha|apply Hr|only_step]); avoided.
Qed.

(** A run of the scaler keeps the accounting and the order of the queue. *)
Lemma scaler_accounts d : accounted d -> waiting d -> keyed d -> expiry_spares d ->
  after (fun d' => accounted d' /\ waiting d') scaler_handler d.
Proof using Type.
  intros Ha Hw Hk Hsp. apply wp_and; [by apply scaler_keeps|].
  apply (after_events orderly waiting); [intros; by eapply orderly_step|apply orderly_scaler|done].
Qed.
End ScalerAccounting.

(** ** An expiry that leaks *)

(** The tenant of [acc_db], to be deleted at the epoch. *)
Definition leaking_tenant : item :=
  <["expires_at" := VStr "1970-01-01T00:00:00Z"]> (<["on_expiry" := VStr "delete"]> acc_tenant).
Definition leaking_db : db := Db (fun t => match t with
  | Hosts => {["i-1" := acc_host]} | Tenants => {["web-1a2b" := leaking_tenant]} | _ => ∅ end).
Definition tick_config : ScalerConfig := {| sc_config := sample_config; IDLE_TIMEOUT := 10; local_time := fun _ us => Ok us |}.
Definition leaked_db : db := mem_db (run (mem_env 1 sample_service)
  (scaler_handler (H := tick_config)) (Mem leaking_db 0)).1.2.

Lemma leaking_db_accounted : accounted leaking_db.
Proof.
  split.
  - intros i r Hr Hreal. unfold db_get in Hr. cbn [leaking_db db_rows] in Hr.
    apply lookup_singleton_Some in Hr as [<- <-]. cbn zeta. split; [vm_decide|]. exists 2. split; vm_decide.
  - intros tid it Hit. unfold db_get in Hit. cbn [leaking_db db_rows] in Hit. apply lookup_singleton_Some in Hit as [<- <-].
    split; [vm_decide|]. split; eexists; vm_compute; reflexivity.
Qed.

(** Its host keeps a tenant on its counters that is gone. *)
Lemma ttl_delete_leaks : accounted leaking_db /\ ~ accounted leaked_db.
Proof.
  split; [exact leaking_db_accounted|]. intros [Hh _]. pose (r := default ∅ (db_get leaked_db Hosts "i-1")).
  destruct (Hh "i-1" r) as (_ & next & [_ _ Hn _]); [vm_decide|done|].
  assert (r !! "vm_count" = Some (VInt 1)) as E by vm_decide. rewrite E in Hn.
  assert (occupancy (fun _ => 1) "i-1" (db_rows leaked_db Tenants) = 0) as Eo by vm_decide.
  rewrite Eo in Hn. by injection Hn.
Qed.
