(* ===== verification/Fleet.v ===== *)
(** * Decisions on the fleet: the failover's target, lost zones, scale-in

    What the decisions of the health check and of the scaler on the hosts
    guarantee: the host a failover picks, the availability zones it declares
    lost, and the hosts the scaler gives back. *)

From S2P Require Import Prelude Py Effects Aws Iso Ddb Config Validate Capacity AuditLog Placement Alb Tenants Hosts Health Gates Scaler.

(** ** The target of a failover *)

Section Target.
Context `{HcConfig}.

(** A numeric field of a row, 0 when it is absent. *)
Definition number (h : item) (k : string) (n : Z) : Prop := py_int (default (VInt 0) (h !! k)) = Ok n.

(** The free vCPU and memory of a host: its totals scaled by the overcommit
    ratios, less what is used. *)
Definition free_room (h : item) (fv fm : Z) : Prop :=
  exists tv tm uv um av am,
    number h "total_vcpu" tv /\ number h "total_mem_mb" tm /\ number h "used_vcpu" uv /\ number h "used_mem_mb" um /\
    int_scale tv CPU_OVERCOMMIT_RATIO = Ok av /\ int_scale tm MEM_OVERCOMMIT_RATIO = Ok am /\
    fv = av - uv /\ fm = am - um.

(** When a host was last heard of: its last health check, or without one the
    last time it was seen. *)
Definition last_report (h : item) (at_ : val) : Prop :=
  truthy at_ = true /\
  (h !! "last_health_check" = Some at_ \/
   ((forall v, h !! "last_health_check" = Some v -> truthy v = false) /\ h !! "last_seen" = Some at_)).

(** A host that a failover may pick: of a zone that is not lost, live, heard of
    within the threshold, and with room for the tenant. *)
Record good_target (now threshold : Z) (lost_azs : list val) (vcpu mem : Z) (h : item) : Prop := {
  gt_zone : default (VStr "") (h !! "az") ∉ lost_azs;
  gt_live : h !! "status" <> Some (VStr "deleted");
  gt_heard : exists at_ us, last_report h at_ /\ elapsed_us now at_ = Ok us /\ us < threshold * 60 * 1000000;
  gt_room : exists fv fm, free_room h fv fm /\ vcpu <= fv /\ mem <= fm;
  gt_slot : MAX_VMS_PER_HOST <> 0 -> exists n, number h "vm_count" n /\ n < MAX_VMS_PER_HOST
}.

(** The order of preference: more free vCPU, then more free memory, then the
    lower instance id. *)
Definition preferred (h h' : item) : Prop :=
  exists fv fm i fv' fm' i',
    free_room h fv fm /\ h !! "instance_id" = Some (VStr i) /\
    free_room h' fv' fm' /\ h' !! "instance_id" = Some (VStr i') /\
    (fv' < fv \/ (fv' = fv /\ (fm' < fm \/ (fm' = fm /\ str_le i i' = true)))).

Lemma host_free_room h fv fm :
  host_free h CPU_OVERCOMMIT_RATIO MEM_OVERCOMMIT_RATIO = Ok (fv, fm) <-> free_room h fv fm.
Proof.
  unfold host_free, allocatable, free_room, number. split.
  - intros ([av am] & (tv & Htv & Ha)%outcome_bind_Ok & Hf)%outcome_bind_Ok.
    apply outcome_bind_Ok in Ha as (av' & Hav & Ha). apply outcome_bind_Ok in Ha as (tm & Htm & Ha).
    apply outcome_bind_Ok in Ha as (am' & Ham & [= -> ->]). apply outcome_bind_Ok in Hf as (uv & Huv & Hf).
    apply outcome_bind_Ok in Hf as (um & Hum & [= <- <-]). by exists tv, tm, uv, um, av, am.
  - intros (tv & tm & uv & um & av & am & Htv & Htm & Huv & Hum & Hav & Ham & -> & ->).
    unfold get_or. by rewrite Htv; cbn; rewrite Hav; cbn; rewrite Htm; cbn; rewrite Ham; cbn; rewrite Huv; cbn; rewrite Hum.
Qed.

Lemma fits_room h v m :
  host_fits h v m CPU_OVERCOMMIT_RATIO MEM_OVERCOMMIT_RATIO MAX_VMS_PER_HOST = Ok true <->
  (exists fv fm, free_room h fv fm /\ v <= fv /\ m <= fm) /\
  (MAX_VMS_PER_HOST <> 0 -> exists n, number h "vm_count" n /\ n < MAX_VMS_PER_HOST).
Proof.
  unfold host_fits. split.
  - intros ([fv fm] & Hf%host_free_room & Hr)%outcome_bind_Ok.
    destruct (Z.ltb_spec fv v), (Z.ltb_spec fm m); cbn in Hr; try done. split; [by exists fv, fm|]. intros Hmx.
    rewrite (proj2 (Z.eqb_neq _ _) Hmx) in Hr. cbn in Hr. apply outcome_bind_Ok in Hr as (n & Hn & [= Hle]).
    exists n. split; [done|]. destruct (Z.leb_spec MAX_VMS_PER_HOST n); [done|lia].
  - intros [(fv & fm & Hf & Hv & Hm) Hslot]. apply host_free_room in Hf as ->. cbn.
    destruct (Z.ltb_spec fv v), (Z.ltb_spec fm m); try lia. cbn.
    destruct (Z.eqb_spec MAX_VMS_PER_HOST 0) as [|Hne]; [done|]. cbn. destruct (Hslot Hne) as (n & Hn & Hlt).
    unfold number in Hn. unfold get_or. rewrite Hn. cbn. f_equal. destruct (Z.leb_spec MAX_VMS_PER_HOST n); [lia|done].
Qed.

Lemma heard_healthy h now threshold :
  is_host_unhealthy h now threshold = false <->
  h !! "status" <> Some (VStr "deleted") /\
  exists at_ us, last_report h at_ /\ elapsed_us now at_ = Ok us /\ us < threshold * 60 * 1000000.
Proof.
  unfold is_host_unhealthy, last_report, seconds. split.
  - destruct (bool_decide_reflect (h = ∅)); [done|].
    destruct (is_str (get h "status") "deleted") eqn:Es; [done|]. intros Hu. split.
    { intros Hd. unfold get, get_or in Es. rewrite Hd in Es. cbn in Es. by rewrite bool_decide_eq_true_2 in Es. }
    set (at_ := v_or _ _) in Hu. destruct (truthy at_) eqn:Et; [|done]. cbn [negb] in Hu.
    destruct (elapsed_us now at_) as [us| |] eqn:Ee; try done. exists at_, us. split; [|split; [done|]].
    2: { destruct (Z.leb_spec (threshold * 60 * 1000000) us); [done|lia]. }
    split; [done|]. subst at_. unfold v_or, get, get_or in Et |- *.
    destruct (h !! "last_health_check") as [v|] eqn:El; cbn in Et |- *.
    + destruct (truthy v) eqn:Ev; [by left|]. right. split; [by intros ? [= <-]|].
      destruct (h !! "last_seen") as [w|]; cbn in Et |- *; [|done]. destruct (truthy w) eqn:Ew; [done|done].
    + right. split; [done|]. destruct (h !! "last_seen") as [w|]; cbn in Et |- *; [|done]. destruct (truthy w) eqn:Ew; [done|done].
  - intros (Hd & at_ & us & [Ht Hl] & He & Hus).
    rewrite bool_decide_eq_false_2 by (intros ->; destruct Hl as [Hl|[_ Hl]]; by rewrite lookup_empty in Hl).
    destruct (is_str (get h "status") "deleted") eqn:Es.
    { destruct Hd. apply is_str_true in Es. unfold get, get_or in Es. destruct (h !! "status"); cbn in Es; [by subst|done]. }
    assert (v_or (get h "last_health_check") (v_or (get h "last_seen") (VStr "")) = at_) as ->.
    { unfold v_or, get, get_or. destruct Hl as [->|[Hn ->]]; cbn; [by rewrite Ht|].
      destruct (h !! "last_health_check") as [v|]; cbn; [rewrite (Hn v eq_refl)|]; by rewrite Ht. }
    rewrite Ht. cbn. rewrite He. apply Z.leb_gt. lia.
Qed.

Lemma eligible_rankable now threshold excl v m h :
  (eligible now threshold excl h = true /\
   rankable v m CPU_OVERCOMMIT_RATIO MEM_OVERCOMMIT_RATIO MAX_VMS_PER_HOST [] h = true) <->
  good_target now threshold excl v m h.
Proof.
  unfold eligible, rankable. rewrite !andb_true_iff, !negb_true_iff, bool_decide_eq_false. cbn [is_str_in existsb]. split.
  - intros (((Hz & [Hd Hh]%heard_healthy) & _) & _ & Hf).
    destruct (host_fits _ _ _ _ _ _) as [b| |] eqn:Eb; try done. subst b. apply fits_room in Eb as [Hr Hs]. by split.
  - intros [Hz Hd Hh Hr Hs]. split; [split; [split; [done|by apply heard_healthy]|]|split; [done|]].
    + unfold get, get_or. destruct (h !! "status") as [x|] eqn:E; [|done]. cbn.
      destruct (is_str x "deleted") eqn:Ex; [|done]. apply is_str_true in Ex. by subst.
    + by rewrite (proj2 (fits_room h v m) (conj Hr Hs)).
Qed.

Lemma ranked_preferred h h' : ranked_before CPU_OVERCOMMIT_RATIO MEM_OVERCOMMIT_RATIO h h' -> preferred h h'.
Proof.
  assert (Hc : forall x c, rank_candidate x CPU_OVERCOMMIT_RATIO MEM_OVERCOMMIT_RATIO = Ok c ->
    exists fv fm i, free_room x fv fm /\ x !! "instance_id" = Some (VStr i) /\ c_key c = (- fv, - fm, i)).
  { intros x c. unfold rank_candidate. intros ([fv fm] & Hf%host_free_room & Hr)%outcome_bind_Ok.
    apply outcome_bind_Ok in Hr as (i & Hi & [= <-]). exists fv, fm, i. split; [done|]. split; [|done].
    unfold instance_id, req in Hi. destruct (x !! "instance_id") as [[]|]; try done. by injection Hi as ->. }
  intros (c & c' & (fv & fm & i & Hf & Hi & Hk)%Hc & (fv' & fm' & i' & Hf' & Hi' & Hk')%Hc & Hle).
  exists fv, fm, i, fv', fm', i'. split_and!; [done..|]. unfold cand_le in Hle. rewrite Hk, Hk' in Hle. cbn in Hle.
  destruct (Z.ltb_spec (- fv) (- fv')), (Z.ltb_spec (- fv') (- fv)); try done; [left; lia|lia|].
  right. split; [lia|]. destruct (Z.ltb_spec (- fm) (- fm')), (Z.ltb_spec (- fm') (- fm)); try done; [left; lia|lia|].
  right. split; [lia|done].
Qed.


(** ** Lost zones *)

(** The hosts of the fleet in a zone. *)
Definition in_zone (az : val) (hosts : list item) : list item := List.filter (fun h => bool_decide (get h "az" = az)) hosts.

Definition grouped (az : val) (groups : list (val * list item)) : list item :=
  concat (map snd (List.filter (fun g => bool_decide (g.1 = az)) groups)).

Lemma grouped_add k h az l : NoDup (map fst l) ->
  grouped az (add_to_group k h l) = if bool_decide (k = az) then grouped az l ++ [h] else grouped az l.
Proof.
  unfold grouped. induction l as [|[j hs] l IH]; intros Hnd; cbn [add_to_group].
  { cbn. by destruct (bool_decide (k = az)). }
  inversion Hnd as [|? ? Hj Hnd']; subst.
  destruct (bool_decide_reflect (j = k)) as [->|Hne]; cbn.
  - destruct (bool_decide_reflect (k = az)) as [->|]; cbn; [|done].
    assert (List.filter (fun g => bool_decide (g.1 = az)) l = []) as ->; [|cbn; by rewrite !app_nil_r].
    clear -Hj. induction l as [|[i xs] l IHl]; [done|]. cbn in *.
    rewrite bool_decide_eq_false_2 by set_solver. apply IHl. set_solver.
  - destruct (bool_decide_reflect (j = az)) as [->|]; cbn; rewrite IH by done; [|done].
    rewrite bool_decide_eq_false_2 by congruence. done.
Qed.

Lemma add_to_group_keys k h l x : x ∈ map fst (add_to_group k h l) <-> x = k \/ x ∈ map fst l.
Proof.
  induction l as [|[j hs] l IH]; cbn [add_to_group map fst]; [set_solver|].
  destruct (bool_decide_reflect (j = k)) as [->|]; cbn [map fst]; set_solver.
Qed.

Lemma add_to_group_NoDup k h l : NoDup (map fst l) -> NoDup (map fst (add_to_group k h l)).
Proof.
  induction l as [|[j hs] l IH]; intros Hnd; cbn [add_to_group map fst]; [constructor; [set_solver|constructor]|].
  inversion Hnd as [|? ? Hj Hnd']; subst.
  destruct (bool_decide_reflect (j = k)) as [->|]; cbn [map fst]; [done|].
  constructor; [rewrite add_to_group_keys; set_solver|by apply IH].
Qed.

Definition nonempty_groups (l : list (val * list item)) : Prop := Forall (fun g => g.2 <> []) l.

Lemma add_to_group_nonempty k h l : nonempty_groups l -> nonempty_groups (add_to_group k h l).
Proof.
  induction 1 as [|[j hs] l Hj Hl IH]; cbn [add_to_group]; [by repeat constructor|].
  destruct (bool_decide _); constructor; [by destruct hs|done|done|done].
Qed.

(** The groups are the zones of the hosts, with their hosts. *)
Lemma group_from_spec hosts : forall out groups,
  NoDup (map fst out) -> nonempty_groups out -> Forall (fun g => truthy g.1 = true) out ->
  group_from hosts out = Ok groups ->
  NoDup (map fst groups) /\ nonempty_groups groups /\ Forall (fun g => truthy g.1 = true) groups /\
  forall az, truthy az = true -> grouped az groups = grouped az out ++ in_zone az hosts.
Proof.
  induction hosts as [|h hosts IH]; intros out groups Hnd Hne Ht; cbn [group_from].
  { intros [= <-]. repeat split; try done. intros az _. cbn. by rewrite app_nil_r. }
  destruct (truthy (get h "az")) eqn:Eaz; cbn [negb].
  - destruct (hashable _); [|done]. intros Hg.
    assert (Ht' : Forall (fun g => truthy g.1 = true) (add_to_group (get h "az") h out)).
    { clear -Ht Eaz. induction Ht as [|[j hs] l Hj Hl IH]; cbn [add_to_group]; [by repeat constructor|].
      destruct (bool_decide _); by constructor. }
    destruct (IH _ _ (add_to_group_NoDup _ _ _ Hnd) (add_to_group_nonempty _ _ _ Hne) Ht' Hg) as (H1 & H2 & H3 & H4).
    repeat split; [done..|]. intros az Haz. rewrite H4, grouped_add by done. unfold in_zone. cbn [List.filter].
    destruct (bool_decide (get h "az" = az)); [by rewrite <- app_assoc|done].
  - intros Hg. destruct (IH _ _ Hnd Hne Ht Hg) as (H1 & H2 & H3 & H4). repeat split; [done..|].
    intros az Haz. rewrite H4 by done. unfold in_zone. cbn [List.filter].
    by rewrite (bool_decide_eq_false_2 (get h "az" = az)) by congruence.
Qed.

Lemma outages_zones groups now threshold outs az :
  outages_of groups now threshold = Ok outs -> nonempty_groups groups ->
  az ∈ map o_az outs <-> exists hs, (az, hs) ∈ groups /\ forallb (fun h => is_host_unhealthy h now threshold) hs = true.
Proof.
  intros Ho Hne. revert outs Ho. induction Hne as [|[k hs] groups Hk Hne IH]; intros outs; cbn [outages_of].
  { intros [= <-]. split; [intros Hin; by apply elem_of_nil in Hin|intros (hs & Hin & _); by apply elem_of_nil in Hin]. }
  rewrite (bool_decide_eq_false_2 (hs = [])) by done. cbn [negb]. rewrite andb_true_r.
  destruct (forallb _ hs) eqn:Ef.
  - intros (ids & _ & Ho)%outcome_bind_Ok. apply outcome_bind_Ok in Ho as (rest & Hr & [= <-]). cbn [map o_az].
    rewrite elem_of_cons, (IH rest Hr). split.
    + intros [->|(hs' & Hin & Hf)]; [exists hs; split; [left|done]|exists hs'; split; [by right|done]].
    + intros (hs' & [[= -> ->]|Hin]%elem_of_cons & Hf); [by left|right; by exists hs'].
  - intros Hr. rewrite (IH outs Hr). split.
    + intros (hs' & Hin & Hf). exists hs'. split; [by right|done].
    + intros (hs' & [[= -> ->]|Hin]%elem_of_cons & Hf); [congruence|by exists hs'].
Qed.

Lemma grouped_elem az hs groups : NoDup (map fst groups) -> (az, hs) ∈ groups -> grouped az groups = hs.
Proof.
  unfold grouped. induction groups as [|[k ks] groups IH]; intros Hnd Hin; [by apply elem_of_nil in Hin|].
  inversion Hnd as [|? ? Hk Hnd']; subst. cbn [List.filter fst].
  apply elem_of_cons in Hin as [[= -> ->]|Hin].
  - rewrite bool_decide_eq_true_2 by done. cbn.
    assert (List.filter (fun g => bool_decide (g.1 = k)) groups = []) as ->; [|cbn; by rewrite app_nil_r].
    clear -Hk. induction groups as [|[i xs] l IHl]; [done|]. cbn in *.
    rewrite bool_decide_eq_false_2 by set_solver. apply IHl. set_solver.
  - rewrite bool_decide_eq_false_2; [by apply IH|]. intros ->. apply Hk.
    apply (list_elem_of_fmap_2 fst _ _ Hin).
Qed.

(** C22: an availability zone is declared lost exactly when the fleet has a host in it
    and none of its hosts is healthy: one host that still reports keeps its zone
    out of a failover, and hosts without a zone declare nothing. *)
Theorem detect_unhealthy_azs_spec (hosts : list item) (now threshold : Z) (outs : list outage) :
  detect_unhealthy_azs hosts now threshold = Ok outs ->
  forall az, az ∈ map o_az outs <->
    truthy az = true /\ in_zone az hosts <> [] /\
    forall h, h ∈ hosts -> get h "az" = az -> is_host_unhealthy h now threshold = true.
Proof.
  unfold detect_unhealthy_azs. intros (groups & Hg & Ho)%outcome_bind_Ok az.
  destruct (group_from_spec hosts [] groups) as (H1 & H2 & H3 & H4); [constructor..|exact Hg|].
  rewrite (outages_zones _ _ _ _ az Ho H2). split.
  - intros (hs & Hin & Hf). assert (Ht : truthy az = true).
    { rewrite Forall_forall in H3. by apply (H3 (az, hs)), list_elem_of_In. }
    specialize (H4 az Ht). rewrite (grouped_elem _ _ _ H1 Hin) in H4. cbn in H4. subst hs. split; [done|]. split.
    + unfold nonempty_groups in H2. rewrite Forall_forall in H2. by apply (H2 (az, _)), list_elem_of_In.
    + intros h Hh Haz. rewrite forallb_forall in Hf. apply Hf. apply filter_In. split; [by apply list_elem_of_In|].
      by apply bool_decide_eq_true.
  - intros (Ht & Hz & Hall). specialize (H4 az Ht). cbn in H4.
    assert (exists hs, (az, hs) ∈ groups) as [hs Hin].
    { destruct (decide (az ∈ map fst groups)) as [([k hs] & -> & Hin)%list_elem_of_fmap|Hn]; [by exists hs|].
      destruct Hz. rewrite <- H4. unfold grouped.
      assert (List.filter (fun g => bool_decide (g.1 = az)) groups = []) as ->; [|done].
      clear -Hn. induction groups as [|[i xs] l IHl]; [done|]. cbn in *.
      rewrite bool_decide_eq_false_2 by set_solver. apply IHl. set_solver. }
    exists hs. split; [done|]. rewrite (grouped_elem _ _ _ H1 Hin) in H4. subst hs.
    apply forallb_forall. intros h [Hh Haz]%filter_In. apply bool_decide_eq_true in Haz.
    apply Hall; [by apply list_elem_of_In|done].
Qed.
End Target.

(** ** Scale-in *)

Section ScaleIn.
Context `{ScalerConfig}.

(** The termination of a host. *)
Definition terminates (iid : string) (e : ev) : Prop := exists b, ev_call e = TerminateInstance iid b.

(** A row of the hosts table, as a scan returned it: idle, with no VM. *)
Definition idle_row (iid : string) (h : item) : Prop :=
  get h "instance_id" = VStr iid /\ get h "status" = VStr "idle" /\
  exists n, py_int (get_or h "vm_count" (VInt 0)) = Ok n /\ n <= 0.
Definition scanned_host (h : item) (t : list ev) : Prop :=
  exists f start p, Ev (S := aws) (Scan Hosts f start) (inl p) ∈ t /\ h ∈ pg_items p.

(** The group, just read, is above its minimum. *)
Definition above_minimum (t : list ev) : Prop :=
  exists t' asg rest, t = t' ++ [Ev (S := aws) (DescribeAsg ASG_NAME) (inl (asg :: rest))] /\ asg_min asg < asg_desired asg.

Definition scale_in_allowed (t : list ev) (e : ev) : Prop :=
  forall iid, terminates iid e -> above_minimum t /\ exists h, scanned_host h t /\ idle_row iid h.
Definition is_termination (e : ev) : Prop := exists iid, terminates iid e.
Abbreviation guarded_in := (guarded is_termination scale_in_allowed).

Lemma not_termination c r : (forall iid b, c <> TerminateInstance iid b) -> ~ is_termination (Ev (S := aws) c r).
Proof. intros Hc (iid & b & Hb). by apply (Hc iid b). Qed.

Ltac no_termination := repeat first [progress all_calls | (apply not_termination; done)].

Lemma audit_no_termination a b c d e : awp (_audit a b c d e) (fun _ t => Forall (fun e => ~ is_termination e) t).
Proof. unfold _audit, put_audit_row. no_termination. Qed.

Lemma scan_pages_rows fuel t f : forall start items,
  awp (scan_pages fuel t f start items) (fun o tr => Forall (fun e => ~ is_termination e) tr /\
    forall l, o = Ok l -> forall h, h ∈ l -> h ∈ items \/ exists start' p, Ev (S := aws) (Scan t f start') (inl p) ∈ tr /\ h ∈ pg_items p).
Proof.
  induction fuel as [|fuel IH]; intros start items; cbn [scan_pages]; [done|].
  do_bind. do_call. intros [p|e]; cbn beta match; [|split; [by repeat constructor; apply not_termination|done]].
  destruct (pg_last p) as [k|].
  - eapply awp_mono; [apply IH|]. intros o tr [Hf Hl]. split; [constructor; [by apply not_termination|done]|].
    intros l Ho h Hh. destruct (Hl l Ho h Hh) as [Hin|(s' & q & Hq & Hh')].
    + apply elem_of_app in Hin as [Hin|Hin]; [by left|]. right. exists start, p. split; [left|done].
    + right. exists s', q. split; [by right|done].
  - do_ret. split; [repeat constructor; by apply not_termination|]. intros l [= <-] h [Hin|Hin]%elem_of_app; [by left|].
    right. exists start, p. split; [left|done].
Qed.

Lemma retire_guarded pre iid h :
  scanned_host h pre -> idle_row iid h ->
  awp (retire_host iid) (fun _ t => guarded_in pre t).
Proof.
  intros Hh Hi. unfold retire_host, _can_scale_in.
  assert (Hpre : forall e, scanned_host h (pre ++ [e])).
  { intros e. destruct Hh as (f & s & p & Hin & Hp). exists f, s, p. split; [set_solver|done]. }
  do_bind. do_bind. do_call. intros [[|asg rest]|e]; cbn beta match;
    [apply guarded_free; by repeat constructor; apply not_termination| |apply guarded_free; by repeat constructor; apply not_termination].
  do_ret. destruct (asg_min asg <? asg_desired asg) eqn:Hmin; [|do_ret; apply guarded_free; by repeat constructor; apply not_termination].
  set (e0 := Ev (S := aws) (DescribeAsg ASG_NAME) (inl (asg :: rest))).
  assert (Ht : forall r, guarded_in (pre ++ [e0]) [Ev (S := aws) (TerminateInstance iid true) r]).
  { intros r. apply guarded_cons; [|by apply guarded_free]. intros _ iid' [b [= <- <-]]. split.
    - exists pre, asg, rest. split; [done|lia].
    - exists h. split; [apply Hpre|done]. }
  assert (Hg : forall r t', Forall (fun e => ~ is_termination e) t' ->
    guarded_in pre ([e0] ++ [Ev (S := aws) (TerminateInstance iid true) r] ++ t')).
  { intros r t' Hf. apply guarded_app; [apply guarded_free; by repeat constructor; apply not_termination|].
    apply guarded_app; [apply Ht|by apply guarded_free]. }
  do_catch. do_bind. do_call. intros [[]|e]; cbn beta match.
  - eapply awp_mono; [apply audit_no_termination|]. intros o t' Hf. destruct o as [[]|e|]; try (by apply Hg).
    do_ret. by apply Hg.
  - do_ret. by apply (Hg _ []).
Qed.

Lemma decide_retire h now : decide_host h now = Ok Retire ->
  get h "status" = VStr "idle" /\ exists n, py_int (get_or h "vm_count" (VInt 0)) = Ok n /\ n <= 0.
Proof.
  unfold decide_host. intros (n & Hn & Hd)%outcome_bind_Ok. destruct (Z.ltb_spec 0 n); [by destruct (is_str _ _)|].
  destruct (is_str (get h "status") "active") eqn:Ea.
  - destruct (negb _); [done|]. apply outcome_bind_Ok in Hd as (us & _ & Hd). by destruct (_ <=? _).
  - destruct (is_str (get h "status") "idle") eqn:Ei; [|done]. apply is_str_true in Ei. split; [done|]. by exists n.
Qed.

Lemma scale_host_guarded pre now h :
  scanned_host h pre -> awp (scale_host now h) (fun _ t => guarded_in pre t).
Proof.
  intros Hh. unfold scale_host. do_bind.
  destruct (instance_id h) as [iid|e|] eqn:Ei; [do_ret|by apply guarded_free..].
  do_bind. destruct (decide_host h now) as [d|e|] eqn:Ed; [do_ret|by apply guarded_free..].
  destruct d.
  1-4: eapply awp_mono; [|intros o t Hf; apply guarded_free; exact Hf]; unfold _set_status, _set_idle_since; no_termination.
  apply (retire_guarded pre iid h); [done|]. apply decide_retire in Ed as [Hst Hn]. split; [|done].
  unfold instance_id, req in Ei. unfold get, get_or. destruct (h !! "instance_id") as [v|]; [|done].
  cbn in Ei |- *. destruct v; try done. by injection Ei as ->.
Qed.

Lemma scale_hosts_guarded now hosts : forall pre,
  (forall h, h ∈ hosts -> scanned_host h pre) ->
  awp (for_each hosts (scale_host now)) (fun _ t => guarded_in pre t).
Proof.
  induction hosts as [|h hosts IH]; intros pre Hs; cbn [for_each]; [by apply guarded_free|].
  apply awp_guarded_bind. eapply awp_mono; [apply (scale_host_guarded pre); apply Hs; left|].
  intros o t Hg. split; [done|]. intros [] _. apply IH. intros h' Hh'.
  destruct (Hs h') as (f & st & p & Hin & Hp); [by right|]. exists f, st, p. split; [set_solver|done].
Qed.

Lemma ttl_no_termination : awp _process_ttl_expirations (fun _ t => Forall (fun e => ~ is_termination e) t).
Proof.
  unfold _process_ttl_expirations, _scan_all, scan_all.
  assert (Hs : forall fuel t f start items, awp (scan_pages fuel t f start items) (fun _ tr => Forall (fun e => ~ is_termination e) tr)).
  { intros. eapply awp_mono; [apply scan_pages_rows|]. by intros o tr [Hf _]. }
  no_termination; [apply Hs|apply audit_no_termination..].
Qed.

Lemma schedules_no_termination : awp _reconcile_schedules (fun _ t => Forall (fun e => ~ is_termination e) t).
Proof.
  unfold _reconcile_schedules, _scan_all, scan_all, reconcile_tenant.
  assert (Hs : forall fuel t f start items, awp (scan_pages fuel t f start items) (fun _ tr => Forall (fun e => ~ is_termination e) tr)).
  { intros. eapply awp_mono; [apply scan_pages_rows|]. by intros o tr [Hf _]. }
  no_termination; [apply Hs|apply audit_no_termination].
Qed.

(** C24: the scaler gives back a host only when a row it has just scanned shows it
    idle with no VM on it, and the group, read immediately before, has more
    hosts than its minimum. *)
Theorem scale_in_safe :
  awp scaler_handler (fun _ t => forall t1 e t2 iid, t = t1 ++ e :: t2 -> terminates iid e ->
    above_minimum t1 /\ exists h, scanned_host h t1 /\ idle_row iid h).
Proof.
  assert (Hg : awp scaler_handler (fun _ t => guarded_in [] t)).
  { unfold scaler_handler. apply awp_guarded_bind.
    eapply awp_mono; [apply ttl_no_termination|]. intros o t1 H1. split; [by apply guarded_free|]. intros [] _.
    apply awp_guarded_bind. eapply awp_mono; [apply schedules_no_termination|]. intros o2 t2 H2.
    split; [by apply guarded_free|]. intros [] _.
    apply awp_guarded_bind. do_call. intros r. split; [apply guarded_free; by repeat constructor; apply not_termination|].
    intros now _. apply awp_guarded_bind. eapply awp_mono; [apply scan_pages_rows|]. intros o3 t3 [H3 Hl].
    split; [by apply guarded_free|]. intros hosts Ho. apply scale_hosts_guarded. intros h Hh.
    destruct (Hl hosts Ho h Hh) as [Hn|(st & p & Hin & Hp)]; [by apply elem_of_nil in Hn|].
    exists (Some live), st, p. split; [set_solver|done]. }
  eapply awp_mono; [apply Hg|]. intros o t Ht t1 e t2 iid -> He. apply (Ht t1 e t2); [done|by exists iid|done].
Qed.
End ScaleIn.

(** ** Witnesses *)

Definition fresh_host (i az : string) (used : Z) : item :=
  list_to_map [("instance_id", VStr i); ("az", VStr az); ("status", VStr "active"); ("last_health_check", VStr (isoformat 0));
    ("total_vcpu", VInt 16); ("total_mem_mb", VInt 65536); ("used_vcpu", VInt used); ("used_mem_mb", VInt 0); ("vm_count", VInt 1)].
Definition silent_host (i az : string) : item :=
  list_to_map [("instance_id", VStr i); ("az", VStr az); ("status", VStr "active")].
Definition sample_fleet : list item := [silent_host "i-1" "a"; fresh_host "i-2" "b" 4; fresh_host "i-3" "b" 2; silent_host "i-4" "b"].


Lemma detect_unhealthy_azs_spec_witness :
  let _ := sample_hc in
  VStr "a" ∈ map o_az [Outage (VStr "a") [VStr "i-1"]] <->
    truthy (VStr "a") = true /\ in_zone (VStr "a") sample_fleet <> [] /\
    forall h, h ∈ sample_fleet -> get h "az" = VStr "a" -> is_host_unhealthy h 0 10 = true.
Proof.
  cbn zeta. apply (detect_unhealthy_azs_spec sample_fleet 0 10 [Outage (VStr "a") [VStr "i-1"]]).
  vm_compute. reflexivity.
Defined.
