(* ===== verification/SkillsLambda.v ===== *)
(** * The skills Lambda: [deploy/lambda/skills/handler.py]

    The public listing of the skills, restricted to those of a tenant on
    request, and exactly those ([list_skills_scoped]).  [read(4096)] is taken
    on the decoded text. *)

From S2P Require Import Prelude Py PyNum Effects Aws Iso Re Config Validate Ssm Rbac Tenants Skills.

(** The position of the first [p] in [s], from [n] on. *)
Fixpoint find_from (p s : string) (pos from : nat) : option nat :=
  if (from <=? pos)%nat && starts_with p s then Some pos
  else match s with
       | EmptyString => None
       | String _ s' => find_from p s' (S pos) from
       end.

(** [s.replace(p, "")] for a non-empty [p]. *)
Fixpoint remove_all (fuel : nat) (p s : string) : string :=
  match fuel with
  | O => s
  | S fuel' =>
      if starts_with p s then remove_all fuel' p (str_drop (String.length p) s)
      else match s with
           | EmptyString => EmptyString
           | String a s' => String a (remove_all fuel' p s')
           end
  end.

Section SkillsLambda.
Context `{Config}.

Definition PREFIX : string := "skills/".

(** ** Descriptions *)

(** The lines of the front matter, after [description:] when [in_desc]. *)
Fixpoint description_of (lines : list string) (in_desc : bool) (desc_lines : list string) : string :=
  match lines with
  | [] => default "" (head desc_lines)
  | line :: rest =>
      if starts_with "description:" (strip line) then
        let v := strip_char squote (strip_char dquote (strip (default "" (snd (split_once colon line))))) in
        if nonempty v && negb (bool_decide (v = "|")) && negb (bool_decide (v = ">")) then v
        else description_of rest true desc_lines
      else if in_desc then
        if starts_with "  " line then description_of rest true (desc_lines ++ [strip line])
        else default "" (head desc_lines)
      else description_of rest false desc_lines
  end.

Definition front_matter (content : string) : option string :=
  if starts_with "---" content then
    match find_from "---" content 0 3 with
    | Some end_ => Some (str_take (end_ - 3) (str_drop 3 content))
    | None => None
    end
  else None.

Definition _read_skill_description (name : string) : M string :=
  try_ (content ← do_ (GetObject (env_or "ASSETS_BUCKET" "") (PREFIX +:+ name +:+ "/SKILL.md"));
        mret (match front_matter (str_take 4096 content) with
              | Some fm => description_of (split_lines fm "") false []
              | None => ""
              end))
  except _ => mret "".

(** ** The listing *)

(** The same resolution as the API's, written again in this Lambda. *)
Definition skills_resolve (tenant_item : item) : M (option (list string)) :=
  if bool_decide (tenant_item = ∅) then mret None
  else
    let tenant_skills := v_or (get tenant_item "skills") (VList []) in
    group_name ← lift (stripped (get tenant_item "group"));
    if negb (truthy tenant_skills) && bool_decide (group_name = "") then mret None
    else
      own ← lift (l ← truthy_elems tenant_skills; hash_all l);
      shared ← (if nonempty group_name && has_groups then
                  try_ (grp ← do_ (GetItem Groups group_name);
                        l ← lift (truthy_elems (v_or (get (default ∅ (grp : option item)) "skills") (VList [])));
                        mret (hash_prefix l))
                  except _ => mret []
                else mret []);
      match own ++ shared with
      | [] => mret None
      | effective => names ← lift (sort_names effective); mret (Some names)
      end.

(** [p.replace(PREFIX, "").rstrip("/")] *)
Definition entry_name (root prefix : string) : string :=
  rstrip_char "/" (remove_all (S (String.length prefix)) root prefix).

Fixpoint skill_entries (allow_list : option (list string)) (prefixes : list string) : M (list val) :=
  match prefixes with
  | [] => mret []
  | p :: ps =>
      let name := entry_name PREFIX p in
      if negb (nonempty name) then skill_entries allow_list ps
      else if match allow_list with Some l => negb (str_in name l) | None => false end
      then skill_entries allow_list ps
      else
        desc ← _read_skill_description name;
        rest ← skill_entries allow_list ps;
        mret (VDict [("id", VStr name); ("name", VStr name); ("description", VStr desc)] :: rest)
  end.

(** [tenants_table is not None] *)
Definition has_tenants : bool := nonempty (env_or "TENANTS_TABLE" "").

Definition list_skills (tenant_filter : string) : M resp :=
  try_ (finish (
    allow_list ⇐ (if nonempty tenant_filter && has_tenants then
                    t ⇐ run_lift (do_ (GetItem Tenants tenant_filter));
                    t ⇐ answer_none (t : option item) (error_resp 404 ("tenant not found: " +:+ tenant_filter));
                    run_lift (skills_resolve t)
                  else go None);
    prefixes ⇐ run_lift (do_ (ListPrefixes (env_or "ASSETS_BUCKET" "") PREFIX));
    skills ⇐ run_lift (skill_entries allow_list prefixes);
    go (_resp 200 (VDict (("skills", VList skills) ::
          (if nonempty tenant_filter
           then [("tenant", VStr tenant_filter);
                 ("scope", VStr (match allow_list with None => "broadcast" | Some _ => "scoped" end))]
           else []))))))
  except e => mret (error_resp 500 (exn_str e)).

Definition skills_handler (method path : string) (qs : list (string * string)) : M resp :=
  if bool_decide (method = "GET") && bool_decide (path = "/skills")
  then list_skills (default "" (alist_get "tenant" qs))
  else mret (error_resp 404 "not found").
End SkillsLambda.

(** ** What a tenant sees *)

Section Scope.
Context `{Config}.

(** The API resolves the skills of a tenant at launch, this Lambda when they are
    listed: the two copies of the code are the same program. *)
Lemma resolve_same (it : item) : skills_resolve it = _resolve_effective_skills it.
Proof.
  unfold skills_resolve. destruct (bool_decide_reflect (it = ∅)) as [->|]; [|done].
  unfold _resolve_effective_skills, get, get_or. by rewrite !lookup_empty.
Qed.

(** The skill names in a field, when it is a list of texts. *)
Definition names_in (v : val) : list string :=
  match v with VList l => List.filter nonempty (strings_of l) | _ => [] end.

(** A list of texts, or nothing. *)
Definition texts (v : val) : Prop := v = VNone \/ exists l, v = VList (map VStr l).

Definition group_of (it : item) : string := ok_or "" (stripped (get it "group")).

(** The skills the tenant is scoped to: its own and those of its group; none
    means every skill. *)
Definition scope (d : db) (it : item) : list string :=
  names_in (get it "skills") ++
  (if nonempty (group_of it) && has_groups
   then names_in (get (default ∅ (db_get d Groups (group_of it))) "skills") else []).

Lemma filter_texts l : List.filter truthy (map VStr l) = map VStr (List.filter nonempty l).
Proof. induction l as [|s l IH]; [done|]. cbn. unfold nonempty at 1. destruct (bool_decide _); cbn; by rewrite IH. Qed.
Lemma strings_of_texts l : strings_of (map VStr l) = l.
Proof. unfold strings_of. induction l as [|s l IH]; [done|]. cbn. by rewrite IH. Qed.
Lemma hashable_texts l : forallb hashable (map VStr l) = true.
Proof. by induction l. Qed.
Lemma hash_prefix_texts l : hash_prefix (map VStr l) = map VStr l.
Proof. induction l as [|s l IH]; [done|]. cbn. by rewrite IH. Qed.

Lemma truthy_elems_texts v : texts v -> truthy_elems (v_or v (VList [])) = Ok (map VStr (names_in v)).
Proof.
  intros [->|[l ->]]; [done|]. unfold names_in. rewrite strings_of_texts.
  unfold v_or. destruct l as [|s l]; [done|]. change (truthy _) with true. cbn beta match.
  change (truthy_elems _) with (Ok (List.filter truthy (map VStr (s :: l)))). by rewrite filter_texts.
Qed.

Lemma sort_texts l : sort_names (map VStr l) = Ok (sorted_set l).
Proof.
  unfold sort_names. assert (forallb is_string (map VStr l) = true) as -> by (by induction l). by rewrite strings_of_texts.
Qed.

Lemma resolve_spec it d :
  texts (get it "skills") -> (exists g, stripped (get it "group") = Ok g) ->
  (forall g row, db_get d Groups g = Some row -> texts (get row "skills")) ->
  wp (S := aws) dynamo_step (_resolve_effective_skills it) d (fun o d' _ => d' = d /\
    o = Ok (match scope d it with [] => None | l => Some (sorted_set l) end)).
Proof.
  intros Hs [g Hg] Hgs. unfold _resolve_effective_skills. unfold scope, group_of. rewrite Hg. cbn [ok_or].
  do_bind. do_ret. rewrite truthy_elems_texts by done.
  destruct (negb (truthy (v_or (get it "skills") (VList []))) && bool_decide (g = "")) eqn:E.
  { apply andb_true_iff in E as [E ->%bool_decide_eq_true]. cbn.
    destruct Hs as [->|[l Hl]]; [done|]. rewrite Hl in E |- *. by destruct l as [|s l]. }
  do_bind. cbn [mbind outcome_bind]. unfold hash_all. rewrite hashable_texts. do_ret.
  set (own := names_in (get it "skills")).
  assert (Hend : forall shared, wp (S := aws) dynamo_step
    (match map VStr own ++ map VStr shared with
     | [] => mret None
     | effective => names ← lift (sort_names effective); mret (Some names)
     end : M (option (list string))) d
    (fun o d' _ => d' = d /\ o = Ok (match own ++ shared with [] => None | l => Some (sorted_set l) end))).
  { intros shared. rewrite <- map_app. destruct (own ++ shared) as [|s l]; [done|].
    pose proof (sort_texts (s :: l)) as E'. cbn [map] in E' |- *. cbn beta match. do_bind. rewrite E'. by do_ret. }
  do_bind. destruct (nonempty g && has_groups).
  - do_catch. do_bind. do_call. intros r d' [-> ->]. cbn beta match. do_bind.
    rewrite truthy_elems_texts.
    2: { destruct (db_get d Groups g) as [row|] eqn:Er; cbn; [by eapply Hgs|by left]. }
    do_ret. rewrite hash_prefix_texts. do_ret. apply Hend.
  - do_ret. pose proof (Hend []) as Hn. cbn [map] in Hn. rewrite !app_nil_r in Hn. exact Hn.
Qed.

(** The names the bucket lists, those of them in [allow_list]. *)
Definition listed (allow_list : option (list string)) (prefixes : list string) : list string :=
  List.filter (fun n => nonempty n && match allow_list with Some l => str_in n l | None => true end)
    (map (entry_name PREFIX) prefixes).

Definition entry_id (e : val) : string :=
  match e with VDict d => match alist_get "id" d with Some (VStr s) => s | _ => "" end | _ => "" end.

Lemma wp_ebind {A B} (k : A -> M (resp + B)) (p : M (resp + A)) d (Q : outcome (resp + B) -> db -> list ev -> Prop) :
  wp (S := aws) dynamo_step p d (fun o d' t => match o with
    | Ok (inl r) => Q (Ok (inl r)) d' t
    | Ok (inr a) => wp (S := aws) dynamo_step (k a) d' (fun o' d'' t' => Q o' d'' (t ++ t'))
    | Exn e => Q (Exn e) d' t
    | NoFuel => Q NoFuel d' t end) ->
  wp (S := aws) dynamo_step (ebind k p) d Q.
Proof.
  intros Hp. apply wp_bind. eapply wp_mono; [apply Hp|]. intros [[r|a]| |] d' t Ht; try done.
  do_ret. exact Ht.
Qed.

Lemma read_spec name d :
  wp (S := aws) dynamo_step (_read_skill_description name) d (fun o d' _ => d' = d /\ exists desc, o = Ok desc).
Proof.
  unfold _read_skill_description. do_catch. do_bind. do_call. intros r d' Hd. cbn in Hd. subst d'.
  destruct r; do_ret; eauto.
Qed.

Lemma entries_spec allow_list ps d :
  wp (S := aws) dynamo_step (skill_entries allow_list ps) d (fun o d' _ => d' = d /\
    exists es, o = Ok es /\ map entry_id es = listed allow_list ps).
Proof.
  induction ps as [|p ps IH]; [by split; [|exists []]|].
  cbn [skill_entries]. unfold listed. cbn [map List.filter]. set (name := entry_name PREFIX p).
  assert (Hname : wp (S := aws) dynamo_step
    (desc ← _read_skill_description name; rest ← skill_entries allow_list ps;
     mret (VDict [("id", VStr name); ("name", VStr name); ("description", VStr desc)] :: rest) : M (list val)) d
    (fun o d' _ => d' = d /\ exists es, o = Ok es /\ map entry_id es = name :: listed allow_list ps)).
  { do_bind. eapply wp_mono; [apply read_spec|]. intros o d' t [-> [desc ->]]. do_bind.
    eapply wp_mono; [apply IH|]. intros o d' t' [-> (es & -> & Hes)]. do_ret. split; [done|].
    eexists; split; [done|]. cbn. by rewrite Hes. }
  destruct (nonempty name); cbn [negb andb]; [|apply IH].
  destruct allow_list as [l|]; [|apply Hname].
  destruct (str_in name l); cbn [negb]; [apply Hname|apply IH].
Qed.

(** A row whose skills and group are well-typed. *)
Definition typed_scope (d : db) (it : item) : Prop :=
  texts (get it "skills") /\ (exists g, stripped (get it "group") = Ok g) /\
  forall g row, db_get d Groups g = Some row -> texts (get row "skills").

(** The skills of the bucket that a tenant may use: all, unless it is scoped, and
    all where the Lambda is given no table of tenants to look it up in. *)
Definition visible (d : db) (it : item) (prefixes : list string) : list string :=
  listed (if has_tenants then match scope d it with [] => None | l => Some l end else None) prefixes.

Lemma listed_scope d it ps : has_tenants = true ->
  listed (match scope d it with [] => None | l => Some (sorted_set l) end) ps = visible d it ps.
Proof.
  intros Ht. unfold visible, listed. rewrite Ht. destruct (scope d it) as [|s l]; [done|]. apply filter_ext. intros n. f_equal.
  apply eq_true_iff_eq. unfold str_in. rewrite !existsb_exists. 
  setoid_rewrite bool_decide_eq_true. setoid_rewrite <- list_elem_of_In. setoid_rewrite sorted_set_elem. done.
Qed.

(** The answers of a listing, by what the bucket replied: *)
Definition listing (d : db) (it : item) (tid : string) (o : outcome resp) (t : list ev) : Prop :=
  (exists e, Ev (S := aws) (ListPrefixes (env_or "ASSETS_BUCKET" "") PREFIX) (inr e) ∈ t /\ o = Ok (error_resp 500 (exn_str e))) \/
  (exists ps es sc, Ev (S := aws) (ListPrefixes (env_or "ASSETS_BUCKET" "") PREFIX) (inl ps) ∈ t /\
      o = Ok (_resp 200 (VDict [("skills", VList es); ("tenant", VStr tid); ("scope", VStr sc)])) /\
      map entry_id es = visible d it ps).

(** C35: listing the skills of a tenant shows, in the order of the bucket, exactly
    those of the tenant's own scope: its skills and its group's, or every skill
    when it has none, or when the Lambda has no table of tenants; an unreachable
    bucket is a 500, and nothing is written. *)
Theorem list_skills_scoped {W} (E : env aws W) (view : W -> db) (w : W) (tid : string) (it : item) :
  obeys (S := aws) dynamo_step view E ->
  tid <> "" -> db_get (view w) Tenants tid = Some it -> typed_scope (view w) it ->
  let '(o, w', t) := run E (list_skills tid) w in
  view w' = view w /\ listing (view w) it tid o t.
Proof.
  intros HE Htid Hit (Hs & Hg & Hgs).
  apply (run_wp dynamo_step view E (list_skills tid) w (fun o d' t => d' = view w /\ listing (view w) it tid o t) HE).
  assert (nonempty tid = true) as Hne by (unfold nonempty; by rewrite bool_decide_eq_false_2).
  assert (Hrest : forall allow, (forall ps, listed allow ps = visible (view w) it ps) ->
    wp (S := aws) dynamo_step
      (prefixes ⇐ run_lift (do_ (ListPrefixes (env_or "ASSETS_BUCKET" "") PREFIX));
       skills ⇐ run_lift (skill_entries allow prefixes);
       go (_resp 200 (VDict [("skills", VList skills); ("tenant", VStr tid);
         ("scope", VStr (match allow with None => "broadcast" | Some _ => "scoped" end))]))) (view w)
      (fun o d' t => match o with
        | Ok (inl r) | Ok (inr r) => d' = view w /\ forall t0, listing (view w) it tid (Ok r) (t0 ++ t)
        | Exn e => d' = view w /\ forall t0, listing (view w) it tid (Ok (error_resp 500 (exn_str e))) (t0 ++ t)
        | NoFuel => False end)).
  { intros allow Ha. apply wp_ebind. unfold run_lift at 1. do_bind. do_call.
    intros [ps|e] d' Hd; cbn in Hd; subst d'; [do_ret|].
    - apply wp_ebind. do_bind. eapply wp_mono; [apply entries_spec|].
      intros o d' t2 [-> (es & -> & Hes)]. do_ret. split; [done|]. intros t0. right.
      eexists ps, es, _. split; [set_solver|]. split; [done|]. by rewrite Hes, Ha.
    - split; [done|]. intros t0. left. exists e. split; [set_solver|done]. }
  unfold list_skills. rewrite Hne. do_catch. unfold finish. do_bind. cbn [andb]. apply wp_ebind.
  destruct has_tenants eqn:Et.
  - apply wp_ebind. do_bind. do_call. intros r d' [-> ->]. do_ret. rewrite Hit. apply wp_ebind. unfold answer_none, go. do_ret.
    unfold run_lift at 1. do_bind. rewrite resolve_same.
    eapply wp_mono; [by apply resolve_spec|]. intros o d' t1 [-> ->]. do_ret.
    eapply wp_mono; [apply (Hrest _ (fun ps => listed_scope _ _ ps Et))|]. intros [[r|r]|e|] d' t Ht; [..|done]; destruct Ht as [-> Ht]; do_ret; (split; [done|]); rewrite ?app_nil_r; apply Ht.
  - unfold go at 1. do_ret. eapply wp_mono; [apply (Hrest None)|].
    + intros ps. unfold visible. by rewrite Et.
    + intros [[r|r]|e|] d' t Ht; [..|done]; destruct Ht as [-> Ht]; do_ret; (split; [done|]); rewrite ?app_nil_r; apply Ht.
Qed.


End Scope.

(** ** Witness *)

Definition group_row : item := {["name" := VStr "ops"; "skills" := VList [VStr "web"]]}.
Definition scoped_row : item :=
  {["id" := VStr "t1"; "group" := VStr "ops"; "skills" := VList [VStr "git"; VStr ""]]}.
Definition scoped_db : db :=
  Db (fun t => match t with Tenants => {["t1" := scoped_row]} | Groups => {["ops" := group_row]} | _ => ∅ end).

(** A bucket with three skills, the descriptions of which cannot be read. *)
Definition sample_bucket (c : aws_op) (_ : nat) : aws_reply c + exn :=
  match c return aws_reply c + exn with
  | ListPrefixes _ _ => inl ["skills/git/"; "skills/mail/"; "skills/web/"]
  | _ => inr (PyExn "EndpointConnectionError" "no endpoint")
  end.

Lemma list_skills_scoped_witness :
  let '(o, w', t) := run (mem_env 1 sample_bucket) (list_skills (H := sample_config) "t1") (Mem scoped_db 0) in
  mem_db w' = scoped_db /\ listing (H := sample_config) scoped_db scoped_row "t1" o t.
Proof.
  apply (list_skills_scoped (H := sample_config) (mem_env 1 sample_bucket) mem_db (Mem scoped_db 0)).
  - apply mem_env_obeys.
  - done.
  - done.
  - split; [|split].
    + right. by exists ["git"; ""].
    + by exists "ops".
    + intros g row. unfold db_get. cbn. intros [<- <-]%lookup_singleton_Some. right. by exists ["web"].
Defined.
