(* ===== verification/AgentcoreTools.v ===== *)
(** * The AgentCore tools Lambda: [deploy/lambda/agentcore_tools/handler.py]

    The tools that the AgentCore gateway offers to the agents.  The version of
    the interpreter is an argument; text outside Latin-1 is kept in UTF-8. *)

From Stdlib Require Import SpecFloat.
From S2P Require Import Prelude Py PyNum Effects Aws Iso Config.

Section Tools.
Context `{Config} (python_version : string).

Definition handle_hello (args : val) : M val :=
  name ← lift (vget_or args "name" (VStr "World"));
  mret (VDict [("message", VStr ("Hello, " +:+ py_str repr_float name +:+
    "! This response comes from AgentCore Gateway → Lambda."))]).

Definition handle_system_info (args : val) : M val :=
  mret (VDict [("runtime", VStr "AWS Lambda"); ("python", VStr python_version);
               ("region", VStr (env_or "AWS_REGION" "unknown"));
               ("function", VStr (env_or "AWS_LAMBDA_FUNCTION_NAME" "unknown"))]).

(** [int(now.timestamp())] for an instant in microseconds. *)
Definition unix_seconds (us : Z) : outcome Z := float_trunc (int_ratio us 1000000).

Definition handle_timestamp (args : val) : M val :=
  fmt ← lift (vget_or args "format" (VStr "iso"));
  now ← do_ NowUtc;
  if is_str fmt "unix" then s ← lift (unix_seconds now); mret (VDict [("timestamp", VInt s)])
  else mret (VDict [("timestamp", VStr (isoformat now))]).

Definition tools : list (string * (val -> M val)) :=
  [("hello", handle_hello); ("system_info", handle_system_info); ("timestamp", handle_timestamp)].

(** [tools.get(tool_name)] *)
Definition find_tool (tool_name : val) : outcome (option (val -> M val)) :=
  match tool_name with
  | VStr s => Ok (alist_get s tools)
  | v => if hashable v then Ok None else type_error "unhashable type"
  end.

Definition agentcore_handler (event : val) : M val :=
  name ← lift (vget_or event "name" (VStr ""));
  tool_name ← lift (vget_or event "toolName" name);
  input ← lift (vget_or event "input" (VDict []));
  args ← lift (vget_or event "arguments" input);
  handler ← lift (find_tool tool_name);
  match handler with
  | None => mret (VDict [("error", VStr ("Unknown tool: " +:+ py_str repr_float tool_name));
                         ("available", VList (map (fun t => VStr t.1) tools))])
  | Some h => h args
  end.

(** Whatever the event, a call of the gateway reads the clock and no more. *)
Lemma tools_read_only (event : val) :
  awp (agentcore_handler event) (fun _ t => Forall (fun e : ev => ev_call e = NowUtc) t).
Proof.
  assert (Hh : forall v h args, find_tool v = Ok (Some h) ->
    awp (h args) (fun _ t => Forall (fun e : ev => ev_call e = NowUtc) t)).
  { intros v h args Hf. destruct v; cbn in Hf; try done. repeat case_bool_decide; simplify_eq;
      unfold handle_hello, handle_system_info, handle_timestamp; by all_calls. }
  unfold agentcore_handler. do 4 (apply awp_all_events_bind; [apply awp_all_events_done|intros ?]).
  apply awp_bind, awp_lift. destruct (find_tool _) as [[h|]|e|] eqn:E; cbn beta match; [|repeat constructor..].
  eapply awp_mono; [by eapply Hh|]. done.
Qed.
End Tools.

(** A stamp a million seconds and a half after the epoch, in both formats. *)
Example stamps :
  unix_seconds 1500000999999 = Ok 1500000 /\ isoformat 1500000999999 = "1970-01-18T08:40:00.999999+00:00".
Proof. split; vm_compute; reflexivity. Qed.
