(* ===== verification/Templates.v ===== *)
(** * The templates Lambda: [deploy/lambda/templates/handler.py]

    Configuration templates kept in S3.  [json_text] is [json.dumps(v, indent=2)],
    which only reaches the stored object. *)

From S2P Require Import Prelude Py Effects Aws Iso Config Validate Rbac Tenants SkillsLambda.

Section Templates.
Context `{Config} (json_text : val -> string).

Definition TEMPLATES_PREFIX : string := "templates/openclaw/".
Definition template_key (name : string) : string := TEMPLATES_PREFIX +:+ name +:+ "/openclaw.json".
Definition BUCKET : string := env_or "ASSETS_BUCKET" "".

Fixpoint template_entries (prefixes : list string) : M (list val) :=
  match prefixes with
  | [] => mret []
  | p :: ps =>
      let name := entry_name TEMPLATES_PREFIX p in
      if negb (nonempty name) then template_entries ps
      else
        '(size, modified) ← (try_ (meta ← do_ (HeadObject BUCKET (template_key name));
                                   mret (so_size meta, isoformat (so_modified meta)))
                             except _ => mret (0, ""));
        rest ← template_entries ps;
        mret (VDict [("name", VStr name); ("size", VInt size); ("modified", VStr modified)] :: rest)
  end.

Definition list_templates : M resp :=
  try_ (prefixes ← do_ (ListPrefixes BUCKET TEMPLATES_PREFIX);
        templates ← template_entries prefixes;
        mret (_resp 200 (VDict [("templates", VList templates)])))
  except e => mret (error_resp 500 (exn_str e)).

Definition get_template (name : string) : M resp :=
  try_ (content ← do_ (GetObject BUCKET (template_key name));
        v ← lift (json_loads content);
        mret (_resp 200 (VDict [("name", VStr name); ("content", v)])))
  except e =>
    if bool_decide (exn_code e = Some "NoSuchKey")
    then mret (error_resp 404 ("template '" +:+ name +:+ "' not found"))
    else mret (error_resp 500 (exn_str e)).

Definition is_json_error (e : exn) : bool :=
  match e with PyExn cls _ => bool_decide (cls = "JSONDecodeError") | _ => false end.

(** [json.loads(body) if isinstance(body, str) else body]: a null body is kept. *)
Definition template_content (b : req_body) : outcome val :=
  match b with NoBody => Ok VNone | b => load_body b end.

Definition put_template (name : string) (body : req_body) : M resp :=
  if bool_decide (name = "default") then mret (error_resp 403 "cannot modify default template")
  else
    try_ (content ← lift (template_content body);
          _ ← do_ (PutObject BUCKET (template_key name) (json_text content));
          mret (_resp 200 (VDict [("name", VStr name); ("status", VStr "saved")])))
    except e =>
      if is_json_error e then mret (error_resp 400 "invalid JSON") else mret (error_resp 500 (exn_str e)).

Definition delete_template (name : string) : M resp :=
  if bool_decide (name = "default") then mret (error_resp 403 "cannot delete default template")
  else
    try_ (_ ← do_ (DeleteObject BUCKET (template_key name));
          mret (_resp 200 (VDict [("name", VStr name); ("status", VStr "deleted")])))
    except e => mret (error_resp 500 (exn_str e)).

Definition templates_handler (method name : string) (body : req_body) : M resp :=
  if bool_decide (method = "GET") && negb (nonempty name) then list_templates
  else if bool_decide (method = "GET") then get_template name
  else if bool_decide (method = "PUT") && nonempty name then put_template name body
  else if bool_decide (method = "DELETE") && nonempty name then delete_template name
  else mret (error_resp 404 "not found").
End Templates.
