(* ===== verification/Backup.v ===== *)
(** * The backup Lambda: [deploy/lambda/backup/handler.py] *)

From S2P Require Import Prelude Py Effects Aws Iso Config Validate Ssm Tenants.

Section Backup.
Context `{Config}.

Definition backup_command (tid : string) : string :=
  "/home/ubuntu/backup-data.sh " +:+ tid +:+ " " +:+ env_or "ASSETS_BUCKET" "" +:+ " " +:+
  env_or "BACKUP_PREFIX" "backups".

Definition backup_ssm_run (instance_id : val) (command : string) (timeout : Z) : M (bool * string) :=
  match instance_id with
  | VStr i => ssm_run i command timeout 5 3
  | _ => mret (false, "Parameter validation failed")
  end.

Definition backup_tenant (tenant : item) : M val :=
  tid ← lift (v ← req tenant "id"; as_key v);
  host_id ← lift (req tenant "host_id");
  now ← _now;
  '(success, output) ← backup_ssm_run host_id (backup_command tid) 300;
  _ ← (if success : bool then
         _ ← do_ (UpdateItem Tenants tid [SET "last_backup_at" (Lit (VStr now))] None RvNone); mret tt
       else mret tt);
  mret (VDict ([("tenant_id", VStr tid); ("success", VBool success); ("timestamp", VStr now)] ++
               (if success : bool then [] else [("error", VStr output)]))).

Fixpoint backup_all (tenants : list item) : M (list val) :=
  match tenants with
  | [] => mret []
  | t :: ts => r ← backup_tenant t; rs ← backup_all ts; mret (r :: rs)
  end.

Definition backup_handler (event : val) : M val :=
  tenant_id ← lift (vget event "tenant_id");
  if truthy tenant_id then
    key ← lift (as_key tenant_id);
    it ← do_ (GetItem Tenants key);
    match it with
    | None => mret (VDict [("error", VStr "tenant not running")])
    | Some it =>
        if negb (is_str (get it "status") "running") then mret (VDict [("error", VStr "tenant not running")])
        else backup_tenant it
    end
  else
    tenants ← _scan_all Tenants (Some (CEq (Attr "status") (Lit (VStr "running"))));
    rs ← backup_all tenants;
    mret (VList rs).
End Backup.
