(* ===== verification/HostCalls.v ===== *)
(** * Programs of a host

    The host agent keeps module-level variables and calls the operating
    system of its host and DynamoDB.  An action [act A] over a state [St] is a
    program that is given the state and finishes with the result of the
    Python code, a value or an exception, and the state it leaves: an
    exception keeps what was assigned before it.  [hwp] is the weakest
    precondition of an action, built on [wp]. *)

From Stdlib Require Import SpecFloat.
From S2P Require Import Prelude Py Effects Aws.

Section Act.
Context {S : sig} {St : Type}.

Definition act (A : Type) : Type := St -> prog S (outcome A * St).

Definition act_ret {A} (a : A) : act A := fun s => mret (Ok a, s).
Definition act_raise {A} (e : exn) : act A := fun s => mret (Exn e, s).
Definition act_lift {A} (o : outcome A) : act A := fun s => mret (o, s).

Definition act_bind {A B} (f : A -> act B) (p : act A) : act B := fun s =>
  rs ← p s;
  match rs with
  | (Ok a, s') => f a s'
  | (Exn e, s') => mret (Exn e, s')
  | (NoFuel, s') => mret (NoFuel, s')
  end.

#[export] Instance act_mret : MRet act := @act_ret.
#[export] Instance act_mbind : MBind act := @act_bind.

(** [try: p except Exception as e: h e], for the exceptions that [P] accepts. *)
Definition act_catch_if {A} (P : exn -> bool) (p : act A) (h : exn -> act A) : act A := fun s =>
  rs ← p s;
  match rs with
  | (Exn e, s') => if P e then h e s' else mret (Exn e, s')
  | _ => mret rs
  end.
Definition act_catch {A} (p : act A) (h : exn -> act A) : act A := act_catch_if (fun _ => true) p h.

Definition act_call (c : op S) : act (reply S c) := fun s =>
  Call c (fun r => Done (Ok (match r with inl a => Ok a | inr e => Exn e end, s))).

(** Reading and assigning the variables. *)
Definition act_get : act St := fun s => mret (Ok s, s).
Definition act_mod (f : St -> St) : act unit := fun s => mret (Ok tt, f s).

Fixpoint act_for {A} (l : list A) (body : A -> act unit) : act unit :=
  match l with
  | [] => act_ret tt
  | x :: l' => act_bind (fun _ => act_for l' body) (body x)
  end.

Fixpoint act_fold {A B} (body : B -> A -> act B) (l : list A) (acc : B) : act B :=
  match l with
  | [] => act_ret acc
  | x :: l' => act_bind (fun acc' => act_fold body l' acc') (body acc x)
  end.

(** ** Weakest preconditions *)

Section Hwp.
Context {D : Type} (step : forall c : op S, D -> reply S c + exn -> D -> Prop).

Definition hwp {A} (p : act A) (s : St) (d : D) (Q : outcome A -> St -> D -> list (event S) -> Prop) : Prop :=
  wp step (p s) d (fun o d' t => match o with Ok (r, s') => Q r s' d' t | _ => False end).

Lemma hwp_mono {A} (p : act A) s d (Q Q' : outcome A -> St -> D -> list (event S) -> Prop) :
  hwp p s d Q -> (forall r s' d' t, Q r s' d' t -> Q' r s' d' t) -> hwp p s d Q'.
Proof. intros H HQ. eapply wp_mono; [apply H|]. intros [[r s']| |] d' t; auto. Qed.

Lemma hwp_and {A} (p : act A) s d (Q Q' : outcome A -> St -> D -> list (event S) -> Prop) :
  hwp p s d Q -> hwp p s d Q' -> hwp p s d (fun r s' d' t => Q r s' d' t /\ Q' r s' d' t).
Proof.
  intros H H'. eapply wp_mono; [apply wp_and; [apply H|apply H']|]. intros [[r s']| |] d' t; tauto.
Qed.

Lemma hwp_ret {A} (a : A) s d (Q : outcome A -> St -> D -> list (event S) -> Prop) :
  Q (Ok a) s d [] -> hwp (mret a) s d Q.
Proof. done. Qed.

Lemma hwp_lift {A} (o : outcome A) s d (Q : outcome A -> St -> D -> list (event S) -> Prop) :
  Q o s d [] -> hwp (act_lift o) s d Q.
Proof. done. Qed.

Lemma hwp_raise {A} e s d (Q : outcome A -> St -> D -> list (event S) -> Prop) :
  Q (Exn e) s d [] -> hwp (act_raise e) s d Q.
Proof. done. Qed.

Lemma hwp_get s d (Q : outcome St -> St -> D -> list (event S) -> Prop) :
  Q (Ok s) s d [] -> hwp act_get s d Q.
Proof. done. Qed.

Lemma hwp_mod f s d (Q : outcome unit -> St -> D -> list (event S) -> Prop) :
  Q (Ok tt) (f s) d [] -> hwp (act_mod f) s d Q.
Proof. done. Qed.

Lemma hwp_call c s d (Q : outcome (reply S c) -> St -> D -> list (event S) -> Prop) :
  (forall r d', step c d r d' -> Q (match r with inl a => Ok a | inr e => Exn e end) s d' [Ev c r]) ->
  hwp (act_call c) s d Q.
Proof. intros H r d' Hs. cbn. by apply H. Qed.

Lemma hwp_bind {A B} (f : A -> act B) (p : act A) s d (Q : outcome B -> St -> D -> list (event S) -> Prop) :
  hwp p s d (fun r s' d' t =>
    match r with
    | Ok a => hwp (f a) s' d' (fun r' s'' d'' t' => Q r' s'' d'' (t ++ t'))
    | Exn e => Q (Exn e) s' d' t
    | NoFuel => Q NoFuel s' d' t
    end) ->
  hwp (p ≫= f) s d Q.
Proof.
  intros H. apply wp_bind. eapply wp_mono; [apply H|]. intros [[[a|e|] s']| |] d' t Ht; try done;
    cbn; by rewrite app_nil_r.
Qed.

Lemma hwp_catch_if {A} (P : exn -> bool) (p : act A) (h : exn -> act A) s d (Q : outcome A -> St -> D -> list (event S) -> Prop) :
  hwp p s d (fun r s' d' t =>
    match r with
    | Exn e => if P e then hwp (h e) s' d' (fun r' s'' d'' t' => Q r' s'' d'' (t ++ t')) else Q r s' d' t
    | _ => Q r s' d' t
    end) ->
  hwp (act_catch_if P p h) s d Q.
Proof.
  intros H. apply wp_bind. eapply wp_mono; [apply H|]. intros [[[a|e|] s']| |] d' t Ht; try done;
    try (cbn; by rewrite app_nil_r).
  destruct (P e); [exact Ht|]. cbn. by rewrite app_nil_r.
Qed.

Lemma hwp_catch {A} (p : act A) (h : exn -> act A) s d (Q : outcome A -> St -> D -> list (event S) -> Prop) :
  hwp p s d (fun r s' d' t =>
    match r with
    | Exn e => hwp (h e) s' d' (fun r' s'' d'' t' => Q r' s'' d'' (t ++ t'))
    | _ => Q r s' d' t
    end) ->
  hwp (act_catch p h) s d Q.
Proof. intros H. apply hwp_catch_if. eapply hwp_mono; [apply H|]. by intros [a|e|]. Qed.

(** A loop keeps an invariant of the state and of the trace so far, exceptions
    included. *)
Lemma hwp_for {A} (body : A -> act unit) (I : St -> D -> list (event S) -> Prop) l s d t0 :
  I s d t0 ->
  (forall x s d t, x ∈ l -> I s d t -> hwp (body x) s d (fun _ s' d' t' => I s' d' (t ++ t'))) ->
  hwp (act_for l body) s d (fun _ s' d' t' => I s' d' (t0 ++ t')).
Proof.
  revert s d t0; induction l as [|x l IH]; intros s d t0 HI Hb.
  - apply (hwp_ret tt). by rewrite app_nil_r.
  - apply hwp_bind. eapply hwp_mono; [apply Hb; [left|done]|].
    intros [[]|e|] s' d' t HI'; [|done|done].
    eapply hwp_mono; [apply (IH _ _ (t0 ++ t)); [done|intros; apply Hb; [by right|done]]|].
    intros r s'' d'' t'. by rewrite app_assoc.
Qed.

Lemma hwp_fold {A B} (body : B -> A -> act B) (I : B -> St -> D -> list (event S) -> Prop)
    (J : St -> D -> list (event S) -> Prop) l acc s d t0 :
  I acc s d t0 ->
  (forall x acc s d t, x ∈ l -> I acc s d t ->
     hwp (body acc x) s d (fun r s' d' t' =>
       match r with Ok acc' => I acc' s' d' (t ++ t') | _ => J s' d' (t ++ t') end)) ->
  hwp (act_fold body l acc) s d (fun r s' d' t' =>
    match r with Ok acc' => I acc' s' d' (t0 ++ t') | _ => J s' d' (t0 ++ t') end).
Proof.
  revert acc s d t0; induction l as [|x l IH]; intros acc s d t0 HI Hb.
  - apply (hwp_ret acc). by rewrite app_nil_r.
  - apply hwp_bind. eapply hwp_mono; [apply Hb; [left|done]|].
    intros [acc'|e|] s' d' t HI'; [|done|done].
    eapply hwp_mono; [apply (IH _ _ _ (t0 ++ t)); [done|intros; apply Hb; [by right|done]]|].
    intros [a|e|] s'' d'' t'; by rewrite app_assoc.
Qed.
End Hwp.

(** Running an action from a state. *)
Lemma run_hwp {W D A} step (view : W -> D) (E : env S W) (p : act A) s w
    (Q : outcome A -> St -> D -> list (event S) -> Prop) :
  obeys step view E -> hwp step p s (view w) Q ->
  exists r s' w' t, run E (p s) w = (Ok (r, s'), w', t) /\ Q r s' (view w') t.
Proof.
  intros HE H. pose proof (run_wp step view E (p s) w _ HE H) as R.
  destruct (run E (p s) w) as [[[[r s']| |] w'] t]; try done. by exists r, s', w', t.
Qed.
End Act.
Arguments act : clear implicits.
Arguments hwp {S St D} step {A} p s d Q : simpl never.

(** Any host at all: nothing is assumed of the replies. *)
Definition hawp {S St A} (p : act S St A) (s : St) (Q : outcome A -> St -> list (event S) -> Prop) : Prop :=
  hwp any_step p s tt (fun r s' _ t => Q r s' t).

Notation "'tryA_' p 'except' e '=>' h" := (act_catch p (fun e => h))
  (at level 10, p at level 100, e name, h at level 200).
Notation "'tryA_' p 'except_if' P e '=>' h" := (act_catch_if P p (fun e => h))
  (at level 10, p at level 100, P at level 9, e name, h at level 200).

(** ** The calls of the agent *)

Record proc := Proc { returncode : Z; stdout : string; stderr : string }.

Inductive host_call :=
(* the DynamoDB calls, those of the control plane *)
| Ddb (c : aws_op)
(* a page of a scan that returns only some attributes *)
| ScanProjected (t : table) (attrs : list string) (start : option string)
(* the instance metadata service, and the client for the region it names *)
| ImdsToken
| ImdsRegion (token : string)
| DdbResource (region : string)
(* files *)
| ListDir (path : string)
| IsFile (path : string)
| PathExists (path : string)
| GetMtime (path : string)
| ReadFile (path : string)
| WriteFile (path content : string)
| RemoveFile (path : string)
| MakeDirs (path : string)
| ReplaceFile (src dst : string)
(* processes; [None] is no timeout *)
| RunProc (argv : list string) (timeout : option Z)
| Popen (argv : list string)
(* clocks: [time.time()], [time.monotonic()], and the current second in UTC *)
| WallTime
| Monotonic
| UtcNow
| SleepFor (seconds : Z).

Definition host_reply (c : host_call) : Type :=
  match c with
  | Ddb c => aws_reply c
  | ScanProjected _ _ _ => page
  | ImdsToken | ImdsRegion _ => string
  | DdbResource _ => unit
  | ListDir _ => list string
  | IsFile _ | PathExists _ => bool
  | GetMtime _ => spec_float
  | ReadFile _ => string
  | WriteFile _ _ | RemoveFile _ | MakeDirs _ | ReplaceFile _ _ => unit
  | RunProc _ _ => proc
  | Popen _ => unit
  | WallTime | Monotonic => spec_float
  | UtcNow => string
  | SleepFor _ => unit
  end.

Definition host : sig := Sig host_call host_reply.
Abbreviation hev := (event host).
Definition host_do {St} (c : host_call) : act host St (host_reply c) := act_call (S := host) c.

Definition is_exn (cls : list string) (e : exn) : bool :=
  match e with PyExn c _ => existsb (fun k => bool_decide (c = k)) cls | ClientError _ _ => false end.

(** ** Actions that keep a relation of the state, and whose events satisfy a
    predicate, on any host *)

Section Keeps.
Context {S : sig} {St : Type} (R : St -> St -> Prop) (P : event S -> Prop).
Context `{!PreOrder R}.
#[local] Set Default Proof Using "Type*".

Definition keeps {A} (p : act S St A) : Prop :=
  forall s, hwp any_step p s tt (fun _ s' _ t => R s s' /\ Forall P t).

Lemma keeps_ret {A} (a : A) : keeps (mret a).
Proof. intros s. apply hwp_ret. by split; [reflexivity|constructor]. Qed.

Lemma keeps_lift {A} (o : outcome A) : keeps (act_lift o).
Proof. intros s. apply hwp_lift. by split; [reflexivity|constructor]. Qed.

Lemma keeps_raise {A} e : keeps (act_raise (A := A) e).
Proof. intros s. apply hwp_raise. by split; [reflexivity|constructor]. Qed.

Lemma keeps_get : keeps act_get.
Proof. intros s. apply hwp_get. by split; [reflexivity|constructor]. Qed.

Lemma keeps_mod f : (forall s, R s (f s)) -> keeps (act_mod f).
Proof. intros Hf s. apply hwp_mod. by split; [apply Hf|constructor]. Qed.

Lemma keeps_call c : (forall r, P (Ev c r)) -> keeps (act_call c).
Proof. intros Hc s. apply hwp_call. intros r [] _. split; [reflexivity|]. by repeat constructor. Qed.

Lemma keeps_bind {A B} (p : act S St A) (f : A -> act S St B) : keeps p -> (forall a, keeps (f a)) -> keeps (p ≫= f).
Proof.
  intros Hp Hf s. apply hwp_bind. eapply hwp_mono; [apply Hp|]. intros [a|e|] s' [] t [HR Ht]; try done.
  eapply hwp_mono; [apply Hf|]. intros r s'' [] t' [HR' Ht']. split; [by etrans|by apply Forall_app].
Qed.

Lemma keeps_catch_if {A} (C : exn -> bool) (p : act S St A) (h : exn -> act S St A) :
  keeps p -> (forall e, keeps (h e)) -> keeps (act_catch_if C p h).
Proof.
  intros Hp Hh s. apply hwp_catch_if. eapply hwp_mono; [apply Hp|]. intros [a|e|] s' [] t [HR Ht]; try done.
  destruct (C e); [|done].
  eapply hwp_mono; [apply Hh|]. intros r s'' [] t' [HR' Ht']. split; [by etrans|by apply Forall_app].
Qed.

Lemma keeps_catch {A} (p : act S St A) (h : exn -> act S St A) :
  keeps p -> (forall e, keeps (h e)) -> keeps (act_catch p h).
Proof. apply keeps_catch_if. Qed.

Lemma keeps_for {A} (l : list A) (body : A -> act S St unit) :
  (forall x, x ∈ l -> keeps (body x)) -> keeps (act_for l body).
Proof.
  induction l as [|x l IH]; intros Hb; [apply keeps_ret|].
  apply keeps_bind; [apply Hb; left|]. intros _. apply IH. intros y Hy. apply Hb. by right.
Qed.

Lemma keeps_fold {A B} (body : B -> A -> act S St B) (l : list A) : forall acc,
  (forall acc x, x ∈ l -> keeps (body acc x)) -> keeps (act_fold body l acc).
Proof.
  induction l as [|x l IH]; intros acc Hb; [apply keeps_ret|].
  apply keeps_bind; [apply Hb; left|]. intros acc'. apply IH. intros a y Hy. apply Hb. by right.
Qed.
End Keeps.

(** ** Actions that change the world in a given way only *)

Section Preserves.
Context {S : sig} {St D : Type} (step : forall c : op S, D -> reply S c + exn -> D -> Prop) (R : D -> D -> Prop).
Context `{!PreOrder R}.
#[local] Set Default Proof Using "Type*".

Definition preserves {A} (p : act S St A) : Prop :=
  forall s d, hwp step p s d (fun _ _ d' _ => R d d').

Lemma preserves_ret {A} (a : A) : preserves (mret a).
Proof. intros s d. by apply hwp_ret. Qed.
Lemma preserves_lift {A} (o : outcome A) : preserves (act_lift o).
Proof. intros s d. by apply hwp_lift. Qed.
Lemma preserves_get : preserves act_get.
Proof. intros s d. by apply hwp_get. Qed.
Lemma preserves_mod f : preserves (act_mod f).
Proof. intros s d. by apply hwp_mod. Qed.
Lemma preserves_call c : (forall d r d', step c d r d' -> R d d') -> preserves (act_call c).
Proof. intros Hc s d. apply hwp_call. intros r d' Hs. by eapply Hc. Qed.

Lemma preserves_bind {A B} (p : act S St A) (f : A -> act S St B) :
  preserves p -> (forall a, preserves (f a)) -> preserves (p ≫= f).
Proof.
  intros Hp Hf s d. apply hwp_bind. eapply hwp_mono; [apply Hp|]. intros [a|e|] s' d' t HR; try done.
  eapply hwp_mono; [apply Hf|]. intros r s'' d'' t' HR'. by etrans.
Qed.

Lemma preserves_catch_if {A} (C : exn -> bool) (p : act S St A) (h : exn -> act S St A) :
  preserves p -> (forall e, preserves (h e)) -> preserves (act_catch_if C p h).
Proof.
  intros Hp Hh s d. apply hwp_catch_if. eapply hwp_mono; [apply Hp|]. intros [a|e|] s' d' t HR; try done.
  destruct (C e); [|done]. eapply hwp_mono; [apply Hh|]. intros r s'' d'' t' HR'. by etrans.
Qed.

Lemma preserves_catch {A} (p : act S St A) (h : exn -> act S St A) :
  preserves p -> (forall e, preserves (h e)) -> preserves (act_catch p h).
Proof. apply preserves_catch_if. Qed.

Lemma preserves_for {A} (l : list A) (body : A -> act S St unit) :
  (forall x, x ∈ l -> preserves (body x)) -> preserves (act_for l body).
Proof.
  induction l as [|x l IH]; intros Hb; [apply preserves_ret|].
  apply preserves_bind; [apply Hb; left|]. intros _. apply IH. intros y Hy. apply Hb. by right.
Qed.

Lemma preserves_fold {A B} (body : B -> A -> act S St B) (l : list A) : forall acc,
  (forall acc x, x ∈ l -> preserves (body acc x)) -> preserves (act_fold body l acc).
Proof.
  induction l as [|x l IH]; intros acc Hb; [apply preserves_ret|].
  apply preserves_bind; [apply Hb; left|]. intros acc'. apply IH. intros a y Hy. apply Hb. by right.
Qed.
End Preserves.

(** Peel an action down to its calls and assignments. *)
Ltac keeps_calls :=
  repeat (cbn beta zeta; match goal with
    | |- keeps _ _ (mret _) => refine (keeps_ret _ _ _)
    | |- keeps _ _ (act_lift _) => refine (keeps_lift _ _ _)
    | |- keeps _ _ (act_raise _) => refine (keeps_raise _ _ _)
    | |- keeps _ _ act_get => refine (keeps_get _ _)
    | |- keeps _ _ (mbind _ _) => refine (keeps_bind _ _ _ _ _ _); [|intros ?]
    | |- keeps _ _ (act_catch _ _) => refine (keeps_catch _ _ _ _ _ _); [|intros ?]
    | |- keeps _ _ (act_catch_if _ _ _) => refine (keeps_catch_if _ _ _ _ _ _ _); [|intros ?]
    | |- keeps _ _ (act_for _ _) => refine (keeps_for _ _ _ _ _); intros ? ?
    | |- keeps _ _ (act_fold _ _ _) => refine (keeps_fold _ _ _ _ _ _); intros ? ? ?
    | |- keeps _ _ (act_mod _) => refine (keeps_mod _ _ _ _); intros ?
    | |- keeps ?R ?P (host_do ?c) => refine (keeps_call (S := host) R P c _); intros ?
    | |- keeps _ _ (match ?x with _ => _ end) => destruct x
    end).

Ltac preserves_calls :=
  repeat (cbn beta zeta; match goal with
    | |- preserves _ _ (mret _) => refine (preserves_ret _ _ _)
    | |- preserves _ _ (act_lift _) => refine (preserves_lift _ _ _)
    | |- preserves _ _ act_get => refine (preserves_get _ _)
    | |- preserves _ _ (act_mod _) => refine (preserves_mod _ _ _)
    | |- preserves _ _ (mbind _ _) => refine (preserves_bind _ _ _ _ _ _); [|intros ?]
    | |- preserves _ _ (act_catch _ _) => refine (preserves_catch _ _ _ _ _ _); [|intros ?]
    | |- preserves _ _ (act_catch_if _ _ _) => refine (preserves_catch_if _ _ _ _ _ _ _); [|intros ?]
    | |- preserves _ _ (act_for _ _) => refine (preserves_for _ _ _ _ _); intros ? ?
    | |- preserves _ _ (act_fold _ _ _) => refine (preserves_fold _ _ _ _ _ _); intros ? ? ?
    | |- preserves ?st ?R (host_do ?c) => refine (preserves_call (S := host) st R c _); intros ? ? ? ?
    | |- preserves _ _ (match ?x with _ => _ end) => destruct x
    end).

(** Reasoning over the replies of a straight-line action. *)
Ltac h_bind := apply hwp_bind; cbn beta match.
Ltac h_call :=
  match goal with |- hwp ?st (host_do ?c) ?s ?d ?Q => apply (hwp_call (S := host) st c s d Q) end.

(** Any change of state, and the changes that keep a field. *)
Definition any_change {A} (_ _ : A) : Prop := True.
Definition same {A B} (f : A -> B) (x y : A) : Prop := f y = f x.

#[export] Instance any_preorder {A} : PreOrder (@any_change A).
Proof. by split. Qed.
#[export] Instance same_preorder {A B} (f : A -> B) : PreOrder (same f).
Proof. split; [by intros x|]. intros x y z H1 H2. unfold same in *. by rewrite H2. Qed.
