(* ===== verification/Agent.v ===== *)
(** * The host agent: state and probing ([deploy/userdata/host-agent.py])

    The module-level constants are the class [AgentConfig], the module-level
    variables the record [agent].  A probe result is the dictionary
    [{"vm_health", "app_health", "guest_ip"\[, "fc_pid"\]\[, "metrics"\]\[,
    "updated_at"\]}], kept as the record [probe] whose optional fields are the
    optional keys; the results of a poll are an association list, in the order
    of the dictionary.  [print] is not modelled.  [json_load] reads JSON text
    and [sha256_hex] is the digest of the peer map: parameters. *)

From Stdlib Require Import SpecFloat.
From S2P Require Import Prelude Py Effects Aws PyNum HostCalls.

Class AgentConfig := {
  agent_repr_float : spec_float -> string;
  json_load : string -> outcome val;
  sha256_hex : string -> string;
  agent_scan_fuel : nat;
  POLL_INTERVAL : Z;
  TENANTS_TABLE : string;
  HOSTS_TABLE : string;
  INSTANCE_ID : string;
  MIGRATION_SENTINEL_TTL : Z;
  OC_AGENT_DDB_REFRESH : Z;
  OC_ROUTE_SYNC_INTERVAL : Z;
  READY_DIR : string;
  AGENT_BALLOON_ENABLED : bool;
  BALLOON_MAX_INFLATE_RATIO : spec_float;
  BALLOON_MIN_GUEST_AVAILABLE_MB : Z;
  CLK_TCK : Z
}.

Definition VM_DIR : string := "/data/firecracker-vms".
Definition GATEWAY_PORT : Z := 18789.
Definition _DDB_REFRESH `{AgentConfig} : Z := Z.min OC_AGENT_DDB_REFRESH 110.
Definition NET_DEAD_THRESHOLD : Z := 3.

(** [os.path.join(d, f)] for a directory without a final slash. *)
Definition path_join (d f : string) : string := d +:+ "/" +:+ f.
Definition vm_dir (tid : string) : string := path_join VM_DIR tid.
Definition vm_file (tid name : string) : string := path_join (vm_dir tid) name.

Definition str_a `{AgentConfig} (v : val) : string := py_str agent_repr_float v.

(** ** State *)

Record metrics := Metrics {
  memory_used_mb : Z;
  memory_balloon_mib : Z;
  disk_used_mb : Z;
  disk_total_mb : Z;
  disk_used_pct : Z;
  cpu_pct : Z }.

Record probe := Probe {
  vm_health : string;
  app_health : string;
  guest_ip : val;
  fc_pid : option Z;
  p_metrics : option metrics;
  p_updated_at : option string }.

Definition results := list (string * probe).

Record agent := Agent {
  a_promoted : gset string;
  a_last_ddb_write : gmap string (string * string * spec_float);
  a_last_route_sync : spec_float;
  a_last_peer_hash : option string;
  a_peer_reload_failures : Z;
  a_peer_last_success : spec_float;
  a_peer_entries : Z;
  a_ddb : option string;
  a_status : results;
  a_recovering : gset string;
  a_net_dead_polls : gmap string Z;
  a_cpu_samples : gmap string (Z * spec_float) }.

Definition agent_start : agent :=
  Agent ∅ ∅ (S754_zero false) None 0 (S754_zero false) 0 None [] ∅ ∅ ∅.

Definition set_promoted x s := Agent x (a_last_ddb_write s) (a_last_route_sync s) (a_last_peer_hash s)
  (a_peer_reload_failures s) (a_peer_last_success s) (a_peer_entries s) (a_ddb s) (a_status s) (a_recovering s)
  (a_net_dead_polls s) (a_cpu_samples s).
Definition set_last_ddb_write x s := Agent (a_promoted s) x (a_last_route_sync s) (a_last_peer_hash s)
  (a_peer_reload_failures s) (a_peer_last_success s) (a_peer_entries s) (a_ddb s) (a_status s) (a_recovering s)
  (a_net_dead_polls s) (a_cpu_samples s).
Definition set_last_route_sync x s := Agent (a_promoted s) (a_last_ddb_write s) x (a_last_peer_hash s)
  (a_peer_reload_failures s) (a_peer_last_success s) (a_peer_entries s) (a_ddb s) (a_status s) (a_recovering s)
  (a_net_dead_polls s) (a_cpu_samples s).
Definition set_peer hash fails success entries s := Agent (a_promoted s) (a_last_ddb_write s) (a_last_route_sync s)
  hash fails success entries (a_ddb s) (a_status s) (a_recovering s) (a_net_dead_polls s) (a_cpu_samples s).
Definition set_ddb x s := Agent (a_promoted s) (a_last_ddb_write s) (a_last_route_sync s) (a_last_peer_hash s)
  (a_peer_reload_failures s) (a_peer_last_success s) (a_peer_entries s) x (a_status s) (a_recovering s)
  (a_net_dead_polls s) (a_cpu_samples s).
Definition set_status_map x s := Agent (a_promoted s) (a_last_ddb_write s) (a_last_route_sync s) (a_last_peer_hash s)
  (a_peer_reload_failures s) (a_peer_last_success s) (a_peer_entries s) (a_ddb s) x (a_recovering s)
  (a_net_dead_polls s) (a_cpu_samples s).
Definition set_recovering x s := Agent (a_promoted s) (a_last_ddb_write s) (a_last_route_sync s) (a_last_peer_hash s)
  (a_peer_reload_failures s) (a_peer_last_success s) (a_peer_entries s) (a_ddb s) (a_status s) x
  (a_net_dead_polls s) (a_cpu_samples s).
Definition set_net_dead_polls x s := Agent (a_promoted s) (a_last_ddb_write s) (a_last_route_sync s) (a_last_peer_hash s)
  (a_peer_reload_failures s) (a_peer_last_success s) (a_peer_entries s) (a_ddb s) (a_status s) (a_recovering s)
  x (a_cpu_samples s).
Definition set_cpu_samples x s := Agent (a_promoted s) (a_last_ddb_write s) (a_last_route_sync s) (a_last_peer_hash s)
  (a_peer_reload_failures s) (a_peer_last_success s) (a_peer_entries s) (a_ddb s) (a_status s) (a_recovering s)
  (a_net_dead_polls s) x.

Abbreviation AM := (act host agent).

Section Agent.
Context `{AgentConfig}.

(** ** Migration sentinel *)

Definition _is_migrating (tenant_id : string) : AM bool :=
  age ← (tryA_ (now ← host_do WallTime;
                mtime ← host_do (GetMtime (vm_file tenant_id ".migrating"));
                mret (Some (fsub now mtime)))
         except_if is_oserror _ => mret None);
  mret (match age with
        | None => false
        | Some age => match cmp_float_int age MIGRATION_SENTINEL_TTL with Some Gt => false | _ => true end
        end).

(** ** Recovery *)

(** The count of consecutive unreachable polls: the new counts, and whether
    the threshold is reached. *)
Definition _register_net_poll (polls : gmap string Z) (tenant_id : string) (guest_reachable : bool)
    : gmap string Z * bool :=
  if guest_reachable then (delete tenant_id polls, false)
  else
    let n := default 0 (polls !! tenant_id) + 1 in
    if NET_DEAD_THRESHOLD <=? n then (delete tenant_id polls, true)
    else (<[tenant_id := n]> polls, false).

Definition register_net_poll (tenant_id : string) (guest_reachable : bool) : AM bool :=
  s ← act_get;
  let '(polls, fire) := _register_net_poll (a_net_dead_polls s) tenant_id guest_reachable in
  _ ← act_mod (set_net_dead_polls polls);
  mret fire.

Definition add_recovering (tid : string) : AM unit :=
  act_mod (fun s => set_recovering ({[tid]} ∪ a_recovering s) s).
Definition discard_recovering (tid : string) : AM unit :=
  act_mod (fun s => set_recovering (a_recovering s ∖ {[tid]}) s).

Definition launch_argv (tid : string) (vm_num vcpu mem_mb : val) : list string :=
  ["bash"; "/home/ubuntu/launch-vm.sh"; tid; str_a vm_num; str_a vcpu; str_a mem_mb].
Definition stop_argv (tid : string) (vm_num : val) : list string :=
  ["bash"; "/home/ubuntu/stop-vm.sh"; tid; str_a vm_num].

Definition _recover_vm (tenant_id : string) (cfg : val) : AM unit :=
  s ← act_get;
  if decide (tenant_id ∈ a_recovering s) then mret tt
  else
    _ ← add_recovering tenant_id;
    vm_num ← act_lift (vget_or cfg "vm_num" (VInt 1));
    vcpu ← act_lift (vget_or cfg "vcpu" (VInt 2));
    mem_mb ← act_lift (vget_or cfg "mem_mb" (VInt 4096));
    tryA_ (host_do (Popen (launch_argv tenant_id vm_num vcpu mem_mb)))
    except _ => discard_recovering tenant_id.

Definition _force_relaunch_vm (tenant_id : string) (cfg : val) : AM unit :=
  s ← act_get;
  if decide (tenant_id ∈ a_recovering s) then mret tt
  else
    _ ← add_recovering tenant_id;
    vm_num ← act_lift (vget_or cfg "vm_num" (VInt 1));
    vcpu ← act_lift (vget_or cfg "vcpu" (VInt 2));
    mem_mb ← act_lift (vget_or cfg "mem_mb" (VInt 4096));
    tryA_ (_ ← host_do (RunProc (stop_argv tenant_id vm_num) (Some 30));
           host_do (Popen (launch_argv tenant_id vm_num vcpu mem_mb)))
    except _ => discard_recovering tenant_id.

(** ** Probing *)

(** The VM's configuration and its address, unless it has none to probe. *)
Definition read_vm_config (tid : string) : AM (option (val * val)) :=
  tryA_ (text ← host_do (ReadFile (vm_file tid "vm.json"));
         cfg ← act_lift (json_load text);
         ip ← act_lift (vget_or cfg "guest_ip" (VStr ""));
         mret (if truthy ip then Some (cfg, ip) else None))
  except _ => mret None.

(** The process id in the output of [pgrep]. *)
Definition pgrep_pid (p : proc) : option Z :=
  if returncode p =? 0 then
    match words (stdout p) with w :: _ => parse_int w | [] => None end
  else None.

(** [subprocess.run] takes text arguments only. *)
Definition text_arg (v : val) : outcome string :=
  match v with VStr s => Ok s | _ => type_error "expected str, bytes or os.PathLike object" end.

Definition ping_vm (ip : val) : AM bool :=
  tryA_ (a ← act_lift (text_arg ip);
         r ← host_do (RunProc ["ping"; "-c"; "1"; "-W"; "2"; a] (Some 5));
         mret (returncode r =? 0))
  except _ => mret false.

Definition gateway_url (ip : val) : string := "http://" +:+ str_a ip +:+ ":" +:+ pretty GATEWAY_PORT +:+ "/".
Definition curl_gateway (ip : val) : AM bool :=
  tryA_ (r ← host_do (RunProc ["curl"; "-sf"; "-o"; "/dev/null"; "--connect-timeout"; "3"; gateway_url ip] (Some 8));
         mret (returncode r =? 0))
  except _ => mret false.

Definition up_down (b : bool) : string := if b then "up" else "down".

(** The probe of a VM whose Firecracker process is running. *)
Definition probe_running (tid : string) (cfg ip : val) (pid : Z) : AM probe :=
  reachable ← ping_vm ip;
  if reachable : bool then
    _ ← register_net_poll tid true;
    app ← curl_gateway ip;
    mret (Probe "up" (up_down app) ip (Some pid) None None)
  else
    fire ← register_net_poll tid false;
    if fire : bool then
      _ ← _force_relaunch_vm tid cfg;
      mret (Probe "recovering" "down" ip None None None)
    else mret (Probe "down" "down" ip (Some pid) None None).

(** One iteration of the loop of [_probe_all]: the result for the tenant, if
    it gets one. *)
Definition probe_tenant (tid : string) : AM (option probe) :=
  is_vm ← host_do (IsFile (vm_file tid "vm.json"));
  if negb is_vm then mret None else
  conf ← read_vm_config tid;
  match conf with
  | None => mret None
  | Some (cfg, ip) =>
      stopped ← host_do (PathExists (vm_file tid ".stopped"));
      if stopped : bool then mret None else
      migrating ← _is_migrating tid;
      if migrating : bool then mret (Some (Probe "migrating" "down" (VStr "") None None None)) else
      pgrep ← host_do (RunProc ["pgrep"; "-f"; "api-sock " +:+ vm_file tid "fc.sock"] None);
      match pgrep_pid pgrep with
      | None =>
          _ ← _recover_vm tid cfg;
          mret (Some (Probe "recovering" "down" ip None None None))
      | Some pid =>
          _ ← discard_recovering tid;
          p ← probe_running tid cfg ip pid;
          mret (Some p)
      end
  end.

Definition probe_all_step (rs : results) (tid : string) : AM results :=
  p ← probe_tenant tid;
  mret (match p with Some p => dict_set tid p rs | None => rs end).

Definition _probe_all : AM results :=
  entries ← (tryA_ (l ← host_do (ListDir VM_DIR); mret (Some l))
             except_if (is_exn ["FileNotFoundError"]) _ => mret None);
  match entries with
  | None => mret []
  | Some entries => act_fold probe_all_step entries []
  end.

(** ** Clients *)

(** The DynamoDB client, made for the region of the instance. *)
Definition _get_ddb : AM unit :=
  s ← act_get;
  match a_ddb s with
  | Some _ => mret tt
  | None =>
      region ← (tryA_ (tok ← host_do ImdsToken; host_do (ImdsRegion tok)) except _ => mret "ap-northeast-1");
      _ ← host_do (DdbResource region);
      act_mod (set_ddb (Some region))
  end.
End Agent.
