(* ===== verification/AgentMetrics.v ===== *)
(** * The host agent: metrics and balloons ([deploy/userdata/host-agent.py])

    Per-VM disk, memory and CPU figures, the Prometheus text, and the control
    of the memory balloons.  A text file is its decoded text, with line feeds
    at the ends of lines, as Python's text mode reads it. *)

From Stdlib Require Import SpecFloat.
From S2P Require Import Prelude Py PyNum Effects Aws HostCalls Agent.

Section AgentMetrics.
Context `{AgentConfig}.

Definition MiB : Z := 1024 * 1024.
Definition lines_of (text : string) : list string := str_split line_feed text.

(** ** Disk *)

Fixpoint digits_from (s : string) (acc : option Z) : option Z :=
  match s with
  | EmptyString => acc
  | String c s' =>
      match digit_val c with
      | Some d => digits_from s' (Some (default 0 acc * 10 + d))
      | None => acc
      end
  end.

(** [re.match(r"^label\s+(\d+)", line)], the number. *)
Definition dumpe2fs_field (label line : string) : option Z :=
  if starts_with label line then
    let rest := str_drop (String.length label) line in
    match rest with
    | String c _ => if is_space c then digits_from (lstrip rest) None else None
    | EmptyString => None
    end
  else None.

Record blocks := Blocks { block_count : option Z; block_size : option Z; free_blocks : option Z }.

Definition dumpe2fs_line (b : blocks) (line : string) : blocks :=
  match dumpe2fs_field "Block count:" line with
  | Some n => Blocks (Some n) (block_size b) (free_blocks b)
  | None =>
      match dumpe2fs_field "Block size:" line with
      | Some n => Blocks (block_count b) (Some n) (free_blocks b)
      | None =>
          match dumpe2fs_field "Free blocks:" line with
          | Some n => Blocks (block_count b) (block_size b) (Some n)
          | None => b
          end
      end
  end.

Definition _parse_dumpe2fs_blocks (output : string) : Z * Z :=
  match foldl dumpe2fs_line (Blocks None None None) (split_lines output "") with
  | Blocks (Some count) (Some size) (Some free) =>
      (((count - free) * size) / MiB, (count * size) / MiB)
  | _ => (0, 0)
  end.

Definition disk_pct (used_mb total_mb : Z) : outcome Z :=
  if total_mb =? 0 then Ok 0 else float_trunc (int_ratio (used_mb * 100) total_mb).

Definition _get_disk_usage (data_file : string) : AM (Z * Z * Z) :=
  exists_ ← (if bool_decide (data_file = "") then mret false else host_do (PathExists data_file));
  if negb exists_ then mret (0, 0, 0)
  else
    tryA_ (r ← host_do (RunProc ["dumpe2fs"; "-h"; data_file] (Some 5));
           if negb (returncode r =? 0) then mret (0, 0, 0)
           else
             let '(used_mb, total_mb) := _parse_dumpe2fs_blocks (stdout r) in
             pct ← act_lift (disk_pct used_mb total_mb);
             mret (used_mb, total_mb, pct))
    except _ => mret (0, 0, 0).

(** ** Memory *)

(** [stats.get("stats", {}).get("available_memory", 0) // MiB] *)
Definition available_mib (stats : val) : outcome val :=
  inner ← vget_or stats "stats" (VDict []);
  bytes ← vget_or inner "available_memory" (VInt 0);
  py_floordiv bytes MiB.

Definition _get_memory_usage (stats vm_mem_mb : val) : outcome (val * val) :=
  if negb (truthy stats) then Ok (VInt 0, VInt 0)
  else
    available_mb ← available_mib stats;
    free ← py_sub vm_mem_mb available_mb;
    used_mb ← py_max (VInt 0) free;
    balloon_mib ← vget_or stats "actual_mib" (VInt 0);
    Ok (used_mb, balloon_mib).

Definition proc_file (pid : Z) (name : string) : string := "/proc/" +:+ pretty pid +:+ "/" +:+ name.
Definition no_process : list string := ["FileNotFoundError"; "PermissionError"].

(** [int(fields\[11\]) + int(fields\[12\])] after the last parenthesis. *)
Definition stat_jiffies (line : string) : option Z :=
  rest ← after_last ")" line;
  utime ← words rest !! 11%nat; stime ← words rest !! 12%nat;
  u ← parse_int utime; t ← parse_int stime;
  Some (u + t).

Definition _read_proc_stat_cpu_jiffies (pid : option Z) : AM (option Z) :=
  match pid with
  | None | Some 0 => mret None
  | Some pid =>
      line ← (tryA_ (l ← host_do (ReadFile (proc_file pid "stat")); mret (Some l))
              except_if (is_exn no_process) _ => mret None);
      mret (line ≫= stat_jiffies)
  end.

Fixpoint status_rss (lines : list string) : option Z :=
  match lines with
  | [] => None
  | line :: rest =>
      if starts_with "VmRSS:" line then
        match words line with _ :: n :: _ => parse_int n | _ => status_rss rest end
      else status_rss rest
  end.

Definition _read_proc_status_rss_kb (pid : option Z) : AM (option Z) :=
  match pid with
  | None | Some 0 => mret None
  | Some pid =>
      tryA_ (text ← host_do (ReadFile (proc_file pid "status")); mret (status_rss (lines_of text)))
      except_if (is_exn (no_process ++ ["ValueError"; "UnicodeDecodeError"])) _ => mret None
  end.

(** ** CPU *)

Definition _compute_cpu_pct (prev_jiffies : option Z) (prev_ts : option spec_float)
    (cur_jiffies : option Z) (cur_ts : option spec_float) (vcpu : val) (clk_tck : Z) : outcome Z :=
  match prev_jiffies, cur_jiffies, prev_ts, cur_ts with
  | Some prev_jiffies, Some cur_jiffies, Some prev_ts, Some cur_ts =>
      if fle cur_ts prev_ts then Ok 0
      else if cur_jiffies <? prev_jiffies then Ok 0
      else if negb (truthy vcpu) then Ok 0
      else
        no_cpu ← py_le vcpu (VInt 0);
        if (no_cpu : bool) || (clk_tck <=? 0) then Ok 0
        else
          let elapsed_s := fsub cur_ts prev_ts in
          let cpu_seconds := int_ratio (cur_jiffies - prev_jiffies) clk_tck in
          n ← num_of vcpu; v ← to_float n;
          pct ← float_trunc (fmul (fdiv (fdiv cpu_seconds elapsed_s) v) (float_of 100));
          Ok (Z.max 0 (Z.min 100 pct))
  | _, _, _, _ => Ok 0
  end.

Definition _sample_cpu_pct (tenant_id : string) (fc_pid : option Z) (vcpu : val) : AM Z :=
  now ← host_do Monotonic;
  cur_jiffies ← _read_proc_stat_cpu_jiffies fc_pid;
  s ← act_get;
  pct ← act_lift (match a_cpu_samples s !! tenant_id, cur_jiffies with
                  | Some (prev_jiffies, prev_ts), Some _ =>
                      _compute_cpu_pct (Some prev_jiffies) (Some prev_ts) cur_jiffies (Some now) vcpu CLK_TCK
                  | _, _ => Ok 0
                  end);
  _ ← match cur_jiffies with
      | Some j => act_mod (fun s => set_cpu_samples (<[tenant_id := (j, now)]> (a_cpu_samples s)) s)
      | None => mret tt
      end;
  mret pct.

(** ** The figures of a VM *)

Definition curl_socket (sock_file : string) (args : list string) : list string :=
  ["curl"; "-sf"; "--unix-socket"; sock_file] ++ args.

Definition _get_balloon_stats (sock_file : string) : AM val :=
  tryA_ (r ← host_do (RunProc (curl_socket sock_file ["http://localhost/balloon/statistics"]) (Some 5));
         if (returncode r =? 0) && negb (bool_decide (strip (stdout r) = "")) then act_lift (json_load (stdout r))
         else mret VNone)
  except _ => mret VNone.

Definition _compose_metrics (tenant_id : string) (vm_mem_mb : val) (sock_file data_file : string)
    (fc_pid : option Z) (vcpu : val) : AM metrics :=
  cpu_pct ← _sample_cpu_pct tenant_id fc_pid vcpu;
  rss_kb ← _read_proc_status_rss_kb fc_pid;
  let mem_used := match rss_kb with Some kb => kb / 1024 | None => 0 end in
  stats ← (if bool_decide (sock_file = "") then mret VNone else _get_balloon_stats sock_file);
  '(balloon_used_mb, balloon_mib) ← act_lift (_get_memory_usage stats vm_mem_mb);
  '(disk_used, disk_total, disk_pct) ← _get_disk_usage data_file;
  used ← act_lift (if mem_used =? 0 then py_int balloon_used_mb else Ok mem_used);
  balloon ← act_lift (py_int balloon_mib);
  mret (Metrics used balloon disk_used disk_total disk_pct cpu_pct).

(** [mem_mb] and [vcpu] of the VM's configuration, or the defaults. *)
Definition metrics_config (tid : string) : AM (val * val) :=
  mem ← (tryA_ (text ← host_do (ReadFile (vm_file tid "vm.json"));
                cfg ← act_lift (json_load text);
                mem ← act_lift (vget_or cfg "mem_mb" (VInt 4096));
                mret (Some (cfg, mem)))
         except _ => mret None);
  mret (match mem with
        | None => (VInt 4096, VInt 1)
        | Some (cfg, mem) => (mem, v_or (ok_or VNone (vget_or cfg "vcpu" (VInt 1))) (VInt 1))
        end).

Definition with_metrics (m : metrics) (p : probe) : probe :=
  Probe (vm_health p) (app_health p) (guest_ip p) (fc_pid p) (Some m) (p_updated_at p).

(** One VM: the probe result with its metrics, when it is up and they can be
    composed. *)
Definition enrich (tid : string) (info : probe) : AM probe :=
  if negb (bool_decide (vm_health info = "up")) then mret info
  else
    '(vm_mem_mb, vm_vcpu) ← metrics_config tid;
    tryA_ (m ← _compose_metrics tid vm_mem_mb (vm_file tid "fc.sock") (vm_file tid "data.ext4")
                 (fc_pid info) vm_vcpu;
           mret (with_metrics m info))
    except _ => mret info.

Fixpoint _enrich_metrics (rs : results) : AM results :=
  match rs with
  | [] => mret []
  | (tid, info) :: rest =>
      info' ← enrich tid info;
      rest' ← _enrich_metrics rest;
      mret ((tid, info') :: rest')
  end.

(** ** Balloons *)

Definition balloon_argv (sock_file : string) (amount_mib : val) : list string :=
  curl_socket sock_file ["-X"; "PATCH"; "http://localhost/balloon"; "-H"; "Content-Type: application/json";
    "-d"; json_dumps agent_repr_float (VDict [("amount_mib", amount_mib)])].

Definition _set_balloon_target (sock_file : string) (amount_mib : val) : AM unit :=
  tryA_ (_ ← host_do (RunProc (balloon_argv sock_file amount_mib) (Some 5)); mret tt) except _ => mret tt.

(** A line of [/proc/meminfo]: the number of its first two words. *)
Definition meminfo_line (info : list (string * Z)) (line : string) : outcome (list (string * Z)) :=
  match words line with
  | k :: n :: _ =>
      n ← py_int (VStr n);
      Ok (dict_set (rstrip_char ":" k) n info)
  | _ => Ok info
  end.

Fixpoint meminfo_lines (lines : list string) (info : list (string * Z)) : outcome (list (string * Z)) :=
  match lines with
  | [] => Ok info
  | l :: rest => info ← meminfo_line info l; meminfo_lines rest info
  end.

Definition _get_host_mem_info : AM (Z * Z) :=
  tryA_ (text ← host_do (ReadFile "/proc/meminfo");
         info ← act_lift (meminfo_lines (lines_of text) []);
         mret (default 0 (alist_get "MemTotal" info) / 1024, default 0 (alist_get "MemAvailable" info) / 1024))
  except _ => mret (0, 0).

(** 0.20 and 0.40 *)
Definition LOW_PRESSURE : spec_float := S754_finite false 7205759403792794 (-55).
Definition HIGH_PRESSURE : spec_float := S754_finite false 7205759403792794 (-54).

(** [int(mem * BALLOON_MAX_INFLATE_RATIO)] *)
Definition max_balloon (vm_mem_mb : val) : outcome Z :=
  v ← py_mul vm_mem_mb (VFloat BALLOON_MAX_INFLATE_RATIO); py_int v.

(** The size to set the balloon to, if it is to change. *)
Definition balloon_decision (pressure : spec_float) (vm_mem_mb stats : val) : outcome (option val) :=
  current ← vget_or stats "actual_mib" (VInt 0);
  limit ← max_balloon vm_mem_mb;
  guest_available ← available_mib stats;
  if flt pressure LOW_PRESSURE then
    reclaimable ← py_sub guest_available (VInt BALLOON_MIN_GUEST_AVAILABLE_MB);
    some ← py_gt reclaimable (VInt 0);
    if some : bool then
      more ← py_add current reclaimable;
      target ← py_min more (VInt limit);
      grows ← py_gt target current;
      Ok (if grows : bool then Some target else None)
    else Ok None
  else if flt HIGH_PRESSURE pressure then
    some ← py_gt current (VInt 0);
    Ok (if some : bool then Some (VInt 0) else None)
  else Ok None.

(** One VM of [_adjust_balloons]. *)
Definition adjust_balloon (pressure : spec_float) (tid : string) (info : probe) : AM unit :=
  if negb (bool_decide (vm_health info = "up")) then mret tt
  else
    migrating ← _is_migrating tid;
    if migrating : bool then mret tt else
    let sock_file := vm_file tid "fc.sock" in
    sock ← host_do (PathExists sock_file);
    if negb sock then mret tt else
    mem ← (tryA_ (text ← host_do (ReadFile (vm_file tid "vm.json"));
                  cfg ← act_lift (json_load text);
                  mem ← act_lift (vget_or cfg "mem_mb" (VInt 4096));
                  mret (Some mem))
           except _ => mret None);
    match mem with
    | None => mret tt
    | Some vm_mem_mb =>
        stats ← _get_balloon_stats sock_file;
        if negb (truthy stats) then mret tt
        else
          target ← act_lift (balloon_decision pressure vm_mem_mb stats);
          match target with
          | Some target => _set_balloon_target sock_file target
          | None => mret tt
          end
    end.

Definition _adjust_balloons (probe_results : results) : AM unit :=
  if negb AGENT_BALLOON_ENABLED then mret tt
  else
    '(host_total, host_available) ← _get_host_mem_info;
    if host_total =? 0 then mret tt
    else act_for probe_results (fun x => adjust_balloon (int_ratio host_available host_total) x.1 x.2).
End AgentMetrics.
