(* ===== verification/PeerMap.v ===== *)
(** * The host agent: routes to the tenants of other hosts

    [_sync_tenant_routes] and its helpers in [deploy/userdata/host-agent.py]:
    the nginx locations for the tenants that other hosts own. *)

From Stdlib Require Import SpecFloat.
From S2P Require Import Prelude Py PyNum Effects Aws Ddb HostCalls Agent.

Definition _PEER_DIR : string := "/etc/nginx/conf.d/tenant-peers".
Definition _LOCAL_CONF_DIR : string := "/etc/nginx/conf.d/tenants".
Definition _ROUTABLE_STATUSES : list string := ["running"; "failover_queued"; "failover_recovering"].
Definition eol : string := String line_feed "".

Section PeerMap.
Context `{AgentConfig}.

(** ** Reading the tables *)

(** The pages that follow, until the table is exhausted; [n] bounds them. *)
Fixpoint scan_projected_pages (n : nat) (t : table) (attrs : list string) (start : option string)
    (items : list item) : AM (list item) :=
  match n with
  | O => act_lift NoFuel
  | S n' =>
      resp ← host_do (ScanProjected t attrs start);
      let items := items ++ pg_items resp in
      match pg_last resp with
      | Some k => scan_projected_pages n' t attrs (Some k) items
      | None => mret items
      end
  end.

Definition _scan_projected (t : table) (projection : list string) : AM (list item) :=
  _ ← _get_ddb;
  scan_projected_pages agent_scan_fuel t projection None [].

(** ** Rendering *)

Definition _render_peer_conf (tid owner_ip : string) : string :=
  "location ~ ^/vm/" +:+ tid +:+ "(/.*)?$ {" +:+ eol +:+
  "    proxy_pass http://" +:+ owner_ip +:+ ":8081;" +:+ eol +:+
  "    proxy_http_version 1.1;" +:+ eol +:+
  "    proxy_set_header Upgrade $http_upgrade;" +:+ eol +:+
  "    proxy_set_header Connection $connection_upgrade;" +:+ eol +:+
  "    proxy_set_header Host $host;" +:+ eol +:+
  "    proxy_set_header X-Real-IP $remote_addr;" +:+ eol +:+
  "    proxy_set_header X-Forwarded-For $proxy_add_x_forwarded_for;" +:+ eol +:+
  "    proxy_set_header X-Forwarded-Proto $scheme;" +:+ eol +:+
  "    proxy_read_timeout 86400s;" +:+ eol +:+
  "    proxy_send_timeout 86400s;" +:+ eol +:+
  "}" +:+ eol.

(** ** Readiness *)

Definition _mark_ready : AM unit :=
  tryA_ (_ ← host_do (MakeDirs READY_DIR);
         _ ← host_do (WriteFile (path_join READY_DIR "ready.tmp") ("ok" +:+ eol));
         host_do (ReplaceFile (path_join READY_DIR "ready.tmp") (path_join READY_DIR "ready")))
  except_if is_oserror _ => mret tt.

(** ** The desired map *)

(** [{h\["instance_id"\]: h.get("private_ip") for h in hosts if h.get("private_ip")}] *)
Fixpoint ip_by_host (hosts : list item) (m : list (string * val)) : outcome (list (string * val)) :=
  match hosts with
  | [] => Ok m
  | h :: rest =>
      if truthy (get h "private_ip") then
        i ← req h "instance_id";
        match i with
        | VStr i => ip_by_host rest (dict_set i (get h "private_ip") m)
        | _ => type_error "instance_id is not a string"
        end
      else ip_by_host rest m
  end.

Definition conf_ext : string := ".conf".
Definition conf_name (tid : string) : string := tid +:+ conf_ext.
(** The tenant of a file name that ends in [.conf]. *)
Definition conf_tid (f : string) : string := str_take (String.length f - 5) f.

(** The tenants with a local nginx block. *)
Definition local_tenants : AM (list string) :=
  tryA_ (files ← host_do (ListDir _LOCAL_CONF_DIR);
         mret (map conf_tid (List.filter (ends_with conf_ext) files)))
  except_if is_oserror _ => mret [].

(** The entry of a tenant's row: its identifier and the address of the host
    that serves it, unless it has no peer route. *)
Definition peer_entry (local_tids : list string) (ips : list (string * val)) (t : item)
    : outcome (option (string * string)) :=
  let tid := get t "id" in
  let owner := get t "host_id" in
  if negb (truthy tid) || negb (is_str_in (get t "status") _ROUTABLE_STATUSES) then Ok None
  else if val_eqb owner (VStr INSTANCE_ID) || existsb (fun l => val_eqb (VStr l) tid) local_tids then Ok None
  else if negb (hashable owner) then type_error "unhashable type"
  else
    match (match owner with VStr o => alist_get o ips | _ => None end) with
    | Some ip => if negb (truthy ip) then Ok None else Ok (Some (str_a tid, str_a ip))
    | None => Ok None
    end.

(** tid -> rendered conf, in the order of the scan *)
Fixpoint desired_from (local_tids : list string) (ips : list (string * val)) (tenants : list item)
    (m : list (string * string)) : outcome (list (string * string)) :=
  match tenants with
  | [] => Ok m
  | t :: rest =>
      e ← peer_entry local_tids ips t;
      desired_from local_tids ips rest
        (match e with Some (tid, ip) => dict_set tid (_render_peer_conf tid ip) m | None => m end)
  end.

Definition conf_le (x y : string * string) : Prop := str_le x.1 y.1 = true.
#[export] Instance conf_le_dec : RelDecision conf_le.
Proof. intros x y. unfold conf_le. apply _. Defined.

(** The digest of a map, and the text it is computed from. *)
Definition peer_text (desired : list (string * string)) : string :=
  str_join "" (map (fun kv => kv.1 +:+ eol +:+ kv.2) (merge_sort conf_le desired)).
Definition peer_digest (desired : list (string * string)) : string := sha256_hex (peer_text desired).

(** ** Applying it *)

Definition peer_path (f : string) : string := path_join _PEER_DIR f.

(** Removes the confs that are not wanted, and writes those that are. *)
Definition write_peers (desired : list (string * string)) : AM unit :=
  _ ← host_do (MakeDirs _PEER_DIR);
  files ← host_do (ListDir _PEER_DIR);
  _ ← act_for files (fun fname =>
        if negb (bool_decide (fname ∈ map (fun kv => conf_name kv.1) desired)) && ends_with conf_ext fname
        then tryA_ (host_do (RemoveFile (peer_path fname))) except_if is_oserror _ => mret tt
        else mret tt);
  act_for desired (fun kv => host_do (WriteFile (peer_path (conf_name kv.1)) kv.2)).

Definition count_reload_failure : AM unit :=
  act_mod (fun s => set_peer (a_last_peer_hash s) (a_peer_reload_failures s + 1) (a_peer_last_success s)
                             (a_peer_entries s) s).

(** Validates the configuration and has nginx load it: whether it did. *)
Definition reload_nginx : AM bool :=
  check ← host_do (RunProc ["nginx"; "-t"] (Some 10));
  if negb (returncode check =? 0) then _ ← count_reload_failure; mret false
  else
    reload_proc ← host_do (RunProc ["nginx"; "-s"; "reload"] (Some 10));
    if negb (returncode reload_proc =? 0) then _ ← count_reload_failure; mret false
    else mret true.

Definition apply_peers (desired : list (string * string)) : AM unit :=
  s ← act_get;
  let digest := peer_digest desired in
  if bool_decide (a_last_peer_hash s = Some digest) then mret tt
  else
    _ ← write_peers desired;
    loaded ← reload_nginx;
    if negb loaded then mret tt
    else
      _ ← act_mod (fun s => set_peer (Some digest) (a_peer_reload_failures s) (a_peer_last_success s)
                                     (a_peer_entries s) s);
      now ← host_do WallTime;
      _ ← act_mod (fun s => set_peer (a_last_peer_hash s) (a_peer_reload_failures s) now
                                     (Z.of_nat (length desired)) s);
      _mark_ready.

(** The map that the tables and this host's own blocks call for. *)
Definition desired_peers : AM (list (string * string)) :=
  tenants ← _scan_projected Tenants ["id"; "host_id"; "status"];
  hosts ← _scan_projected Hosts ["instance_id"; "private_ip"];
  ips ← act_lift (ip_by_host hosts []);
  local_tids ← local_tenants;
  act_lift (desired_from local_tids ips tenants []).

Definition _sync_tenant_routes : AM unit :=
  if bool_decide (TENANTS_TABLE = "") || bool_decide (HOSTS_TABLE = "") || bool_decide (INSTANCE_ID = "")
  then mret tt
  else
    now ← host_do Monotonic;
    s ← act_get;
    if flt_int (fsub now (a_last_route_sync s)) OC_ROUTE_SYNC_INTERVAL then mret tt
    else
      _ ← act_mod (set_last_route_sync now);
      tryA_ (desired ← desired_peers; apply_peers desired) except _ => mret tt.

(** ** Termination of the scans *)

(** A service whose pages advance: [left] counts what a scan that goes on from
    a key may still return. *)
Definition paging (left : option string -> nat) (c : op host) (_ : unit) : (reply host c + exn) -> unit -> Prop :=
  match c return (host_reply c + exn) -> unit -> Prop with
  | ScanProjected _ _ start => fun r _ =>
      forall p k, r = inl p -> pg_last p = Some k -> (left (Some k) < left start)%nat
  | _ => fun _ _ => True
  end.

Lemma scan_projected_ends left n t attrs start items s :
  (left start < n)%nat ->
  hwp (paging left) (scan_projected_pages n t attrs start items) s tt (fun r _ _ _ => r <> NoFuel).
Proof.
  revert start items; induction n as [|n IH]; intros start items Hn; [lia|]. cbn [scan_projected_pages].
  h_bind. h_call. intros [p|e] [] Hp; [|done]. cbn beta match zeta. destruct (pg_last p) as [k|] eqn:E; [|by apply hwp_ret].
  eapply hwp_mono; [apply IH; specialize (Hp p k eq_refl E); lia|done].
Qed.
End PeerMap.
