(* ===== verification/AgentLoop.v ===== *)
(** * The host agent: reporting and the poll loop ([deploy/userdata/host-agent.py])

    The writes to DynamoDB, the polling loop, one iteration of which is
    [poll_once], and the HTTP server that answers from the last results. *)

From Stdlib Require Import SpecFloat.
From S2P Require Import Prelude Py PyNum Effects Aws HostCalls Agent AgentMetrics PeerMap.

Section AgentLoop.
Context `{AgentConfig}.

(** ** The gateway token *)

Definition ssh_argv (guest_ip : val) : list string :=
  ["ssh"; "-i"; "/etc/openclaw/host_vm_key"; "-o"; "StrictHostKeyChecking=no"; "-o"; "IdentitiesOnly=yes";
   "agent@" +:+ str_a guest_ip; "jq -r .gateway.auth.token .openclaw/openclaw.json"].

Definition _read_gateway_token (guest_ip : val) : AM string :=
  tryA_ (r ← host_do (RunProc (ssh_argv guest_ip) (Some 10));
         let token := strip (stdout r) in
         mret (if bool_decide (token = "null") then "" else token))
  except _ => mret "".

(** ** Heartbeat *)

Definition _write_host_heartbeat : AM unit :=
  if bool_decide (HOSTS_TABLE = "") || bool_decide (INSTANCE_ID = "") then mret tt
  else
    tryA_ (ts ← host_do UtcNow;
           _ ← _get_ddb;
           _ ← host_do (Ddb (UpdateItem Hosts INSTANCE_ID
                 [SET "last_seen" (Lit (VStr ts)); SET "last_health_check" (Lit (VStr ts))] None RvNone));
           mret tt)
    except _ => mret tt.

(** ** Health of the tenants *)

Definition metrics_val (m : metrics) : val :=
  VDict [("memory_used_mb", VInt (memory_used_mb m)); ("memory_balloon_mib", VInt (memory_balloon_mib m));
         ("disk_used_mb", VInt (disk_used_mb m)); ("disk_total_mb", VInt (disk_total_mb m));
         ("disk_used_pct", VInt (disk_used_pct m)); ("cpu_pct", VInt (cpu_pct m))].

(** [info.get("metrics") if info.get("vm_health") == "up" else None] *)
Definition reported_metrics (info : probe) : option val :=
  if bool_decide (vm_health info = "up") then metrics_val <$> p_metrics info else None.

Definition promote_actions (info : probe) (now token : string) : list action :=
  [SET "status" (Lit (VStr "running"));
   SET "vm_health" (Lit (VStr (vm_health info))); SET "app_health" (Lit (VStr (app_health info)));
   SET "health_failures" (Lit (VInt 0)); SET "last_health_check" (Lit (VStr now));
   SET "updated_at" (Lit (VStr now)); SET "gateway_token" (Lit (VStr token));
   SET "metrics" (Lit (default (VDict []) (reported_metrics info)))].
Definition promote_cond : cond := CEq (Attr "status") (Lit (VStr "creating")).

Definition health_actions (info : probe) (now : string) : list action :=
  [SET "vm_health" (Lit (VStr (vm_health info))); SET "app_health" (Lit (VStr (app_health info)));
   SET "last_health_check" (Lit (VStr now))] ++
  match reported_metrics info with Some m => [SET "metrics" (Lit m)] | None => [] end.

Definition mark_promoted (tid : string) : AM unit :=
  act_mod (fun s => set_promoted ({[tid]} ∪ a_promoted s) s).
Definition record_write (tid : string) (info : probe) : AM unit :=
  ts ← host_do Monotonic;
  act_mod (fun s => set_last_ddb_write (<[tid := (vm_health info, app_health info, ts)]> (a_last_ddb_write s)) s).

(** The promotion of a tenant that is up: whether the steady-state write is
    still to be made in this tick. *)
Definition promote (tid : string) (info : probe) (now : string) : AM bool :=
  token ← _read_gateway_token (guest_ip info);
  if bool_decide (token = "") then mret false
  else
    tryA_ (tryA_ (_ ← host_do (Ddb (UpdateItem Tenants tid (promote_actions info now token) (Some promote_cond) RvNone));
                  _ ← mark_promoted tid;
                  _ ← record_write tid info;
                  mret false)
           except_if (fun e => bool_decide (exn_code e = Some "ConditionalCheckFailedException"))
             _ => (_ ← mark_promoted tid; mret true))
    except _ => mret false.

(** Whether the state changed since the last write, or the write is old. *)
Definition write_due (tid : string) (info : probe) : AM bool :=
  s ← act_get;
  match a_last_ddb_write s !! tid with
  | None => mret true
  | Some (vh, ah, ts) =>
      if negb (bool_decide (vh = vm_health info)) || negb (bool_decide (ah = app_health info)) then mret true
      else now ← host_do Monotonic; mret (fge_int (fsub now ts) _DDB_REFRESH)
  end.

Definition steady_write (tid : string) (info : probe) (now : string) : AM unit :=
  due ← write_due tid info;
  if negb due then mret tt
  else
    tryA_ (_ ← host_do (Ddb (UpdateItem Tenants tid (health_actions info now) None RvNone));
           record_write tid info)
    except _ => mret tt.

(** One tenant of [_write_ddb]. *)
Definition write_tenant (now : string) (tid : string) (info : probe) : AM unit :=
  s ← act_get;
  go_on ← (if bool_decide (vm_health info = "up") && negb (bool_decide (tid ∈ a_promoted s))
           then promote tid info now else mret true);
  if go_on : bool then steady_write tid info now else mret tt.

(** Forgetting the tenants that are gone. *)
Definition forget_gone (seen : gset string) (s : agent) : agent :=
  set_last_ddb_write (filter (fun kv => kv.1 ∈ seen) (a_last_ddb_write s))
    (set_promoted (a_promoted s ∩ seen) s).

Definition _write_ddb (rs : results) : AM unit :=
  if bool_decide (TENANTS_TABLE = "") then mret tt
  else match rs with
  | [] => act_mod (fun s => set_last_ddb_write ∅ (set_promoted ∅ s))
  | _ =>
      _ ← _get_ddb;
      now ← host_do UtcNow;
      _ ← act_for rs (fun x => write_tenant now x.1 x.2);
      act_mod (forget_gone (list_to_set (map fst rs)))
  end.

(** ** The loop *)

Definition stamped (ts : string) (p : probe) : probe :=
  Probe (vm_health p) (app_health p) (guest_ip p) (fc_pid p) (p_metrics p) (Some ts).

(** The body of the loop, before it sleeps. *)
Definition poll_tasks : AM unit :=
  _ ← _write_host_heartbeat;
  probed ← _probe_all;
  rs ← _enrich_metrics probed;
  ts ← host_do UtcNow;
  _ ← act_mod (set_status_map (map (fun x => (x.1, stamped ts x.2)) rs));
  _ ← _write_ddb rs;
  _ ← _adjust_balloons rs;
  _sync_tenant_routes.

Definition poll_once : AM unit :=
  _ ← (tryA_ poll_tasks except _ => mret tt);
  host_do (SleepFor POLL_INTERVAL).

(** [n] iterations of [_poll_loop]. *)
Fixpoint _poll_loop (n : nat) : AM unit :=
  match n with
  | O => mret tt
  | S n' => _ ← poll_once; _poll_loop n'
  end.

(** ** The HTTP server *)

Definition _PROM_GAUGES : list (string * string * (metrics -> Z)) := [
  ("openclaw_vm_memory_used_mb", "Per-VM memory in active use (MB)", memory_used_mb);
  ("openclaw_vm_memory_balloon_mib", "Balloon size held by the host (MiB)", memory_balloon_mib);
  ("openclaw_vm_disk_used_mb", "Per-VM data disk used (MB)", disk_used_mb);
  ("openclaw_vm_disk_total_mb", "Per-VM data disk capacity (MB)", disk_total_mb);
  ("openclaw_vm_disk_used_pct", "Per-VM data disk used (percent)", disk_used_pct);
  ("openclaw_vm_cpu_pct", "Per-VM CPU usage (percent of allocated vcpus)", cpu_pct)].

Record peer_counters := PeerCounters { reload_failures : Z; last_success : spec_float; entries : Z }.

Definition sample_line (name tid : string) (v : Z) : string :=
  name +:+ "{tenant=" +:+ String dquote "" +:+ tid +:+ String dquote "" +:+ "} " +:+ pretty v.

Definition gauge_lines (snapshots : results) (g : string * string * (metrics -> Z)) : list string :=
  let '(name, help, get) := g in
  ["# HELP " +:+ name +:+ " " +:+ help; "# TYPE " +:+ name +:+ " gauge"] ++
  omap (fun x => (fun m => sample_line name x.1 (get m)) <$> p_metrics x.2) snapshots.

Definition health_lines (snapshots : results) : list string :=
  ["# HELP openclaw_vm_health 1 if the VM responded to ping, else 0"; "# TYPE openclaw_vm_health gauge"] ++
  map (fun x => sample_line "openclaw_vm_health" x.1
                  (if bool_decide (vm_health x.2 = "up") then 1 else 0)) snapshots.

Definition failure_lines (p : peer_counters) : list string :=
  ["# HELP openclaw_peer_map_reload_failures_total nginx -t/reload rejections while applying the peer-map";
   "# TYPE openclaw_peer_map_reload_failures_total counter";
   "openclaw_peer_map_reload_failures_total " +:+ pretty (reload_failures p);
   "# HELP openclaw_peer_map_last_success_age_seconds seconds since the peer-map was last fully applied (-1 = never applied)";
   "# TYPE openclaw_peer_map_last_success_age_seconds gauge"].

Definition success_lines (age : Z) (p : peer_counters) : list string :=
  ["openclaw_peer_map_last_success_age_seconds " +:+ pretty age;
   "# HELP openclaw_peer_map_entries peer routes in the last applied generation";
   "# TYPE openclaw_peer_map_entries gauge";
   "openclaw_peer_map_entries " +:+ pretty (entries p)].

(** [-1 if last <= 0 else int(max(0, time.time() - last))] *)
Definition success_age (last : spec_float) : AM Z :=
  if fle last (S754_zero false) then mret (-1)
  else
    now ← host_do WallTime;
    let d := fsub now last in
    act_lift (if flt (S754_zero false) d then float_trunc d else Ok 0).

Definition _render_metrics_text (snapshots : results) (peer : option peer_counters) : AM string :=
  let p := default (PeerCounters 0 (S754_zero false) 0) peer in
  age ← success_age (last_success p);
  mret (str_join eol (concat (map (gauge_lines snapshots) _PROM_GAUGES) ++ health_lines snapshots ++
                     failure_lines p ++ success_lines age p) +:+ eol).

Record http_response := HttpResp { http_code : Z; content_type : string; http_body : string }.

Definition opt_field {A} (k : string) (f : A -> val) (o : option A) : list (string * val) :=
  match o with Some a => [(k, f a)] | None => [] end.

Definition probe_val (p : probe) : val :=
  VDict ([("vm_health", VStr (vm_health p)); ("app_health", VStr (app_health p)); ("guest_ip", guest_ip p)] ++
         opt_field "fc_pid" VInt (fc_pid p) ++ opt_field "metrics" metrics_val (p_metrics p) ++
         opt_field "updated_at" VStr (p_updated_at p)).

Definition do_GET (path : string) : AM http_response :=
  s ← act_get;
  if bool_decide (path = "/metrics") then
    body ← _render_metrics_text (a_status s)
             (Some (PeerCounters (a_peer_reload_failures s) (a_peer_last_success s) (a_peer_entries s)));
    mret (HttpResp 200 "text/plain; version=0.0.4" body)
  else if bool_decide (path = "/health") || bool_decide (path = "/") then
    mret (HttpResp 200 "application/json"
            (json_dumps agent_repr_float (VDict (map (fun x => (x.1, probe_val x.2)) (a_status s)))))
  else mret (HttpResp 404 "" "").
End AgentLoop.
