(* ===== verification/AgentEnds.v ===== *)
(** * The host agent: a poll ends

    A poll of the agent ([deploy/userdata/host-agent.py]) catches whatever its
    tasks raise and goes on to its sleep: it ends normally, unless the sleep
    itself raises, or a scan is given as many pages that announce another one
    as the model's bound on them. *)

From Stdlib Require Import SpecFloat.
From S2P Require Import Prelude Py PyNum Effects Aws HostCalls Agent AgentMetrics PeerMap AgentLoop.

(** ** Computations that return or raise *)

Lemma ends_bind {A B} (m : outcome A) (f : A -> outcome B) :
  m <> NoFuel -> (forall a, f a <> NoFuel) -> (m ≫= f) <> NoFuel.
Proof. intros Hm Hf. by destruct m; [apply Hf|..]. Qed.

(** Peel such a computation down to the ones it calls. *)
Ltac ends :=
  repeat (cbn beta zeta iota; match goal with
    | |- Ok _ <> NoFuel => done
    | |- Exn _ <> NoFuel => done
    | |- mbind _ _ <> NoFuel => apply ends_bind; [|intros ?]
    | |- (match ?x with _ => _ end) <> NoFuel => destruct x
    end).

Lemma float_trunc_ends f : float_trunc f <> NoFuel.
Proof. by destruct f as [| | |s m e]; cbn. Qed.
Lemma py_int_ends v : py_int v <> NoFuel.
Proof. destruct v; cbn; ends; try done. apply float_trunc_ends. Qed.
Lemma vget_or_ends v k x : vget_or v k x <> NoFuel.
Proof. unfold vget_or. ends; done. Qed.
Lemma num_of_ends v : num_of v <> NoFuel.
Proof. by destruct v. Qed.
Lemma to_float_ends n : to_float n <> NoFuel.
Proof. destruct n; cbn; [|done]. unfold float_of_int. ends; done. Qed.
Lemma arith_ends fz ff v w : arith fz ff v w <> NoFuel.
Proof. unfold arith. ends; try done; auto using num_of_ends, to_float_ends. Qed.
Lemma py_gt_ends v w : py_gt v w <> NoFuel.
Proof. unfold py_gt. ends; auto using num_of_ends. Qed.
Lemma py_le_ends v w : py_le v w <> NoFuel.
Proof. unfold py_le. ends; auto using num_of_ends. Qed.
Lemma py_min_ends v w : py_min v w <> NoFuel.
Proof. unfold py_min. ends; auto using py_gt_ends. Qed.
Lemma py_max_ends v w : py_max v w <> NoFuel.
Proof. unfold py_max. ends; auto using py_gt_ends. Qed.
Lemma py_floordiv_ends v n : py_floordiv v n <> NoFuel.
Proof. unfold py_floordiv. ends; auto using num_of_ends. Qed.

Create HintDb ends.
#[local] Hint Resolve float_trunc_ends py_int_ends vget_or_ends num_of_ends to_float_ends arith_ends py_gt_ends py_le_ends
  py_min_ends py_max_ends py_floordiv_ends : ends.

Section AgentEnds.
Context `{AgentConfig}.

Lemma text_arg_ends v : text_arg v <> NoFuel.
Proof. by destruct v. Qed.
Lemma disk_pct_ends u t : disk_pct u t <> NoFuel.
Proof. unfold disk_pct. ends; auto with ends. Qed.
Lemma cpu_pct_ends a b c d v k : _compute_cpu_pct a b c d v k <> NoFuel.
Proof. unfold _compute_cpu_pct. ends; auto with ends. Qed.
Lemma available_ends s : available_mib s <> NoFuel.
Proof. unfold available_mib. ends; auto with ends. Qed.
Lemma memory_usage_ends s v : _get_memory_usage s v <> NoFuel.
Proof. unfold _get_memory_usage, py_sub. ends; auto using available_ends with ends. Qed.
Lemma meminfo_ends l : forall info, meminfo_lines l info <> NoFuel.
Proof.
  induction l as [|x l IH]; intros info; cbn [meminfo_lines]; [done|]. apply ends_bind; [|intros; apply IH].
  unfold meminfo_line. ends; auto with ends.
Qed.
Lemma balloon_ends p v s : balloon_decision p v s <> NoFuel.
Proof. unfold balloon_decision, max_balloon, py_mul, py_sub, py_add. ends; auto using available_ends with ends. Qed.
Lemma req_ends it k : req it k <> NoFuel.
Proof. unfold req. by destruct (it !! k). Qed.
Lemma ip_by_host_ends hosts : forall m, ip_by_host hosts m <> NoFuel.
Proof. induction hosts as [|h hosts IH]; intros m; cbn [ip_by_host]; ends; auto using req_ends; done. Qed.
Lemma desired_from_ends l ips ts : forall m, desired_from l ips ts m <> NoFuel.
Proof.
  induction ts as [|t ts IH]; intros m; cbn [desired_from]; [done|]. apply ends_bind; [|intros; apply IH].
  unfold peer_entry. ends; done.
Qed.

(** ** Actions that end *)

(** A page of a scan that announces another one. *)
Definition more_pages (e : hev) : bool :=
  let '(Ev c r) := e in
  match c return (host_reply c + exn) -> bool with
  | ScanProjected _ _ _ => fun r => match r with inl p => bool_decide (is_Some (pg_last p)) | inr _ => false end
  | _ => fun _ => false
  end r.

(** The trace has at least as many such pages as the bound on those of a scan. *)
Definition endless (t : list hev) : Prop := (agent_scan_fuel <= length (List.filter more_pages t))%nat.

Lemma endless_l t t' : endless t -> endless (t ++ t').
Proof. unfold endless. rewrite List.filter_app, length_app. lia. Qed.
Lemma endless_r t t' : endless t' -> endless (t ++ t').
Proof. unfold endless. rewrite List.filter_app, length_app. lia. Qed.

Definition settles {A} (p : AM A) : Prop :=
  forall s, hwp any_step p s tt (fun r _ _ t => r = NoFuel -> endless t).

Lemma settles_ret {A} (a : A) : settles (mret a).
Proof. intros s. by apply hwp_ret. Qed.
Lemma settles_lift {A} (o : outcome A) : o <> NoFuel -> settles (act_lift o).
Proof. intros Ho s. by apply hwp_lift. Qed.
Lemma settles_get : settles act_get.
Proof. intros s. by apply hwp_get. Qed.
Lemma settles_mod f : settles (act_mod f).
Proof. intros s. by apply hwp_mod. Qed.
Lemma settles_call c : settles (host_do c).
Proof. intros s. h_call. by intros [x|e] [] _. Qed.
Lemma settles_bind {A B} (p : AM A) (f : A -> AM B) : settles p -> (forall a, settles (f a)) -> settles (p ≫= f).
Proof.
  intros Hp Hf s. apply hwp_bind. eapply hwp_mono; [apply Hp|]. intros [a|e|] s' [] t Ht; [|done|by intros _; apply Ht].
  eapply hwp_mono; [apply Hf|]. intros r s'' [] t' Ht' Hr. by apply endless_r, Ht'.
Qed.
Lemma settles_catch_if {A} P (p : AM A) (h : exn -> AM A) :
  settles p -> (forall e, settles (h e)) -> settles (act_catch_if P p h).
Proof.
  intros Hp Hh s. apply hwp_catch_if. eapply hwp_mono; [apply Hp|]. intros [a|e|] s' [] t Ht; [done| |by intros _; apply Ht].
  destruct (P e); [|done]. eapply hwp_mono; [apply Hh|]. intros r s'' [] t' Ht' Hr. by apply endless_r, Ht'.
Qed.
Lemma settles_catch {A} (p : AM A) (h : exn -> AM A) : settles p -> (forall e, settles (h e)) -> settles (act_catch p h).
Proof. apply settles_catch_if. Qed.
Lemma settles_for {A} (l : list A) (body : A -> AM unit) : (forall x, settles (body x)) -> settles (act_for l body).
Proof. intros Hb. induction l as [|x l IH]; [apply settles_ret|]. by apply settles_bind. Qed.
Lemma settles_fold {A B} (body : B -> A -> AM B) (l : list A) : (forall acc x, settles (body acc x)) ->
  forall acc, settles (act_fold body l acc).
Proof. intros Hb. induction l as [|x l IH]; intros acc; [apply settles_ret|]. by apply settles_bind. Qed.

Ltac settle :=
  repeat (cbn beta zeta; match goal with
    | |- settles (mret _) => apply settles_ret
    | |- settles (act_lift _) => apply settles_lift
    | |- settles act_get => apply settles_get
    | |- settles (act_mod _) => apply settles_mod
    | |- settles (host_do _) => apply settles_call
    | |- settles (mbind _ _) => apply settles_bind; [|intros ?]
    | |- settles (act_catch _ _) => apply settles_catch; [|intros ?]
    | |- settles (act_catch_if _ _ _) => apply settles_catch_if; [|intros ?]
    | |- settles (act_for _ _) => apply settles_for; intros ?
    | |- settles (act_fold _ _ _) => apply settles_fold; intros ? ?
    | |- settles (match ?x with _ => _ end) => destruct x
    end).

(** A scan runs out of its bound only on that many pages with a next one. *)
Lemma scan_settles n t attrs : forall start items (s : agent),
  hwp any_step (scan_projected_pages n t attrs start items) s tt (fun r _ _ tr =>
    r = NoFuel -> (n <= length (List.filter more_pages tr))%nat).
Proof.
  induction n as [|n IH]; intros start items s; cbn [scan_projected_pages]; [apply hwp_lift; cbn; lia|].
  h_bind. h_call. intros [p|e] [] _; cbn beta match; [|done].
  destruct (pg_last p) as [k|] eqn:E; [|by apply hwp_ret].
  eapply hwp_mono; [apply IH|]. intros r s' [] tr Hn Hr. specialize (Hn Hr). cbn [app List.filter more_pages].
  rewrite E, bool_decide_eq_true_2 by done. cbn. lia.
Qed.

Lemma get_ddb_settles : settles _get_ddb.
Proof. unfold _get_ddb. settle. Qed.

Lemma sync_settles : settles _sync_tenant_routes.
Proof.
  unfold _sync_tenant_routes, desired_peers, local_tenants, _scan_projected, apply_peers, write_peers, reload_nginx,
    count_reload_failure, _mark_ready.
  settle; auto using get_ddb_settles, ip_by_host_ends, desired_from_ends; intros s; apply scan_settles.
Qed.

Hypothesis json_ends : forall text, json_load text <> NoFuel.
#[local] Set Default Proof Using "Type*".

Lemma probe_settles : settles _probe_all.
Proof.
  unfold _probe_all, probe_all_step, probe_tenant, read_vm_config, _is_migrating, _recover_vm, probe_running, ping_vm,
    curl_gateway, register_net_poll, _force_relaunch_vm, discard_recovering, add_recovering.
  settle; auto using text_arg_ends with ends.
Qed.

Lemma balloon_stats_settles sock : settles (_get_balloon_stats sock).
Proof. unfold _get_balloon_stats. settle; auto. Qed.

Lemma enrich_settles rs : settles (_enrich_metrics rs).
Proof.
  induction rs as [|[x p] rs IH]; cbn [_enrich_metrics]; [apply settles_ret|].
  unfold enrich, metrics_config, _compose_metrics, _sample_cpu_pct, _read_proc_stat_cpu_jiffies,
    _read_proc_status_rss_kb, _get_disk_usage.
  settle; auto using balloon_stats_settles, cpu_pct_ends, disk_pct_ends, memory_usage_ends with ends; ends; auto using cpu_pct_ends with ends.
Qed.

Lemma write_ddb_settles rs : settles (_write_ddb rs).
Proof.
  unfold _write_ddb, write_tenant, promote, _read_gateway_token, steady_write, write_due, record_write, mark_promoted.
  settle; apply get_ddb_settles.
Qed.

Lemma balloons_settle rs : settles (_adjust_balloons rs).
Proof.
  unfold _adjust_balloons, _get_host_mem_info, adjust_balloon, _is_migrating, _set_balloon_target.
  settle; auto using balloon_stats_settles, meminfo_ends, balloon_ends with ends.
Qed.

Lemma tasks_settle : settles poll_tasks.
Proof.
  unfold poll_tasks, _write_host_heartbeat.
  settle; auto using get_ddb_settles, probe_settles, enrich_settles, write_ddb_settles, balloons_settle, sync_settles.
Qed.

(** ** The poll *)

(** How a poll ends. *)
Definition poll_end (r : outcome unit) (t : list hev) : Prop :=
  r = Ok tt \/ (r = NoFuel /\ endless t) \/
  exists e, r = Exn e /\ Ev (S := host) (SleepFor POLL_INTERVAL) (inr e) ∈ t.

Lemma poll_ends (s : agent) : hwp any_step poll_once s tt (fun r _ _ t => poll_end r t).
Proof.
  unfold poll_once. h_bind. apply hwp_catch. eapply hwp_mono; [apply tasks_settle|].
  assert (Hsleep : forall (s : agent) t0, hwp any_step (host_do (SleepFor POLL_INTERVAL)) s tt (fun r _ _ t => poll_end r (t0 ++ t))).
  { intros s0 t0. h_call. intros [[]|e] [] _; [by left|]. right; right. exists e. split; [done|]. set_solver. }
  intros [[]|e|] s' [] t Ht.
  - apply Hsleep.
  - apply hwp_ret. apply Hsleep.
  - right; left. split; [done|]. by apply Ht.
Qed.
End AgentEnds.
