(* ===== verification/AgentSafety.v ===== *)
(** * The host agent: supervision is safe

    The dead-poll counter, the type of the probe results, the protection of
    migrating tenants and of VMs being launched, on any host. *)

From Stdlib Require Import SpecFloat.
From S2P Require Import Prelude Py PyNum Effects Aws HostCalls Agent AgentMetrics PeerMap AgentLoop.

(** ** Dead polls *)

(** The counters after a history of polls of all the tenants, oldest first. *)
Definition net_polls (h : list (string * bool)) : gmap string Z :=
  foldl (fun polls x => (_register_net_poll polls x.1 x.2).1) ∅ h.

(** The unreachable polls of a tenant since it was last reachable. *)
Definition dead_run (tid : string) (h : list (string * bool)) : Z :=
  foldl (fun n x => if bool_decide (x.1 = tid) then if x.2 : bool then 0 else n + 1 else n) 0 h.

Lemma dead_run_nonneg tid h : 0 <= dead_run tid h.
Proof.
  unfold dead_run. induction h as [|x h IH] using rev_ind; [done|]. rewrite foldl_app. cbn [foldl].
  destruct (bool_decide _); [destruct x.2|]; lia.
Qed.

Definition pending (n : Z) : option Z := if n =? 0 then None else Some n.

Lemma poll_pending polls tid n : polls !! tid = pending (n mod 3) -> 0 <= n ->
  (_register_net_poll polls tid false).1 !! tid = pending ((n + 1) mod 3) /\
  (_register_net_poll polls tid false).2 = ((n + 1) mod 3 =? 0).
Proof.
  intros Hp Hn. unfold _register_net_poll, NET_DEAD_THRESHOLD, pending in *. rewrite Hp.
  assert (Hcase : n mod 3 = 0 /\ (n + 1) mod 3 = 1 \/ n mod 3 = 1 /\ (n + 1) mod 3 = 2 \/
                  n mod 3 = 2 /\ (n + 1) mod 3 = 0) by (Z.div_mod_to_equations; lia).
  destruct Hcase as [[-> ->]|[[-> ->]|[-> ->]]]; cbn; by simplify_map_eq.
Qed.

Lemma net_polls_spec tid h : net_polls h !! tid = pending (dead_run tid h mod 3).
Proof.
  induction h as [|[x r] h IH] using rev_ind; [done|]. unfold net_polls, dead_run in *. rewrite !foldl_app.
  cbn [foldl fst snd]. fold (net_polls h) in *. fold (dead_run tid h) in *.
  destruct (bool_decide_reflect (x = tid)) as [->|Hx].
  - destruct r; [|by apply poll_pending; [|apply dead_run_nonneg]]. cbn. by simplify_map_eq.
  - rewrite <- IH. unfold _register_net_poll. destruct r; [cbn; by simplify_map_eq|].
    destruct (_ <=? _); cbn; by simplify_map_eq.
Qed.

(** C18: the per-tenant counters are the reference "length of the current run of
    unreachable polls, modulo three": whatever polls of other tenants happen in
    between, a relaunch is called for at exactly the third, sixth, ... poll of
    a run, and a reachable poll starts over. *)
Theorem net_poll_equivalent (h : list (string * bool)) (tid : string) (reachable : bool) :
  (_register_net_poll (net_polls h) tid reachable).2 =
    negb reachable && (dead_run tid (h ++ [(tid, reachable)]) mod 3 =? 0) /\
  net_polls h !! tid = pending (dead_run tid h mod 3).
Proof.
  split; [|apply net_polls_spec]. destruct reachable; [done|]. unfold dead_run at 1. rewrite foldl_app.
  cbn [foldl fst snd negb andb]. rewrite bool_decide_eq_true_2 by done.
  apply poll_pending; [apply net_polls_spec|apply dead_run_nonneg].
Qed.

Section AgentSafety.
Context `{AgentConfig}.

(** ** The type of a probe result *)

Definition well_formed (p : probe) : Prop :=
  vm_health p ∈ ["up"; "down"; "recovering"; "migrating"] /\
  app_health p ∈ ["up"; "down"] /\
  (app_health p = "up" -> vm_health p = "up") /\
  (is_Some (fc_pid p) <-> vm_health p = "up" \/ vm_health p = "down") /\
  (truthy (guest_ip p) = true <-> vm_health p <> "migrating") /\
  p_metrics p = None /\ p_updated_at p = None.

(** A result that is returned satisfies [Q], whatever the host replies. *)
Definition returns {A} (p : AM A) (Q : A -> Prop) : Prop :=
  forall s, hwp any_step p s tt (fun r _ _ _ => forall a, r = Ok a -> Q a).

Lemma returns_ret {A} (a : A) (Q : A -> Prop) : Q a -> returns (mret a) Q.
Proof. intros Hq s. apply hwp_ret. by intros b [= <-]. Qed.

Lemma returns_keeps {A} (p : AM A) :
  keeps any_change (fun _ => True) p -> returns p (fun _ => True).
Proof. intros Hp s. eapply hwp_mono; [apply Hp|]. done. Qed.

Lemma returns_bind {A B} (p : AM A) (f : A -> AM B) (Q : A -> Prop) (Q' : B -> Prop) :
  returns p Q -> (forall a, Q a -> returns (f a) Q') -> returns (p ≫= f) Q'.
Proof.
  intros Hp Hf s. h_bind. eapply hwp_mono; [apply Hp|]. intros [a|e|] s' [] t Ht; try done.
  eapply hwp_mono; [by apply Hf, Ht|]. done.
Qed.

Lemma returns_step {A B} (p : AM A) (f : A -> AM B) (Q' : B -> Prop) :
  keeps any_change (fun _ => True) p -> (forall a, returns (f a) Q') -> returns (p ≫= f) Q'.
Proof. intros Hp Hf. eapply returns_bind; [by apply returns_keeps|]. intros a _. apply Hf. Qed.

Lemma returns_catch {A} (P : exn -> bool) (p : AM A) (h : exn -> AM A) (Q : A -> Prop) :
  returns p Q -> (forall e, returns (h e) Q) -> returns (act_catch_if P p h) Q.
Proof.
  intros Hp Hh s. apply hwp_catch_if. eapply hwp_mono; [apply Hp|]. intros [a|e|] s' [] t Ht; try done.
  destruct (P e); [|done]. eapply hwp_mono; [apply Hh|]. done.
Qed.

Lemma read_config_ip tid : returns (read_vm_config tid) (fun o => forall cfg ip, o = Some (cfg, ip) -> truthy ip = true).
Proof.
  unfold read_vm_config. apply returns_catch; [|intros e; by apply returns_ret].
  do 3 (apply returns_step; [keeps_calls; done|intros ?]).
  apply returns_ret. destruct (truthy _) eqn:E; congruence.
Qed.

Lemma probe_running_typed tid cfg ip pid : truthy ip = true -> returns (probe_running tid cfg ip pid) well_formed.
Proof.
  intros Hip. unfold probe_running. apply returns_step; [unfold ping_vm; keeps_calls; done|]. intros [].
  - do 2 (apply returns_step; [unfold register_net_poll, curl_gateway; keeps_calls; done|intros ?]).
    apply returns_ret. unfold well_formed. cbn. destruct a0; cbn; repeat split; try done; set_solver.
  - apply returns_step; [unfold register_net_poll; keeps_calls; done|]. intros [].
    + apply returns_step; [unfold _force_relaunch_vm, discard_recovering, add_recovering; keeps_calls; done|]. intros [].
      apply returns_ret. unfold well_formed; cbn. repeat split; try done; try set_solver.
    + apply returns_ret. unfold well_formed; cbn. repeat split; try done; try set_solver; eauto.
Qed.

Lemma probe_tenant_typed tid : returns (probe_tenant tid) (fun o => forall p, o = Some p -> well_formed p).
Proof.
  unfold probe_tenant. apply returns_step; [keeps_calls; done|]. intros []; cbn [negb]; [|by apply returns_ret].
  eapply returns_bind; [apply read_config_ip|]. intros [[cfg ip]|] Hip; [|by apply returns_ret].
  specialize (Hip cfg ip eq_refl).
  apply returns_step; [keeps_calls; done|]. intros []; [by apply returns_ret|].
  apply returns_step; [unfold _is_migrating; keeps_calls; done|]. intros [].
  { apply returns_ret. intros p [= <-]. unfold well_formed; cbn. repeat split; try done; try set_solver. }
  apply returns_step; [keeps_calls; done|]. intros pgrep. destruct (pgrep_pid pgrep) as [pid|].
  - apply returns_step; [unfold discard_recovering; keeps_calls; done|]. intros _.
    eapply returns_bind; [by apply probe_running_typed|]. intros p Hp. apply returns_ret. by intros ? [= <-].
  - apply returns_step; [unfold _recover_vm, discard_recovering, add_recovering; keeps_calls; done|]. intros _.
    apply returns_ret. intros p [= <-]. unfold well_formed; cbn. repeat split; try done; try set_solver.
Qed.

Lemma returns_fold {A B} (body : B -> A -> AM B) (I : B -> Prop) l : forall acc,
  I acc -> (forall acc x, I acc -> returns (body acc x) I) -> returns (act_fold body l acc) I.
Proof.
  induction l as [|x l IH]; intros acc Hacc Hb; [by apply returns_ret|].
  apply (returns_bind (body acc x) (act_fold body l) I); [by apply Hb|]. intros acc' Hacc'. by apply IH.
Qed.

(** C34: whatever the files and commands of the host answer, the results of a
    poll are well typed: one entry per tenant, a known health, an application
    that is up only on a VM that is up, a process id exactly for the VMs that
    were pinged, an address unless the tenant is migrating. *)
Theorem probe_all_typed (s : agent) :
  hawp _probe_all s (fun r _ _ => forall rs, r = Ok rs ->
    NoDup (map fst rs) /\ Forall (fun x => well_formed x.2) rs).
Proof.
  assert (Hp : returns _probe_all (fun rs => NoDup (map fst rs) /\ Forall (fun x => well_formed x.2) rs));
    [|exact (Hp s)].
  unfold _probe_all. apply returns_step; [keeps_calls; done|].
  intros [entries|]; [|apply returns_ret; split; constructor].
  apply returns_fold; [split; constructor|]. intros rs tid [Hnd Hwf]. unfold probe_all_step.
  eapply returns_bind; [apply probe_tenant_typed|]. intros [p|] Hp; apply returns_ret; [|done].
  split; [by apply dict_set_NoDup|]. apply dict_set_Forall; [by apply Hp|done].
Qed.
End AgentSafety.
