(* ===== verification/AgentGuards.v ===== *)
(** * The host agent: a migrating tenant is left alone

    In every poll, on any host: a command that touches the VM of a tenant (the
    launch and stop scripts, a request on its Firecracker socket) comes after
    a check of that poll that found no live migration sentinel for it. *)

From Stdlib Require Import SpecFloat.
From S2P Require Import Prelude Py PyNum Effects Aws HostCalls Agent AgentMetrics PeerMap AgentLoop AgentSafety.

Definition is_lit (x s : string) : bool := bool_decide (x = s).

(** The commands that act on the VM of a tenant. *)
Definition vm_command (tid : string) (argv : list string) : bool :=
  match argv with
  | a :: b :: c :: rest =>
      (is_lit a "bash" && (is_lit b "/home/ubuntu/launch-vm.sh" || is_lit b "/home/ubuntu/stop-vm.sh") && is_lit c tid) ||
      (is_lit a "curl" && is_lit c "--unix-socket" &&
       match rest with d :: _ => is_lit d (vm_file tid "fc.sock") | [] => false end)
  | _ => false
  end.

Definition touches (tid : string) (e : hev) : Prop :=
  match ev_call e with
  | RunProc argv _ | Popen argv => vm_command tid argv = true
  | _ => False
  end.

Lemma vm_file_inj x y n : vm_file x n = vm_file y n -> x = y.
Proof.
  unfold vm_file, path_join, vm_dir, path_join. rewrite !str_app_assoc. intros E.
  apply (inj (String.append VM_DIR)), (inj (String.append "/")) in E.
  by apply str_app_cancel_r in E.
Qed.

Section AgentGuards.
Context `{AgentConfig} (tid : string).

(** ** The check *)

(** The events of a check that finds no live sentinel. *)
Definition no_sentinel (c : list hev) : Prop :=
  (exists e, is_oserror e = true /\
     (c = [Ev (S := host) WallTime (inr e)] \/
      exists now, c = [Ev (S := host) WallTime (inl now);
                       Ev (S := host) (GetMtime (vm_file tid ".migrating")) (inr e)])) \/
  (exists now mtime, c = [Ev (S := host) WallTime (inl now);
                          Ev (S := host) (GetMtime (vm_file tid ".migrating")) (inl mtime)] /\
     cmp_float_int (fsub now mtime) MIGRATION_SENTINEL_TTL = Some Gt).

Definition cleared (pre : list hev) : Prop := exists t1 c t2, pre = t1 ++ c ++ t2 /\ no_sentinel c.

Lemma cleared_app pre t : cleared pre -> cleared (pre ++ t).
Proof. intros (t1 & c & t2 & -> & Hc). exists t1, c, (t2 ++ t). by rewrite <- !app_assoc. Qed.

Definition guarded_vm (pre t : list hev) : Prop := guarded (touches tid) (fun p _ => cleared p) pre t.

Lemma guarded_cleared pre t : cleared pre -> guarded_vm pre t.
Proof. intros Hc t1 e t2 _ _. by apply cleared_app. Qed.

Abbreviation free := (keeps (S := host) (St := agent) any_change (fun e : hev => ~ touches tid e)).
Abbreviation runs := (keeps (S := host) (St := agent) any_change (fun _ => True)).

Lemma is_migrating_spec s :
  hwp any_step (_is_migrating tid) s tt (fun r s' _ t => s' = s /\ Forall (fun e => ~ touches tid e) t /\
    (r = Ok false -> no_sentinel t)).
Proof.
  unfold _is_migrating. h_bind. apply hwp_catch_if. h_bind. h_call. intros [now|e] [] _; cbn beta match.
  - h_bind. h_call. intros [mtime|e] [] _; cbn beta match.
    + apply hwp_ret. apply hwp_ret. split; [done|]. split; [by repeat constructor; intros []|].
      intros [= Hage]. right. exists now, mtime. split; [done|]. by destruct (cmp_float_int _ _) as [[]|].
    + destruct (is_oserror e) eqn:Ee; cbn beta match.
      * apply hwp_ret. apply hwp_ret. split; [done|]. split; [by repeat constructor; intros []|].
        intros _. left. exists e. split; [done|]. right. by exists now.
      * split; [done|]. split; [by repeat constructor; intros []|done].
  - destruct (is_oserror e) eqn:Ee; cbn beta match.
    + apply hwp_ret. apply hwp_ret. split; [done|]. split; [by repeat constructor; intros []|].
      intros _. left. exists e. split; [done|]. by left.
    + split; [done|]. split; [by repeat constructor; intros []|done].
Qed.

(** ** Actions that touch nothing *)

(** What remains of [free] or [runs] at a call. *)
Ltac no_touch :=
  keeps_calls; try done; try (let Ht := fresh in intros Ht; cbn in Ht; by rewrite ?bool_decide_eq_false_2 in Ht by done).

Lemma other_vm x argv : x <> tid -> vm_command x argv = true -> vm_command tid argv = false.
Proof.
  intros Hx. unfold vm_command, is_lit. destruct argv as [|a [|b [|c rest]]]; try done.
  intros [[[Ha Hb]%andb_true_iff Hc]%andb_true_iff|[[Ha Hc]%andb_true_iff Hd]%andb_true_iff]%orb_true_iff;
    apply bool_decide_eq_true in Ha as ->.
  - apply bool_decide_eq_true in Hc as ->. cbn. rewrite (bool_decide_eq_false_2 (x = tid)) by done.
    by rewrite andb_false_r.
  - apply bool_decide_eq_true in Hc as ->. destruct rest as [|d rest]; [done|].
    apply bool_decide_eq_true in Hd as ->. cbn.
    rewrite (bool_decide_eq_false_2 (vm_file x "fc.sock" = vm_file tid "fc.sock")); [done|].
    intros E. by apply vm_file_inj in E.
Qed.

(** The scripts and the socket of another tenant. *)
Lemma other_launch x vm_num vcpu mem_mb : x <> tid -> vm_command tid (launch_argv x vm_num vcpu mem_mb) = false.
Proof. intros Hx. apply (other_vm x); [done|]. cbn. unfold is_lit. by rewrite (bool_decide_eq_true_2 (x = x)) by done. Qed.
Lemma other_stop x vm_num : x <> tid -> vm_command tid (stop_argv x vm_num) = false.
Proof. intros Hx. apply (other_vm x); [done|]. cbn. unfold is_lit. by rewrite (bool_decide_eq_true_2 (x = x)) by done. Qed.
Lemma other_socket x args : x <> tid -> vm_command tid (curl_socket (vm_file x "fc.sock") args) = false.
Proof.
  intros Hx. apply (other_vm x); [done|]. unfold curl_socket, vm_command, is_lit. cbn [app].
  by rewrite (bool_decide_eq_true_2 (vm_file x "fc.sock" = vm_file x "fc.sock")) by done.
Qed.

Ltac other_touch :=
  no_touch; try (let Ht := fresh in intros Ht; unfold touches in Ht; cbn [ev_call] in Ht;
    by rewrite ?other_launch, ?other_stop, ?other_socket in Ht by done).

Lemma other_probe x : x <> tid -> free (probe_tenant x).
Proof.
  intros Hx. unfold probe_tenant, read_vm_config, _is_migrating, _recover_vm, discard_recovering, add_recovering,
    probe_running, ping_vm, curl_gateway, register_net_poll, _force_relaunch_vm, discard_recovering, add_recovering.
  other_touch.
Qed.

Lemma other_enrich x info : x <> tid \/ vm_health info <> "up" -> free (enrich x info).
Proof.
  intros Hx. unfold enrich. destruct (bool_decide_reflect (vm_health info = "up")) as [|]; cbn [negb]; [|no_touch].
  destruct Hx as [Hx|]; [|done].
  unfold metrics_config, _compose_metrics, _sample_cpu_pct, _read_proc_stat_cpu_jiffies, _read_proc_status_rss_kb,
    _get_balloon_stats, _get_disk_usage. other_touch.
Qed.

Lemma other_balloon pressure x info : x <> tid \/ vm_health info <> "up" -> free (adjust_balloon pressure x info).
Proof.
  intros Hx. unfold adjust_balloon. destruct (bool_decide_reflect (vm_health info = "up")) as [|]; cbn [negb]; [|no_touch].
  destruct Hx as [Hx|]; [|done].
  unfold _is_migrating, _get_balloon_stats, _set_balloon_target, balloon_argv. other_touch.
Qed.

(** ** The tenant itself *)

Definition up_in (rs : results) : Prop := Exists (fun x => x.1 = tid /\ vm_health x.2 = "up") rs.

#[export] Instance up_in_dec rs : Decision (up_in rs).
Proof. apply _. Defined.

Lemma not_up rs x : ~ up_in rs -> x ∈ rs -> x.1 <> tid \/ vm_health x.2 <> "up".
Proof.
  intros Hn Hx. destruct (decide (x.1 = tid)); [|by left]. right. intros Hu. apply Hn.
  apply list.Exists_exists. by exists x.
Qed.

(** A part that touches nothing in front keeps the guard. *)
Lemma guard_step {A B} (p : AM A) (f : A -> AM B) (K : B -> Prop) pre s :
  free p ->
  (forall a s' t, hwp any_step (f a) s' tt (fun r _ _ t' => guarded_vm (pre ++ t) t' /\
     forall b, r = Ok b -> K b -> cleared ((pre ++ t) ++ t'))) ->
  hwp any_step (p ≫= f) s tt (fun r _ _ t => guarded_vm pre t /\ forall b, r = Ok b -> K b -> cleared (pre ++ t)).
Proof.
  intros Hp Hf. h_bind. eapply hwp_mono; [apply Hp|]. intros [a|e|] s' [] t [_ Ht].
  - eapply hwp_mono; [apply (Hf a s' t)|]. intros r s'' [] t' [Hg Hc].
    split; [apply guarded_app; [by apply guarded_free|done]|]. intros b Hb HK. rewrite app_assoc. eauto.
  - split; [by apply guarded_free|done].
  - split; [by apply guarded_free|done].
Qed.

(** Once cleared, nothing is left to show. *)
Lemma guard_done {A} (p : AM A) (K : A -> Prop) pre s :
  cleared pre -> runs p ->
  hwp any_step p s tt (fun r _ _ t => guarded_vm pre t /\ forall b, r = Ok b -> K b -> cleared (pre ++ t)).
Proof.
  intros Hc Hp. eapply hwp_mono; [apply Hp|]. intros r s' [] t _.
  split; [by apply guarded_cleared|]. intros; by apply cleared_app.
Qed.

Lemma guard_ret {A} (a : A) (K : A -> Prop) pre s : ~ K a ->
  hwp any_step (mret a : AM A) s tt (fun r _ _ t => guarded_vm pre t /\ forall b, r = Ok b -> K b -> cleared (pre ++ t)).
Proof. intros HK. apply hwp_ret. split; [by apply guarded_free|]. by intros b [= <-]. Qed.

Definition probed_up (o : option probe) : Prop := exists p, o = Some p /\ vm_health p = "up".

Lemma probe_guarded pre s :
  hwp any_step (probe_tenant tid) s tt (fun r _ _ t => guarded_vm pre t /\
    forall o, r = Ok o -> probed_up o -> cleared (pre ++ t)).
Proof.
  assert (Hnone : ~ probed_up None) by (by intros (p & ? & _)).
  unfold probe_tenant. apply guard_step; [no_touch|]. intros is_vm s1 t1.
  destruct is_vm; cbn [negb]; [|by apply guard_ret].
  apply guard_step; [unfold read_vm_config; no_touch|]. intros [[cfg ip]|] s2 t2; [|by apply guard_ret].
  apply guard_step; [no_touch|]. intros stopped s3 t3. destruct stopped; [by apply guard_ret|].
  h_bind. eapply hwp_mono; [apply is_migrating_spec|]. intros r s4 [] t4 (-> & Hfree & Hno).
  destruct r as [[]|e|]; [|..].
  - apply hwp_ret. rewrite app_nil_r. split; [by apply guarded_free|]. intros o [= <-] (p & [= <-] & Hp). done.
  - specialize (Hno eq_refl). eapply hwp_mono; [apply guard_done|].
    + exists (((pre ++ t1) ++ t2) ++ t3), t4, []. by rewrite app_nil_r.
    + unfold _recover_vm, discard_recovering, add_recovering,
        probe_running, ping_vm, curl_gateway, register_net_poll, _force_relaunch_vm, discard_recovering, add_recovering.
      keeps_calls; done.
    + intros r s' [] t' [Hg Hc]. split; [apply guarded_app; [by apply guarded_free|done]|].
      intros o Ho HK. rewrite app_assoc. eauto.
  - split; [by apply guarded_free|done].
  - split; [by apply guarded_free|done].
Qed.

(** ** The whole poll *)

Lemma up_in_set x p rs : up_in (dict_set x p rs) -> (x = tid /\ vm_health p = "up") \/ up_in rs.
Proof.
  unfold up_in. induction rs as [|[y q] rs IH]; cbn [dict_set].
  - intros Hu. inversion Hu as [? ? Hp|? ? Hp]; subst; [by left|by inversion Hp].
  - destruct (bool_decide_reflect (y = x)) as [->|]; intros Hu; inversion Hu as [? ? Hp|? ? Hp]; subst.
    + by left.
    + right. by right.
    + right. by left.
    + destruct (IH Hp); [by left|right; by right].
Qed.

Lemma probe_all_guarded pre s :
  hwp any_step _probe_all s tt (fun r _ _ t => guarded_vm pre t /\
    forall rs, r = Ok rs -> up_in rs -> cleared (pre ++ t)).
Proof.
  assert (Hnil : ~ up_in []) by (intros Hu; inversion Hu).
  unfold _probe_all. apply guard_step; [no_touch|]. intros [entries|] s1 t1; [|by apply guard_ret].
  eapply hwp_mono.
  - apply (hwp_fold any_step probe_all_step
      (fun rs _ _ t => guarded_vm (pre ++ t1) t /\ (up_in rs -> cleared ((pre ++ t1) ++ t)))
      (fun _ _ t => guarded_vm (pre ++ t1) t) entries [] s1 tt []).
    { split; [by apply guarded_free|done]. }
    intros x rs s2 [] t2 _ [Hg Hc]. unfold probe_all_step. h_bind.
    destruct (decide (x = tid)) as [->|Hx].
    + eapply hwp_mono; [apply (probe_guarded ((pre ++ t1) ++ t2))|].
      intros r s3 [] t3 [Hg3 Hc3]. assert (Hg' : guarded_vm (pre ++ t1) (t2 ++ t3)) by by apply guarded_app.
      destruct r as [[p|]|e|]; [| |done|done]; apply hwp_ret; rewrite app_nil_r; (split; [done|]).
      * rewrite app_assoc. intros [[_ Hu]|Hu]%up_in_set; [apply (Hc3 _ eq_refl); by exists p|by apply cleared_app, Hc].
      * rewrite app_assoc. intros Hu. by apply cleared_app, Hc.
    + eapply hwp_mono; [apply (other_probe x Hx)|]. intros r s3 [] t3 [_ Hf].
      assert (Hg' : guarded_vm (pre ++ t1) (t2 ++ t3)) by (apply guarded_app; [done|by apply guarded_free]).
      destruct r as [[p|]|e|]; [| |done|done]; apply hwp_ret; rewrite app_nil_r; (split; [done|]);
        rewrite app_assoc; intros Hu; apply cleared_app, Hc; [|done].
      by apply up_in_set in Hu as [[-> _]|].
  - cbn. intros [rs|e|] s' [] t Ht; [|by split|by split].
    destruct Ht as [Hg Hc]. split; [done|]. by intros ? [= <-].
Qed.

Lemma enrich_not_up rs : ~ up_in rs -> free (_enrich_metrics rs) /\ returns (_enrich_metrics rs) (fun rs' => ~ up_in rs').
Proof.
  induction rs as [|[x p] rs IH]; intros Hn; cbn [_enrich_metrics]; [split; [no_touch|by apply returns_ret]|].
  assert (Hx : x <> tid \/ vm_health p <> "up") by (apply (not_up _ (x, p) Hn); left).
  destruct IH as [IH1 IH2]; [intros Hu; apply Hn; by right|]. split.
  - keeps_calls; [by apply other_enrich|apply IH1].
  - apply (returns_bind _ _ (fun q : probe => vm_health q = vm_health p)).
    { unfold enrich. destruct (negb _); [by apply returns_ret|].
      apply returns_step; [unfold metrics_config; keeps_calls; done|]. intros [mem vcpu].
      apply returns_catch; [|intros e; by apply returns_ret].
      apply returns_step; [|intros m; by apply returns_ret].
      unfold _compose_metrics, _sample_cpu_pct, _read_proc_stat_cpu_jiffies, _read_proc_status_rss_kb,
        _get_balloon_stats, _get_disk_usage. keeps_calls; done. }
    intros q Hq. eapply returns_bind; [apply IH2|]. intros rs' Hrs'. apply returns_ret.
    intros Hu. inversion Hu as [? ? [E1 E2]|? ? Hp]; subst; [|done]. cbn in *. rewrite Hq in E2. by destruct Hx.
Qed.

Lemma write_ddb_free rs : free (_write_ddb rs).
Proof.
  unfold _write_ddb, _get_ddb, write_tenant, promote, _read_gateway_token, steady_write, write_due, record_write, mark_promoted.
  no_touch.
Qed.

Lemma sync_free : free _sync_tenant_routes.
Proof.
  unfold _sync_tenant_routes, desired_peers, local_tenants, _scan_projected, _get_ddb, apply_peers, write_peers, reload_nginx,
    count_reload_failure, _mark_ready.
  assert (Hs : forall n t attrs start items, free (scan_projected_pages n t attrs start items)).
  { induction n as [|n IH]; intros; cbn [scan_projected_pages]; no_touch. }
  no_touch.
Qed.

(** What a poll does after probing. *)
Definition after_probe (probed : results) : AM unit :=
  rs ← _enrich_metrics probed;
  ts ← host_do UtcNow;
  _ ← act_mod (set_status_map (map (fun x => (x.1, stamped ts x.2)) rs));
  _ ← _write_ddb rs;
  _ ← _adjust_balloons rs;
  _sync_tenant_routes.

Lemma adjust_not_up rs : ~ up_in rs -> free (_adjust_balloons rs).
Proof.
  intros Hn. unfold _adjust_balloons, _get_host_mem_info. no_touch. apply other_balloon. by apply (not_up rs).
Qed.

Lemma after_probe_not_up probed s : ~ up_in probed ->
  hwp any_step (after_probe probed) s tt (fun _ _ _ t => Forall (fun e => ~ touches tid e) t).
Proof.
  intros Hn. destruct (enrich_not_up probed Hn) as [H1 H2]. unfold after_probe. h_bind.
  eapply hwp_mono; [apply hwp_and; [apply (H1 s)|apply (H2 s)]|].
  intros [rs|e|] s' [] t [[_ Hf] Hr]; try done. specialize (Hr rs eq_refl).
  assert (Hk : free (ts ← host_do UtcNow; _ ← act_mod (set_status_map (map (fun x => (x.1, stamped ts x.2)) rs));
    _ ← _write_ddb rs; _ ← _adjust_balloons rs; _sync_tenant_routes)).
  { keeps_calls; [by intros []|done|apply write_ddb_free|by apply adjust_not_up|apply sync_free]. }
  eapply hwp_mono; [apply (Hk s')|]. intros r s'' [] t' [_ Hf']. by apply Forall_app.
Qed.

Lemma enrich_runs rs : runs (_enrich_metrics rs).
Proof.
  induction rs as [|[x p] rs IH]; cbn [_enrich_metrics]; [keeps_calls|].
  unfold enrich, metrics_config, _compose_metrics, _sample_cpu_pct, _read_proc_stat_cpu_jiffies,
    _read_proc_status_rss_kb, _get_balloon_stats, _get_disk_usage. keeps_calls; done.
Qed.

Lemma free_runs {A} (p : AM A) : free p -> runs p.
Proof. intros Hp s. eapply hwp_mono; [apply Hp|]. intros r s' [] t [? _]. split; [done|]. by apply list.Forall_true. Qed.

Lemma after_probe_runs probed : runs (after_probe probed).
Proof using tid.
  unfold after_probe. keeps_calls; try done; [apply enrich_runs|apply free_runs, write_ddb_free|..|apply free_runs, sync_free].
  unfold _adjust_balloons, _get_host_mem_info, adjust_balloon, _is_migrating, _get_balloon_stats, _set_balloon_target.
  keeps_calls; done.
Qed.

Lemma poll_tasks_guarded s : hwp any_step poll_tasks s tt (fun _ _ _ t => guarded_vm [] t).
Proof.
  change poll_tasks with (_ ← _write_host_heartbeat; probed ← _probe_all; after_probe probed).
  h_bind. assert (Hh : free _write_host_heartbeat).
  { unfold _write_host_heartbeat, _get_ddb. no_touch. }
  eapply hwp_mono; [apply (Hh s)|]. intros [[]|e|] s1 [] t1 [_ H1]; [|by apply guarded_free..].
  h_bind. eapply hwp_mono; [apply (probe_all_guarded t1)|]. intros r s2 [] t2 [Hg Hc].
  assert (Hg' : guarded_vm [] (t1 ++ t2)) by (apply guarded_app; [by apply guarded_free|done]).
  destruct r as [probed|e|]; [|done..].
  destruct (decide (up_in probed)) as [Hu|Hn].
  - eapply hwp_mono; [apply (after_probe_runs probed s2)|]. intros r s3 [] t3 _. rewrite app_assoc.
    apply guarded_app; [done|]. apply guarded_cleared. by apply (Hc _ eq_refl).
  - eapply hwp_mono; [by apply (after_probe_not_up probed s2)|]. intros r s3 [] t3 Hf. rewrite app_assoc.
    apply guarded_app; [done|]. by apply guarded_free.
Qed.
End AgentGuards.

(** ** Property *)

(** C13: in every poll, on any host and from any state, a command that touches the
    VM of a tenant (launch, stop, or a request on its Firecracker socket) is
    issued only after the poll read the age of the tenant's migration sentinel
    and found none, or a stale one. *)
Theorem migrating_vm_untouched `{AgentConfig} (tid : string) (s : agent) :
  hawp poll_once s (fun _ _ t => forall t1 e t2, t = t1 ++ e :: t2 -> touches tid e -> cleared tid t1).
Proof.
  unfold hawp, poll_once. h_bind. apply hwp_catch. eapply hwp_mono; [apply poll_tasks_guarded|].
  assert (Hsleep : forall (s' : agent) t, guarded_vm tid [] t ->
    hwp any_step (host_do (SleepFor POLL_INTERVAL)) s' tt (fun _ _ _ t' => guarded_vm tid [] (t ++ t'))).
  { intros s' t Hg. h_call. intros r [] _. apply guarded_app; [done|]. apply guarded_free. by repeat constructor; intros []. }
  intros [[]|e|] s' [] t Hg; [by apply Hsleep| |exact Hg].
  apply hwp_ret. rewrite app_nil_r. by apply Hsleep.
Qed.
