(* ===== verification/AgentLaunch.v ===== *)
(** * The host agent: one launch at a time

    Over any number of polls, a VM is not launched again while a launch of it
    is under way: between two launches of a tenant there is a poll that saw
    its Firecracker process, or the first launch could not be started. *)

From Stdlib Require Import SpecFloat.
From S2P Require Import Prelude Py PyNum Effects Aws HostCalls Agent AgentMetrics PeerMap AgentLoop AgentSafety AgentGuards.

Section AgentLaunch.
Context `{AgentConfig} (tid : string).

Definition runs_script (script : string) (argv : list string) : bool :=
  match argv with
  | a :: b :: c :: _ => is_lit a "bash" && is_lit b script && is_lit c tid
  | _ => false
  end.
Definition LAUNCH : string := "/home/ubuntu/launch-vm.sh".
Definition STOP : string := "/home/ubuntu/stop-vm.sh".
Definition pgrep_argv : list string := ["pgrep"; "-f"; "api-sock " +:+ vm_file tid "fc.sock"].

(** An attempt to launch the VM of the tenant. *)
Definition is_launch (e : hev) : Prop :=
  match ev_call e with Popen argv => runs_script LAUNCH argv = true | _ => False end.

(** Whether a launch is under way, after an event: it starts when the launch
    script does, and ends when the process is seen, or a script cannot be
    started. *)
Definition launch_step (b : bool) (e : hev) : bool :=
  let '(Ev c r) := e in
  match c return (host_reply c + exn) -> bool with
  | Popen argv => fun r =>
      if runs_script LAUNCH argv then match r with inl _ => true | inr _ => false end else b
  | RunProc argv _ => fun r =>
      match r with
      | inr _ => if runs_script STOP argv then false else b
      | inl p => if bool_decide (argv = pgrep_argv) && bool_decide (is_Some (pgrep_pid p)) then false else b
      end
  | _ => fun _ => b
  end r.
Definition launching (t : list hev) : bool := foldl launch_step false t.

Lemma launching_app t t' : launching (t ++ t') = foldl launch_step (launching t) t'.
Proof. apply foldl_app. Qed.

Definition Inv (pre : list hev) (s : agent) : Prop := launching pre = true -> tid ∈ a_recovering s.
Definition guarded_launch (pre t : list hev) : Prop := guarded is_launch (fun p _ => launching p = false) pre t.

(** An action that keeps the mark of a launch and launches only without one. *)
Definition minds {A} (p : AM A) : Prop := forall s pre, Inv pre s ->
  hwp any_step p s tt (fun _ s' _ t => guarded_launch pre t /\ Inv (pre ++ t) s').

Lemma minds_bind {A B} (p : AM A) (f : A -> AM B) : minds p -> (forall a, minds (f a)) -> minds (p ≫= f).
Proof.
  intros Hp Hf s pre HI. h_bind. eapply hwp_mono; [by apply Hp|]. intros [a|e|] s' [] t [Hg HI']; try done.
  eapply hwp_mono; [by apply Hf|]. intros r s'' [] t' [Hg' HI'']. rewrite app_assoc. split; [by apply guarded_app|done].
Qed.

Lemma minds_catch_if {A} (C : exn -> bool) (p : AM A) (h : exn -> AM A) :
  minds p -> (forall e, minds (h e)) -> minds (act_catch_if C p h).
Proof.
  intros Hp Hh s pre HI. apply hwp_catch_if. eapply hwp_mono; [by apply Hp|]. intros [a|e|] s' [] t [Hg HI']; try done.
  destruct (C e); [|done].
  eapply hwp_mono; [by apply Hh|]. intros r s'' [] t' [Hg' HI'']. rewrite app_assoc. split; [by apply guarded_app|done].
Qed.

Lemma minds_fold {A B} (body : B -> A -> AM B) l : forall acc,
  (forall acc x, minds (body acc x)) -> minds (act_fold body l acc).
Proof.
  induction l as [|x l IH]; intros acc Hb; [intros s pre HI; apply hwp_ret; rewrite app_nil_r; split; [by apply guarded_free|done]|].
  apply (minds_bind (body acc x)); [apply Hb|]. intros acc'. by apply IH.
Qed.

(** The mark of this tenant stays, and the event says nothing of its launches. *)
Definition keeps_mark (s s' : agent) : Prop := tid ∈ a_recovering s -> tid ∈ a_recovering s'.
#[export] Instance keeps_mark_preorder : PreOrder keeps_mark.
Proof. unfold keeps_mark. split; [by intros s|]. intros s1 s2 s3; auto. Qed.

Definition neutral (e : hev) : Prop := (forall b, launch_step b e = b) /\ ~ is_launch e.
Abbreviation ignores := (keeps (S := host) keeps_mark neutral).

Lemma ignores_minds {A} (p : AM A) : ignores p -> minds p.
Proof.
  intros Hp s pre HI. eapply hwp_mono; [apply Hp|]. intros r s' [] t [HR Ht].
  assert (E : launching (pre ++ t) = launching pre).
  { rewrite launching_app. generalize (launching pre). induction Ht as [|e t [He _] Ht IH]; intros b; [done|].
    cbn [foldl]. by rewrite He. }
  split; [|intros Hl; apply HR, HI; congruence].
  apply guarded_free. eapply List.Forall_impl; [|exact Ht]. by intros e [_ He].
Qed.

Lemma not_pgrep argv : hd "" argv <> "pgrep" -> bool_decide (argv = pgrep_argv) = false.
Proof. intros Ha. apply bool_decide_eq_false_2. intros ->. done. Qed.

Lemma run_neutral argv tmo r : hd "" argv <> "pgrep" -> runs_script STOP argv = false ->
  neutral (Ev (S := host) (RunProc argv tmo) r).
Proof. intros Ha Hs. split; [|by intros []]. intros b. cbn. destruct r; rewrite ?not_pgrep, ?Hs; done. Qed.

(** ** Launching *)

Lemma add_mark s : tid ∈ a_recovering (set_recovering ({[tid]} ∪ a_recovering s) s).
Proof. cbn. set_solver. Qed.

(** The start of the launch script, with no launch under way. *)
Lemma popen_guarded argv pre r : launching pre = false -> guarded_launch pre [Ev (S := host) (Popen argv) r].
Proof. intros Hl. apply guarded_cons; [done|by apply guarded_free]. Qed.
Lemma popen_failed argv pre e : runs_script LAUNCH argv = true ->
  launching (pre ++ [Ev (S := host) (Popen argv) (inr e)]) = false.
Proof. intros Ha. rewrite launching_app. cbn. by rewrite Ha. Qed.

Lemma launch_runs vm_num vcpu mem_mb : runs_script LAUNCH (launch_argv tid vm_num vcpu mem_mb) = true.
Proof. cbn. unfold is_lit. by rewrite (bool_decide_eq_true_2 (tid = tid)) by done. Qed.

Lemma recover_minds cfg : minds (_recover_vm tid cfg).
Proof.
  intros s pre HI. unfold _recover_vm. h_bind. apply hwp_get. cbn [app].
  destruct (decide _) as [|Hn]; [apply hwp_ret; rewrite app_nil_r; split; [by apply guarded_free|done]|].
  assert (Hl : launching pre = false) by (apply not_true_is_false; intros E; by apply Hn, HI).
  h_bind. apply hwp_mod. set (s1 := set_recovering _ s). assert (Hm : tid ∈ a_recovering s1) by apply add_mark.
  assert (Hend : guarded_launch pre [] /\ Inv (pre ++ []) s1) by (split; [by apply guarded_free|by intros _]).
  do 3 (h_bind; apply hwp_lift; destruct (vget_or _ _ _); [cbn [app]|exact Hend..]).
  apply hwp_catch. h_call. intros [[]|e] [] _; cbn beta match.
  - split; [by apply popen_guarded|by intros _].
  - apply hwp_mod. split; [by apply popen_guarded|]. intros Hc. rewrite app_nil_r in Hc. by rewrite popen_failed in Hc by apply launch_runs.
Qed.

Lemma run_false argv tmo r : launch_step false (Ev (S := host) (RunProc argv tmo) r) = false.
Proof. destruct r; cbn; by case_match. Qed.

Lemma force_minds cfg : minds (_force_relaunch_vm tid cfg).
Proof.
  intros s pre HI. unfold _force_relaunch_vm. h_bind. apply hwp_get. cbn [app].
  destruct (decide _) as [|Hn]; [apply hwp_ret; rewrite app_nil_r; split; [by apply guarded_free|done]|].
  assert (Hl : launching pre = false) by (apply not_true_is_false; intros E; by apply Hn, HI).
  h_bind. apply hwp_mod. set (s1 := set_recovering _ s). assert (Hm : tid ∈ a_recovering s1) by apply add_mark.
  assert (Hend : guarded_launch pre [] /\ Inv (pre ++ []) s1) by (split; [by apply guarded_free|by intros _]).
  h_bind; apply hwp_lift; destruct (vget_or _ _ _) as [vm_num| |]; [cbn [app]|exact Hend..].
  do 2 (h_bind; apply hwp_lift; destruct (vget_or _ _ _); [cbn [app]|exact Hend..]).
  apply hwp_catch. h_bind. h_call. intros r [] _.
  set (e := Ev (S := host) (RunProc (stop_argv tid vm_num) (Some 30)) r).
  assert (He : launching (pre ++ [e]) = false) by (rewrite launching_app, Hl; apply run_false).
  assert (Hg : guarded_launch pre [e]) by (apply guarded_free; repeat constructor; intros []).
  destruct r as [p|x]; cbn beta match.
  - h_call. intros r [] _.
    assert (Hg' : guarded_launch pre ([e] ++ [Ev (S := host) (Popen (launch_argv tid vm_num a a0)) r])).
    { apply guarded_app; [done|]. by apply popen_guarded. }
    destruct r as [[]|x]; cbn beta match; [split; [exact Hg'|by intros _]|].
    apply hwp_mod. split; [exact Hg'|]. cbn [app]. intros Hc.
    change (pre ++ [e; ?x]) with (pre ++ [e] ++ [x]) in Hc. rewrite app_assoc, popen_failed in Hc by apply launch_runs. done.
  - apply hwp_mod. split; [exact Hg|]. cbn [app]. intros Hc. by rewrite He in Hc.
Qed.

(** ** Probing *)

Lemma other_script x argv script : x <> tid -> nth 2 argv "" = x -> runs_script script argv = false.
Proof.
  intros Hx Ha. destruct argv as [|a [|b [|c rest]]]; try done. cbn in Ha. subst c. cbn. unfold is_lit.
  by rewrite (bool_decide_eq_false_2 (x = tid)), andb_false_r by done.
Qed.

Lemma popen_neutral argv r : runs_script LAUNCH argv = false -> neutral (Ev (S := host) (Popen argv) r).
Proof. intros Ha. split; [intros b; cbn; by rewrite Ha|]. unfold is_launch. cbn. by rewrite Ha. Qed.

Lemma pgrep_neutral x tmo r : x <> tid ->
  neutral (Ev (S := host) (RunProc ["pgrep"; "-f"; "api-sock " +:+ vm_file x "fc.sock"] tmo) r).
Proof.
  intros Hx. split; [|by intros []]. intros b. cbn. destruct r as [p|e]; [|done].
  rewrite bool_decide_eq_false_2; [done|]. intros E. apply Hx.
  apply (f_equal (fun l => nth 2 l "")) in E. change ("api-sock " +:+ vm_file x "fc.sock" = "api-sock " +:+ vm_file tid "fc.sock") in E.
  by apply (inj (String.append "api-sock ")), vm_file_inj in E.
Qed.

(** What is left of [ignores] at a call or an assignment. *)
Ltac ignored :=
  keeps_calls; try done; first
    [ by apply run_neutral
    | by split; [intros ?|intros []]
    | (unfold keeps_mark; cbn; set_solver)
    | idtac ].

Lemma net_poll_ignored x b : ignores (register_net_poll x b).
Proof. unfold register_net_poll. ignored. Qed.

Lemma force_other x cfg : x <> tid -> ignores (_force_relaunch_vm x cfg).
Proof.
  intros Hx. unfold _force_relaunch_vm, add_recovering, discard_recovering. ignored.
  - apply run_neutral; [done|]. by apply (other_script x).
  - apply popen_neutral. by apply (other_script x).
Qed.

Lemma recover_other x cfg : x <> tid -> ignores (_recover_vm x cfg).
Proof.
  intros Hx. unfold _recover_vm, add_recovering, discard_recovering. ignored.
  apply popen_neutral. by apply (other_script x).
Qed.

Lemma probe_running_minds x cfg ip pid : minds (probe_running x cfg ip pid).
Proof.
  unfold probe_running. apply minds_bind; [apply ignores_minds; unfold ping_vm; ignored|]. intros [].
  - apply ignores_minds. keeps_calls; [apply net_poll_ignored|unfold curl_gateway; ignored].
  - apply minds_bind; [apply ignores_minds, net_poll_ignored|]. intros []; [|apply ignores_minds; ignored].
    apply minds_bind; [|intros _; apply ignores_minds; ignored].
    destruct (decide (x = tid)) as [->|]; [apply force_minds|by apply ignores_minds, force_other].
Qed.

(** Seeing the process of the tenant ends the launch. *)
Lemma seen_minds cfg ip p pid pre s : pgrep_pid p = Some pid ->
  Inv pre s ->
  hwp any_step (_ ← discard_recovering tid; q ← probe_running tid cfg ip pid; mret (Some q)) s tt (fun _ s' _ t =>
    guarded_launch (pre ++ [Ev (S := host) (RunProc pgrep_argv None) (inl p)]) t /\
    Inv ((pre ++ [Ev (S := host) (RunProc pgrep_argv None) (inl p)]) ++ t) s').
Proof.
  intros Hp HI. h_bind. apply hwp_mod. cbn [app].
  apply (minds_bind (probe_running tid cfg ip pid) (fun q => mret (Some q)));
    [apply probe_running_minds|intros q; apply ignores_minds; ignored|].
  intros Hl. rewrite launching_app in Hl. cbn in Hl. rewrite Hp, bool_decide_eq_true_2, bool_decide_eq_true_2 in Hl by done. done.
Qed.

Lemma probe_tenant_minds x : minds (probe_tenant x).
Proof.
  unfold probe_tenant. apply minds_bind; [apply ignores_minds; ignored|]. intros []; cbn [negb]; [|apply ignores_minds; ignored].
  apply minds_bind; [apply ignores_minds; unfold read_vm_config; ignored|]. intros [[cfg ip]|]; [|apply ignores_minds; ignored].
  apply minds_bind; [apply ignores_minds; ignored|]. intros []; [apply ignores_minds; ignored|].
  apply minds_bind; [apply ignores_minds; unfold _is_migrating; ignored|]. intros []; [apply ignores_minds; ignored|].
  destruct (decide (x = tid)) as [->|Hx].
  - intros s pre HI. h_bind. h_call. intros r [] _.
    set (e := Ev (S := host) (RunProc _ _) r).
    assert (Hg : guarded_launch pre [e]) by (apply guarded_free; repeat constructor; intros []).
    destruct r as [p|x]; cbn beta match.
    2: { split; [done|]. intros Hl. rewrite launching_app in Hl. by apply HI. }
    destruct (pgrep_pid p) as [pid|] eqn:Hp.
    + eapply hwp_mono; [by apply (seen_minds cfg ip p pid)|]. intros r s' [] t [Hg' HI'].
      rewrite app_assoc. split; [by apply guarded_app|done].
    + assert (HI' : Inv (pre ++ [e]) s).
      { intros Hl. apply HI. rewrite launching_app in Hl. cbn in Hl. by rewrite Hp, andb_false_r in Hl. }
      eapply hwp_mono; [apply (minds_bind (_recover_vm tid cfg) (fun _ => mret (Some _)));
        [apply recover_minds|intros _; apply ignores_minds; ignored|exact HI']|].
      intros r s' [] t [Hg' HI'']. rewrite app_assoc. split; [by apply guarded_app|done].
  - apply ignores_minds. keeps_calls; try done; [by apply pgrep_neutral|unfold discard_recovering; ignored| |by apply recover_other].
    unfold probe_running, ping_vm, curl_gateway. keeps_calls; try done; try (by apply run_neutral);
      [apply net_poll_ignored..|by apply force_other].
Qed.

Lemma probe_all_minds : minds _probe_all.
Proof.
  unfold _probe_all. apply minds_bind; [apply ignores_minds; ignored|]. intros [entries|]; [|apply ignores_minds; ignored].
  apply minds_fold. intros rs x. unfold probe_all_step. apply minds_bind; [apply probe_tenant_minds|].
  intros p. apply ignores_minds. ignored.
Qed.

(** ** The rest of a poll *)

Lemma enrich_ignores rs : ignores (_enrich_metrics rs).
Proof.
  induction rs as [|[x p] rs IH]; cbn [_enrich_metrics]; [ignored|].
  unfold enrich, metrics_config, _compose_metrics, _sample_cpu_pct, _read_proc_stat_cpu_jiffies,
    _read_proc_status_rss_kb, _get_balloon_stats, _get_disk_usage. ignored.
Qed.

Lemma sync_ignores : ignores _sync_tenant_routes.
Proof.
  unfold _sync_tenant_routes, desired_peers, local_tenants, _scan_projected, _get_ddb, apply_peers, write_peers, reload_nginx,
    count_reload_failure, _mark_ready.
  assert (Hs : forall n t attrs start items, ignores (scan_projected_pages n t attrs start items)).
  { induction n as [|n IH]; intros; cbn [scan_projected_pages]; ignored. }
  ignored.
Qed.

Lemma after_probe_ignores probed : ignores (after_probe probed).
Proof.
  unfold after_probe. keeps_calls; try (by split; [intros ?|intros []]); try (by unfold keeps_mark);
    [apply enrich_ignores|..|apply sync_ignores].
  - unfold _write_ddb, _get_ddb, write_tenant, promote, _read_gateway_token, steady_write, write_due, record_write, mark_promoted.
    ignored.
  - unfold _adjust_balloons, _get_host_mem_info, adjust_balloon, _is_migrating, _get_balloon_stats, _set_balloon_target.
    ignored.
Qed.

Lemma poll_once_minds : minds poll_once.
Proof.
  unfold poll_once. apply minds_bind; [|intros []; apply ignores_minds; ignored].
  apply minds_catch_if; [|intros e; apply ignores_minds; ignored].
  change poll_tasks with (_ ← _write_host_heartbeat; probed ← _probe_all; after_probe probed).
  apply minds_bind; [apply ignores_minds; unfold _write_host_heartbeat, _get_ddb; ignored|]. intros [].
  apply minds_bind; [apply probe_all_minds|]. intros probed. apply ignores_minds, after_probe_ignores.
Qed.

Lemma poll_loop_minds n : minds (_poll_loop n).
Proof.
  induction n as [|n IH]; cbn [_poll_loop]; [apply ignores_minds; ignored|].
  apply minds_bind; [apply poll_once_minds|]. by intros [].
Qed.
End AgentLaunch.

(** ** Property *)

(** C12: over any number of polls of a freshly started agent, on any host, the
    launch script of a tenant is never started while a launch of that tenant is
    under way, that is since the last launch without its Firecracker process
    having been seen, nor one of its scripts having failed to start. *)
Theorem one_launch_at_a_time `{AgentConfig} (tid : string) (n : nat) :
  hawp (_poll_loop n) agent_start (fun _ _ t => forall t1 e t2,
    t = t1 ++ e :: t2 -> is_launch tid e -> launching tid t1 = false).
Proof.
  eapply hwp_mono; [apply (poll_loop_minds tid n agent_start [])|].
  - by intros Hl.
  - intros r s [] t [Hg _]. exact Hg.
Qed.
