(* ===== verification/AgentReport.v ===== *)
(** * The host agent: reporting

    Every tenant probed in a tick is reported to DynamoDB, was reported
    recently enough, or could not be; and a poll changes nothing in the tables
    but the attributes it reports and the status of a tenant being created. *)

From Stdlib Require Import SpecFloat.
From S2P Require Import Prelude Py PyNum Effects Aws Ddb Config Health HostCalls Agent AgentMetrics PeerMap AgentLoop AgentEnds.

Lemma mid_elem {A} (x : A) l l' : x ∈ l ++ x :: l'.
Proof. set_solver. Qed.

Section Report.
Context `{AgentConfig}.

(** ** Liveness of the reports *)

(** The health of the tenant was written, stamped with this tick. *)
Definition reported (now tid : string) (info : probe) (t : list hev) : Prop :=
  exists acts c x, Ev (S := host) (Ddb (UpdateItem Tenants tid acts c RvNone)) (inl x) ∈ t /\
    SET "vm_health" (Lit (VStr (vm_health info))) ∈ acts /\
    SET "app_health" (Lit (VStr (app_health info))) ∈ acts /\
    SET "last_health_check" (Lit (VStr now)) ∈ acts.

(** The same health was written less than the refresh interval ago. *)
Definition fresh (s : agent) (tid : string) (info : probe) (t : list hev) : Prop :=
  exists ts now, a_last_ddb_write s !! tid = Some (vm_health info, app_health info, ts) /\
    Ev (S := host) Monotonic (inl now) ∈ t /\ fge_int (fsub now ts) _DDB_REFRESH = false.

(** The write was refused by the service, or the gateway of a tenant that is
    not known to be past its creation gave no token. *)
Definition excused (tid : string) (info : probe) (t : list hev) : Prop :=
  (exists acts c e, Ev (S := host) (Ddb (UpdateItem Tenants tid acts c RvNone)) (inr e) ∈ t /\
     (c = None \/ exn_code e <> Some "ConditionalCheckFailedException")) \/
  (exists r, Ev (S := host) (RunProc (ssh_argv (guest_ip info)) (Some 10)) r ∈ t /\
     match r with inl p => strip (stdout p) = "" \/ strip (stdout p) = "null" | inr _ => True end).

Definition served (s : agent) (now tid : string) (info : probe) (t : list hev) : Prop :=
  reported now tid info t \/ fresh s tid info t \/ excused tid info t.

Lemma served_mono s s' now tid info t t' :
  t ⊆ t' -> a_last_ddb_write s' !! tid = a_last_ddb_write s !! tid ->
  served s now tid info t -> served s' now tid info t'.
Proof.
  intros Ht Hs. intros [(acts & c & x & ? & ?)|[(ts & n & ? & ? & ?)|[(acts & c & e & ? & ?)|(r & ? & ?)]]].
  - left. exists acts, c, x. split; [by apply Ht|done].
  - right. left. exists ts, n. rewrite Hs. split; [done|]. split; [by apply Ht|done].
  - right. right. left. exists acts, c, e. split; [by apply Ht|done].
  - right. right. right. exists r. split; [by apply Ht|done].
Qed.

Lemma health_reported now tid info c x t :
  Ev (S := host) (Ddb (UpdateItem Tenants tid (health_actions info now) c RvNone)) (inl x) ∈ t ->
  reported now tid info t.
Proof. intros Ht. exists (health_actions info now), c, x. unfold health_actions. split; [done|]. cbn. set_solver. Qed.

Definition keeps_others (tid : string) (s s' : agent) : Prop :=
  forall x, x <> tid -> a_last_ddb_write s' !! x = a_last_ddb_write s !! x.
#[export] Instance keeps_others_preorder tid : PreOrder (keeps_others tid).
Proof. unfold keeps_others. split; [done|]. intros s1 s2 s3 H1 H2 x Hx. rewrite H2, H1; done. Qed.

(** A clock, or the DynamoDB client, was not available. *)
Definition clock_failed (t : list hev) : Prop :=
  exists e, Ev (S := host) Monotonic (inr e) ∈ t \/ Ev (S := host) UtcNow (inr e) ∈ t \/
    exists region, Ev (S := host) (DdbResource region) (inr e) ∈ t.

Lemma clock_failed_mono t t' : t ⊆ t' -> clock_failed t -> clock_failed t'.
Proof.
  intros Ht (e & [He|[He|[region He]]]); exists e; [left; by apply Ht|right; left; by apply Ht|].
  right. right. exists region. by apply Ht.
Qed.

Lemma steady_served now tid info s :
  hwp any_step (steady_write tid info now) s tt (fun r s' _ t =>
    keeps_others tid s s' /\ (r = Ok tt /\ served s now tid info t \/ clock_failed t)).
Proof.
  unfold steady_write. h_bind. unfold write_due at 1. h_bind. apply hwp_get. cbn [app].
  assert (Hdue : forall t0, hwp any_step (tryA_ (_ ← host_do (Ddb (UpdateItem Tenants tid (health_actions info now) None RvNone));
           record_write tid info) except _ => mret tt) s tt (fun r s' _ t =>
    keeps_others tid s s' /\ (r = Ok tt /\ served s now tid info (t0 ++ t) \/ clock_failed (t0 ++ t)))).
  { intros t0. apply hwp_catch. h_bind. h_call. intros [x|e] [] _; cbn beta match.
    - assert (Hrep : forall t, served s now tid info (t0 ++
        [Ev (S := host) (Ddb (UpdateItem Tenants tid (health_actions info now) None RvNone)) (inl x)] ++ t)).
      { intros t. left. eapply health_reported, mid_elem. }
      unfold record_write. h_bind. h_call. intros [m|e] [] _; cbn beta match.
      + apply hwp_mod. split; [intros y Hy; cbn; by rewrite lookup_insert_ne|]. left. split; [done|apply Hrep].
      + apply hwp_ret. split; [done|]. left. split; [done|]. rewrite app_nil_r. apply Hrep.
    - apply hwp_ret. split; [done|]. left. split; [done|]. right. right. left.
      eexists _, None, e. split; [apply mid_elem|by left]. }
  destruct (a_last_ddb_write s !! tid) as [[[vh ah] ts]|] eqn:Hl; [|apply (hwp_ret _ true); cbn [negb]; apply Hdue].
  destruct (negb _ || negb _) eqn:Hch; [apply (hwp_ret _ true); cbn [negb]; apply Hdue|].
  apply orb_false_iff in Hch as [->%negb_false_iff%bool_decide_eq_true ->%negb_false_iff%bool_decide_eq_true].
  h_bind. h_call. intros [m|e] [] _; cbn beta match; [|split; [done|]; right; exists e; left; left].
  apply hwp_ret. destruct (fge_int (fsub m ts) _DDB_REFRESH) eqn:Hge; cbn [negb]; [apply Hdue|].
  apply hwp_ret. split; [done|]. left. split; [done|]. right. left. exists ts, m. split; [done|]. split; [left|done].
Qed.

Lemma promote_served now tid info s :
  hwp any_step (promote tid info now) s tt (fun r s' _ t =>
    keeps_others tid s s' /\ (r = Ok false /\ served s now tid info t \/ r = Ok true /\ a_last_ddb_write s' = a_last_ddb_write s)).
Proof.
  unfold promote. h_bind.
  set (ready (t : list hev) := exists r, Ev (S := host) (RunProc (ssh_argv (guest_ip info)) (Some 10)) r ∈ t /\
     match r with inl p => strip (stdout p) = "" \/ strip (stdout p) = "null" | inr _ => True end).
  assert (Htok : hwp any_step (_read_gateway_token (guest_ip info)) s tt (fun r s' _ t =>
    s' = s /\ exists tok, r = Ok tok /\ (tok = "" -> ready t))).
  { unfold _read_gateway_token. apply hwp_catch. h_bind. h_call. intros [p|e] [] _; cbn beta match; apply hwp_ret;
      (split; [done|]); eexists; (split; [done|]); intros Ht; eexists; (split; [left|]); [|done].
    destruct (bool_decide_reflect (strip (stdout p) = "null")); auto. }
  eapply hwp_mono; [apply Htok|]. intros r s' [] t0 (-> & tok & -> & Htok'). clear Htok.
  destruct (bool_decide_reflect (tok = "")) as [->|Hne].
  { apply hwp_ret. rewrite app_nil_r. split; [done|]. left. split; [done|]. right. right. right. by apply Htok'. }
  set (call_ := Ddb (UpdateItem Tenants tid (promote_actions info now tok) (Some promote_cond) RvNone)).
  apply hwp_catch, hwp_catch_if. h_bind. h_call. intros [x|e] [] _; cbn beta match.
  - assert (Hrep : forall t, reported now tid info (t0 ++ Ev (S := host) call_ (inl x) :: t)).
    { intros t. eexists _, _, x. split; [apply mid_elem|]. unfold promote_actions. set_solver. }
    h_bind. apply hwp_mod. cbn [app]. h_bind. unfold record_write. h_bind. h_call. intros [m|e] [] _; cbn beta match.
    + apply hwp_mod. apply hwp_ret. split; [intros y Hy; cbn; by rewrite lookup_insert_ne|]. left. split; [done|]. left. apply Hrep.
    + destruct (bool_decide _); cbn beta match.
      * h_bind. apply hwp_mod. apply hwp_ret. split; [done|by right].
      * apply hwp_ret. split; [done|]. left. split; [done|]. left. rewrite app_nil_r. apply Hrep.
  - destruct (bool_decide_reflect (exn_code e = Some "ConditionalCheckFailedException")) as [|Hne']; cbn beta match.
    + h_bind. apply hwp_mod. apply hwp_ret. split; [done|by right].
    + apply hwp_ret. split; [done|]. left. split; [done|]. right. right. left.
      eexists _, _, e. split; [apply mid_elem|by right].
Qed.

Lemma tenant_served now tid info s :
  hwp any_step (write_tenant now tid info) s tt (fun r s' _ t =>
    keeps_others tid s s' /\ (r = Ok tt /\ served s now tid info t \/ clock_failed t)).
Proof.
  unfold write_tenant. h_bind. apply hwp_get. cbn [app]. h_bind.
  destruct (_ && _).
  - eapply hwp_mono; [apply promote_served|]. intros r s' [] t (Hk & [[-> Hf]|[-> Ht]]); cbn beta match.
    { apply hwp_ret. rewrite app_nil_r. split; [done|]. by left. }
    eapply hwp_mono; [apply steady_served|]. intros r s'' [] t' [Hk' Hs]. split; [by etrans|].
    destruct Hs as [[-> Hs]|Hs]; [left; split; [done|]|right; eapply clock_failed_mono; [|exact Hs]; set_solver].
    eapply served_mono; [|by rewrite Ht|exact Hs]. set_solver.
  - apply hwp_ret. apply steady_served.
Qed.

Lemma tenants_served now rs s :
  NoDup (map fst rs) ->
  hwp any_step (act_for rs (fun x => write_tenant now x.1 x.2)) s tt (fun r s' _ t =>
    (r = Ok tt /\ forall tid info, (tid, info) ∈ rs -> served s now tid info t) \/ clock_failed t).
Proof.
  revert s. induction rs as [|[x p] rs IH]; intros s Hnd; cbn [act_for].
  { apply hwp_ret. left. split; [done|]. intros tid info Hin. by apply elem_of_nil in Hin. }
  cbn [map fst] in Hnd. inversion Hnd as [|? ? Hx Hnd']; subst.
  apply hwp_bind. eapply hwp_mono; [apply tenant_served|]. intros r s' [] t [Hk [[-> Hs]|Hc]]; cbn beta match.
  2: { destruct r as [[]|e|]; [|by right..]. eapply hwp_mono; [by apply (IH s')|]. intros r s'' [] t' _. right.
       eapply clock_failed_mono; [|exact Hc]. set_solver. }
  eapply hwp_mono; [apply (IH s' Hnd')|]. intros r s'' [] t' [[-> Hs']|Hc].
  2: { right. eapply clock_failed_mono; [|exact Hc]. set_solver. }
  left. split; [done|]. intros tid info [[= -> ->]|Hin]%elem_of_cons.
  - eapply served_mono; [|done|by apply Hs]. set_solver.
  - eapply served_mono; [| |by apply Hs']; [set_solver|]. symmetry. apply Hk. intros ->.
    apply Hx. apply (list_elem_of_fmap_2 fst _ _ Hin).
Qed.

Lemma get_ddb_client s : hwp any_step _get_ddb s tt (fun r s' _ t =>
  a_last_ddb_write s' = a_last_ddb_write s /\ (r = Ok tt \/ r <> Ok tt /\ clock_failed t)).
Proof.
  unfold _get_ddb. h_bind. apply hwp_get. destruct (a_ddb s); [apply hwp_ret; split; [done|by left]|].
  assert (Hc : forall region, hwp any_step (_ ← host_do (DdbResource region); act_mod (set_ddb (Some region))) s tt
    (fun r s' _ t => a_last_ddb_write s' = a_last_ddb_write s /\ (r = Ok tt \/ r <> Ok tt /\ clock_failed t))).
  { intros region. h_bind. h_call. intros [[]|e] [] _; cbn beta match; [apply hwp_mod; split; [done|by left]|].
    split; [done|]. right. split; [done|]. exists e. right. right. exists region. left. }
  assert (Hmono : forall region t0, hwp any_step (_ ← host_do (DdbResource region); act_mod (set_ddb (Some region))) s tt
    (fun r s' _ t => a_last_ddb_write s' = a_last_ddb_write s /\ (r = Ok tt \/ r <> Ok tt /\ clock_failed (t0 ++ t)))).
  { intros region t0. eapply hwp_mono; [apply Hc|]. intros r s' [] t [? [?|[Hr Hf]]]; (split; [done|]); [by left|right]. split; [done|].
    eapply clock_failed_mono; [|exact Hf]. set_solver. }
  h_bind. apply hwp_catch. h_bind. h_call. intros [tok|e] [] _; cbn beta match; [|apply hwp_ret; apply Hmono].
  h_call. intros [region|e] [] _; cbn beta match; [apply Hmono|]. apply hwp_ret. apply Hmono.
Qed.

(** C19: the liveness of the health reports: unless a clock or the client is not
    available, a tick completes and has, for every tenant probed, written its
    health stamped with this tick, unless the same health was written less than
    the refresh interval ago, or DynamoDB refused the write, or the gateway of
    a tenant being created is not ready; what is remembered of tenants that are
    gone is forgotten; and the refresh interval, whatever is configured, is
    shorter than the time after which the health check calls a tenant stale. *)
Theorem reports_every_tenant (s : agent) (rs : results) :
  TENANTS_TABLE <> "" -> NoDup (map fst rs) ->
  hawp (_write_ddb rs) s (fun r s' t => clock_failed t \/ r = Ok tt /\
    (forall tid info, (tid, info) ∈ rs -> exists now, served s now tid info t /\ Ev (S := host) UtcNow (inl now) ∈ t) /\
    (forall tid, is_Some (a_last_ddb_write s' !! tid) \/ tid ∈ a_promoted s' -> tid ∈ map fst rs)) /\
  _DDB_REFRESH < STALE_SECONDS.
Proof.
  intros Ht Hnd. split; [|unfold _DDB_REFRESH, STALE_SECONDS; lia].
  unfold hawp, _write_ddb. rewrite bool_decide_eq_false_2 by done. destruct rs as [|x rs].
  { apply hwp_mod. right. split; [done|]. split; [intros tid info Hin; by apply elem_of_nil in Hin|].
    cbn. intros tid [[? Hl]|Hp]; [by rewrite lookup_empty in Hl|set_solver]. }
  set (l := x :: rs) in *. h_bind. eapply hwp_mono; [apply get_ddb_client|]. intros r s1 [] t1 [Hl [->|Hc]]; cbn beta match.
  2: { destruct Hc as [Hr Hc]. destruct r as [[]|e|]; [done|by left..]. }
  h_bind. h_call. intros [now|e] [] _; cbn beta match.
  2: { left. exists e. right. left. set_solver. }
  h_bind. eapply hwp_mono; [by apply (tenants_served now l s1)|]. intros r s2 [] t2 [[-> Hs]|Hc]; cbn beta match.
  2: { assert (clock_failed (t1 ++ [Ev (S := host) UtcNow (inl now)] ++ t2)) by (eapply clock_failed_mono; [|exact Hc]; set_solver).
       destruct r as [[]|e|]; [apply hwp_mod; left; by rewrite app_nil_r|by left..]. }
  apply hwp_mod. right. split; [done|]. split.
  - intros tid info Hin. exists now. split; [|set_solver].
    eapply served_mono; [| |by apply Hs]; [set_solver|by rewrite Hl].
  - cbn. intros tid [[? [_ Hin]%map_lookup_filter_Some]|[_ Hin]%elem_of_intersection]; cbn in *; set_solver.
Qed.
End Report.

(** ** What a poll changes in the tables *)

(** The documented behaviour of DynamoDB, which may also refuse a call; nothing
    is assumed of the host. *)
Definition host_step (c : op host) (d : db) : (reply host c + exn) -> db -> Prop :=
  match c return (host_reply c + exn) -> db -> Prop with
  | Ddb c => fun r d' => dynamo_step c d r d' \/ (exists e, r = inr e /\ d' = d)
  | _ => fun _ d' => d' = d
  end.

(** The attributes the agent reports. *)
Definition TENANT_REPORT : list string :=
  ["status"; "vm_health"; "app_health"; "health_failures"; "last_health_check"; "updated_at"; "gateway_token"; "metrics"].
Definition HOST_REPORT : list string := ["last_seen"; "last_health_check"].

Definition same_but (attrs : list string) (row row' : item) : Prop :=
  forall k, k ∉ attrs -> row' !! k = row !! k.

(** A status stays, or goes from [creating] to [running]. *)
Definition status_kept (row row' : item) : Prop :=
  row' !! "status" = row !! "status" \/
  (row !! "status" = Some (VStr "creating") /\ row' !! "status" = Some (VStr "running")).

(** A row that holds nothing but a report: the key it was written at and
    attributes that the agent reports, and no status. *)
Definition only_report (t : table) (key : string) (attrs : list string) (row : item) : Prop :=
  row !! key_attr t = Some (VStr key) /\ row !! "status" = None /\
  forall k, k <> key_attr t -> k ∉ attrs -> row !! k = None.

#[export] Instance same_but_preorder attrs : PreOrder (same_but attrs).
Proof. unfold same_but. split; [done|]. intros r1 r2 r3 H1 H2 k Hk. by rewrite H2, H1. Qed.

Section ReportsOnly.
Context `{AgentConfig}.

(** What a poll may change: reported attributes of the rows that exist, and rows
    that hold a report alone - of a tenant whose row is gone, as the update of a
    missing row creates it, or of this host. *)
Definition reports_only (d d' : db) : Prop :=
  (forall tid row, db_get d Tenants tid = Some row ->
     exists row', db_get d' Tenants tid = Some row' /\ same_but TENANT_REPORT row row' /\ status_kept row row') /\
  (forall i row, db_get d Hosts i = Some row ->
     exists row', db_get d' Hosts i = Some row' /\ same_but HOST_REPORT row row') /\
  (forall tid row', db_get d Tenants tid = None -> db_get d' Tenants tid = Some row' ->
     only_report Tenants tid TENANT_REPORT row') /\
  (forall i row', db_get d Hosts i = None -> db_get d' Hosts i = Some row' ->
     i = INSTANCE_ID /\ only_report Hosts i HOST_REPORT row') /\
  db_rows d' Groups = db_rows d Groups /\ db_rows d' Audit = db_rows d Audit.

Lemma only_report_then t key attrs row row' :
  key_attr t ∉ attrs -> only_report t key attrs row -> same_but attrs row row' -> row' !! "status" = None ->
  only_report t key attrs row'.
Proof.
  intros Hka (Hk & _ & Hn) Hs Hst. split; [by rewrite Hs|]. split; [done|]. intros k Hne Hk'. rewrite Hs by done. by apply Hn.
Qed.

#[export] Instance reports_only_preorder : PreOrder reports_only.
Proof.
  split.
  - intros d. unfold reports_only. split_and!; try done; [..|intros ? ? ->; congruence|intros ? ? ->; congruence];
      intros k row Hk; exists row; repeat split; by try left.
  - intros d1 d2 d3 (T1 & H1 & NT1 & NH1 & G1 & A1) (T2 & H2 & NT2 & NH2 & G2 & A2).
    unfold reports_only. split_and!; [..|congruence|congruence].
    + intros tid row Hrow. destruct (T1 _ _ Hrow) as (row2 & Hrow2 & S2 & K2).
      destruct (T2 _ _ Hrow2) as (row3 & Hrow3 & S3 & K3). exists row3. split; [done|]. split; [by etrans|].
      unfold status_kept in *. destruct K2 as [K2|[K2 K2']], K3 as [K3|[K3 K3']]; try (left; congruence); right; split; congruence.
    + intros i row Hrow. destruct (H1 _ _ Hrow) as (row2 & Hrow2 & S2).
      destruct (H2 _ _ Hrow2) as (row3 & Hrow3 & S3). exists row3. split; [done|by etrans].
    + intros tid row' Hno Hrow'. destruct (db_get d2 Tenants tid) as [row2|] eqn:E2; [|by apply NT2].
      specialize (NT1 tid row2 Hno E2). destruct (T2 _ _ E2) as (row3 & Hrow3 & S3 & K3).
      assert (row3 = row') as -> by congruence. eapply only_report_then; [|exact NT1|exact S3|].
      * by apply (bool_decide_eq_true_1 (_ ∉ _)).
      * destruct NT1 as (_ & Hst & _). destruct K3 as [->|[K3 _]]; [done|congruence].
    + intros i row' Hno Hrow'. destruct (db_get d2 Hosts i) as [row2|] eqn:E2; [|by apply NH2].
      destruct (NH1 i row2 Hno E2) as [-> NH1']. split; [done|]. destruct (H2 _ _ E2) as (row3 & Hrow3 & S3).
      assert (row3 = row') as -> by congruence. eapply only_report_then; [|exact NH1'|exact S3|].
      * by apply (bool_decide_eq_true_1 (_ ∉ _)).
      * rewrite S3; [by destruct NH1' as (_ & Hst & _)|by apply (bool_decide_eq_true_1 (_ ∉ _))].
Qed.
End ReportsOnly.

(** Assigning literal values changes the attributes assigned. *)
Lemma apply_sets old acts : forall new new',
  Forall (fun a => exists k v, a = SET k (Lit v)) acts ->
  apply_actions old acts new = Ok new' -> forall k, k ∉ touched acts -> new' !! k = new !! k.
Proof.
  induction acts as [|a acts IH]; intros new new' Hl; cbn [apply_actions touched map]; [by intros [= ->]|].
  inversion Hl as [|? ? (j & v & ->) Hl']; subst. cbn. intros E k Hk.
  rewrite (IH _ _ Hl' E) by set_solver. rewrite lookup_insert_ne; [done|set_solver].
Qed.

Lemma db_get_updated d t m t' k : db_get (db_set d t m) t' k = if decide (t' = t) then m !! k else db_get d t' k.
Proof. unfold db_get, db_set. cbn. by destruct (decide _). Qed.

Section Tables.
Context `{AgentConfig}.

(** An update that changes an existing row in a reported way only. *)
Definition row_reported (t : table) (row new : item) : Prop :=
  match t with
  | Tenants => same_but TENANT_REPORT row new /\ status_kept row new
  | Hosts => same_but HOST_REPORT row new
  | Groups | Audit => False
  end.

Definition row_new (t : table) (key : string) (new : item) : Prop :=
  match t with
  | Tenants => only_report Tenants key TENANT_REPORT new
  | Hosts => key = INSTANCE_ID /\ only_report Hosts key HOST_REPORT new
  | Groups | Audit => False
  end.

Lemma update_reports t key acts c d r d' :
  t = Tenants \/ t = Hosts ->
  (forall row new, update_row t key acts c (Some row) = Ok new -> row_reported t row new) ->
  (forall new, update_row t key acts c None = Ok new -> row_new t key new) ->
  host_step (Ddb (UpdateItem t key acts c RvNone)) d r d' -> reports_only d d'.
Proof.
  intros Ht Hrow Hnew [Hstep|(e & _ & ->)]; [|reflexivity]. cbn in Hstep.
  destruct (update_row t key acts c (db_get d t key)) as [new|e|] eqn:Hu; [|by destruct Hstep as [_ ->]|done].
  destruct Hstep as [_ ->].
  assert (Hother : forall t' k, (t', k) <> (t, key) ->
    db_get (db_set d t (<[key := new]> (db_rows d t))) t' k = db_get d t' k).
  { intros t' k Hne. rewrite db_get_updated. destruct (decide (t' = t)) as [->|]; [|done].
    rewrite lookup_insert_ne; [done|congruence]. }
  assert (Hkey : db_get (db_set d t (<[key := new]> (db_rows d t))) t key = Some new)
    by (rewrite db_get_updated, decide_True by done; by rewrite lookup_insert_eq).
  unfold reports_only. split_and!.
  - intros tid row Hk. destruct (decide ((Tenants, tid) = (t, key))) as [[= <- <-]|Hne].
    + rewrite Hk in Hu. destruct (Hrow _ _ Hu) as [? ?]. eauto.
    + exists row. split; [by rewrite Hother|]. split; [done|by left].
  - intros i row Hk. destruct (decide ((Hosts, i) = (t, key))) as [[= <- <-]|Hne].
    + rewrite Hk in Hu. pose proof (Hrow _ _ Hu). eauto.
    + exists row. split; [by rewrite Hother|done].
  - intros tid row' Hno Hk. destruct (decide ((Tenants, tid) = (t, key))) as [[= <- <-]|Hne]; [|rewrite Hother in Hk; congruence].
    rewrite Hno in Hu. rewrite Hkey in Hk. injection Hk as <-. exact (Hnew _ Hu).
  - intros i row' Hno Hk. destruct (decide ((Hosts, i) = (t, key))) as [[= <- <-]|Hne]; [|rewrite Hother in Hk; congruence].
    rewrite Hno in Hu. rewrite Hkey in Hk. injection Hk as <-. exact (Hnew _ Hu).
  - unfold db_set. cbn. rewrite decide_False; [done|]. destruct Ht; congruence.
  - unfold db_set. cbn. rewrite decide_False; [done|]. destruct Ht; congruence.
Qed.

Ltac literal_sets := repeat (constructor; [eexists _, _; reflexivity|]); try constructor.

Lemma heartbeat_reported ts row new :
  update_row Hosts INSTANCE_ID [SET "last_seen" (Lit (VStr ts)); SET "last_health_check" (Lit (VStr ts))] None (Some row) = Ok new ->
  row_reported Hosts row new.
Proof. intros Hu k Hk. cbn in Hu. injection Hu as <-. unfold HOST_REPORT in Hk. rewrite !lookup_insert_ne by set_solver. done. Qed.

Lemma heartbeat_new ts new :
  update_row Hosts INSTANCE_ID [SET "last_seen" (Lit (VStr ts)); SET "last_health_check" (Lit (VStr ts))] None None = Ok new ->
  row_new Hosts INSTANCE_ID new.
Proof.
  intros Hu. cbn in Hu. injection Hu as <-. split; [done|]. split; [done|]. split; [done|].
  intros k Hne Hk. unfold HOST_REPORT in Hk. cbn in Hne. rewrite !lookup_insert_ne by set_solver. apply lookup_empty.
Qed.

Lemma health_row tid info now old new :
  update_row Tenants tid (health_actions info now) None old = Ok new ->
  forall k, k ∉ ["vm_health"; "app_health"; "last_health_check"; "metrics"] -> new !! k = base_item Tenants tid old !! k.
Proof.
  intros Hu k Hk. unfold update_row in Hu. cbn [cond_holds] in Hu. eapply apply_sets; [|exact Hu|].
  - unfold health_actions. destruct (reported_metrics info); literal_sets.
  - unfold health_actions. destruct (reported_metrics info); cbn; set_solver.
Qed.

Lemma health_row_reported tid info now row new :
  update_row Tenants tid (health_actions info now) None (Some row) = Ok new -> row_reported Tenants row new.
Proof.
  intros Hu. pose proof (health_row _ _ _ _ _ Hu) as Hs. cbn in Hs.
  split; [|left; apply Hs; set_solver]. intros k Hk. apply Hs. unfold TENANT_REPORT in Hk. set_solver.
Qed.

Lemma health_row_new tid info now new :
  update_row Tenants tid (health_actions info now) None None = Ok new -> row_new Tenants tid new.
Proof.
  intros Hu. pose proof (health_row _ _ _ _ _ Hu) as Hs. cbn in Hs. split; [rewrite Hs; [done|set_solver]|].
  split; [rewrite Hs; [done|set_solver]|]. intros k Hne Hk. rewrite Hs by (unfold TENANT_REPORT in Hk; set_solver).
  cbn in Hne. by rewrite lookup_insert_ne.
Qed.

Lemma promote_row_reported tid info now tok row new :
  update_row Tenants tid (promote_actions info now tok) (Some promote_cond) (Some row) = Ok new ->
  row_reported Tenants row new.
Proof.
  unfold update_row. destruct (cond_holds _ _) eqn:Hc; [|done]. intros Hu. split.
  - intros k Hk. eapply apply_sets; [|exact Hu|].
    + unfold promote_actions. literal_sets.
    + unfold TENANT_REPORT in Hk. cbn. set_solver.
  - right. cbn in Hc. unfold cmp in Hc. cbn in Hc. split.
    + destruct (row !! "status") as [v|]; [|done]. apply val_eqb_eq in Hc. by subst.
    + unfold promote_actions in Hu. cbn in Hu. injection Hu as <-. by simplify_map_eq.
Qed.

Lemma promote_row_new tid info now tok new :
  update_row Tenants tid (promote_actions info now tok) (Some promote_cond) None = Ok new -> row_new Tenants tid new.
Proof. done. Qed.

Abbreviation reports := (preserves (S := host) (St := agent) host_step reports_only).

Ltac reports_calls := preserves_calls; try (match goal with Hs : host_step _ _ _ _ |- _ => cbn in Hs; by subst end).

Lemma sync_reports : reports _sync_tenant_routes.
Proof.
  unfold _sync_tenant_routes, desired_peers, local_tenants, _scan_projected, _get_ddb, apply_peers, write_peers, reload_nginx,
    count_reload_failure, _mark_ready.
  assert (Hs : forall n t attrs start items, reports (scan_projected_pages n t attrs start items)).
  { induction n as [|n IH]; intros; cbn [scan_projected_pages]; reports_calls. apply IH. }
  reports_calls; apply Hs.
Qed.

Lemma probe_reports : reports _probe_all.
Proof.
  unfold _probe_all, probe_all_step, probe_tenant, read_vm_config, _is_migrating, _recover_vm, discard_recovering, add_recovering,
    probe_running, ping_vm, curl_gateway, register_net_poll, _force_relaunch_vm, discard_recovering, add_recovering.
  reports_calls.
Qed.

Lemma enrich_reports rs : reports (_enrich_metrics rs).
Proof.
  induction rs as [|[x p] rs IH]; cbn [_enrich_metrics]; [reports_calls|].
  unfold enrich, metrics_config, _compose_metrics, _sample_cpu_pct, _read_proc_stat_cpu_jiffies,
    _read_proc_status_rss_kb, _get_balloon_stats, _get_disk_usage. reports_calls. apply IH.
Qed.

Lemma write_ddb_reports rs : reports (_write_ddb rs).
Proof.
  unfold _write_ddb, _get_ddb, write_tenant, promote, _read_gateway_token, steady_write, write_due, record_write, mark_promoted.
  reports_calls; (eapply update_reports; [by left|..|done]);
    [intros row new; apply promote_row_reported|apply promote_row_new|intros row new; apply health_row_reported|apply health_row_new].
Qed.

Lemma poll_reports : reports poll_once.
Proof.
  unfold poll_once, poll_tasks. reports_calls.
  - unfold _write_host_heartbeat, _get_ddb. reports_calls.
    eapply update_reports; [by right|apply heartbeat_reported|apply heartbeat_new|done].
  - apply probe_reports.
  - apply enrich_reports.
  - apply write_ddb_reports.
  - unfold _adjust_balloons, _get_host_mem_info, adjust_balloon, _is_migrating, _get_balloon_stats, _set_balloon_target.
    reports_calls.
  - apply sync_reports.
Qed.

(** C11: whatever the host answers, a poll of the agent raises nothing of its own -
    it ends normally, unless the sleep at its end raises or a scan is answered
    by as many pages announcing another one as the bound on them - and changes,
    in the rows of the control plane, nothing but the health it reports: a
    tenant keeps its host, its size, and its status unless that was [creating]
    and becomes [running]; a host keeps its counters; and a row that was not
    there holds the report alone - that of a tenant without status or host, or
    that of the agent's own host. *)
Theorem agent_only_reports {W} (E : env host W) (view : W -> db) (w : W) (s : agent) :
  (forall text, json_load text <> NoFuel) ->
  obeys (S := host) host_step view E ->
  exists r s' w' t, run E (poll_once s) w = (Ok (r, s'), w', t) /\ poll_end r t /\ reports_only (view w) (view w').
Proof.
  intros Hj HE.
  destruct (run_hwp host_step view E poll_once s w (fun _ _ d' _ => reports_only (view w) d') HE) as (r & s' & w' & t & Hr & Hd);
    [apply poll_reports|].
  destruct (run_hwp any_step (fun _ => tt) E poll_once s w (fun r _ _ t => poll_end r t)) as (r2 & s2 & w2 & t2 & Hr2 & Hp);
    [by intros c x|by apply poll_ends|].
  exists r, s', w', t. split; [done|]. rewrite Hr in Hr2. injection Hr2 as <- <- <- <-. by split.
Qed.
End Tables.

(** ** Witness *)

Definition sample_agent_config : AgentConfig := {|
  agent_repr_float := fun _ => "0.0";
  json_load := fun s => if bool_decide (s = "cfg") then Ok (VDict [("guest_ip", VStr "172.16.1.2"); ("vm_num", VInt 1)])
                        else value_error "not JSON";
  sha256_hex := fun s => s;
  agent_scan_fuel := 64;
  POLL_INTERVAL := 15;
  TENANTS_TABLE := "tenants";
  HOSTS_TABLE := "hosts";
  INSTANCE_ID := "i-1";
  MIGRATION_SENTINEL_TTL := 900;
  OC_AGENT_DDB_REFRESH := 60;
  OC_ROUTE_SYNC_INTERVAL := 60;
  READY_DIR := "/run/openclaw";
  AGENT_BALLOON_ENABLED := false;
  BALLOON_MAX_INFLATE_RATIO := S754_finite false 7205759403792794 (-54);
  BALLOON_MIN_GUEST_AVAILABLE_MB := 512;
  CLK_TCK := 100
|}.

Lemma reports_every_tenant_witness :
  let _ := sample_agent_config in
  let rs := [("t1", Probe "up" "up" (VStr "172.16.1.2") (Some 4242) None None); ("t2", Probe "down" "down" (VStr "172.16.1.6") None None None)] in
  hawp (_write_ddb rs) agent_start (fun r s' t => clock_failed t \/ r = Ok tt /\
    (forall tid info, (tid, info) ∈ rs -> exists now, served agent_start now tid info t /\ Ev (S := host) UtcNow (inl now) ∈ t) /\
    (forall tid, is_Some (a_last_ddb_write s' !! tid) \/ tid ∈ a_promoted s' -> tid ∈ map fst rs)) /\
  _DDB_REFRESH < STALE_SECONDS.
Proof.
  cbn zeta. apply (reports_every_tenant (H := sample_agent_config)).
  - done.
  - vm_decide.
Defined.

Definition agent_db : db :=
  Db (fun t => match t with
     | Tenants => {["t1" := {["id" := VStr "t1"; "status" := VStr "creating"; "host_id" := VStr "i-1"]} : item]}
     | Hosts => {["i-1" := {["instance_id" := VStr "i-1"; "used_vcpu" := VInt 2]} : item]}
     | _ => ∅ end).

(** A host with one VM, every command of which succeeds. *)
Definition sample_host_env : env host mem := fun c w =>
  match c return (host_reply c + exn) * mem with
  | Ddb c => mem_env 4 no_service c w
  | ImdsToken => (inl "token", w)
  | ImdsRegion _ => (inl "us-west-2", w)
  | DdbResource _ => (inl tt, w)
  | ListDir p => (if bool_decide (p = VM_DIR) then inl ["t1"] else inr (PyExn "FileNotFoundError" p), w)
  | IsFile _ => (inl true, w)
  | PathExists _ => (inl false, w)
  | GetMtime p => (inr (PyExn "FileNotFoundError" p), w)
  | ReadFile p => (if bool_decide (p = vm_file "t1" "vm.json") then inl "cfg" else inr (PyExn "FileNotFoundError" p), w)
  | RunProc _ _ => (inl (Proc 0 "4242" ""), w)
  | WallTime | Monotonic => (inl (float_of 1000), w)
  | UtcNow => (inl "2026-01-01T00:00:00Z", w)
  | _ => (inr (PyExn "OSError" "not available"), w)
  end.

Lemma sample_host_obeys : obeys (S := host) host_step mem_db sample_host_env.
Proof.
  intros [] w; try done. left. apply (mem_env_obeys 4 no_service).
Qed.

Lemma agent_only_reports_witness :
  exists r s' w' t, run sample_host_env (poll_once (H := sample_agent_config) agent_start) (Mem agent_db 0) = (Ok (r, s'), w', t) /\
    poll_end (H := sample_agent_config) r t /\ reports_only (H := sample_agent_config) agent_db (mem_db w').
Proof.
  apply (agent_only_reports (H := sample_agent_config) sample_host_env mem_db (Mem agent_db 0) agent_start).
  - intros text. unfold json_load. cbn. by destruct (bool_decide (text = "cfg")).
  - apply sample_host_obeys.
Defined.

(** In that run the tenant is promoted. *)
Example sample_poll_promotes :
  (fun row => get row "status") <$>
    db_get (mem_db (run sample_host_env (poll_once (H := sample_agent_config) agent_start) (Mem agent_db 0)).1.2) Tenants "t1"
  = Some (VStr "running").
Proof. vm_compute. reflexivity. Qed.
