(* ===== verification/SystemAccounting.v ===== *)
(** * The control plane and capacity accounting

    The tables under the functions that the stack deploys and the agents of the
    hosts, run one after the other in any order: the API, the scaler, the
    health check, the backups, the skills and templates, and the polls of the
    agents keep the invariant of [Accounting] together. *)

From S2P Require Import Prelude Py Effects Aws Iso Ddb Config Validate Ssm Capacity AuditLog Rbac Placement Alb Tenants Actions.
From S2P Require Import Accounting ActionsAccounting Balance Hosts ApiEvents HostsAccounting Routing Skills Api ApiAccounting RowLoops.
From S2P Require Import Health Gates Migration MigrationSafety Failover MigrationAccounting Sweep SweepAccounting Scaler ScalerAccounting.
From S2P Require Import SkillsLambda Templates Backup HostCalls Agent AgentLoop AgentReport.

(** ** The agents *)

(** The occupancy depends on the shares of the rows. *)
Lemma occupancy_ext f i (m m' : gmap string item) :
  (forall k, share f i (m !! k) = share f i (m' !! k)) -> occupancy f i m = occupancy f i m'.
Proof.
  assert (Hd : forall (m : gmap string item) k, occupancy f i m = occupancy f i (delete k m) + share f i (m !! k)).
  { intros m0 k. destruct (m0 !! k) as [x|] eqn:E; [|rewrite delete_id by done; cbn; lia].
    rewrite <- (insert_id m0 k x E) at 1. rewrite <- insert_delete_eq. rewrite occupancy_insert, lookup_delete_eq. cbn [share]. lia. }
  revert m'; induction m as [|k x m Hk IH] using map_ind; intros m' Hs.
  - symmetry. induction m' as [|k x m' Hk IH] using map_ind; [done|].
    rewrite (Hd _ k), delete_insert_id, lookup_insert_eq by done.
    assert (share f i (Some x) = 0) as -> by (specialize (Hs k); by rewrite lookup_insert_eq, lookup_empty in Hs).
    rewrite IH; [done|]. intros j. specialize (Hs j). destruct (decide (j = k)) as [->|]; [by rewrite Hk|].
    by rewrite lookup_insert_ne in Hs.
  - rewrite (Hd _ k), (Hd m' k), delete_insert_id, lookup_insert_eq by done. pose proof (Hs k) as Hx. rewrite lookup_insert_eq in Hx.
    rewrite Hx, (IH (delete k m')); [done|]. intros j. destruct (decide (j = k)) as [->|Hj].
    + by rewrite Hk, lookup_delete_eq.
    + specialize (Hs j). rewrite lookup_insert_ne in Hs by done. by rewrite lookup_delete_ne.
Qed.

(** No row of a tenant or a host appears. *)
Definition no_new_rows (d d' : db) : Prop :=
  forall k, (is_Some (db_get d' Tenants k) -> is_Some (db_get d Tenants k)) /\ (is_Some (db_get d' Hosts k) -> is_Some (db_get d Hosts k)).

Lemma report_fields (row row' : item) k : same_but TENANT_REPORT row row' -> k ∈ ["id"; "vcpu"; "mem_mb"; "host_id"] -> row' !! k = row !! k.
Proof.
  intros Hs Hk. apply Hs. rewrite !elem_of_cons, elem_of_nil in Hk.
  destruct Hk as [->|[->|[->|[->|[]]]]]; by apply (bool_decide_eq_true_1 (_ ∉ _)).
Qed.

Lemma status_kept_is row row' s : s <> "creating" -> s <> "running" -> status_kept row row' ->
  is_str (get row' "status") s = is_str (get row "status") s.
Proof.
  unfold get, get_or. intros H1 H2 [->|[-> ->]]; [done|]. cbn. by rewrite !bool_decide_eq_false_2 by congruence.
Qed.

Lemma report_share (row row' : item) i f : In f measures -> same_but TENANT_REPORT row row' -> status_kept row row' ->
  share f i (Some row') = share f i (Some row).
Proof.
  intros Hf Hs Hst. unfold share, occupies. rewrite (status_kept_is row row' "deleted") by done.
  unfold get at 1 3, get_or. rewrite (report_fields row row' "host_id") by (done || set_solver). cbn in Hf. unfold int_field in Hf.
  destruct Hf as [<-|[<-|[<-|[]]]]; rewrite ?(report_fields row row' "vcpu"), ?(report_fields row row' "mem_mb") by (done || set_solver); done.
Qed.

(** A poll of an agent that reports on rows that exist. *)
Lemma reports_account `{AgentConfig} d d' : reports_only d d' -> no_new_rows d d' -> accounted d -> accounted d'.
Proof.
  intros (Ht & Hh & _) Hn [Ha Hrow].
  assert (Ho : forall f i, In f measures -> occupancy f i (db_rows d' Tenants) = occupancy f i (db_rows d Tenants)).
  { intros f i Hf. apply occupancy_ext. intros k. fold (db_get d' Tenants k) (db_get d Tenants k).
    destruct (db_get d Tenants k) as [row|] eqn:E.
    - destruct (Ht k row E) as (row' & -> & Hs & Hk). by apply report_share.
    - destruct (db_get d' Tenants k) eqn:E'; [|done]. destruct (Hn k) as [Hx _]. rewrite E, E' in Hx. destruct Hx as [x Hx]; [by eexists|done]. }
  split.
  - intros i r' Hr' Hreal. destruct (proj2 (Hn i)) as [r Hr]; [by eexists|]. destruct (Hh i r Hr) as (r2 & Hr2 & Hs).
    assert (r2 = r') as -> by congruence. specialize (Ha i r Hr Hreal). cbn beta zeta in Ha |- *.
    rewrite !Ho by (cbn; tauto). destruct Ha as (Hi & next & [H1 H2 H3 H4]).
    assert (Hk : forall k, k ∈ counters -> r' !! k = r !! k).
    { intros k Hk. apply Hs. unfold counters in Hk. rewrite !elem_of_cons, elem_of_nil in Hk.
      destruct Hk as [->|[->|[->|[->|[->|[]]]]]]; by apply (bool_decide_eq_true_1 (_ ∉ _)). }
    split; [by rewrite Hk by (by left)|]. exists next. split; (rewrite Hk; [done|by apply (bool_decide_eq_true_1 (_ ∈ _))]).
  - intros tid it' Hit'. destruct (proj1 (Hn tid)) as [it Hit]; [by eexists|]. destruct (Ht tid it Hit) as (it2 & Hit2 & Hs & _).
    assert (it2 = it') as -> by congruence. destruct (Hrow tid it Hit) as (H1 & H2 & H3). unfold tenant_row.
    by rewrite !(report_fields it it') by (done || set_solver).
Qed.

Lemma reports_waiting `{AgentConfig} d d' : reports_only d d' -> no_new_rows d d' -> waiting d -> waiting d'.
Proof.
  intros (Ht & _) Hn Hw tid it' Hit' Hp. destruct (proj1 (Hn tid)) as [it Hit]; [by eexists|].
  destruct (Ht tid it Hit) as (it2 & Hit2 & Hs & Hk). assert (it2 = it') as -> by congruence.
  rewrite (status_kept_is it it' "pending") in Hp by done. rewrite (report_fields it it') by (done || set_solver). by apply (Hw tid).
Qed.

(** ** The backups *)

Section Others.
Context `{Config}.

Lemma quiet_backup_run v c n : quiet (backup_ssm_run v c n).
Proof. unfold backup_ssm_run, ssm_run, send_command. repeat first [apply quiet_run_loop|quiet_step]. Qed.

Lemma backup_one k t d : accounted d -> is_Some (db_get d Tenants k) -> t !! "id" = Some (VStr k) ->
  after accounted (backup_tenant t) d.
Proof.
  intros Ha [row Hrow] Hid. unfold backup_tenant. apply after_lift; [done|intros tid Et].
  unfold req in Et. rewrite Hid in Et. apply as_key_str in Et as ->.
  apply after_lift; [done|intros h _]. apply after_quiet_bind; [quiet|done|intros now].
  apply after_quiet_bind; [apply quiet_backup_run|done|intros [ok out]].
  eapply (after_seq accounted); [|done|by intros]. destruct ok; [|done].
  apply (update_untouched_keeps _ _ _ row); [done..|untouched|intros; quiet].
Qed.
Lemma backup_many l d ks : accounted d -> Forall2 (fun k t => is_Some (db_get d Tenants k) /\ t !! "id" = Some (VStr k)) ks l ->
  after accounted (backup_all l) d.
Proof.
  revert d ks; induction l as [|t l IH]; intros d ks Ha Hall; cbn [backup_all]; [done|].
  apply Forall2_cons_inv_r in Hall as (k & ks' & [Hk Hid] & Hall & ->).
  assert (Hd : after (fun d' => accounted d' /\ grown d d') (backup_tenant t) d).
  { apply wp_both; [by apply (backup_one k)|].
    apply (after_events calm (grown d)); [intros; by eapply calm_grown| |by intros ? ?].
    change (only calm (backup_tenant t)). unfold backup_tenant.
    apply only_bind; [only_writes|intros tid]. apply only_bind; [only_writes|intros h]. apply only_bind; [only_writes|intros now].
    apply only_bind; [apply only_quiet; [apply _|apply quiet_backup_run]|intros [ok out]]. only_writes. split; [avoided|untouched]. }
  eapply after_seq; [exact Hd|by intros d' []|]. intros r d' [Ha' Hg].
  eapply (after_seq accounted); [|done|by intros]. apply (IH d' ks'); [done|].
  eapply list.Forall2_impl; [exact Hall|]. intros j x [Hj Hx]. split; [by apply Hg|done].
Qed.

Lemma backup_keeps event d : accounted d -> after accounted (backup_handler event) d.
Proof.
  intros Ha. unfold backup_handler. apply after_lift; [done|intros v _]. destruct (truthy v).
  - apply after_lift; [done|intros k _]. apply after_get. destruct (db_get d Tenants k) as [t|] eqn:E; [|done].
    destruct (negb _); [done|]. apply (backup_one k); [done|by eexists|]. by apply (proj2 Ha k t).
  - apply after_scan; [done|intros ks l Hks]. eapply (after_seq accounted); [|done|by intros].
    apply (backup_many l d ks); [done|]. destruct Hks as [_ Hall]. eapply list.Forall2_impl; [exact Hall|].
    intros k t [Hk _]. split; [by eexists|]. by apply (proj2 Ha k t).
Qed.

Lemma orderly_backup event : only orderly (backup_handler event).
Proof.
  unfold backup_handler.
  assert (Hb : forall t, only orderly (backup_tenant t)).
  { intros t. unfold backup_tenant. apply only_bind; [only_writes|intros tid]. apply only_bind; [only_writes|intros h].
    apply only_bind; [only_writes|intros now]. apply only_bind; [apply only_quiet; [apply _|apply quiet_backup_run]|intros [ok out]].
    only_writes. avoided. }
  assert (Hl : forall l, only orderly (backup_all l)).
  { induction l as [|t l IH]; cbn [backup_all]; [only_writes|]. apply only_bind; [apply Hb|intros r].
    apply only_bind; [apply IH|intros rs; only_writes]. }
  repeat (cbn beta zeta; first [apply Hb|apply Hl|only_step]).
Qed.

(** ** The skills and the templates write no table *)

Lemma quiet_skills_lambda m p qs : quiet (skills_handler m p qs).
Proof.
  unfold skills_handler, list_skills, skills_resolve.
  assert (He : forall a l, quiet (skill_entries a l)).
  { intros a l. induction l as [|x l IH]; cbn [skill_entries]; [quiet|]. unfold _read_skill_description.
    repeat (cbn beta zeta; first [apply IH|quiet_step]). }
  repeat (cbn beta zeta; first [apply He|quiet_step|unfold finish]).
Qed.
Lemma quiet_templates_lambda jt m n b : quiet (templates_handler jt m n b).
Proof.
  unfold templates_handler, list_templates, get_template, put_template, delete_template.
  assert (He : forall l, quiet (template_entries l)).
  { intros l. induction l as [|x l IH]; cbn [template_entries]; [quiet|]. repeat (cbn beta zeta; first [apply IH|quiet_step]). }
  repeat (cbn beta zeta; first [apply He|quiet_step]).
Qed.
End Others.

(** ** The steps of the control plane *)

(** One complete run of a function, or one poll of an agent, in any
    configuration and any environment whose tables behave as documented; with
    what the run must find. *)
Inductive control_step : db -> db -> Prop :=
| step_api `{C : Config} {W} (E : env aws W) (view : W -> db) (w : W) (event : invocation_event) :
    obeys (S := aws) dynamo_step view E ->
    in_order (view w) event (run E (lambda_handler event) w).1.1 (run E (lambda_handler event) w).2 ->
    control_step (view w) (view (run E (lambda_handler event) w).1.2)
| step_scaler `{C : ScalerConfig} {W} (E : env aws W) (view : W -> db) (w : W) :
    obeys (S := aws) dynamo_step view E -> keyed (view w) -> expiry_spares (view w) ->
    control_step (view w) (view (run E scaler_handler w).1.2)
| step_sweep `{C : HcConfig} {W} (E : env aws W) (view : W -> db) (w : W) (event : val) :
    obeys (S := aws) dynamo_step view E -> moves_placed (view w) ->
    ~ outage_seen (run E (health_check_handler event) w).2 ->
    control_step (view w) (view (run E (health_check_handler event) w).1.2)
| step_agent `{C : AgentConfig} {W} (E : env host W) (view : W -> db) (w : W) (s : agent) :
    obeys (S := host) host_step view E -> no_new_rows (view w) (view (run E (poll_once s) w).1.2) ->
    control_step (view w) (view (run E (poll_once s) w).1.2)
| step_backup `{C : Config} {W} (E : env aws W) (view : W -> db) (w : W) (event : val) :
    obeys (S := aws) dynamo_step view E ->
    control_step (view w) (view (run E (backup_handler event) w).1.2)
| step_skills `{C : Config} {W} (E : env aws W) (view : W -> db) (w : W) (m p : string) (qs : list (string * string)) :
    obeys (S := aws) dynamo_step view E ->
    control_step (view w) (view (run E (skills_handler m p qs) w).1.2)
| step_templates `{C : Config} {W} (E : env aws W) (view : W -> db) (w : W) (jt : val -> string) (m n : string) (b : req_body) :
    obeys (S := aws) dynamo_step view E ->
    control_step (view w) (view (run E (templates_handler jt m n b) w).1.2).

(** The invariant of the control plane. *)
Definition in_balance (d : db) : Prop := accounted d /\ waiting d.

Lemma run_after {W A} (E : env aws W) (view : W -> db) (w : W) (P : db -> Prop) (p : M A) :
  obeys (S := aws) dynamo_step view E -> after P p (view w) -> P (view (run E p w).1.2).
Proof. intros HE Hp. pose proof (run_wp _ view E p w _ HE Hp) as R. by destruct (run E p w) as [[o w'] t]. Qed.

Lemma in_balance_quiet {A} (p : M A) d : quiet p -> in_balance d -> after in_balance p d.
Proof. apply after_quiet. Qed.

Lemma control_step_keeps d d' : control_step d d' -> in_balance d -> in_balance d'.
Proof.
  destruct 1 as [C W E view w event HE (Had & Hcol & Hend)|C W E view w HE Hk Hsp|C W E view w event HE Hm Hno
    |C W E view w s HE Hn|C W E view w event HE|C W E view w m p qs HE|C W E view w jt m n b HE]; intros [Ha Hw].
  - pose proof (run_wp _ view E _ w _ HE (handler_accounts event (view w) Ha Hw Had)) as R.
    destruct (run E _ w) as [[o w2] t]. cbn [fst snd] in *. destruct R as [[R|[R|[R1 R2]]] R']; [done|done|].
    by destruct R2; apply Hend.
  - apply (run_after E view w in_balance); [done|]. by apply scaler_accounts.
  - pose proof (run_wp _ view E _ w _ HE (sweep_accounts event (view w) Ha Hw Hm)) as R.
    destruct (run E _ w) as [[o w2] t]. cbn [fst snd] in *. by destruct R as [[R|R] R'].
  - destruct (run_hwp host_step view E poll_once s w (fun _ _ d' _ => reports_only (view w) d') HE) as (r & s' & w' & t & Hr & Hd);
      [apply poll_reports|]. rewrite Hr in Hn |- *. cbn [fst snd] in *.
    split; [by eapply reports_account|by eapply reports_waiting].
  - apply (run_after E view w in_balance); [done|]. apply wp_and; [by apply backup_keeps|].
    apply (after_events orderly waiting); [intros; by eapply orderly_step|apply orderly_backup|done].
  - apply (run_after E view w in_balance); [done|]. by apply in_balance_quiet; [apply quiet_skills_lambda|].
  - apply (run_after E view w in_balance); [done|]. by apply in_balance_quiet; [apply quiet_templates_lambda|].
Qed.

(** C3: Whatever the API, the scaler, the health check, the backups, the skills
    and templates functions and the agents of the hosts do one after the other,
    in any order and number, in any configuration, whatever the services and
    the hosts answer and wherever a run is cut short by an error, the counters
    of every host stay the sums over its live tenants and no waiting tenant has
    a host, as long as each run finds what it needs: an invocation of the API is in
    order ([in_order]); a run of the scaler finds the hosts at their keys and no
    tenant to delete at expiry that is live on a host; a run of the health check
    sees no zone lost, and finds each migrating tenant on its source, with rows
    for its hosts; an agent creates no row. Runs that overlap are outside. *)
Theorem control_plane_accounted (d d' : db) : rtc control_step d d' -> in_balance d -> in_balance d'.
Proof. induction 1 as [|d1 d2 d3 Hs _ IH]; [done|]. intros Hd. by apply IH, (control_step_keeps d1). Qed.

(** ** Witness *)

(** Sufficient conditions that evaluate. *)
Lemma expiry_check d : map_Forall (fun _ it => is_str (get_or it "on_expiry" (VStr "stop")) "delete" = false) (db_rows d Tenants) ->
  expiry_spares d.
Proof.
  intros Hf tid it Hit now i Hd _. specialize (Hf tid it Hit). cbn beta in Hf. unfold ttl_decide in Hd.
  destruct (is_str_in _ _); [done|]. destruct (req it "expires_at" ≫= fromisoformat) as [[]| |]; try done.
  destruct (now <? us); [done|]. rewrite Hf in Hd. by destruct (is_str _ "stop").
Qed.

Definition move_check (d : db) (t : item) : bool :=
  negb (is_str (get t "status") "migrating") ||
  match t !! "host_id", t !! "migration_source" with
  | Some (VStr a), Some (VStr b) => bool_decide (a = b) &&
      forallb (fun i => bool_decide (is_Some (db_get d Hosts i))) (move_hosts t a)
  | _, _ => false
  end.
Lemma moves_check d : map_Forall (fun _ t => move_check d t = true) (db_rows d Tenants) -> moves_placed d.
Proof.
  intros Hf tid t Ht Hs _. specialize (Hf tid t Ht). unfold move_check in Hf. rewrite Hs in Hf. cbn [negb orb] in Hf.
  destruct (t !! "host_id") as [[| | | |a| |]|]; try done. destruct (t !! "migration_source") as [[| | | |b| |]|]; try done.
  apply andb_true_iff in Hf as [<-%bool_decide_eq_true Hf]. exists a. split; [done|]. split; [done|].
  intros i Hi. rewrite forallb_forall in Hf. apply (bool_decide_eq_true_1 _), Hf. by apply list_elem_of_In.
Qed.

Lemma rows_check d d' : dom (db_rows d' Tenants) ⊆ dom (db_rows d Tenants) -> dom (db_rows d' Hosts) ⊆ dom (db_rows d Hosts) ->
  no_new_rows d d'.
Proof. intros Ht Hh k. unfold db_get. rewrite <- !elem_of_dom. split; intros Hk; [by apply Ht|by apply Hh]. Qed.

Lemma outage_check t : forallb (fun e : ev => match ev_call e with
  | GetItem Hosts k => negb (bool_decide (k = az_state_key)) | _ => true end) t = true -> ~ outage_seen t.
Proof.
  rewrite forallb_forall. intros Hf [r Hr]. specialize (Hf _ (proj1 (list_elem_of_In _ _) Hr)). cbn in Hf.
  by rewrite bool_decide_eq_true_2 in Hf.
Qed.

(** The agent of [i-1] reports on the tenant that leaves it; the health check
    completes the migration; the scaler stamps the empty host; the tenant is
    backed up and stopped. *)
Definition one_vm_env : env host mem := fun c w =>
  match c return (host_reply c + exn) * mem with
  | ListDir p => (if bool_decide (p = VM_DIR) then inl ["web-1a2b"] else inr (PyExn "FileNotFoundError" p), w)
  | ReadFile p => (if bool_decide (p = vm_file "web-1a2b" "vm.json") then inl "cfg" else inr (PyExn "FileNotFoundError" p), w)
  | c => sample_host_env c w
  end.
Lemma one_vm_obeys : obeys (S := host) host_step mem_db one_vm_env.
Proof. intros c w. destruct c; try (by apply sample_host_obeys). all: done. Qed.

Definition shift (d : db) : db := mem_db (run one_vm_env (poll_once (H := sample_agent_config) agent_start) (Mem d 0)).1.2.
Definition check_up (d : db) : db :=
  mem_db (run (mem_env 1 moving_service) (health_check_handler (H := sample_hc) VNone) (Mem d 0)).1.2.
Definition tick (d : db) : db := mem_db (run (mem_env 1 sample_service) (scaler_handler (H := tick_config)) (Mem d 0)).1.2.
Definition nightly (d : db) : db :=
  mem_db (run (mem_env 1 sample_service) (backup_handler (H := sample_config) (VDict [])) (Mem d 0)).1.2.
Definition stop_request : invocation_event :=
  api_request "POST" "/tenants/{id}/{action}" [("id", "web-1a2b"); ("action", "stop")] NoBody.
Definition stopped (d : db) : db :=
  mem_db (run (mem_env 1 admin_service) (lambda_handler (H := sample_config) stop_request) (Mem d 0)).1.2.
Definition evening : db := stopped (nightly (tick (check_up (shift moving_db)))).

Lemma shift_step d : no_new_rows d (shift d) -> control_step d (shift d).
Proof. exact (step_agent (C := sample_agent_config) one_vm_env mem_db (Mem d 0) agent_start one_vm_obeys). Qed.
Lemma check_up_step d : moves_placed d ->
  ~ outage_seen (run (mem_env 1 moving_service) (health_check_handler (H := sample_hc) VNone) (Mem d 0)).2 -> control_step d (check_up d).
Proof. exact (step_sweep (C := sample_hc) (mem_env 1 moving_service) mem_db (Mem d 0) VNone (mem_env_obeys 1 _)). Qed.
Lemma tick_step d : keyed d -> expiry_spares d -> control_step d (tick d).
Proof. exact (step_scaler (C := tick_config) (mem_env 1 sample_service) mem_db (Mem d 0) (mem_env_obeys 1 _)). Qed.
Lemma nightly_step d : control_step d (nightly d).
Proof. exact (step_backup (C := sample_config) (mem_env 1 sample_service) mem_db (Mem d 0) (VDict []) (mem_env_obeys 1 _)). Qed.
Lemma stopped_step d : in_order d stop_request
    (run (mem_env 1 admin_service) (lambda_handler (H := sample_config) stop_request) (Mem d 0)).1.1
    (run (mem_env 1 admin_service) (lambda_handler (H := sample_config) stop_request) (Mem d 0)).2 -> control_step d (stopped d).
Proof. exact (step_api (C := sample_config) (mem_env 1 admin_service) mem_db (Mem d 0) stop_request (mem_env_obeys 1 _)). Qed.

Lemma control_plane_accounted_witness :
  in_balance evening /\
  (db_get evening Tenants "web-1a2b" ≫= fun t => t !! "host_id") = Some (VStr "i-2") /\
  (db_get evening Tenants "web-1a2b" ≫= fun t => t !! "status") = Some (VStr "stopped") /\
  (db_get evening Hosts "i-1" ≫= fun h => h !! "vm_count") = Some (VInt 0).
Proof.
  split; [|split_and!; vm_decide]. apply (control_plane_accounted moving_db evening).
  - unfold evening. eapply rtc_l; [apply shift_step|eapply rtc_l; [apply check_up_step|eapply rtc_l; [apply tick_step|
      eapply rtc_l; [apply nightly_step|eapply rtc_l; [apply stopped_step|apply rtc_refl]]]]].
    + apply rows_check; vm_decide.
    + apply moves_check. vm_decide.
    + apply outage_check. vm_compute. reflexivity.
    + change (map_Forall (fun k (r : item) => r !! "instance_id" = Some (VStr k)) (db_rows (check_up (shift moving_db)) Hosts)). vm_decide.
    + apply expiry_check. vm_decide.
    + day_in_order. intros _ tid a [= <-] _ _. apply live_row_check. vm_compute. reflexivity.
  - split; [apply moving_db_accounted|]. intros tid it Hit Hp. unfold db_get in Hit. cbn [moving_db db_rows] in Hit.
    apply lookup_singleton_Some in Hit as [<- <-]. by vm_compute in Hp.
Defined.
