(* ===== verification/PeerSync.v ===== *)
(** * The host agent: the peer map converges

    The specification of the synchronisation: applying a map either makes nginx
    route that map, with at most the routes whose files could not be removed
    beside it, and records it, or leaves the running routes and the record as
    they were, to be tried again.  It is proved for the agent as the only one
    that reloads nginx: what a reload of another program on the host loads is
    outside it ([files_left_behind]). *)

From Stdlib Require Import SpecFloat.
From S2P Require Import Prelude Py PyNum Effects Aws HostCalls Agent PeerMap AgentLoop AgentReport.

(** ** The peer directory and the running configuration *)

Record nginx := Nginx { conf_dir : gmap string string; running : gmap string string }.

(** The file of the peer directory that a path names. *)
Definition peer_file (p : string) : option string :=
  if starts_with (_PEER_DIR +:+ "/") p then Some (str_drop (String.length (_PEER_DIR +:+ "/")) p) else None.

(** nginx includes the [.conf] files of the directory. *)
Definition confs (files : gmap string string) : gmap string string :=
  filter (fun kv => ends_with conf_ext kv.1 = true) files.

(** The effect of a call on them.  Removing a file of the directory may fail and
    leave it; a write may fail and leave anything in its file; a reload that
    reports success loads the files, and one that does not loads nothing.
    Nobody
    else writes the files or reloads nginx.  The clock answers. *)
Definition peer_step (c : op host) (d : nginx) : (reply host c + exn) -> nginx -> Prop :=
  match c return (host_reply c + exn) -> nginx -> Prop with
  | ListDir p => fun r d' => d' = d /\
      (p = _PEER_DIR -> forall l, r = inl l -> forall f, f ∈ l <-> is_Some (conf_dir d !! f))
  | WriteFile p content => fun r d' =>
      match peer_file p with
      | Some f => (r = inl tt /\ d' = Nginx (<[f := content]> (conf_dir d)) (running d)) \/
                  (exists e x, r = inr e /\ d' = Nginx (<[f := x]> (conf_dir d)) (running d))
      | None => d' = d
      end
  | RemoveFile p => fun r d' =>
      match peer_file p with
      | Some f => (r = inl tt /\ d' = Nginx (delete f (conf_dir d)) (running d)) \/
                  (exists e, r = inr e /\ d' = d)
      | None => d' = d
      end
  | RunProc argv _ => fun r d' =>
      match r with
      | inl p => if bool_decide (argv = ["nginx"; "-s"; "reload"]) && (returncode p =? 0)
                 then d' = Nginx (conf_dir d) (confs (conf_dir d)) else d' = d
      | inr _ => d' = d
      end
  | Monotonic => fun r d' => d' = d /\ exists now, r = inl now
  | _ => fun _ d' => d' = d
  end.

Lemma peer_file_path f : peer_file (peer_path f) = Some f.
Proof.
  unfold peer_file, peer_path, path_join.
  replace (_PEER_DIR +:+ "/" +:+ f) with ((_PEER_DIR +:+ "/") +:+ f) by done.
  by rewrite starts_with_app, str_drop_app.
Qed.

(** The routes of a map. *)
Definition peer_routes (desired : list (string * string)) : gmap string string :=
  list_to_map (map (fun kv => (conf_name kv.1, kv.2)) desired).

Lemma conf_name_inj x y : conf_name x = conf_name y -> x = y.
Proof. apply str_app_cancel_r. Qed.

Lemma peer_routes_cons tid c desired : peer_routes ((tid, c) :: desired) = <[conf_name tid := c]> (peer_routes desired).
Proof. done. Qed.

Lemma peer_routes_None f desired : peer_routes desired !! f = None <-> f ∉ map (fun kv => conf_name kv.1) desired.
Proof.
  unfold peer_routes. rewrite <- not_elem_of_list_to_map. by rewrite <- list_fmap_compose.
Qed.

Lemma peer_routes_conf f : forall desired, is_Some (peer_routes desired !! f) -> ends_with conf_ext f = true.
Proof.
  induction desired as [|[tid c] desired IH]; [intros [? Hf]; change (peer_routes []) with (∅ : gmap string string) in Hf; by rewrite lookup_empty in Hf|].
  rewrite peer_routes_cons, lookup_insert_is_Some. intros [<-|[_ Hf]]; [apply ends_with_app|by apply IH].
Qed.

Section PeerSync.
Context `{AgentConfig}.

(** ** Writing the files *)

Definition unwanted (desired : list (string * string)) (f : string) : bool :=
  negb (bool_decide (f ∈ map (fun kv => conf_name kv.1) desired)) && ends_with conf_ext f.

Definition remove_stale (desired : list (string * string)) (files : list string) : AM unit :=
  act_for files (fun fname =>
    if unwanted desired fname
    then tryA_ (host_do (RemoveFile (peer_path fname))) except_if is_oserror _ => mret tt
    else mret tt).

(** The files whose removal was refused, as a trace shows it. *)
Definition removal_failed (tr : list hev) (f : string) : Prop :=
  exists e, Ev (S := host) (RemoveFile (peer_path f)) (inr e) ∈ tr.

Lemma removal_failed_incl tr tr' f : tr ⊆ tr' -> removal_failed tr f -> removal_failed tr' f.
Proof. intros Hi (e & He). exists e. by apply Hi. Qed.

(** What is left of the files once the unwanted ones were to be removed. *)
Definition pruned (desired : list (string * string)) (files : list string) (before after : gmap string string)
    (tr : list hev) : Prop :=
  (forall f, unwanted desired f = false -> after !! f = before !! f) /\
  (forall f, after !! f = None \/ after !! f = before !! f) /\
  (forall f, f ∈ files -> unwanted desired f = true -> after !! f = None \/ removal_failed tr f).

Lemma remove_stale_spec desired files s d :
  hwp peer_step (remove_stale desired files) s d (fun r s' d' tr =>
    s' = s /\ running d' = running d /\ (r = Ok tt -> pruned desired files (conf_dir d) (conf_dir d') tr)).
Proof.
  revert d. induction files as [|g files IH]; intros d; cbn [remove_stale act_for].
  { apply (hwp_ret peer_step tt). split; [done|]. split; [done|]. intros _. split; [done|]. split; [by right|].
    intros f Hf. by apply elem_of_nil in Hf. }
  apply hwp_bind. destruct (unwanted desired g) eqn:Eg.
  - apply hwp_catch_if. h_call. intros r d1 Hs. cbn in Hs. rewrite peer_file_path in Hs.
    destruct Hs as [[-> ->]|(e & -> & ->)]; cbn beta match.
    + eapply hwp_mono; [apply IH|]. intros r s' d' t (-> & Hrun & Hf). split; [done|]. split; [done|].
      intros Hr. destruct (Hf Hr) as (H1 & H2 & H3). cbn [conf_dir] in H1, H2. split; [|split].
      * intros f Hu. rewrite (H1 f Hu). apply lookup_delete_ne. congruence.
      * intros f. destruct (decide (g = f)) as [->|Hne].
        -- left. destruct (H2 f) as [->| ->]; [done|]. by rewrite lookup_delete_eq.
        -- destruct (H2 f) as [->| ->]; [by left|right]. by rewrite lookup_delete_ne.
      * intros f [->|Hin]%elem_of_cons Hu.
        -- left. destruct (H2 g) as [->| ->]; [done|]. by rewrite lookup_delete_eq.
        -- destruct (H3 f Hin Hu) as [?|Hx]; [by left|right]. eapply removal_failed_incl; [|exact Hx]. cbn. set_solver.
    + destruct (is_oserror e); cbn beta match; [|done].
      apply (hwp_ret peer_step tt). eapply hwp_mono; [apply IH|]. intros r s' d' t (-> & Hrun & Hf). split; [done|]. split; [done|].
      intros Hr. destruct (Hf Hr) as (H1 & H2 & H3). split; [done|]. split; [done|].
      intros f [->|Hin]%elem_of_cons Hu; [right; exists e; cbn; set_solver|].
      destruct (H3 f Hin Hu) as [?|Hx]; [by left|right]. eapply removal_failed_incl; [|exact Hx]. cbn. set_solver.
  - apply (hwp_ret peer_step tt). eapply hwp_mono; [apply IH|]. intros r s' d' t (-> & Hrun & Hf). split; [done|]. split; [done|].
    intros Hr. destruct (Hf Hr) as (H1 & H2 & H3). split; [done|]. split; [done|].
    intros f [->|Hin]%elem_of_cons Hu; [congruence|by apply H3].
Qed.

(** A map that routes [desired] and nothing else but files that a trace could
    not remove. *)
Definition routed (desired : list (string * string)) (tr : list hev) (m : gmap string string) : Prop :=
  peer_routes desired ⊆ m /\
  forall f, is_Some (m !! f) -> is_Some (peer_routes desired !! f) \/ removal_failed tr f.

Lemma routed_exact desired tr m :
  routed desired tr m -> (forall f, ~ removal_failed tr f) -> m = peer_routes desired.
Proof.
  intros [Hin Hout] Hno. apply map_eq. intros f. destruct (peer_routes desired !! f) as [c|] eqn:E.
  - by apply (lookup_weaken _ _ _ _ E).
  - destruct (m !! f) eqn:Em; [|done]. destruct (Hout f) as [[? Hs]|Hf]; [by rewrite Em|congruence|by destruct (Hno f)].
Qed.

Lemma routed_incl desired tr tr' m : tr ⊆ tr' -> routed desired tr m -> routed desired tr' m.
Proof.
  intros Hi [H1 H2]. split; [done|]. intros f Hf. destruct (H2 f Hf) as [?|Hx]; [by left|right]. by eapply removal_failed_incl.
Qed.

Lemma write_files_spec desired (s : agent) d :
  NoDup (map fst desired) ->
  hwp peer_step (act_for desired (fun kv => host_do (WriteFile (peer_path (conf_name kv.1)) kv.2))) s d (fun r s' d' _ =>
    s' = s /\ running d' = running d /\
    (r = Ok tt -> forall f, conf_dir d' !! f = match peer_routes desired !! f with Some c => Some c | None => conf_dir d !! f end)).
Proof.
  revert d. induction desired as [|[tid c] desired IH]; intros d Hnd; cbn [act_for].
  { apply (hwp_ret peer_step tt). done. }
  inversion Hnd as [|? ? Hx Hnd']; subst.
  apply hwp_bind. h_call. cbn [fst snd]. intros r d1 Hs. cbn in Hs. rewrite peer_file_path in Hs.
  destruct Hs as [[-> ->]|(e & x & -> & ->)]; cbn beta match; [|done].
  eapply hwp_mono; [by apply IH|]. intros r s' d' t (-> & Hrun & Hf). repeat split; [done|].
  intros Hr f. rewrite (Hf Hr), peer_routes_cons. cbn [conf_dir].
  destruct (decide (f = conf_name tid)) as [->|Hne].
  - rewrite lookup_insert_eq. assert (peer_routes desired !! conf_name tid = None) as ->; [|by rewrite lookup_insert_eq].
    apply peer_routes_None. intros (kv & E & Hin)%list_elem_of_fmap. apply conf_name_inj in E. subst.
    apply Hx. by apply list_elem_of_fmap_2.
  - rewrite !lookup_insert_ne by done. done.
Qed.

Lemma write_peers_spec desired s d :
  NoDup (map fst desired) ->
  hwp peer_step (write_peers desired) s d (fun r s' d' tr =>
    s' = s /\ running d' = running d /\ (r = Ok tt -> routed desired tr (confs (conf_dir d')))).
Proof.
  intros Hnd. unfold write_peers. h_bind. h_call. intros r0 d0 Hs. cbn in Hs. subst d0.
  destruct r0 as [[]|e]; cbn beta match; [|done].
  h_bind. h_call. intros r1 d1 [-> Hl]. destruct r1 as [files|e]; cbn beta match; [|done].
  specialize (Hl eq_refl files eq_refl). h_bind.
  eapply hwp_mono; [apply (remove_stale_spec desired files)|]. intros r s2 d2 t2 (-> & Hrun2 & Hf2).
  destruct r as [[]|e|]; cbn beta match; [|done..]. destruct (Hf2 eq_refl) as (H1 & H2 & H3).
  eapply hwp_mono; [by apply write_files_spec|]. intros r s3 d3 t3 (-> & Hrun3 & Hf3).
  split; [done|]. split; [congruence|]. intros ->. specialize (Hf3 eq_refl). split.
  - apply map_subseteq_spec. intros f c Ec. unfold confs. rewrite map_lookup_filter, Hf3, Ec. cbn.
    rewrite option_guard_True; [done|]. apply (peer_routes_conf f desired). by rewrite Ec.
  - intros f [c Hc]. unfold confs in Hc. apply map_lookup_filter_Some in Hc as [Hc He]. cbn in He. rewrite Hf3 in Hc.
    destruct (peer_routes desired !! f) eqn:Ec; [by left; eexists|right].
    assert (unwanted desired f = true) as Hu.
    { unfold unwanted. rewrite bool_decide_eq_false_2 by by apply peer_routes_None. done. }
    assert (f ∈ files) as Hin by (apply Hl; destruct (H2 f); [congruence|exists c; congruence]).
    destruct (H3 f Hin Hu) as [?|Hx]; [congruence|]. eapply removal_failed_incl; [|exact Hx]. cbn. set_solver.
Qed.

Lemma reload_spec s d :
  hwp peer_step reload_nginx s d (fun r s' d' _ =>
    a_last_peer_hash s' = a_last_peer_hash s /\ conf_dir d' = conf_dir d /\
    ((r = Ok true /\ s' = s /\ running d' = confs (conf_dir d)) \/ (r <> Ok true /\ running d' = running d))).
Proof.
  assert (Hfail : forall s d, hwp peer_step (_ ← count_reload_failure; mret false) s d (fun r s' d' _ =>
    a_last_peer_hash s' = a_last_peer_hash s /\ d' = d /\ r = Ok false)).
  { intros s0 d0. h_bind. apply hwp_mod. by apply hwp_ret. }
  unfold reload_nginx. h_bind. h_call. intros r0 d0 Hs. cbn in Hs.
  destruct r0 as [check|e]; cbn beta match; [|subst d0; split; [done|]; split; [done|]; by right].
  rewrite bool_decide_eq_false_2 in Hs by done. cbn in Hs. subst d0. destruct (returncode check =? 0); cbn [negb].
  2: { eapply hwp_mono; [apply Hfail|]. intros r s' d' t (E & -> & ->). split; [done|]. split; [done|]. by right. }
  h_bind. h_call. intros r1 d1 Hs. cbn in Hs.
  destruct r1 as [p|e]; cbn beta match; [|subst d1; split; [done|]; split; [done|]; by right].
  rewrite bool_decide_eq_true_2 in Hs by done. cbn [andb] in Hs.
  destruct (returncode p =? 0); cbn [negb].
  - subst d1. apply hwp_ret. split; [done|]. split; [done|]. by left.
  - subst d1. eapply hwp_mono; [apply Hfail|]. intros r s' d' t (E & -> & ->). split; [done|]. split; [done|]. by right.
Qed.

(** ** Applying a map *)

(** The outcome of applying a map: nginx routes it and the record says so, or
    the running routes and the record are as they were. *)
Definition applied (desired : list (string * string)) (s : agent) (d : nginx) (s' : agent) (d' : nginx)
    (tr : list hev) : Prop :=
  (a_last_peer_hash s' = Some (peer_digest desired) /\ routed desired tr (running d')) \/
  (a_last_peer_hash s' = a_last_peer_hash s /\ running d' = running d).

(** ** The map that is wanted *)

(** The rows of a table that a trace has read. *)
Definition page_rows (t : table) (e : hev) : list item :=
  let '(Ev c r) := e in
  match c return (host_reply c + exn) -> list item with
  | ScanProjected t' _ _ => fun r =>
      match r with inl p => if decide (t' = t) then pg_items p else [] | inr _ => [] end
  | _ => fun _ => []
  end r.
Definition scanned (t : table) (tr : list hev) : list item := concat (map (page_rows t) tr).

(** The tenants with a local block, as a trace has listed them. *)
Definition listed_blocks (e : hev) : list string :=
  let '(Ev c r) := e in
  match c return (host_reply c + exn) -> list string with
  | ListDir p => fun r =>
      match r with
      | inl files => if decide (p = _LOCAL_CONF_DIR) then map conf_tid (List.filter (ends_with conf_ext) files) else []
      | inr _ => []
      end
  | _ => fun _ => []
  end r.
Definition local_blocks (tr : list hev) : list string := concat (map listed_blocks tr).

(** The map that what was read calls for. *)
Definition wanted (tr : list hev) (desired : list (string * string)) : Prop :=
  exists ips, ip_by_host (scanned Hosts tr) [] = Ok ips /\
    desired_from (local_blocks tr) ips (scanned Tenants tr) [] = Ok desired.

Lemma scanned_app t a b : scanned t (a ++ b) = scanned t a ++ scanned t b.
Proof. unfold scanned. by rewrite map_app, concat_app. Qed.
Lemma local_blocks_app a b : local_blocks (a ++ b) = local_blocks a ++ local_blocks b.
Proof. unfold local_blocks. by rewrite map_app, concat_app. Qed.

Lemma scan_pages_read n t attrs : forall start items (s : agent) d,
  hwp peer_step (scan_projected_pages n t attrs start items) s d (fun r s' d' tr =>
    s' = s /\ d' = d /\ local_blocks tr = [] /\ (forall t', t' <> t -> scanned t' tr = []) /\
    forall l, r = Ok l -> l = items ++ scanned t tr).
Proof.
  induction n as [|n IH]; intros start items s d; cbn [scan_projected_pages]; [by apply hwp_lift|].
  h_bind. h_call. intros r d0 Hs. cbn in Hs. subst d0. destruct r as [p|e]; cbn beta match; [|done].
  set (e := Ev (S := host) (ScanProjected t attrs start) (inl p)).
  assert (Et : page_rows t e = pg_items p) by (cbn; by rewrite decide_True).
  assert (En : forall t', t' <> t -> page_rows t' e = []) by (intros t' Hne; cbn; by rewrite decide_False by congruence).
  destruct (pg_last p) as [k|].
  - eapply hwp_mono; [apply IH|]. intros r s' d' tr (-> & -> & Hl & Hn & Hr). repeat split; [done|..].
    + intros t' Hne. change (page_rows t' e ++ scanned t' tr = []). by rewrite En, Hn.
    + intros l Hlr. rewrite (Hr l Hlr), <- app_assoc. f_equal. change (scanned t ([e] ++ tr)) with (page_rows t e ++ scanned t tr).
      by rewrite Et.
  - apply hwp_ret. repeat split.
    + intros t' Hne. change (page_rows t' e ++ [] = []). by rewrite En.
    + intros l [= <-]. f_equal. change (scanned t ([e] ++ [])) with (page_rows t e ++ []). by rewrite Et, app_nil_r.
Qed.

Lemma get_ddb_read (s : agent) d :
  hwp peer_step _get_ddb s d (fun _ s' d' tr => a_last_peer_hash s' = a_last_peer_hash s /\ d' = d /\
    local_blocks tr = [] /\ forall t, scanned t tr = []).
Proof.
  unfold _get_ddb. h_bind. apply hwp_get. destruct (a_ddb s); [by apply hwp_ret|].
  h_bind. apply hwp_catch. h_bind. h_call. intros r d0 Hs. cbn in Hs. subst d0. destruct r as [tok|e]; cbn beta match.
  - h_call. intros r d0 Hs. cbn in Hs. subst d0.
    destruct r as [region|e]; cbn beta match; [|apply hwp_ret];
      (h_bind; h_call; intros r d0 Hs; cbn in Hs; subst d0; destruct r as [[]|?]; cbn beta match; [by apply hwp_mod|done]).
  - apply hwp_ret. h_bind; h_call; intros r d0 Hs; cbn in Hs; subst d0; destruct r as [[]|?]; cbn beta match; [by apply hwp_mod|done].
Qed.

Lemma scan_read t attrs (s : agent) d :
  hwp peer_step (_scan_projected t attrs) s d (fun r s' d' tr =>
    a_last_peer_hash s' = a_last_peer_hash s /\ d' = d /\ local_blocks tr = [] /\
    (forall t', t' <> t -> scanned t' tr = []) /\ forall l, r = Ok l -> l = scanned t tr).
Proof.
  unfold _scan_projected. h_bind. eapply hwp_mono; [apply get_ddb_read|]. intros r s1 d1 t1 (Hh & -> & Hl & Hn).
  destruct r as [[]|e|]; [|by repeat split..].
  eapply hwp_mono; [apply scan_pages_read|]. intros r s' d' tr (-> & -> & Hl' & Hn' & Hr).
  split; [done|]. split; [done|]. split; [by rewrite local_blocks_app, Hl, Hl'|]. split.
  - intros t' Hne. by rewrite scanned_app, Hn, Hn'.
  - intros l Hlr. by rewrite scanned_app, Hn, (Hr l Hlr).
Qed.

Lemma local_read (s : agent) d :
  hwp peer_step local_tenants s d (fun r s' d' tr => s' = s /\ d' = d /\ (forall t, scanned t tr = []) /\
    forall l, r = Ok l -> l = local_blocks tr).
Proof.
  unfold local_tenants. apply hwp_catch_if. h_bind. h_call. intros r d0 [-> _]. destruct r as [files|e]; cbn beta match.
  - apply hwp_ret. repeat split. intros l [= <-]. unfold local_blocks. cbn. by rewrite decide_True, app_nil_r.
  - destruct (is_oserror e); [apply hwp_ret; repeat split; by intros l [= <-]|done].
Qed.

Lemma desired_read (s : agent) d :
  hwp peer_step desired_peers s d (fun r s' d' tr => a_last_peer_hash s' = a_last_peer_hash s /\ d' = d /\
    forall desired, r = Ok desired -> wanted tr desired).
Proof.
  unfold desired_peers. h_bind. eapply hwp_mono; [apply scan_read|]. intros r s1 d1 t1 (Hh1 & -> & L1 & N1 & R1).
  destruct r as [tenants|e|]; [|by repeat split..]. specialize (R1 tenants eq_refl).
  h_bind. eapply hwp_mono; [apply scan_read|]. intros r s2 d2 t2 (Hh2 & -> & L2 & N2 & R2).
  rewrite Hh1 in Hh2. destruct r as [hosts|e|]; [|by repeat split..]. specialize (R2 hosts eq_refl).
  h_bind. apply hwp_lift. destruct (ip_by_host hosts []) as [ips|e|] eqn:Eips; [|by repeat split..].
  h_bind. eapply hwp_mono; [apply local_read|]. intros r s3 d3 t3 (-> & -> & N3 & R3).
  destruct r as [locals|e|]; [|by repeat split..]. specialize (R3 locals eq_refl).
  apply hwp_lift. repeat split; [done|]. intros desired Hd. cbn [app]. rewrite app_nil_r.
  exists ips. rewrite !scanned_app, !local_blocks_app, L1, L2, (N1 Hosts), (N2 Tenants), !N3, !app_nil_r by done.
  cbn [app]. by rewrite <- R1, <- R2, <- R3.
Qed.

Hypothesis ready_elsewhere : peer_file (path_join READY_DIR "ready.tmp") = None.
#[local] Set Default Proof Using "Type*".

Lemma mark_ready_spec s d : hwp peer_step _mark_ready s d (fun _ s' d' _ => s' = s /\ d' = d).
Proof.
  unfold _mark_ready. apply hwp_catch_if. h_bind. h_call. intros r d0 Hs. cbn in Hs. subst d0.
  destruct r as [[]|e]; cbn beta match; [|by destruct (is_oserror e)].
  h_bind. h_call. intros r d0 Hs. cbn in Hs. rewrite ready_elsewhere in Hs. subst d0.
  destruct r as [[]|e]; cbn beta match; [|by destruct (is_oserror e)].
  h_call. intros r d0 Hs. cbn in Hs. subst d0. destruct r as [[]|e]; cbn beta match; [done|by destruct (is_oserror e)].
Qed.

Lemma apply_peers_spec desired s d :
  NoDup (map fst desired) ->
  hwp peer_step (apply_peers desired) s d (fun _ s' d' tr => applied desired s d s' d' tr).
Proof.
  intros Hnd. unfold apply_peers. h_bind. apply hwp_get. cbn [app].
  destruct (bool_decide_reflect (a_last_peer_hash s = Some (peer_digest desired))); [apply hwp_ret; by right|].
  h_bind. eapply hwp_mono; [by apply write_peers_spec|]. intros r s1 d1 t1 (-> & Hrun1 & Hc).
  destruct r as [[]|e|]; [|by right..]. specialize (Hc eq_refl).
  h_bind. eapply hwp_mono; [apply reload_spec|]. intros r s2 d2 t2 (Hh & Hcd & [(-> & -> & Hrun)|(Hr & Hrun)]).
  2: { destruct r as [[]|e|]; cbn beta match; [done|apply hwp_ret|..]; right; split; congruence. }
  cbn [negb]. h_bind. apply hwp_mod. h_bind. h_call. intros r d3 Hs. cbn in Hs. subst d3.
  assert (Happ : forall s' tr, a_last_peer_hash s' = Some (peer_digest desired) -> t1 ⊆ tr -> applied desired s d s' d2 tr).
  { intros s' tr Hs' Htr. left. split; [done|]. rewrite Hrun. by apply (routed_incl _ t1). }
  destruct r as [now|e]; cbn beta match; [|apply Happ; [done|set_solver]].
  h_bind. apply hwp_mod. eapply hwp_mono; [apply mark_ready_spec|]. intros r s' d' t [-> ->]. apply Happ; [done|set_solver].
Qed.

(** ** Synchronising *)

Lemma desired_NoDup l ips ts : forall m m',
  NoDup (map fst m) -> desired_from l ips ts m = Ok m' -> NoDup (map fst m').
Proof.
  induction ts as [|t ts IH]; intros m m' Hm; cbn [desired_from]; [by intros [= <-]|].
  intros ([[x ip]|] & _ & Hd)%outcome_bind_Ok; [|by apply (IH m)].
  eapply IH; [|exact Hd]. by apply dict_set_NoDup.
Qed.

(** Every route of the map recorded as applied is run by nginx, as recorded. *)
Definition converged (s : agent) (d : nginx) : Prop :=
  forall h, a_last_peer_hash s = Some h ->
    exists desired, peer_digest desired = h /\ peer_routes desired ⊆ running d.

(** One step of the specification: nothing happens, or the map that the tables
    call for becomes the one that is routed - exactly, unless a file could not
    be removed, and then with such files only beside it. *)
Definition sync_spec (s : agent) (d : nginx) (s' : agent) (d' : nginx) (t : list hev) : Prop :=
  (a_last_peer_hash s' = a_last_peer_hash s /\ running d' = running d) \/
  (exists desired t1 t2, t = t1 ++ t2 /\ wanted t1 desired /\
     a_last_peer_hash s' = Some (peer_digest desired) /\ routed desired t (running d') /\
     ((forall f, ~ removal_failed t f) -> running d' = peer_routes desired)).

Lemma sync_spec_ok (s : agent) d :
  hwp peer_step _sync_tenant_routes s d (fun r s' d' t => (forall e, r <> Exn e) /\ sync_spec s d s' d' t).
Proof.
  assert (Hsame : forall r t, (forall e, r <> Exn e) -> (forall e, r <> @Exn unit e) /\ sync_spec s d s d t) by (intros; split; [done|by left]).
  unfold _sync_tenant_routes. destruct (_ || _ || _); [apply hwp_ret; by apply Hsame|].
  h_bind. h_call. intros r d0 [-> [now ->]]. cbn beta match.
  h_bind. apply hwp_get. cbn [app]. destruct (flt_int _ _); [apply hwp_ret; by apply Hsame|].
  h_bind. apply hwp_mod. cbn [app]. set (s1 := set_last_route_sync now s).
  apply hwp_catch. h_bind. eapply hwp_mono; [apply (desired_read s1)|]. intros r s2 d2 t2 (Hh & -> & Hw).
  change (a_last_peer_hash s1) with (a_last_peer_hash s) in Hh.
  destruct r as [desired|e|]; [|apply hwp_ret; split; [done|by left]|split; [done|by left]]. specialize (Hw desired eq_refl).
  assert (Hnd : NoDup (map fst desired)).
  { destruct Hw as (ips & _ & Hd). eapply (desired_NoDup _ _ _ []); [constructor|exact Hd]. }
  eapply hwp_mono; [by apply apply_peers_spec|]. intros r s3 d3 t3 Ha.
  set (ev_now := Ev (S := host) Monotonic (inl now)).
  assert (Hfin : forall t4, sync_spec s d s3 d3 (ev_now :: (t2 ++ t3) ++ t4)).
  { intros t4. destruct Ha as [[Ha1 Ha2]|[Ha1 Ha2]]; [|left; split; congruence].
    assert (routed desired (ev_now :: (t2 ++ t3) ++ t4) (running d3)) as Hr by (apply (routed_incl _ t3); [set_solver|done]).
    right. exists desired, (ev_now :: t2), (t3 ++ t4). split; [by rewrite <- app_assoc|]. split; [exact Hw|]. split; [done|].
    split; [exact Hr|]. by apply routed_exact. }
  destruct r as [[]|e|]; [|apply hwp_ret|]; (split; [done|]); try apply Hfin; specialize (Hfin []); by rewrite app_nil_r in Hfin.
Qed.

(** C9: the synchronisation of the peer map refines its specification, on a host
    where the agent alone writes the peer files and reloads nginx, and nginx
    loads the files exactly when a reload reports success: whatever read, write,
    removal or command fails, a synchronisation raises nothing, and it
    either leaves the running routes and the record of the applied map alone, to
    try again at the next interval, or records the map that the rows it read
    call for and has nginx run every route of it; the running routes are then
    exactly that map when every stale file could be removed, and otherwise
    include beside it only files whose removal was refused.  So every route of
    the recorded map is run after each synchronisation. *)
Theorem peer_sync_refines {W} (E : env host W) (view : W -> nginx) (w : W) (s : agent) :
  obeys (S := host) peer_step view E -> converged s (view w) ->
  exists r s' w' t, run E (_sync_tenant_routes s) w = (Ok (r, s'), w', t) /\ (forall e, r <> Exn e) /\
    sync_spec s (view w) s' (view w') t /\ converged s' (view w').
Proof.
  intros HE Hc. destruct (run_hwp peer_step view E _sync_tenant_routes s w _ HE (sync_spec_ok s (view w)))
    as (r & s' & w' & t & Hrun & Hex & Hs). exists r, s', w', t. split; [done|]. split; [done|]. split; [done|].
  intros h Hh. destruct Hs as [[E1 E2]|(desired & t1 & t2 & _ & _ & E1 & [E2 _] & _)].
  - rewrite E1 in Hh. destruct (Hc h Hh) as (desired & Hd & Hr). exists desired. split; [done|]. by rewrite E2.
  - exists desired. split; [congruence|done].
Qed.
End PeerSync.

(** ** Which tenants get a route *)

Section Desired.
Context `{AgentConfig}.

(** A row that calls for a route: a tenant with a routable status, owned by
    another host that has an address, without a block of its own here. *)
Definition wants_route (local_tids : list string) (ips : list (string * val)) (t : item) (tid : string) (ip : val) : Prop :=
  get t "id" = VStr tid /\ tid <> "" /\
  (exists st, get t "status" = VStr st /\ st ∈ _ROUTABLE_STATUSES) /\
  (tid ∉ local_tids) /\
  exists owner, get t "host_id" = VStr owner /\ owner <> INSTANCE_ID /\ alist_get owner ips = Some ip /\
    truthy ip = true.

Lemma is_str_in_iff v l : is_str_in v l = true <-> exists st, v = VStr st /\ st ∈ l.
Proof.
  unfold is_str_in. rewrite existsb_exists. split.
  - intros (st & Hin & Hv%is_str_true). exists st. split; [done|]. by apply list_elem_of_In.
  - intros (st & -> & Hin). exists st. split; [by apply list_elem_of_In|]. by apply is_str_true.
Qed.

Lemma peer_entry_routable l ips t tid tid' ip' :
  get t "id" = VStr tid ->
  peer_entry l ips t = Ok (Some (tid', ip')) <-> tid' = tid /\ exists ip, ip' = str_a ip /\ wants_route l ips t tid ip.
Proof.
  intros Hid. unfold peer_entry. rewrite Hid.
  assert (Hloc : existsb (fun x => val_eqb (VStr x) (VStr tid)) l = true <-> tid ∈ l).
  { rewrite existsb_exists. split.
    - intros (x & Hx & [= ->]%val_eqb_eq). by apply list_elem_of_In.
    - intros Hx. exists tid. split; [by apply list_elem_of_In|]. by apply val_eqb_eq. }
  split.
  - destruct (negb (truthy (VStr tid)) || _) eqn:E1; [done|]. apply orb_false_iff in E1 as [E1 E2].
    apply negb_false_iff in E1, E2. cbn in E1. apply negb_true_iff, bool_decide_eq_false in E1.
    apply is_str_in_iff in E2. destruct (val_eqb _ _ || _) eqn:E3; [done|].
    apply orb_false_iff in E3 as [E3 E4]. destruct (hashable _) eqn:E5; [|done]. cbn [negb].
    destruct (get t "host_id") as [| | | |o| |] eqn:Eo; try done.
    destruct (alist_get o ips) as [ip|] eqn:Ei; [|done]. destruct (truthy ip) eqn:Et; [|done]. cbn [negb]. intros [= <- <-]. split; [done|]. exists ip. split; [done|].
    split; [done|]. split; [done|]. split; [done|]. split; [intros Hx; apply Hloc in Hx; congruence|].
    exists o. split; [done|]. split; [|by split]. intros ->.
    by rewrite (proj2 (val_eqb_eq _ _) eq_refl) in E3.
  - intros (-> & ip & -> & _ & Hne & Hst & Hl & o & -> & Ho & Hi & Ht).
    apply is_str_in_iff in Hst as ->. cbn [truthy]. rewrite bool_decide_eq_false_2 by done. cbn [negb orb].
    assert (val_eqb (VStr o) (VStr INSTANCE_ID) = false) as ->.
    { apply not_true_is_false. by intros [= ->]%val_eqb_eq. }
    assert (existsb (fun x => val_eqb (VStr x) (VStr tid)) l = false) as ->.
    { apply not_true_is_false. by intros Hx%Hloc. }
    cbn. by rewrite Hi, Ht.
Qed.

Lemma desired_from_lookup l ips ts : forall m m',
  Forall (fun t => exists tid, get t "id" = VStr tid) ts -> NoDup (map (fun t => get t "id") ts) ->
  desired_from l ips ts m = Ok m' ->
  forall tid conf, alist_get tid m' = Some conf <->
    (exists t ip, t ∈ ts /\ wants_route l ips t tid ip /\ conf = _render_peer_conf tid (str_a ip)) \/
    (alist_get tid m = Some conf /\ forall t ip, t ∈ ts -> ~ wants_route l ips t tid ip).
Proof.
  induction ts as [|t ts IH]; intros m m' Hid Hnd; cbn [desired_from].
  { intros [= <-] tid conf. split; [|by intros [(? & ? & Hin & _)|[? _]]; [apply elem_of_nil in Hin|]].
    intros Hm. right. split; [done|]. intros t ip Hin. by apply elem_of_nil in Hin. }
  inversion Hid as [|? ? [x Hx] Hid']; subst. cbn [map] in Hnd. inversion Hnd as [|? ? Hnot Hnd']; subst.
  intros (e & He & Hd)%outcome_bind_Ok tid conf. rewrite (IH _ _ Hid' Hnd' Hd).
  assert (Hother : forall y ip, wants_route l ips t y ip -> forall u ip', u ∈ ts -> ~ wants_route l ips u y ip').
  { intros y ip (Hy & _) u ip' Hu (Hy' & _). apply Hnot. rewrite Hy, <- Hy'.
    by apply (list_elem_of_fmap_2 (fun t => get t "id")). }
  destruct e as [[y z]|].
  - apply (peer_entry_routable l ips t x y z Hx) in He as (-> & ip & -> & Hr). rewrite dict_get_set. split.
    + intros [(u & ip' & Hu & Hru & ->)|[Hm Hn]]; [left; exists u, ip'; split; [by right|done]|].
      destruct (bool_decide_reflect (x = tid)) as [->|Hne].
      * injection Hm as <-. left. exists t, ip. split; [left|done].
      * right. split; [done|]. intros u ip' [->|Hu]%elem_of_cons Hru; [|by eapply Hn].
        destruct Hru as (Hy & _). congruence.
    + intros [(u & ip' & [->|Hu]%elem_of_cons & Hru & ->)|[Hm Hn]].
      * right. assert (Hy := proj1 Hru). rewrite Hx in Hy. injection Hy as ->. rewrite bool_decide_eq_true_2 by done.
        split; [|by eapply Hother].
        destruct Hr as (_ & _ & _ & _ & o & Ho & _ & Hi & _), Hru as (_ & _ & _ & _ & o' & Ho' & _ & Hi' & _). congruence.
      * left. by exists u, ip'.
      * right. destruct (bool_decide_reflect (x = tid)) as [->|Hne]; [by destruct (Hn t ip); [left|]|].
        split; [done|]. intros u ip' Hu. apply Hn. by right.
  - assert (Hnone : forall ip, ~ wants_route l ips t tid ip).
    { intros ip Hr. assert (Hy := proj1 Hr). rewrite Hx in Hy. injection Hy as ->.
      assert (peer_entry l ips t = Ok (Some (tid, str_a ip))) by (apply peer_entry_routable with tid; eauto). congruence. }
    split.
    + intros [(u & ip' & Hu & Hru & ->)|[Hm Hn]]; [left; exists u, ip'; split; [by right|done]|].
      right. split; [done|]. intros u ip' [->|Hu]%elem_of_cons; [apply Hnone|by apply Hn].
    + intros [(u & ip' & [->|Hu]%elem_of_cons & Hru & ->)|[Hm Hn]]; [by destruct (Hnone ip')|left; by exists u, ip'|].
      right. split; [done|]. intros u ip' Hu. apply Hn. by right.
Qed.

(** C21: the peer map is exactly the set of routes the fleet calls for: a tenant
    gets one when its status is wants_route, another host owns it and has a known
    address, and this host has no block of its own for it; the route goes to
    that host's address. *)
Theorem peer_map_exact (local_tids : list string) (ips : list (string * val)) (tenants : list item)
    (m : list (string * string)) :
  Forall (fun t => exists tid, get t "id" = VStr tid) tenants -> NoDup (map (fun t => get t "id") tenants) ->
  desired_from local_tids ips tenants [] = Ok m ->
  forall tid conf, alist_get tid m = Some conf <->
    exists t ip, t ∈ tenants /\ wants_route local_tids ips t tid ip /\ conf = _render_peer_conf tid (str_a ip).
Proof.
  intros Hid Hnd Hd tid conf. rewrite (desired_from_lookup _ _ _ [] m Hid Hnd Hd). split; [|by left].
  intros [?|[Hm _]]; [done|discriminate Hm].
Qed.
End Desired.

(** ** Witnesses *)

(** A host with a working nginx whose [n]-th check fails when [bad n]. *)
Definition nginx_env (bad : nat -> bool) : env host (nginx * nat) := fun c w =>
  let '(d, n) := w in
  match c return (host_reply c + exn) * (nginx * nat) with
  | ListDir p => (if bool_decide (p = _PEER_DIR) then inl (map fst (map_to_list (conf_dir d)))
                  else inr (PyExn "FileNotFoundError" p), w)
  | WriteFile p content =>
      (inl tt, match peer_file p with Some f => (Nginx (<[f := content]> (conf_dir d)) (running d), n) | None => w end)
  | RemoveFile p =>
      (inl tt, match peer_file p with Some f => (Nginx (delete f (conf_dir d)) (running d), n) | None => w end)
  | MakeDirs _ | ReplaceFile _ _ | DdbResource _ => (inl tt, w)
  | RunProc argv _ =>
      if bool_decide (argv = ["nginx"; "-s"; "reload"])
      then (inl (Proc 0 "" ""), (Nginx (conf_dir d) (confs (conf_dir d)), n))
      else (inl (Proc (if bad n then 1 else 0) "" ""), (d, S n))
  | ScanProjected Tenants _ _ =>
      (inl (Page [{["id" := VStr "t9"; "host_id" := VStr "i-2"; "status" := VStr "running"]} : item] None), w)
  | ScanProjected _ _ _ =>
      (inl (Page [{["instance_id" := VStr "i-2"; "private_ip" := VStr "10.0.0.2"]} : item] None), w)
  | ImdsToken | ImdsRegion _ => (inl "us-west-2", w)
  | WallTime | Monotonic => (inl (float_of 1000), w)
  | _ => (inr (PyExn "OSError" "not available"), w)
  end.

Lemma nginx_env_obeys bad : obeys (S := host) peer_step fst (nginx_env bad).
Proof.
  intros c [d n]. destruct c; try done; cbn [nginx_env peer_step fst snd].
  - by destruct t.
  - split; [done|]. intros -> l. rewrite bool_decide_eq_true_2 by done. intros [= <-] f.
    rewrite list_elem_of_fmap. split.
    + intros ([g c] & -> & Hg%elem_of_map_to_list). by exists c.
    + intros [c Hc]. exists (f, c). split; [done|]. by apply elem_of_map_to_list.
  - destruct (peer_file path); [by left|done].
  - destruct (peer_file path); [by left|done].
  - by destruct (bool_decide _).
  - split; [done|]. by eexists.
Qed.

Definition never : nat -> bool := fun _ => false.

Lemma peer_sync_refines_witness :
  exists r s' w' t, run (nginx_env never) (_sync_tenant_routes (H := sample_agent_config) agent_start) (Nginx ∅ ∅, 0%nat)
    = (Ok (r, s'), w', t) /\ (forall e, r <> Exn e) /\
    sync_spec (H := sample_agent_config) agent_start (Nginx ∅ ∅) s' w'.1 t /\ converged (H := sample_agent_config) s' w'.1.
Proof.
  apply (peer_sync_refines (H := sample_agent_config)) with (view := fst) (w := (Nginx ∅ ∅, 0%nat)) (s := agent_start).
  - vm_compute. reflexivity.
  - apply nginx_env_obeys.
  - by intros h.
Defined.

(** In that run the route is loaded. *)
Example sample_sync_routes :
  running (run (nginx_env never) (_sync_tenant_routes (H := sample_agent_config) agent_start) (Nginx ∅ ∅, 0%nat)).1.2.1
  = peer_routes [("t9", _render_peer_conf "t9" "10.0.0.2")].
Proof. vm_decide. Qed.

Definition sample_tenant_row : item :=
  {["id" := VStr "t9"; "host_id" := VStr "i-2"; "status" := VStr "running"]}.
Definition sample_route : list (string * string) := [("t9", _render_peer_conf "t9" "10.0.0.2")].

Lemma peer_map_exact_witness :
  let conf := _render_peer_conf "t9" "10.0.0.2" in
  alist_get "t9" sample_route = Some conf <->
    exists t ip, t ∈ [sample_tenant_row] /\
      wants_route (H := sample_agent_config) [] [("i-2", VStr "10.0.0.2")] t "t9" ip /\
      conf = _render_peer_conf "t9" (str_a (H := sample_agent_config) ip).
Proof.
  cbn zeta. apply (peer_map_exact (H := sample_agent_config) [] [("i-2", VStr "10.0.0.2")] [sample_tenant_row] sample_route).
  - constructor; [by exists "t9"|constructor].
  - vm_decide.
  - vm_compute. reflexivity.
Defined.

(** A map that is rejected leaves its files behind when the tables go back to the
    map recorded before: the digest is the recorded one, so the files are not
    written again, and the next reload of anyone on the host loads the
    rejected files. *)
Definition map_a : list (string * string) := [("t1", "A")].
Definition map_b : list (string * string) := [("t1", "A"); ("t2", "B")].
Definition apply_three : AM unit :=
  let ap := apply_peers (H := sample_agent_config) in _ ← ap map_a; _ ← ap map_b; ap map_a.

Example files_left_behind :
  let '(o, (d, _), _) := run (nginx_env (fun n => (n =? 1)%nat)) (apply_three agent_start) (Nginx ∅ ∅, 0%nat) in
  running d = peer_routes map_a /\ conf_dir d = peer_routes map_b /\
  match o with Ok (_, s) => a_last_peer_hash s = Some (peer_digest (H := sample_agent_config) map_a) | _ => False end.
Proof. vm_decide. Qed.

(** A stale file that cannot be removed stays routed, although the map without
    it is recorded as applied: no later synchronisation of that map removes it. *)
Definition stuck_env : env host (nginx * nat) := fun c w =>
  match c return (host_reply c + exn) * (nginx * nat) with
  | RemoveFile p => (inr (PyExn "OSError" p), w)
  | c => nginx_env never c w
  end.
Definition apply_twice : AM unit :=
  let ap := apply_peers (H := sample_agent_config) in _ ← ap map_b; ap map_a.

Example stale_route_kept :
  let '(o, (d, _), _) := run stuck_env (apply_twice agent_start) (Nginx ∅ ∅, 0%nat) in
  running d = peer_routes map_b /\
  match o with Ok (_, s) => a_last_peer_hash s = Some (peer_digest (H := sample_agent_config) map_a) | _ => False end.
Proof. vm_decide. Qed.
