(* ===== verification/AgentBounds.v ===== *)
(** * The host agent: bounds

    The memory balloons stay within their limits, and the figures of a VM
    within theirs. *)

From Stdlib Require Import SpecFloat.
From S2P Require Import Prelude Py PyNum Effects Aws HostCalls Agent AgentMetrics PeerMap AgentLoop AgentSafety AgentReport.

Section AgentBounds.
Context `{AgentConfig}.

(** ** Balloons *)

(** Statistics as Firecracker reports them: the size of the balloon in MiB and
    the memory available to the guest in bytes. *)
Definition balloon_stats (current available : Z) : val :=
  VDict [("actual_mib", VInt current); ("stats", VDict [("available_memory", VInt available)])].

(** The memory of the guest beyond the minimum it must keep. *)
Definition reclaimable (available : Z) : Z := available / MiB - BALLOON_MIN_GUEST_AVAILABLE_MB.

(** What the balloon of a VM is to become, with [limit] MiB at most. *)
Definition balloon_target (pressure : spec_float) (limit current available : Z) : option Z :=
  if flt pressure LOW_PRESSURE then
    let target := Z.min (current + reclaimable available) limit in
    if (0 <? reclaimable available) && (current <? target) then Some target else None
  else if flt HIGH_PRESSURE pressure then if 0 <? current then Some 0 else None
  else None.

Lemma py_gt_int x y : py_gt (VInt x) (VInt y) = Ok (y <? x).
Proof. unfold py_gt. cbn. f_equal. unfold Z.ltb. rewrite (Z.compare_antisym x y). by destruct (x ?= y). Qed.
Lemma py_min_int x y : py_min (VInt x) (VInt y) = Ok (VInt (Z.min x y)).
Proof.
  unfold py_min. rewrite py_gt_int. cbn. f_equal. destruct (Z.ltb_spec y x); f_equal; lia.
Qed.

Lemma max_balloon_int mem : max_balloon (VInt mem) = int_scale mem BALLOON_MAX_INFLATE_RATIO.
Proof.
  unfold max_balloon, int_scale, py_mul, arith. cbn. unfold float_of_int.
  by destruct (binary_normalize _ _ _ _ _).
Qed.

Lemma balloon_decision_target pressure mem limit current available :
  int_scale mem BALLOON_MAX_INFLATE_RATIO = Ok limit ->
  balloon_decision pressure (VInt mem) (balloon_stats current available) =
    Ok (VInt <$> balloon_target pressure limit current available).
Proof.
  intros Hl. unfold balloon_decision.
  change (vget_or (balloon_stats current available) "actual_mib" (VInt 0)) with (Ok (VInt current)).
  change (available_mib (balloon_stats current available)) with (Ok (VInt (available / MiB))).
  rewrite max_balloon_int, Hl. cbn [mbind outcome_bind]. unfold balloon_target, reclaimable.
  destruct (flt pressure LOW_PRESSURE).
  - change (py_sub (VInt (available / MiB)) (VInt BALLOON_MIN_GUEST_AVAILABLE_MB))
      with (Ok (VInt (available / MiB - BALLOON_MIN_GUEST_AVAILABLE_MB))). cbn [mbind outcome_bind].
    rewrite py_gt_int. cbn [mbind outcome_bind]. destruct (0 <? _); [|done].
    change (py_add (VInt current) (VInt (available / MiB - BALLOON_MIN_GUEST_AVAILABLE_MB)))
      with (Ok (VInt (current + (available / MiB - BALLOON_MIN_GUEST_AVAILABLE_MB)))). cbn [mbind outcome_bind].
    rewrite py_min_int. cbn [mbind outcome_bind]. rewrite py_gt_int. cbn [mbind outcome_bind andb]. by destruct (current <? _).
  - destruct (flt HIGH_PRESSURE pressure); [|done]. rewrite py_gt_int. cbn [mbind outcome_bind]. by destruct (0 <? _).
Qed.

(** C20: the balloon of a VM follows the memory pressure of the host within its
    limits: it is inflated only when less than 20% of the host is available,
    never beyond the configured share of the VM's memory, and never so far that
    the guest keeps less than the minimum; it is deflated, to nothing, only when
    more than 40% is available; otherwise it is left alone. *)
Theorem balloon_bounds (pressure : spec_float) (mem limit current available : Z) :
  int_scale mem BALLOON_MAX_INFLATE_RATIO = Ok limit ->
  balloon_decision pressure (VInt mem) (balloon_stats current available) =
    Ok (VInt <$> balloon_target pressure limit current available) /\
  forall target, balloon_target pressure limit current available = Some target ->
    (flt pressure LOW_PRESSURE = true /\ current < target <= limit /\
       BALLOON_MIN_GUEST_AVAILABLE_MB <= available / MiB - (target - current)) \/
    (flt HIGH_PRESSURE pressure = true /\ 0 < current /\ target = 0).
Proof.
  intros Hl. split; [by apply balloon_decision_target|]. intros target. unfold balloon_target, reclaimable.
  destruct (flt pressure LOW_PRESSURE).
  - destruct (_ && _) eqn:E; [|done]. intros [= <-]. apply andb_true_iff in E as [E1 E2]. left. split; [done|]. lia.
  - destruct (flt HIGH_PRESSURE pressure); [|done]. destruct (0 <? current) eqn:E; [|done]. intros [= <-].
    right. split; [done|]. lia.
Qed.

(** ** Figures *)

Lemma digits_nonneg s : forall acc n, (forall a, acc = Some a -> 0 <= a) -> digits_from s acc = Some n -> 0 <= n.
Proof.
  induction s as [|c s IH]; intros acc n Ha; cbn [digits_from]; [by apply Ha|].
  destruct (digit_val c) as [d|] eqn:Ed; [|by apply Ha]. apply IH. intros a [= <-].
  unfold digit_val in Ed. destruct (_ && _) eqn:E; [|done]. injection Ed as <-.
  destruct acc as [b|]; cbn; [specialize (Ha b eq_refl)|]; lia.
Qed.

Lemma field_nonneg label line n : dumpe2fs_field label line = Some n -> 0 <= n.
Proof.
  unfold dumpe2fs_field. destruct (starts_with _ _); [|done]. destruct (str_drop _ _); [done|].
  destruct (is_space _); [|done]. by apply digits_nonneg.
Qed.

Definition natural (o : option Z) : Prop := forall n, o = Some n -> 0 <= n.
Definition blocks_ok (b : blocks) : Prop := natural (block_count b) /\ natural (block_size b) /\ natural (free_blocks b).

Lemma dumpe2fs_line_ok b line : blocks_ok b -> blocks_ok (dumpe2fs_line b line).
Proof.
  intros (H1 & H2 & H3). unfold dumpe2fs_line.
  destruct (dumpe2fs_field "Block count:" line) eqn:E1; [split; [|by split]; intros n [= <-]; by eapply field_nonneg|].
  destruct (dumpe2fs_field "Block size:" line) eqn:E2; [split; [done|split; [|done]]; intros n [= <-]; by eapply field_nonneg|].
  destruct (dumpe2fs_field "Free blocks:" line) eqn:E3; [split; [done|split; [done|]]; intros n [= <-]; by eapply field_nonneg|].
  done.
Qed.

Lemma dumpe2fs_bounds out used total : _parse_dumpe2fs_blocks out = (used, total) -> 0 <= total /\ used <= total.
Proof.
  unfold _parse_dumpe2fs_blocks.
  assert (Hb : blocks_ok (foldl dumpe2fs_line (Blocks None None None) (split_lines out ""))).
  { generalize (split_lines out ""). intros lines.
    assert (blocks_ok (Blocks None None None)) as Hb by (by repeat split; intros n).
    revert Hb. generalize (Blocks None None None). induction lines as [|l lines IH]; intros b Hb; [done|].
    apply IH. by apply dumpe2fs_line_ok. }
  destruct (foldl _ _ _) as [[c|] [z|] [f|]]; cbn in Hb; try (intros [= <- <-]; lia).
  destruct Hb as (H1 & H2 & H3). specialize (H1 c eq_refl). specialize (H2 z eq_refl). specialize (H3 f eq_refl).
  cbn in *. intros [= <- <-]. split; [apply Z.div_pos; [nia|done]|]. apply Z.div_le_mono; [done|nia].
Qed.

Definition disk_ok (x : Z * Z * Z) : Prop := 0 <= x.1.2 /\ x.1.1 <= x.1.2.

Lemma disk_usage_ok data_file : returns (_get_disk_usage data_file) disk_ok.
Proof.
  unfold _get_disk_usage. apply returns_step; [keeps_calls; done|]. intros []; cbn [negb]; [|by apply returns_ret].
  apply returns_catch; [|intros e; by apply returns_ret].
  apply returns_step; [keeps_calls; done|]. intros r. destruct (negb _); [by apply returns_ret|].
  destruct (_parse_dumpe2fs_blocks (stdout r)) as [used total] eqn:E. apply dumpe2fs_bounds in E.
  apply returns_step; [keeps_calls|]. intros pct. by apply returns_ret.
Qed.

Lemma compute_cpu_range pj pt cj ct vcpu clk pct : _compute_cpu_pct pj pt cj ct vcpu clk = Ok pct -> 0 <= pct <= 100.
Proof.
  unfold _compute_cpu_pct. destruct pj, cj, pt, ct; try (intros [= <-]; lia).
  destruct (fle _ _); [intros [= <-]; lia|]. destruct (_ <? _); [intros [= <-]; lia|].
  destruct (negb _); [intros [= <-]; lia|]. intros (b & _ & Hb)%outcome_bind_Ok.
  destruct (b || _); [injection Hb as <-; lia|].
  apply outcome_bind_Ok in Hb as (n & _ & Hb). apply outcome_bind_Ok in Hb as (v & _ & Hb).
  apply outcome_bind_Ok in Hb as (p & _ & [= <-]). lia.
Qed.

Lemma returns_lift {A} (o : outcome A) (Q : A -> Prop) : (forall a, o = Ok a -> Q a) -> returns (act_lift o) Q.
Proof. intros Ho s. apply hwp_lift. exact Ho. Qed.

Lemma sample_cpu_range tid pid vcpu : returns (_sample_cpu_pct tid pid vcpu) (fun pct => 0 <= pct <= 100).
Proof.
  unfold _sample_cpu_pct. apply returns_step; [keeps_calls; done|]. intros now.
  apply returns_step; [unfold _read_proc_stat_cpu_jiffies; keeps_calls; done|]. intros cur.
  apply returns_step; [keeps_calls|]. intros s.
  eapply (returns_bind _ _ (fun pct => 0 <= pct <= 100)).
  - apply returns_lift. intros pct. destruct (a_cpu_samples s !! tid) as [[? ?]|], cur; try (intros [= <-]; lia).
    apply compute_cpu_range.
  - intros pct Hp. apply returns_step; [keeps_calls; done|]. intros []. by apply returns_ret.
Qed.

(** The figures reported for a VM are within their bounds, whatever the host's
    files and commands answer: CPU usage from 0 to 100%, a disk capacity that
    is not negative, and no more disk used than there is. *)
Theorem metrics_bounded (tid : string) (mem vcpu : val) (sock data_file : string) (pid : option Z) (s : agent) :
  hawp (_compose_metrics tid mem sock data_file pid vcpu) s (fun r _ _ => forall m, r = Ok m ->
    0 <= cpu_pct m <= 100 /\ 0 <= disk_total_mb m /\ disk_used_mb m <= disk_total_mb m).
Proof.
  assert (Hm : returns (_compose_metrics tid mem sock data_file pid vcpu) (fun m =>
    0 <= cpu_pct m <= 100 /\ 0 <= disk_total_mb m /\ disk_used_mb m <= disk_total_mb m)); [|exact (Hm s)].
  unfold _compose_metrics. eapply returns_bind; [apply sample_cpu_range|]. intros cpu Hcpu.
  apply returns_step; [unfold _read_proc_status_rss_kb; keeps_calls; done|]. intros rss.
  apply returns_step; [unfold _get_balloon_stats; keeps_calls; done|]. intros stats.
  apply returns_step; [keeps_calls|]. intros [used mib].
  eapply returns_bind; [apply disk_usage_ok|]. intros [[du dt] dp] [Hd1 Hd2].
  do 2 (apply returns_step; [keeps_calls|intros ?]). by apply returns_ret.
Qed.
End AgentBounds.

(** ** Witness *)

(** 10% of the host is available, and the guest has 3 GiB to spare: the balloon
    grows to 40% of the 4 GiB. *)
Lemma balloon_bounds_witness :
  let _ := sample_agent_config in
  balloon_decision (int_ratio 1 10) (VInt 4096) (balloon_stats 100 (3584 * 1024 * 1024)) = Ok (Some (VInt 1638)) /\
  (balloon_decision (int_ratio 1 10) (VInt 4096) (balloon_stats 100 (3584 * 1024 * 1024)) =
     Ok (VInt <$> balloon_target (int_ratio 1 10) 1638 100 (3584 * 1024 * 1024)) /\
   forall target, balloon_target (int_ratio 1 10) 1638 100 (3584 * 1024 * 1024) = Some target ->
    (flt (int_ratio 1 10) LOW_PRESSURE = true /\ 100 < target <= 1638 /\
       BALLOON_MIN_GUEST_AVAILABLE_MB <= (3584 * 1024 * 1024) / MiB - (target - 100)) \/
    (flt HIGH_PRESSURE (int_ratio 1 10) = true /\ 0 < 100 /\ target = 0)).
Proof.
  split; [vm_compute; reflexivity|].
  apply (balloon_bounds (H := sample_agent_config)). vm_compute. reflexivity.
Defined.
