(* ===== verification/Runtimes.v ===== *)
(** * The runtime layer: [deploy/userdata/runtimes/__init__.py]

    The drivers behind the [Runtime] interface and their factory.  The
    interface is a class of the four operations, the drivers its instances;
    a driver is a program over the calls of a host. *)

From S2P Require Import Prelude Py Effects HostCalls Agent.

Abbreviation HM := (prog host).
Definition do_h (c : host_call) : HM (host_reply c) := call (S := host) c.

(** [RuntimeNotImplementedError] *)
Definition not_implemented {A} (m : string) : HM A := raise (PyExn "RuntimeNotImplementedError" m).

(** The lifecycle contract of a driver. *)
Class Runtime (R : Type) := {
  NAME : string;
  launch_vm : R -> string -> Z -> Z -> Z -> HM unit;
  stop_vm : R -> string -> Z -> HM unit;
  restart_vm : R -> string -> Z -> HM unit;
  balloon_set : R -> string -> Z -> HM unit
}.

(** ** Firecracker *)

Record FirecrackerRuntime := Firecracker { launch_script : string; stop_script : string }.

Definition fc_stop (r : FirecrackerRuntime) (tenant_id : string) (vm_num : Z) : HM unit :=
  _ ← do_h (RunProc ["bash"; stop_script r; tenant_id; pretty vm_num] None); mret tt.

Definition fc_launch (r : FirecrackerRuntime) (tenant_id : string) (vm_num vcpu mem_mb : Z) : HM unit :=
  do_h (Popen ["bash"; launch_script r; tenant_id; pretty vm_num; pretty vcpu; pretty mem_mb]).

Definition fc_balloon (r : FirecrackerRuntime) (tenant_id : string) (amount_mib : Z) : HM unit :=
  let sock := vm_file tenant_id "fc.sock" in
  there ← do_h (PathExists sock);
  if negb there then mret tt
  else
    _ ← do_h (RunProc ["curl"; "-sf"; "--unix-socket"; sock; "-X"; "PATCH"; "http://localhost/balloon";
                       "-H"; "Content-Type: application/json"; "-d";
                       json_dumps (fun _ => "") (VDict [("amount_mib", VInt amount_mib)])] None);
    mret tt.

#[export] Instance firecracker_runtime : Runtime FirecrackerRuntime := {
  NAME := "firecracker";
  launch_vm := fc_launch;
  stop_vm := fc_stop;
  restart_vm := fc_stop;
  balloon_set := fc_balloon
}.

(** ** The reserved drivers *)

Inductive CloudHypervisorRuntime := CloudHypervisor.
Inductive QemuRuntime := Qemu.

Definition chv_stub : HM unit := not_implemented "cloud_hypervisor driver is reserved but not yet implemented".
Definition qemu_stub : HM unit := not_implemented "qemu driver is reserved but not yet implemented".

#[export] Instance cloud_hypervisor_runtime : Runtime CloudHypervisorRuntime := {
  NAME := "cloud_hypervisor";
  launch_vm := fun _ _ _ _ _ => chv_stub;
  stop_vm := fun _ _ _ => chv_stub;
  restart_vm := fun _ _ _ => chv_stub;
  balloon_set := fun _ _ _ => chv_stub
}.

#[export] Instance qemu_runtime : Runtime QemuRuntime := {
  NAME := "qemu";
  launch_vm := fun _ _ _ _ _ => qemu_stub;
  stop_vm := fun _ _ _ => qemu_stub;
  restart_vm := fun _ _ _ => qemu_stub;
  balloon_set := fun _ _ _ => qemu_stub
}.

(** ** The factory *)

Inductive some_runtime :=
| SomeFirecracker (r : FirecrackerRuntime)
| SomeCloudHypervisor (r : CloudHypervisorRuntime)
| SomeQemu (r : QemuRuntime).

(** The keyword arguments of [FirecrackerRuntime]. *)
Fixpoint firecracker_init (kwargs : list (string * string)) (r : FirecrackerRuntime) : outcome FirecrackerRuntime :=
  match kwargs with
  | [] => Ok r
  | (k, v) :: rest =>
      if bool_decide (k = "launch_script") then firecracker_init rest (Firecracker v (stop_script r))
      else if bool_decide (k = "stop_script") then firecracker_init rest (Firecracker (launch_script r) v)
      else type_error ("FirecrackerRuntime.__init__() got an unexpected keyword argument " +:+ repr_str k)
  end.

(** A class without a constructor of its own takes no argument. *)
Definition plain_init {A} (kwargs : list (string * string)) (r : A) : outcome A :=
  match kwargs with [] => Ok r | _ => type_error "takes no arguments" end.

Definition default_firecracker : FirecrackerRuntime :=
  Firecracker "/home/ubuntu/launch-vm.sh" "/home/ubuntu/stop-vm.sh".

Definition _REGISTRY : list (string * (list (string * string) -> outcome some_runtime)) := [
  ("firecracker", fun kw => SomeFirecracker <$> firecracker_init kw default_firecracker);
  ("cloud_hypervisor", fun kw => SomeCloudHypervisor <$> plain_init kw CloudHypervisor);
  ("qemu", fun kw => SomeQemu <$> plain_init kw Qemu)].

Definition get_runtime (name : string) (kwargs : list (string * string)) : outcome some_runtime :=
  match alist_get name _REGISTRY with
  | None => value_error ("unknown runtime '" +:+ name +:+ "'; supported: " +:+
                         str_join ", " (sort_by str_le (map fst _REGISTRY)))
  | Some make =>
      instance ← make kwargs;
      if negb (bool_decide (name = "firecracker")) then
        Exn (PyExn "RuntimeNotImplementedError"
          ("runtime '" +:+ name +:+ "' is reserved in the protocol but not yet implemented"))
      else Ok instance
  end.

(** ** Properties *)

(** The factory hands out a Firecracker driver, with the scripts it was
    given or the default ones, for its name alone; a reserved name is refused
    as not implemented and any other as unknown, so that no caller gets a
    driver whose operations only raise. *)
Theorem get_runtime_spec (name : string) (launch stop : string) :
  let given := [("launch_script", launch); ("stop_script", stop)] in
  get_runtime name given =
    (if bool_decide (name = "firecracker") then Ok (SomeFirecracker (Firecracker launch stop))
     else if bool_decide (name ∈ ["cloud_hypervisor"; "qemu"]) then type_error "takes no arguments"
     else value_error ("unknown runtime '" +:+ name +:+ "'; supported: cloud_hypervisor, firecracker, qemu")) /\
  get_runtime name [] =
    (if bool_decide (name = "firecracker") then Ok (SomeFirecracker default_firecracker)
     else if bool_decide (name ∈ ["cloud_hypervisor"; "qemu"]) then
       Exn (PyExn "RuntimeNotImplementedError"
         ("runtime '" +:+ name +:+ "' is reserved in the protocol but not yet implemented"))
     else value_error ("unknown runtime '" +:+ name +:+ "'; supported: cloud_hypervisor, firecracker, qemu")).
Proof.
  cbn zeta. unfold get_runtime, _REGISTRY. cbn [alist_get].
  destruct (bool_decide_reflect (name = "firecracker")) as [->|]; [done|].
  rewrite (bool_decide_eq_false_2 ("firecracker" = name)) by congruence.
  destruct (decide (name = "cloud_hypervisor")) as [->|]; [done|].
  destruct (decide (name = "qemu")) as [->|]; [done|].
  rewrite !bool_decide_eq_false_2 by set_solver. done.
Qed.
