(* ===== verification/Cli.v ===== *)
(** * The command line: [cli/oc.py]

    One command of [oc] is a program over the calls of the tool: its directory
    and files, the process environment, the terminal, and one HTTP request.
    The command line is taken as [argparse] parses it: the subcommands of
    [_build_parser] are the constructors of [command] and their options its
    arguments.  A request that the service refuses is an [HTTPError]; it is
    carried beside the reply, with the body it may give.  [json_pretty] is
    [json.dumps(json.loads(t), indent=2, ensure_ascii=False)] where it does not
    raise, and [decode_replace] is [bytes.decode] with [errors="replace"]; both
    only reach the terminal. *)

From Stdlib Require Import SpecFloat.
From S2P Require Import Prelude Py PyNum Effects HostCalls.

(** ** The calls of the tool *)

Record http_request := Request {
  rq_method : string; rq_url : string; rq_data : option string; rq_headers : list (string * string) }.

(** [HTTPError]: its status, what [e.read().decode()] gives, and its text. *)
Record http_error := HttpError { he_code : Z; he_body : outcome string; he_text : string }.

Inductive cli_call :=
(* the names on the path of the working directory *)
| Cwd
| FileAt (path : string)
| ReadText (path : string)
| Environ (name : string)
| Input (prompt : string)
| Urlopen (r : http_request)
| PrintOut (text : string)
| PrintErr (text : string).

Definition cli_reply (c : cli_call) : Type :=
  match c with
  | Cwd => list string
  | FileAt _ => bool
  | ReadText _ => string
  | Environ _ => option string
  | Input _ => string
  | Urlopen _ => http_error + (Z * string)
  | PrintOut _ | PrintErr _ => unit
  end.

Definition cli : sig := Sig cli_call cli_reply.
Abbreviation CM := (prog cli).
Definition cli_do (c : cli_call) : CM (cli_reply c) := call (S := cli) c.

(** ** Configuration *)

(** [(here, *here.parents)] *)
Definition parents (here : list string) : list (list string) :=
  map (fun n => take n here) (rev (seq 0 (S (length here)))).

Definition path_text (names : list string) : string := "/" +:+ str_join "/" names.

(** The lines of a file of settings, over the settings read so far. *)
Fixpoint parse_env (lines : list string) (env : list (string * string)) : list (string * string) :=
  match lines with
  | [] => env
  | line :: rest =>
      let line := strip line in
      match split_once "=" line with
      | (k, Some v) =>
          if bool_decide (line = "") || starts_with "#" line then parse_env rest env
          else parse_env rest (dict_set (strip k) (strip v) env)
      | (_, None) => parse_env rest env
      end
  end.

Fixpoint find_env (dirs : list (list string)) : CM (list (string * string)) :=
  match dirs with
  | [] => mret []
  | parent :: rest =>
      let f := path_text (parent ++ [".env.deploy"]) in
      there ← cli_do (FileAt f);
      if there : bool then
        text ← cli_do (ReadText f);
        mret (parse_env (split_lines text "") [])
      else find_env rest
  end.

Definition _load_env_deploy_file : CM (list (string * string)) :=
  here ← cli_do Cwd; find_env (parents here).

(** [os.environ.get(name) or file_env.get(key, "")] *)
Definition env_or_file (name : option string) (key : string) (file_env : list (string * string)) : string :=
  match name with
  | Some v => if bool_decide (v = "") then default "" (alist_get key file_env) else v
  | None => default "" (alist_get key file_env)
  end.

Definition _load_env : CM (string * string) :=
  file_env ← _load_env_deploy_file;
  url ← cli_do (Environ "OC_API_URL");
  key ← cli_do (Environ "OC_API_KEY");
  mret (env_or_file url "API_URL" file_env, env_or_file key "API_KEY" file_env).

Definition _build_url (base endpoint : string) : string :=
  let base := if ends_with "/" base then str_take (String.length base - 1) base else base in
  let endpoint := if starts_with "/" endpoint then endpoint else "/" +:+ endpoint in
  base +:+ endpoint.

(** ** The request *)

(** [json.dumps] of a payload without floats. *)
Definition payload_text (v : val) : string := json_dumps (fun _ => "") v.

Definition api_request (url key method : string) (body : option val) : http_request :=
  let headers := [("X-api-key", key)] in
  match body with
  | None => Request method url None headers
  | Some b => Request method url (Some (payload_text b)) (headers ++ [("Content-Type", "application/json")])
  end.

Definition _request (method endpoint : string) (body : option val) : CM (http_error + (Z * string)) :=
  '(api_url, api_key) ← _load_env;
  if bool_decide (api_url = "") || bool_decide (api_key = "") then
    raise (PyExn "RuntimeError"
      "missing credentials: set OC_API_URL and OC_API_KEY (or run setup.sh to populate .env.deploy)")
  else cli_do (Urlopen (api_request (_build_url api_url endpoint) api_key method body)).

(** [urllib.parse.quote(s)]: the UTF-8 bytes that are not unreserved, in
    percent form. *)
Definition quote_safe (c : ascii) : bool :=
  let n := nat_of_ascii c in
  ((48 <=? n) && (n <=? 57) || (65 <=? n) && (n <=? 90) || (97 <=? n) && (n <=? 122))%nat ||
  existsb (fun d => bool_decide (c = d)) ["_"; "."; "-"; "~"; "/"]%char.
Definition upper_hex (n : nat) : ascii := ascii_of_nat (if (n <? 10)%nat then 48 + n else 55 + n).
Definition percent (n : nat) : string := String "%" (String (upper_hex (n / 16)) (String (upper_hex (n mod 16)) "")).
Fixpoint quote (s : string) : string :=
  match s with
  | EmptyString => EmptyString
  | String c s' =>
      let n := nat_of_ascii c in
      (if quote_safe c then String c ""
       else if (n <? 128)%nat then percent n
       else percent (192 + n / 64) +:+ percent (128 + n mod 64)) +:+ quote s'
  end.

(** ** The commands *)

Inductive verb := Restart | Start | Stop | Pause | Resume | BackupVm | ResetVm.

Definition verb_text (v : verb) : string :=
  match v with
  | Restart => "restart" | Start => "start" | Stop => "stop" | Pause => "pause"
  | Resume => "resume" | BackupVm => "backup" | ResetVm => "reset"
  end.
Definition ACTION_VERBS : list verb := [Restart; Start; Stop; Pause; Resume; BackupVm; ResetVm].

#[export] Instance verb_eq_dec : EqDecision verb.
Proof. solve_decision. Defined.

Inductive batch_action := BatchStop | BatchStart | BatchDelete | BatchBackup.
Definition batch_text (a : batch_action) : string :=
  match a with BatchStop => "stop" | BatchStart => "start" | BatchDelete => "delete" | BatchBackup => "backup" end.

#[export] Instance batch_action_eq_dec : EqDecision batch_action.
Proof. solve_decision. Defined.

(** The subcommands of [_build_parser] with their arguments; a flag says
    whether it was given. *)
Inductive command :=
| CmdList
| CmdGet (id : string)
| CmdCreate (name : string) (vcpu mem_mb : option Z) (config_template : string)
| CmdDelete (id : string) (force keep_data : bool)
| CmdAction (action : verb) (id : string)
| CmdResize (id : string) (vcpu : Z)
| CmdResizeDisk (id : string) (new_size_mb : Z)
| CmdMigrate (id target_host_id : string)
| CmdBatch (action : batch_action) (ids tag : option string)
| CmdAuditLog (since before : option string) (limit : option Z)
| CmdBackups
| CmdHosts
| CmdVersion.

#[export] Instance command_eq_dec : EqDecision command.
Proof. solve_decision. Defined.

(** The value of a [store_true] option with a default. *)
Definition store_true (dflt given : bool) : bool := if given then true else dflt.

(** [if x:] on an optional string. *)
Definition given (o : option string) : option string :=
  match o with Some s => if bool_decide (s = "") then None else Some s | None => None end.

Section Commands.
Context (json_pretty : string -> option string) (decode_replace : string -> string).

Definition _fmt_response (payload : string) : string :=
  match json_pretty payload with Some t => t | None => decode_replace payload end.

(** [_, body = _request(...); print(_fmt_response(body)); return 0] *)
Definition show_request (method endpoint : string) (body : option val) : CM (http_error + Z) :=
  r ← _request method endpoint body;
  match r with
  | inl e => mret (inl e)
  | inr (_, reply) => _ ← cli_do (PrintOut (_fmt_response reply)); mret (inr 0)
  end.

Definition cmd_list : CM (http_error + Z) := show_request "GET" "/tenants" None.
Definition cmd_get (id : string) : CM (http_error + Z) := show_request "GET" ("/tenants/" +:+ id) None.

Definition opt_entry (k : string) (v : option Z) : list (string * val) :=
  match v with Some z => [(k, VInt z)] | None => [] end.

Definition cmd_create (name : string) (vcpu mem_mb : option Z) (config_template : string) : CM (http_error + Z) :=
  show_request "POST" "/tenants" (Some (VDict (
    [("name", VStr name)] ++ opt_entry "vcpu" vcpu ++ opt_entry "mem_mb" mem_mb ++
    (if bool_decide (config_template = "") then [] else [("config_template", VStr config_template)])))).

(** The answer to the confirmation; the end of the input is an empty answer. *)
Definition ask (id : string) : CM string :=
  catch (a ← cli_do (Input ("Delete tenant " +:+ id +:+ "? [y/N]: ")); mret (lower (strip a)))
        (fun e => if is_exn ["EOFError"] e then mret "" else raise e).

Definition cmd_delete (id : string) (force keep_data : bool) : CM (http_error + Z) :=
  let go := show_request "DELETE"
              ("/tenants/" +:+ id +:+ "?keep_data=" +:+ (if store_true true keep_data then "true" else "false")) None in
  if negb force then
    ans ← ask id;
    if bool_decide (ans ∈ ["y"; "yes"]) then go
    else _ ← cli_do (PrintErr "aborted"); mret (inr 1)
  else go.

Definition tenant_path (id sub : string) : string := "/tenants/" +:+ id +:+ "/" +:+ sub.

Definition cmd_action (action : verb) (id : string) : CM (http_error + Z) :=
  show_request "POST" (tenant_path id (verb_text action)) None.
Definition cmd_resize (id : string) (vcpu : Z) : CM (http_error + Z) :=
  show_request "POST" (tenant_path id "resize") (Some (VDict [("vcpu", VInt vcpu)])).
Definition cmd_resize_disk (id : string) (new_size_mb : Z) : CM (http_error + Z) :=
  show_request "POST" (tenant_path id "resize-disk") (Some (VDict [("new_size_mb", VInt new_size_mb)])).
Definition cmd_migrate (id target_host_id : string) : CM (http_error + Z) :=
  show_request "POST" (tenant_path id "migrate") (Some (VDict [("target_host_id", VStr target_host_id)])).

(** [\[t.strip() for t in ids.split(",") if t.strip()\]] *)
Definition split_ids (ids : string) : list string :=
  filter (fun t => t <> "") (map strip (str_split "," ids)).

Definition cmd_batch (action : batch_action) (ids tag : option string) : CM (http_error + Z) :=
  let payload := ("action", VStr (batch_text action)) in
  match given ids, given tag with
  | Some l, _ => show_request "POST" "/batch/tenants" (Some (VDict [payload; ("ids", VList (map VStr (split_ids l)))]))
  | None, Some t => show_request "POST" "/batch/tenants" (Some (VDict [payload; ("filter", VDict [("tag", VStr t)])]))
  | None, None => _ ← cli_do (PrintErr "error: provide --ids or --tag"); mret (inr 2)
  end.

Definition audit_query (since before : option string) (limit : option Z) : string :=
  let params :=
    match given since with Some s => ["since=" +:+ quote s] | None => [] end ++
    match given before with Some b => ["before=" +:+ quote b] | None => [] end ++
    match limit with Some n => if n =? 0 then [] else ["limit=" +:+ pretty n] | None => [] end in
  match params with [] => "" | _ => "?" +:+ str_join "&" params end.

Definition cmd_audit_log (since before : option string) (limit : option Z) : CM (http_error + Z) :=
  show_request "GET" ("/audit-log" +:+ audit_query since before limit) None.

Definition cmd_backups : CM (http_error + Z) := show_request "GET" "/backups" None.
Definition cmd_hosts : CM (http_error + Z) := show_request "GET" "/hosts" None.

Definition VERSION : string := "0.7.0".
Definition cmd_version : CM (http_error + Z) := _ ← cli_do (PrintOut ("oc " +:+ VERSION)); mret (inr 0).

(** [args.func(args)] *)
Definition run_command (c : command) : CM (http_error + Z) :=
  match c with
  | CmdList => cmd_list
  | CmdGet id => cmd_get id
  | CmdCreate name vcpu mem_mb tmpl => cmd_create name vcpu mem_mb tmpl
  | CmdDelete id force keep_data => cmd_delete id force keep_data
  | CmdAction action id => cmd_action action id
  | CmdResize id vcpu => cmd_resize id vcpu
  | CmdResizeDisk id size => cmd_resize_disk id size
  | CmdMigrate id target => cmd_migrate id target
  | CmdBatch action ids tag => cmd_batch action ids tag
  | CmdAuditLog since before limit => cmd_audit_log since before limit
  | CmdBackups => cmd_backups
  | CmdHosts => cmd_hosts
  | CmdVersion => cmd_version
  end.

(** The exit status of the command; an exception of a handler itself escapes. *)
Definition main (c : command) : CM Z :=
  r ← catch (r ← run_command c; mret (inr r))
        (fun e =>
           if is_exn ["RuntimeError"; "NotImplementedError"; "RecursionError"] e
           then _ ← cli_do (PrintErr ("error: " +:+ exn_str e)); mret (inl 2)
           else _ ← cli_do (PrintErr ("error: " +:+ exn_str e)); mret (inl 1));
  match r with
  | inl code => mret code
  | inr (inr code) => mret code
  | inr (inl e) =>
      let body := match he_body e with Ok b => b | _ => he_text e end in
      _ ← cli_do (PrintErr ("HTTP " +:+ pretty (he_code e) +:+ ": " +:+ body)); mret 1
  end.
End Commands.

(** ** Properties *)

Abbreviation cev := (event cli).

(** The requests of a run, a served one, and an affirmative answer. *)
Definition request_of (e : cev) : option http_request :=
  match ev_call e with Urlopen r => Some r | _ => None end.
Definition sent (t : list cev) : list http_request := omap request_of t.

Definition served (e : cev) : bool :=
  match e with Ev (Urlopen _) (inl (inr _)) => true | _ => false end.
Definition affirmed (id : string) (e : cev) : bool :=
  match e with
  | Ev (Input p) (inl a) =>
      bool_decide (p = "Delete tenant " +:+ id +:+ "? [y/N]: ") && bool_decide (lower (strip a) ∈ ["y"; "yes"])
  | _ => false
  end.

(** A request of the tool: the given method and endpoint under some base
    address, with a key. *)
Definition request_for (method endpoint : string) (r : http_request) : Prop :=
  rq_method r = method /\
  (exists base, base <> "" /\ rq_url r = _build_url base endpoint) /\
  exists key, key <> "" /\ In ("X-api-key", key) (rq_headers r).

(** Such a request with its payload, and no header but the two of the tool. *)
Definition request_with (method endpoint : string) (body : option val) (r : http_request) : Prop :=
  request_for method endpoint r /\ rq_data r = option_map payload_text body /\
  exists key, key <> "" /\ rq_headers r = ("X-api-key", key) ::
    match body with Some _ => [("Content-Type", "application/json")] | None => [] end.

(** What a run that ends in [o] with the events [t] may have sent: nothing, or
    one request; it succeeds only when that request was served. *)
Definition one_request {A} (ok : outcome A -> Prop) (P : http_request -> Prop) (o : outcome A) (t : list cev) : Prop :=
  (sent t = [] \/ exists r, sent t = [r] /\ P r) /\ (ok o -> existsb served t = true).

Lemma sent_app t t' : sent (t ++ t') = sent t ++ sent t'.
Proof. apply omap_app. Qed.

Lemma silent_sent t : Forall (fun e => request_of e = None) t -> sent t = [].
Proof. induction 1 as [|e t He _ IH]; [done|]. cbn. rewrite He. exact IH. Qed.

Ltac cli_quiet :=
  repeat (cbn beta zeta; first
    [ progress awp_calls
    | match goal with |- awp (cli_do ?c) _ => apply (awp_all_events_call (S := cli) c); intros ? end
    | match goal with |- context [match ?x with _ => _ end] => destruct x end ]); try done.

Lemma load_env_silent : awp _load_env (fun _ t => Forall (fun e => request_of e = None) t).
Proof.
  unfold _load_env, _load_env_deploy_file. apply awp_all_events_bind; [|intros ?; cli_quiet].
  apply awp_all_events_bind; [cli_quiet|]. intros here. induction (parents here); cbn [find_env]; cli_quiet.
Qed.

Section CommandProperties.
Context (json_pretty : string -> option string) (decode_replace : string -> string).
Abbreviation show_request := (show_request json_pretty decode_replace).

Lemma request_once (method endpoint : string) (body : option val) :
  awp (_request method endpoint body)
    (one_request (fun o => exists s b, o = Ok (inr (s, b))) (request_with method endpoint body)).
Proof.
  unfold _request. apply awp_bind. eapply awp_mono; [apply load_env_silent|].
  intros [[url key]|e|] t Ht; cbn beta match; apply silent_sent in Ht;
    [|split; [by left|intros (s & b & [=])]..].
  destruct (bool_decide_reflect (url = "")) as [|Hu], (bool_decide_reflect (key = "")) as [|Hk]; cbn [orb];
    try (apply awp_done; rewrite app_nil_r; by split; [left|intros (s & b & [=])]).
  apply (awp_call (S := cli)). intros r. split.
  - right. eexists. rewrite sent_app, Ht. split; [reflexivity|]. unfold request_with, request_for. destruct body; cbn.
    all: split_and!; [done|by exists url|exists key; split; [done|left; done]|done|by exists key].
  - intros (s & b & Hok). rewrite existsb_app. apply orb_true_iff. right. by destruct r as [[|]|].
Qed.

Lemma show_request_once (method endpoint : string) (body : option val) :
  awp (show_request method endpoint body)
    (one_request (fun o => exists z, o = Ok (inr z)) (request_with method endpoint body)).
Proof.
  unfold show_request. apply awp_bind. eapply awp_mono; [apply request_once|].
  intros [[e|[s b]]|e|] t [Hs Hok]; cbn beta match.
  - apply awp_ret. rewrite app_nil_r. split; [done|by intros [z [=]]].
  - apply awp_bind. apply (awp_call (S := cli)). intros r.
    assert (Hs' : forall e, sent (t ++ [Ev (S := cli) (PrintOut (_fmt_response json_pretty decode_replace b)) e]) = sent t).
    { intros e. rewrite sent_app. apply app_nil_r. }
    assert (Hv : existsb served (t ++ [Ev (S := cli) (PrintOut (_fmt_response json_pretty decode_replace b)) r]) = true).
    { rewrite existsb_app, Hok by eauto. done. }
    destruct r as [[]|e]; cbn beta match; [apply awp_ret; rewrite app_nil_r|]; (split; [by rewrite Hs'|done]).
  - split; [done|by intros [z [=]]].
  - split; [done|by intros [z [=]]].
Qed.

(** Two ways to weaken what is known of a run. *)
Lemma one_request_mono {A} (ok ok' : outcome A -> Prop) (P P' : http_request -> Prop) o t :
  one_request ok P o t -> (ok' o -> ok o) -> (forall r, P r -> P' r) -> one_request ok' P' o t.
Proof.
  intros [[Hs|(r & Hs & HP)] Hok] H1 H2; (split; [|by intros ?%H1%Hok]); [by left|right; eauto].
Qed.

(** The requests a command stands for. *)
Definition request_of_command (c : command) (r : http_request) : Prop :=
  match c with
  | CmdList => request_for "GET" "/tenants" r
  | CmdGet id => request_for "GET" ("/tenants/" +:+ id) r
  | CmdCreate _ _ _ _ => request_for "POST" "/tenants" r
  | CmdDelete id _ _ => request_for "DELETE" ("/tenants/" +:+ id +:+ "?keep_data=true") r
  | CmdAction v id => request_for "POST" ("/tenants/" +:+ id +:+ "/" +:+ verb_text v) r
  | CmdResize id _ => request_for "POST" ("/tenants/" +:+ id +:+ "/resize") r
  | CmdResizeDisk id _ => request_for "POST" ("/tenants/" +:+ id +:+ "/resize-disk") r
  | CmdMigrate id _ => request_for "POST" ("/tenants/" +:+ id +:+ "/migrate") r
  | CmdBatch _ _ _ => request_for "POST" "/batch/tenants" r
  | CmdAuditLog since before limit => request_for "GET" ("/audit-log" +:+ audit_query since before limit) r
  | CmdBackups => request_for "GET" "/backups" r
  | CmdHosts => request_for "GET" "/hosts" r
  | CmdVersion => False
  end.

(** The payload of a command, by its arguments. *)
Definition command_body (c : command) : option val :=
  match c with
  | CmdCreate name vcpu mem_mb tmpl => Some (VDict (("name", VStr name) ::
      from_option (fun n => [("vcpu", VInt n)]) [] vcpu ++ from_option (fun n => [("mem_mb", VInt n)]) [] mem_mb ++
      match tmpl with EmptyString => [] | _ => [("config_template", VStr tmpl)] end))
  | CmdResize _ vcpu => Some (VDict [("vcpu", VInt vcpu)])
  | CmdResizeDisk _ size => Some (VDict [("new_size_mb", VInt size)])
  | CmdMigrate _ target => Some (VDict [("target_host_id", VStr target)])
  | CmdBatch a (Some (String x l)) _ =>
      Some (VDict [("action", VStr (batch_text a));
                   ("ids", VList (map VStr (filter (fun id => id <> "") (map strip (str_split "," (String x l))))))])
  | CmdBatch a _ tag => Some (VDict [("action", VStr (batch_text a)); ("filter", VDict [("tag", VStr (default "" tag))])])
  | _ => None
  end.

(** The request a command stands for: its method and endpoint, and its payload. *)
Definition stands_for (c : command) (r : http_request) : Prop :=
  request_of_command c r /\ exists method endpoint, request_with method endpoint (command_body c) r.

Definition exits_zero (c : command) (o : outcome (http_error + Z)) : Prop := c <> CmdVersion /\ o = Ok (inr 0).

Lemma run_command_once (c : command) :
  awp (run_command json_pretty decode_replace c) (one_request (exits_zero c) (stands_for c)).
Proof.
  assert (Hshow : forall m e b, b = command_body c -> (forall r, request_for m e r -> request_of_command c r) ->
    awp (show_request m e b) (one_request (exits_zero c) (stands_for c))).
  { intros m e b -> Hr. eapply awp_mono; [apply show_request_once|]. intros o t Ht.
    eapply one_request_mono; [exact Ht|intros [_ ->]; eauto|]. intros r Hw. split; [by apply Hr, Hw|by exists m, e]. }
  assert (Hprint : forall k text z, k = PrintOut text \/ k = PrintErr text -> (z = 0 -> c = CmdVersion) ->
    awp (_ ← cli_do k; mret (inr z)) (one_request (A := http_error + Z) (exits_zero c) (stands_for c))).
  { intros k text z Hk Hz. apply awp_bind, (awp_call (S := cli)). intros r.
    destruct r; cbn beta match; [apply awp_ret|]; (split; [left; by destruct Hk; subst k|]);
      intros [Hc [=]]; by destruct Hc; apply Hz. }
  destruct c; cbn [run_command]; try (by apply Hshow).
  - apply Hshow; [|done]. by destruct vcpu, mem_mb, config_template.
  - destruct force; [by apply Hshow; destruct keep_data|]. unfold cmd_delete. cbn [negb].
    apply awp_bind. unfold ask. apply awp_catch, awp_bind, (awp_call (S := cli)). intros [a|e]; cbn beta match;
      [apply awp_ret|destruct (is_exn _ e); [apply awp_ret|apply awp_done]]; rewrite ?app_nil_r.
    all: try (split; [by left|by intros [_ [=]]]).
    all: case_bool_decide; (eapply awp_mono; [first [apply Hshow; by destruct keep_data|by eapply Hprint; [right|done]]|]).
    all: intros o t [Hs Hok]; split; [exact Hs|exact Hok].
  - unfold cmd_batch. destruct ids as [[|x l]|], tag as [[|y g]|]; try (by apply Hshow); by eapply Hprint; [right|done].
  - by eapply Hprint; [left|].
Qed.

(** An unforced deletion asks first. *)
Definition is_request (e : cev) : Prop := request_of e <> None.
Definition after_yes (id : string) (pre : list cev) (_ : cev) : Prop := existsb (affirmed id) pre = true.

Lemma guarded_after_yes id pre t : existsb (affirmed id) pre = true -> guarded is_request (after_yes id) pre t.
Proof. intros Hp t1 e t2 _ _. unfold after_yes. by rewrite existsb_app, Hp. Qed.

Lemma delete_guarded (id : string) (keep_data : bool) :
  awp (cmd_delete json_pretty decode_replace id false keep_data)
    (fun _ t => guarded is_request (after_yes id) [] t).
Proof.
  unfold cmd_delete. cbn [negb]. apply awp_bind. unfold ask. apply awp_catch, awp_bind, (awp_call (S := cli)).
  intros [a|e]; cbn beta match.
  - apply awp_ret. rewrite ?app_nil_r. case_bool_decide as Ha.
    + eapply awp_mono; [apply awp_trivial|]. intros o t _.
      apply (guarded_app is_request (after_yes id) [] [_] t); [apply guarded_free; repeat constructor; by intros []|].
      apply guarded_after_yes. cbn. rewrite !bool_decide_eq_true_2 by done. done.
    + apply awp_bind, (awp_call (S := cli)). intros []; cbn beta match; [apply awp_ret|];
        apply guarded_free; repeat constructor; by intros [].
  - destruct (is_exn _ e); [|apply awp_done; apply guarded_free; repeat constructor; by intros []].
    apply awp_ret. rewrite ?app_nil_r. case_bool_decide as Ha; [set_solver|].
    apply awp_bind, (awp_call (S := cli)). intros []; cbn beta match; [apply awp_ret|];
      apply guarded_free; repeat constructor; by intros [].
Qed.

(** The end of the tool: what holds of the events of a command still holds
    after an error message, and the status 0 is that of the command. *)
Lemma main_ends (c : command) (I ok : list cev -> Prop) :
  awp (run_command json_pretty decode_replace c) (fun o t => I t /\ (o = Ok (inr 0) -> ok t)) ->
  (forall t text r, I t -> I (t ++ [Ev (S := cli) (PrintErr text) r])) ->
  awp (main json_pretty decode_replace c) (fun o t => I t /\ (o = Ok 0 -> ok t)).
Proof.
  intros Hc HI.
  assert (Hend : forall text (z : Z) t, z <> 0 -> I t ->
    awp (_ ← cli_do (PrintErr text); mret z) (fun o t' => I (t ++ t') /\ (o = Ok 0 -> ok (t ++ t')))).
  { intros text z t Hz Ht. apply awp_bind, (awp_call (S := cli)). intros r.
    destruct r; cbn beta match; [apply awp_ret|]; (split; [by apply HI|congruence]). }
  unfold main. apply awp_bind, awp_catch, awp_bind. eapply awp_mono; [exact Hc|].
  intros [r|e|] t [Ht Hok]; cbn beta match; [apply awp_ret; rewrite app_nil_r|case_match|by split].
  - destruct r as [e|z]; [by apply Hend|]. apply awp_ret. rewrite app_nil_r. by split; [|intros [= ->]; apply Hok].
  - apply awp_bind, (awp_call (S := cli)). intros []; cbn beta match;
      [do 2 apply awp_ret; rewrite !app_nil_r|]; (split; [by apply HI|congruence]).
  - apply awp_bind, (awp_call (S := cli)). intros []; cbn beta match;
      [do 2 apply awp_ret; rewrite !app_nil_r|]; (split; [by apply HI|congruence]).
Qed.

(** What a run sends, and with which status it ends. *)
Definition main_sends (c : command) (o : outcome Z) (t : list cev) : Prop :=
  ((sent t = [] \/ exists r, sent t = [r] /\ stands_for c r) /\
   forall id keep_data, c = CmdDelete id false keep_data -> guarded is_request (after_yes id) [] t) /\
  (o = Ok 0 -> c = CmdVersion \/ existsb served t = true).

Lemma main_awp (c : command) : awp (main json_pretty decode_replace c) (main_sends c).
Proof.
  apply main_ends.
  - eapply awp_mono; [apply awp_and; [apply run_command_once|]|].
    + instantiate (1 := fun _ t => forall id keep_data, c = CmdDelete id false keep_data ->
        guarded is_request (after_yes id) [] t).
      destruct c as [| | |i [] k| | | | | | | | |]; try by (eapply awp_mono; [apply awp_trivial|]).
      eapply awp_mono; [apply delete_guarded|]. by intros o t Ht id keep [= <- <-].
    + intros o t [[Hs Hok] Hg]. split; [by split|]. intros ->.
      destruct (decide (c = CmdVersion)) as [|n]; [by left|right; by apply Hok].
  - intros t text r [Hs Hg]. split; [by rewrite sent_app, app_nil_r|]. intros id keep Hc.
    apply guarded_app; [by eapply Hg|]. apply guarded_free. repeat constructor. by intros [].
Qed.

(** C39: A command of the tool sends one request at most: the one it stands for,
    with its method, endpoint and payload and the headers of the tool, under some
    address and with some key, neither of them empty.  It exits with status 0 only when the
    service answered the request (or it is [oc version]), and [oc delete]
    without --force sends its request only after an affirmative answer to its
    question; [oc batch delete] asks nothing.  A deletion of a single tenant
    always asks the service to keep the data. *)
Theorem main_spec {W} (E : env cli W) (w : W) (c : command) :
  let '(o, _, t) := run E (main json_pretty decode_replace c) w in
  (sent t = [] \/ exists r, sent t = [r] /\ stands_for c r) /\
  (o = Ok 0 -> c = CmdVersion \/ existsb served t = true) /\
  (forall id keep_data, c = CmdDelete id false keep_data -> guarded is_request (after_yes id) [] t).
Proof.
  pose proof (awp_run E _ w _ (main_awp c)) as R. destruct (run E _ w) as [[o w'] t]. by destruct R as [[? ?] ?].
Qed.
End CommandProperties.
