(* ===== verification/EnvFile.v ===== *)
(** * The settings file: [setup.sh] (lines 228 to 250) writes it, [cli/oc.py] reads it

    The setup writes [.env.deploy] from the outputs of the stack: a comment, the
    region and the profile, a line per output that [awk] makes of its two
    columns, and the value of the API key whose id is among them.  The shell
    code is translated with the text of the outputs ([--output text], less its
    trailing line feeds), the stamp of the comment and the answer of
    [aws apigateway get-api-key] as parameters; the tool reads the file with
    [Cli.parse_env]. *)

From S2P Require Import Prelude Py PyNum Cli.

(** ** What the setup writes *)

Definition lf : string := String line_feed "".
Definition tab : ascii := ascii_of_nat 9.

(** A capital letter, [c ~ /\[A-Z\]/], and [toupper(c)]. *)
Definition capital (c : ascii) : bool := let n := nat_of_ascii c in ((65 <=? n) && (n <=? 90))%nat.
Definition toupper (c : ascii) : ascii :=
  let n := nat_of_ascii c in if ((97 <=? n) && (n <=? 122))%nat then ascii_of_nat (n - 32) else c.

(** The loop over the characters of a key: an underscore before each capital but
    a first one, everything in upper case. *)
Fixpoint setting_rest (s : string) : string :=
  match s with
  | EmptyString => EmptyString
  | String c s' => (if capital c then "_" else "") +:+ String (toupper c) (setting_rest s')
  end.
Definition setting_name (key : string) : string :=
  match key with EmptyString => EmptyString | String c s' => String (toupper c) (setting_rest s') end.

(** The fields of a line: what stands between blanks. *)
Definition blank (c : ascii) : bool := bool_decide (c = " "%char) || bool_decide (c = tab).
Fixpoint fields (s word : string) : list string :=
  let flush := if bool_decide (word = "") then [] else [word] in
  match s with
  | EmptyString => flush
  | String c s' => if blank c then flush ++ fields s' "" else fields s' (word +:+ String c "")
  end.

(** [print out"="$2] *)
Definition awk_line (line : string) : string :=
  let f := fields line "" in setting_name (default "" (f !! 0%nat)) +:+ "=" +:+ default "" (f !! 1%nat).

(** The here-document. *)
Definition env_document (stamp region profile outputs : string) : string :=
  "# Auto-generated by setup.sh " +:+ stamp +:+ lf +:+
  "REGION=" +:+ region +:+ lf +:+
  "PROFILE=" +:+ profile +:+ lf +:+
  str_join lf (map awk_line (str_split line_feed outputs)) +:+ lf.

(** [cut -d= -f2] of a line, and [$(...)]: without the line feeds at the end. *)
Definition cut_f2 (line : string) : string :=
  match split_once "=" line with (_, Some r) => fst (split_once "=" r) | (l, None) => l end.
Fixpoint chomp (s : string) : string :=
  match s with
  | EmptyString => EmptyString
  | String c s' => match chomp s' with
                   | EmptyString => if bool_decide (c = line_feed) then EmptyString else String c EmptyString
                   | t => String c t
                   end
  end.

(** [$(grep '^API_KEY_ID=' file | cut -d= -f2)]; where no line is found the
    script ends there ([pipefail]), with the file as it is. *)
Definition key_id_in (text : string) : string :=
  chomp (str_join lf (map cut_f2 (List.filter (starts_with "API_KEY_ID=") (str_split line_feed text)))).

Section Writing.
Context (get_api_key : string -> string).

Definition env_deploy (stamp region profile outputs : string) : string :=
  let text := env_document stamp region profile outputs in
  let id := key_id_in text in
  if bool_decide (id = "") then text else text +:+ "API_KEY=" +:+ get_api_key id +:+ lf.

(** ** What the tool reads *)

(** The two columns of the outputs, and the settings they stand for. *)
Definition output_text (outputs : list (string * string)) : string :=
  str_join lf (map (fun kv : string * string => kv.1 +:+ String tab kv.2) outputs).
Definition settings (region profile : string) (outputs : list (string * string)) : list (string * string) :=
  ("REGION", region) :: ("PROFILE", profile) :: map (fun kv : string * string => (setting_name kv.1, kv.2)) outputs.
Definition key_setting (s : list (string * string)) : list (string * string) :=
  match alist_get "API_KEY_ID" s with Some id => [("API_KEY", get_api_key id)] | None => [] end.

(** The name of a key: its words - the capitals begin them, but the first word
    may begin with anything - in upper case, with underscores between them. *)
Fixpoint upper (s : string) : string :=
  match s with EmptyString => EmptyString | String c s' => String (toupper c) (upper s') end.
Fixpoint lone (s : string) : bool :=
  match s with EmptyString => true | String c s' => negb (capital c) && lone s' end.
Definition word (s : string) : Prop := exists c rest, s = String c rest /\ lone rest = true.
Definition capital_word (s : string) : Prop := exists c rest, s = String c rest /\ lone rest = true /\ capital c = true.
Definition spelled (key name : string) : Prop :=
  exists first words, word first /\ Forall capital_word words /\
    key = first +:+ str_join "" words /\ name = str_join "_" (map upper (first :: words)).

(** No character at which [splitlines] breaks. *)
Definition line_break (c : ascii) : bool :=
  bool_decide (c = ascii_of_nat 13) || existsb (Nat.eqb (nat_of_ascii c)) [10; 11; 12; 28; 29; 30; 133]%nat.
Fixpoint one_line (s : string) : bool :=
  match s with EmptyString => true | String c s' => negb (line_break c) && one_line s' end.

(** A key of an output is made of letters and digits, a value of visible
    characters; the region, the profile and the API key are on one line, with
    no space around them. *)
Definition letter_digit (c : ascii) : bool :=
  let n := nat_of_ascii c in
  ((48 <=? n) && (n <=? 57) || (65 <=? n) && (n <=? 90) || (97 <=? n) && (n <=? 122))%nat.
Definition visible (c : ascii) : bool := let n := nat_of_ascii c in ((33 <=? n) && (n <=? 126))%nat.
Fixpoint every (p : ascii -> bool) (s : string) : bool :=
  match s with EmptyString => true | String c s' => p c && every p s' end.
Definition a_word (p : ascii -> bool) (s : string) : bool := negb (bool_decide (s = "")) && every p s.
Definition fits (v : string) : bool := one_line v && bool_decide (strip v = v).

Record deployable (stamp region profile : string) (outputs : list (string * string)) : Prop := {
  dep_stamp : one_line stamp = true;
  dep_region : fits region = true;
  dep_profile : fits profile = true;
  dep_some : outputs <> [];
  dep_outputs : Forall (fun kv => a_word letter_digit kv.1 = true /\ a_word visible kv.2 = true) outputs;
  dep_names : NoDup ("API_KEY" :: map fst (settings region profile outputs));
  dep_key : forall id, alist_get "API_KEY_ID" (settings region profile outputs) = Some id ->
    has_char "=" id = false /\ fits (get_api_key id) = true
}.
End Writing.

(** ** Lines *)

(** A setting on a line, and those that can be read back. *)
Definition env_line (kv : string * string) : string := kv.1 +:+ "=" +:+ kv.2.
Definition env_text (kvs : list (string * string)) : string := foldr (fun kv s => env_line kv +:+ lf +:+ s) "" kvs.
Definition readable (kv : string * string) : bool :=
  one_line kv.1 && one_line kv.2 && bool_decide (strip kv.1 = kv.1) && bool_decide (strip kv.2 = kv.2) &&
  negb (has_char "=" kv.1) && negb (starts_with "#" kv.1).

Lemma split_lines_app s rest : forall line, one_line s = true ->
  split_lines (s +:+ String line_feed rest) line = (line +:+ s) :: split_lines rest "".
Proof.
  induction s as [|c s IH]; intros line Hs; [by rewrite str_app_nil_r|].
  cbn [one_line] in Hs. apply andb_true_iff in Hs as [[Hc Hb]%negb_true_iff%orb_false_iff Hs].
  rewrite str_app_cons. cbn [split_lines]. rewrite Hc, Hb, IH by done. f_equal. by rewrite str_app_assoc.
Qed.

Lemma one_line_app s t : one_line (s +:+ t) = one_line s && one_line t.
Proof. induction s as [|c s IH]; [done|]. rewrite str_app_cons. cbn [one_line]. by rewrite IH, andb_assoc. Qed.

Lemma lstrip_length s : (String.length (lstrip s) <= String.length s)%nat.
Proof. induction s as [|c s IH]; cbn; [lia|]. destruct (is_space c); cbn; lia. Qed.

Lemma rstrip_length s : (String.length (rstrip s) <= String.length s)%nat.
Proof.
  induction s as [|c s IH]; cbn [rstrip]; [done|]. destruct (rstrip s); cbn in *; [|lia]. destruct (is_space c); cbn; lia.
Qed.

Lemma strip_parts s : strip s = s -> lstrip s = s /\ rstrip s = s.
Proof.
  unfold strip. intros Hs. assert (Hl : lstrip s = s); [|by rewrite Hl in Hs].
  destruct s as [|c s]; [done|]. cbn in *. destruct (is_space c) eqn:Hc; [|done]. exfalso.
  pose proof (rstrip_length (lstrip s)) as H1. pose proof (lstrip_length s) as H2. rewrite Hs in H1. cbn in H1. lia.
Qed.

Lemma rstrip_app s c t : is_space c = false -> rstrip (s +:+ String c t) = s +:+ String c (rstrip t).
Proof.
  intros Hc. induction s as [|a s IH].
  - rewrite !str_app_nil_l. cbn [rstrip]. rewrite Hc. by destruct (rstrip t).
  - rewrite !str_app_cons. cbn [rstrip]. rewrite IH. by destruct s.
Qed.

Lemma strip_line k v : strip k = k -> strip v = v -> strip (k +:+ "=" +:+ v) = k +:+ "=" +:+ v.
Proof.
  intros [Hk _]%strip_parts [_ Hv]%strip_parts. unfold strip.
  assert (Hl : lstrip (k +:+ "=" +:+ v) = k +:+ "=" +:+ v).
  { destruct k as [|c k]; [done|]. rewrite str_app_cons. cbn in Hk |- *. destruct (is_space c); [|done].
    exfalso. pose proof (lstrip_length k) as H. rewrite Hk in H. cbn in H. lia. }
  rewrite Hl. change ("=" +:+ v) with (String "=" v). rewrite rstrip_app by done. by rewrite Hv.
Qed.

Lemma split_setting k v : has_char "=" k = false -> split_once "=" (k +:+ "=" +:+ v) = (k, Some v).
Proof. apply split_once_first. Qed.

Lemma parse_line k v rest env :
  readable (k, v) = true -> k ∉ map fst env ->
  parse_env ((k +:+ "=" +:+ v) :: rest) env = parse_env rest (env ++ [(k, v)]).
Proof.
  unfold readable. cbn [fst snd]. rewrite !andb_true_iff, !negb_true_iff, !bool_decide_eq_true.
  intros [[[[_ Hk] Hv] Heq] Hhash] Hnew. cbn [parse_env]. rewrite strip_line by done.
  rewrite split_setting by done. rewrite bool_decide_eq_false_2 by (by destruct k).
  assert (Hh : starts_with "#" (k +:+ "=" +:+ v) = false).
  { destruct k as [|c k]; [done|]. rewrite str_app_cons. cbn in Hhash |- *. by rewrite andb_true_r in *. }
  rewrite Hh. cbn [orb]. rewrite Hk, Hv. by rewrite dict_set_fresh.
Qed.

Lemma lf_app s t : s +:+ lf +:+ t = s +:+ String line_feed t.
Proof. done. Qed.

Lemma parse_env_text kvs : forall env,
  Forall (fun kv => readable kv = true) kvs -> NoDup (map fst (env ++ kvs)) ->
  parse_env (split_lines (env_text kvs) "") env = env ++ kvs.
Proof.
  induction kvs as [|[k v] kvs IH]; intros env Hg Hnd; [by rewrite app_nil_r|].
  inversion Hg as [|? ? Hkv Hkvs]; subst. change (env_text ((k, v) :: kvs)) with (env_line (k, v) +:+ lf +:+ env_text kvs).
  rewrite lf_app, split_lines_app.
  - rewrite str_app_nil_l. unfold env_line. cbn [fst snd]. rewrite parse_line, IH, <- app_assoc; try done.
    + by rewrite <- app_assoc.
    + rewrite map_app in Hnd. apply list.NoDup_app in Hnd as (_ & Hd & _). intros Hin. apply (Hd k Hin). left.
  - unfold readable in Hkv. cbn [fst snd] in Hkv. rewrite !andb_true_iff in Hkv. destruct Hkv as [[[[[Hk Hv] _] _] _] _].
    unfold env_line. cbn [fst snd]. by rewrite !one_line_app, Hk, Hv.
Qed.

Lemma env_text_app kvs kvs' : env_text (kvs ++ kvs') = env_text kvs +:+ env_text kvs'.
Proof.
  induction kvs as [|kv kvs IH]; [done|].
  change (env_text ((kv :: kvs) ++ kvs')) with (env_line kv +:+ lf +:+ env_text (kvs ++ kvs')).
  change (env_text (kv :: kvs)) with (env_line kv +:+ lf +:+ env_text kvs). by rewrite IH, !str_app_assoc.
Qed.

Lemma join_lines l : l <> [] -> str_join lf l +:+ lf = foldr (fun x s => x +:+ lf +:+ s) "" l.
Proof.
  induction l as [|x [|y l] IH]; intros Hl; [done|done|].
  change (str_join lf (x :: y :: l)) with (x +:+ lf +:+ str_join lf (y :: l)). rewrite !str_app_assoc, IH by done. done.
Qed.

Lemma split_joined l : Forall (fun x => has_char line_feed x = false) l -> l <> [] ->
  str_split line_feed (str_join lf l) = l.
Proof.
  induction l as [|x [|y l] IH]; intros Hf Hl; [done| |]; apply Forall_cons_iff in Hf as [Hx Hf].
  - by apply str_split_none.
  - change (str_join lf (x :: y :: l)) with (x +:+ String line_feed (str_join lf (y :: l))).
    by rewrite str_split_app, IH.
Qed.

Lemma split_terminated l : Forall (fun x => has_char line_feed x = false) l ->
  str_split line_feed (foldr (fun x s => x +:+ lf +:+ s) "" l) = l ++ [""].
Proof.
  induction 1 as [|x l Hx Hl IH]; [done|]. cbn [foldr app]. by rewrite lf_app, str_split_app, IH.
Qed.

(** ** Characters *)

Lemma every_weaken (p q : ascii -> bool) s : (forall c, p c = true -> q c = true) -> every p s = true -> every q s = true.
Proof. intros Hw. induction s as [|c s IH]; [done|]. cbn. intros [Hc Hs]%andb_true_iff. by rewrite Hw, IH. Qed.

Lemma every_free (p : ascii -> bool) c s : p c = false -> every p s = true -> has_char c s = false.
Proof.
  intros Hc. induction s as [|a s IH]; [done|]. cbn. intros [Ha Hs]%andb_true_iff. rewrite IH, orb_false_r by done.
  apply bool_decide_eq_false. congruence.
Qed.

Lemma every_app p s t : every p (s +:+ t) = every p s && every p t.
Proof. induction s as [|c s IH]; [done|]. rewrite str_app_cons. cbn [every]. by rewrite IH, andb_assoc. Qed.

(** A fact of every character. *)
Ltac each_char := let c := fresh in intros c; destruct c as [[] [] [] [] [] [] [] []]; vm_compute; congruence.

Definition setting_char (c : ascii) : bool :=
  let n := nat_of_ascii c in ((48 <=? n) && (n <=? 57) || (65 <=? n) && (n <=? 90) || (n =? 95))%nat.

Lemma letter_digit_upper : forall c, letter_digit c = true -> setting_char (toupper c) = true.
Proof. each_char. Qed.
Lemma setting_visible : forall c, setting_char c = true -> visible c = true.
Proof. each_char. Qed.
Lemma letter_digit_visible : forall c, letter_digit c = true -> visible c = true.
Proof. each_char. Qed.
Lemma visible_unbroken : forall c, visible c = true -> line_break c = false.
Proof. each_char. Qed.
Lemma visible_unspaced : forall c, visible c = true -> is_space c = false.
Proof. each_char. Qed.
Lemma visible_unblank : forall c, visible c = true -> blank c = false.
Proof. each_char. Qed.

Lemma setting_rest_chars s : every letter_digit s = true -> every setting_char (setting_rest s) = true.
Proof.
  induction s as [|c s IH]; [done|]. cbn. intros [Hc Hs]%andb_true_iff.
  rewrite every_app. cbn [every]. rewrite letter_digit_upper, IH by done. by destruct (capital c).
Qed.
Lemma setting_name_chars s : every letter_digit s = true -> every setting_char (setting_name s) = true.
Proof.
  destruct s as [|c s]; [done|]. cbn. intros [Hc Hs]%andb_true_iff. by rewrite letter_digit_upper, setting_rest_chars.
Qed.

Lemma visible_one_line s : every visible s = true -> one_line s = true.
Proof.
  induction s as [|c s IH]; [done|]. cbn. intros [Hc Hs]%andb_true_iff. by rewrite visible_unbroken, IH.
Qed.
Lemma visible_strip s : every visible s = true -> strip s = s.
Proof.
  intros Hs. unfold strip. replace (lstrip s) with s.
  - induction s as [|c s IH]; [done|]. cbn in Hs. apply andb_true_iff in Hs as [Hc Hs]. cbn [rstrip].
    rewrite IH by done. destruct s; [|done]. by rewrite visible_unspaced.
  - destruct s as [|c s]; [done|]. cbn in Hs. apply andb_true_iff in Hs as [Hc _]. cbn [lstrip]. by rewrite visible_unspaced.
Qed.
Lemma visible_fits s : every visible s = true -> fits s = true.
Proof. intros Hs. unfold fits. by rewrite visible_one_line, bool_decide_eq_true_2 by auto using visible_strip. Qed.

(** ** What awk makes of an output *)

Lemma fields_word s : forall t word, every visible s = true -> fields (s +:+ t) word = fields t (word +:+ s).
Proof.
  induction s as [|c s IH]; intros t word; [by rewrite str_app_nil_r|]. cbn [every]. intros [Hc Hs]%andb_true_iff.
  rewrite str_app_cons. cbn [fields]. rewrite visible_unblank, IH by done. by rewrite str_app_assoc.
Qed.

Lemma awk_output k v : a_word letter_digit k = true -> a_word visible v = true ->
  awk_line (k +:+ String tab v) = setting_name k +:+ "=" +:+ v.
Proof.
  unfold a_word. intros [Hk Hks]%andb_true_iff [Hv Hvs]%andb_true_iff.
  apply negb_true_iff, bool_decide_eq_false in Hk, Hv. unfold awk_line.
  rewrite fields_word by (by eapply every_weaken; [apply letter_digit_visible|]). rewrite str_app_nil_l. cbn [fields].
  change (blank tab) with true. cbv iota. rewrite bool_decide_eq_false_2 by done.
  pose proof (fields_word v "" "" Hvs) as Hf. rewrite str_app_nil_r, str_app_nil_l in Hf. rewrite Hf. cbn [fields].
  by rewrite bool_decide_eq_false_2.
Qed.

Lemma str_join_cons sep x l : str_join sep (x :: l) = x +:+ foldr (fun y s => sep +:+ y +:+ s) "" l.
Proof.
  revert x. induction l as [|y l IH]; intros x; [by cbn; rewrite str_app_nil_r|].
  change (str_join sep (x :: y :: l)) with (x +:+ sep +:+ str_join sep (y :: l)). by rewrite IH.
Qed.

Lemma str_join_empty l : str_join "" l = foldr String.append "" l.
Proof. destruct l as [|x l]; [done|]. rewrite str_join_cons. cbn [foldr]. f_equal. Qed.

(** The words of what follows the first character. *)
Lemma rest_words s : exists w ws, lone w = true /\ Forall capital_word ws /\
  s = w +:+ str_join "" ws /\ setting_rest s = upper w +:+ foldr (fun y t => "_" +:+ y +:+ t) "" (map upper ws).
Proof.
  induction s as [|c s (w & ws & Hw & Hws & -> & Hs)]; [by exists "", []|]. cbn [setting_rest]. rewrite Hs.
  destruct (capital c) eqn:Hc.
  - exists "", (String c w :: ws). split; [done|]. split; [constructor; [by exists c, w|done]|].
    rewrite !str_join_empty. split; [done|]. cbn [map upper foldr]. done.
  - exists (String c w), ws. cbn [lone]. rewrite Hc. split; [done|]. split; [done|]. split; [done|].
    by rewrite str_app_nil_l.
Qed.

Lemma name_spelled key : key <> "" -> spelled key (setting_name key).
Proof.
  destruct key as [|c s]; [done|]. intros _. destruct (rest_words s) as (w & ws & Hw & Hws & Hs & Hn).
  exists (String c w), ws. split; [by exists c, w|]. split; [done|]. split; [by rewrite Hs|].
  cbn [setting_name map]. by rewrite Hn, str_join_cons.
Qed.

(** ** What the file holds *)

Lemma one_line_no_lf s : one_line s = true -> has_char line_feed s = false.
Proof.
  induction s as [|c s IH]; [done|]. cbn. intros [Hc Hs]%andb_true_iff. rewrite IH, orb_false_r by done.
  apply bool_decide_eq_false. by intros ->.
Qed.

Lemma fits_one_line s : fits s = true -> one_line s = true.
Proof. by intros [? _]%andb_true_iff. Qed.

Lemma readable_setting k v : every setting_char k = true -> fits v = true -> readable (k, v) = true.
Proof.
  intros Hk [Hv Hs]%andb_true_iff. assert (Hkv : every visible k = true) by (by eapply every_weaken; [apply setting_visible|]).
  unfold readable. cbn [fst snd]. rewrite visible_one_line, Hv, Hs, visible_strip by done.
  rewrite bool_decide_eq_true_2, (every_free setting_char) by done. destruct k as [|c k]; [done|].
  cbn in Hk |- *. apply andb_true_iff in Hk as [Hc _]. rewrite andb_true_r. by rewrite bool_decide_eq_false_2 by (by intros <-).
Qed.

Lemma env_text_lines kvs : env_text kvs = foldr (fun x s => x +:+ lf +:+ s) "" (map env_line kvs).
Proof. induction kvs as [|kv kvs IH]; [done|]. cbn [map foldr]. by rewrite <- IH. Qed.

Section File.
Context (get_api_key : string -> string) (stamp region profile : string) (outputs : list (string * string)).
Hypothesis Hd : deployable get_api_key stamp region profile outputs.
Abbreviation all := (settings region profile outputs).

Lemma outputs_lines :
  map awk_line (str_split line_feed (output_text outputs)) =
  map env_line (map (fun kv : string * string => (setting_name kv.1, kv.2)) outputs).
Proof using Hd.
  pose proof (dep_outputs _ _ _ _ _ Hd) as Ho. unfold output_text. rewrite split_joined.
  - rewrite !map_map. apply map_ext_in. intros [k v] Hin%list_elem_of_In. cbn [fst snd].
    rewrite List.Forall_forall in Ho. apply list_elem_of_In in Hin. destruct (Ho _ Hin) as [Hk Hv]. by apply awk_output.
  - apply List.Forall_map. eapply List.Forall_impl; [|exact Ho]. intros [k v] [[_ Hk]%andb_true_iff [_ Hv]%andb_true_iff].
    cbn in *. change (String tab v) with (String tab "" +:+ v). rewrite !has_char_app.
    by rewrite (every_free letter_digit _ k), (every_free visible _ v).
  - pose proof (dep_some _ _ _ _ _ Hd). by destruct outputs.
Qed.

Definition comment : string := " Auto-generated by setup.sh " +:+ stamp.

Lemma document_text :
  env_document stamp region profile (output_text outputs) = "#" +:+ comment +:+ lf +:+ env_text all.
Proof using Hd.
  unfold env_document. rewrite outputs_lines, join_lines.
  - rewrite env_text_lines. unfold comment, settings. cbn [map foldr]. by rewrite !str_app_assoc.
  - pose proof (dep_some _ _ _ _ _ Hd). by destruct outputs.
Qed.

Lemma settings_readable : Forall (fun kv => readable kv = true) all.
Proof using Hd.
  pose proof Hd as []. unfold settings. repeat constructor; [by apply readable_setting..|].
  apply List.Forall_map. eapply List.Forall_impl; [|done]. intros [k v] [[_ Hk]%andb_true_iff [_ Hv]%andb_true_iff].
  apply readable_setting; [by apply setting_name_chars|by apply visible_fits].
Qed.

Lemma id_line kv : has_char "=" kv.1 = false -> starts_with "API_KEY_ID=" (env_line kv) = bool_decide (kv.1 = "API_KEY_ID").
Proof using Type.
  destruct kv as [k v]. cbn [fst]. intros Hk. unfold env_line. cbn [fst snd]. apply eq_true_iff_eq.
  rewrite bool_decide_eq_true, starts_with_iff. split.
  - intros [r E]. apply (f_equal (split_once "=")) in E. rewrite split_setting in E by done.
    change ("API_KEY_ID=" +:+ r) with ("API_KEY_ID" +:+ "=" +:+ r) in E. rewrite split_setting in E by done. congruence.
  - intros ->. by exists v.
Qed.

Lemma id_lines kvs :
  Forall (fun kv => readable kv = true) kvs -> NoDup (map fst kvs) ->
  List.filter (starts_with "API_KEY_ID=") (map env_line kvs) =
  match alist_get "API_KEY_ID" kvs with Some id => ["API_KEY_ID=" +:+ id] | None => [] end.
Proof using Type.
  induction kvs as [|[k v] kvs IH]; [done|]. intros [Hr Hrs]%Forall_cons_iff Hnd.
  cbn [map fst] in Hnd. apply list.NoDup_cons in Hnd as [Hn Hnd].
  unfold readable in Hr. cbn [fst snd] in Hr. rewrite !andb_true_iff, !negb_true_iff in Hr. destruct Hr as [[_ Heq] _].
  cbn [map List.filter alist_get]. rewrite id_line, IH by done. cbn [fst].
  destruct (bool_decide_reflect (k = "API_KEY_ID")) as [->|]; [|done].
  destruct (alist_get "API_KEY_ID" kvs) eqn:E; [|done]. destruct Hn.
  apply list_elem_of_fmap. exists ("API_KEY_ID", s). split; [done|by apply alist_get_elem].
Qed.

Lemma chomp_id s : has_char line_feed s = false -> chomp s = s.
Proof using Type.
  induction s as [|c s IH]; [done|]. cbn [has_char chomp]. intros [Hc Hs]%orb_false_iff. rewrite IH by done.
  destruct s; [|done]. by rewrite Hc.
Qed.

(** The id of the key, when it is among the outputs. *)
Lemma id_among id : alist_get "API_KEY_ID" all = Some id -> a_word visible id = true.
Proof using Hd.
  intros Hin%alist_get_elem. unfold settings in Hin. rewrite !elem_of_cons in Hin.
  destruct Hin as [[=]|[[=]|([k v] & [= _ ->] & Hkv)%list_elem_of_fmap]].
  pose proof (dep_outputs _ _ _ _ _ Hd) as Ho. rewrite List.Forall_forall in Ho. apply list_elem_of_In in Hkv.
  by destruct (Ho _ Hkv).
Qed.

Lemma document_id :
  key_id_in (env_document stamp region profile (output_text outputs)) = default "" (alist_get "API_KEY_ID" all).
Proof using Hd.
  pose proof settings_readable as Hr. pose proof (dep_names _ _ _ _ _ Hd) as [_ Hnd]%list.NoDup_cons.
  rewrite document_text, env_text_lines. unfold key_id_in.
  change ("#" +:+ comment +:+ lf +:+ foldr (fun x s => x +:+ lf +:+ s) "" (map env_line all))
    with (foldr (fun x s => x +:+ lf +:+ s) "" (("#" +:+ comment) :: map env_line all)).
  rewrite split_terminated.
  - rewrite filter_app. cbn [List.filter]. change (starts_with "API_KEY_ID=" ("#" +:+ comment)) with false. cbv iota.
    change (starts_with "API_KEY_ID=" "") with false. cbv iota. rewrite app_nil_r, id_lines by done.
    destruct (alist_get "API_KEY_ID" all) as [id|] eqn:E; [|done]. cbn [map default].
    pose proof (dep_key _ _ _ _ _ Hd id E) as [Hid _]. pose proof (id_among id E) as [_ Hv]%andb_true_iff.
    assert (cut_f2 ("API_KEY_ID=" +:+ id) = id) as ->.
    { unfold cut_f2. change ("API_KEY_ID=" +:+ id) with ("API_KEY_ID" +:+ "=" +:+ id).
      by rewrite split_setting, split_once_none. }
    apply chomp_id. by apply (every_free visible).
  - apply List.Forall_cons.
    + apply one_line_no_lf. unfold comment. rewrite !one_line_app, (dep_stamp _ _ _ _ _ Hd). done.
    + apply List.Forall_map. eapply List.Forall_impl; [|exact Hr]. intros [k v] Hkv. apply one_line_no_lf.
      unfold readable in Hkv. cbn [fst snd] in Hkv. rewrite !andb_true_iff in Hkv. destruct Hkv as [[[[[Hk Hv] _] _] _] _].
      unfold env_line. cbn [fst snd]. by rewrite !one_line_app, Hk, Hv.
Qed.

Lemma deploy_text :
  env_deploy get_api_key stamp region profile (output_text outputs) =
  "#" +:+ comment +:+ lf +:+ env_text (all ++ key_setting get_api_key all).
Proof using Hd.
  unfold env_deploy, key_setting. rewrite document_id, document_text, env_text_app.
  destruct (alist_get "API_KEY_ID" all) as [id|] eqn:E; cbn zeta.
  - change (default "" (Some id)) with id. pose proof (id_among id E) as [Hne _]%andb_true_iff. apply negb_true_iff in Hne. rewrite Hne.
    rewrite !str_app_assoc. unfold env_text at 3. cbn [foldr]. unfold env_line. cbn [fst snd]. by rewrite !str_app_assoc, str_app_nil_r.
  - by rewrite bool_decide_eq_true_2, str_app_nil_r.
Qed.

Lemma all_readable : Forall (fun kv => readable kv = true) (all ++ key_setting get_api_key all).
Proof using Hd.
  apply List.Forall_app. split; [apply settings_readable|]. unfold key_setting.
  destruct (alist_get "API_KEY_ID" all) as [id|] eqn:E; [|done]. constructor; [|done].
  apply readable_setting; [done|]. by apply (dep_key _ _ _ _ _ Hd id).
Qed.

Lemma all_names : NoDup (map fst (all ++ key_setting get_api_key all)).
Proof using Hd.
  pose proof (dep_names _ _ _ _ _ Hd) as [Hk Hnd]%list.NoDup_cons. rewrite map_app. apply list.NoDup_app.
  split; [done|]. unfold key_setting. destruct (alist_get "API_KEY_ID" all); cbn.
  - split; [by intros x Hx ->%list_elem_of_singleton|by apply NoDup_singleton].
  - split; [set_solver|constructor].
Qed.
End File.

Lemma skip_comment c rest env : parse_env (("#" +:+ c) :: rest) env = parse_env rest env.
Proof.
  cbn [parse_env]. assert (Hs : starts_with "#" (strip ("#" +:+ c)) = true).
  { pose proof (rstrip_app "" "#" c eq_refl) as R. rewrite !str_app_nil_l in R.
    rewrite str_app_cons, str_app_nil_l. unfold strip.
    change (lstrip (String "#" c)) with (String "#" c). by rewrite R. }
  rewrite Hs, orb_true_r. by destruct (split_once "=" _) as [? []].
Qed.

(** ** Property *)

(** C40: The settings that [setup.sh] writes to [.env.deploy] are those that the
    tool reads: when the stack has outputs, with keys of letters and digits and
    values of visible characters, no two settings of the file have one name,
    and the stamp of the comment, the region, the profile and the API key are
    each on one line, without spaces around the last three, then the tool
    reads, in this order, the region, the profile, each output under the words
    of its key in upper case with underscores between them, and as API_KEY the
    value that the service has for the output ApiKeyId, when there is this
    output, an id without an equals sign. *)
Theorem env_file_roundtrip (get_api_key : string -> string) (stamp region profile : string)
    (outputs : list (string * string)) :
  deployable get_api_key stamp region profile outputs ->
  parse_env (split_lines (env_deploy get_api_key stamp region profile (output_text outputs)) "") [] =
  settings region profile outputs ++ key_setting get_api_key (settings region profile outputs) /\
  Forall (fun kv => spelled kv.1 (setting_name kv.1)) outputs.
Proof.
  intros Hd. split.
  2: { eapply List.Forall_impl; [|exact (dep_outputs _ _ _ _ _ Hd)]. intros [k v] [[Hk _]%andb_true_iff _].
       apply name_spelled. by apply negb_true_iff, bool_decide_eq_false in Hk. }
  rewrite (deploy_text _ _ _ _ _ Hd).
  assert (Hc : one_line ("#" +:+ comment stamp) = true).
  { unfold comment. rewrite !one_line_app, (dep_stamp _ _ _ _ _ Hd). done. }
  rewrite <- str_app_assoc, lf_app, split_lines_app, str_app_nil_l by done. rewrite skip_comment.
  apply (parse_env_text _ []); [by apply (all_readable _ stamp)|by apply (all_names _ stamp)].
Qed.

(** The outputs of a stack, and a service that knows one key. *)
Definition sample_outputs : list (string * string) :=
  [("ApiUrl", "https://example.execute-api.us-east-1.amazonaws.com/prod/"); ("ApiKeyId", "k3y1d"); ("AssetsBucketName", "oc-assets")].

Lemma env_file_roundtrip_witness :
  parse_env (split_lines (env_deploy (fun _ => "abc=123") "2026-01-01T00:00:00+00:00" "us-east-1" "default"
    (output_text sample_outputs)) "") [] =
  settings "us-east-1" "default" sample_outputs ++ key_setting (fun _ => "abc=123") (settings "us-east-1" "default" sample_outputs) /\
  Forall (fun kv => spelled kv.1 (setting_name kv.1)) sample_outputs.
Proof.
  apply env_file_roundtrip. split; try reflexivity; try done.
  - repeat constructor.
  - apply (bool_decide_unpack _). vm_compute. exact I.
  - intros id. vm_compute. intros [= <-]. by split.
Defined.

(** So the tool finds its address and its key. *)
Example sample_settings_found :
  let file_env := settings "us-east-1" "default" sample_outputs ++
    key_setting (fun _ => "abc=123") (settings "us-east-1" "default" sample_outputs) in
  env_or_file None "API_URL" file_env = "https://example.execute-api.us-east-1.amazonaws.com/prod/" /\
  env_or_file None "API_KEY" file_env = "abc=123".
Proof. vm_compute. done. Qed.
