(* ===== verification/Interleave.v ===== *)
(** * Interleavings of programs over a shared state

    Several programs over the same services, scheduled one call at a time in
    any order.  [rg] is the weakest precondition of one of them among others:
    between two of its calls the others may change the state as [R] allows, and
    each of its own calls must change it as [G] allows and establish [J].
    [reachable_rg] puts such proofs together. *)

From S2P Require Import Prelude Py Effects.

Section Interleave.
Context {S : sig} {D : Type} (step : forall c : op S, D -> reply S c + exn -> D -> Prop).

(** ** The scheduler *)

(** A pool: the programs, each at the point it has reached, and the state. *)
Definition pool (A : Type) : Type := list (prog S A) * D.

(** One call of one program. *)
Inductive pool_step {A} : pool A -> pool A -> Prop :=
| pool_call i ps c k d r d' : ps !! i = Some (Call c k) -> step c d r d' ->
    pool_step (ps, d) (<[i := k r]> ps, d').

Inductive reachable {A} (p : pool A) : pool A -> Prop :=
| reachable_refl : reachable p p
| reachable_step p1 p2 : reachable p p1 -> pool_step p1 p2 -> reachable p p2.

(** ** One program among others *)

Section Triple.
Context (R G : D -> D -> Prop) (J : D -> Prop).

Fixpoint rg {A} (p : prog S A) (d : D) (Q : outcome A -> D -> Prop) : Prop :=
  match p with
  | Done o => forall d1, R d d1 -> Q o d1
  | Call c k => forall d1 r d2, R d d1 -> step c d1 r d2 -> G d1 d2 /\ J d2 /\ rg (k r) d2 Q
  end.

Lemma rg_mono {A} (p : prog S A) d (Q Q' : outcome A -> D -> Prop) :
  rg p d Q -> (forall o d', Q o d' -> Q' o d') -> rg p d Q'.
Proof.
  intros H HQ. revert d H. induction p as [o|c k IH]; simpl; intros d H.
  - intros d1 Hr. by apply HQ, H.
  - intros d1 r d2 Hr Hs. destruct (H d1 r d2 Hr Hs) as (HG & HJ & Hk). split_and!; [done|done|by apply IH].
Qed.

Context {HR : PreOrder R}.

(** What holds of a program holds after any interference. *)
Lemma rg_stable {A} (p : prog S A) d d' (Q : outcome A -> D -> Prop) : rg p d Q -> R d d' -> rg p d' Q.
Proof using HR.
  destruct p as [o|c k]; simpl; intros H Hr.
  - intros d1 H1. apply H. by etrans.
  - intros d1 r d2 H1. apply H. by etrans.
Qed.

Lemma rg_bind {A B} (p : prog S A) (f : A -> prog S B) d (Q : outcome B -> D -> Prop) :
  rg p d (fun o d' => match o with Ok a => rg (f a) d' Q | Exn e => Q (Exn e) d' | NoFuel => Q NoFuel d' end) ->
  rg (pbind f p) d Q.
Proof using HR.
  revert d. induction p as [[a|e|]|c k IH]; simpl; intros d H; [by apply (H d)|done|done|].
  intros d1 r d2 Hr Hs. destruct (H d1 r d2 Hr Hs) as (HG & HJ & Hk). split_and!; [done|done|by apply IH].
Qed.

Lemma rg_catch {A} (p : prog S A) (h : exn -> prog S A) d (Q : outcome A -> D -> Prop) :
  rg p d (fun o d' => match o with Exn e => rg (h e) d' Q | _ => Q o d' end) -> rg (catch p h) d Q.
Proof using HR.
  revert d. induction p as [[a|e|]|c k IH]; simpl; intros d H; [done|by apply (H d)|done|].
  intros d1 r d2 Hr Hs. destruct (H d1 r d2 Hr Hs) as (HG & HJ & Hk). split_and!; [done|done|by apply IH].
Qed.

Lemma rg_ret {A} (a : A) d (Q : outcome A -> D -> Prop) : (forall d1, R d d1 -> Q (Ok a) d1) -> rg (mret a) d Q.
Proof. done. Qed.

Lemma rg_call (c : op S) d (Q : outcome (reply S c) -> D -> Prop) :
  (forall d1 r d2, R d d1 -> step c d1 r d2 ->
     G d1 d2 /\ J d2 /\
     forall d3, R d2 d3 -> Q (match r with inl a => Ok a | inr e => Exn e end) d3) ->
  rg (call c) d Q.
Proof.
  simpl. intros H d1 r d2 Hr Hs. destruct (H d1 r d2 Hr Hs) as (HG & HJ & HQ).
  split_and!; [done|done|]. by destruct r.
Qed.

(** A loop: the elements gone through describe the state. *)
Lemma rg_fold {A B} (body : B -> A -> prog S B) (I : list A -> B -> D -> Prop) (E : exn -> D -> Prop) l : forall pre acc d,
  (forall pre acc d d', I pre acc d -> R d d' -> I pre acc d') ->
  (forall pre' x post acc d, pre ++ l = pre' ++ x :: post -> I pre' acc d ->
     rg (body acc x) d (fun o d' => match o with Ok acc' => I (pre' ++ [x]) acc' d' | Exn e => E e d' | NoFuel => False end)) ->
  I pre acc d ->
  rg (fold_prog body l acc) d (fun o d' =>
    match o with Ok acc' => I (pre ++ l) acc' d' | Exn e => E e d' | NoFuel => False end).
Proof using HR.
  induction l as [|x l IH]; cbn [fold_prog]; intros pre acc d HI Hb H.
  - apply rg_ret. intros d1 Hr. rewrite app_nil_r. by eapply HI.
  - apply rg_bind. eapply rg_mono; [by eapply (Hb pre x l)|]. intros [acc'|e|] d' H'; try done.
    replace (pre ++ x :: l) with ((pre ++ [x]) ++ l) by (by rewrite <- app_assoc).
    apply IH; [done| |done]. intros pre' y post a d0. rewrite <- app_assoc. apply Hb.
Qed.
End Triple.

(** ** All of them *)

Section Pool.
Context {A : Type} (R G : nat -> D -> D -> Prop) (J : nat -> D -> Prop) (Q : nat -> outcome A -> D -> Prop).
Context `{!forall i, PreOrder (R i)}.

(** What each call of a program may do is what the others bear. *)
Hypothesis Hcompatible : forall i j d d', i <> j -> G i d d' -> R j d d'.
Hypothesis Hstable : forall i d d', J i d -> R i d d' -> J i d'.

Definition pool_ok (p : pool A) : Prop :=
  (forall i, J i p.2) /\ forall i q, p.1 !! i = Some q -> rg (R i) (G i) (J i) q p.2 (Q i).

Lemma pool_step_ok p1 p2 : pool_ok p1 -> pool_step p1 p2 ->
  pool_ok p2 /\ exists i, G i p1.2 p2.2.
Proof using All.
  intros [HJ Hok] Hs. destruct Hs as [i ps c k d r d' Hi Hst]. cbn [fst snd] in *.
  pose proof (Hok i _ Hi) as Hq. cbn [rg] in Hq. destruct (Hq d r d' ltac:(done) Hst) as (HG & HJi & Hk).
  assert (HR : forall j, i <> j -> R j d d') by (intros j Hne; by apply (Hcompatible i)).
  split; [split|by exists i]; cbn [fst snd].
  - intros j. destruct (decide (i = j)) as [<-|Hne]; [done|]. eapply Hstable; [done|by apply HR].
  - intros j q. destruct (decide (i = j)) as [<-|Hne].
    + rewrite list_lookup_insert_eq by (by eapply lookup_lt_Some). by intros [= <-].
    + rewrite list_lookup_insert_ne by done. intros Hj. apply (rg_stable _ _ _ q d); [by apply Hok|by apply HR].
Qed.

Lemma reachable_ok p1 p2 : pool_ok p1 -> reachable p1 p2 -> pool_ok p2.
Proof using All. intros Hok. induction 1 as [|q q' _ IH Hs]; [done|]. by apply (pool_step_ok q q'). Qed.

(** What every call may do, however often. *)
Lemma reachable_change (T : D -> D -> Prop) `{!PreOrder T} p1 p2 :
  (forall i d d', G i d d' -> T d d') -> pool_ok p1 -> reachable p1 p2 -> T p1.2 p2.2.
Proof using All.
  intros HT Hok. induction 1 as [|p p2 Hr IH Hs]; [done|]. etrans; [done|].
  destruct (pool_step_ok _ _ (reachable_ok _ _ Hok Hr) Hs) as [_ [i HG]]. by eapply HT.
Qed.
End Pool.

(** ** Schedules *)

(** The run of a schedule, the numbers of the programs that call: [exec] is a
    service that answers as [step] allows. *)
Context (exec : forall c : op S, D -> (reply S c + exn) * D).

Fixpoint run_schedule {A} (l : list nat) (p : pool A) : pool A :=
  match l with
  | [] => p
  | i :: l' =>
      match p.1 !! i with
      | Some (Call c k) => let '(r, d') := exec c p.2 in run_schedule l' (<[i := k r]> p.1, d')
      | _ => run_schedule l' p
      end
  end.

Lemma run_schedule_reachable {A} (l : list nat) (p p1 : pool A) :
  (forall c d, step c d (exec c d).1 (exec c d).2) -> reachable p p1 -> reachable p (run_schedule l p1).
Proof.
  intros He. revert p1. induction l as [|i l IH]; intros [ps d] Hr; [done|]. cbn [run_schedule fst snd].
  destruct (ps !! i) as [[o|c k]|] eqn:Ei; [by apply IH| |by apply IH].
  pose proof (He c d) as Hs. destruct (exec c d) as [r d']. apply IH. eapply reachable_step; [done|]. by eapply pool_call.
Qed.
End Interleave.
