(* ===== verification/Staging.v ===== *)
(** * Staging the sources of a function: [deploy/stack.py]

    [_stage_lambda_asset] copies the sources of a Lambda function and the
    package it shares to a directory named by a digest of their contents, which
    is what the CDK uploads.  The calls of [shutil] and [os] are the signature;
    a state is the staging directory, the sources do not change during a
    synthesis. *)

From stdpp Require Import sorting.
From S2P Require Import Prelude Py PyNum Effects Interleave.

(** ** Files *)

(** The components of a path, and what is at it. *)
Abbreviation path := (list string).
Inductive node := File (bytes : string) | Dir.
Abbreviation tree := (gmap path node).
(** The staging directory: what is at each of its entries. *)
Abbreviation stage := (gmap string tree).

#[export] Instance node_eq_dec : EqDecision node.
Proof. solve_decision. Defined.

(** The order of [Path] objects: by components. *)
Fixpoint path_le (p q : path) : bool :=
  match p, q with
  | [], _ => true
  | _, [] => false
  | a :: p', b :: q' => if bool_decide (a = b) then path_le p' q' else str_le a b
  end.
#[export] Instance path_le_dec : RelDecision (fun p q : path => path_le p q = true).
Proof. intros p q. apply _. Defined.

Definition is_dir (n : option node) : bool := match n with Some Dir => true | _ => false end.

(** What is in a directory: its entries at any depth, by their path in it. *)
Definition below (root : string) (p : path) : option path :=
  match p with
  | a :: b :: q => if bool_decide (a = root) then Some (b :: q) else None
  | _ => None
  end.
Definition entries_of (t : tree) (root : string) : list path := omap (below root) (elements (dom t)).

(** ** The calls *)

(** An entry of the staging directory is named by a string; [Walk] is the
    scanning of a directory and of those in it, every directory before its
    entries, each with whether it is a directory. *)
Inductive stage_call :=
| RglobPy (root : string)
| ReadBytes (p : path)
| Exists (e : string)
| MkStage
| Rmtree (e : string) (ignore_errors : bool)
| Walk (root : string)
| MakeDirs (e : string) (p : path)
| Copy2 (src : path) (e : string) (p : path)
| Rename (e1 e2 : string).

Definition stage_reply (c : stage_call) : Type :=
  match c with
  | RglobPy _ => list path
  | Walk _ => list (path * bool)
  | ReadBytes _ => string
  | Exists _ => bool
  | _ => unit
  end.
Definition staging : sig := Sig stage_call stage_reply.
Abbreviation F := (prog staging).
Definition io (c : stage_call) : F (stage_reply c) := call (S := staging) c.

(** ** The program *)

Section Program.
(** The components of the path of [deploy/lambda], and [hashlib.sha256(_).hexdigest()]. *)
Context (lambda_src : path) (sha256 : string -> string).

(** [h.update(...)] over the files of a root, in order *)
Definition update_file (h : string) (f : path) : F string :=
  if bool_decide ("__pycache__" ∈ lambda_src ++ f) then mret h
  else bytes ← io (ReadBytes f); mret (h +:+ str_join "/" f +:+ bytes).

Definition update_root (h : string) (root : string) : F string :=
  files ← io (RglobPy root);
  fold_prog update_file (merge_sort (fun p q => path_le p q = true) files) h.

(** [shutil.ignore_patterns("__pycache__", "*.pyc")], on a name *)
Definition ignore (name : string) : bool := bool_decide (name = "__pycache__") || ends_with ".pyc" name.

(** [shutil.copytree(root, e / at_, ignore=ignore)]: what fails below the root is
    collected, and raised at the end; a directory that could not be made is not
    entered. *)
Definition copy_entry (root e : string) (at_ : path) (acc : list exn * list path) (entry : path * bool)
    : F (list exn * list path) :=
  let '(errors, skipped) := acc in
  let '(p, dir) := entry in
  if existsb (fun s => bool_decide (s `prefix_of` p)) skipped then mret acc
  else
    r ← attempt (if dir : bool then io (MakeDirs e (at_ ++ p)) else io (Copy2 (root :: p) e (at_ ++ p)));
    mret match r with
         | inl _ => acc
         | inr x => (errors ++ [x], if dir then skipped ++ [p] else skipped)
         end.

Definition copytree (root e : string) (at_ : path) : F unit :=
  entries ← io (Walk root);
  _ ← io (MakeDirs e at_);
  '(errors, _) ← fold_prog (copy_entry root e at_)
                   (List.filter (fun entry => negb (existsb ignore entry.1)) entries) ([], []);
  match errors with [] => mret tt | _ => raise (PyExn "Error" (str_join ", " (map exn_str errors))) end.

Definition dest_of (name hexdigest : string) : string := name +:+ "-" +:+ str_take 12 hexdigest.
Definition tmp_of (name hexdigest : string) : string := "." +:+ name +:+ "-" +:+ str_take 12 hexdigest +:+ ".tmp".

Definition _stage_lambda_asset (name : string) : F string :=
  h ← fold_prog update_root [name; "common"] "";
  let dest := dest_of name (sha256 h) in
  there ← io (Exists dest);
  if there : bool then mret dest
  else
    _ ← io MkStage;
    let tmp := tmp_of name (sha256 h) in
    left_over ← io (Exists tmp);
    _ ← (if left_over : bool then io (Rmtree tmp false) else mret tt);
    _ ← copytree name tmp [];
    _ ← copytree "common" tmp ["common"];
    r ← attempt (io (Rename tmp dest));
    match r with
    | inl _ => mret dest
    | inr x => if is_oserror x then _ ← io (Rmtree tmp true); mret dest else raise x
    end.
End Program.

(** ** The file system *)

Section Files.
(** The sources: the files and directories below [deploy/lambda]. *)
Context (src : tree).

Definition os_error {A} (cls : string) : A + exn := inr (PyExn cls "").

Definition py_files (root : string) : list path :=
  map (cons root) (List.filter (fun p => ends_with ".py" (default "" (list.last p))) (entries_of src root)).
Definition walked (root : string) : list (path * bool) :=
  map (fun p => (p, is_dir (src !! (root :: p)))) (merge_sort (fun p q => path_le p q = true) (entries_of src root)).

(** [os.makedirs(p)]: the directories above that are missing are made. *)
Definition above (p : path) : list path := map (fun n => take n p) (seq 0 (length p)).
Definition make_above (p : path) (t : tree) : tree :=
  foldr (fun q t => match t !! q with None => <[q := Dir]> t | Some _ => t end) t (above p).
Definition blocked (p : path) (t : tree) : bool :=
  existsb (fun q => match t !! q with Some (File _) => true | _ => false end) (above p).

(** The name a file copied to [p] gets: inside [p] when that is a directory. *)
Definition target (from p : path) (t : tree) : path :=
  if is_dir (t !! p) then p ++ [default "" (list.last from)] else p.

(** The effect of a call that does not fail for reasons of its own. *)
Definition fs_do (c : stage_call) (st : stage) : (stage_reply c + exn) * stage :=
  match c return (stage_reply c + exn) * stage with
  | RglobPy root => (inl (py_files root), st)
  | ReadBytes p =>
      (match src !! p with
       | Some (File b) => inl b
       | Some Dir => os_error "IsADirectoryError"
       | None => os_error "FileNotFoundError"
       end, st)
  | Exists e => (inl (bool_decide (is_Some (st !! e))), st)
  | MkStage => (inl tt, st)
  | Rmtree e ignore_errors =>
      match st !! e with
      | Some t => if is_dir (t !! []) then (inl tt, delete e st)
                  else (if ignore_errors then inl tt else os_error "NotADirectoryError", st)
      | None => (if ignore_errors then inl tt else os_error "FileNotFoundError", st)
      end
  | Walk root => (if is_dir (src !! [root]) then inl (walked root)
                  else os_error "FileNotFoundError", st)
  | MakeDirs e p =>
      let t := default ∅ (st !! e) in
      match t !! p with
      | Some _ => (os_error "FileExistsError", st)
      | None => if blocked p t then (os_error "NotADirectoryError", st)
                else (inl tt, <[e := <[p := Dir]> (make_above p t)]> st)
      end
  | Copy2 from e p =>
      match src !! from with
      | Some (File b) =>
          let t := default ∅ (st !! e) in
          let p' := target from p t in
          if is_dir (t !! removelast p') then
            if is_dir (t !! p') then (os_error "IsADirectoryError", st)
            else (inl tt, <[e := <[p' := File b]> t]> st)
          else (os_error "FileNotFoundError", st)
      | Some Dir => (os_error "IsADirectoryError", st)
      | None => (os_error "FileNotFoundError", st)
      end
  | Rename e1 e2 =>
      match st !! e1, st !! e2 with
      | None, _ => (os_error "FileNotFoundError", st)
      | Some t1, None => (inl tt, <[e2 := t1]> (delete e1 st))
      | Some t1, Some t2 =>
          if bool_decide (t2 = {[ [] := Dir ]}) && is_dir (t1 !! []) then (inl tt, <[e2 := t1]> (delete e1 st))
          else if negb (is_dir (t1 !! [])) && negb (is_dir (t2 !! [])) then (inl tt, <[e2 := t1]> (delete e1 st))
          else (os_error "OSError", st)
      end
  end.

(** The order in which a directory is scanned is not known, but for a directory
    that comes before its entries. *)
Definition proper_prefix (q p : path) : Prop := q `prefix_of` p /\ q <> p.
Fixpoint parents_first (l : list path) : Prop :=
  match l with
  | [] => True
  | p :: l' => (forall q, q ∈ l' -> ~ proper_prefix q p) /\ parents_first l'
  end.

Definition answers (c : stage_call) (st : stage) : stage_reply c + exn -> stage -> Prop :=
  match c return stage_reply c + exn -> stage -> Prop with
  | RglobPy root => fun r st' => st' = st /\ exists l, r = inl l /\ l ≡ₚ py_files root
  | Walk root => fun r st' => st' = st /\
      if is_dir (src !! [root]) then exists l, r = inl l /\ (l ≡ₚ walked root) /\ parents_first (map fst l)
      else r = os_error "FileNotFoundError"
  | c => fun r st' => (r, st') = fs_do c st
  end.

(** A call may also fail: what it was changing is then in any state, but for a
    directory that is renamed, which moves or does not. *)
Definition damages (c : stage_call) : option string :=
  match c with Rmtree e _ | MakeDirs e _ | Copy2 _ e _ => Some e | _ => None end.
Definition fails (c : stage_call) (st : stage) (r : stage_reply c + exn) (st' : stage) : Prop :=
  (forall e, damages c <> Some e -> st' !! e = st !! e) /\
  match r with
  | inr x => is_oserror x = true
  | inl _ => match c with Rmtree _ ignore_errors => ignore_errors = true | _ => False end
  end.

Context (faulty : stage_call -> Prop).
Definition fs_step (c : stage_call) (st : stage) (r : stage_reply c + exn) (st' : stage) : Prop :=
  answers c st r st' \/ (faulty c /\ fails c st r st').
End Files.

(** ** A sample tree *)

Definition sample_sources : tree := list_to_map [
  (["api"], Dir); (["api"; "handler.py"], File "import common"); (["api"; "requirements.txt"], File "PyJWT==2.8.0");
  (["api"; "domains"], Dir); (["api"; "domains"; "common.py"], File "def _resp(): ...");
  (["api"; "__pycache__"], Dir); (["api"; "__pycache__"; "handler.pyc"], File "...");
  (["skills"], Dir); (["skills"; "handler.py"], File "import boto3");
  (["common"], Dir); (["common"; "__init__.py"], File ""); (["common"; "ssm.py"], File "import time")].
(** A digest for the examples: the length of the text. *)
Definition length_digest (s : string) : string := pretty (Z.of_nat (String.length s)) +:+ "-------------------------".
Definition sample_stage (name : string) : F string := _stage_lambda_asset ["srv"; "deploy"; "lambda"] length_digest name.
