(* ===== verification/StagingSafety.v ===== *)
(** * Staging: what is uploaded

    The directory that [_stage_lambda_asset] returns is a complete copy of the
    sources, among other syntheses that stage other functions at the same time
    and whatever fails; and how two of the same function break each other. *)

From stdpp Require Import sorting.
From S2P Require Import Prelude Py PyNum Effects Interleave Staging.

(** ** The order of paths *)

Lemma path_le_total p q : path_le p q = true \/ path_le q p = true.
Proof.
  revert q. induction p as [|a p IH]; intros [|b q]; cbn; auto.
  destruct (decide (a = b)) as [<-|Hne]; [rewrite !bool_decide_eq_true_2 by done; apply IH|].
  rewrite !bool_decide_eq_false_2 by done. apply str_le_total.
Qed.
Lemma path_le_trans p q r : path_le p q = true -> path_le q r = true -> path_le p r = true.
Proof.
  revert q r. induction p as [|a p IH]; intros [|b q] [|c r]; cbn; try done.
  destruct (decide (a = b)), (decide (b = c)), (decide (a = c)); subst;
    rewrite ?(bool_decide_eq_true_2 (_ = _)) by done; rewrite ?(bool_decide_eq_false_2 (_ = _)) by done; try done.
  - apply IH.
  - intros H1 H2. by destruct (str_le_antisym _ _ H1 H2).
  - apply str_le_trans.
Qed.
Lemma path_le_antisym p q : path_le p q = true -> path_le q p = true -> p = q.
Proof.
  revert q. induction p as [|a p IH]; intros [|b q]; cbn; try done.
  destruct (decide (a = b)) as [<-|Hne].
  - rewrite !bool_decide_eq_true_2 by done. intros. f_equal. by apply IH.
  - rewrite !bool_decide_eq_false_2 by done. intros H1 H2. by destruct (str_le_antisym _ _ H1 H2).
Qed.

#[export] Instance path_le_Total : Total (fun p q : path => path_le p q = true).
Proof. intros p q. apply path_le_total. Qed.
#[export] Instance path_le_Transitive : Transitive (fun p q : path => path_le p q = true).
Proof. intros p q r. apply path_le_trans. Qed.
#[export] Instance path_le_AntiSymm : AntiSymm eq (fun p q : path => path_le p q = true).
Proof. intros p q. apply path_le_antisym. Qed.

Lemma sorted_paths_perm (l l' : list path) : l ≡ₚ l' ->
  merge_sort (fun p q => path_le p q = true) l = merge_sort (fun p q => path_le p q = true) l'.
Proof.
  intros Hl. apply (StronglySorted_unique (fun p q : path => path_le p q = true)).
  - apply StronglySorted_merge_sort; apply _.
  - apply StronglySorted_merge_sort; apply _.
  - by rewrite !merge_sort_Permutation.
Qed.

(** ** Trees *)

Lemma entries_elem t root q : q ∈ entries_of t root <-> q <> [] /\ is_Some (t !! (root :: q)).
Proof.
  unfold entries_of. rewrite list_elem_of_omap. split.
  - intros (p & Hp & Hb). destruct p as [|a [|b p]]; try done. cbn in Hb.
    case_bool_decide; [|done]. injection Hb as <-. subst a. split; [done|]. by apply elem_of_dom, elem_of_elements.
  - intros [Hq Hs]. exists (root :: q). split; [by apply elem_of_elements, elem_of_dom|].
    destruct q; [done|]. cbn. by rewrite bool_decide_eq_true_2.
Qed.

Lemma below_inj root p p' q : below root p = Some q -> below root p' = Some q -> p = p'.
Proof.
  destruct p as [|a [|b p]], p' as [|a' [|b' p']]; try done. cbn.
  do 2 case_bool_decide; try done. subst. by intros [= <-] [= -> ->].
Qed.

Lemma entries_NoDup t root : NoDup (entries_of t root).
Proof.
  unfold entries_of. generalize (NoDup_elements (dom t)). induction (elements (dom t)) as [|p l IH]; [constructor|].
  intros [Hp Hl]%list.NoDup_cons. cbn. destruct (below root p) eqn:E; [|by apply IH].
  apply list.NoDup_cons. split; [|by apply IH]. rewrite list_elem_of_omap. intros (p' & Hp' & E').
  by rewrite (below_inj _ _ _ _ E E') in Hp.
Qed.

Lemma above_elem q p : q ∈ above p <-> proper_prefix q p.
Proof.
  unfold above, proper_prefix. rewrite list_elem_of_fmap. split.
  - intros (n & -> & Hn%list_elem_of_In%in_seq). split; [apply prefix_take|].
    intros E. apply (f_equal length) in E. rewrite length_take in E. lia.
  - intros [[r ->] Hne]. exists (length q). rewrite take_app_length. split; [done|].
    apply list_elem_of_In, in_seq. rewrite length_app. destruct r; [|cbn; lia].
    by rewrite app_nil_r in Hne.
Qed.

(** Nothing to make above a path when all is there. *)
Lemma above_made p t : (forall q, proper_prefix q p -> t !! q = Some Dir) -> make_above p t = t /\ blocked p t = false.
Proof.
  intros H. assert (Ha : forall q, q ∈ above p -> t !! q = Some Dir) by (intros q Hq; by apply H, above_elem).
  unfold make_above, blocked. induction (above p) as [|q l IH]; [done|]. cbn.
  destruct IH as [-> ->]; [intros; apply Ha; by constructor|]. by rewrite (Ha q) by constructor.
Qed.

Lemma proper_prefix_app q (at_ p : path) : proper_prefix q (at_ ++ p) ->
  proper_prefix q at_ \/ exists p0, q = at_ ++ p0 /\ proper_prefix p0 p.
Proof.
  intros [[r E] Hne]. destruct (prefix_weak_total q at_ (at_ ++ p)) as [Hq|[p0 ->]].
  - by exists r.
  - by apply prefix_app_r.
  - destruct (decide (q = at_)) as [->|Hqa]; [|by left]. right. exists []. split; [by rewrite app_nil_r|].
    split; [apply prefix_nil|]. intros <-. by rewrite app_nil_r in Hne.
  - right. exists p0. split; [done|]. rewrite <- app_assoc in E. apply app_inv_head in E. split; [by exists r|].
    by intros ->.
Qed.

Lemma parents_first_filter {B} (f : path * B -> bool) l :
  parents_first (map fst l) -> parents_first (map fst (List.filter f l)).
Proof.
  induction l as [|x l IH]; cbn; [done|]. intros [Hx Hl]. destruct (f x); [|by apply IH]. cbn. split; [|by apply IH].
  intros q Hq%list_elem_of_In. apply Hx, list_elem_of_In.
  apply in_map_iff in Hq as (y & <- & [Hy _]%filter_In). by apply in_map.
Qed.

Lemma filter_perm {B} (f : B -> bool) (l l' : list B) : l ≡ₚ l' -> List.filter f l ≡ₚ List.filter f l'.
Proof.
  induction 1 as [|x l l' _ IH|x y l|l l' l'' _ IH1 _ IH2]; cbn; [done| | |by etrans].
  - destruct (f x); [by constructor|done].
  - destruct (f x), (f y); try done. constructor.
Qed.

Lemma parents_first_in l1 p l2 q : parents_first (l1 ++ p :: l2) -> q ∈ l1 ++ p :: l2 -> proper_prefix q p -> q ∈ l1.
Proof.
  induction l1 as [|x l1 IH]; cbn; intros [Hx Hl] Hq Hp.
  - apply elem_of_cons in Hq as [->|Hq]; [by destruct Hp|]. by destruct (Hx q Hq).
  - apply elem_of_cons in Hq as [->|Hq]; [by constructor|]. constructor. by apply IH.
Qed.

(** ** What a function's directory should hold *)

Section Staging.
Context (lambda_src : path) (sha256 : string -> string) (src : tree).

Definition bytes_at (p : path) : string := match src !! p with Some (File b) => b | _ => "" end.
Definition cached (f : path) : bool := bool_decide ("__pycache__" ∈ lambda_src ++ f).

(** The text digested for a function: the name and the bytes of each Python file,
    in the order of their paths. *)
Definition digest_file (h : string) (f : path) : string :=
  if cached f then h else h +:+ str_join "/" f +:+ bytes_at f.
Definition digest_root (h root : string) : string :=
  foldl digest_file h (merge_sort (fun p q => path_le p q = true) (py_files src root)).
Definition fingerprint (name : string) : string := digest_root (digest_root "" name) "common".
Definition dest (name : string) : string := dest_of name (sha256 (fingerprint name)).
Definition tmp (name : string) : string := tmp_of name (sha256 (fingerprint name)).

(** The entries copied from a root, and the directory with both copies. *)
Definition kept (root : string) : list path := List.filter (fun p => negb (existsb ignore p)) (entries_of src root).
Definition node_at (p : path) : node := default Dir (src !! p).
Definition put_all (root : string) (at_ : path) (l : list path) (t : tree) : tree :=
  foldl (fun t p => <[at_ ++ p := node_at (root :: p)]> t) t l.
Definition image (name : string) : tree :=
  put_all "common" ["common"] (kept "common") (<[["common"] := Dir]> (put_all name [] (kept name) {[ [] := Dir ]})).

(** The sources are a tree, its Python files are files, and the function does
    not bring a package of its own named as the shared one. *)
Record sources_ok (name : string) : Prop := SourcesOk {
  so_name : src !! [name] = Some Dir;
  so_common : src !! ["common"] = Some Dir;
  so_parents : forall p q, q <> [] -> is_Some (src !! p) -> proper_prefix q p -> src !! q = Some Dir;
  so_python : forall f, ends_with ".py" (default "" (list.last f)) = true -> cached f = false -> src !! f <> Some Dir;
  so_overlay : src !! [name; "common"] = None
}.

Lemma py_file_found name root f : sources_ok name -> f ∈ py_files src root -> cached f = false -> exists b, src !! f = Some (File b).
Proof.
  intros Hok Hf Hc. unfold py_files in Hf. apply list_elem_of_In, in_map_iff in Hf as (q & <- & [Hq Hpy]%filter_In).
  apply list_elem_of_In, entries_elem in Hq as [Hq [[b|] Hs]]; [by exists b|].
  destruct (so_python _ Hok (root :: q)); [|done..]. destruct q; [done|]. exact Hpy.
Qed.

(** Those conditions, decided. *)
Definition sources_okb (name : string) : bool :=
  is_dir (src !! [name]) && is_dir (src !! ["common"]) && bool_decide (src !! [name; "common"] = None) &&
  forallb (fun kv =>
    forallb (fun q => bool_decide (q = []) || is_dir (src !! q)) (above kv.1) &&
    (negb (ends_with ".py" (default "" (list.last kv.1))) || cached kv.1 || negb (is_dir (Some kv.2)))) (map_to_list src).

Lemma is_dir_true (n : option node) : is_dir n = true -> n = Some Dir.
Proof. by destruct n as [[]|]. Qed.

Lemma sources_check name : sources_okb name = true -> sources_ok name.
Proof.
  unfold sources_okb. rewrite !andb_true_iff, forallb_Forall, list.Forall_forall.
  intros [[[H1%is_dir_true H2%is_dir_true] H3%bool_decide_eq_true] H].
  assert (Hkv : forall p n, src !! p = Some n -> _) by (intros p n Hp%elem_of_map_to_list; exact (H _ Hp)).
  split; [done|done| | |done].
  - intros p q Hq [n Hp] Ha%above_elem. destruct (proj1 (andb_true_iff _ _) (Hkv p n Hp)) as [Hab _].
    rewrite forallb_Forall, list.Forall_forall in Hab. apply is_dir_true. specialize (Hab q Ha).
    by rewrite bool_decide_eq_false_2 in Hab.
  - intros f Hpy Hc Hs. destruct (proj1 (andb_true_iff _ _) (Hkv f Dir Hs)) as [_ Hd]. cbn [fst snd] in Hd.
    by rewrite Hpy, Hc in Hd.
Qed.

(** ** Trees being filled *)

Lemma put_all_ne root at_ l t q : (forall p, p ∈ l -> q <> at_ ++ p) -> put_all root at_ l t !! q = t !! q.
Proof.
  revert t. induction l as [|p l IH]; intros t H; [done|]. cbn. unfold put_all in IH. rewrite IH.
  - apply lookup_insert_ne. intros E. apply (H p); [by constructor|done].
  - intros. apply H. by constructor.
Qed.

Lemma put_all_in root at_ l t p : NoDup l -> p ∈ l -> put_all root at_ l t !! (at_ ++ p) = Some (node_at (root :: p)).
Proof.
  revert t. induction l as [|x l IH]; intros t Hn; [by intros ?%elem_of_nil|]. apply list.NoDup_cons in Hn as [Hx Hl].
  intros [->|Hp]%elem_of_cons; [|by apply (IH (<[at_ ++ x := node_at (root :: x)]> t))].
  cbn. fold (put_all root at_ l (<[at_ ++ x := node_at (root :: x)]> t)). rewrite put_all_ne; [apply lookup_insert_eq|].
  intros p Hp E%app_inv_head. by subst.
Qed.

Lemma put_all_snoc root at_ l p t : put_all root at_ (l ++ [p]) t = <[at_ ++ p := node_at (root :: p)]> (put_all root at_ l t).
Proof. unfold put_all. by rewrite foldl_app. Qed.

Lemma put_all_perm root at_ l l' t : l ≡ₚ l' -> NoDup l -> put_all root at_ l t = put_all root at_ l' t.
Proof.
  intros Hl Hn. revert t. induction Hl as [|x l l' Hl IH|x y l|l l' l'' H1 IH1 H2 IH2]; intros t; [done| | |].
  - apply list.NoDup_cons in Hn as [_ Hn]. cbn. by apply IH.
  - cbn. f_equal. apply fin_maps.insert_insert_ne. intros E%app_inv_head. subst. apply list.NoDup_cons in Hn as [Hn _].
    apply Hn. by constructor.
  - rewrite IH1 by done. apply IH2. by rewrite <- H1.
Qed.

Lemma kept_elem root p : p ∈ kept root <-> (p <> [] /\ is_Some (src !! (root :: p))) /\ existsb ignore p = false.
Proof.
  unfold kept. rewrite list_elem_of_In, filter_In, <- list_elem_of_In, entries_elem. by rewrite negb_true_iff.
Qed.

Lemma kept_NoDup root : NoDup (kept root).
Proof. apply NoDup_ListNoDup, List.NoDup_filter, NoDup_ListNoDup, entries_NoDup. Qed.

(** ** One function among others *)

Context (faulty : stage_call -> Prop).
Definition fault : Prop := exists c, faulty c.

Section One.
Context (name : string).

(** The entries of a function are its directory and its temporary one: the
    others leave them ([bears]) and it leaves the rest ([touches]); its
    directory is never there in part. *)
Definition bears (st st' : stage) : Prop := st' !! dest name = st !! dest name /\ st' !! tmp name = st !! tmp name.
Definition touches (st st' : stage) : Prop := forall e, e <> dest name -> e <> tmp name -> st' !! e = st !! e.
Definition whole (st : stage) : Prop := st !! dest name = None \/ st !! dest name = Some (image name).

#[export] Instance bears_PreOrder : PreOrder bears.
Proof. split; [by intros st|]. intros a b c [H1 H2] [H3 H4]. split; etrans; done. Qed.

Abbreviation triple := (rg (S := staging) (D := stage) (fs_step src faulty) bears touches whole).

Context (Hsrc : sources_ok name).

Lemma whole_bears (st st' : stage) : whole st -> bears st st' -> whole st'.
Proof. intros Hw [Hd _]. unfold whole. by rewrite Hd. Qed.

Definition reading (c : stage_call) : bool :=
  match c with RglobPy _ | ReadBytes _ | Exists _ | MkStage | Walk _ => true | _ => false end.

Lemma reading_step (c : stage_call) (st : stage) (r : stage_reply c + exn) (st' : stage) : reading c = true -> fs_step src faulty c st r st' ->
  st' = st /\ (answers src c st r st' \/ fault /\ exists x, r = inr x).
Proof.
  intros Hc [Ha|(Hf & Hd & Hr)].
  - split; [|by left]. destruct c; try done; cbn in Ha; try (by destruct Ha); by injection Ha.
  - split; [apply map_eq; intros e; apply Hd; by destruct c|]. right. split; [by exists c|].
    destruct r as [a|x]; [by destruct c|by exists x].
Qed.

Lemma triple_read (c : stage_call) (st : stage) (Q : outcome (stage_reply c) -> stage -> Prop) : reading c = true -> whole st ->
  (forall r st1 st2, bears st st1 -> bears st st2 -> answers src c st1 r st1 \/ fault /\ (exists x, r = inr x) ->
     Q (match r with inl a => Ok a | inr e => Exn e end) st2) ->
  triple (io c) st Q.
Proof.
  intros Hc Hw HQ. apply (rg_call (S := staging)). intros st1 r st2 H1 Hs. destruct (reading_step _ _ _ _ Hc Hs) as [-> Ha].
  split; [by intros e|]. split; [by eapply whole_bears|]. intros st3 H3. apply (HQ r st1 st3); [done| |done]. by etrans.
Qed.

(** ** The digest *)

(** An outcome that is as expected, or an exception for which a call failed. *)
Definition yields {A} (P : A -> Prop) (o : outcome A) : Prop :=
  match o with Ok a => P a | Exn _ => fault | NoFuel => False end.

Lemma update_file_spec (h : string) (f : path) (root : string) (st : stage) : f ∈ py_files src root -> whole st ->
  triple (update_file lambda_src h f) st (fun o st' => bears st st' /\ yields (fun h' => h' = digest_file h f) o).
Proof using Hsrc.
  intros Hf Hw. unfold update_file, digest_file, cached. case_bool_decide as Hc; [by apply rg_ret|].
  apply (rg_bind _ _ _ _). apply triple_read; [done..|]. intros r st1 st2 _ H2 [Ha|[Hfault [x ->]]]; [|done].
  destruct (py_file_found _ root f Hsrc Hf) as (b & Hb); [by apply bool_decide_eq_false_2|].
  cbn in Ha. rewrite Hb in Ha. injection Ha as ->. apply rg_ret. intros st3 H3. split; [by etrans|]. cbn.
  unfold bytes_at. by rewrite Hb.
Qed.

Lemma update_root_spec (h root : string) (st : stage) : whole st ->
  triple (update_root lambda_src h root) st (fun o st' => bears st st' /\ yields (fun h' => h' = digest_root h root) o).
Proof using Hsrc.
  intros Hw. unfold update_root. apply (rg_bind _ _ _ _). apply triple_read; [done..|].
  intros r st1 st2 _ H2 [Ha|[Hfault [x ->]]]; [|done]. destruct Ha as (_ & l & -> & Hl).
  rewrite (sorted_paths_perm _ _ Hl). unfold digest_root.
  eapply rg_mono; [apply (rg_fold _ _ _ _ _ (fun pre acc d => bears st d /\ acc = foldl digest_file h pre)
    (fun _ d => bears st d /\ fault) _ [])|].
  - intros pre acc d d' [Hb ->] Hd. split; [by etrans|done].
  - intros pre f post acc d E [Hb ->]. eapply rg_mono; [apply (update_file_spec _ f root)|].
    + assert (Hin : f ∈ merge_sort (fun p q => path_le p q = true) (py_files src root)) by (cbn in E; rewrite E; set_solver).
      by rewrite merge_sort_Permutation in Hin.
    + by eapply whole_bears.
    + intros [h'|x|] d' [Hd Hy]; [|split; [by etrans|done]|done]. split; [by etrans|]. by rewrite foldl_app, Hy.
  - done.
  - intros [h'|x|] d' H'; [done|done|by destruct H'].
Qed.

(** ** The copies *)

Definition writing (c : stage_call) : bool :=
  match c with Rmtree e _ | MakeDirs e _ | Copy2 _ e _ => bool_decide (e = tmp name) | _ => false end.

Lemma writing_step (c : stage_call) (st : stage) (r : stage_reply c + exn) (st' : stage) :
  writing c = true -> fs_step src faulty c st r st' -> forall e, e <> tmp name -> st' !! e = st !! e.
Proof.
  intros Hc Hs e He. destruct Hs as [Ha|(_ & Hd & _)].
  - destruct c; try done; cbn in Hc; apply bool_decide_eq_true in Hc as ->; cbn in Ha;
      repeat case_match; injection Ha as -> ->; rewrite ?lookup_insert_ne, ?lookup_delete_ne by done; done.
  - apply Hd. destruct c; try done; cbn in Hc; apply bool_decide_eq_true in Hc as ->; cbn; by intros [= <-].
Qed.

Lemma dest_not_tmp : dest name <> tmp name.
Proof.
  unfold dest, tmp, dest_of, tmp_of. intros E%(f_equal String.length). rewrite !str_length_app in E. cbn in E. lia.
Qed.

Lemma triple_write (c : stage_call) (st : stage) (Q : outcome (stage_reply c) -> stage -> Prop) : writing c = true -> whole st ->
  (forall r st1 st2 st3, bears st st1 -> bears st2 st3 -> whole st3 ->
     answers src c st1 r st2 \/ fault /\ fails c st1 r st2 ->
     Q (match r with inl a => Ok a | inr e => Exn e end) st3) ->
  triple (io c) st Q.
Proof.
  intros Hc Hw HQ. apply (rg_call (S := staging)). intros st1 r st2 H1 Hs.
  pose proof (writing_step _ _ _ _ Hc Hs) as Hother. assert (Hw2 : whole st2).
  { unfold whole. rewrite Hother by apply dest_not_tmp. by eapply whole_bears. }
  split; [intros e _ He; by apply Hother|]. split; [done|]. intros st3 H3.
  apply (HQ r st1 st2 st3); [done|done|by eapply whole_bears|].
  destruct Hs as [Ha|[Hf Hs]]; [by left|right]. split; [by exists c|done].
Qed.

(** Where an entry goes: nothing is there, and the directories above are. *)
Definition ready (t : tree) (p : path) : Prop := t !! p = None /\ forall q, proper_prefix q p -> t !! q = Some Dir.

Lemma make_dir_ok (st : stage) (t : tree) (p : path) : default ∅ (st !! tmp name) = t -> ready t p ->
  fs_do src (MakeDirs (tmp name) p) st = (inl tt, <[tmp name := <[p := Dir]> t]> st).
Proof. intros Ht [Hp Ha]. cbn. rewrite Ht, Hp. by destruct (above_made p t Ha) as [-> ->]. Qed.

Lemma removelast_proper (p : path) : p <> [] -> proper_prefix (removelast p) p.
Proof.
  intros Hp. destruct (exists_last Hp) as (q & a & ->). rewrite removelast_last. split; [by exists [a]|].
  intros E%(f_equal length). rewrite length_app in E. cbn in E. lia.
Qed.

Lemma copy_ok (st : stage) (t : tree) (from p : path) (b : string) : default ∅ (st !! tmp name) = t -> ready t p -> p <> [] ->
  src !! from = Some (File b) ->
  fs_do src (Copy2 from (tmp name) p) st = (inl tt, <[tmp name := <[p := File b]> t]> st).
Proof.
  intros Ht [Hp Ha] Hne Hs. cbn. rewrite Hs, Ht. unfold target. rewrite Hp. cbn. rewrite (Ha (removelast p)) by (by apply removelast_proper).
  cbn. by rewrite Hp.
Qed.

Section Copy.
Context (root : string) (at_ : path) (t0 : tree).
Hypothesis Hroot : src !! [root] = Some Dir.
Hypothesis Hat : ready t0 at_.
Hypothesis Hfree : forall p, p <> [] -> t0 !! (at_ ++ p) = None.

(** The temporary directory once some entries are copied. *)
Definition filled (pre : list (path * bool)) : tree := put_all root at_ (map fst pre) (<[at_ := Dir]> t0).

(** What [os.scandir] may give of the root, less what is ignored. *)
Definition listing (l : list (path * bool)) : Prop :=
  (map fst l ≡ₚ kept root) /\ parents_first (map fst l) /\ (forall p dir, (p, dir) ∈ l -> dir = is_dir (src !! (root :: p))).

Lemma listing_kept l pre p dir post : listing l -> l = pre ++ (p, dir) :: post ->
  p ∈ kept root /\ (p ∉ map fst pre) /\ parents_first (map fst pre ++ p :: map fst post).
Proof.
  intros (Hp & Hf & _) ->. rewrite map_app in Hp, Hf. split_and!; [rewrite <- Hp; apply elem_of_app; right; by constructor| |done].
  pose proof (kept_NoDup root) as Hn. rewrite <- Hp in Hn. apply list.NoDup_app in Hn as (_ & Hn & _).
  intros Hin. apply (Hn p Hin). by constructor.
Qed.

Lemma kept_above p p0 : p ∈ kept root -> p0 <> [] -> proper_prefix p0 p -> p0 ∈ kept root /\ node_at (root :: p0) = Dir.
Proof using Hsrc.
  rewrite !kept_elem. intros [[Hp Hs] Hi] H0 [[r ->] Hne].
  assert (Hd : src !! (root :: p0) = Some Dir).
  { apply (so_parents _ Hsrc (root :: p0 ++ r)); [done|done|]. split; [by exists r|]. intros [=]. by apply Hne. }
  unfold node_at. rewrite Hd. split_and!; [done|done| |done]. rewrite existsb_app in Hi. by apply orb_false_iff in Hi as [].
Qed.

Lemma entry_ready l pre p dir post : listing l -> l = pre ++ (p, dir) :: post -> ready (filled pre) (at_ ++ p).
Proof using Hsrc Hat Hfree.
  intros Hl E. destruct (listing_kept _ _ _ _ _ Hl E) as (Hp & Hnew & Hfirst). pose proof Hl as (Hperm & _ & _).
  assert (Hpre : forall p', p' ∈ map fst pre -> p' ∈ kept root /\ p' <> []).
  { intros p' Hp'. assert (p' ∈ kept root) as Hk by (rewrite <- Hperm, E, map_app; apply elem_of_app; by left).
    split; [done|]. by apply kept_elem in Hk as [[] _]. }
  assert (Hne : p <> []) by (by apply kept_elem in Hp as [[] _]).
  unfold filled. split.
  - rewrite put_all_ne; [|intros p' Hp' Ee%app_inv_head; by subst]. rewrite lookup_insert_ne; [by apply Hfree|].
    intros Ee%(f_equal length). rewrite length_app in Ee. destruct p; [done|cbn in Ee; lia].
  - intros q [Hq|(p0 & -> & Hp0)]%proper_prefix_app.
    + assert (Hlt : (length q < length at_)%nat).
      { destruct Hq as [[r ->] Hqa]. rewrite length_app. destruct r; [by rewrite app_nil_r in Hqa|cbn; lia]. }
      rewrite put_all_ne, lookup_insert_ne; [by apply Hat|by intros ->; lia|].
      intros p' _ ->. rewrite length_app in Hlt. lia.
    + destruct (decide (p0 = [])) as [->|H0].
      { rewrite app_nil_r, put_all_ne; [by rewrite lookup_insert_eq|].
        intros p' Hp' Ee%(f_equal length). rewrite length_app in Ee. destruct (Hpre p' Hp') as [_ Hn]. destruct p'; [done|cbn in Ee; lia]. }
      destruct (kept_above p p0 Hp H0 Hp0) as [Hk Hd]. rewrite put_all_in; [by rewrite Hd| |].
      * pose proof (kept_NoDup root) as Hn. rewrite <- Hperm, E, map_app in Hn. by apply list.NoDup_app in Hn as [].
      * eapply parents_first_in; [exact Hfirst| |exact Hp0].
        rewrite <- Hperm, E, map_app in Hk. exact Hk.
Qed.

(** The copy so far: complete up to here, or something failed. *)
Definition copying (pre : list (path * bool)) (acc : list exn * list path) (st : stage) : Prop :=
  whole st /\ ((acc = ([], []) /\ st !! tmp name = Some (filled pre)) \/ (acc.1 <> [] /\ fault)).

Lemma copying_bears (pre : list (path * bool)) (acc : list exn * list path) (st st' : stage) :
  copying pre acc st -> bears st st' -> copying pre acc st'.
Proof. intros [Hw Hc] Hb. split; [by eapply whole_bears|]. destruct Hb as [_ Ht]. by rewrite Ht. Qed.

Lemma filled_snoc (pre : list (path * bool)) (p : path) (dir : bool) (n : node) : node_at (root :: p) = n ->
  filled (pre ++ [(p, dir)]) = <[at_ ++ p := n]> (filled pre).
Proof. intros <-. unfold filled. rewrite map_app. cbn [map fst]. by rewrite put_all_snoc. Qed.

(** One more entry: it is there, or something failed, now or before. *)
Lemma copying_snoc (pre : list (path * bool)) (acc : list exn * list path) (p : path) (dir : bool) (n : node)
    (st1 st2 st3 : stage) (r : unit + exn) :
  copying pre acc st1 -> whole st3 -> bears st2 st3 -> node_at (root :: p) = n -> ready (filled pre) (at_ ++ p) ->
  (forall t, default ∅ (st1 !! tmp name) = t -> ready t (at_ ++ p) ->
     r = inl tt /\ st2 = <[tmp name := <[at_ ++ p := n]> t]> st1) \/ fault /\ (exists x, r = inr x) ->
  copying (pre ++ [(p, dir)])
    (match r with inl _ => acc | inr x => (acc.1 ++ [x], if dir then acc.2 ++ [p] else acc.2) end) st3.
Proof.
  intros [_ Hc] Hw [_ Hb] Hn Hready Hr. split; [done|]. destruct Hr as [Hr|[Hf [x ->]]].
  - destruct Hc as [[-> Ht]|[He Hf]]; [|right; split; [|done]; destruct r; [done|cbn; by destruct acc.1]].
    destruct (Hr (filled pre)) as [-> ->]; [by rewrite Ht|done|]. left. split; [done|].
    by rewrite Hb, lookup_insert_eq, (filled_snoc _ _ _ n Hn).
  - right. split; [|done]. cbn. by destruct acc.1.
Qed.

Lemma fails_unit (c : stage_call) (st st' : stage) (r : stage_reply c + exn) :
  fails c st r st' -> (forall e, c <> Rmtree e true) -> exists x, r = inr x.
Proof. intros [_ Hr] Hc. destruct r as [a|x]; [|by exists x]. destruct c; try done. subst. by destruct (Hc e). Qed.

Lemma entry_copied (l pre post : list (path * bool)) (p : path) (dir : bool) (st : stage) (acc : list exn * list path) :
  listing l -> l = pre ++ (p, dir) :: post -> copying pre acc st ->
  triple (copy_entry root (tmp name) at_ acc (p, dir)) st (fun o st' =>
    match o with Ok acc' => copying (pre ++ [(p, dir)]) acc' st' | _ => False end).
Proof using Hsrc Hat Hfree.
  intros Hl E Hc. pose proof (entry_ready l pre p dir post Hl E) as Hready.
  destruct (listing_kept _ _ _ _ _ Hl E) as (Hp & _ & _). apply kept_elem in Hp as [[Hp [n Hn]] _].
  destruct Hl as (_ & _ & Hdir). specialize (Hdir p dir ltac:(rewrite E; apply elem_of_app; right; by constructor)).
  assert (Hnode : node_at (root :: p) = n) by (unfold node_at; by rewrite Hn). rewrite Hn in Hdir.
  assert (Hne : at_ ++ p <> []) by (by intros [_ ?]%app_eq_nil). unfold copy_entry. destruct acc as [errors skipped].
  destruct (existsb _ skipped) eqn:Hsk.
  { apply rg_ret. intros st1 Hb. destruct Hc as [Hw [[[= -> ->] _]|[He Hf]]]; [done|].
    split; [by eapply whole_bears|]. by right. }
  apply (rg_bind _ _ _ _), (rg_catch _ _ _ _), (rg_bind _ _ _ _).
  destruct n as [b|]; cbn in Hdir; subst dir.
  - apply (triple_write (Copy2 (root :: p) (tmp name) (at_ ++ p))); [by apply bool_decide_eq_true|by destruct Hc|].
    intros r st1 st2 st3 H1 H3 Hw Ha.
    assert (Hs : copying (pre ++ [(p, false)]) (match r with inl _ => (errors, skipped) | inr x => (errors ++ [x], skipped) end) st3).
    { apply (copying_snoc _ _ _ false _ st1 st2 _ r (copying_bears _ _ _ _ Hc H1) Hw H3 Hnode Hready).
      destruct Ha as [Ha|[Hf Ha]]; [left|right; split; [done|by apply (fails_unit _ _ _ _ Ha)]].
      intros t Ht Hr. pose proof (copy_ok st1 t (root :: p) (at_ ++ p) b Ht Hr Hne Hn) as Ho. unfold answers in Ha.
      rewrite Ho in Ha. by injection Ha. }
    destruct r; apply rg_ret; intros st4 H4; apply rg_ret; intros st5 H5; (eapply copying_bears; [exact Hs|by etrans]).
  - apply (triple_write (MakeDirs (tmp name) (at_ ++ p))); [by apply bool_decide_eq_true|by destruct Hc|].
    intros r st1 st2 st3 H1 H3 Hw Ha.
    assert (Hs : copying (pre ++ [(p, true)]) (match r with inl _ => (errors, skipped) | inr x => (errors ++ [x], skipped ++ [p]) end) st3).
    { apply (copying_snoc _ _ _ true _ st1 st2 _ r (copying_bears _ _ _ _ Hc H1) Hw H3 Hnode Hready).
      destruct Ha as [Ha|[Hf Ha]]; [left|right; split; [done|by apply (fails_unit _ _ _ _ Ha)]].
      intros t Ht Hr. pose proof (make_dir_ok st1 t (at_ ++ p) Ht Hr) as Ho. unfold answers in Ha.
      rewrite Ho in Ha. by injection Ha. }
    destruct r; apply rg_ret; intros st4 H4; apply rg_ret; intros st5 H5; (eapply copying_bears; [exact Hs|by etrans]).
Qed.

Lemma listing_walked (l : list (path * bool)) : l ≡ₚ walked src root -> parents_first (map fst l) ->
  listing (List.filter (fun entry => negb (existsb ignore entry.1)) l).
Proof.
  intros Hl Hf. split; [|split; [by apply parents_first_filter|]].
  - assert (Hm : forall k : list (path * bool), map fst (List.filter (fun entry => negb (existsb ignore entry.1)) k) =
      List.filter (fun p => negb (existsb ignore p)) (map fst k)).
    { induction k as [|x k IH]; [done|]. cbn. destruct (negb _); cbn; by rewrite IH. }
    rewrite Hm. unfold kept. apply filter_perm. rewrite Hl. unfold walked. rewrite map_map. cbn.
    rewrite map_id. by rewrite merge_sort_Permutation.
  - intros p dir [Hin _]%list_elem_of_In%filter_In. apply list_elem_of_In in Hin. rewrite Hl in Hin.
    unfold walked in Hin. apply list_elem_of_In, in_map_iff in Hin as (p' & [= -> ->] & _). done.
Qed.

Lemma copytree_spec (st : stage) : whole st -> default ∅ (st !! tmp name) = t0 ->
  triple (copytree root (tmp name) at_) st (fun o st' => whole st' /\
    yields (fun _ => st' !! tmp name = Some (put_all root at_ (kept root) (<[at_ := Dir]> t0))) o).
Proof using Hsrc Hroot Hat Hfree.
  intros Hw Ht. unfold copytree. apply (rg_bind _ _ _ _), (triple_read (Walk root)); [done..|].
  intros r st1 st2 _ H2 [Ha|[Hf [x ->]]]; [|split; [by eapply whole_bears|done]].
  cbn in Ha. rewrite Hroot in Ha. destruct Ha as (_ & l & -> & Hl & Hfirst).
  pose proof (listing_walked l Hl Hfirst) as Hlist. set (entries := List.filter _ l) in *.
  assert (Hw2 : whole st2) by (by eapply whole_bears).
  apply (rg_bind _ _ _ _), (triple_write (MakeDirs (tmp name) at_)); [by apply bool_decide_eq_true|done|].
  intros r st3 st4 st5 [_ H3] [_ H5] Hw5 [Ha|[Hf Ha]]; [|destruct (fails_unit _ _ _ _ Ha) as [x ->]; done].
  assert (Ht3 : default ∅ (st3 !! tmp name) = t0) by (destruct H2 as [_ H2]; by rewrite H3, H2).
  unfold answers in Ha. rewrite (make_dir_ok st3 t0 at_ Ht3 Hat) in Ha. injection Ha as -> ->.
  rewrite lookup_insert_eq in H5. apply (rg_bind _ _ _ _).
  eapply rg_mono; [apply (rg_fold _ _ _ _ _ copying (fun _ _ => False) entries [])|].
  - intros pre acc d d' Hc Hd. by eapply copying_bears.
  - intros pre [p dir] post acc d E Hc. eapply rg_mono; [by apply (entry_copied entries pre post)|].
    by intros [acc'|x|] d' H'.
  - split; [done|]. left. split; [done|]. by rewrite H5.
  - intros [[errors skipped]|x|] d' H'; [|done..]. cbn in H'. destruct H' as [Hwd H'].
    destruct H' as [[[= -> ->] Htd]|[He Hf]].
    + apply rg_ret. intros d1 Hd. split; [by eapply whole_bears|]. cbn. destruct Hd as [_ ->]. rewrite Htd. f_equal.
      destruct Hlist as [Hperm _]. apply put_all_perm; [done|]. cbn. rewrite Hperm. apply kept_NoDup.
    + destruct errors; [done|]. intros d1 Hd. split; [by eapply whole_bears|done].
Qed.
End Copy.

(** ** The whole *)

(** A temporary directory left by an earlier synthesis is a directory. *)
Definition clean (st : stage) : Prop := match st !! tmp name with Some t => t !! [] = Some Dir | None => True end.

(** The directory returned is complete, unless the renaming itself failed; an
    exception means that a call failed. *)
Definition staged_ok (o : outcome string) (st : stage) : Prop := whole st /\
  yields (fun d => d = dest name /\ (st !! dest name = Some (image name) \/ faulty (Rename (tmp name) (dest name)))) o.

Lemma image_overlay : put_all name [] (kept name) {[ [] := Dir ]} !! ["common"] = None /\
  forall p, p <> [] -> put_all name [] (kept name) {[ [] := Dir ]} !! (["common"] ++ p) = None.
Proof using Hsrc.
  assert (H : forall p, put_all name [] (kept name) {[ [] := Dir ]} !! ("common" :: p) = None).
  { intros p. rewrite put_all_ne; [by rewrite lookup_singleton_ne|]. cbn. intros q [[_ Hs] _]%kept_elem <-.
    assert (Hd : is_Some (src !! [name; "common"])).
    { destruct p as [|a p]; [done|]. exists Dir. apply (so_parents _ Hsrc (name :: "common" :: a :: p)); [done|done|].
      split; [by exists (a :: p)|done]. }
    rewrite (so_overlay _ Hsrc) in Hd. by destruct Hd. }
  split; [apply H|]. intros p _. apply H.
Qed.

Lemma image_not_empty : image name <> {[ [] := Dir ]}.
Proof using Hsrc.
  intros E. assert (H : image name !! ["common"] = Some Dir).
  { unfold image. rewrite put_all_ne; [apply lookup_insert_eq|]. intros p [[Hp _] _]%kept_elem E'. injection E' as E'. by rewrite <- E' in Hp. }
  rewrite E in H. by rewrite lookup_singleton_ne in H.
Qed.

Lemma image_root : image name !! [] = Some Dir.
Proof.
  unfold image. rewrite put_all_ne by done. rewrite lookup_insert_ne by done.
  rewrite put_all_ne; [apply lookup_singleton_eq|]. intros p [[Hp _] _]%kept_elem E. cbn in E. by rewrite <- E in Hp.
Qed.

Lemma rename_step (st : stage) (r : unit + exn) (st' : stage) : whole st -> st !! tmp name = Some (image name) ->
  fs_step src faulty (Rename (tmp name) (dest name)) st r st' ->
  touches st st' /\ whole st' /\
  ((st' !! dest name = Some (image name)) \/ faulty (Rename (tmp name) (dest name))) /\
  match r with inl _ => True | inr x => is_oserror x = true end.
Proof using Hsrc.
  intros Hw Ht [Ha|(Hf & Hd & Hr)].
  - unfold answers, fs_do in Ha. rewrite Ht in Ha. destruct Hw as [Hn|Hn]; rewrite Hn in Ha.
    + injection Ha as -> ->. split_and!; [|right; apply lookup_insert_eq|left; apply lookup_insert_eq|done].
      intros e He1 He2. by rewrite lookup_insert_ne, lookup_delete_ne.
    + rewrite bool_decide_eq_false_2 in Ha by apply image_not_empty. cbn [andb] in Ha. rewrite image_root in Ha. cbn in Ha.
      injection Ha as -> ->. split_and!; [done|by right|by left|done].
  - assert (st' = st) as -> by (apply map_eq; intros e; by apply Hd).
    split_and!; [done|done|by right|by destruct r].
Qed.

Lemma triple_rename (st : stage) : whole st -> st !! tmp name = Some (image name) ->
  triple (io (Rename (tmp name) (dest name))) st (fun o st' => whole st' /\
    (st' !! dest name = Some (image name) \/ faulty (Rename (tmp name) (dest name))) /\
    match o with Ok _ => True | Exn x => is_oserror x = true | NoFuel => False end).
Proof using Hsrc.
  intros Hw Ht. apply (rg_call (S := staging)). intros st1 r st2 H1 Hs.
  destruct (rename_step st1 r st2) as (Htouch & Hw2 & Hd & Hr); [by eapply whole_bears|by destruct H1 as [_ ->]|done|].
  split_and!; [done|done|]. intros st3 H3. split; [by eapply whole_bears|]. destruct H3 as [-> _]. split; [done|by destruct r].
Qed.

Lemma rmtree_spec (ignore_errors : bool) (st : stage) : whole st ->
  (ignore_errors = false -> exists t, st !! tmp name = Some t /\ t !! [] = Some Dir) ->
  triple (io (Rmtree (tmp name) ignore_errors)) st (fun o st' => whole st' /\ st' !! dest name = st !! dest name /\
    yields (fun _ => ignore_errors = false -> st' !! tmp name = None) o).
Proof.
  intros Hw Hc. apply (triple_write (Rmtree (tmp name) ignore_errors)); [by apply bool_decide_eq_true|done|].
  intros r st1 st2 st3 [Hd1 Ht1] [Hd3 Ht3] Hw3 Ha. split; [done|]. split.
  - rewrite Hd3, <- Hd1. assert (Hs : fs_step src (fun _ => True) (Rmtree (tmp name) ignore_errors) st1 r st2) by (destruct Ha as [Ha|[_ Ha]]; [by left|by right]).
    destruct Hs as [Hs|(_ & Hs & _)]; [|apply Hs; intros [= E]; by apply dest_not_tmp].
    unfold answers, fs_do in Hs. repeat case_match; injection Hs as -> ->; try done.
    apply lookup_delete_ne. intros E. by apply dest_not_tmp.
  - destruct Ha as [Ha|[Hf [_ Ha]]].
    + unfold answers, fs_do in Ha. destruct ignore_errors.
      * destruct (st1 !! tmp name) as [t|]; [destruct (is_dir _)|]; injection Ha as -> ->; cbn; discriminate.
      * destruct (Hc eq_refl) as (t & Ht & Hdir). rewrite Ht1, Ht, Hdir in Ha. cbn in Ha. injection Ha as -> ->. cbn.
        intros _. by rewrite Ht3, lookup_delete_eq.
    + destruct r as [u|x]; [cbn in Ha; subst; cbn; discriminate|done].
Qed.

(** The copies and the renaming, once the temporary directory is out of the way. *)
Lemma stage_copies (st : stage) : whole st -> st !! tmp name = None ->
  triple (_ ← copytree name (tmp name) []; _ ← copytree "common" (tmp name) ["common"];
          r ← attempt (io (Rename (tmp name) (dest name)));
          match r with
          | inl _ => mret (dest name)
          | inr x => if is_oserror x then _ ← io (Rmtree (tmp name) true); mret (dest name) else raise x
          end) st staged_ok.
Proof using Hsrc.
  intros Hw Ht. destruct image_overlay as [Ho1 Ho2]. apply (rg_bind _ _ _ _).
  eapply rg_mono; [apply (copytree_spec name [] ∅)|];
    [exact (so_name _ Hsrc)|split; [done|]; intros q [[r E%eq_sym%app_eq_nil] Hne]; by destruct E as [-> _]|done|done|by rewrite Ht|].
  intros [u|x|] st1 [Hw1 H1]; [|by split..]. cbn in H1. apply (rg_bind _ _ _ _).
  eapply rg_mono; [apply (copytree_spec "common" ["common"] (put_all name [] (kept name) {[ [] := Dir ]}))|];
    [exact (so_common _ Hsrc)| |done|done|by rewrite H1|].
  { split; [done|]. intros q [[r E] Hne]. destruct q as [|a [|b q]]; [|by injection E as <- _|done].
    rewrite put_all_ne; [apply lookup_singleton_eq|]. intros p [[Hp _] _]%kept_elem E'. cbn in E'. by rewrite <- E' in Hp. }
  intros [u'|x|] st2 [Hw2 H2]; [|by split..]. cbn in H2. apply (rg_bind _ _ _ _), (rg_catch _ _ _ _), (rg_bind _ _ _ _).
  eapply rg_mono; [by apply triple_rename|]. intros [u2|x|] st3 (Hw3 & Hd & Hx); [| |done].
  - intros st4 Hb4. apply rg_ret. intros st5 Hb5. assert (Hb : bears st3 st5) by (by etrans).
    split; [by eapply whole_bears|]. cbn. destruct Hb as [-> _]. by split.
  - apply rg_ret. intros st4 Hb4. rewrite Hx. apply (rg_bind _ _ _ _).
    eapply rg_mono; [apply (rmtree_spec true); [by eapply whole_bears|discriminate]|].
    intros [u2|y|] st5 (Hw5 & Hd5 & Hy); [|by split|done]. apply rg_ret. intros st6 Hb6. split; [by eapply whole_bears|].
    cbn. destruct Hb6 as [-> _], Hb4 as [Hb4 _]. by rewrite Hd5, Hb4.
Qed.

Lemma stage_spec (st : stage) : whole st -> clean st ->
  triple (_stage_lambda_asset lambda_src sha256 name) st staged_ok.
Proof using Hsrc.
  intros Hw Hc. unfold _stage_lambda_asset. apply (rg_bind _ _ _ _).
  eapply rg_mono; [apply (rg_fold _ _ _ _ _ (fun pre acc d => bears st d /\ acc = foldl digest_root "" pre) (fun _ d => bears st d /\ fault) _ [])|].
  - intros pre acc d d' [Hb ->] Hd. split; [by etrans|done].
  - intros pre root post acc d _ [Hb ->]. eapply rg_mono; [apply update_root_spec; by eapply whole_bears|].
    intros [h|x|] d' [Hd Hy]; [|split; [by etrans|done]|done]. split; [by etrans|]. by rewrite foldl_app, Hy.
  - done.
  - intros [h|x|] st1 H1; [|split; [by destruct H1; eapply whole_bears|by destruct H1]|done].
    destruct H1 as [H1 ->]. change (foldl digest_root "" ([] ++ [name; "common"])) with (fingerprint name).
    change (dest_of name _) with (dest name). change (tmp_of name _) with (tmp name).
    assert (Hw1 : whole st1) by (by eapply whole_bears). apply (rg_bind _ _ _ _), (triple_read (Exists (dest name))); [done..|].
    intros r st2 st3 [Hb2 _] Hb3 [Ha|[Hf [x ->]]]; [|split; [by eapply whole_bears|done]].
    unfold answers, fs_do in Ha. injection Ha as ->. assert (Hw3 : whole st3) by (by eapply whole_bears).
    case_bool_decide as Hthere.
    { apply rg_ret. intros st4 Hb4. assert (Hb : bears st1 st4) by (by etrans). split; [by eapply whole_bears|]. cbn.
      split; [done|]. left. destruct Hb as [-> _]. destruct Hw1 as [Hn|Hn]; [|done]. rewrite Hb2, Hn in Hthere. by destruct Hthere. }
    apply (rg_bind _ _ _ _), (triple_read MkStage); [done..|].
    intros r st3' st4 _ Hb4 [Ha|[Hf [x ->]]]; [|split; [by eapply whole_bears|done]]. unfold answers, fs_do in Ha. injection Ha as ->.
    assert (Hw4 : whole st4) by (by eapply whole_bears). apply (rg_bind _ _ _ _), (triple_read (Exists (tmp name))); [done..|].
    intros r st5 st6 [_ Ht5] Hb6 [Ha|[Hf [x ->]]]; [|split; [by eapply whole_bears|done]]. unfold answers, fs_do in Ha. injection Ha as ->.
    assert (Hw6 : whole st6) by (by eapply whole_bears). assert (Hb : bears st st6) by (do 3 (etrans; [done|]); done).
    assert (Hb46 : st5 !! tmp name = st6 !! tmp name) by (destruct Hb6 as [_ ->]; done).
    apply (rg_bind _ _ _ _). case_bool_decide as Hleft; rewrite Hb46 in Hleft.
    + destruct Hleft as [t Hleft]. eapply rg_mono; [apply (rmtree_spec false); [done|]|].
      * intros _. exists t. split; [done|]. unfold clean in Hc. destruct Hb as [_ Hb]. by rewrite <- Hb, Hleft in Hc.
      * intros [u|x|] st7 (Hw7 & _ & H7); [|by split|done]. apply stage_copies; [done|by apply H7].
    + apply rg_ret. intros st7 Hb7. apply stage_copies; [by eapply whole_bears|]. destruct Hb7 as [_ ->].
      by apply eq_None_not_Some.
Qed.
End One.

(** ** Several functions at once *)

Section Several.
Hypothesis Hdigest : forall s, (12 <= String.length (sha256 s))%nat.

Lemma length_take_12 (s : string) : (12 <= String.length s)%nat -> String.length (str_take 12 s) = 12%nat.
Proof.
  assert (H : forall n t, (n <= String.length t)%nat -> String.length (str_take n t) = n).
  { induction n as [|n IH]; intros [|c t] Ht; cbn in *; try lia. f_equal. apply IH. lia. }
  apply H.
Qed.

Lemma str_app_same_tail (a b k l : string) : String.length k = String.length l -> a +:+ k = b +:+ l -> a = b.
Proof.
  intros Hk E. assert (Hl : String.length a = String.length b).
  { apply (f_equal String.length) in E. rewrite !str_length_app in E. lia. }
  apply (f_equal (str_take (String.length a))) in E. rewrite str_take_app in E. rewrite E, Hl. by rewrite str_take_app.
Qed.

Definition suffix (n : string) : string := "-" +:+ str_take 12 (sha256 (fingerprint n)).

Lemma suffix_length n : String.length (suffix n) = 13%nat.
Proof using Hdigest. unfold suffix. rewrite str_length_app, length_take_12 by apply Hdigest. done. Qed.

Lemma dest_suffix n : dest n = n +:+ suffix n.
Proof. done. Qed.
Lemma tmp_suffix n : tmp n = "." +:+ (n +:+ suffix n +:+ ".tmp").
Proof. unfold tmp, tmp_of, suffix. by rewrite !str_app_assoc. Qed.

(** Different functions have different entries. *)
Lemma entries_apart (n m : string) : n <> m -> starts_with "." n = false -> starts_with "." m = false ->
  dest n <> dest m /\ tmp n <> tmp m /\ dest n <> tmp m.
Proof using Hdigest.
  intros Hnm Hn Hm. split_and!.
  - rewrite !dest_suffix. intros E. apply Hnm. apply (str_app_same_tail n m (suffix n) (suffix m)); [|done].
    by rewrite !suffix_length.
  - rewrite !tmp_suffix, !str_app_cons. intros [= E]. apply Hnm.
    apply (str_app_same_tail n m (suffix n +:+ ".tmp") (suffix m +:+ ".tmp")); [|done].
    by rewrite !str_length_app, !suffix_length.
  - intros E. assert (Hdot : starts_with "." (dest n) = true) by (rewrite E; unfold tmp, tmp_of; apply starts_with_app).
    unfold dest, dest_of in Hdot. destruct n as [|a n]; [discriminate Hdot|].
    rewrite str_app_cons in Hdot. cbn in Hdot, Hn. congruence.
Qed.

Context (names : list string).
Hypothesis Hnodup : NoDup names.
Hypothesis Hplain : forall n, n ∈ names -> starts_with "." n = false.
Hypothesis Hsources : forall n, n ∈ names -> sources_ok n.

Definition R_of (i : nat) : stage -> stage -> Prop := match names !! i with Some n => bears n | None => fun _ _ => True end.
Definition G_of (i : nat) : stage -> stage -> Prop := match names !! i with Some n => touches n | None => fun _ _ => False end.
Definition J_of (i : nat) : stage -> Prop := match names !! i with Some n => whole n | None => fun _ => True end.
Definition Q_of (i : nat) : outcome string -> stage -> Prop := match names !! i with Some n => staged_ok n | None => fun _ _ => True end.

#[export] Instance R_of_PreOrder i : PreOrder (R_of i).
Proof. unfold R_of. destruct (names !! i); [apply _|]. by split. Qed.

Lemma touches_bears (i j : nat) (st st' : stage) : i <> j -> G_of i st st' -> R_of j st st'.
Proof using Hdigest Hnodup Hplain.
  unfold G_of, R_of. intros Hij. destruct (names !! i) as [n|] eqn:Ei; [|done]. destruct (names !! j) as [m|] eqn:Ej; [|done].
  assert (Hnm : n <> m) by (intros ->; apply Hij; by eapply NoDup_lookup).
  destruct (entries_apart n m Hnm) as (H1 & H2 & H3); [apply Hplain; by eapply list_elem_of_lookup_2..|].
  destruct (entries_apart m n) as (_ & _ & H4); [done|apply Hplain; by eapply list_elem_of_lookup_2..|].
  intros Ht. split; apply Ht; try done; by apply not_eq_sym.
Qed.

Lemma whole_stable (i : nat) (st st' : stage) : J_of i st -> R_of i st st' -> J_of i st'.
Proof. unfold J_of, R_of. destruct (names !! i); [apply whole_bears|done]. Qed.

Lemma syntheses_ok (st : stage) : (forall n, n ∈ names -> whole n st /\ clean n st) ->
  pool_ok (S := staging) (D := stage) (fs_step src faulty) R_of G_of J_of Q_of (map (_stage_lambda_asset lambda_src sha256) names, st).
Proof using Hsources.
  intros Hst. split; cbn [fst snd].
  - intros i. unfold J_of. destruct (names !! i) as [n|] eqn:Hn; [|done]. apply Hst. by eapply list_elem_of_lookup_2.
  - intros i q (n & -> & Hn)%list_lookup_fmap_Some. assert (Hin : n ∈ names) by (by eapply list_elem_of_lookup_2).
    unfold J_of, R_of, G_of, Q_of. rewrite Hn. destruct (Hst n Hin) as [Hw Hc]. apply stage_spec; auto.
Qed.

(** The entries of no function are left alone. *)
Definition others_kept (st st' : stage) : Prop :=
  forall e, (forall n, n ∈ names -> e <> dest n /\ e <> tmp n) -> st' !! e = st !! e.

#[export] Instance others_kept_PreOrder : PreOrder others_kept.
Proof. split; [by intros st|]. intros a b c H1 H2 e He. by rewrite H2, H1. Qed.

Lemma guarantee_others (i : nat) (st st' : stage) : G_of i st st' -> others_kept st st'.
Proof.
  unfold G_of. destruct (names !! i) as [n|] eqn:E; [|done]. intros Ht e He.
  destruct (He n) as [H1 H2]; [by eapply list_elem_of_lookup_2|]. by apply Ht.
Qed.
End Several.

(** The syntheses of some functions, started on a staging directory. *)
Definition syntheses (names : list string) (st : stage) : pool (S := staging) (D := stage) string :=
  (map (_stage_lambda_asset lambda_src sha256) names, st).
Definition some_reachable := reachable (S := staging) (D := stage) (A := string) (fs_step src faulty).

(** C30: Staging different functions at the same time, whatever the order of their
    calls, whatever order directories are listed in, and whichever calls fail:
    at every moment the directory of each function is absent or a complete copy
    of its sources with the shared package; one that has finished returned its
    directory, or raised because a call failed, and the directory it returned
    is there and complete - unless the renaming failed, when it is returned
    although it may not be there; nothing else in the staging directory
    changed. *)
Theorem staging_interleaved (names : list string) (st0 st : stage) (ps : list (F string)) :
  (forall s, (12 <= String.length (sha256 s))%nat) -> NoDup names ->
  (forall n, n ∈ names -> starts_with "." n = false /\ sources_ok n /\ whole n st0 /\ clean n st0) ->
  some_reachable (syntheses names st0) (ps, st) ->
  (forall n, n ∈ names -> whole n st) /\
  (forall i n o, names !! i = Some n -> ps !! i = Some (Done o) -> staged_ok n o st) /\
  others_kept names st0 st.
Proof.
  intros Hdigest Hnodup Hn Hr.
  assert (Hok0 : pool_ok (S := staging) (D := stage) (fs_step src faulty) (R_of names) (G_of names) (J_of names) (Q_of names) (syntheses names st0)).
  { apply syntheses_ok; intros n Hin; by destruct (Hn n Hin) as (_ & ? & ? & ?). }
  assert (Hcomp : forall i j d d', i <> j -> G_of names i d d' -> R_of names j d d').
  { intros. eapply touches_bears; try done. intros n Hin. by destruct (Hn n Hin). }
  pose proof (reachable_ok _ _ _ _ _ Hcomp (whole_stable names) _ _ Hok0 Hr) as Hok.
  pose proof (reachable_change _ _ _ _ _ Hcomp (whole_stable names) (others_kept names) _ _ (guarantee_others names) Hok0 Hr) as Hkept.
  split_and!; [| |done].
  - intros n [i Hi]%list_elem_of_lookup_1. pose proof (proj1 Hok i) as HJ. unfold J_of in HJ. by rewrite Hi in HJ.
  - intros i n o Hi Hp. pose proof (proj2 Hok i _ Hp) as Hq. cbn [rg] in Hq. specialize (Hq st ltac:(done)).
    unfold Q_of in Hq. by rewrite Hi in Hq.
Qed.
End Staging.

(** ** On the sample tree *)

Definition sample_path : path := ["srv"; "deploy"; "lambda"].
Definition sample_dest (name : string) : string := dest sample_path length_digest sample_sources name.
Definition no_fault : stage_call -> Prop := fun _ => False.
Definition files_env (src : tree) : forall c : op staging, stage -> (reply staging c + exn) * stage := fun c st => fs_do src c st.

Lemma walked_perm (src : tree) (root : string) : map fst (walked src root) = merge_sort (fun p q => path_le p q = true) (entries_of src root).
Proof. unfold walked. rewrite map_map. apply map_id. Qed.

Lemma sorted_parents_first (l : list path) : NoDup l -> StronglySorted (fun p q => path_le p q = true) l -> parents_first l.
Proof.
  intros Hn Hs. induction Hs as [|p l Hs IH Hp]; [done|]. apply list.NoDup_cons in Hn as [Hnp Hn]. split; [|by apply IH].
  intros q Hq [[r ->] Hne]. rewrite list.Forall_forall in Hp. specialize (Hp _ Hq).
  assert (Hle : path_le q (q ++ r) = true).
  { clear. induction q as [|a q IH]; [by destruct r|]. cbn. by rewrite bool_decide_eq_true_2. }
  by apply Hne, path_le_antisym.
Qed.

(** The file system of the examples answers as one may. *)
Lemma files_env_step (src : tree) (faulty : stage_call -> Prop) (c : stage_call) (st : stage) : fs_step src faulty c st (files_env src c st).1 (files_env src c st).2.
Proof.
  left. destruct c; try (cbn; by repeat case_match).
  - cbn. split; [done|]. by exists (py_files src root).
  - cbn. split; [done|]. destruct (is_dir _); [|done]. exists (walked src root). split_and!; [done|done|].
    rewrite walked_perm. apply sorted_parents_first; [rewrite merge_sort_Permutation; apply entries_NoDup|].
    apply StronglySorted_merge_sort; apply _.
Qed.

(** Two syntheses of the same function share their temporary directory: the
    second removes and refills the one that the first then renames.  The first
    returns a directory without the handler, the second fails, and the next
    synthesis of the same sources finds the directory and uses it. *)
Theorem staging_race : exists st t e,
  some_reachable sample_sources no_fault (syntheses sample_path length_digest ["api"; "api"] ∅)
    ([Done (Ok (sample_dest "api")); Done (Exn e)], st) /\
  st !! sample_dest "api" = Some t /\ t !! ["handler.py"] = None /\
  (run (S := staging) (files_env sample_sources) (sample_stage "api") st).1 = (Ok (sample_dest "api"), st).
Proof.
  set (schedule := replicate 19 0%nat ++ replicate 13 1%nat ++ [0%nat] ++ replicate 9 1%nat).
  set (final := run_schedule (S := staging) (files_env sample_sources) schedule (syntheses sample_path length_digest ["api"; "api"] ∅)).
  exists final.2, (default ∅ (final.2 !! sample_dest "api")), (PyExn "Error" ", , ").
  assert (E : final.1 = [Done (Ok (sample_dest "api")); Done (Exn (PyExn "Error" ", , "))]) by (by vm_compute).
  split; [|split; [|split]]; [|vm_decide..].
  rewrite <- E, <- surjective_pairing. apply (run_schedule_reachable (S := staging)); [|constructor].
  intros c st. apply files_env_step.
Qed.

(** A change of a file that is not Python is not staged: the directory of the
    sources before the change is found, and returned. *)
Theorem requirements_not_staged :
  let edited := <[["api"; "requirements.txt"] := File "PyJWT==2.9.0"]> sample_sources in
  let first := (run (S := staging) (files_env sample_sources) (sample_stage "api") ∅).1 in
  let second := (run (S := staging) (files_env edited) (sample_stage "api") first.2).1 in
  second = first /\ (second.2 !! sample_dest "api") ≫= (.!! ["requirements.txt"]) = Some (File "PyJWT==2.8.0").
Proof. split; vm_decide. Qed.

Definition both_schedule : list nat := mjoin (replicate 30 [0%nat; 1%nat]).
Definition both_done : pool (S := staging) (D := stage) string :=
  run_schedule (S := staging) (files_env sample_sources) both_schedule (syntheses sample_path length_digest ["api"; "skills"] ∅).

Lemma staging_interleaved_witness :
  both_done.1 = [Done (Ok (sample_dest "api")); Done (Ok (sample_dest "skills"))] /\
  both_done.2 !! sample_dest "api" = Some (image sample_sources "api") /\
  (image sample_sources "api") !! ["common"; "ssm.py"] = Some (File "import time").
Proof.
  assert (Hr : some_reachable sample_sources no_fault (syntheses sample_path length_digest ["api"; "skills"] ∅) both_done).
  { apply (run_schedule_reachable (S := staging)); [|constructor]. intros c st. apply files_env_step. }
  assert (E : both_done.1 = [Done (Ok (sample_dest "api")); Done (Ok (sample_dest "skills"))]) by (by vm_compute).
  split; [done|]. split; [|by vm_compute]. rewrite (surjective_pairing both_done) in Hr.
  destruct (staging_interleaved sample_path length_digest sample_sources no_fault ["api"; "skills"] ∅ both_done.2 both_done.1)
    as (_ & Hq & _); [| | |exact Hr|].
  - intros s. unfold length_digest. rewrite str_length_app. change (String.length "-------------------------") with 25%nat. lia.
  - by apply (bool_decide_eq_true_1 (NoDup _)).
  - intros n Hn. assert (Hw : whole sample_path length_digest sample_sources n ∅) by (left; apply lookup_empty).
    assert (Hc : clean sample_path length_digest sample_sources n ∅) by (unfold clean; by rewrite lookup_empty).
    apply elem_of_cons in Hn as [->|[->|[]%elem_of_nil]%elem_of_cons];
      (split; [vm_decide|split; [apply sources_check; vm_compute; exact eq_refl|by split]]).
  - destruct (Hq 0%nat "api" (Ok (sample_dest "api")) eq_refl ltac:(by rewrite E)) as [_ [_ [H|[]]]]. exact H.
Defined.
