(* ===== verification/Modules.v ===== *)
(** * Start-up of the Lambda functions

    The constants that the modules of the API, of the health check and of the
    scaler read from their environment when they are imported
    ([api/handler.py], [health_check/handler.py], [scaler/handler.py]): the
    instances of [Config], [HcConfig] and [ScalerConfig] that the handlers run
    with.  A variable that is missing or does not parse ends the start-up with
    an exception. *)

From Stdlib Require Import SpecFloat.
From S2P Require Import Prelude Py PyNum Effects Aws Ddb Config Health Scaler.

(** ** Decimal texts *)

(** A text without blanks. *)
Fixpoint no_space (s : string) : bool :=
  match s with EmptyString => true | String c s' => negb (is_space c) && no_space s' end.

Lemma rstrip_no_space s : no_space s = true -> rstrip s = s.
Proof.
  induction s as [|c s IH]; cbn; [done|]. intros [Hc Hs]%andb_true_iff. rewrite IH by done.
  apply negb_true_iff in Hc. destruct s; cbn; by rewrite ?Hc.
Qed.
Lemma strip_no_space s : no_space s = true -> strip s = s.
Proof.
  intros Hs. unfold strip. assert (lstrip s = s) as ->.
  { destruct s as [|c s]; [done|]. cbn in *. apply andb_true_iff in Hs as [Hc _]. apply negb_true_iff in Hc. by rewrite Hc. }
  by apply rstrip_no_space.
Qed.

Lemma digit_char n : (n < 10)%N -> digit_val (pretty_N_char n) = Some (Z.of_N n) /\ is_space (pretty_N_char n) = false.
Proof.
  destruct n as [|p]; [done|]. intros Hn. do 4 (destruct p as [p|p|]; [| |done]); exfalso; lia.
Qed.

(** The decimal text of a positive number reads back. *)
Lemma parse_pretty_go x : forall s b, (0 < x)%N ->
  parse_digits (pretty_N_go x s) 0 b = parse_digits s (Z.of_N x) true /\
  no_space (pretty_N_go x s) = no_space s /\
  exists c r, pretty_N_go x s = String c r /\ digit_val c <> None.
Proof.
  induction (N.lt_wf_0 x) as [x _ IH]. intros s b Hx. rewrite pretty_N_go_step by done.
  destruct (digit_char (x `mod` 10)) as [Hd Hsp]; [by apply N.mod_lt|].
  pose proof (N.div_mod x 10 ltac:(done)) as Hdm. destruct (decide (x `div` 10 = 0)%N) as [E|E].
  - rewrite E, pretty_N_go_0. cbn [parse_digits no_space]. rewrite Hd, Hsp. split_and!; [|done|].
    + f_equal. lia.
    + eexists _, _. by rewrite Hd.
  - destruct (IH (x `div` 10)%N) with (s := String (pretty_N_char (x `mod` 10)) s) (b := b) as (Hp & Hn & Hc);
      [apply N.div_lt; lia|by apply N.neq_0_lt_0|]. rewrite Hp, Hn. cbn [parse_digits no_space]. rewrite Hd, Hsp.
    split_and!; [|done|done]. f_equal. lia.
Qed.

Lemma parse_int_pretty z : parse_int (pretty z) = Some z.
Proof.
  unfold parse_int. destruct z as [|p|p]; [done| |].
  - destruct (parse_pretty_go (N.pos p) "" false) as (Hp & Hn & c & r & E & Hc); [lia|].
    change (pretty (Z.pos p)) with (pretty_N_go (N.pos p) ""). rewrite strip_no_space by done.
    rewrite E in *. rewrite !bool_decide_eq_false_2; [done| |]; intros ->; by apply Hc.
  - destruct (parse_pretty_go (N.pos p) "" false) as (Hp & Hn & c & r & E & Hc); [lia|].
    change (pretty (Z.neg p)) with (String "-" (pretty_N_go (N.pos p) "")).
    rewrite strip_no_space by (cbn [no_space]; by rewrite Hn). rewrite bool_decide_eq_true_2 by done. by rewrite Hp.
Qed.

(** ** The environment *)

(** What the interpreter and the libraries give: reading of floats and of JSON,
    the zone database and the bounds of the loops. *)
Record runtime := Runtime {
  rt_parse_float : string -> outcome spec_float;
  rt_repr_float : spec_float -> string;
  rt_json_loads : string -> outcome val;
  rt_zone_known : string -> bool;
  rt_local_time : string -> Z -> outcome Z;
  rt_round1 : spec_float -> spec_float;
  rt_jwt_available : bool;
  rt_scan_fuel : nat;
  rt_wait_fuel : nat
}.

Section Modules.
Context (rt : runtime) (vars : string -> option string).

(** [os.environ\[k\]], [os.environ.get(k, d)] *)
Definition env_req (k : string) : outcome string := match vars k with Some s => Ok s | None => key_error k end.
Definition env_str (k d : string) : string := default d (vars k).
(** [int(os.environ.get(k, d))] *)
Definition env_int (k : string) (d : Z) : outcome Z :=
  match vars k with Some s => py_int (VStr s) | None => Ok d end.
(** [int(os.environ.get(k, "0") or "0")] *)
Definition env_int_or_0 (k : string) : outcome Z :=
  let s := env_str k "0" in if bool_decide (s = "") then Ok 0 else py_int (VStr s).
(** [float(os.environ.get(k, 1.0))] *)
Definition env_ratio (k : string) : outcome spec_float :=
  match vars k with Some s => rt_parse_float rt s | None => Ok (float_of 1) end.
(** [os.environ.get(k, "false").lower() == "true"] *)
Definition env_true (k : string) : bool := bool_decide (lower (env_str k "false") = "true").
(** [bool(os.environ.get(k))] *)
Definition env_set (k : string) : bool := negb (bool_decide (env_str k "" = "")).

Definition load_api : outcome Config :=
  _ ← env_req "TENANTS_TABLE";
  _ ← env_req "HOSTS_TABLE";
  ttl_days ← env_int "AUDIT_TTL_DAYS" 90;
  reserved_vcpu ← env_int "HOST_RESERVED_VCPU" 1;
  reserved_mem ← env_int "HOST_RESERVED_MEM" 2048;
  cpu_ratio ← env_ratio "CPU_OVERCOMMIT_RATIO";
  mem_ratio ← env_ratio "MEM_OVERCOMMIT_RATIO";
  max_vms ← env_int_or_0 "MAX_VMS_PER_HOST";
  default_vcpu ← env_int "VM_DEFAULT_VCPU" 2;
  default_mem ← env_int "VM_DEFAULT_MEM" 4096;
  data_disk ← env_int "VM_DATA_DISK_MB" 2048;
  port_base ← env_int "VM_PORT_BASE" 18789;
  max_vcpu ← env_int_or_0 "QUOTAS_MAX_VCPU";
  max_mem ← env_int_or_0 "QUOTAS_MAX_MEM_MB";
  max_disk ← env_int_or_0 "QUOTAS_MAX_DATA_DISK_MB";
  priority_min ← env_int "PER_TENANT_PRIORITY_MIN" 10;
  priority_max ← env_int "PER_TENANT_PRIORITY_MAX" 499;
  top_k ← env_int "HOST_PICK_TOP_K" 8;
  attempts ← env_int "HOST_RESERVE_ATTEMPTS" 3;
  let region := env_str "AWS_REGION" "" in
  Ok {|
    repr_float := rt_repr_float rt; scan_fuel := rt_scan_fuel rt; environ := vars; json_loads := rt_json_loads rt;
    zone_known := rt_zone_known rt; round1 := rt_round1 rt; jwt_available := rt_jwt_available rt;
    has_groups := env_set "GROUPS_TABLE"; has_audit := env_set "AUDIT_TABLE"; AUDIT_TTL_DAYS := ttl_days;
    NOTIFICATIONS_TOPIC_ARN := env_str "NOTIFICATIONS_TOPIC_ARN" "";
    PER_TENANT_PRIORITY_MIN := priority_min; PER_TENANT_PRIORITY_MAX := priority_max;
    HOST_PICK_TOP_K := top_k; HOST_RESERVE_ATTEMPTS := attempts;
    HOST_RESERVED_VCPU := reserved_vcpu; HOST_RESERVED_MEM := reserved_mem;
    CPU_OVERCOMMIT_RATIO := cpu_ratio; MEM_OVERCOMMIT_RATIO := mem_ratio; MAX_VMS_PER_HOST := max_vms;
    VM_DEFAULT_VCPU := default_vcpu; VM_DEFAULT_MEM := default_mem; VM_DATA_DISK_MB := data_disk;
    VM_PORT_BASE := port_base; VM_SUBNET_PREFIX := env_str "VM_SUBNET_PREFIX" "172.16";
    ASG_NAME := env_str "ASG_NAME" "openclaw-hosts-asg"; ALB_LISTENER_ARN := env_str "ALB_LISTENER_ARN" "";
    VPC_ID := env_str "VPC_ID" ""; ROUTING_MODE := env_str "ROUTING_MODE" "per-tenant";
    QUOTAS_ENABLED := env_true "QUOTAS_ENABLED"; QUOTAS_MAX_VCPU := max_vcpu; QUOTAS_MAX_MEM_MB := max_mem;
    QUOTAS_MAX_DATA_DISK_MB := max_disk; BALLOON_ENABLED := env_true "BALLOON_ENABLED";
    BALLOON_MIGRATE_MODE := lower (env_str "BALLOON_MIGRATE_MODE" "cold");
    COGNITO_USER_POOL_ID := env_str "COGNITO_USER_POOL_ID" ""; COGNITO_CLIENT_ID := env_str "COGNITO_CLIENT_ID" "";
    COGNITO_REGION := if bool_decide (region = "") then env_str "AWS_DEFAULT_REGION" "" else region;
    DEFAULT_NO_JWT_ROLE := env_str "DEFAULT_NO_JWT_ROLE" "viewer"; RBAC_ENABLED := env_true "RBAC_ENABLED"
  |}.

(** The constants of a module that has only some of those of the API: the
    others are those of [rest]. *)
Definition module_config (rest : Config) (ttl_days : Z) (cpu_ratio mem_ratio : spec_float)
    (max_vms priority_min priority_max : Z) (asg_name mode : string) : Config := {|
  repr_float := rt_repr_float rt; scan_fuel := rt_scan_fuel rt; environ := vars; json_loads := rt_json_loads rt;
  zone_known := rt_zone_known rt; round1 := rt_round1 rt; jwt_available := @jwt_available rest;
  has_groups := @has_groups rest; has_audit := env_set "AUDIT_TABLE"; AUDIT_TTL_DAYS := ttl_days;
  NOTIFICATIONS_TOPIC_ARN := @NOTIFICATIONS_TOPIC_ARN rest;
  PER_TENANT_PRIORITY_MIN := priority_min; PER_TENANT_PRIORITY_MAX := priority_max;
  HOST_PICK_TOP_K := @HOST_PICK_TOP_K rest; HOST_RESERVE_ATTEMPTS := @HOST_RESERVE_ATTEMPTS rest;
  HOST_RESERVED_VCPU := @HOST_RESERVED_VCPU rest; HOST_RESERVED_MEM := @HOST_RESERVED_MEM rest;
  CPU_OVERCOMMIT_RATIO := cpu_ratio; MEM_OVERCOMMIT_RATIO := mem_ratio; MAX_VMS_PER_HOST := max_vms;
  VM_DEFAULT_VCPU := @VM_DEFAULT_VCPU rest; VM_DEFAULT_MEM := @VM_DEFAULT_MEM rest;
  VM_DATA_DISK_MB := @VM_DATA_DISK_MB rest; VM_PORT_BASE := @VM_PORT_BASE rest;
  VM_SUBNET_PREFIX := @VM_SUBNET_PREFIX rest; ASG_NAME := asg_name;
  ALB_LISTENER_ARN := env_str "ALB_LISTENER_ARN" ""; VPC_ID := env_str "VPC_ID" ""; ROUTING_MODE := mode;
  QUOTAS_ENABLED := @QUOTAS_ENABLED rest; QUOTAS_MAX_VCPU := @QUOTAS_MAX_VCPU rest;
  QUOTAS_MAX_MEM_MB := @QUOTAS_MAX_MEM_MB rest; QUOTAS_MAX_DATA_DISK_MB := @QUOTAS_MAX_DATA_DISK_MB rest;
  BALLOON_ENABLED := @BALLOON_ENABLED rest; BALLOON_MIGRATE_MODE := @BALLOON_MIGRATE_MODE rest;
  COGNITO_USER_POOL_ID := @COGNITO_USER_POOL_ID rest; COGNITO_CLIENT_ID := @COGNITO_CLIENT_ID rest;
  COGNITO_REGION := @COGNITO_REGION rest; DEFAULT_NO_JWT_ROLE := @DEFAULT_NO_JWT_ROLE rest;
  RBAC_ENABLED := @RBAC_ENABLED rest
|}.

(** The constants of the health check and of the failover worker, which is a
    handler of the same module. *)
Definition load_hc (rest : Config) : outcome HcConfig :=
  _ ← env_req "TENANTS_TABLE";
  _ ← env_req "HOSTS_TABLE";
  ttl_days ← env_int "AUDIT_TTL_DAYS" 90;
  cpu_ratio ← env_ratio "CPU_OVERCOMMIT_RATIO";
  mem_ratio ← env_ratio "MEM_OVERCOMMIT_RATIO";
  max_vms ← env_int_or_0 "MAX_VMS_PER_HOST";
  threshold ← env_int "AZ_UNHEALTHY_THRESHOLD_MINUTES" 10;
  cooldown ← env_int "AZ_COOLDOWN_MINUTES" 30;
  let mode := env_str "ROUTING_MODE" "per-tenant" in
  verify ← env_int "VERIFY_CONSECUTIVE_OK" (if bool_decide (mode = "host-tg") then 3 else 1);
  priority_min ← env_int "PER_TENANT_PRIORITY_MIN" 10;
  priority_max ← env_int "PER_TENANT_PRIORITY_MAX" 499;
  failover_watchdog ← env_int "FAILOVER_WATCHDOG_MINUTES" 30;
  migration_watchdog ← env_int "MIGRATION_WATCHDOG_MINUTES" 15;
  Ok {|
    hc_config := module_config rest ttl_days cpu_ratio mem_ratio max_vms priority_min priority_max (@ASG_NAME rest) mode;
    wait_fuel := rt_wait_fuel rt; SNS_TOPIC_ARN := env_str "SNS_TOPIC_ARN" "";
    AZ_FAILOVER_ENABLED := env_true "AZ_FAILOVER_ENABLED"; AZ_UNHEALTHY_THRESHOLD_MINUTES := threshold;
    AZ_COOLDOWN_MINUTES := cooldown; ASSETS_BUCKET := env_str "ASSETS_BUCKET" "";
    PUBLIC_BASE_URL := env_str "PUBLIC_BASE_URL" ""; VERIFY_CONSECUTIVE_OK := verify;
    FAILOVER_QUEUE_URL := env_str "FAILOVER_QUEUE_URL" ""; FAILOVER_WATCHDOG_MINUTES := failover_watchdog;
    MIGRATION_WATCHDOG_MINUTES := migration_watchdog
  |}.

(** The constants of the scaler. *)
Definition load_scaler (rest : Config) : outcome ScalerConfig :=
  _ ← env_req "HOSTS_TABLE";
  ttl_days ← env_int "AUDIT_TTL_DAYS" 90;
  asg_name ← env_req "ASG_NAME";
  idle ← (s ← env_req "IDLE_TIMEOUT_MINUTES"; py_int (VStr s));
  Ok {|
    sc_config := module_config rest ttl_days (@CPU_OVERCOMMIT_RATIO rest) (@MEM_OVERCOMMIT_RATIO rest)
                   (@MAX_VMS_PER_HOST rest) (@PER_TENANT_PRIORITY_MIN rest) (@PER_TENANT_PRIORITY_MAX rest) asg_name
                   (@ROUTING_MODE rest);
    IDLE_TIMEOUT := idle;
    local_time := rt_local_time rt
  |}.
End Modules.
