(* ===== verification/Cdk.v ===== *)
(** * Declaring a stack

    [deploy/stack.py] declares the resources of a deployment by calling the
    AWS CDK, which is not part of the program: its objects are kept as the
    expressions that denote them, and what is declared is the list of the
    constructors and methods called, in order.  [B] is the type of the code that
    declares: it ends with a value and its declarations, or raises. *)

From Stdlib Require Import SpecFloat.
From S2P Require Import Prelude Py PyNum.

(** ** Objects of the CDK *)

Inductive cv :=
(* a Python value, from the configuration or a literal *)
| CVal (v : val)
(* a construct declared in the stack, by its class and its id *)
| CRef (cls id : string)
(* an attribute of an object: [o.attr] *)
| CAttr (o : cv) (attr : string)
(* the result of a call: [o.m(args, kw)] *)
| CRes (o : cv) (m : string) (args : list cv) (kw : list (string * cv))
(* an object of properties: [cls(args, kw)] *)
| CNew (cls : string) (args : list cv) (kw : list (string * cv))
(* a name of a module: an enumeration member, a class *)
| CName (name : string)
(* the concatenation of an f-string *)
| CCat (l : list cv)
(* a list or a dictionary that holds objects *)
| CList (l : list cv)
| CDict (l : list (string * cv)).

Abbreviation cs := (fun s => CVal (VStr s)).
Abbreviation ci := (fun z => CVal (VInt z)).
Abbreviation cb := (fun b => CVal (VBool b)).
Abbreviation cnone := (CVal VNone).
(** A list and a dictionary of literals. *)
Definition strs (l : list string) : cv := CList (map (fun s => CVal (VStr s)) l).

(** Truthiness: an object of the CDK, or a text that holds one, is true. *)
Definition ctruthy (c : cv) : bool :=
  match c with
  | CVal v => truthy v
  | CList l => match l with [] => false | _ => true end
  | CDict l => match l with [] => false | _ => true end
  | _ => true
  end.

(** [Fn.join(sep, parts)], [Duration.seconds(n)] and the like. *)
Definition fn (name : string) (args : list cv) : cv := CRes (CName "Fn") name args [].
Definition join (sep : string) (parts : list cv) : cv := fn "join" [cs sep; CList parts].
Definition duration (unit_ : string) (n : Z) : cv := CRes (CName "Duration") unit_ [ci n] [].

Definition AWS_PARTITION : cv := CName "cdk.Aws.PARTITION".
Definition AWS_REGION : cv := CName "cdk.Aws.REGION".
Definition AWS_ACCOUNT_ID : cv := CName "cdk.Aws.ACCOUNT_ID".
Definition AWS_STACK_ID : cv := CName "cdk.Aws.STACK_ID".
(** [self.region] and [self.account] *)
Definition self_region : cv := CName "self.region".
Definition self_account : cv := CName "self.account".

(** ** Declarations *)

Inductive decl :=
(* [cls(self, id, args, kw)] *)
| DNew (cls id : string) (args : list cv) (kw : list (string * cv))
(* [o.m(args, kw)] *)
| DCall (o : cv) (m : string) (args : list cv) (kw : list (string * cv)).

Definition B (A : Type) : Type := outcome (A * list decl).

Definition b_ret {A} (a : A) : B A := Ok (a, []).
Definition b_bind {A C} (f : A -> B C) (p : B A) : B C :=
  match p with
  | Ok (a, d) => match f a with Ok (c, d') => Ok (c, d ++ d') | Exn e => Exn e | NoFuel => NoFuel end
  | Exn e => Exn e
  | NoFuel => NoFuel
  end.
#[export] Instance b_mret : MRet B := @b_ret.
#[export] Instance b_mbind : MBind B := @b_bind.

(** A computation on Python values. *)
Definition b_lift {A} (o : outcome A) : B A := a ← o; Ok (a, []).

(** A construct of the stack. *)
Definition construct (cls id : string) (args : list cv) (kw : list (string * cv)) : B cv :=
  Ok (CRef cls id, [DNew cls id args kw]).
(** A method called for its effect, or for the object it returns. *)
Definition invoke (o : cv) (m : string) (args : list cv) (kw : list (string * cv)) : B cv :=
  Ok (CRes o m args kw, [DCall o m args kw]).
Definition invoke_ (o : cv) (m : string) (args : list cv) : B unit := Ok (tt, [DCall o m args []]).

(** [for x in l: body x] *)
Fixpoint b_for {A} (l : list A) (body : A -> B unit) : B unit :=
  match l with
  | [] => b_ret tt
  | x :: l' => b_bind (fun _ => b_for l' body) (body x)
  end.

(** ** What holds of the declarations of a stack that builds *)

Definition bwp {A} (p : B A) (Q : A -> list decl -> Prop) : Prop :=
  forall a d, p = Ok (a, d) -> Q a d.

Lemma bwp_mono {A} (p : B A) (Q Q' : A -> list decl -> Prop) :
  bwp p Q -> (forall a d, Q a d -> Q' a d) -> bwp p Q'.
Proof. intros H HQ a d E. by apply HQ, H. Qed.

Lemma bwp_ret {A} (a : A) (Q : A -> list decl -> Prop) : Q a [] -> bwp (mret a) Q.
Proof. by intros H ? ? [= <- <-]. Qed.

Lemma bwp_bind {A C} (p : B A) (f : A -> B C) (Q : C -> list decl -> Prop) :
  bwp p (fun a d => bwp (f a) (fun c d' => Q c (d ++ d'))) -> bwp (p ≫= f) Q.
Proof.
  intros H c d E. change (p ≫= f) with (b_bind f p) in E. unfold b_bind in E.
  destruct p as [[a d1]| |]; try done. destruct (f a) as [[c' d2]| |] eqn:E'; try done.
  injection E as <- <-. by apply (H a d1 eq_refl).
Qed.

Lemma bwp_lift {A} (o : outcome A) (Q : A -> list decl -> Prop) :
  (forall a, o = Ok a -> Q a []) -> bwp (b_lift o) Q.
Proof. intros H a d. destruct o; try done. intros [= <- <-]. by apply H. Qed.

Lemma bwp_construct cls id args kw (Q : cv -> list decl -> Prop) :
  Q (CRef cls id) [DNew cls id args kw] -> bwp (construct cls id args kw) Q.
Proof. by intros H ? ? [= <- <-]. Qed.

Lemma bwp_invoke o m args kw (Q : cv -> list decl -> Prop) :
  Q (CRes o m args kw) [DCall o m args kw] -> bwp (invoke o m args kw) Q.
Proof. by intros H ? ? [= <- <-]. Qed.

Lemma bwp_invoke_ o m args (Q : unit -> list decl -> Prop) :
  Q tt [DCall o m args []] -> bwp (invoke_ o m args) Q.
Proof. by intros H ? ? [= <- <-]. Qed.

(** ** Properties of every declaration *)

Definition declares {A} (P : decl -> Prop) (p : B A) : Prop := bwp p (fun _ d => Forall P d).

Section Declares.
Context (P : decl -> Prop).

Lemma declares_ret {A} (a : A) : declares P (mret a).
Proof. by apply bwp_ret. Qed.

Lemma declares_lift {A} (o : outcome A) : declares P (b_lift o).
Proof. by apply bwp_lift. Qed.

Lemma declares_bind {A C} (p : B A) (f : A -> B C) :
  declares P p -> (forall a, declares P (f a)) -> declares P (p ≫= f).
Proof.
  intros Hp Hf. apply bwp_bind. eapply bwp_mono; [apply Hp|]. intros a d Hd.
  eapply bwp_mono; [apply Hf|]. intros c d' Hd'. by apply Forall_app.
Qed.

Lemma declares_construct cls id args kw : P (DNew cls id args kw) -> declares P (construct cls id args kw).
Proof. intros H. apply bwp_construct. by repeat constructor. Qed.
Lemma declares_invoke o m args kw : P (DCall o m args kw) -> declares P (invoke o m args kw).
Proof. intros H. apply bwp_invoke. by repeat constructor. Qed.
Lemma declares_invoke_ o m args : P (DCall o m args []) -> declares P (invoke_ o m args).
Proof. intros H. apply bwp_invoke_. by repeat constructor. Qed.

Lemma declares_for {A} (l : list A) (body : A -> B unit) :
  (forall x, x ∈ l -> declares P (body x)) -> declares P (b_for l body).
Proof.
  induction l as [|x l IH]; intros Hb; [by apply bwp_ret|].
  apply (declares_bind (body x) (fun _ => b_for l body)); [apply Hb; left|].
  intros _. apply IH. intros y Hy. apply Hb. by right.
Qed.
End Declares.

(** Peel the code of a stack down to its declarations. *)
Ltac declares_calls :=
  repeat (cbn beta zeta; match goal with
    | |- declares _ (mret _) => apply declares_ret
    | |- declares _ (b_lift _) => apply declares_lift
    | |- declares _ (construct _ _ _ _) => apply declares_construct
    | |- declares _ (invoke _ _ _ _) => apply declares_invoke
    | |- declares _ (invoke_ _ _ _) => apply declares_invoke_
    | |- declares _ (b_for _ _) => apply declares_for; intros ? ?
    | |- declares _ (mbind _ _) => apply declares_bind; [|intros ?]
    | |- declares _ (match ?x with _ => _ end) => destruct x
    end).

(** ** Reading the declarations *)

Definition is_ref (cls id : string) (o : cv) : bool :=
  match o with CRef c i => bool_decide (c = cls) && bool_decide (i = id) | _ => false end.

Definition kw_get (k : string) (kw : list (string * cv)) : option cv := alist_get k kw.

(** The variables set for a Lambda function, in the order of the calls; a later
    one replaces an earlier one of the same name. *)
Definition env_of_decl (id : string) (d : decl) : list (string * cv) :=
  match d with
  | DNew cls i _ kw =>
      if bool_decide (cls = "_lambda.Function") && bool_decide (i = id) then
        match kw_get "environment" kw with Some (CDict e) => e | _ => [] end
      else []
  | DCall o m args _ =>
      if is_ref "_lambda.Function" id o && bool_decide (m = "add_environment") then
        match args with [CVal (VStr k); v] => [(k, v)] | _ => [] end
      else []
  end.
Definition env_of (id : string) (l : list decl) : list (string * cv) := concat (map (env_of_decl id) l).

(** The last binding of a key. *)
Fixpoint last_binding {A} (k : string) (l : list (string * A)) : option A :=
  match l with
  | [] => None
  | (j, v) :: l' =>
      match last_binding k l' with
      | Some w => Some w
      | None => if bool_decide (j = k) then Some v else None
      end
  end.

Lemma env_of_app id l l' : env_of id (l ++ l') = env_of id l ++ env_of id l'.
Proof. unfold env_of. by rewrite map_app, concat_app. Qed.

Lemma last_binding_app {A} k (l l' : list (string * A)) :
  last_binding k (l ++ l') = match last_binding k l' with Some v => Some v | None => last_binding k l end.
Proof.
  induction l as [|[j v] l IH]; cbn; [by destruct (last_binding k l')|].
  rewrite IH. by destruct (last_binding k l').
Qed.

(** The path of a resource of the API, from the calls that made it. *)
Fixpoint resource_path (o : cv) : option string :=
  match o with
  | CAttr (CRef "apigw.RestApi" "Api") "root" => Some ""
  | CRes p "add_resource" [CVal (VStr part)] [] =>
      match resource_path p with Some q => Some (q +:+ "/" +:+ part) | None => None end
  | _ => None
  end.

(** A method of the API: its HTTP method, its path, the integration and the
    options. *)
Definition api_method (d : decl) : option (string * string * cv * list (string * cv)) :=
  match d with
  | DCall r "add_method" [CVal (VStr m); integration] kw =>
      match resource_path r with Some p => Some (m, p, integration, kw) | None => None end
  | _ => None
  end.
