(* ===== verification/StackConfig.v ===== *)
(** * The configuration of a deployment: [deploy/stack.py]

    Finding the configuration file, clamping what would misbehave at run time,
    and the constants the stack takes from its surroundings.  The file is read
    with [yaml.safe_load], so the configuration is a value; [parse_float] is
    [float] on text.  The warnings printed are not modelled. *)

From Stdlib Require Import SpecFloat.
From S2P Require Import Prelude Py PyNum.

(** What the synthesis reads from outside: the environment and the printing and
    reading of floats. *)
Class StackEnv := {
  stack_environ : string -> option string;
  repr_float64 : spec_float -> string;
  parse_float : string -> outcome spec_float;
  (** [platform.machine()], the directory of the repository, and the text of
      its [pyproject.toml] *)
  machine : string;
  repo_dir : string;
  pyproject : outcome string
}.

Section Config.
Context `{StackEnv}.

(** [str(v)] *)
Definition text (v : val) : string := py_str repr_float64 v.

(** [float(v)] *)
Definition py_float (v : val) : outcome spec_float :=
  match v with
  | VFloat f => Ok f
  | VInt z => float_of_int z
  | VBool b => Ok (float_of (if b then 1 else 0))
  | VStr s => parse_float s
  | _ => type_error "float() argument must be a string or a real number"
  end.

Definition _config_path : string :=
  match stack_environ "OPENCLAW_CONFIG" with
  | Some override => if bool_decide (override = "") then repo_dir +:+ "/config.yml" else override
  | None => repo_dir +:+ "/config.yml"
  end.

(** ** Clamping *)

(** [cfg.get(section, {}).get(key, dflt)] *)
Definition section_get (cfg : val) (section key : string) (dflt : val) : outcome val :=
  s ← vget_or cfg section (VDict []); vget_or s key dflt.

(** [cfg.setdefault(section, {})\[key\] = v] *)
Definition section_set (cfg : val) (section key : string) (v : val) : outcome val :=
  match cfg with
  | VDict d =>
      match default (VDict []) (alist_get section d) with
      | VDict s => Ok (VDict (dict_set section (VDict (dict_set key v s)) d))
      | _ => type_error "object does not support item assignment"
      end
  | _ => attribute_error "object has no attribute 'setdefault'"
  end.

Definition RATIO_CEILING : spec_float := float_of 4.
Definition MIGRATE_MODES : list string := ["cold"; "live"; "reject"].
Definition ROUTING_MODES : list string := ["per-tenant"; "host-tg"].

(** The effective ratio of a resource. *)
Definition ratio (cfg : val) (key : string) : outcome spec_float :=
  v ← section_get cfg "host" key (VFloat (float_of 1)); py_float v.

Definition balloon_on (cfg : val) : outcome bool :=
  v ← section_get cfg "balloon" "enabled" (VBool false); Ok (truthy v).

(** A ratio above a limit is replaced by it. *)
Definition clamp (cfg : val) (key : string) (limit : spec_float) (when : bool) : outcome val :=
  r ← ratio cfg key;
  if flt limit r && when then section_set cfg "host" key (VFloat limit) else Ok cfg.

Definition balloon_migrate_mode (cfg : val) : outcome string :=
  v ← section_get cfg "balloon" "migrate_mode" (VStr "cold"); Ok (lower (text v)).

Definition check_migrate_mode (cfg : val) : outcome val :=
  mode ← balloon_migrate_mode cfg;
  if bool_decide (mode ∈ MIGRATE_MODES) then Ok cfg
  else section_set cfg "balloon" "migrate_mode" (VStr "cold").

Definition routing_mode (cfg : val) : outcome string :=
  v ← section_get cfg "routing" "mode" (VStr "per-tenant"); Ok (lower (text v)).

Definition check_routing_mode (cfg : val) : outcome val :=
  rmode ← routing_mode cfg;
  if bool_decide (rmode ∈ ROUTING_MODES) then section_set cfg "routing" "mode" (VStr rmode)
  else value_error ("config.yml routing.mode=" +:+ repr_str rmode +:+
                    " invalid — must be one of ('per-tenant', 'host-tg')").

Definition _normalize_config (cfg : val) : outcome val :=
  _ ← ratio cfg "mem_overcommit_ratio";
  on ← balloon_on cfg;
  cfg ← clamp cfg "mem_overcommit_ratio" (float_of 1) (negb on);
  cfg ← clamp cfg "cpu_overcommit_ratio" RATIO_CEILING true;
  cfg ← clamp cfg "mem_overcommit_ratio" RATIO_CEILING true;
  cfg ← check_migrate_mode cfg;
  check_routing_mode cfg.

(** ** Constants of the synthesis *)

Definition _sam_build_image_for_host : string :=
  let m := lower machine in
  if bool_decide (m ∈ ["arm64"; "aarch64"]) then "public.ecr.aws/sam/build-python3.12:latest-arm64"
  else "public.ecr.aws/sam/build-python3.12:latest-x86_64".

(** The pattern after [version]: blanks, an equals sign, blanks and a quoted
    text that is not empty, which is its group. *)
Fixpoint until_quote (s : string) : option string :=
  match s with
  | EmptyString => None
  | String c s' => if bool_decide (c = dquote) then Some EmptyString else String c <$> until_quote s'
  end.
Definition version_value (s : string) : option string :=
  match lstrip s with
  | String "=" s' =>
      match lstrip s' with
      | String c s'' =>
          if bool_decide (c = dquote) then
            match until_quote s'' with Some EmptyString => None | r => r end
          else None
      | EmptyString => None
      end
  | _ => None
  end.

(** [re.search(..., re.MULTILINE)]: the first start of a line that matches. *)
Fixpoint search_version (at_start : bool) (s : string) : option string :=
  let here := if at_start && starts_with "version" s then version_value (str_drop 7 s) else None in
  match here with
  | Some v => Some v
  | None =>
      match s with
      | EmptyString => None
      | String c s' => search_version (bool_decide (c = line_feed)) s'
      end
  end.

Definition _read_pyproject_version : string :=
  match pyproject with Ok t => default "dev" (search_version true t) | _ => "dev" end.

(** ** Lemmas *)

Lemma section_get_set cfg cfg' s k v : section_set cfg s k v = Ok cfg' ->
  forall s' k' d, section_get cfg' s' k' d =
    if bool_decide (s = s') && bool_decide (k = k') then Ok v else section_get cfg s' k' d.
Proof.
  unfold section_set, section_get. destruct cfg as [| | | | | |d]; try done.
  destruct (default (VDict []) (alist_get s d)) as [| | | | | |e] eqn:E; try done. intros [= <-] s' k' dv.
  cbn. rewrite dict_get_set. destruct (bool_decide_reflect (s = s')) as [<-|]; cbn; [|done].
  rewrite dict_get_set, E. by destruct (bool_decide (k = k')).
Qed.

Lemma dict_set_same {A} k (v : A) d : alist_get k d = Some v -> dict_set k v d = d.
Proof.
  induction d as [|[j w] d IH]; cbn; [done|]. case_bool_decide; [intros [= ->]; by subst|].
  intros E. by rewrite IH.
Qed.

Lemma dict_set_set {A} k (v w : A) d : dict_set k v (dict_set k w d) = dict_set k v d.
Proof.
  induction d as [|[j x] d IH]; cbn; [by rewrite bool_decide_eq_true_2|].
  destruct (bool_decide_reflect (j = k)) as [->|Hj]; cbn; [by rewrite bool_decide_eq_true_2|].
  by rewrite bool_decide_eq_false_2, IH by done.
Qed.

(** Assigning twice is assigning once. *)
Lemma section_set_same cfg s k v : forall cfg', section_set cfg s k v = Ok cfg' -> section_set cfg' s k v = Ok cfg'.
Proof.
  unfold section_set. destruct cfg as [| | | | | |d]; try done. intros cfg'.
  destruct (default (VDict []) (alist_get s d)) as [| | | | | |e] eqn:E; try done. intros [= <-].
  rewrite dict_get_set, bool_decide_eq_true_2 by done. cbn. by rewrite !dict_set_set.
Qed.

(** A configuration whose ratios and modes are the ones that take effect. *)
Record normalized (cfg : val) : Prop := {
  norm_mem : exists r on, ratio cfg "mem_overcommit_ratio" = Ok r /\ balloon_on cfg = Ok on /\
    flt RATIO_CEILING r = false /\ (on = false -> flt (float_of 1) r = false);
  norm_cpu : exists r, ratio cfg "cpu_overcommit_ratio" = Ok r /\ flt RATIO_CEILING r = false;
  norm_migrate : exists mode, balloon_migrate_mode cfg = Ok mode /\ mode ∈ MIGRATE_MODES;
  norm_routing : exists mode, section_get cfg "routing" "mode" (VStr "per-tenant") = Ok (VStr mode) /\ mode ∈ ROUTING_MODES
}.

(** The settings that the clamping may change. *)
Definition clamped : list (string * string) :=
  [("host", "mem_overcommit_ratio"); ("host", "cpu_overcommit_ratio"); ("balloon", "migrate_mode"); ("routing", "mode")].

Definition same_settings (except : list (string * string)) (cfg cfg' : val) : Prop :=
  forall s k d, (s, k) ∉ except -> section_get cfg' s k d = section_get cfg s k d.

Lemma set_same_settings cfg cfg' s k v : section_set cfg s k v = Ok cfg' -> same_settings [(s, k)] cfg cfg'.
Proof.
  intros E s' k' d Hn. rewrite (section_get_set _ _ _ _ _ E).
  destruct (bool_decide_reflect (s = s')) as [<-|]; cbn; [|done]. rewrite bool_decide_eq_false_2; [done|set_solver].
Qed.

Lemma same_ratio l cfg cfg' key : same_settings l cfg cfg' -> ("host", key) ∉ l -> ratio cfg' key = ratio cfg key.
Proof. intros Hs Hn. unfold ratio. by rewrite Hs. Qed.
Lemma same_balloon l cfg cfg' : same_settings l cfg cfg' -> ("balloon", "enabled") ∉ l -> balloon_on cfg' = balloon_on cfg.
Proof. intros Hs Hn. unfold balloon_on. by rewrite Hs. Qed.
Lemma same_migrate l cfg cfg' : same_settings l cfg cfg' -> ("balloon", "migrate_mode") ∉ l -> balloon_migrate_mode cfg' = balloon_migrate_mode cfg.
Proof. intros Hs Hn. unfold balloon_migrate_mode. by rewrite Hs. Qed.

Lemma clamp_spec cfg key limit when cfg' : flt limit limit = false -> clamp cfg key limit when = Ok cfg' ->
  same_settings [("host", key)] cfg cfg' /\
  exists r0 r, ratio cfg key = Ok r0 /\ ratio cfg' key = Ok r /\ (when = true -> flt limit r = false) /\
    (r = r0 \/ (r = limit /\ flt limit r0 = true)).
Proof.
  intros Hl. unfold clamp. intros (r0 & Hr & E)%outcome_bind_Ok.
  destruct (flt limit r0 && when) eqn:Ec.
  - apply andb_true_iff in Ec as [Ef ->]. split; [by eapply set_same_settings|]. exists r0, limit. split; [done|].
    split; [|by auto]. unfold ratio. rewrite (section_get_set _ _ _ _ _ E), !bool_decide_eq_true_2 by done. done.
  - injection E as <-. split; [done|]. exists r0, r0. split_and!; try done; [|by left].
    intros ->. by rewrite andb_true_r in Ec.
Qed.

Lemma clamp_noop cfg key limit when r :
  ratio cfg key = Ok r -> (when = true -> flt limit r = false) -> clamp cfg key limit when = Ok cfg.
Proof.
  intros Hr Hf. unfold clamp. rewrite Hr. cbn. destruct when; [by rewrite Hf|by rewrite andb_false_r].
Qed.

Lemma above_ceiling r : flt RATIO_CEILING r = true -> flt (float_of 1) r = true.
Proof.
  unfold flt, SFltb. change RATIO_CEILING with (S754_finite false 4503599627370496 (-50)).
  change (float_of 1) with (S754_finite false 4503599627370496 (-52)).
  destruct r as [|[]| |[] m e]; cbn; try done.
  destruct e as [|e|e]; cbn; try done. destruct (Pos.compare_spec 50 e) as [He|He|He]; cbn; try done;
    intros _; by replace (52 ?= e)%positive with Gt by (symmetry; apply Pos.compare_gt_iff; lia).
Qed.

Lemma check_migrate_spec cfg cfg' : check_migrate_mode cfg = Ok cfg' ->
  same_settings [("balloon", "migrate_mode")] cfg cfg' /\
  exists mode, balloon_migrate_mode cfg' = Ok mode /\ mode ∈ MIGRATE_MODES.
Proof.
  unfold check_migrate_mode. intros (mode & Hm & E)%outcome_bind_Ok. case_bool_decide.
  - injection E as <-. split; [done|by exists mode].
  - split; [by eapply set_same_settings|]. exists "cold". split; [|left].
    unfold balloon_migrate_mode. by rewrite (section_get_set _ _ _ _ _ E), !bool_decide_eq_true_2 by done.
Qed.

(** The accepted modes are in lower case already. *)
Lemma lower_routing mode : mode ∈ ROUTING_MODES -> lower mode = mode.
Proof. unfold ROUTING_MODES. by intros [->|[->|Hn%elem_of_nil]%elem_of_cons]%elem_of_cons. Qed.

Lemma check_routing_spec cfg cfg' : check_routing_mode cfg = Ok cfg' ->
  same_settings [("routing", "mode")] cfg cfg' /\ check_routing_mode cfg' = Ok cfg' /\
  exists mode, routing_mode cfg = Ok mode /\ mode ∈ ROUTING_MODES /\
    section_get cfg' "routing" "mode" (VStr "per-tenant") = Ok (VStr mode).
Proof.
  unfold check_routing_mode. intros (mode & Hm & E)%outcome_bind_Ok. case_bool_decide as Hin; [|done].
  assert (Hg : section_get cfg' "routing" "mode" (VStr "per-tenant") = Ok (VStr mode)).
  { by rewrite (section_get_set _ _ _ _ _ E), !bool_decide_eq_true_2 by done. }
  split; [by eapply set_same_settings|]. split; [|by exists mode].
  unfold routing_mode. rewrite Hg. cbn [mbind outcome_bind]. change (text (VStr mode)) with mode.
  rewrite lower_routing, bool_decide_eq_true_2 by done. by eapply section_set_same.
Qed.

(** A setting other than the one of a list. *)
Ltac elsewhere := apply not_elem_of_cons; split; [congruence|apply not_elem_of_nil].

Lemma normalize_facts (cfg cfg' : val) :
  _normalize_config cfg = Ok cfg' ->
  normalized cfg' /\ same_settings clamped cfg cfg' /\ _normalize_config cfg' = Ok cfg' /\
  exists mode, routing_mode cfg = Ok mode /\ mode ∈ ROUTING_MODES.
Proof.
  unfold _normalize_config. intros (r0 & Hr0 & E)%outcome_bind_Ok. apply outcome_bind_Ok in E as (on & Hon & E).
  apply outcome_bind_Ok in E as (c1 & E1 & E). apply outcome_bind_Ok in E as (c2 & E2 & E).
  apply outcome_bind_Ok in E as (c3 & E3 & E). apply outcome_bind_Ok in E as (c4 & E4 & E5).
  apply clamp_spec in E1 as (S1 & q0 & q1 & Q0 & Q1 & L1 & D1); [|done].
  apply clamp_spec in E2 as (S2 & p0 & p1 & P0 & P1 & L2 & D2); [|done].
  apply clamp_spec in E3 as (S3 & m0 & m1 & M0 & M1 & L3 & D3); [|done].
  apply check_migrate_spec in E4 as (S4 & mode & Hmode & Hmode_in).
  apply check_routing_spec in E5 as (S5 & Hfix & rmode & Hr & Hr_in & Hget).
  rewrite (same_ratio _ _ _ _ S2), Q1 in M0 by elsewhere. injection M0 as <-.
  assert (Hmem : ratio cfg' "mem_overcommit_ratio" = Ok m1).
  { by rewrite (same_ratio _ _ _ _ S5), (same_ratio _ _ _ _ S4) by elsewhere. }
  assert (Hcpu : ratio cfg' "cpu_overcommit_ratio" = Ok p1).
  { by rewrite (same_ratio _ _ _ _ S5), (same_ratio _ _ _ _ S4), (same_ratio _ _ _ _ S3) by elsewhere. }
  assert (Hball : balloon_on cfg' = Ok on).
  { by rewrite (same_balloon _ _ _ S5), (same_balloon _ _ _ S4), (same_balloon _ _ _ S3), (same_balloon _ _ _ S2),
      (same_balloon _ _ _ S1) by elsewhere. }
  assert (Hoff : on = false -> flt (float_of 1) m1 = false).
  { intros ->. destruct D3 as [->|[-> Hq]]; [by apply L1|]. apply above_ceiling in Hq. by rewrite L1 in Hq. }
  assert (Hmig : balloon_migrate_mode cfg' = Ok mode) by (by rewrite (same_migrate _ _ _ S5) by elsewhere).
  split; [|split; [|split]].
  - split; [by exists m1, on; auto|by exists p1; auto|by exists mode|by exists rmode].
  - intros s k d Hn. unfold clamped in Hn. rewrite !not_elem_of_cons in Hn. destruct Hn as (? & ? & ? & ? & _).
    by rewrite S5, S4, S3, S2, S1 by elsewhere.
  - rewrite Hmem, Hball. cbn [mbind outcome_bind].
    rewrite (clamp_noop _ _ _ _ m1 Hmem) by (intros Hn; apply Hoff; by destruct on). cbn [mbind outcome_bind].
    rewrite (clamp_noop _ _ _ _ p1 Hcpu L2). cbn [mbind outcome_bind].
    rewrite (clamp_noop _ _ _ _ m1 Hmem L3). cbn [mbind outcome_bind].
    unfold check_migrate_mode at 1. rewrite Hmig. cbn [mbind outcome_bind]. by rewrite bool_decide_eq_true_2.
  - exists rmode. split; [|done]. rewrite <- Hr. unfold routing_mode.
    by rewrite S4, S3, S2, S1 by elsewhere.
Qed.

(** The value of each setting after a step, from the values before it. *)
Lemma clamp_settings cfg key limit when cfg' : clamp cfg key limit when = Ok cfg' ->
  exists r, ratio cfg key = Ok r /\ forall s k d, section_get cfg' s k d =
    if bool_decide ("host" = s) && bool_decide (key = k) && (flt limit r && when) then Ok (VFloat limit)
    else section_get cfg s k d.
Proof.
  unfold clamp. intros (r & Hr & E)%outcome_bind_Ok. exists r. split; [done|]. intros s k d.
  destruct (flt limit r && when); [by rewrite (section_get_set _ _ _ _ _ E), andb_true_r|].
  injection E as <-. by rewrite andb_false_r.
Qed.

Lemma migrate_settings cfg cfg' : check_migrate_mode cfg = Ok cfg' ->
  exists mode, balloon_migrate_mode cfg = Ok mode /\ forall s k d, section_get cfg' s k d =
    if bool_decide ("balloon" = s) && bool_decide ("migrate_mode" = k) && negb (bool_decide (mode ∈ MIGRATE_MODES))
    then Ok (VStr "cold") else section_get cfg s k d.
Proof.
  unfold check_migrate_mode. intros (mode & Hm & E)%outcome_bind_Ok. exists mode. split; [done|]. intros s k d.
  destruct (bool_decide (mode ∈ MIGRATE_MODES)); [|by rewrite (section_get_set _ _ _ _ _ E), andb_true_r].
  injection E as <-. by rewrite andb_false_r.
Qed.

(** What the normalisation makes of the four settings it looks at: the memory
    ratio is cut to 4, or to 1 without balloons, the CPU ratio to 4, an unknown
    migration mode becomes [cold], and the routing mode is put in lower case;
    a setting that needs none of this keeps the value, and the absence, it has. *)
Record settled (cfg cfg' : val) : Prop := {
  set_mem : exists r on, ratio cfg "mem_overcommit_ratio" = Ok r /\ balloon_on cfg = Ok on /\
    forall d, section_get cfg' "host" "mem_overcommit_ratio" d =
      let limit := if on : bool then RATIO_CEILING else float_of 1 in
      if flt limit r then Ok (VFloat limit) else section_get cfg "host" "mem_overcommit_ratio" d;
  set_cpu : exists r, ratio cfg "cpu_overcommit_ratio" = Ok r /\
    forall d, section_get cfg' "host" "cpu_overcommit_ratio" d =
      if flt RATIO_CEILING r then Ok (VFloat RATIO_CEILING) else section_get cfg "host" "cpu_overcommit_ratio" d;
  set_migrate : exists mode, balloon_migrate_mode cfg = Ok mode /\
    forall d, section_get cfg' "balloon" "migrate_mode" d =
      if bool_decide (mode ∈ MIGRATE_MODES) then section_get cfg "balloon" "migrate_mode" d else Ok (VStr "cold");
  set_routing : exists mode, routing_mode cfg = Ok mode /\ mode ∈ ROUTING_MODES /\
    forall d, section_get cfg' "routing" "mode" d = Ok (VStr mode)
}.

(** Decide which setting of a closed name is meant. *)
Ltac settle :=
  repeat match goal with |- context [bool_decide (?a = ?b)] =>
    first [rewrite (bool_decide_eq_true_2 (a = b)) by done | rewrite (bool_decide_eq_false_2 (a = b)) by done] end;
  rewrite ?andb_true_l, ?andb_false_l, ?andb_false_r, ?andb_true_r; cbv iota.

Lemma normalize_settled (cfg cfg' : val) : _normalize_config cfg = Ok cfg' -> settled cfg cfg'.
Proof.
  unfold _normalize_config. intros (r0 & Hr0 & E)%outcome_bind_Ok. apply outcome_bind_Ok in E as (on & Hon & E).
  apply outcome_bind_Ok in E as (c1 & E1 & E). apply outcome_bind_Ok in E as (c2 & E2 & E).
  apply outcome_bind_Ok in E as (c3 & E3 & E). apply outcome_bind_Ok in E as (c4 & E4 & E5).
  apply clamp_settings in E1 as (m & M1 & G1). apply clamp_settings in E2 as (c & C2 & G2).
  apply clamp_settings in E3 as (m' & M3 & G3). apply migrate_settings in E4 as (mode & Hm & G4).
  unfold check_routing_mode in E5. apply outcome_bind_Ok in E5 as (rm & Hrm & E5). case_bool_decide as Hin; [|done].
  pose proof (section_get_set _ _ _ _ _ E5) as G5.
  assert (Hc : ratio c1 "cpu_overcommit_ratio" = ratio cfg "cpu_overcommit_ratio") by (unfold ratio; rewrite G1; settle; done).
  assert (Hr : ratio c2 "mem_overcommit_ratio" =
    if flt (float_of 1) m && negb on then Ok (float_of 1) else ratio cfg "mem_overcommit_ratio").
  { unfold ratio. rewrite G2, G1. settle. by destruct (flt (float_of 1) m && negb on). }
  assert (Hmode : balloon_migrate_mode c3 = balloon_migrate_mode cfg)
    by (unfold balloon_migrate_mode; rewrite G3, G2, G1; settle; done).
  assert (Hrouting : routing_mode c4 = routing_mode cfg)
    by (unfold routing_mode; rewrite G4, G3, G2, G1; settle; done).
  split.
  - exists m, on. split; [done|]. split; [done|]. intros d. rewrite G5, G4, G3, G2, G1. settle.
    rewrite M3, M1 in Hr. destruct on; cbn [negb] in Hr |- *; rewrite ?andb_false_r, ?andb_true_r in Hr |- *.
    + by injection Hr as ->.
    + destruct (flt (float_of 1) m) eqn:Ef; injection Hr as ->; [done|].
      destruct (flt RATIO_CEILING m) eqn:Ec; [|done]. apply above_ceiling in Ec. congruence.
  - exists c. split; [congruence|]. intros d. rewrite G5, G4, G3, G2, G1. by settle.
  - exists mode. split; [congruence|]. intros d. rewrite G5, G4, G3, G2, G1. settle.
    by destruct (bool_decide (mode ∈ MIGRATE_MODES)).
  - exists rm. split; [congruence|]. split; [done|]. intros d. rewrite G5. by settle.
Qed.

(** C29: The configuration that the stack is built from, setting by setting: the
    memory ratio of the file, cut to 4, or to 1 when there are no balloons to
    reclaim memory; its CPU ratio, cut to 4; its migration mode, or [cold] when
    that is not a known one; its routing mode in lower case, one that is not
    known being an error; a ratio within its limit, a known migration mode and
    every other setting exactly as the file has them. The result meets its
    limits, and normalising it again changes nothing. *)
Theorem normalize_config_spec (cfg cfg' : val) :
  _normalize_config cfg = Ok cfg' ->
  settled cfg cfg' /\ same_settings clamped cfg cfg' /\ normalized cfg' /\ _normalize_config cfg' = Ok cfg'.
Proof.
  intros E. destruct (normalize_facts _ _ E) as (H1 & H2 & H3 & _). split; [by apply normalize_settled|]. by split_and!.
Qed.
End Config.
