(* ===== verification/StackCore.v ===== *)
(** * The stack: tables, policies and the API ([deploy/stack.py])

    [_build_tables] to [_build_api_routes].  The attributes of the stack object
    that are constructs are the constants below; those that depend on the
    configuration are what the functions return. *)

From Stdlib Require Import SpecFloat.
From S2P Require Import Prelude Py PyNum Cdk StackConfig.

Section Core.
Context `{StackEnv} (CFG : val).

(** [CFG.get(k, {}) or {}], [CFG.get(k, {})] and [CFG\[k\]\[j\]] *)
Definition cfg_or (k : string) : outcome val := v ← vget_or CFG k (VDict []); Ok (v_or v (VDict [])).
Definition cfg_get (k : string) : outcome val := vget_or CFG k (VDict []).
Definition cfg_at (k j : string) : outcome val := s ← vreq CFG k; vreq s j.
(** [CFG\[k\].get(j, d)] *)
Definition cfg_at_or (k j : string) (d : val) : outcome val := s ← vreq CFG k; vget_or s j d.

(** Values as texts: [str(v)] and [str(v).lower()]. *)
Definition str_cv (v : val) : cv := cs (text v).
Definition lower_cv (v : val) : cv := cs (lower (text v)).

(** ** Tables *)

Definition tenants_table : cv := CRef "dynamodb.Table" "Tenants".
Definition hosts_table : cv := CRef "dynamodb.Table" "Hosts".
Definition groups_table : cv := CRef "dynamodb.Table" "Groups".
Definition audit_table : cv := CRef "dynamodb.Table" "AuditLog".
Definition assets_bucket : cv := CRef "s3.Bucket" "Assets".
Definition table_name (t : cv) : cv := CAttr t "table_name".
Definition bucket_name : cv := CAttr assets_bucket "bucket_name".

Definition string_attribute (name : string) : cv :=
  CNew "dynamodb.Attribute" [] [("name", cs name); ("type", CName "dynamodb.AttributeType.STRING")].

Definition control_table (id name key : string) : B cv :=
  construct "dynamodb.Table" id [] [
    ("table_name", cs name); ("partition_key", string_attribute key);
    ("billing_mode", CName "dynamodb.BillingMode.PAY_PER_REQUEST");
    ("point_in_time_recovery", cb true); ("deletion_protection", cb true);
    ("removal_policy", CName "RemovalPolicy.RETAIN")].

(** The retention of the audit rows is returned. *)
Definition _build_tables : B Z :=
  _ ← control_table "Tenants" "openclaw-tenants" "id";
  _ ← control_table "Hosts" "openclaw-hosts" "instance_id";
  _ ← control_table "Groups" "openclaw-groups" "name";
  audit_cfg ← b_lift (cfg_or "audit");
  audit_retention_days ← b_lift (v ← vget_or audit_cfg "retention_days" (VInt 90); py_int v);
  let stack_uuid := fn "select" [ci 2; fn "split" [cs "/"; AWS_STACK_ID]] in
  let audit_suffix := fn "select" [ci 0; fn "split" [cs "-"; stack_uuid]] in
  _ ← construct "dynamodb.Table" "AuditLog" [] [
    ("table_name", join "-" [cs "openclaw-audit-log"; audit_suffix]);
    ("partition_key", string_attribute "pk"); ("sort_key", string_attribute "ts");
    ("billing_mode", CName "dynamodb.BillingMode.PAY_PER_REQUEST");
    ("time_to_live_attribute", cs "expires_ttl");
    ("point_in_time_recovery", cb true); ("removal_policy", CName "RemovalPolicy.RETAIN")];
  mret audit_retention_days.

(** ** Assets bucket *)

Definition physical_id (name : string) : cv := CRes (CName "cr.PhysicalResourceId") "of" [cs name] [].
Definition from_statements (l : list cv) : cv := CRes (CName "cr.AwsCustomResourcePolicy") "from_statements" [CList l] [].
Definition policy_statement (actions : list string) (resources : list cv) : cv :=
  CNew "iam.PolicyStatement" [] [("actions", strs actions); ("resources", CList resources)].

(** The call that sets the expiration of the backups, on creation and update. *)
Definition lifecycle_call (prefix days : val) : cv :=
  CNew "cr.AwsSdkCall" [] [
    ("service", cs "S3"); ("action", cs "putBucketLifecycleConfiguration");
    ("parameters", CDict [
      ("Bucket", bucket_name);
      ("LifecycleConfiguration", CDict [("Rules", CList [CDict [
        ("ID", cs "backup-expiration");
        ("Filter", CDict [("Prefix", cs (text prefix +:+ "/"))]);
        ("Status", cs "Enabled");
        ("Expiration", CDict [("Days", CVal days)])]])])]);
    ("physical_resource_id", physical_id "backup-lifecycle")].

Definition _build_assets_bucket : B unit :=
  _ ← construct "s3.Bucket" "Assets" [] [
    ("bucket_name", CCat [cs "openclaw-assets-"; self_account]); ("removal_policy", CName "RemovalPolicy.RETAIN")];
  prefix ← b_lift (cfg_at "s3" "backup_prefix");
  days ← b_lift (cfg_at "s3" "backup_retention_days");
  _ ← construct "cr.AwsCustomResource" "BackupLifecycle" [] [
    ("install_latest_aws_sdk", cb false);
    ("on_create", lifecycle_call prefix days); ("on_update", lifecycle_call prefix days);
    ("policy", from_statements [policy_statement ["s3:PutLifecycleConfiguration"] [CAttr assets_bucket "bucket_arn"]])];
  mret tt.

(** ** Policies shared by the Lambda functions *)

Definition _asg_arn : cv := join "" [cs "arn:"; AWS_PARTITION; cs ":autoscaling:"; AWS_REGION; cs ":"; AWS_ACCOUNT_ID;
  cs ":autoScalingGroup:*:autoScalingGroupName/openclaw-hosts-asg"].
Definition _run_shell_doc_arn : cv := join "" [cs "arn:"; AWS_PARTITION; cs ":ssm:"; AWS_REGION;
  cs "::document/AWS-RunShellScript"].
Definition ec2_arn (kind : string) : cv :=
  join "" [cs "arn:"; AWS_PARTITION; cs ":ec2:"; AWS_REGION; cs ":"; AWS_ACCOUNT_ID; cs kind].

(** A statement on the instances of the group only. *)
Definition on_asg_instances (actions : list string) : cv :=
  CNew "iam.PolicyStatement" [] [
    ("actions", strs actions); ("resources", CList [ec2_arn ":instance/*"]);
    ("conditions", CDict [("StringEquals", CDict [
      ("aws:ResourceTag/aws:autoscaling:groupName", cs "openclaw-hosts-asg")])])].

Definition ssm_policies : list cv := [
  policy_statement ["ssm:SendCommand"] [_run_shell_doc_arn];
  on_asg_instances ["ssm:SendCommand"];
  policy_statement ["ssm:GetCommandInvocation"] [cs "*"]].
Definition ec2_policies : list cv := [
  policy_statement ["ec2:DescribeInstances"; "ec2:DescribeInstanceTypes"] [cs "*"];
  on_asg_instances ["ec2:TerminateInstances"]].

(** [for _s in policies: f.add_to_role_policy(_s)] *)
Definition add_policies (f : cv) (policies : list cv) : B unit :=
  b_for policies (fun s => invoke_ f "add_to_role_policy" [s]).

(** ** Notifications *)

Definition events_dlq : cv := CRef "sqs.Queue" "EventsDLQ".

(** The topic of the lifecycle events, if there is one, and its ARN. *)
Record notifications := Notifications { notifications_topic : option cv; notifications_topic_arn : cv }.

Definition _build_sns_notifications : B notifications :=
  notif_cfg ← b_lift (cfg_or "notifications");
  enabled ← b_lift (vget_or notif_cfg "enabled" (VBool false));
  n ← (if truthy enabled then
         t ← construct "sns.Topic" "TenantEvents" [] [
           ("topic_name", cs "openclaw-tenant-events"); ("display_name", cs "OpenClaw Tenant Lifecycle Events")];
         mret (Notifications (Some t) (CAttr t "topic_arn"))
       else mret (Notifications None (cs "")));
  _ ← construct "sqs.Queue" "EventsDLQ" [] [
    ("queue_name", cs "openclaw-events-dlq"); ("retention_period", duration "days" 14); ("enforce_ssl", cb true)];
  mret n.

(** [if notifications_topic is not None: notifications_topic.grant_publish(f)] *)
Definition grant_publish (n : notifications) (f : cv) : B unit :=
  match notifications_topic n with Some t => invoke_ t "grant_publish" [f] | None => mret tt end.

(** ** The API function *)

Definition api_fn : cv := CRef "_lambda.Function" "ApiHandler".
Definition PYTHON : cv := CName "_lambda.Runtime.PYTHON_3_12".
(** [Code.from_asset(_stage_lambda_asset(name))]: the staged directory is named
    by the function that stages it. *)
Definition staged (name : string) : cv := CRes (CName "stack") "_stage_lambda_asset" [cs name] [].
Definition from_asset (name : string) (kw : list (string * cv)) : cv :=
  CRes (CName "_lambda.Code") "from_asset" [staged name] kw.

Definition api_bundling : cv :=
  CNew "BundlingOptions" [] [
    ("image", CRes (CName "cdk.DockerImage") "from_registry" [cs _sam_build_image_for_host] []);
    ("command", strs ["bash"; "-c";
      "pip install --no-cache-dir --platform manylinux2014_aarch64 --implementation cp --python-version 3.12 " +:+
      "--only-binary=:all: --upgrade -r requirements.txt -t /asset-output && cp -au . /asset-output"])].

Definition api_environment (audit_retention_days : Z) (n : notifications) : outcome (list (string * cv)) :=
  rootfs_prefix ← cfg_at "s3" "rootfs_prefix";
  reserved_vcpu ← cfg_at "host" "reserved_vcpu";
  reserved_mem ← cfg_at "host" "reserved_mem_mb";
  cpu_ratio ← cfg_at_or "host" "cpu_overcommit_ratio" (VFloat (float_of 1));
  mem_ratio ← cfg_at_or "host" "mem_overcommit_ratio" (VFloat (float_of 1));
  max_vms ← cfg_at_or "host" "max_vms_per_host" (VInt 0);
  default_vcpu ← cfg_at "vm" "default_vcpu";
  default_mem ← cfg_at "vm" "default_mem_mb";
  data_disk ← cfg_at "vm" "data_disk_mb";
  port_base ← cfg_at "vm" "gateway_port_base";
  subnet_prefix ← cfg_at "vm" "subnet_prefix";
  backup_prefix ← cfg_at "s3" "backup_prefix";
  quotas ← cfg_get "quotas";
  q_enabled ← vget_or quotas "enabled" (VBool false);
  q_vcpu ← vget_or quotas "max_vcpu_per_tenant" (VInt 0);
  q_mem ← vget_or quotas "max_mem_mb_per_tenant" (VInt 0);
  q_disk ← vget_or quotas "max_data_disk_mb" (VInt 0);
  multi_az ← cfg_get "multi_az";
  az_enabled ← vget_or multi_az "enabled" (VBool false);
  az_count ← vget_or multi_az "az_count" (VInt 1);
  waf ← cfg_get "waf";
  waf_enabled ← vget_or waf "enabled" (VBool false);
  balloon ← cfg_get "balloon";
  balloon_enabled ← vget_or balloon "enabled" (VBool false);
  migrate_mode ← vget_or balloon "migrate_mode" (VStr "cold");
  auth ← cfg_or "console_auth";
  auth_enabled ← vget_or auth "enabled" (VBool false);
  auth' ← cfg_get "console_auth";
  default_role ← vget_or auth' "default_no_jwt_role" (VStr "viewer");
  rbac ← vget_or auth "rbac_enabled" (VBool false);
  Ok [("TENANTS_TABLE", table_name tenants_table); ("HOSTS_TABLE", table_name hosts_table);
      ("GROUPS_TABLE", table_name groups_table); ("AUDIT_TABLE", table_name audit_table);
      ("AUDIT_TTL_DAYS", str_cv (VInt audit_retention_days)); ("ASSETS_BUCKET", bucket_name);
      ("NOTIFICATIONS_TOPIC_ARN", notifications_topic_arn n); ("ROOTFS_PREFIX", CVal rootfs_prefix);
      ("HOST_RESERVED_VCPU", str_cv reserved_vcpu); ("HOST_RESERVED_MEM", str_cv reserved_mem);
      ("CPU_OVERCOMMIT_RATIO", str_cv cpu_ratio); ("MEM_OVERCOMMIT_RATIO", str_cv mem_ratio);
      ("MAX_VMS_PER_HOST", str_cv max_vms); ("VM_DEFAULT_VCPU", str_cv default_vcpu);
      ("VM_DEFAULT_MEM", str_cv default_mem); ("VM_DATA_DISK_MB", str_cv data_disk);
      ("VM_PORT_BASE", str_cv port_base); ("VM_SUBNET_PREFIX", CVal subnet_prefix);
      ("ASG_NAME", cs "openclaw-hosts-asg"); ("BACKUP_PREFIX", CVal backup_prefix);
      ("QUOTAS_ENABLED", lower_cv q_enabled); ("QUOTAS_MAX_VCPU", str_cv q_vcpu);
      ("QUOTAS_MAX_MEM_MB", str_cv q_mem); ("QUOTAS_MAX_DATA_DISK_MB", str_cv q_disk);
      ("MULTI_AZ_ENABLED", lower_cv az_enabled); ("MULTI_AZ_COUNT", str_cv az_count);
      ("WAF_ENABLED", lower_cv waf_enabled); ("BALLOON_ENABLED", lower_cv balloon_enabled);
      ("BALLOON_MIGRATE_MODE", lower_cv migrate_mode); ("CONSOLE_AUTH_ENABLED", lower_cv auth_enabled);
      ("DEFAULT_NO_JWT_ROLE", str_cv default_role); ("RBAC_ENABLED", lower_cv rbac);
      ("PROJECT_VERSION", cs _read_pyproject_version)].

Definition _build_api_lambda (audit_retention_days : Z) (n : notifications) : B unit :=
  environment ← b_lift (api_environment audit_retention_days n);
  api_fn ← construct "_lambda.Function" "ApiHandler" [] [
    ("function_name", cs "openclaw-api"); ("runtime", PYTHON);
    ("architecture", CName "_lambda.Architecture.ARM_64"); ("handler", cs "handler.lambda_handler");
    ("code", from_asset "api" [("bundling", api_bundling)]);
    ("timeout", duration "seconds" 120); ("memory_size", ci 256); ("environment", CDict environment)];
  _ ← invoke_ tenants_table "grant_read_write_data" [api_fn];
  _ ← invoke_ hosts_table "grant_read_write_data" [api_fn];
  _ ← invoke_ groups_table "grant_read_write_data" [api_fn];
  _ ← invoke_ audit_table "grant_read_write_data" [api_fn];
  _ ← invoke_ assets_bucket "grant_read" [api_fn];
  _ ← invoke_ assets_bucket "grant_put" [api_fn];
  _ ← invoke_ assets_bucket "grant_delete" [api_fn];
  _ ← grant_publish n api_fn;
  _ ← add_policies api_fn (ssm_policies ++ ec2_policies);
  _ ← invoke_ api_fn "add_to_role_policy" [policy_statement ["autoscaling:DescribeAutoScalingGroups"] [cs "*"]];
  invoke_ api_fn "add_to_role_policy" [policy_statement
    ["autoscaling:SetDesiredCapacity"; "autoscaling:CompleteLifecycleAction";
     "autoscaling:TerminateInstanceInAutoScalingGroup"] [_asg_arn]].

(** ** The gateway *)

Definition api : cv := CRef "apigw.RestApi" "Api".

Definition _build_api_gateway : B cv :=
  api ← construct "apigw.RestApi" "Api" [] [
    ("rest_api_name", cs "openclaw-orchestrator");
    ("deploy_options", CNew "apigw.StageOptions" [] [("stage_name", cs "v1")]);
    ("default_cors_preflight_options", CNew "apigw.CorsOptions" [] [
      ("allow_origins", CName "apigw.Cors.ALL_ORIGINS"); ("allow_methods", CName "apigw.Cors.ALL_METHODS");
      ("allow_headers", strs ["Content-Type"; "x-api-key"; "Authorization"])])];
  api_key ← invoke api "add_api_key" [cs "ApiKey"] [("api_key_name", cs "openclaw-admin-key")];
  plan ← invoke api "add_usage_plan" [cs "UsagePlan"] [
    ("name", cs "openclaw-plan");
    ("throttle", CNew "apigw.ThrottleSettings" [] [("rate_limit", ci 10); ("burst_limit", ci 20)]);
    ("api_stages", CList [CNew "apigw.UsagePlanPerApiStage" [] [("api", api); ("stage", CAttr api "deployment_stage")]])];
  _ ← invoke_ plan "add_api_key" [api_key];
  mret api_key.

(** ** Web application firewall *)

Definition visibility (metric_name : cv) : cv :=
  CNew "wafv2.CfnWebACL.VisibilityConfigProperty" [] [
    ("cloud_watch_metrics_enabled", cb true); ("sampled_requests_enabled", cb true); ("metric_name", metric_name)].

Definition rate_rule (rate_limit : Z) : cv :=
  CNew "wafv2.CfnWebACL.RuleProperty" [] [
    ("name", cs "RateLimitPerIP"); ("priority", ci 0);
    ("action", CNew "wafv2.CfnWebACL.RuleActionProperty" [] [("block", CDict [])]);
    ("statement", CNew "wafv2.CfnWebACL.StatementProperty" [] [
      ("rate_based_statement", CNew "wafv2.CfnWebACL.RateBasedStatementProperty" [] [
        ("limit", ci rate_limit); ("aggregate_key_type", cs "IP")])]);
    ("visibility_config", visibility (cs "OpenClawRateLimit"))].

Definition managed_rule (priority : Z) (rule_name : val) : cv :=
  CNew "wafv2.CfnWebACL.RuleProperty" [] [
    ("name", CVal rule_name); ("priority", ci priority);
    ("override_action", CNew "wafv2.CfnWebACL.OverrideActionProperty" [] [("none", CDict [])]);
    ("statement", CNew "wafv2.CfnWebACL.StatementProperty" [] [
      ("managed_rule_group_statement", CNew "wafv2.CfnWebACL.ManagedRuleGroupStatementProperty" [] [
        ("vendor_name", cs "AWS"); ("name", CVal rule_name)])]);
    ("visibility_config", visibility (CVal rule_name))].

(** The managed rules, numbered on from [priority]. *)
Fixpoint managed_rules (priority : Z) (names : list val) : list cv :=
  match names with
  | [] => []
  | n :: ns => managed_rule priority n :: managed_rules (priority + 1) ns
  end.

(** [list(v)] for the values a file of settings holds. *)
Definition py_list (v : val) : outcome (list val) :=
  match v with
  | VList l => Ok l
  | VDict d => Ok (map (fun kv => VStr (fst kv)) d)
  | VStr s => Ok (map (fun c => VStr (String c "")) (String.list_ascii_of_string s))
  | _ => type_error "object is not iterable"
  end.

Definition _build_waf : B unit :=
  waf_cfg ← b_lift (cfg_or "waf");
  enabled ← b_lift (vget_or waf_cfg "enabled" (VBool false));
  if truthy enabled then
    rate_limit ← b_lift (v ← vget_or waf_cfg "rate_limit_per_ip" (VInt 1000); py_int v);
    names ← b_lift (v ← vget_or waf_cfg "managed_rules" (VList []); py_list (v_or v (VList [])));
    web_acl ← construct "wafv2.CfnWebACL" "ApiWebACL" [] [
      ("name", cs "openclaw-api-acl"); ("scope", cs "REGIONAL");
      ("default_action", CNew "wafv2.CfnWebACL.DefaultActionProperty" [] [("allow", CDict [])]);
      ("visibility_config", visibility (cs "OpenClawApiACL"));
      ("rules", CList (rate_rule rate_limit :: managed_rules 1 names))];
    let stage_arn := join "" [cs "arn:"; AWS_PARTITION; cs ":apigateway:"; AWS_REGION; cs "::/restapis/";
                              CAttr api "rest_api_id"; cs "/stages/"; CAttr (CAttr api "deployment_stage") "stage_name"] in
    _ ← construct "wafv2.CfnWebACLAssociation" "ApiWebACLAssociation" [] [
      ("resource_arn", stage_arn); ("web_acl_arn", CAttr web_acl "attr_arn")];
    mret tt
  else mret tt.

(** ** Routes *)

Definition key_required : list (string * cv) := [("api_key_required", cb true)].

(** An integration with the API function, through its imported view. *)
Definition _api_fn_view : cv := CRef "_lambda.Function.from_function_arn" "ApiHandlerView".
Definition lambda_integration (f : cv) : cv := CNew "apigw.LambdaIntegration" [f] [].
Definition _li : cv := lambda_integration _api_fn_view.

Definition add_resource (parent : cv) (part : string) : B cv := invoke parent "add_resource" [cs part] [].
Definition add_method (r : cv) (m : string) (integration : cv) : B unit :=
  _ ← invoke r "add_method" [cs m; integration] key_required; mret tt.

Definition tenant_routes (root : cv) : B unit :=
  tenants_resource ← add_resource root "tenants";
  _ ← add_method tenants_resource "GET" _li;
  _ ← add_method tenants_resource "POST" _li;
  tenant_resource ← add_resource tenants_resource "{id}";
  _ ← add_method tenant_resource "GET" _li;
  _ ← add_method tenant_resource "DELETE" _li;
  tenant_action ← add_resource tenant_resource "{action}";
  _ ← add_method tenant_action "POST" _li;
  add_method tenant_action "GET" _li.

(** The resource of the hosts is returned: two more are added to it below. *)
Definition host_routes (root : cv) : B cv :=
  hosts_resource ← add_resource root "hosts";
  _ ← add_method hosts_resource "GET" _li;
  _ ← add_method hosts_resource "POST" _li;
  host_resource ← add_resource hosts_resource "{instance_id}";
  _ ← add_method host_resource "DELETE" _li;
  mret hosts_resource.

Definition group_routes (root : cv) : B unit :=
  groups_resource ← add_resource root "groups";
  _ ← add_method groups_resource "GET" _li;
  _ ← add_method groups_resource "POST" _li;
  group_resource ← add_resource groups_resource "{name}";
  group_skills_resource ← add_resource group_resource "skills";
  _ ← add_method group_skills_resource "POST" _li;
  group_skill_resource ← add_resource group_skills_resource "{skill}";
  add_method group_skill_resource "DELETE" _li.

Definition information_routes (root : cv) : B unit :=
  agentcore_resource ← add_resource root "agentcore";
  agentcore_status ← add_resource agentcore_resource "status";
  _ ← add_method agentcore_status "GET" _li;
  agentcore_tools ← add_resource agentcore_resource "tools";
  _ ← add_method agentcore_tools "GET" _li;
  system_resource ← add_resource root "system";
  system_info ← add_resource system_resource "info";
  _ ← add_method system_info "GET" _li;
  audit_log ← add_resource root "audit-log";
  add_method audit_log "GET" _li.

Definition admin_routes (root : cv) : B unit :=
  admin_resource ← add_resource root "admin";
  routing ← add_resource admin_resource "routing";
  status ← add_resource routing "status";
  _ ← add_method status "GET" _li;
  rebuild ← add_resource routing "rebuild";
  _ ← add_method rebuild "POST" _li;
  purge ← add_resource routing "purge-per-tenant";
  add_method purge "POST" _li.

Definition _build_api_routes : B unit :=
  _ ← invoke api_fn "add_permission" [cs "ApiGwInvoke"] [
    ("principal", CNew "iam.ServicePrincipal" [cs "apigateway.amazonaws.com"] []);
    ("action", cs "lambda:InvokeFunction");
    ("source_arn", join "" [cs "arn:"; AWS_PARTITION; cs ":execute-api:"; AWS_REGION; cs ":"; AWS_ACCOUNT_ID; cs ":";
                            CAttr api "rest_api_id"; cs "/*/*"])];
  _ ← construct "_lambda.Function.from_function_arn" "ApiHandlerView" [CAttr api_fn "function_arn"] [];
  let root := CAttr api "root" in
  _ ← tenant_routes root;
  hosts_resource ← host_routes root;
  backups_resource ← add_resource root "backups";
  _ ← add_method backups_resource "GET" _li;
  _ ← group_routes root;
  batch_resource ← add_resource root "batch";
  batch_tenants ← add_resource batch_resource "tenants";
  _ ← add_method batch_tenants "POST" _li;
  refresh_rootfs ← add_resource hosts_resource "refresh-rootfs";
  _ ← add_method refresh_rootfs "POST" _li;
  rootfs_version ← add_resource hosts_resource "rootfs-version";
  _ ← add_method rootfs_version "GET" _li;
  _ ← information_routes root;
  admin_routes root.
End Core.
