(* ===== verification/StackLambdas.v ===== *)
(** * The stack: the other Lambda functions and the alarms ([deploy/stack.py])

    [_build_health_check] to [_build_alarms]. *)

From Stdlib Require Import SpecFloat.
From S2P Require Import Prelude Py PyNum Cdk StackConfig StackCore.

Section Lambdas.
Context `{StackEnv} (CFG : val).

(** ** Health check *)

Definition health_fn : cv := CRef "_lambda.Function" "HealthCheck".
Definition function_name (f : cv) : cv := CAttr f "function_name".

Definition elb_arn (kind : string) : cv :=
  join "" [cs "arn:"; AWS_PARTITION; cs ":elasticloadbalancing:"; AWS_REGION; cs ":"; AWS_ACCOUNT_ID; cs kind].
Definition _elb_arns : list cv := [elb_arn ":listener-rule/app/*"; elb_arn ":listener/app/*"; elb_arn ":targetgroup/*"].

(** The statements of the functions that move the rules of a tenant. *)
Definition elb_policies : list cv := [
  policy_statement ["elasticloadbalancing:DescribeRules"; "elasticloadbalancing:DescribeTargetGroups"] [cs "*"];
  policy_statement ["elasticloadbalancing:CreateRule"; "elasticloadbalancing:ModifyRule";
                    "elasticloadbalancing:CreateTargetGroup"; "elasticloadbalancing:RegisterTargets"] _elb_arns].

(** The settings of the zone failover. *)
Definition az_failover_cfg : outcome val :=
  hc_cfg ← cfg_or CFG "health_check";
  v ← vget_or hc_cfg "az_failover" (VDict []); Ok (v_or v (VDict [])).

(** The variables that the detector and the worker share. *)
Definition failover_environment (n : notifications) : outcome (list (string * cv)) :=
  az ← az_failover_cfg;
  cpu_ratio ← cfg_at_or CFG "host" "cpu_overcommit_ratio" (VFloat (float_of 1));
  mem_ratio ← cfg_at_or CFG "host" "mem_overcommit_ratio" (VFloat (float_of 1));
  max_vms ← cfg_at_or CFG "host" "max_vms_per_host" (VInt 0);
  enabled ← vget_or az "enabled" (VBool true);
  threshold ← (v ← vget_or az "unhealthy_threshold_minutes" (VInt 10); py_int v);
  cooldown ← (v ← vget_or az "cooldown_minutes" (VInt 30); py_int v);
  Ok [("TENANTS_TABLE", table_name tenants_table); ("HOSTS_TABLE", table_name hosts_table);
      ("AUDIT_TABLE", table_name audit_table); ("SNS_TOPIC_ARN", notifications_topic_arn n);
      ("ASSETS_BUCKET", bucket_name);
      ("CPU_OVERCOMMIT_RATIO", str_cv cpu_ratio); ("MEM_OVERCOMMIT_RATIO", str_cv mem_ratio);
      ("MAX_VMS_PER_HOST", str_cv max_vms);
      ("AZ_FAILOVER_ENABLED", lower_cv (VBool (truthy enabled)));
      ("AZ_UNHEALTHY_THRESHOLD_MINUTES", str_cv (VInt threshold));
      ("AZ_COOLDOWN_MINUTES", str_cv (VInt cooldown))].

(** The tables, the bucket and the topic of those two functions. *)
Definition failover_grants (n : notifications) (f : cv) : B unit :=
  _ ← invoke_ tenants_table "grant_read_write_data" [f];
  _ ← invoke_ hosts_table "grant_read_write_data" [f];
  _ ← invoke_ audit_table "grant_write_data" [f];
  _ ← invoke_ assets_bucket "grant_read" [f];
  _ ← grant_publish n f;
  _ ← add_policies f elb_policies;
  add_policies f ssm_policies.

(** A schedule that invokes a function, with the queue of lost events. *)
Definition lambda_target (f : cv) : cv :=
  CNew "targets.LambdaFunction" [f] [("dead_letter_queue", events_dlq); ("retry_attempts", ci 2)].
Definition schedule_rule (id : string) (schedule : cv) (f : cv) : B unit :=
  _ ← construct "events.Rule" id [] [("schedule", schedule); ("targets", CList [lambda_target f])]; mret tt.
Definition rate_minutes (v : val) : cv :=
  CRes (CName "events.Schedule") "rate" [CRes (CName "Duration") "minutes" [CVal v] []] [].

Definition add_environment (f : cv) (k : string) (v : cv) : B unit := invoke_ f "add_environment" [cs k; v].

Definition _build_health_check (n : notifications) : B unit :=
  environment ← b_lift (failover_environment n);
  health_fn ← construct "_lambda.Function" "HealthCheck" [] [
    ("function_name", cs "openclaw-health-check"); ("runtime", PYTHON); ("handler", cs "handler.lambda_handler");
    ("code", from_asset "health_check" []); ("timeout", duration "seconds" 180); ("memory_size", ci 256);
    ("reserved_concurrent_executions", ci 1); ("environment", CDict environment)];
  _ ← failover_grants n health_fn;
  interval ← b_lift (cfg_at CFG "health_check" "interval_minutes");
  _ ← schedule_rule "HealthCheckSchedule" (rate_minutes interval) health_fn;
  _ ← add_environment api_fn "HEALTH_CHECK_FUNCTION" (function_name health_fn);
  invoke_ health_fn "grant_invoke" [api_fn].

(** ** Failover queue and worker *)

Definition failover_dlq : cv := CRef "sqs.Queue" "FailoverDLQ".
Definition failover_queue : cv := CRef "sqs.Queue" "FailoverQueue".
Definition failover_worker_fn : cv := CRef "_lambda.Function" "FailoverWorker".

Definition _build_failover_queue (n : notifications) : B unit :=
  failover_dlq ← construct "sqs.Queue" "FailoverDLQ" [] [
    ("queue_name", cs "openclaw-failover-dlq"); ("retention_period", duration "days" 14); ("enforce_ssl", cb true)];
  failover_queue ← construct "sqs.Queue" "FailoverQueue" [] [
    ("queue_name", cs "openclaw-failover"); ("visibility_timeout", duration "seconds" 900);
    ("retention_period", duration "days" 4); ("enforce_ssl", cb true);
    ("dead_letter_queue", CNew "sqs.DeadLetterQueue" [] [("max_receive_count", ci 2); ("queue", failover_dlq)])];
  environment ← b_lift (failover_environment n);
  failover_worker_fn ← construct "_lambda.Function" "FailoverWorker" [] [
    ("function_name", cs "openclaw-failover-worker"); ("runtime", PYTHON); ("handler", cs "worker.lambda_handler");
    ("code", from_asset "health_check" []); ("timeout", duration "seconds" 600); ("memory_size", ci 256);
    ("environment", CDict environment)];
  _ ← failover_grants n failover_worker_fn;
  _ ← invoke_ failover_worker_fn "add_event_source" [CNew "lambda_event_sources.SqsEventSource" [failover_queue]
        [("batch_size", ci 1); ("max_concurrency", ci 10)]];
  _ ← add_environment health_fn "FAILOVER_QUEUE_URL" (CAttr failover_queue "queue_url");
  invoke_ failover_queue "grant_send_messages" [health_fn].

(** ** Skills and templates *)

Definition skills_fn : cv := CRef "_lambda.Function" "Skills".
Definition templates_fn : cv := CRef "_lambda.Function" "Templates".

Definition _build_skills_lambda : B unit :=
  skills_fn ← construct "_lambda.Function" "Skills" [] [
    ("function_name", cs "openclaw-skills"); ("runtime", PYTHON); ("handler", cs "handler.lambda_handler");
    ("code", from_asset "skills" []); ("timeout", duration "seconds" 30); ("memory_size", ci 128);
    ("environment", CDict [("ASSETS_BUCKET", bucket_name); ("TENANTS_TABLE", table_name tenants_table);
                           ("GROUPS_TABLE", table_name groups_table)])];
  _ ← invoke_ assets_bucket "grant_read" [skills_fn];
  _ ← invoke_ tenants_table "grant_read_data" [skills_fn];
  _ ← invoke_ groups_table "grant_read_data" [skills_fn];
  skills_resource ← add_resource (CAttr api "root") "skills";
  _ ← add_method skills_resource "GET" (lambda_integration skills_fn);
  skill_resource ← add_resource skills_resource "{name}";
  _ ← add_method skill_resource "GET" _li;
  _ ← add_method skill_resource "PUT" _li;
  add_method skill_resource "DELETE" _li.

Definition _build_templates_lambda : B unit :=
  templates_fn ← construct "_lambda.Function" "Templates" [] [
    ("function_name", cs "openclaw-templates"); ("runtime", PYTHON); ("handler", cs "handler.lambda_handler");
    ("code", from_asset "templates" []); ("timeout", duration "seconds" 30); ("memory_size", ci 128);
    ("environment", CDict [("ASSETS_BUCKET", bucket_name)])];
  _ ← invoke_ assets_bucket "grant_read_write" [templates_fn];
  templates_resource ← add_resource (CAttr api "root") "templates";
  _ ← add_method templates_resource "GET" (lambda_integration templates_fn);
  template_item ← add_resource templates_resource "{name}";
  _ ← add_method template_item "GET" (lambda_integration templates_fn);
  _ ← add_method template_item "PUT" (lambda_integration templates_fn);
  add_method template_item "DELETE" (lambda_integration templates_fn).

(** ** Scaler and backups *)

Definition scaler_fn : cv := CRef "_lambda.Function" "Scaler".
Definition backup_fn : cv := CRef "_lambda.Function" "Backup".

Definition _build_scaler_lambda (audit_retention_days : Z) : B unit :=
  idle_timeout ← b_lift (cfg_at CFG "scaler" "idle_timeout_minutes");
  scaler_fn ← construct "_lambda.Function" "Scaler" [] [
    ("function_name", cs "openclaw-scaler"); ("runtime", PYTHON); ("handler", cs "handler.lambda_handler");
    ("code", from_asset "scaler" []); ("timeout", duration "seconds" 60); ("memory_size", ci 128);
    ("environment", CDict [("HOSTS_TABLE", table_name hosts_table); ("TENANTS_TABLE", table_name tenants_table);
                           ("ASG_NAME", cs "openclaw-hosts-asg"); ("IDLE_TIMEOUT_MINUTES", str_cv idle_timeout);
                           ("AUDIT_TABLE", table_name audit_table);
                           ("AUDIT_TTL_DAYS", str_cv (VInt audit_retention_days))])];
  _ ← invoke_ hosts_table "grant_read_write_data" [scaler_fn];
  _ ← invoke_ tenants_table "grant_read_write_data" [scaler_fn];
  _ ← invoke_ audit_table "grant_write_data" [scaler_fn];
  _ ← add_policies scaler_fn ssm_policies;
  _ ← invoke_ scaler_fn "add_to_role_policy" [policy_statement ["autoscaling:DescribeAutoScalingGroups"] [cs "*"]];
  _ ← invoke_ scaler_fn "add_to_role_policy" [policy_statement ["autoscaling:TerminateInstanceInAutoScalingGroup"] [_asg_arn]];
  interval ← b_lift (cfg_at CFG "scaler" "interval_minutes");
  schedule_rule "ScalerSchedule" (rate_minutes interval) scaler_fn.

Definition _build_backup_lambda : B unit :=
  prefix ← b_lift (cfg_at CFG "s3" "backup_prefix");
  backup_fn ← construct "_lambda.Function" "Backup" [] [
    ("function_name", cs "openclaw-backup"); ("runtime", PYTHON); ("handler", cs "handler.lambda_handler");
    ("code", from_asset "backup" []); ("timeout", duration "seconds" 900); ("memory_size", ci 256);
    ("environment", CDict [("TENANTS_TABLE", table_name tenants_table); ("ASSETS_BUCKET", bucket_name);
                           ("BACKUP_PREFIX", CVal prefix)])];
  _ ← invoke_ tenants_table "grant_read_write_data" [backup_fn];
  _ ← invoke_ assets_bucket "grant_read_write" [backup_fn];
  _ ← add_policies backup_fn ssm_policies;
  _ ← invoke_ backup_fn "grant_invoke" [api_fn];
  cron ← b_lift (cfg_at CFG "s3" "backup_cron");
  schedule_rule "BackupSchedule" (CRes (CName "events.Schedule") "expression" [CVal cron] []) backup_fn.

(** ** Alarms *)

(** An alarm on a metric that counts what should not happen. *)
Definition alarm (action : cv) (id alarm_name : string) (metric : cv) : B unit :=
  a ← construct "cloudwatch.Alarm" id [] [
    ("alarm_name", cs alarm_name); ("metric", metric); ("threshold", ci 1); ("evaluation_periods", ci 1);
    ("comparison_operator", CName "cloudwatch.ComparisonOperator.GREATER_THAN_OR_EQUAL_TO_THRESHOLD");
    ("treat_missing_data", CName "cloudwatch.TreatMissingData.NOT_BREACHING")];
  invoke_ a "add_alarm_action" [action].

Definition metric (o : cv) (name : string) : cv := CRes o name [] [("period", duration "minutes" 5)].

Definition alarmed : list (cv * string) :=
  [(api_fn, "Api"); (health_fn, "Health"); (scaler_fn, "Scaler"); (backup_fn, "Backup");
   (failover_worker_fn, "FailoverWorker")].

Definition function_alarms (action : cv) (f : cv * string) : B unit :=
  let label := f.2 in
  _ ← alarm action (label +:+ "ErrorsAlarm") ("openclaw-" +:+ lower label +:+ "-errors") (metric f.1 "metric_errors");
  alarm action (label +:+ "ThrottlesAlarm") ("openclaw-" +:+ lower label +:+ "-throttles") (metric f.1 "metric_throttles").

Definition _build_alarms (n : notifications) : B unit :=
  alarms_topic ← match notifications_topic n with
                 | Some t => mret t
                 | None => construct "sns.Topic" "AlarmsTopic" [] [
                     ("topic_name", cs "openclaw-alarms"); ("display_name", cs "OpenClaw Lambda Alarms")]
                 end;
  let _sns_action := CNew "cw_actions.SnsAction" [alarms_topic] [] in
  _ ← b_for alarmed (function_alarms _sns_action);
  _ ← alarm _sns_action "EventsDlqAlarm" "openclaw-events-dlq-not-empty"
        (metric events_dlq "metric_approximate_number_of_messages_visible");
  alarm _sns_action "FailoverDlqAlarm" "openclaw-failover-dlq-not-empty"
    (metric failover_dlq "metric_approximate_number_of_messages_visible").
End Lambdas.
