(* ===== verification/StackFleet.v ===== *)
(** * The stack: hosts and their scripts ([deploy/stack.py])

    [_build_host_role] to [_build_agentcore].  The scripts of [userdata/] are
    read when the stack is built and their placeholders replaced in the text;
    what stands for the attribute of a construct in a text is the token that the
    CDK gives it, a parameter. *)

From Stdlib Require Import SpecFloat.
From S2P Require Import Prelude Py PyNum Cdk StackConfig StackCore StackLambdas.

(** ** Texts *)

(** [s.replace(old, new)] for a text [old] that is not empty; the first [skip]
    characters belong to an occurrence already replaced. *)
Fixpoint replace_from (skip : nat) (old new s : string) : string :=
  match s with
  | EmptyString => EmptyString
  | String c s' =>
      match skip with
      | S k => replace_from k old new s'
      | O => if starts_with old s then new +:+ replace_from (String.length old - 1) old new s'
             else String c (replace_from O old new s')
      end
  end.
Definition replace (old new s : string) : string := replace_from 0 old new s.

(** [s.split(sep)], likewise. *)
Fixpoint split_from (skip : nat) (sep s : string) : list string :=
  match s with
  | EmptyString => [""]
  | String c s' =>
      match skip with
      | S k => split_from k sep s'
      | O => if starts_with sep s then "" :: split_from (String.length sep - 1) sep s'
             else match split_from O sep s' with x :: l => String c x :: l | [] => [String c ""] end
      end
  end.
Definition split_by (sep s : string) : list string := split_from 0 sep s.

Definition nl : string := String line_feed "".
Definition index_error {A} (m : string) : outcome A := Exn (PyExn "IndexError" m).

(** An argument of [replace] has to be a text. *)
Definition need_str (v : val) : outcome string :=
  match v with VStr s => Ok s | _ => type_error "replace() argument 2 must be str" end.

(** What the synthesis reads besides the configuration: the text that stands
    for an attribute of a construct, the files of [userdata/], and whether the
    network looked up has public subnets. *)
Class FleetEnv := {
  token : cv -> string;
  userdata : string -> outcome string;
  public_subnets : cv -> bool
}.

Section Fleet.
Context `{StackEnv} `{FleetEnv} (CFG : val).

(** The text of an object in an f-string. *)
Fixpoint cv_text (c : cv) : string :=
  match c with
  | CVal v => text v
  | CCat l => str_join "" (map cv_text l)
  | _ => token c
  end.

(** ** The role of the hosts *)

Definition host_role : cv := CRef "iam.Role" "HostRole".
Definition service_principal (s : string) : cv := CNew "iam.ServicePrincipal" [cs s] [].

(** What a host may do besides its tables and its bucket. *)
Definition host_policies : list cv := [
  policy_statement ["autoscaling:CompleteLifecycleAction"] [_asg_arn];
  policy_statement ["ec2:DescribeVolumes"] [cs "*"];
  policy_statement ["ec2:CreateTags"] [ec2_arn ":volume/*"; ec2_arn ":instance/*"];
  policy_statement ["cloudformation:DescribeStacks"] [AWS_STACK_ID]].

Definition add_to_policy (role s : cv) : B unit := invoke_ role "add_to_policy" [s].

Definition _build_host_role : B unit :=
  host_role ← construct "iam.Role" "HostRole" [] [
    ("assumed_by", service_principal "ec2.amazonaws.com");
    ("managed_policies", CList [CRes (CName "iam.ManagedPolicy") "from_aws_managed_policy_name"
                                  [cs "AmazonSSMManagedInstanceCore"] []])];
  _ ← invoke_ assets_bucket "grant_read_write" [host_role];
  _ ← invoke_ hosts_table "grant_read_write_data" [host_role];
  _ ← invoke_ tenants_table "grant_read_write_data" [host_role];
  b_for host_policies (add_to_policy host_role).

(** ** Metrics *)

Definition output (id : string) (value : cv) : B unit := _ ← construct "cdk.CfnOutput" id [] [("value", value)]; mret tt.

(** The workspaces of the metrics; the URL that the hosts write to. *)
Definition metrics_workspaces (metrics_cfg : val) : B cv :=
  alias ← b_lift (vget_or metrics_cfg "workspace_alias" (VStr "openclaw"));
  amp_workspace ← construct "aps.CfnWorkspace" "AmpWorkspace" [] [("alias", CVal alias)];
  let arn := CAttr amp_workspace "attr_arn" in
  _ ← add_to_policy host_role (policy_statement
        ["aps:RemoteWrite"; "aps:GetSeries"; "aps:GetLabels"; "aps:GetMetricMetadata"] [arn]);
  grafana_role ← construct "iam.Role" "GrafanaServiceRole" [] [("assumed_by", service_principal "grafana.amazonaws.com")];
  _ ← add_to_policy grafana_role (policy_statement
        ["aps:QueryMetrics"; "aps:GetSeries"; "aps:GetLabels"; "aps:GetMetricMetadata"] [arn]);
  name ← b_lift (vget_or metrics_cfg "grafana_name" (VStr "openclaw-metrics"));
  amg_workspace ← construct "grafana.CfnWorkspace" "GrafanaWorkspace" [] [
    ("account_access_type", cs "CURRENT_ACCOUNT"); ("authentication_providers", strs ["AWS_SSO"]);
    ("permission_type", cs "SERVICE_MANAGED"); ("role_arn", CAttr grafana_role "role_arn");
    ("data_sources", strs ["PROMETHEUS"]); ("name", CVal name)];
  let amp_remote_write_url := CCat [cs "https://aps-workspaces."; self_region; cs ".amazonaws.com/workspaces/";
                                    CAttr amp_workspace "attr_workspace_id"; cs "/api/v1/remote_write"] in
  _ ← output "AmpWorkspaceArn" arn;
  _ ← output "AmpRemoteWriteUrl" amp_remote_write_url;
  let grafana_url := CCat [cs "https://"; CAttr amg_workspace "attr_endpoint"] in
  _ ← output "GrafanaWorkspaceUrl" grafana_url;
  _ ← add_environment api_fn "AMP_REMOTE_WRITE_URL" amp_remote_write_url;
  _ ← add_environment api_fn "GRAFANA_WORKSPACE_URL" grafana_url;
  mret amp_remote_write_url.

Definition instance_profile : cv := CRef "iam.CfnInstanceProfile" "HostInstanceProfile".

Definition _build_prometheus_grafana : B cv :=
  metrics_cfg ← b_lift (cfg_get CFG "metrics");
  enabled ← b_lift (vget_or metrics_cfg "enabled" (VBool false));
  amp_remote_write_url ← (if truthy enabled then metrics_workspaces metrics_cfg else mret (cs "none"));
  _ ← construct "iam.CfnInstanceProfile" "HostInstanceProfile" [] [
    ("roles", CList [CAttr host_role "role_name"]); ("instance_profile_name", cs "openclaw-host-profile")];
  mret amp_remote_write_url.

(** ** Network and gateway *)

(** [(d.get(k) or "").strip()] *)
Definition stripped_setting (d : val) (k : string) : outcome string :=
  v ← vget d k;
  match v_or v (VStr "") with VStr s => Ok (strip s) | _ => attribute_error "object has no attribute 'strip'" end.

(** [ac_cfg.get(k, {}).get(j, d)] *)
Definition ac_setting (ac_cfg : val) (k j : string) (d : val) : outcome val :=
  s ← vget_or ac_cfg k (VDict []); vget_or s j d.

(** What the later parts take from here. *)
Record network := Network {
  ac_cfg : val; ac_enabled : bool; gateway_url : cv; ac_gateway : option cv;
  vpc : cv; subnet_ids : list val
}.

Definition _build_asg : B network :=
  ac_cfg ← b_lift (cfg_get CFG "agentcore");
  ac_enabled ← b_lift (vget_or ac_cfg "enabled" (VBool false));
  with_gateway ← (if truthy ac_enabled then b_lift (v ← ac_setting ac_cfg "gateway" "enabled" (VBool true); Ok (truthy v))
                  else mret false);
  gw ← (if with_gateway : bool then
          g ← construct "agentcore.Gateway" "AgentCoreGateway" [] [
            ("gateway_name", cs "openclaw-gateway"); ("description", cs "OpenClaw Agent tool gateway")];
          _ ← invoke_ g "grant_invoke" [host_role];
          mret (Some g)
        else mret None);
  _net_cfg ← b_lift (cfg_or CFG "network");
  _vpc_id ← b_lift (stripped_setting _net_cfg "vpc_id");
  vpc ← construct "ec2.Vpc.from_lookup" "Vpc" []
          (if bool_decide (_vpc_id = "") then [("is_default", cb true)] else [("vpc_id", cs _vpc_id)]);
  ids ← b_lift (v ← vget _net_cfg "subnet_ids"; py_list (v_or v (VList [])));
  mret (Network ac_cfg (truthy ac_enabled)
          match gw with Some g => CAttr g "gateway_url" | None => cs "" end gw vpc ids).

Definition _subnet_selection (n : network) : cv :=
  let selection kw := CNew "ec2.SubnetSelection" [] kw in
  match subnet_ids n with
  | [] =>
      if public_subnets (vpc n) then selection [("subnet_type", CName "ec2.SubnetType.PUBLIC")]
      else selection [("subnet_type", CName "ec2.SubnetType.PRIVATE_WITH_EGRESS")]
  | ids => selection [("subnet_filters", CList [CRes (CName "ec2.SubnetFilter") "by_ids" [CVal (VList ids)] []])]
  end.

(** ** Capacity of a host *)

Definition _sizes : list (string * Z) :=
  [("medium", 1); ("large", 2); ("xlarge", 4); ("2xlarge", 8); ("4xlarge", 16); ("8xlarge", 32); ("12xlarge", 48);
   ("16xlarge", 64); ("24xlarge", 96)].
Definition _mem_ratio : list (string * Z) := [("c", 2048); ("m", 4096); ("r", 8192)].

Definition host_cfg : outcome val := cfg_or CFG "host".

(** The type of the instances: that of the configuration, or that of the
    architecture. *)
Definition _itype : outcome val :=
  h ← host_cfg; arch ← vget h "arch"; t ← vget h "instance_type";
  Ok (v_or t (VStr (if is_str arch "arm64" then "m8g.xlarge" else "m8i.xlarge"))).

(** The vCPUs and the memory of a type, from its name. *)
Definition type_size (itype : val) : outcome (Z * Z) :=
  match itype with
  | VStr s =>
      match str_split "." s with
      | family :: size :: _ =>
          vcpu ← match alist_get size _sizes with Some n => Ok n | None => key_error size end;
          match family with
          | String letter _ =>
              r ← match alist_get (String letter "") _mem_ratio with Some n => Ok n | None => key_error (String letter "") end;
              Ok (vcpu, vcpu * r)
          | EmptyString => index_error "string index out of range"
          end
      | _ => index_error "list index out of range"
      end
  | _ => attribute_error "object has no attribute 'split'"
  end.

(** What is left for the tenants. *)
Definition available : outcome (val * val) :=
  t ← _itype;
  total ← type_size t;
  reserved_vcpu ← cfg_at CFG "host" "reserved_vcpu";
  _avail_vcpu ← py_sub (VInt total.1) reserved_vcpu;
  reserved_mem ← cfg_at CFG "host" "reserved_mem_mb";
  _avail_mem ← py_sub (VInt total.2) reserved_mem;
  Ok (_avail_vcpu, _avail_mem).

(** ** User data *)

Definition backup_data_script : string :=
  "aws s3 cp s3://{{ASSETS_BUCKET}}/deployment/scripts/backup-data.sh /home/ubuntu/backup-data.sh --region ${REGION}" +:+ nl +:+
  "chmod +x /home/ubuntu/backup-data.sh && chown ubuntu:ubuntu /home/ubuntu/backup-data.sh".
Definition host_agent_script (svc : string) : string :=
  "cat > /etc/systemd/system/host-agent.service << 'SVCEOF'" +:+ nl +:+ svc +:+ "SVCEOF".

(** The settings of the balloons, in the order of the replacements: the
    placeholder, the setting, its default, and whether it is put in lower case. *)
Definition balloon_settings : list (string * string * val * bool) := [
  ("{{BALLOON_ENABLED}}", "enabled", VBool false, true);
  ("{{BALLOON_DEFLATE_ON_OOM}}", "deflate_on_oom", VBool true, true);
  ("{{BALLOON_STATS_INTERVAL}}", "stats_polling_interval_s", VInt 5, false);
  ("{{BALLOON_FREE_PAGE_REPORTING}}", "free_page_reporting", VBool true, true);
  ("{{BALLOON_MAX_INFLATE_RATIO}}", "max_inflate_ratio", VFloat (fdiv (float_of 4) (float_of 10)), false);
  ("{{BALLOON_MIN_GUEST_AVAILABLE_MB}}", "min_guest_available_mb", VInt 512, false)].

Fixpoint replace_balloon (balloon_cfg : val) (l : list (string * string * val * bool)) (init_sh : string) : outcome string :=
  match l with
  | [] => Ok init_sh
  | (placeholder, key, dflt, lowered) :: l' =>
      v ← vget_or balloon_cfg key dflt;
      let t := text v in
      replace_balloon balloon_cfg l' (replace placeholder (if lowered : bool then lower t else t) init_sh)
  end.

(** The script that a host runs when it starts. *)
Definition init_script (n : network) (amp_remote_write_url : cv) (avail : val * val) : outcome string :=
  init_sh ← userdata "init-host.sh";
  rootfs_prefix ← (v ← cfg_at CFG "s3" "rootfs_prefix"; need_str v);
  let init_sh := replace "{{ROOTFS_PREFIX}}" rootfs_prefix init_sh in
  let init_sh := replace "{{AVAIL_VCPU}}" (text avail.1) init_sh in
  let init_sh := replace "{{AVAIL_MEM}}" (text avail.2) init_sh in
  subnet_prefix ← (v ← cfg_at CFG "vm" "subnet_prefix"; need_str v);
  let init_sh := replace "{{SUBNET_PREFIX}}" subnet_prefix init_sh in
  let init_sh := replace "{{VPC_CIDR}}" (cv_text (CAttr (vpc n) "vpc_cidr_block")) init_sh in
  overlay ← cfg_at_or CFG "vm" "rootfs_overlay_mb" (VInt 8192);
  let init_sh := replace "{{ROOTFS_OVERLAY_MB}}" (text overlay) init_sh in
  let init_sh := replace "{{AGENTCORE_GATEWAY_URL}}"
                   (if ctruthy (gateway_url n) then cv_text (gateway_url n) else "none") init_sh in
  let init_sh := replace "{{AMP_REMOTE_WRITE_URL}}" (cv_text amp_remote_write_url) init_sh in
  balloon_cfg ← cfg_get CFG "balloon";
  init_sh ← replace_balloon balloon_cfg balloon_settings init_sh;
  let init_sh := replace "{{BACKUP_DATA_SCRIPT}}" backup_data_script init_sh in
  host_agent_svc ← userdata "host-agent.service";
  let init_sh := replace "{{HOST_AGENT_SCRIPT}}" (host_agent_script host_agent_svc) init_sh in
  Ok (replace "{{ASSETS_BUCKET}}" "PLACEHOLDER_BUCKET" init_sh).

(** The text with the name of the bucket between its parts. *)
Definition interleave (sep : cv) (parts : list string) : list cv :=
  match parts with
  | [] => []
  | p :: ps => cs p :: flat_map (fun q => [sep; cs q]) ps
  end.
Definition user_data_text (init_sh : string) : cv :=
  CRes (CName "cdk.Fn") "join" [cs ""; CList (interleave bucket_name (split_by "PLACEHOLDER_BUCKET" init_sh))] [].

(** ** Launch template *)

Definition sg : cv := CRef "ec2.SecurityGroup" "HostSG".
Definition launch_template : cv := CRef "ec2.LaunchTemplate" "HostLT".
Definition user_data : cv := CRes (CName "ec2.UserData") "for_linux" [] [].
Definition cfn_lt : cv := CAttr (CAttr launch_template "node") "default_child".

Definition _build_host_sg (n : network) : B unit :=
  sg ← construct "ec2.SecurityGroup" "HostSG" [] [
    ("vpc", vpc n); ("security_group_name", cs "openclaw-host-sg"); ("allow_all_outbound", cb true)];
  invoke_ sg "add_ingress_rule" [sg; CRes (CName "ec2.Port") "tcp" [ci 8081] [];
    cs "T3-1 host peer-map nginx (host-to-host /vm proxy)"].

Definition machine_image (arch : val) : cv :=
  let ami_arch := if is_str arch "arm64" then "arm64" else "amd64" in
  CRes (CName "ec2.MachineImage") "lookup" [] [
    ("name", cs ("ubuntu/images/hvm-ssd-gp3/ubuntu-noble-24.04-" +:+ ami_arch +:+ "-server-*"));
    ("owners", strs ["099720109477"])].

Definition ebs (size : val) (kw : list (string * cv)) : cv :=
  CRes (CName "ec2.BlockDeviceVolume") "ebs" [CVal size] (("volume_type", CName "ec2.EbsDeviceVolumeType.GP3") :: kw).
Definition block_device (name : string) (volume : cv) : cv :=
  CNew "ec2.BlockDevice" [] [("device_name", cs name); ("volume", volume)].

(** Metadata of the instances only with a session token and one hop away. *)
Definition metadata_options : cv :=
  CDict [("HttpTokens", cs "required"); ("HttpPutResponseHopLimit", ci 1); ("HttpEndpoint", cs "enabled")].

Definition _build_launch_template : B unit :=
  _arch ← b_lift (h ← host_cfg; vget_or h "arch" (VStr "x86_64"));
  _instance_type_str ← b_lift (h ← host_cfg; t ← vget h "instance_type";
                               Ok (v_or t (VStr (if is_str _arch "arm64" then "m8g.xlarge" else "m8i.xlarge"))));
  root_gb ← b_lift (cfg_at CFG "host" "root_volume_gb");
  data_gb ← b_lift (cfg_at CFG "host" "data_volume_gb");
  keep ← b_lift (cfg_at_or CFG "host" "keep_data_volume" (VBool false));
  launch_template ← construct "ec2.LaunchTemplate" "HostLT" [] [
    ("launch_template_name", cs "openclaw-host-lt");
    ("instance_type", CNew "ec2.InstanceType" [CVal _instance_type_str] []);
    ("machine_image", machine_image _arch); ("security_group", sg); ("role", host_role); ("user_data", user_data);
    ("block_devices", CList [
       block_device "/dev/sda1" (ebs root_gb []);
       block_device "/dev/sdf" (ebs data_gb [("encrypted", cb true); ("delete_on_termination", cb (negb (truthy keep)))])])];
  _ ← invoke_ cfn_lt "add_property_override" [cs "LaunchTemplateData.MetadataOptions"; metadata_options];
  use_spot ← b_lift (a ← vreq CFG "asg"; vget a "use_spot");
  if truthy use_spot then
    invoke_ cfn_lt "add_property_override" [cs "LaunchTemplateData.InstanceMarketOptions";
      CDict [("MarketType", cs "spot"); ("SpotOptions", CDict [("SpotInstanceType", cs "one-time")])]]
  else mret tt.

(** A version of the template with nested virtualisation, which is made the
    default one. *)
Definition nested_virt : cv := CRef "cr.AwsCustomResource" "NestedVirt".
Definition set_default : cv := CRef "cr.AwsCustomResource" "SetDefaultLTVersion".
Definition launch_template_id : cv := CAttr launch_template "launch_template_id".
Definition nested_version : cv := CRes nested_virt "get_response_field" [cs "LaunchTemplateVersion.VersionNumber"] [].

Definition create_ver_call : cv :=
  CNew "cr.AwsSdkCall" [] [
    ("service", cs "EC2"); ("action", cs "createLaunchTemplateVersion");
    ("parameters", CDict [
      ("LaunchTemplateId", launch_template_id); ("SourceVersion", cs "$Latest");
      ("LaunchTemplateData", CDict [("CpuOptions", CDict [("NestedVirtualization", cs "enabled")]);
                                    ("MetadataOptions", metadata_options)])]);
    ("physical_resource_id", CRes (CName "cr.PhysicalResourceId") "of" [
       join "-" [cs "nested-virt"; CAttr cfn_lt "ref";
                 CRes (fn "get_att" [CAttr cfn_lt "logical_id"; cs "LatestVersionNumber"]) "to_string" [] []]] []);
    ("output_paths", strs ["LaunchTemplateVersion.VersionNumber"])].
Definition set_default_call : cv :=
  CNew "cr.AwsSdkCall" [] [
    ("service", cs "EC2"); ("action", cs "modifyLaunchTemplate");
    ("parameters", CDict [("LaunchTemplateId", launch_template_id); ("DefaultVersion", nested_version)]);
    ("physical_resource_id", physical_id "set-default-lt")].

Definition add_dependency (o dep : cv) : B unit := invoke_ (CAttr o "node") "add_dependency" [dep].

Definition _build_template_versions : B unit :=
  nested_virt ← construct "cr.AwsCustomResource" "NestedVirt" [] [
    ("on_create", create_ver_call); ("on_update", create_ver_call); ("install_latest_aws_sdk", cb true);
    ("policy", from_statements [policy_statement ["ec2:CreateLaunchTemplateVersion"; "ec2:DescribeLaunchTemplateVersions"] [cs "*"]])];
  _ ← add_dependency nested_virt launch_template;
  set_default ← construct "cr.AwsCustomResource" "SetDefaultLTVersion" [] [
    ("on_create", set_default_call); ("on_update", set_default_call); ("install_latest_aws_sdk", cb false);
    ("policy", from_statements [policy_statement ["ec2:ModifyLaunchTemplate"] [cs "*"]])];
  add_dependency set_default nested_virt.

(** ** The group of hosts *)

Definition asg : cv := CRef "autoscaling.AutoScalingGroup" "HostASG".

Definition lifecycle_hook (id name transition : string) (timeout : val) (result : string) : B unit :=
  _ ← construct "autoscaling.CfnLifecycleHook" id [] [
    ("auto_scaling_group_name", CAttr asg "auto_scaling_group_name"); ("lifecycle_hook_name", cs name);
    ("lifecycle_transition", cs transition); ("heartbeat_timeout", CVal timeout); ("default_result", cs result)];
  mret tt.
(** An event of the group that invokes the API function. *)
Definition asg_event (id detail_type : string) : B unit :=
  _ ← construct "events.Rule" id [] [
    ("event_pattern", CNew "events.EventPattern" [] [
       ("source", strs ["aws.autoscaling"]); ("detail_type", strs [detail_type])]);
    ("targets", CList [lambda_target api_fn])];
  mret tt.

Definition _build_host_asg (n : network) : B unit :=
  min_capacity ← b_lift (cfg_at CFG "asg" "min_capacity");
  max_capacity ← b_lift (cfg_at CFG "asg" "max_capacity");
  asg ← construct "autoscaling.AutoScalingGroup" "HostASG" [] [
    ("auto_scaling_group_name", cs "openclaw-hosts-asg"); ("vpc", vpc n); ("vpc_subnets", _subnet_selection n);
    ("launch_template", launch_template); ("min_capacity", CVal min_capacity); ("max_capacity", CVal max_capacity)];
  _ ← add_dependency asg set_default;
  _ ← invoke_ (CAttr (CAttr asg "node") "default_child") "add_property_override" [cs "LaunchTemplate.Version"; nested_version];
  timeout ← b_lift (cfg_at CFG "asg" "lifecycle_hook_timeout");
  _ ← lifecycle_hook "InitHook" "openclaw-host-init" "autoscaling:EC2_INSTANCE_LAUNCHING" timeout "ABANDON";
  _ ← lifecycle_hook "TerminateHook" "openclaw-host-terminate" "autoscaling:EC2_INSTANCE_TERMINATING" (VInt 120) "CONTINUE";
  _ ← asg_event "HostReadyRule" "EC2 Instance Launch Successful";
  asg_event "HostTerminateRule" "EC2 Instance-terminate Lifecycle Action".

(** The number of zones is read but nothing uses it. *)
Definition _az_count : outcome Z :=
  _multi_az ← cfg_or CFG "multi_az";
  enabled ← vget_or _multi_az "enabled" (VBool false);
  if truthy enabled then (v ← vget_or _multi_az "az_count" (VInt 2); py_int v) else Ok 1.

Definition _build_multi_az (n : network) (amp_remote_write_url : cv) : B unit :=
  _ ← b_lift _az_count;
  _ ← _build_host_sg n;
  avail ← b_lift available;
  init_sh ← b_lift (init_script n amp_remote_write_url avail);
  _ ← invoke_ user_data "add_commands" [user_data_text init_sh];
  _ ← _build_launch_template;
  _ ← _build_template_versions;
  _build_host_asg n.

(** ** Agents *)

Definition tools_fn : cv := CRef "_lambda.Function" "AgentCoreTools".
Definition schema_type (t : string) : string * cv := ("type", CName ("agentcore.SchemaDefinitionType." +:+ t)).
Definition schema (kw : list (string * cv)) : cv := CNew "agentcore.SchemaDefinition" [] kw.
Definition tool (name description : string) (properties : list (string * cv)) : cv :=
  CNew "agentcore.ToolDefinition" [] [
    ("name", cs name); ("description", cs description);
    ("input_schema", schema (schema_type "OBJECT" ::
       match properties with [] => [] | _ => [("properties", CDict properties)] end))].
Definition string_property (description : string) : cv := schema [schema_type "STRING"; ("description", cs description)].

(** U+2014 in UTF-8. *)
Definition em_dash : string := String (ascii_of_nat 226) (String (ascii_of_nat 128) (String (ascii_of_nat 148) "")).
Definition tool_definitions : list cv := [
  tool "hello" ("Say hello " +:+ em_dash +:+ " test tool for verifying AgentCore Gateway connectivity")
    [("name", string_property "Name to greet")];
  tool "system_info" "Get Lambda runtime system information" [];
  tool "timestamp" "Get current UTC timestamp" [("format", string_property "iso or unix")]].

Definition _build_tools (g : cv) : B unit :=
  tools_fn ← construct "_lambda.Function" "AgentCoreTools" [] [
    ("function_name", cs "openclaw-agentcore-tools"); ("runtime", PYTHON); ("handler", cs "handler.lambda_handler");
    ("code", from_asset "agentcore_tools" []); ("timeout", duration "seconds" 30); ("memory_size", ci 128)];
  _ ← invoke g "add_lambda_target" [cs "tools"] [
    ("lambda_function", tools_fn);
    ("tool_schema", CRes (CName "agentcore.ToolSchema") "from_inline" [CList tool_definitions] []);
    ("gateway_target_name", cs "openclaw-tools")];
  mret tt.

(** The known strategies of a list; the others are left out. *)
Definition memory_strategy (s : val) : list cv :=
  let strategy m name ns := [CRes (CName "agentcore.MemoryStrategy") m [] [("name", cs name); ("namespaces", strs [ns])]] in
  if is_str s "semantic" then strategy "using_semantic" "openclaw_semantic" "/openclaw/tenant/{actorId}/semantic"
  else if is_str s "user_preference" then
    strategy "using_user_preference" "openclaw_preferences" "/openclaw/tenant/{actorId}/preferences"
  else [].

Definition _build_memory (ac_cfg : val) : B unit :=
  enabled ← b_lift (ac_setting ac_cfg "memory" "enabled" (VBool true));
  if truthy enabled then
    l ← b_lift (v ← ac_setting ac_cfg "memory" "strategies" (VList [VStr "semantic"]); py_list v);
    days ← b_lift (ac_setting ac_cfg "memory" "expiration_days" (VInt 90));
    _ ← construct "agentcore.Memory" "AgentCoreMemory" [] [
      ("memory_name", cs "openclaw_memory"); ("description", cs "OpenClaw per-tenant memory");
      ("expiration_duration", CRes (CName "Duration") "days" [CVal days] []);
      ("memory_strategies", CList (flat_map memory_strategy l))];
    mret tt
  else mret tt.

(** A construct that a setting turns off. *)
Definition _build_optional (ac_cfg : val) (key cls id param name : string) : B unit :=
  enabled ← b_lift (ac_setting ac_cfg key "enabled" (VBool true));
  if truthy enabled then _ ← construct cls id [] [(param, cs name)]; mret tt else mret tt.

Definition _build_agentcore (n : network) : B unit :=
  if ac_enabled n then
    let c := ac_cfg n in
    _ ← match ac_gateway n with
        | Some g =>
            enabled ← b_lift (ac_setting c "gateway" "enabled" (VBool true));
            if truthy enabled then _build_tools g else mret tt
        | None => mret tt
        end;
    _ ← _build_memory c;
    _ ← _build_optional c "code_interpreter" "agentcore.CodeInterpreterCustom" "AgentCoreCodeInterpreter"
          "code_interpreter_custom_name" "openclaw_code_interpreter";
    _ ← _build_optional c "browser" "agentcore.BrowserCustom" "AgentCoreBrowser" "browser_custom_name" "openclaw_browser";
    _ ← construct "agentcore_l1.CfnWorkloadIdentity" "AgentCoreIdentity" [] [("name", cs "openclaw_identity")];
    _ ← add_environment api_fn "AGENTCORE_ENABLED" (cs "true");
    if ctruthy (gateway_url n) then add_environment api_fn "AGENTCORE_GATEWAY_URL" (gateway_url n) else mret tt
  else mret tt.
End Fleet.
