(* ===== verification/StackEdge.v ===== *)
(** * The stack: load balancer, distribution, sign-in and the whole ([deploy/stack.py])

    [_build_alb] to [_build_outputs], and [__init__], which composes the parts
    in their order. *)

From Stdlib Require Import SpecFloat.
From S2P Require Import Prelude Py PyNum Cdk StackConfig StackCore StackLambdas StackFleet.

Section Edge.
Context `{StackEnv} `{FleetEnv} (CFG : val).

(** ** Load balancer *)

Definition alb : cv := CRef "elbv2.ApplicationLoadBalancer" "DashboardALB".
Definition tcp_80 : cv := CRes (CName "ec2.Port") "tcp" [ci 80] [].
Definition peer_ipv4 (n : network) : cv := CRes (CName "ec2.Peer") "ipv4" [CAttr (vpc n) "vpc_cidr_block"] [].
Definition not_found : cv :=
  CRes (CName "elbv2.ListenerAction") "fixed_response" [ci 404]
    [("content_type", cs "text/plain"); ("message_body", cs "not found")].

(** The load balancer, its listener and the rules of the security groups; the
    listener is returned. *)
Definition _build_listener (n : network) : B cv :=
  alb ← construct "elbv2.ApplicationLoadBalancer" "DashboardALB" [] [
    ("load_balancer_name", cs "openclaw-dashboard"); ("vpc", vpc n); ("vpc_subnets", _subnet_selection n);
    ("internet_facing", cb true)];
  listener ← invoke alb "add_listener" [cs "HTTP"] [("port", ci 80); ("default_action", not_found)];
  let connections := CAttr alb "connections" in
  _ ← invoke_ connections "allow_to" [peer_ipv4 n; tcp_80; cs "ALB to host Nginx"];
  let alb_group := CAttr (CRes (CAttr connections "security_groups") "__getitem__" [ci 0] []) "security_group_id" in
  _ ← invoke_ sg "add_ingress_rule"
        [CRes (CName "ec2.Peer") "security_group_id" [alb_group] []; tcp_80; cs "ALB to Nginx"];
  _ ← invoke_ sg "add_ingress_rule" [peer_ipv4 n; tcp_80; cs "VPC to Nginx (ALB IP target health check)"];
  mret listener.

(** The shared target group, behind every rule of a tenant. *)
Definition CATCH_ALL_PRIORITY : Z := 999.
Definition _build_catch_all (n : network) (listener : cv) : B unit :=
  hosts_tg ← construct "elbv2.ApplicationTargetGroup" "HostsSharedTG" [] [
    ("target_group_name", cs "openclaw-hosts-shared"); ("vpc", vpc n); ("port", ci 80);
    ("protocol", CName "elbv2.ApplicationProtocol.HTTP"); ("target_type", CName "elbv2.TargetType.INSTANCE");
    ("health_check", CNew "elbv2.HealthCheck" [] [
       ("path", cs "/ready"); ("interval", duration "seconds" 10); ("healthy_threshold_count", ci 2)])];
  _ ← invoke_ asg "attach_to_application_target_group" [hosts_tg];
  _ ← construct "elbv2.ApplicationListenerRule" "VmCatchAll" [] [
    ("listener", listener); ("priority", ci CATCH_ALL_PRIORITY);
    ("conditions", CList [CRes (CName "elbv2.ListenerCondition") "path_patterns" [strs ["/vm/*"]] []]);
    ("action", CRes (CName "elbv2.ListenerAction") "forward" [CList [hosts_tg]] [])];
  mret tt.

(** The functions that know the load balancer. *)
Definition alb_fns : list cv := [api_fn; health_fn; failover_worker_fn].

Definition routing_setting : outcome val := section_get CFG "routing" "mode" (VStr "per-tenant").
Definition verify_consecutive_ok (mode : val) : outcome Z :=
  r ← cfg_or CFG "routing";
  v ← vget_or r "verify_consecutive_ok" (VInt (if is_str mode "host-tg" then 3 else 1));
  py_int v.

(** What the functions know of the load balancer. *)
Definition alb_environment (n : network) (listener : cv) : B unit :=
  let listener_arn := CAttr listener "listener_arn" in
  let vpc_id := CAttr (vpc n) "vpc_id" in
  let base_url := CCat [cs "http://"; CAttr alb "load_balancer_dns_name"] in
  _ ← add_environment api_fn "ALB_LISTENER_ARN" listener_arn;
  _ ← add_environment api_fn "VPC_ID" vpc_id;
  _ ← add_environment health_fn "ALB_LISTENER_ARN" listener_arn;
  _ ← add_environment health_fn "VPC_ID" vpc_id;
  _ ← add_environment failover_worker_fn "VPC_ID" vpc_id;
  _ ← add_environment health_fn "PUBLIC_BASE_URL" base_url;
  _ ← add_environment failover_worker_fn "ALB_LISTENER_ARN" listener_arn;
  _ ← add_environment failover_worker_fn "PUBLIC_BASE_URL" base_url;
  mode ← b_lift routing_setting;
  _ ← b_for alb_fns (fun f => add_environment f "ROUTING_MODE" (CVal mode));
  ok ← b_lift (verify_consecutive_ok mode);
  b_for [health_fn; failover_worker_fn] (fun f => add_environment f "VERIFY_CONSECUTIVE_OK" (str_cv (VInt ok))).

(** What the API function may do with the load balancer. *)
Definition alb_policies : list cv := [
  policy_statement ["elasticloadbalancing:DescribeRules"; "elasticloadbalancing:DescribeTargetGroups";
                    "elasticloadbalancing:DescribeListeners"] [cs "*"];
  policy_statement ["elasticloadbalancing:CreateTargetGroup"; "elasticloadbalancing:DeleteTargetGroup";
                    "elasticloadbalancing:RegisterTargets"; "elasticloadbalancing:DeregisterTargets";
                    "elasticloadbalancing:CreateRule"; "elasticloadbalancing:DeleteRule";
                    "elasticloadbalancing:ModifyRule"] _elb_arns].

Definition _build_alb (n : network) : B unit :=
  listener ← _build_listener n;
  _ ← _build_catch_all n listener;
  _ ← alb_environment n listener;
  add_policies api_fn alb_policies.

(** ** Distributions *)

Definition lines (l : list string) : string := str_join nl l.

Definition url_rewrite_code : string := lines [
  ""; "function handler(event) {"; "  var uri = event.request.uri;"; "  if (uri === '/') {";
  "    return { statusCode: 302, statusDescription: 'Found',";
  "      headers: { location: { value: '/console/' } } };"; "  }";
  "  if (uri === '/console' || uri === '/console/') {"; "    event.request.uri = '/console/index.html';"; "  }";
  "  return event.request;"; "}"].

(** What the later parts know of the distributions. *)
Record edge := Edge {
  dual_mode : bool; custom_domain : string; console_host : cv; dashboard_host : cv;
  console_cf_id : cv; app_cf_id : cv; cf_distribution : option cv
}.

Definition HTTPS_ONLY : string * cv := ("viewer_protocol_policy", CName "cloudfront.ViewerProtocolPolicy.REDIRECT_TO_HTTPS").
Definition cached : string * cv := ("cache_policy", CName "cloudfront.CachePolicy.CACHING_OPTIMIZED").
Definition uncached : string * cv := ("cache_policy", CName "cloudfront.CachePolicy.CACHING_DISABLED").
Definition rewrites (f : cv) : string * cv :=
  ("function_associations", CList [CNew "cloudfront.FunctionAssociation" [] [
     ("function", f); ("event_type", CName "cloudfront.FunctionEventType.VIEWER_REQUEST")]]).
Definition alb_origin : string * cv :=
  ("origin", CNew "origins.HttpOrigin" [CAttr alb "load_balancer_dns_name"] [
     ("protocol_policy", CName "cloudfront.OriginProtocolPolicy.HTTP_ONLY"); ("http_port", ci 80);
     ("read_timeout", duration "seconds" 60); ("keepalive_timeout", duration "seconds" 60)]).
Definition behavior (kw : list (string * cv)) : cv := CNew "cloudfront.BehaviorOptions" [] kw.

(** The behaviours of the console, which may be cached, and of the dashboards
    of the tenants, which may not. *)
Definition console_behavior (s3_origin f : cv) : cv := behavior [("origin", s3_origin); HTTPS_ONLY; cached; rewrites f].
Definition dashboards : list (string * cv) := [
  alb_origin; HTTPS_ONLY; ("allowed_methods", CName "cloudfront.AllowedMethods.ALLOW_ALL"); uncached;
  ("origin_request_policy", CName "cloudfront.OriginRequestPolicy.ALL_VIEWER")].

Definition certificate (id arn : string) : B cv :=
  construct "acm.Certificate.from_certificate_arn" id [cs arn] [].

Definition dual_distributions (custom_domain console_domain console_cert app_domain app_cert : string) (s3_origin f : cv) : B edge :=
  console_certificate ← certificate "ConsoleCert" console_cert;
  console_cf ← construct "cloudfront.Distribution" "ConsoleCF" [] [
    ("comment", cs "OpenClaw Operator Console"); ("domain_names", strs [console_domain]);
    ("certificate", console_certificate); ("default_behavior", console_behavior s3_origin f);
    ("default_root_object", cs "")];
  app_certificate ← certificate "AppCert" app_cert;
  app_cf ← construct "cloudfront.Distribution" "AppCF" [] [
    ("comment", cs "OpenClaw Per-Tenant Dashboards"); ("domain_names", strs [app_domain]);
    ("certificate", app_certificate); ("default_behavior", behavior dashboards); ("default_root_object", cs "")];
  mret (Edge true custom_domain (cs console_domain) (cs app_domain) (CAttr console_cf "distribution_id")
          (CAttr app_cf "distribution_id") (Some console_cf)).

Definition single_distribution (custom_domain acm_cert_arn : string) (s3_origin f : cv) : B edge :=
  let named := negb (bool_decide (custom_domain = "")) in
  cert ← (if named && negb (bool_decide (acm_cert_arn = "")) then certificate "CustomCert" acm_cert_arn else mret cnone);
  cf ← construct "cloudfront.Distribution" "DashboardCF" [] [
    ("comment", cs "OpenClaw Dashboard (single-domain mode)");
    ("domain_names", if named then strs [custom_domain] else cnone); ("certificate", cert);
    ("default_behavior", behavior (dashboards ++ [rewrites f]));
    ("additional_behaviors", CDict [("/console/*", console_behavior s3_origin f)]); ("default_root_object", cs "")];
  let console_host := if named then cs custom_domain else CAttr cf "distribution_domain_name" in
  mret (Edge false custom_domain console_host console_host (CAttr cf "distribution_id")
          (CAttr cf "distribution_id") (Some cf)).

Definition _build_cloudfront : B edge :=
  cf_cfg ← b_lift (cfg_or CFG "cloudfront");
  console_domain ← b_lift (stripped_setting cf_cfg "console_domain");
  console_cert_arn ← b_lift (stripped_setting cf_cfg "console_cert_arn");
  app_domain ← b_lift (stripped_setting cf_cfg "app_domain");
  app_cert_arn ← b_lift (stripped_setting cf_cfg "app_cert_arn");
  let dual_mode := negb (bool_decide ("" ∈ [console_domain; console_cert_arn; app_domain; app_cert_arn])) in
  custom_domain ← b_lift (stripped_setting cf_cfg "custom_domain");
  acm_cert_arn ← b_lift (stripped_setting cf_cfg "acm_cert_arn");
  cf_enabled ← b_lift (vget_or cf_cfg "enabled" (VBool true));
  if truthy cf_enabled then
    let s3_origin := CRes (CName "origins.S3BucketOrigin") "with_origin_access_control" [assets_bucket] [] in
    url_rewrite_fn ← construct "cloudfront.Function" "UrlRewrite" [] [
      ("function_name", cs "openclaw-url-rewrite");
      ("code", CRes (CName "cloudfront.FunctionCode") "from_inline" [cs url_rewrite_code] [])];
    if dual_mode then
      dual_distributions custom_domain console_domain console_cert_arn app_domain app_cert_arn s3_origin url_rewrite_fn
    else single_distribution custom_domain acm_cert_arn s3_origin url_rewrite_fn
  else
    mret (Edge false custom_domain (CAttr assets_bucket "bucket_regional_domain_name")
            (CAttr alb "load_balancer_dns_name") (cs "") (cs "") None).

(** ** Sign-in to the console *)

(** Where the sign-in may send the user back: the console only. *)
Definition callback_urls (e : edge) : list cv :=
  CCat [cs "https://"; console_host e; cs "/console/index.html"] ::
  match cf_distribution e with
  | Some cf =>
      if negb (dual_mode e) && negb (bool_decide (custom_domain e = "")) then
        [CCat [cs "https://"; CAttr cf "distribution_domain_name"; cs "/console/index.html"]]
      else []
  | None => []
  end.

(** The pool of the users and what the outputs say of it. *)
Record pool := Pool { user_pool : cv; cognito_outputs : list (string * cv) }.

Definition existing_pool (pool_id : val) (callbacks : list cv) : B pool :=
  user_pool ← construct "cognito.UserPool.from_user_pool_id" "ConsoleUserPool" [CVal pool_id] [];
  let domain_prefix := "openclaw-console" in
  _ ← construct "cognito.CfnUserPoolDomain" "ConsoleDomain" [] [("user_pool_id", CVal pool_id); ("domain", cs domain_prefix)];
  cfn_client ← construct "cognito.CfnUserPoolClient" "ConsoleClient" [] [
    ("user_pool_id", CVal pool_id); ("generate_secret", cb false); ("callback_ur_ls", CList callbacks);
    ("logout_ur_ls", CList callbacks); ("supported_identity_providers", strs ["COGNITO"]);
    ("allowed_o_auth_flows", strs ["implicit"]); ("allowed_o_auth_scopes", strs ["openid"; "email"]);
    ("allowed_o_auth_flows_user_pool_client", cb true);
    ("explicit_auth_flows", strs ["ALLOW_USER_PASSWORD_AUTH"; "ALLOW_USER_SRP_AUTH"; "ALLOW_REFRESH_TOKEN_AUTH"])];
  mret (Pool user_pool [
    ("CognitoUserPoolId", CVal pool_id); ("CognitoClientId", CAttr cfn_client "ref");
    ("CognitoDomain", CCat [cs domain_prefix; cs ".auth."; self_region; cs ".amazoncognito.com"])]).

Definition new_pool (auth_cfg : val) (callbacks : list cv) : B pool :=
  self_sign_up ← b_lift (vget_or auth_cfg "self_sign_up" (VBool false));
  user_pool ← construct "cognito.UserPool" "ConsoleUserPool" [] [
    ("user_pool_name", cs "openclaw-console"); ("self_sign_up_enabled", CVal self_sign_up);
    ("sign_in_aliases", CNew "cognito.SignInAliases" [] [("email", cb true)]);
    ("password_policy", CNew "cognito.PasswordPolicy" [] [
       ("min_length", ci 8); ("require_digits", cb true); ("require_lowercase", cb true)]);
    ("removal_policy", CName "RemovalPolicy.RETAIN")];
  let prefix := CCat [cs "openclaw-console-"; self_account] in
  _ ← invoke user_pool "add_domain" [cs "ConsoleDomain"] [
    ("cognito_domain", CNew "cognito.CognitoDomainOptions" [] [("domain_prefix", prefix)])];
  client ← invoke user_pool "add_client" [cs "ConsoleClient"] [
    ("o_auth", CNew "cognito.OAuthSettings" [] [
       ("flows", CNew "cognito.OAuthFlows" [] [("implicit_code_grant", cb true)]);
       ("scopes", CList [CName "cognito.OAuthScope.OPENID"; CName "cognito.OAuthScope.EMAIL"]);
       ("callback_urls", CList callbacks); ("logout_urls", CList callbacks)])];
  mret (Pool user_pool [
    ("CognitoUserPoolId", CAttr user_pool "user_pool_id"); ("CognitoClientId", CAttr client "user_pool_client_id");
    ("CognitoDomain", CCat [cs "openclaw-console-"; self_account; cs ".auth."; self_region; cs ".amazoncognito.com"])]).

(** The groups that the API reads as roles. *)
Definition role_groups : list (string * string * Z) := [
  ("admin", "Full access " +:+ em_dash +:+ " RBAC + CRUD + actions", 1);
  ("operator", "CRUD + lifecycle actions (no RBAC mgmt)", 2); ("viewer", "Read-only access", 3)].

(** [s.capitalize()] *)
Definition upper_char (c : ascii) : ascii :=
  let n := nat_of_ascii c in if (97 <=? n)%nat && (n <=? 122)%nat then ascii_of_nat (n - 32) else c.
Definition capitalize (s : string) : string :=
  match s with EmptyString => EmptyString | String c s' => String (upper_char c) (lower s') end.

Definition role_group (p : pool) (g : string * string * Z) : B unit :=
  let '(group_name, description, precedence) := g in
  _ ← construct "cognito.CfnUserPoolGroup" ("Role" +:+ capitalize group_name) [] [
    ("user_pool_id", CAttr (user_pool p) "user_pool_id"); ("group_name", cs group_name);
    ("description", cs description); ("precedence", ci precedence)];
  mret tt.

Definition cognito_output (p : pool) (k : string) : cv := default (cs "") (kw_get k (cognito_outputs p)).

(** The outputs of the sign-in, none when it is off. *)
Definition _build_console_auth (e : edge) : B (list (string * cv)) :=
  auth_cfg ← b_lift (cfg_get CFG "console_auth");
  enabled ← b_lift (vget_or auth_cfg "enabled" (VBool false));
  if truthy enabled then
    pool_id ← b_lift (vget_or auth_cfg "user_pool_id" (VStr ""));
    p ← (if truthy pool_id then existing_pool pool_id (callback_urls e) else new_pool auth_cfg (callback_urls e));
    _ ← b_for role_groups (role_group p);
    _ ← add_environment api_fn "COGNITO_USER_POOL_ID" (cognito_output p "CognitoUserPoolId");
    _ ← add_environment api_fn "COGNITO_CLIENT_ID" (cognito_output p "CognitoClientId");
    mret (cognito_outputs p)
  else mret [].

(** ** Outputs *)

(** An entry that is left out when its value is empty. *)
Definition unless_empty (k : string) (v : cv) : list (string * cv) := if ctruthy v then [(k, v)] else [].

Definition outputs (api_key : cv) (n : notifications) (e : edge) (cognito : list (string * cv)) : list (string * cv) :=
  [("ApiUrl", CAttr api "url"); ("ApiKeyId", CAttr api_key "key_id"); ("TenantsTable", table_name tenants_table);
   ("HostsTable", table_name hosts_table); ("AssetsBucket", bucket_name);
   ("HostInstanceProfileArn", CAttr instance_profile "attr_arn");
   ("ConsoleUrl", CCat [cs "https://"; console_host e]); ("DashboardUrl", CCat [cs "https://"; dashboard_host e]);
   ("DualDomainMode", cs (if dual_mode e then "true" else "false"))] ++
  unless_empty "CloudfrontDistributionId" (console_cf_id e) ++
  unless_empty "AppCloudfrontDistributionId" (app_cf_id e) ++
  unless_empty "NotificationsTopicArn" (notifications_topic_arn n) ++ cognito.

Definition _build_outputs (api_key : cv) (n : notifications) (e : edge) (cognito : list (string * cv)) : B unit :=
  b_for (outputs api_key n e cognito) (fun kv => output kv.1 kv.2).

(** ** The stack *)

Definition OpenClawOrchestratorStack : B unit :=
  audit_retention_days ← _build_tables CFG;
  _ ← _build_assets_bucket CFG;
  n ← _build_sns_notifications CFG;
  _ ← _build_api_lambda CFG audit_retention_days n;
  api_key ← _build_api_gateway;
  _ ← _build_waf CFG;
  _ ← _build_api_routes;
  _ ← _build_health_check CFG n;
  _ ← _build_failover_queue CFG n;
  _ ← _build_skills_lambda;
  _ ← _build_templates_lambda;
  _ ← _build_scaler_lambda CFG audit_retention_days;
  _ ← _build_backup_lambda CFG;
  _ ← _build_alarms n;
  _ ← _build_host_role;
  amp_remote_write_url ← _build_prometheus_grafana CFG;
  net ← _build_asg CFG;
  _ ← _build_multi_az CFG net amp_remote_write_url;
  _ ← _build_agentcore net;
  _ ← _build_alb net;
  e ← _build_cloudfront;
  cognito ← _build_console_auth e;
  _build_outputs api_key n e cognito.
End Edge.

(** [_normalize_config(CFG)], then the stack: what a synthesis declares. *)
Definition synth `{StackEnv} `{FleetEnv} (cfg : val) : outcome (list decl) :=
  match _normalize_config cfg with
  | Ok cfg => match OpenClawOrchestratorStack cfg with Ok (_, d) => Ok d | Exn e => Exn e | NoFuel => NoFuel end
  | Exn e => Exn e
  | NoFuel => NoFuel
  end.
