(* ===== verification/StackSample.v ===== *)
(** * The stack: a sample deployment

    A configuration with the settings of [config.yml.example] and the
    surroundings of a synthesis, for the witnesses. *)

From Stdlib Require Import SpecFloat.
From S2P Require Import Prelude Py PyNum Cdk StackConfig StackCore StackLambdas StackFleet StackEdge.

(** The floats that occur, and their texts. *)
Definition sample_floats : list (spec_float * string) := [(float_of 1, "1.0"); (float_of 2, "2.0"); (float_of 4, "4.0")].

Definition sample_repr (f : spec_float) : string :=
  match find (fun p => bool_decide (p.1 = f)) sample_floats with Some p => p.2 | None => "0.4" end.
Definition sample_parse (s : string) : outcome spec_float :=
  match find (fun p => bool_decide (p.2 = s)) sample_floats with
  | Some p => Ok p.1
  | None => value_error "could not convert string to float"
  end.

Definition sample_stack : StackEnv := {|
  stack_environ := fun _ => None;
  repr_float64 := sample_repr;
  parse_float := sample_parse;
  machine := "aarch64";
  repo_dir := "/repo";
  pyproject := Ok ("[project]" +:+ nl +:+ "version = " +:+ String dquote ("1.6.0" +:+ String dquote nl))
|}.

Definition sample_fleet : FleetEnv := {|
  token := fun _ => "${Token}";
  userdata := fun f =>
    if bool_decide (f = "init-host.sh") then Ok ("VCPU={{AVAIL_VCPU}}" +:+ nl +:+ "BUCKET={{ASSETS_BUCKET}}" +:+ nl +:+ "{{BACKUP_DATA_SCRIPT}}")
    else Ok ("[Unit]" +:+ nl);
  public_subnets := fun _ => true
|}.

Definition sample_settings : val := VDict [
  ("host", VDict [("arch", VStr "x86_64"); ("instance_type", VStr "m8i.xlarge"); ("root_volume_gb", VInt 20);
    ("data_volume_gb", VInt 200); ("keep_data_volume", VBool true); ("reserved_vcpu", VInt 1);
    ("reserved_mem_mb", VInt 2048); ("cpu_overcommit_ratio", VFloat (float_of 2));
    ("mem_overcommit_ratio", VFloat (float_of 1)); ("max_vms_per_host", VInt 0)]);
  ("balloon", VDict [("enabled", VBool false); ("migrate_mode", VStr "cold")]);
  ("vm", VDict [("default_vcpu", VInt 2); ("default_mem_mb", VInt 4096); ("rootfs_overlay_mb", VInt 8192);
    ("data_disk_mb", VInt 8192); ("gateway_port_base", VInt 18789); ("subnet_prefix", VStr "172.16")]);
  ("s3", VDict [("rootfs_prefix", VStr "deployment/rootfs"); ("backup_prefix", VStr "backups");
    ("backup_retention_days", VInt 7); ("backup_cron", VStr "cron(0 19 * * ? *)")]);
  ("asg", VDict [("min_capacity", VInt 2); ("max_capacity", VInt 8); ("lifecycle_hook_timeout", VInt 600);
    ("use_spot", VBool false)]);
  ("multi_az", VDict [("enabled", VBool true); ("az_count", VInt 2)]);
  ("routing", VDict [("mode", VStr "per-tenant")]);
  ("scaler", VDict [("interval_minutes", VInt 3); ("idle_timeout_minutes", VInt 10)]);
  ("health_check", VDict [("interval_minutes", VInt 5);
    ("az_failover", VDict [("enabled", VBool true); ("unhealthy_threshold_minutes", VInt 10); ("cooldown_minutes", VInt 30)])]);
  ("console_auth", VDict [("enabled", VBool false)]);
  ("network", VDict [("vpc_id", VStr ""); ("subnet_ids", VList [])]);
  ("cloudfront", VDict [("enabled", VBool true)])].

Definition sample_synth : outcome (list decl) := @synth sample_stack sample_fleet sample_settings.
Definition sample_decls : list decl := Eval vm_compute in match sample_synth with Ok d => d | _ => [] end.

Lemma sample_synth_ok : sample_synth = Ok sample_decls.
Proof. by vm_compute. Qed.

(** A deployment of the sample: the tokens get a value, the service adds no
    variable of its own. *)
Definition sample_resolve (c : cv) : string := match c with CVal (VStr s) => s | _ => "deployed" end.
Definition sample_service (k : string) : option string := if bool_decide (k = "AWS_REGION") then Some "us-east-1" else None.

(** A configuration with ratios and a mode that are not allowed. *)
Definition greedy_settings : val := VDict [
  ("host", VDict [("cpu_overcommit_ratio", VInt 8); ("mem_overcommit_ratio", VFloat (float_of 2))]);
  ("balloon", VDict [("migrate_mode", VStr "hot")]); ("routing", VDict [("mode", VStr "Host-TG")])].

Lemma normalize_config_spec_witness :
  let cfg' := VDict [
    ("host", VDict [("cpu_overcommit_ratio", VFloat (float_of 4)); ("mem_overcommit_ratio", VFloat (float_of 1))]);
    ("balloon", VDict [("migrate_mode", VStr "cold")]); ("routing", VDict [("mode", VStr "host-tg")])] in
  @_normalize_config sample_stack greedy_settings = Ok cfg' /\ @_normalize_config sample_stack cfg' = Ok cfg'.
Proof.
  intros cfg'. assert (E : @_normalize_config sample_stack greedy_settings = Ok cfg') by (by vm_compute).
  split; [exact E|]. exact (proj2 (proj2 (proj2 (normalize_config_spec (H := sample_stack) _ _ E)))).
Defined.
