(* ===== verification/StackReads.v ===== *)
(** * The stack: reading its declarations

    What a synthesis declares, read by a function of one declaration: the
    methods of the API, the variables of a function, the permissions of a role.
    A part of the stack that declares none of them is [quiet]. *)

From Stdlib Require Import SpecFloat.
From S2P Require Import Prelude Py PyNum Cdk StackConfig StackCore StackLambdas StackFleet StackEdge.

Section Reads.
Context {X : Type} (g : decl -> list X).

Definition quiet {A} (p : B A) : Prop := declares (fun x => g x = []) p.

(** What a part returns, with what is read of its declarations. *)
Definition readsP {A} (p : B A) (R : A -> list X -> Prop) : Prop := bwp p (fun a d => R a (flat_map g d)).
Definition reads {A} (p : B A) (l : list X) : Prop := readsP p (fun _ l' => l' = l).

Lemma readsP_mono {A} (p : B A) (R R' : A -> list X -> Prop) :
  readsP p R -> (forall a l, R a l -> R' a l) -> readsP p R'.
Proof. intros Hp HR. eapply bwp_mono; [exact Hp|]. intros a d. apply HR. Qed.

Lemma readsP_bind {A C} (p : B A) (f : A -> B C) (P : A -> list X -> Prop) (R : C -> list X -> Prop) :
  readsP p P -> (forall a l, P a l -> readsP (f a) (fun c l' => R c (l ++ l'))) -> readsP (p ≫= f) R.
Proof.
  intros Hp Hf. apply bwp_bind. eapply bwp_mono; [exact Hp|]. intros a d Hd.
  eapply bwp_mono; [exact (Hf a _ Hd)|]. intros c d' Hc. by rewrite flat_map_app.
Qed.

Lemma readsP_lift {A C} (o : outcome A) (f : A -> B C) (R : C -> list X -> Prop) :
  (forall a, o = Ok a -> readsP (f a) R) -> readsP (b_lift o ≫= f) R.
Proof. intros Hf. apply bwp_bind, bwp_lift. intros a Ha. by apply Hf. Qed.

Lemma quiet_reads {A} (p : B A) : quiet p -> reads p [].
Proof.
  intros Hp. eapply bwp_mono; [apply Hp|]. intros a d Hd. cbn beta in *. induction Hd as [|x d Hx _ IH]; [done|].
  cbn. by rewrite Hx, IH.
Qed.

Lemma readsP_quiet {A C} (p : B A) (f : A -> B C) (R : C -> list X -> Prop) :
  quiet p -> (forall a, readsP (f a) R) -> readsP (p ≫= f) R.
Proof. intros Hp%quiet_reads Hf. apply (readsP_bind p f (fun _ l => l = [])); [exact Hp|]. intros a l ->. apply Hf. Qed.

Lemma readsP_end {A} (p : B A) (R : A -> list X -> Prop) : quiet p -> (forall a, R a []) -> readsP p R.
Proof. intros Hp%quiet_reads HR. apply (readsP_mono p (fun _ l => l = [])); [exact Hp|]. intros a l ->. apply HR. Qed.

Lemma reads_bind {A C} (p : B A) (f : A -> B C) l l' :
  reads p l -> (forall a, reads (f a) l') -> reads (p ≫= f) (l ++ l').
Proof.
  intros Hp Hf. apply (readsP_bind p f (fun _ l1 => l1 = l)); [exact Hp|]. intros a l1 ->.
  apply (readsP_mono (f a) (fun _ l2 => l2 = l')); [apply Hf|]. by intros c l2 ->.
Qed.

(** A part that declares nothing of the kind, before one that does. *)
Lemma reads_before {A C} (p : B A) (f : A -> B C) l :
  quiet p -> (forall a, reads (f a) l) -> reads (p ≫= f) l.
Proof. apply readsP_quiet. Qed.
End Reads.

(** One statement of the stack, that reads as [[]]. *)
Ltac quiet_calls := unfold quiet; declares_calls; try (cbn; rewrite ?andb_false_r; try done; repeat case_match; done).


(** The parts of the stack, to their declarations. *)
Create HintDb stack_parts.
#[export] Hint Unfold _build_tables control_table _build_assets_bucket _build_sns_notifications _build_api_lambda add_policies
  grant_publish _build_api_gateway _build_waf _build_api_routes tenant_routes host_routes group_routes information_routes
  admin_routes add_resource add_method _build_health_check failover_grants schedule_rule add_environment
  _build_failover_queue _build_skills_lambda _build_templates_lambda _build_scaler_lambda _build_backup_lambda _build_alarms
  function_alarms alarm _build_host_role _build_prometheus_grafana metrics_workspaces add_to_policy output _build_asg
  _build_multi_az _build_host_sg _build_launch_template _build_template_versions _build_host_asg add_dependency
  lifecycle_hook asg_event _build_agentcore _build_tools _build_memory _build_optional _build_alb _build_listener
  _build_catch_all alb_environment _build_cloudfront dual_distributions single_distribution certificate
  _build_console_auth existing_pool new_pool role_group _build_outputs : stack_parts.
Ltac quiet_part := autounfold with stack_parts; quiet_calls.

(** A synthesis builds the stack from the normalised configuration. *)
Lemma synth_stack `{StackEnv} `{FleetEnv} cfg d : synth cfg = Ok d ->
  exists cfg', _normalize_config cfg = Ok cfg' /\ OpenClawOrchestratorStack cfg' = Ok (tt, d).
Proof.
  unfold synth. destruct (_normalize_config cfg) as [cfg'| |]; try done.
  destruct (OpenClawOrchestratorStack cfg') as [[[] d']| |] eqn:E; try done. intros [= <-]. by exists cfg'.
Qed.

Lemma synth_readsP `{StackEnv} `{FleetEnv} {X} (g : decl -> list X) (R : val -> list X -> Prop) cfg d :
  (forall cfg', readsP g (OpenClawOrchestratorStack cfg') (fun _ => R cfg')) -> synth cfg = Ok d ->
  exists cfg', _normalize_config cfg = Ok cfg' /\ R cfg' (flat_map g d).
Proof. intros Hr (cfg' & E & Es)%synth_stack. exists cfg'. split; [done|]. exact (Hr cfg' tt d Es). Qed.
