(* ===== verification/StackRoutes.v ===== *)
(** * The stack: the routes of the API

    The methods that the stack gives to the gateway, against the routes that
    [lambda_handler] dispatches on and the requests of the command line. *)

From Stdlib Require Import SpecFloat.
From S2P Require Import Prelude Py PyNum Effects Aws Ddb Config Validate Rbac Tenants Cdk StackConfig StackCore StackLambdas StackFleet StackEdge.
From S2P Require Import StackSample StackReads Api Cli.

(** ** The methods of the gateway *)

(** A method: its HTTP method, its path, the function behind it, whether it
    asks for a key. *)
Record gateway_method := GatewayMethod { gm_method : string; gm_path : string; gm_fn : cv; gm_key : bool }.

Definition keyed (kw : list (string * cv)) : bool :=
  match kw_get "api_key_required" kw with Some (CVal (VBool b)) => b | _ => false end.

Definition gateway_method_of (d : decl) : list gateway_method :=
  match api_method d with
  | Some (m, p, CNew "apigw.LambdaIntegration" [f] _, kw) => [GatewayMethod m p f (keyed kw)]
  | Some (m, p, _, kw) => [GatewayMethod m p cnone (keyed kw)]
  | None => []
  end.

(** A resource added under the root of the API. *)
Definition resource_of (d : decl) : list string :=
  match d with
  | DCall o "add_resource" [CVal (VStr part)] [] =>
      match resource_path (CRes o "add_resource" [CVal (VStr part)] []) with Some p => [p] | None => [] end
  | _ => []
  end.

(** The API is declared with options for the preflight requests of browsers. *)
Definition preflight_of (d : decl) : list unit :=
  match d with
  | DNew "apigw.RestApi" "Api" _ kw =>
      match kw_get "default_cors_preflight_options" kw with Some _ => [tt] | None => [] end
  | _ => []
  end.

(** The construct then gives its root and every resource an [OPTIONS] method,
    which the gateway answers itself and which asks for no key. *)
Definition preflight (path : string) : gateway_method := GatewayMethod "OPTIONS" path cnone false.
Definition preflight_methods (l : list decl) : list gateway_method :=
  match flat_map preflight_of l with [] => [] | _ => map preflight ("/" :: flat_map resource_of l) end.

Definition gateway_methods (l : list decl) : list gateway_method := flat_map gateway_method_of l ++ preflight_methods l.

Definition behind (f : cv) (l : list (string * string)) : list gateway_method :=
  map (fun mp => GatewayMethod mp.1 mp.2 f true) l.

(** What the stack deploys, by the function behind it. *)
Definition api_methods : list (string * string) := [
  ("GET", "/tenants"); ("POST", "/tenants"); ("GET", "/tenants/{id}"); ("DELETE", "/tenants/{id}");
  ("POST", "/tenants/{id}/{action}"); ("GET", "/tenants/{id}/{action}"); ("GET", "/hosts"); ("POST", "/hosts");
  ("DELETE", "/hosts/{instance_id}"); ("GET", "/backups"); ("GET", "/groups"); ("POST", "/groups");
  ("POST", "/groups/{name}/skills"); ("DELETE", "/groups/{name}/skills/{skill}"); ("POST", "/batch/tenants");
  ("POST", "/hosts/refresh-rootfs"); ("GET", "/hosts/rootfs-version"); ("GET", "/agentcore/status");
  ("GET", "/agentcore/tools"); ("GET", "/system/info"); ("GET", "/audit-log"); ("GET", "/admin/routing/status");
  ("POST", "/admin/routing/rebuild"); ("POST", "/admin/routing/purge-per-tenant")].
Definition skill_methods : list (string * string) :=
  [("GET", "/skills/{name}"); ("PUT", "/skills/{name}"); ("DELETE", "/skills/{name}")].
Definition template_methods : list (string * string) :=
  [("GET", "/templates"); ("GET", "/templates/{name}"); ("PUT", "/templates/{name}"); ("DELETE", "/templates/{name}")].

Definition declared : list gateway_method :=
  behind _api_fn_view api_methods ++ behind skills_fn [("GET", "/skills")] ++ behind _api_fn_view skill_methods ++
  behind templates_fn template_methods.

Definition api_resources : list string := [
  "/tenants"; "/tenants/{id}"; "/tenants/{id}/{action}"; "/hosts"; "/hosts/{instance_id}"; "/backups"; "/groups";
  "/groups/{name}"; "/groups/{name}/skills"; "/groups/{name}/skills/{skill}"; "/batch"; "/batch/tenants";
  "/hosts/refresh-rootfs"; "/hosts/rootfs-version"; "/agentcore"; "/agentcore/status"; "/agentcore/tools"; "/system";
  "/system/info"; "/audit-log"; "/admin"; "/admin/routing"; "/admin/routing/status"; "/admin/routing/rebuild";
  "/admin/routing/purge-per-tenant"].
Definition skill_resources : list string := ["/skills"; "/skills/{name}"].
Definition template_resources : list string := ["/templates"; "/templates/{name}"].
Definition resources : list string := api_resources ++ skill_resources ++ template_resources.

Definition deployed : list gateway_method := declared ++ map preflight ("/" :: resources).

(** The routes that the handler has and the gateway has not. *)
Definition undeployed : list (string * string) := [("POST", "/hosts/{instance_id}/drain"); ("POST", "/failover/{az}")].

(** ** Paths *)

(** The path of an endpoint, without its query. *)
Definition endpoint_path (endpoint : string) : string := (split_once "?" endpoint).1.

Definition is_parameter (segment : string) : bool := starts_with "{" segment && ends_with "}" segment.

(** A path under a resource: a parameter stands for one segment that is not
    empty. *)
Fixpoint segments_match (template path : list string) : bool :=
  match template, path with
  | [], [] => true
  | t :: ts, p :: ps =>
      (if is_parameter t then nonempty p else bool_decide (t = p)) && segments_match ts ps
  | _, _ => false
  end.
Definition path_matches (template path : string) : bool := segments_match (str_split "/" template) (str_split "/" path).

(** The resource that a command of the tool is for. *)
Definition command_route (c : command) : option (string * string) :=
  match c with
  | CmdList => Some ("GET", "/tenants")
  | CmdGet _ => Some ("GET", "/tenants/{id}")
  | CmdCreate _ _ _ _ => Some ("POST", "/tenants")
  | CmdDelete _ _ _ => Some ("DELETE", "/tenants/{id}")
  | CmdAction _ _ | CmdResize _ _ | CmdResizeDisk _ _ | CmdMigrate _ _ => Some ("POST", "/tenants/{id}/{action}")
  | CmdBatch _ _ _ => Some ("POST", "/batch/tenants")
  | CmdAuditLog _ _ _ => Some ("GET", "/audit-log")
  | CmdBackups => Some ("GET", "/backups")
  | CmdHosts => Some ("GET", "/hosts")
  | CmdVersion => None
  end.

(** The tenant that a command names. *)
Definition command_id (c : command) : option string :=
  match c with
  | CmdGet id | CmdDelete id _ _ | CmdAction _ id | CmdResize id _ | CmdResizeDisk id _ | CmdMigrate id _ => Some id
  | _ => None
  end.

(** A text that is one segment of a path. *)
Definition segment (s : string) : Prop := s <> "" /\ has_char "/" s = false /\ has_char "?" s = false.

(** ** Lemmas on paths *)

Lemma str_split_tenants rest : str_split "/" ("/tenants/" +:+ rest) = "" :: "tenants" :: str_split "/" rest.
Proof.
  change ("/tenants/" +:+ rest) with ("" +:+ String "/" ("tenants" +:+ String "/" rest)).
  by rewrite !str_split_app by done.
Qed.

Lemma nonempty_true s : s <> "" -> nonempty s = true.
Proof. intros Hs. unfold nonempty. by rewrite bool_decide_eq_false_2. Qed.

(** An endpoint of a tenant, with what follows the id in its path. *)
Lemma tenant_endpoint id query : segment id ->
  (query = "" \/ exists q, query = String "?" q) ->
  path_matches "/tenants/{id}" (endpoint_path ("/tenants/" +:+ id +:+ query)) = true.
Proof.
  intros (Hn & Hs & Hq) Hquery. unfold endpoint_path, path_matches.
  assert (E : (split_once "?" ("/tenants/" +:+ id +:+ query)).1 = "/tenants/" +:+ id).
  { rewrite <- str_app_assoc. assert (Hc : has_char "?" ("/tenants/" +:+ id) = false) by (by rewrite has_char_app, Hq).
    destruct Hquery as [->|[q ->]]; [by rewrite str_app_nil_r, split_once_none|by rewrite split_once_first]. }
  rewrite E, str_split_tenants, (str_split_none _ id) by done.
  transitivity (nonempty id && true); [reflexivity|]. by rewrite nonempty_true.
Qed.

Lemma tenant_sub_endpoint id sub : segment id -> segment sub ->
  path_matches "/tenants/{id}/{action}" (endpoint_path ("/tenants/" +:+ id +:+ "/" +:+ sub)) = true.
Proof.
  intros (Hn & Hs & Hq) (Hn' & Hs' & Hq'). unfold endpoint_path, path_matches.
  rewrite split_once_none by (by rewrite !has_char_app, Hq, Hq'). cbn [fst].
  change (id +:+ "/" +:+ sub) with (id +:+ String "/" sub).
  rewrite str_split_tenants, str_split_app, (str_split_none _ sub) by done.
  transitivity (nonempty id && (nonempty sub && true)); [reflexivity|]. by rewrite !nonempty_true.
Qed.

Lemma verb_segment v : segment (verb_text v).
Proof. by destruct v. Qed.

Lemma audit_query_form since before limit :
  audit_query since before limit = "" \/ exists q, audit_query since before limit = String "?" q.
Proof. unfold audit_query. cbn zeta. destruct (_ ++ _ ++ _); [by left|right]. by eexists. Qed.

(** The endpoint that a command asks for is under its resource. *)
Lemma command_endpoint c r : (forall id, command_id c = Some id -> segment id) -> request_of_command c r ->
  exists m template endpoint, command_route c = Some (m, template) /\ request_for m endpoint r /\
    path_matches template (endpoint_path endpoint) = true.
Proof.
  intros Hid Hr. assert (Hs : forall id, command_id c = Some id -> segment id) by done.
  destruct c; cbn in Hr; try (by eexists _, _, _; split_and!; [done|exact Hr|done]); try done;
    try specialize (Hs _ eq_refl); eexists _, _, _; (split_and!; [done|exact Hr|]).
  - rewrite <- (str_app_nil_r id). by apply tenant_endpoint; [|left].
  - apply tenant_endpoint; [done|]. right. by eexists.
  - apply tenant_sub_endpoint; [done|apply verb_segment].
  - by apply tenant_sub_endpoint.
  - by apply tenant_sub_endpoint.
  - by apply tenant_sub_endpoint.
  - destruct (audit_query_form since before limit) as [->|[q ->]]; [done|].
    unfold endpoint_path. by rewrite (split_once_first "?" "/audit-log").
Qed.

(** ** The methods of the stack *)

Section Routes.
Context `{StackEnv} `{FleetEnv} (CFG : val).



(** Parts that do not depend on the configuration. *)
Ltac closed_part := intros [] d E; vm_compute in E; injection E as <-; vm_compute; reflexivity.

Lemma api_routes_methods : reads gateway_method_of _build_api_routes (behind _api_fn_view api_methods).
Proof. closed_part. Qed.
Lemma skills_methods :
  reads gateway_method_of _build_skills_lambda (behind skills_fn [("GET", "/skills")] ++ behind _api_fn_view skill_methods).
Proof. closed_part. Qed.
Lemma templates_methods : reads gateway_method_of _build_templates_lambda (behind templates_fn template_methods).
Proof. closed_part. Qed.

Lemma stack_methods : reads gateway_method_of (OpenClawOrchestratorStack CFG) declared.
Proof.
  unfold OpenClawOrchestratorStack, declared. rewrite (app_assoc (behind skills_fn _)).
  do 6 (apply reads_before; [quiet_part|intros ?]).
  apply reads_bind; [apply api_routes_methods|intros _].
  do 2 (apply reads_before; [quiet_part|intros ?]).
  apply reads_bind; [apply skills_methods|intros _].
  rewrite <- (app_nil_r (behind templates_fn _)). apply reads_bind; [apply templates_methods|intros _].
  do 11 (apply reads_before; [quiet_part|intros ?]).
  apply quiet_reads. quiet_part.
Qed.

Lemma api_routes_resources : reads resource_of _build_api_routes api_resources.
Proof. closed_part. Qed.
Lemma skills_resources : reads resource_of _build_skills_lambda skill_resources.
Proof. closed_part. Qed.
Lemma templates_resources : reads resource_of _build_templates_lambda template_resources.
Proof. closed_part. Qed.

Lemma stack_resources : reads resource_of (OpenClawOrchestratorStack CFG) resources.
Proof.
  unfold OpenClawOrchestratorStack, resources.
  do 6 (apply reads_before; [quiet_part|intros ?]).
  apply reads_bind; [apply api_routes_resources|intros _].
  do 2 (apply reads_before; [quiet_part|intros ?]).
  apply reads_bind; [apply skills_resources|intros _].
  rewrite <- (app_nil_r template_resources). apply reads_bind; [apply templates_resources|intros _].
  do 11 (apply reads_before; [quiet_part|intros ?]).
  apply quiet_reads. quiet_part.
Qed.

Lemma gateway_preflight : reads preflight_of _build_api_gateway [tt].
Proof. intros ak d E. vm_compute in E. injection E as <- <-. reflexivity. Qed.

Lemma stack_preflight : reads preflight_of (OpenClawOrchestratorStack CFG) [tt].
Proof.
  unfold OpenClawOrchestratorStack.
  do 4 (apply reads_before; [quiet_part|intros ?]).
  change [tt] with ([tt] ++ []). apply reads_bind; [apply gateway_preflight|intros ?].
  do 17 (apply reads_before; [quiet_part|intros ?]).
  apply quiet_reads. quiet_part.
Qed.

End Routes.

Lemma synth_methods `{StackEnv} `{FleetEnv} cfg d : synth cfg = Ok d -> gateway_methods d = deployed.
Proof.
  intros E. unfold gateway_methods, preflight_methods, deployed.
  destruct (synth_readsP gateway_method_of (fun _ l => l = declared) _ _ stack_methods E) as (_ & _ & ->).
  destruct (synth_readsP preflight_of (fun _ l => l = [tt]) _ _ stack_preflight E) as (_ & _ & ->).
  by destruct (synth_readsP resource_of (fun _ l => l = resources) _ _ stack_resources E) as (_ & _ & ->).
Qed.

(** The routes of the handler, in its order. *)
Definition handler_routes : list (string * string) := [
  ("GET", "/tenants"); ("POST", "/tenants"); ("GET", "/tenants/{id}"); ("DELETE", "/tenants/{id}");
  ("POST", "/tenants/{id}/{action}"); ("GET", "/tenants/{id}/{action}"); ("GET", "/backups"); ("POST", "/batch/tenants");
  ("GET", "/hosts"); ("POST", "/hosts"); ("POST", "/hosts/refresh-rootfs"); ("GET", "/hosts/rootfs-version");
  ("GET", "/agentcore/status"); ("GET", "/agentcore/tools"); ("GET", "/system/info"); ("GET", "/audit-log");
  ("DELETE", "/hosts/{instance_id}"); ("POST", "/hosts/{instance_id}/drain"); ("POST", "/failover/{az}");
  ("GET", "/admin/routing/status"); ("POST", "/admin/routing/rebuild"); ("POST", "/admin/routing/purge-per-tenant");
  ("GET", "/groups"); ("POST", "/groups"); ("POST", "/groups/{name}/skills");
  ("DELETE", "/groups/{name}/skills/{skill}"); ("GET", "/skills/{name}"); ("PUT", "/skills/{name}");
  ("DELETE", "/skills/{name}")].

Lemma routes_keys `{Config} rq : map fst (routes rq) = handler_routes.
Proof. reflexivity. Qed.

Lemma route_get_elem {A} m p (l : list ((string * string) * A)) : (m, p) ∈ map fst l -> is_Some (route_get m p l).
Proof.
  induction l as [|[[m' p'] x] l IH]; [by intros ?%elem_of_nil|]. cbn. intros [[= <- <-]|Hin]%elem_of_cons.
  - rewrite !bool_decide_eq_true_2 by done. by eexists.
  - case_match; [by eexists|by apply IH].
Qed.

(** Inclusion of lists, by computation. *)
Lemma included {A} `{EqDecision A} (l l' : list A) :
  forallb (fun x => bool_decide (x ∈ l')) l = true -> forall x, x ∈ l -> x ∈ l'.
Proof.
  intros Hf%forallb_Forall x Hx%list_elem_of_In. pose proof (proj1 (Forall_forall _ _) Hf x Hx) as Hb.
  by apply bool_decide_eq_true_1 in Hb.
Qed.

(** Every method has a route, and every route a method but two. *)
Lemma method_is_route mp : mp ∈ api_methods ++ skill_methods -> mp ∈ handler_routes.
Proof. revert mp. apply included. by vm_compute. Qed.
Lemma route_is_method mp : mp ∈ handler_routes -> mp ∈ undeployed ++ api_methods ++ skill_methods.
Proof. revert mp. apply included. by vm_compute. Qed.
Lemma undeployed_disjoint mp :
  mp ∈ undeployed -> mp ∉ map (fun m => (gm_method m, gm_path m)) deployed.
Proof.
  assert (Hf : Forall (fun mp => mp ∉ map (fun m => (gm_method m, gm_path m)) deployed) undeployed).
  { repeat constructor; apply (bool_decide_eq_true_1 (_ ∉ _)); by vm_compute. }
  intros Hmp%list_elem_of_In. exact (proj1 (Forall_forall _ _) Hf mp Hmp).
Qed.

Lemma behind_elem f l m : m ∈ behind f l <-> exists mp, mp ∈ l /\ m = GatewayMethod mp.1 mp.2 f true.
Proof. unfold behind. rewrite list_elem_of_fmap. split; intros (mp & ? & ?); by exists mp. Qed.

Lemma deployed_elem m : m ∈ deployed <->
  m ∈ behind _api_fn_view (api_methods ++ skill_methods) \/ m ∈ behind skills_fn [("GET", "/skills")] \/
  m ∈ behind templates_fn template_methods \/ exists p, p ∈ "/" :: resources /\ m = preflight p.
Proof.
  unfold deployed, declared, behind. rewrite !map_app, !elem_of_app.
  assert (m ∈ map preflight ("/" :: resources) <-> exists p, p ∈ "/" :: resources /\ m = preflight p) as ->; [|tauto].
  rewrite list_elem_of_fmap. split; intros (p & ? & ?); by exists p.
Qed.

(** C27: The surface of the API: whatever the configuration, every method that the
    gateway has is one that the stack declares, and then asks for an API key, or
    the preflight [OPTIONS] of the root or of a resource, which has no function
    behind it and asks for none; a method with the API function behind it is a
    route of the handler, never a 404; every route of the handler is deployed on
    the API function, but for the draining of a host and the failover of a zone,
    which no request to the gateway reaches. *)
Theorem api_surface `{StackEnv} `{FleetEnv} `{Config} (cfg : val) (d : list decl) (rq : request) :
  synth cfg = Ok d ->
  gateway_methods d = deployed /\
  (forall m, m ∈ gateway_methods d -> gm_key m = true \/ (gm_method m = "OPTIONS" /\ gm_fn m = cnone)) /\
  (forall m, m ∈ gateway_methods d -> gm_fn m = _api_fn_view -> is_Some (route_get (gm_method m) (gm_path m) (routes rq))) /\
  (forall mp, mp ∈ map fst (routes rq) ->
     mp ∈ undeployed \/ GatewayMethod mp.1 mp.2 _api_fn_view true ∈ gateway_methods d) /\
  (forall mp m, mp ∈ undeployed -> m ∈ gateway_methods d -> (gm_method m, gm_path m) <> mp).
Proof.
  intros E. rewrite (synth_methods _ _ E). split; [done|]. split_and!.
  - intros m [(mp & _ & ->)%behind_elem|[(mp & _ & ->)%behind_elem|[(mp & _ & ->)%behind_elem|(p & _ & ->)]]]%deployed_elem;
      [by left..|by right].
  - intros m [(mp & Hmp & ->)%behind_elem|[(mp & _ & ->)%behind_elem|[(mp & _ & ->)%behind_elem|(p & _ & ->)]]]%deployed_elem Hf;
      try discriminate Hf.
    apply route_get_elem. rewrite routes_keys. cbn [gm_method gm_path]. rewrite <- surjective_pairing.
    by apply method_is_route.
  - intros mp. rewrite routes_keys. intros Hmp.
    apply route_is_method, elem_of_app in Hmp as [?|Hin]; [by left|right].
    apply deployed_elem. left. apply behind_elem. by exists mp.
  - intros mp m Hu Hm <-. apply (undeployed_disjoint _ Hu). apply list_elem_of_fmap. by exists m.
Qed.

Lemma command_route_deployed c mp : command_route c = Some mp -> mp ∈ api_methods ++ skill_methods.
Proof. destruct c; intros [= <-]; apply (bool_decide_eq_true_1 (_ ∈ _)); by vm_compute. Qed.

(** C28: Where the command line meets the gateway: every request that a command sends,
    for a tenant id that is one segment of a path, is for a method that the stack
    deploys and that the handler of the API dispatches. *)
Theorem cli_reaches_api `{StackEnv} `{FleetEnv} `{Config} (cfg : val) (d : list decl) {W} (E : env cli W) (w : W)
    (json_pretty : string -> option string) (decode_replace : string -> string) (c : command) (rq : request) :
  synth cfg = Ok d -> (forall id, command_id c = Some id -> segment id) ->
  let '(_, _, t) := run E (main json_pretty decode_replace c) w in
  forall r, r ∈ sent t -> exists template endpoint,
    request_for (rq_method r) endpoint r /\ path_matches template (endpoint_path endpoint) = true /\
    GatewayMethod (rq_method r) template _api_fn_view true ∈ gateway_methods d /\
    is_Some (route_get (rq_method r) template (routes rq)).
Proof.
  intros Hd Hid. pose proof (awp_run E _ w _ (main_awp json_pretty decode_replace c)) as R.
  destruct (run E _ w) as [[o w'] t]. destruct R as [[[Hs|(r & Hs & Hr)] _] _]; rewrite Hs.
  - by intros r ?%elem_of_nil.
  - intros r' ->%list_elem_of_singleton. destruct (command_endpoint c r Hid (proj1 Hr)) as (m & tmpl & e & Hc & Hm & Hp).
    assert (rq_method r = m) as -> by (by destruct Hm).
    assert (Hin : (m, tmpl) ∈ api_methods ++ skill_methods).
    { by apply (command_route_deployed c). }
    exists tmpl, e. split_and!; [done|done| |].
    + rewrite (synth_methods _ _ Hd). apply deployed_elem. left. apply behind_elem. by exists (m, tmpl).
    + apply route_get_elem. rewrite routes_keys.
      by apply method_is_route.
Qed.

Definition sample_get : request := Rbac.Request "GET" "/hosts" [] (Validate.Query [] []) [] NoBody None.

Lemma api_surface_witness :
  synth (H := sample_stack) (H0 := sample_fleet) sample_settings = Ok sample_decls /\
  is_Some (route_get "GET" "/hosts" (routes (H := sample_config) sample_get)).
Proof.
  split; [exact sample_synth_ok|].
  destruct (api_surface (H := sample_stack) (H0 := sample_fleet) (H1 := sample_config) sample_settings sample_decls sample_get
    sample_synth_ok) as (Hd & _ & Hr & _).
  apply (Hr (GatewayMethod "GET" "/hosts" _api_fn_view true)); [|done]. rewrite Hd.
  apply deployed_elem. left. apply behind_elem. exists ("GET", "/hosts"). split; [|done].
  by apply (bool_decide_eq_true_1 (_ ∈ _)); vm_compute.
Defined.

(** A service that answers every request. *)
Definition answering : env cli unit := fun c w =>
  (match c return (cli_reply c + exn) with
   | Cwd => inl []
   | FileAt _ => inl false
   | ReadText _ | Input _ => inl ""
   | Environ name => inl (Some (if bool_decide (name = "OC_API_URL") then "https://api.test/v1" else "key"))
   | Urlopen _ => inl (inr (200, "[]"))
   | PrintOut _ | PrintErr _ => inl tt
   end, w).

Lemma cli_reaches_api_witness :
  let '(_, _, t) := run answering (main Some id (CmdAction Stop "t-1")) tt in
  exists r template endpoint, sent t = [r] /\ request_for "POST" endpoint r /\
    is_Some (route_get "POST" template (routes (H := sample_config) sample_get)).
Proof.
  assert (Hid : forall i, command_id (CmdAction Stop "t-1") = Some i -> segment i) by (by intros i [= <-]).
  pose proof (cli_reaches_api (H := sample_stack) (H0 := sample_fleet) (H1 := sample_config) sample_settings sample_decls
    answering tt Some id (CmdAction Stop "t-1") sample_get sample_synth_ok Hid) as Hc.
  set (r := run answering (main Some id (CmdAction Stop "t-1")) tt) in *. vm_compute in r. subst r. cbv beta iota in *.
  destruct (Hc _ (list_elem_of_here _ _)) as (template & endpoint & Hr & _ & _ & Hroute).
  by eexists _, template, endpoint.
Defined.
