(* ===== verification/StackEnvs.v ===== *)
(** * The stack: the environments of the functions

    What each function of the stack finds in its environment, and what the
    modules that start in it therefore run with. *)

From Stdlib Require Import SpecFloat.
From S2P Require Import Prelude Py PyNum Effects Aws Config Health Scaler Modules Cdk StackConfig StackCore StackLambdas.
From S2P Require Import StackFleet StackEdge StackReads.

(** The bindings of the functions. *)
Abbreviation api_vars := (env_of_decl "ApiHandler").
Abbreviation health_vars := (env_of_decl "HealthCheck").
Abbreviation worker_vars := (env_of_decl "FailoverWorker").
Abbreviation scaler_vars := (env_of_decl "Scaler").

(** The parts of the environments that some configurations leave out. *)
Definition api_optional : list string :=
  ["AMP_REMOTE_WRITE_URL"; "GRAFANA_WORKSPACE_URL"; "AGENTCORE_ENABLED"; "AGENTCORE_GATEWAY_URL"; "COGNITO_USER_POOL_ID";
   "COGNITO_CLIENT_ID"].
Definition optional (l : list (string * cv)) : Prop := Forall (fun kv => kv.1 ∈ api_optional) l.

Lemma optional_skip l k : optional l -> k ∉ api_optional -> last_binding k l = None.
Proof.
  intros Hl Hk. induction Hl as [|[j v] l Hj _ IH]; [done|]. cbn. rewrite IH. rewrite bool_decide_eq_false_2; [done|].
  by intros ->.
Qed.

Section Envs.
Context `{StackEnv} `{FleetEnv} (CFG : val).

(** ** The part of the load balancer *)

Definition listener : cv := CRes alb "add_listener" [cs "HTTP"] [("port", ci 80); ("default_action", not_found)].
Definition alb_vars (n : network) (mode : val) : list (string * cv) :=
  [("ALB_LISTENER_ARN", CAttr listener "listener_arn"); ("VPC_ID", CAttr (vpc n) "vpc_id"); ("ROUTING_MODE", CVal mode)].
Definition base_url : cv := CCat [cs "http://"; CAttr alb "load_balancer_dns_name"].

(** The settings of the load balancer, and what a function gets. *)
Definition alb_reading (n : network) (vars : val -> Z -> list (string * cv)) (l : list (string * cv)) : Prop :=
  exists mode ok, routing_setting CFG = Ok mode /\ verify_consecutive_ok CFG mode = Ok ok /\ l = vars mode ok.

Definition health_alb_vars (n : network) (mode : val) (ok : Z) : list (string * cv) :=
  [("ALB_LISTENER_ARN", CAttr listener "listener_arn"); ("VPC_ID", CAttr (vpc n) "vpc_id"); ("PUBLIC_BASE_URL", base_url);
   ("ROUTING_MODE", CVal mode); ("VERIFY_CONSECUTIVE_OK", str_cv (VInt ok))].
Definition worker_alb_vars (n : network) (mode : val) (ok : Z) : list (string * cv) :=
  [("VPC_ID", CAttr (vpc n) "vpc_id"); ("ALB_LISTENER_ARN", CAttr listener "listener_arn"); ("PUBLIC_BASE_URL", base_url);
   ("ROUTING_MODE", CVal mode); ("VERIFY_CONSECUTIVE_OK", str_cv (VInt ok))].

(** Run the statements of a part. *)
Ltac run_part :=
  repeat (cbn beta; match goal with
    | |- bwp (mbind _ _) _ => apply bwp_bind
    | |- bwp (b_bind ?f ?p) _ => change (b_bind f p) with (p ≫= f)
    | |- bwp (invoke_ _ _ _) _ => apply bwp_invoke_
    | |- bwp (invoke _ _ _ _) _ => apply bwp_invoke
    | |- bwp (construct _ _ _ _) _ => apply bwp_construct
    | |- bwp (b_lift _) _ => apply bwp_lift; intros ? ?
    | |- bwp (mret _) _ => apply bwp_ret
    | |- bwp (b_ret _) _ => apply bwp_ret
    end).
Ltac alb_part :=
  unfold readsP, alb_environment, add_environment, alb_fns; cbn [b_for]; run_part;
  eexists _, _; split_and!; [eassumption|eassumption|reflexivity].

Lemma api_alb n : readsP api_vars (alb_environment CFG n listener) (fun _ => alb_reading n (fun m _ => alb_vars n m)).
Proof. alb_part. Qed.
Lemma health_alb n : readsP health_vars (alb_environment CFG n listener) (fun _ => alb_reading n (health_alb_vars n)).
Proof. alb_part. Qed.
Lemma worker_alb n : readsP worker_vars (alb_environment CFG n listener) (fun _ => alb_reading n (worker_alb_vars n)).
Proof. alb_part. Qed.

(** ** The whole environments *)

Definition retention : outcome Z :=
  audit_cfg ← cfg_or CFG "audit"; v ← vget_or audit_cfg "retention_days" (VInt 90); py_int v.

(** A topic that is off has an empty ARN. *)
Definition well_notified (n : notifications) : Prop :=
  match notifications_topic n with
  | Some t => notifications_topic_arn n = CAttr t "topic_arn"
  | None => notifications_topic_arn n = cs ""
  end.

Lemma tables_reading {X} (g : decl -> list X) : quiet g (_build_tables CFG) ->
  readsP g (_build_tables CFG) (fun days l => retention = Ok days /\ l = []).
Proof.
  intros Hq. pose proof (quiet_reads _ _ Hq) as Hl. intros days d E. split; [|exact (Hl days d E)].
  enough (Hb : bwp (_build_tables CFG) (fun days _ => retention = Ok days)) by exact (Hb days d E).
  unfold _build_tables, control_table. run_part. cbn beta in *. unfold retention. destruct (cfg_or CFG "audit"); [|done..].
  cbn [mbind outcome_bind] in *. by simplify_eq.
Qed.

Lemma notifications_reading {X} (g : decl -> list X) : quiet g (_build_sns_notifications CFG) ->
  readsP g (_build_sns_notifications CFG) (fun n l => well_notified n /\ l = []).
Proof.
  intros Hq. pose proof (quiet_reads _ _ Hq) as Hl. intros n d E. split; [|exact (Hl n d E)].
  enough (Hb : bwp (_build_sns_notifications CFG) (fun n _ => well_notified n)) by exact (Hb n d E).
  unfold _build_sns_notifications. run_part. destruct (truthy _); run_part; by split.
Qed.

(** What is declared has only optional bindings. *)
Lemma optional_reading {A} id (p : B A) :
  declares (fun x => optional (env_of_decl id x)) p -> readsP (env_of_decl id) p (fun _ l => optional l).
Proof.
  intros Hp. eapply bwp_mono; [exact Hp|]. intros a d Hd. cbn beta in *. induction Hd as [|x d Hx _ IH]; [constructor|].
  by apply Forall_app.
Qed.

Ltac optional_part :=
  apply optional_reading; autounfold with stack_parts; declares_calls; cbn; rewrite ?andb_false_r; rewrite ?bool_decide_eq_true_2 by done;
  cbn [andb]; unfold optional; repeat first [apply List.Forall_nil | apply List.Forall_cons; [by apply (bool_decide_eq_true_1 (_ ∈ _))|]].

Lemma grafana_reading : readsP api_vars (_build_prometheus_grafana CFG) (fun _ l => optional l).
Proof. optional_part. Qed.
Lemma agentcore_reading n : readsP api_vars (_build_agentcore n) (fun _ l => optional l).
Proof. optional_part. Qed.
Lemma console_auth_reading e : readsP api_vars (_build_console_auth CFG e) (fun _ l => optional l).
Proof. optional_part. Qed.

(** A function declared with an environment. *)
Lemma function_reading id kw e : kw_get "environment" kw = Some (CDict e) ->
  readsP (env_of_decl id) (construct "_lambda.Function" id [] kw) (fun _ l => l = e).
Proof. intros He. apply bwp_construct. cbn. by rewrite !bool_decide_eq_true_2, He, app_nil_r by done. Qed.

Lemma api_lambda_reading days n :
  readsP api_vars (_build_api_lambda CFG days n) (fun _ l => api_environment CFG days n = Ok l).
Proof.
  unfold _build_api_lambda. apply readsP_lift. intros e He. eapply readsP_bind; [by apply (function_reading _ _ e)|].
  intros f l ->. apply readsP_end; [quiet_part|]. intros _. by rewrite app_nil_r.
Qed.

Lemma health_lambda_reading n :
  readsP health_vars (_build_health_check CFG n) (fun _ l => failover_environment CFG n = Ok l).
Proof.
  unfold _build_health_check. apply readsP_lift. intros e He. eapply readsP_bind; [by apply (function_reading _ _ e)|].
  intros f l ->. apply readsP_end; [quiet_part|]. intros _. by rewrite app_nil_r.
Qed.

Lemma worker_lambda_reading n :
  readsP worker_vars (_build_failover_queue CFG n) (fun _ l => failover_environment CFG n = Ok l).
Proof.
  unfold _build_failover_queue. do 2 (apply readsP_quiet; [quiet_part|intros ?]). apply readsP_lift. intros e He.
  eapply readsP_bind; [by apply (function_reading _ _ e)|].
  intros f l ->. apply readsP_end; [quiet_part|]. intros _. by rewrite app_nil_r.
Qed.

(** The environment of the API function. *)
Definition api_env_of (l : list (string * cv)) : Prop :=
  exists days n net mode e o o', retention = Ok days /\ well_notified n /\ api_environment CFG days n = Ok e /\
    routing_setting CFG = Ok mode /\ optional o /\ optional o' /\
    l = e ++ [("HEALTH_CHECK_FUNCTION", function_name health_fn)] ++ o ++ alb_vars net mode ++ o'.

Lemma api_health_reading n :
  readsP api_vars (_build_health_check CFG n) (fun _ l => l = [("HEALTH_CHECK_FUNCTION", function_name health_fn)]).
Proof.
  unfold _build_health_check. apply readsP_lift. intros e _.
  apply readsP_bind with (P := fun f l => f = health_fn /\ l = []); [by apply bwp_construct|]. intros _ l [-> ->].
  apply readsP_quiet; [quiet_part|intros _]. apply readsP_lift. intros interval _.
  apply readsP_quiet; [quiet_part|intros _]. unfold add_environment, readsP. by run_part.
Qed.

(** The part of the load balancer, whoever reads it. *)
Lemma alb_part_reading (vars : decl -> list (string * cv)) net v :
  quiet vars (_build_listener net) -> (forall l, quiet vars (_build_catch_all net l)) ->
  quiet vars (add_policies api_fn alb_policies) ->
  readsP vars (alb_environment CFG net listener) (fun _ => alb_reading net v) ->
  readsP vars (_build_alb CFG net) (fun _ => alb_reading net v).
Proof.
  intros Q1 Q2 Q3 Ha. unfold _build_alb. apply readsP_bind with (P := fun l' l => l' = listener /\ l = []).
  - intros a d E. split; [|exact (quiet_reads _ _ Q1 a d E)].
    enough (Hb : bwp (_build_listener net) (fun a _ => a = listener)) by exact (Hb a d E). unfold _build_listener. by run_part.
  - intros _ l [-> ->]. apply readsP_quiet; [apply Q2|intros _].
    eapply readsP_bind; [apply Ha|]. intros ? l (mode & ok & ? & ? & ->).
    apply readsP_end; [exact Q3|]. intros _. exists mode, ok. by rewrite app_nil_r.
Qed.

Lemma stack_api_env : readsP api_vars (OpenClawOrchestratorStack CFG) (fun _ => api_env_of).
Proof.
  unfold OpenClawOrchestratorStack.
  eapply readsP_bind; [apply tables_reading; quiet_part|]. intros days l [Hdays ->].
  apply readsP_quiet; [quiet_part|intros _].
  eapply readsP_bind; [apply notifications_reading; quiet_part|]. intros n l [Hn ->].
  eapply readsP_bind; [apply api_lambda_reading|]. intros ? e He. cbn beta.
  do 3 (apply readsP_quiet; [quiet_part|intros ?]).
  eapply readsP_bind; [apply api_health_reading|]. intros _ l ->.
  do 7 (apply readsP_quiet; [quiet_part|intros ?]).
  eapply readsP_bind; [apply grafana_reading|]. intros ? o1 Ho1.
  apply readsP_quiet; [quiet_part|intros net]. apply readsP_quiet; [quiet_part|intros _].
  eapply readsP_bind; [apply agentcore_reading|]. intros ? o2 Ho2.
  eapply readsP_bind; [apply alb_part_reading; [quiet_part|intros ?; quiet_part|quiet_part|apply api_alb]|]. intros ? l (mode & ok & Hm & _ & ->).
  apply readsP_quiet; [quiet_part|intros ed].
  eapply readsP_bind; [apply console_auth_reading|]. intros cognito o3 Ho3.
  apply readsP_end; [quiet_part|]. intros _.
  exists days, n, net, mode, e, (o1 ++ o2), o3. split_and!; try done; [by apply Forall_app|].
  cbn. by rewrite <- !app_assoc, app_nil_r.
Qed.

(** The environments of the detector and of the worker. *)
Definition queue_url : cv := CAttr failover_queue "queue_url".
Definition health_env_of (l : list (string * cv)) : Prop :=
  exists n net mode ok e, well_notified n /\ failover_environment CFG n = Ok e /\ routing_setting CFG = Ok mode /\
    verify_consecutive_ok CFG mode = Ok ok /\
    l = e ++ [("FAILOVER_QUEUE_URL", queue_url)] ++ health_alb_vars net mode ok.
Definition worker_env_of (l : list (string * cv)) : Prop :=
  exists n net mode ok e, well_notified n /\ failover_environment CFG n = Ok e /\ routing_setting CFG = Ok mode /\
    verify_consecutive_ok CFG mode = Ok ok /\ l = e ++ worker_alb_vars net mode ok.

Lemma health_queue_reading n :
  readsP health_vars (_build_failover_queue CFG n) (fun _ l => l = [("FAILOVER_QUEUE_URL", queue_url)]).
Proof.
  unfold _build_failover_queue. apply readsP_quiet; [quiet_part|intros dlq].
  apply readsP_bind with (P := fun q l => q = failover_queue /\ l = []); [by apply bwp_construct|]. intros _ l [-> ->].
  apply readsP_lift. intros e _. apply readsP_quiet; [quiet_part|intros f]. apply readsP_quiet; [quiet_part|intros _].
  apply readsP_quiet; [quiet_part|intros _]. unfold add_environment, readsP. by run_part.
Qed.

Lemma stack_health_env : readsP health_vars (OpenClawOrchestratorStack CFG) (fun _ => health_env_of).
Proof.
  unfold OpenClawOrchestratorStack. do 2 (apply readsP_quiet; [quiet_part|intros ?]).
  eapply readsP_bind; [apply notifications_reading; quiet_part|]. intros n l [Hn ->].
  do 4 (apply readsP_quiet; [quiet_part|intros ?]).
  eapply readsP_bind; [apply health_lambda_reading|]. intros ? e He. cbn beta.
  eapply readsP_bind; [apply health_queue_reading|]. intros _ l ->.
  do 7 (apply readsP_quiet; [quiet_part|intros ?]).
  apply readsP_quiet; [quiet_part|intros net]. do 2 (apply readsP_quiet; [quiet_part|intros ?]).
  eapply readsP_bind; [apply alb_part_reading; [quiet_part|intros ?; quiet_part|quiet_part|apply health_alb]|].
  intros ? l (mode & ok & Hm & Hok & ->). do 2 (apply readsP_quiet; [quiet_part|intros ?]).
  apply readsP_end; [quiet_part|]. intros _. exists n, net, mode, ok, e. by rewrite app_nil_r.
Qed.

Lemma stack_worker_env : readsP worker_vars (OpenClawOrchestratorStack CFG) (fun _ => worker_env_of).
Proof.
  unfold OpenClawOrchestratorStack. do 2 (apply readsP_quiet; [quiet_part|intros ?]).
  eapply readsP_bind; [apply notifications_reading; quiet_part|]. intros n l [Hn ->].
  do 5 (apply readsP_quiet; [quiet_part|intros ?]).
  eapply readsP_bind; [apply worker_lambda_reading|]. intros ? e He. cbn beta.
  do 7 (apply readsP_quiet; [quiet_part|intros ?]).
  apply readsP_quiet; [quiet_part|intros net]. do 2 (apply readsP_quiet; [quiet_part|intros ?]).
  eapply readsP_bind; [apply alb_part_reading; [quiet_part|intros ?; quiet_part|quiet_part|apply worker_alb]|].
  intros ? l (mode & ok & Hm & Hok & ->). do 2 (apply readsP_quiet; [quiet_part|intros ?]).
  apply readsP_end; [quiet_part|]. intros _. exists n, net, mode, ok, e. by rewrite app_nil_r.
Qed.

(** The environment of the scaler. *)
Definition scaler_env (days : Z) (idle : val) : list (string * cv) :=
  [("HOSTS_TABLE", table_name hosts_table); ("TENANTS_TABLE", table_name tenants_table);
   ("ASG_NAME", cs "openclaw-hosts-asg"); ("IDLE_TIMEOUT_MINUTES", str_cv idle);
   ("AUDIT_TABLE", table_name audit_table); ("AUDIT_TTL_DAYS", str_cv (VInt days))].
Definition scaler_env_of (l : list (string * cv)) : Prop :=
  exists days idle, retention = Ok days /\ cfg_at CFG "scaler" "idle_timeout_minutes" = Ok idle /\ l = scaler_env days idle.

Ltac one_of_fns :=
  match goal with Hx : _ ∈ _ |- _ =>
    unfold alb_fns in Hx; repeat (apply elem_of_cons in Hx as [->|Hx]; [done|]); by apply elem_of_nil in Hx
  end.

Lemma stack_scaler_env : readsP scaler_vars (OpenClawOrchestratorStack CFG) (fun _ => scaler_env_of).
Proof.
  unfold OpenClawOrchestratorStack. eapply readsP_bind; [apply tables_reading; quiet_part|]. intros days l [Hdays ->].
  do 10 (apply readsP_quiet; [quiet_part|intros ?]).
  apply readsP_bind with (P := fun _ l => exists idle, cfg_at CFG "scaler" "idle_timeout_minutes" = Ok idle /\
    l = scaler_env days idle).
  { unfold _build_scaler_lambda. apply readsP_lift. intros idle Hidle.
    eapply readsP_bind; [by apply (function_reading _ _ (scaler_env days idle))|]. intros f l ->.
    apply readsP_end; [quiet_part|]. intros u. exists idle. by rewrite app_nil_r. }
  intros u l (idle & Hidle & ->). apply readsP_end; [quiet_part; one_of_fns|]. intros _. exists days, idle. by rewrite app_nil_r.
Qed.
End Envs.
