(* ===== verification/StackStart.v ===== *)
(** * The stack: the functions start

    The environments of [StackEnvs] read by the modules of [Modules]: what the
    API, the detector and the failover worker agree on, and that they start. *)

From Stdlib Require Import SpecFloat.
From S2P Require Import Prelude Py PyNum Effects Aws Config Health Scaler Modules Cdk StackConfig StackCore StackLambdas.
From S2P Require Import StackFleet StackEdge StackSample StackReads StackEnvs.

(** ** A deployment *)

(** The variables of a function: those of the stack, whose values [resolve]
    gives once they are deployed, and those of the service. *)
Definition vars_of (resolve : cv -> string) (service : string -> option string) (id : string) (d : list decl)
    (k : string) : option string :=
  match last_binding k (env_of id d) with Some v => Some (resolve v) | None => service k end.

(** The variables that the modules read and the stack leaves to their defaults. *)
Definition defaulted : list string :=
  ["PER_TENANT_PRIORITY_MIN"; "PER_TENANT_PRIORITY_MAX"; "HOST_PICK_TOP_K"; "HOST_RESERVE_ATTEMPTS"; "AUDIT_TTL_DAYS";
   "FAILOVER_QUEUE_URL"; "FAILOVER_WATCHDOG_MINUTES"; "MIGRATION_WATCHDOG_MINUTES"].

(** A literal is deployed as it is, an attribute of a resource is not empty, and
    the service sets none of the variables of the program. *)
Record deployment (resolve : cv -> string) (service : string -> option string) : Prop := {
  dep_literal : forall s, resolve (CVal (VStr s)) = s;
  dep_attr : forall o a, resolve (CAttr o a) <> "";
  dep_service : forall k, k ∈ defaulted -> service k = None
}.

(** ** The bindings that matter *)

Section Bindings.
Context `{StackEnv} (CFG : val).

Definition host_setting (key : string) (dflt : val) : outcome val := cfg_at_or CFG "host" key dflt.
Definition one : val := VFloat (float_of 1).

Ltac invert_binds :=
  repeat match goal with
    | E : (_ ≫= _) = Ok _ |- _ => apply outcome_bind_Ok in E as (? & ? & E)
    end.

Lemma api_environment_bindings days n e : api_environment CFG days n = Ok e ->
  exists cpu mem vms, host_setting "cpu_overcommit_ratio" one = Ok cpu /\ host_setting "mem_overcommit_ratio" one = Ok mem /\
    host_setting "max_vms_per_host" (VInt 0) = Ok vms /\
    last_binding "CPU_OVERCOMMIT_RATIO" e = Some (str_cv cpu) /\ last_binding "MEM_OVERCOMMIT_RATIO" e = Some (str_cv mem) /\
    last_binding "MAX_VMS_PER_HOST" e = Some (str_cv vms) /\ last_binding "AUDIT_TTL_DAYS" e = Some (str_cv (VInt days)) /\
    last_binding "AUDIT_TABLE" e = Some (table_name audit_table) /\
    last_binding "GROUPS_TABLE" e = Some (table_name groups_table) /\
    last_binding "PER_TENANT_PRIORITY_MIN" e = None /\ last_binding "PER_TENANT_PRIORITY_MAX" e = None.
Proof.
  unfold api_environment. intros E.
  invert_binds. injection E as <-. do 3 eexists. split_and!; [eassumption..| | | | | | | |]; reflexivity.
Qed.

Lemma failover_environment_bindings n e : failover_environment CFG n = Ok e ->
  exists cpu mem vms, host_setting "cpu_overcommit_ratio" one = Ok cpu /\ host_setting "mem_overcommit_ratio" one = Ok mem /\
    host_setting "max_vms_per_host" (VInt 0) = Ok vms /\
    last_binding "CPU_OVERCOMMIT_RATIO" e = Some (str_cv cpu) /\ last_binding "MEM_OVERCOMMIT_RATIO" e = Some (str_cv mem) /\
    last_binding "MAX_VMS_PER_HOST" e = Some (str_cv vms) /\ last_binding "AUDIT_TABLE" e = Some (table_name audit_table) /\
    Forall (fun k => last_binding k e = None) ("FAILOVER_QUEUE_URL" :: defaulted).
Proof.
  unfold failover_environment. intros E. invert_binds. injection E as <-. do 3 eexists.
  split_and!; [eassumption..| | | | |]; [reflexivity..|]. by repeat constructor.
Qed.

(** A host setting is the one that the normalisation reads. *)
Lemma host_setting_section key dflt v : host_setting key dflt = Ok v -> section_get CFG "host" key dflt = Ok v.
Proof.
  unfold host_setting, cfg_at_or, section_get, vget_or, vreq. destruct CFG as [| | | | | |cfg]; try done. cbn.
  by destruct (alist_get "host" cfg).
Qed.
End Bindings.

(** ** What a function finds *)

(** Look a variable up in an environment made of parts. *)
Ltac look_up :=
  rewrite ?last_binding_app; repeat match goal with
    | Ho : optional ?o |- context [last_binding ?k ?o] =>
        rewrite (optional_skip o k Ho) by (by apply (bool_decide_eq_true_1 (_ ∉ _)))
    | He : last_binding ?k ?e = _ |- context [last_binding ?k ?e] => rewrite He
    end; reflexivity.
Ltac in_defaulted := by apply (bool_decide_eq_true_1 (_ ∈ _)).

Section Start.
Context `{StackEnv} `{FleetEnv} (resolve : cv -> string) (service : string -> option string).
Context (Hdep : deployment resolve service).

Lemma vars_bound id d k v : last_binding k (env_of id d) = Some v -> vars_of resolve service id d k = Some (resolve v).
Proof. intros Hk. unfold vars_of. by rewrite Hk. Qed.

Lemma vars_default id d k : last_binding k (env_of id d) = None -> k ∈ defaulted -> vars_of resolve service id d k = None.
Proof using Hdep. intros Hk Hd. unfold vars_of. rewrite Hk. by apply (dep_service _ _ Hdep). Qed.

Lemma resolve_text v : resolve (str_cv v) = text v.
Proof using Hdep. apply (dep_literal _ _ Hdep). Qed.

Lemma env_of_flat id d : env_of id d = flat_map (env_of_decl id) d.
Proof. unfold env_of. by rewrite flat_map_concat_map. Qed.

(** What the functions share, under one configuration of the stack. *)
Record shared (cfg : val) (vars : string -> option string) : Prop := {
  sh_cpu : exists v, host_setting cfg "cpu_overcommit_ratio" one = Ok v /\ vars "CPU_OVERCOMMIT_RATIO" = Some (text v);
  sh_mem : exists v, host_setting cfg "mem_overcommit_ratio" one = Ok v /\ vars "MEM_OVERCOMMIT_RATIO" = Some (text v);
  sh_vms : exists v, host_setting cfg "max_vms_per_host" (VInt 0) = Ok v /\ vars "MAX_VMS_PER_HOST" = Some (text v);
  sh_mode : exists v, routing_setting cfg = Ok v /\ vars "ROUTING_MODE" = Some (resolve (CVal v));
  sh_listener : vars "ALB_LISTENER_ARN" = Some (resolve (CAttr listener "listener_arn"));
  sh_audit : vars "AUDIT_TABLE" = Some (resolve (table_name audit_table));
  sh_min : vars "PER_TENANT_PRIORITY_MIN" = None;
  sh_max : vars "PER_TENANT_PRIORITY_MAX" = None
}.

Lemma api_shared cfg d : api_env_of cfg (flat_map api_vars d) -> shared cfg (vars_of resolve service "ApiHandler" d).
Proof using Hdep.
  rewrite <- env_of_flat. intros (days & n & net & mode & e & o & o' & _ & _ & He & Hm & Ho & Ho' & E).
  apply api_environment_bindings in He as (cpu & mem & vms & Hc & Hme & Hv & B1 & B2 & B3 & _ & B4 & _ & B5 & B6).
  split.
  - exists cpu. split; [done|]. rewrite <- resolve_text. apply vars_bound. rewrite E. look_up.
  - exists mem. split; [done|]. rewrite <- resolve_text. apply vars_bound. rewrite E. look_up.
  - exists vms. split; [done|]. rewrite <- resolve_text. apply vars_bound. rewrite E. look_up.
  - exists mode. split; [done|]. apply vars_bound. rewrite E. look_up.
  - apply vars_bound. rewrite E. look_up.
  - apply vars_bound. rewrite E. look_up.
  - apply vars_default; [rewrite E; look_up|in_defaulted].
  - apply vars_default; [rewrite E; look_up|in_defaulted].
Qed.

Lemma failover_shared cfg id d n e net mode ok l l' :
  failover_environment cfg n = Ok e -> routing_setting cfg = Ok mode ->
  l' = health_alb_vars net mode ok \/ l' = worker_alb_vars net mode ok ->
  Forall (fun kv => kv.1 = "FAILOVER_QUEUE_URL") l -> env_of id d = e ++ l ++ l' ->
  shared cfg (vars_of resolve service id d).
Proof using Hdep.
  intros He Hm Hl' Hl E.
  apply failover_environment_bindings in He as (cpu & mem & vms & Hc & Hme & Hv & B1 & B2 & B3 & B4 & B5).
  assert (Hq : forall k, k <> "FAILOVER_QUEUE_URL" -> last_binding k l = None).
  { intros k Hk. clear E. induction Hl as [|[j v] l Hj _ IH]; [done|]. cbn in *. rewrite IH, bool_decide_eq_false_2; congruence. }
  unfold defaulted in B5. repeat match type of B5 with Forall _ (_ :: _) => apply List.Forall_cons_iff in B5 as [? B5] end.
  split; [exists cpu|exists mem|exists vms|exists mode| | | |]; try (split; [done|]); rewrite <- ?resolve_text;
    first [apply vars_bound|apply vars_default; [|in_defaulted]];
    rewrite E, !last_binding_app, Hq by done; destruct Hl' as [-> | ->]; look_up.
Qed.

Lemma health_shared cfg d :
  health_env_of cfg (flat_map health_vars d) -> shared cfg (vars_of resolve service "HealthCheck" d).
Proof using Hdep.
  rewrite <- env_of_flat. intros (n & net & mode & ok & e & _ & He & Hm & _ & E).
  by apply (failover_shared cfg _ d n e net mode ok [("FAILOVER_QUEUE_URL", queue_url)] _ He Hm (or_introl eq_refl));
    [repeat constructor|].
Qed.

Lemma worker_shared cfg d :
  worker_env_of cfg (flat_map worker_vars d) -> shared cfg (vars_of resolve service "FailoverWorker" d).
Proof using Hdep.
  rewrite <- env_of_flat. intros (n & net & mode & ok & e & _ & He & Hm & _ & E).
  by apply (failover_shared cfg _ d n e net mode ok [] _ He Hm (or_intror eq_refl)).
Qed.

(** ** What the modules run with *)

Context (rt : runtime).

(** The texts of the ratios read back. *)
Definition ratios_read (cfg : val) : Prop :=
  forall key v, key ∈ ["cpu_overcommit_ratio"; "mem_overcommit_ratio"] -> host_setting cfg key one = Ok v ->
    rt_parse_float rt (text v) = py_float v.

(** [int(text or "0")] *)
Definition limit_of (v : val) : outcome Z := if bool_decide (text v = "") then Ok 0 else py_int (VStr (text v)).

(** The constants of a module, as the configuration of the stack gives them. *)
Record agreed (cfg : val) (c : Config) : Prop := {
  ag_cpu : ratio cfg "cpu_overcommit_ratio" = Ok (@CPU_OVERCOMMIT_RATIO c);
  ag_mem : ratio cfg "mem_overcommit_ratio" = Ok (@MEM_OVERCOMMIT_RATIO c);
  ag_vms : exists v, host_setting cfg "max_vms_per_host" (VInt 0) = Ok v /\ limit_of v = Ok (@MAX_VMS_PER_HOST c);
  ag_mode : exists v, routing_setting cfg = Ok v /\ @ROUTING_MODE c = resolve (CVal v);
  ag_listener : @ALB_LISTENER_ARN c = resolve (CAttr listener "listener_arn");
  ag_audit : @has_audit c = true;
  ag_priorities : @PER_TENANT_PRIORITY_MIN c = 10 /\ @PER_TENANT_PRIORITY_MAX c = 499
}.

Lemma shared_ratio cfg vars key k r : ratios_read cfg -> key ∈ ["cpu_overcommit_ratio"; "mem_overcommit_ratio"] ->
  (exists v, host_setting cfg key one = Ok v /\ vars k = Some (text v)) -> env_ratio rt vars k = Ok r -> ratio cfg key = Ok r.
Proof.
  intros Hf Hk (v & Hv & Hvar). unfold env_ratio, ratio. rewrite Hvar. intros Hr.
  pose proof (host_setting_section _ _ _ _ Hv) as E. unfold one in E. rewrite E. cbn [mbind outcome_bind].
  by rewrite <- (Hf _ _ Hk Hv).
Qed.

Lemma shared_agreed cfg vars c ttl max_vms : ratios_read cfg -> shared cfg vars ->
  env_ratio rt vars "CPU_OVERCOMMIT_RATIO" = Ok (@CPU_OVERCOMMIT_RATIO c) ->
  env_ratio rt vars "MEM_OVERCOMMIT_RATIO" = Ok (@MEM_OVERCOMMIT_RATIO c) ->
  env_int_or_0 vars "MAX_VMS_PER_HOST" = Ok max_vms -> @MAX_VMS_PER_HOST c = max_vms ->
  env_int vars "AUDIT_TTL_DAYS" 90 = Ok ttl ->
  env_int vars "PER_TENANT_PRIORITY_MIN" 10 = Ok (@PER_TENANT_PRIORITY_MIN c) ->
  env_int vars "PER_TENANT_PRIORITY_MAX" 499 = Ok (@PER_TENANT_PRIORITY_MAX c) ->
  @ROUTING_MODE c = env_str vars "ROUTING_MODE" "per-tenant" ->
  @ALB_LISTENER_ARN c = env_str vars "ALB_LISTENER_ARN" "" -> @has_audit c = env_set vars "AUDIT_TABLE" -> agreed cfg c.
Proof using Hdep.
  intros Hf [Hc Hm (v & Hv & Ev) (mode & Hmode & Emode) El Ea Emin Emax] Rc Rm Rv Gv _ Rmin Rmax Gm Gl Ga.
  split.
  - by apply (shared_ratio cfg vars _ "CPU_OVERCOMMIT_RATIO"); [|left| |].
  - by apply (shared_ratio cfg vars _ "MEM_OVERCOMMIT_RATIO"); [|right; left| |].
  - exists v. split; [done|]. unfold env_int_or_0, env_str in Rv. rewrite Ev in Rv. by rewrite Gv.
  - exists mode. split; [done|]. rewrite Gm. unfold env_str. by rewrite Emode.
  - rewrite Gl. unfold env_str. by rewrite El.
  - rewrite Ga. unfold env_set, env_str. rewrite Ea. cbn [default]. apply negb_true_iff, bool_decide_eq_false_2, (dep_attr _ _ Hdep).
  - unfold env_int in *. rewrite Emin in Rmin. rewrite Emax in Rmax. by simplify_eq.
Qed.

(** Take a start-up apart. *)
Ltac start_up E :=
  repeat match type of E with (_ ≫= _) = Ok _ => apply outcome_bind_Ok in E as (? & ? & E) end; injection E as <-.

Lemma load_api_agreed cfg vars c : ratios_read cfg -> shared cfg vars -> load_api rt vars = Ok c -> agreed cfg c.
Proof using Hdep.
  intros Hf Hs E. unfold load_api in E. start_up E. by eapply (shared_agreed _ vars _ _ _ Hf Hs).
Qed.

Lemma load_hc_agreed cfg vars rest c : ratios_read cfg -> shared cfg vars -> load_hc rt vars rest = Ok c -> agreed cfg (@hc_config c).
Proof using Hdep.
  intros Hf Hs E. unfold load_hc in E. start_up E. by eapply (shared_agreed _ vars _ _ _ Hf Hs).
Qed.

Lemma agreed_eq cfg c c' : agreed cfg c -> agreed cfg c' ->
  @CPU_OVERCOMMIT_RATIO c = @CPU_OVERCOMMIT_RATIO c' /\ @MEM_OVERCOMMIT_RATIO c = @MEM_OVERCOMMIT_RATIO c' /\
  @MAX_VMS_PER_HOST c = @MAX_VMS_PER_HOST c' /\ @ROUTING_MODE c = @ROUTING_MODE c' /\
  @ALB_LISTENER_ARN c = @ALB_LISTENER_ARN c' /\ @PER_TENANT_PRIORITY_MIN c = @PER_TENANT_PRIORITY_MIN c' /\
  @PER_TENANT_PRIORITY_MAX c = @PER_TENANT_PRIORITY_MAX c'.
Proof.
  intros [C1 M1 (v1 & V1 & L1) (m1 & R1 & E1) A1 _ [P1 Q1]] [C2 M2 (v2 & V2 & L2) (m2 & R2 & E2) A2 _ [P2 Q2]].
  split_and!; congruence.
Qed.
End Start.

(** ** Agreement *)

(** C25: The stack, the environments and the modules together: if the functions of a
    deployed stack start, the API, the detector and the failover worker place
    tenants with the same ratios and the same ceiling - at most 4, and at most 1
    for the memory when the balloons are off -, route them in the same mode
    through the same listener, and write to the audit table; the rules of the
    tenants come before the shared one. *)
Theorem functions_agree `{StackEnv} `{FleetEnv} (resolve : cv -> string) (service : string -> option string)
    (rt : runtime) (rest : Config) (cfg : val) (d : list decl) (c : Config) (hc wc : HcConfig) :
  deployment resolve service -> synth cfg = Ok d ->
  (forall cfg', _normalize_config cfg = Ok cfg' -> ratios_read rt cfg') ->
  load_api rt (vars_of resolve service "ApiHandler" d) = Ok c ->
  load_hc rt (vars_of resolve service "HealthCheck" d) rest = Ok hc ->
  load_hc rt (vars_of resolve service "FailoverWorker" d) rest = Ok wc ->
  (forall c', c' ∈ [@hc_config hc; @hc_config wc] ->
     @CPU_OVERCOMMIT_RATIO c' = @CPU_OVERCOMMIT_RATIO c /\ @MEM_OVERCOMMIT_RATIO c' = @MEM_OVERCOMMIT_RATIO c /\
     @MAX_VMS_PER_HOST c' = @MAX_VMS_PER_HOST c /\ @ROUTING_MODE c' = @ROUTING_MODE c /\
     @ALB_LISTENER_ARN c' = @ALB_LISTENER_ARN c /\ @PER_TENANT_PRIORITY_MIN c' = @PER_TENANT_PRIORITY_MIN c /\
     @PER_TENANT_PRIORITY_MAX c' = @PER_TENANT_PRIORITY_MAX c /\ @has_audit c' = true) /\
  flt RATIO_CEILING (@CPU_OVERCOMMIT_RATIO c) = false /\ flt RATIO_CEILING (@MEM_OVERCOMMIT_RATIO c) = false /\
  (balloon_on cfg = Ok false -> flt (float_of 1) (@MEM_OVERCOMMIT_RATIO c) = false) /\
  @ROUTING_MODE c ∈ ROUTING_MODES /\ @has_audit c = true /\ @PER_TENANT_PRIORITY_MAX c < CATCH_ALL_PRIORITY.
Proof.
  intros Hdep Hd Hf Lc Lh Lw.
  destruct (synth_readsP _ (fun cfg => api_env_of cfg) _ _ stack_api_env Hd) as (cfg' & En & Ea).
  destruct (synth_readsP _ (fun cfg => health_env_of cfg) _ _ stack_health_env Hd) as (cfg1 & E1 & Eh).
  destruct (synth_readsP _ (fun cfg => worker_env_of cfg) _ _ stack_worker_env Hd) as (cfg2 & E2 & Ew).
  assert (cfg1 = cfg') as -> by congruence. assert (cfg2 = cfg') as -> by congruence.
  specialize (Hf cfg' En). destruct (normalize_facts _ _ En) as ([Nm Nc _ Nr] & Hs & _ & _).
  pose proof (load_api_agreed _ _ Hdep _ _ _ _ Hf (api_shared _ _ Hdep _ _ Ea) Lc) as Ac.
  pose proof (load_hc_agreed _ _ Hdep _ _ _ _ _ Hf (health_shared _ _ Hdep _ _ Eh) Lh) as Ah.
  pose proof (load_hc_agreed _ _ Hdep _ _ _ _ _ Hf (worker_shared _ _ Hdep _ _ Ew) Lw) as Aw.
  split.
  { intros c' [->|[->|Hn%elem_of_nil]%elem_of_cons]%elem_of_cons; [| |done].
    - destruct (agreed_eq _ _ _ _ Ah Ac) as (? & ? & ? & ? & ? & ? & ?). split_and!; try done. by apply (ag_audit _ _ _ Ah).
    - destruct (agreed_eq _ _ _ _ Aw Ac) as (? & ? & ? & ? & ? & ? & ?). split_and!; try done. by apply (ag_audit _ _ _ Aw). }
  destruct Ac as [Cc Cm _ (mode & Hm & Em) _ Ca [_ Cx]].
  destruct Nm as (r & on & Hr & Hon & Hceil & Hoff), Nc as (r' & Hr' & Hceil'), Nr as (m & Hm' & Hin).
  split_and!.
  - congruence.
  - congruence.
  - intros Hb. rewrite (same_balloon _ _ _ Hs) in Hon by (by apply (bool_decide_eq_true_1 (_ ∉ _))).
    rewrite Hb in Hon. injection Hon as <-. rewrite Cm in Hr. injection Hr as <-. by apply Hoff.
  - unfold routing_setting in Hm. rewrite Hm' in Hm. injection Hm as <-. by rewrite Em, (dep_literal _ _ Hdep).
  - done.
  - by rewrite Cx.
Qed.

(** The sample starts. *)
Definition sample_runtime : runtime :=
  Runtime sample_parse (@repr_float sample_config) (@json_loads sample_config) (@zone_known sample_config)
    (fun _ t => Ok t) (@round1 sample_config) true 64 64.

Lemma sample_deployment : deployment sample_resolve sample_service.
Proof.
  split; [done|done|]. intros k Hk. unfold sample_service. rewrite bool_decide_eq_false_2; [done|]. intros ->.
  by apply (bool_decide_eq_true_2 _) in Hk.
Qed.

Definition sample_vars (id : string) : string -> option string := vars_of sample_resolve sample_service id sample_decls.

Lemma sample_ratios cfg' : @_normalize_config sample_stack sample_settings = Ok cfg' -> @ratios_read sample_stack sample_runtime cfg'.
Proof.
  intros E. vm_compute in E. injection E as <-. intros key v [->|[->|Hn%elem_of_nil]%elem_of_cons]%elem_of_cons; [| |done];
    intros [= <-]; by vm_compute.
Qed.

(** A start-up that succeeds, by evaluation. *)
Definition started {A} (o : outcome A) : bool := match o with Ok _ => true | _ => false end.
Lemma started_ok {A} (o : outcome A) dflt : started o = true -> o = Ok (ok_or dflt o).
Proof. by destruct o. Qed.

Definition sample_hc_default : HcConfig :=
  {| hc_config := sample_config; wait_fuel := 0; SNS_TOPIC_ARN := ""; AZ_FAILOVER_ENABLED := false;
     AZ_UNHEALTHY_THRESHOLD_MINUTES := 0; AZ_COOLDOWN_MINUTES := 0; ASSETS_BUCKET := ""; PUBLIC_BASE_URL := "";
     VERIFY_CONSECUTIVE_OK := 0; FAILOVER_QUEUE_URL := ""; FAILOVER_WATCHDOG_MINUTES := 0; MIGRATION_WATCHDOG_MINUTES := 0 |}.

Definition sample_api : Config := ok_or sample_config (load_api sample_runtime (sample_vars "ApiHandler")).
Definition sample_hc (id : string) : HcConfig :=
  ok_or sample_hc_default (load_hc sample_runtime (sample_vars id) sample_config).

Lemma functions_agree_witness :
  @CPU_OVERCOMMIT_RATIO (@hc_config (sample_hc "FailoverWorker")) = @CPU_OVERCOMMIT_RATIO sample_api /\
  @CPU_OVERCOMMIT_RATIO sample_api = float_of 2.
Proof.
  split; [|by vm_compute].
  eapply (functions_agree (H := sample_stack) (H0 := sample_fleet) sample_resolve sample_service sample_runtime sample_config
    sample_settings sample_decls sample_api (sample_hc "HealthCheck") (sample_hc "FailoverWorker")).
  - exact sample_deployment.
  - exact sample_synth_ok.
  - exact sample_ratios.
  - apply started_ok. by vm_compute.
  - apply started_ok. by vm_compute.
  - apply started_ok. by vm_compute.
  - by right; left.
Defined.
