(* ===== verification/StackReady.v ===== *)
(** * The stack: what the functions start with

    A stack whose numbers read back gives functions that start, with the
    constants its configuration asks for. *)

From Stdlib Require Import SpecFloat.
From S2P Require Import Prelude Py PyNum Effects Aws Config Health Scaler Modules Cdk StackConfig StackCore StackLambdas.
From S2P Require Import StackFleet StackEdge StackSample StackReads StackEnvs StackStart.

(** ** Settings as the modules read them *)

Section Settings.
Context `{StackEnv} (cfg : val).

(** [int(str(cfg\[section\]\[key\]))]: what a module reads of a number that the
    stack prints into its environment. *)
Definition int_setting (section key : string) : outcome Z := v ← cfg_at cfg section key; py_int (VStr (text v)).

(** The same for a ceiling, which may be left out or empty. *)
Definition limit_setting (section key : string) : outcome Z :=
  v ← section_get cfg section key (VInt 0); limit_of v.

(** A switch: the text of the setting is [true], in any case. *)
Definition switch (section key : string) : outcome bool :=
  v ← section_get cfg section key (VBool false); Ok (bool_decide (lower (text v) = "true")).

(** A number of the zone failover, and its switch, which the stack reads
    itself. *)
Definition failover_int (key : string) (dflt : Z) : outcome Z :=
  az ← az_failover_cfg cfg; v ← vget_or az key (VInt dflt); py_int v.
Definition failover_switch : outcome bool :=
  az ← az_failover_cfg cfg; v ← vget_or az "enabled" (VBool true); Ok (truthy v).

Definition int_settings : list (string * string) :=
  [("host", "reserved_vcpu"); ("host", "reserved_mem_mb"); ("vm", "default_vcpu"); ("vm", "default_mem_mb");
   ("vm", "data_disk_mb"); ("vm", "gateway_port_base"); ("scaler", "idle_timeout_minutes")].
Definition limit_settings : list (string * string) :=
  [("host", "max_vms_per_host"); ("quotas", "max_vcpu_per_tenant"); ("quotas", "max_mem_mb_per_tenant");
   ("quotas", "max_data_disk_mb")].

(** The numbers that the stack prints unread are texts of integers. *)
Definition numbers_read : bool :=
  forallb (fun sk => started (int_setting sk.1 sk.2)) int_settings &&
  forallb (fun sk => started (limit_setting sk.1 sk.2)) limit_settings.

Lemma started_inv {A} (o : outcome A) : started o = true -> exists a, o = Ok a.
Proof. destruct o; try done. by eexists. Qed.

Lemma int_read s k v : numbers_read = true -> (s, k) ∈ int_settings -> cfg_at cfg s k = Ok v ->
  exists z, py_int (VStr (text v)) = Ok z /\ int_setting s k = Ok z.
Proof.
  intros [Hi _]%andb_true_iff Hin Hv. rewrite forallb_forall in Hi.
  apply list_elem_of_In in Hin. destruct (started_inv _ (Hi _ Hin)) as [z Hz]. exists z. split; [|done].
  unfold int_setting in Hz. cbn [fst snd] in Hz. by rewrite Hv in Hz.
Qed.

Lemma limit_read s k v : numbers_read = true -> (s, k) ∈ limit_settings -> section_get cfg s k (VInt 0) = Ok v ->
  exists z, limit_of v = Ok z /\ limit_setting s k = Ok z.
Proof.
  intros [_ Hi]%andb_true_iff Hin Hv. rewrite forallb_forall in Hi.
  apply list_elem_of_In in Hin. destruct (started_inv _ (Hi _ Hin)) as [z Hz]. exists z. split; [|done].
  unfold limit_setting in Hz. cbn [fst snd] in Hz. by rewrite Hv in Hz.
Qed.

(** What the API is configured with. *)
Record api_configured (c : Config) : Prop := {
  ac_ttl : retention cfg = Ok (@AUDIT_TTL_DAYS c);
  ac_reserved : int_setting "host" "reserved_vcpu" = Ok (@HOST_RESERVED_VCPU c) /\
                int_setting "host" "reserved_mem_mb" = Ok (@HOST_RESERVED_MEM c);
  ac_ratios : ratio cfg "cpu_overcommit_ratio" = Ok (@CPU_OVERCOMMIT_RATIO c) /\
              ratio cfg "mem_overcommit_ratio" = Ok (@MEM_OVERCOMMIT_RATIO c);
  ac_vms : limit_setting "host" "max_vms_per_host" = Ok (@MAX_VMS_PER_HOST c);
  ac_vm : int_setting "vm" "default_vcpu" = Ok (@VM_DEFAULT_VCPU c) /\
          int_setting "vm" "default_mem_mb" = Ok (@VM_DEFAULT_MEM c) /\
          int_setting "vm" "data_disk_mb" = Ok (@VM_DATA_DISK_MB c) /\
          int_setting "vm" "gateway_port_base" = Ok (@VM_PORT_BASE c);
  ac_quotas : switch "quotas" "enabled" = Ok (@QUOTAS_ENABLED c) /\
              limit_setting "quotas" "max_vcpu_per_tenant" = Ok (@QUOTAS_MAX_VCPU c) /\
              limit_setting "quotas" "max_mem_mb_per_tenant" = Ok (@QUOTAS_MAX_MEM_MB c) /\
              limit_setting "quotas" "max_data_disk_mb" = Ok (@QUOTAS_MAX_DATA_DISK_MB c);
  ac_balloon : switch "balloon" "enabled" = Ok (@BALLOON_ENABLED c);
  ac_migrate : exists v, section_get cfg "balloon" "migrate_mode" (VStr "cold") = Ok v /\
                 @BALLOON_MIGRATE_MODE c = lower (text v);
  ac_roles : exists auth rbac auth' role, cfg_or cfg "console_auth" = Ok auth /\
               vget_or auth "rbac_enabled" (VBool false) = Ok rbac /\ cfg_get cfg "console_auth" = Ok auth' /\
               vget_or auth' "default_no_jwt_role" (VStr "viewer") = Ok role /\
               @RBAC_ENABLED c = bool_decide (lower (text rbac) = "true") /\ @DEFAULT_NO_JWT_ROLE c = text role;
  ac_defaults : @HOST_PICK_TOP_K c = 8 /\ @HOST_RESERVE_ATTEMPTS c = 3 /\ @PER_TENANT_PRIORITY_MIN c = 10 /\
                @PER_TENANT_PRIORITY_MAX c = 499 /\ @ASG_NAME c = "openclaw-hosts-asg"
}.

(** What the detector and the worker are configured with. *)
Record hc_configured (c : HcConfig) : Prop := {
  hcc_ratios : ratio cfg "cpu_overcommit_ratio" = Ok (@CPU_OVERCOMMIT_RATIO (@hc_config c)) /\
               ratio cfg "mem_overcommit_ratio" = Ok (@MEM_OVERCOMMIT_RATIO (@hc_config c));
  hcc_vms : limit_setting "host" "max_vms_per_host" = Ok (@MAX_VMS_PER_HOST (@hc_config c));
  hcc_failover : failover_switch = Ok (@AZ_FAILOVER_ENABLED c) /\
                 failover_int "unhealthy_threshold_minutes" 10 = Ok (@AZ_UNHEALTHY_THRESHOLD_MINUTES c) /\
                 failover_int "cooldown_minutes" 30 = Ok (@AZ_COOLDOWN_MINUTES c);
  hcc_verify : exists mode, routing_setting cfg = Ok mode /\ verify_consecutive_ok cfg mode = Ok (@VERIFY_CONSECUTIVE_OK c);
  hcc_watchdogs : @FAILOVER_WATCHDOG_MINUTES c = 30 /\ @MIGRATION_WATCHDOG_MINUTES c = 15 /\
                  @PER_TENANT_PRIORITY_MIN (@hc_config c) = 10 /\ @PER_TENANT_PRIORITY_MAX (@hc_config c) = 499 /\
                  @AUDIT_TTL_DAYS (@hc_config c) = 90
}.

(** What the scaler is configured with. *)
Definition scaler_configured (c : ScalerConfig) : Prop :=
  int_setting "scaler" "idle_timeout_minutes" = Ok (@IDLE_TIMEOUT c) /\
  retention cfg = Ok (@AUDIT_TTL_DAYS (@sc_config c)).
End Settings.

(** ** Reading a variable *)

Section Read.
Context `{StackEnv} (rt : runtime) (vars : string -> option string).

Lemma env_req_bound k s : vars k = Some s -> env_req vars k = Ok s.
Proof. unfold env_req. by intros ->. Qed.
Lemma env_int_bound k d s z : vars k = Some s -> py_int (VStr s) = Ok z -> env_int vars k d = Ok z.
Proof. unfold env_int. by intros -> ->. Qed.
Lemma env_int_default k d : vars k = None -> env_int vars k d = Ok d.
Proof. unfold env_int. by intros ->. Qed.
Lemma env_int_printed k d z : vars k = Some (text (VInt z)) -> env_int vars k d = Ok z.
Proof. intros Hk. apply (env_int_bound _ _ _ _ Hk). cbn. unfold text. cbn. by rewrite parse_int_pretty. Qed.
Lemma env_limit_bound k v z : vars k = Some (text v) -> limit_of v = Ok z -> env_int_or_0 vars k = Ok z.
Proof. unfold env_int_or_0, env_str, limit_of. by intros ->. Qed.
Lemma env_ratio_bound cfg key k v r : ratios_read rt cfg -> key ∈ ["cpu_overcommit_ratio"; "mem_overcommit_ratio"] ->
  host_setting cfg key one = Ok v -> vars k = Some (text v) -> ratio cfg key = Ok r -> env_ratio rt vars k = Ok r.
Proof.
  intros Hf Hin Hv Hk Hr. unfold env_ratio. rewrite Hk, (Hf _ _ Hin Hv). unfold ratio in Hr.
  pose proof (host_setting_section _ _ _ _ Hv) as E. unfold one in E. by rewrite E in Hr.
Qed.

Lemma lower_twice s : lower (lower s) = lower s.
Proof.
  induction s as [|c s IH]; [done|]. cbn. rewrite IH. f_equal. by destruct c as [[] [] [] [] [] [] [] []].
Qed.
Lemma env_true_lower k s : vars k = Some (lower s) -> env_true vars k = bool_decide (lower s = "true").
Proof. unfold env_true, env_str. intros ->. cbn. by rewrite lower_twice. Qed.
Lemma env_true_bool k b : vars k = Some (lower (text (VBool b))) -> env_true vars k = b.
Proof. intros Hk. rewrite (env_true_lower _ _ Hk). by destruct b. Qed.
End Read.

(** ** The environments, bound *)

Section Bound.
Context `{StackEnv} `{FleetEnv} (resolve : cv -> string) (service : string -> option string).
Context (Hdep : deployment resolve service) (rt : runtime) (cfg : val) (Hratio : ratios_read rt cfg) (Hnum : numbers_read cfg = true).
Context (Hmem : exists r, ratio cfg "mem_overcommit_ratio" = Ok r) (Hcpu : exists r, ratio cfg "cpu_overcommit_ratio" = Ok r).
Abbreviation vars := (vars_of resolve service).

(** The variable [k] of an environment that computes: a literal, anything, or
    nothing. *)
Lemma vars_literal id d k s : last_binding k (env_of id d) = Some (cs s) -> vars id d k = Some s.
Proof using Hdep. intros Hk. rewrite (vars_bound _ _ _ _ _ _ Hk). f_equal. apply (dep_literal _ _ Hdep). Qed.

Ltac in_env := match goal with E : env_of _ _ = _ |- _ => rewrite E end; look_up.
Ltac literal := apply vars_literal; in_env.
Ltac unbound := apply (vars_default _ _ Hdep); [in_env|in_defaulted].
Ltac by_lists := by apply (bool_decide_eq_true_1 (_ ∈ _)).

Lemma int_var env s k v K dflt : cfg_at cfg s k = Ok v -> (s, k) ∈ int_settings -> env K = Some (text v) ->
  exists z, env_int env K dflt = Ok z /\ int_setting cfg s k = Ok z.
Proof using Hnum.
  intros Hv Hin HK. destruct (int_read _ _ _ _ Hnum Hin Hv) as (z & Hz & Hs). exists z. split; [|done].
  by apply (env_int_bound _ _ _ _ _ HK).
Qed.
Lemma limit_var env s k v K : section_get cfg s k (VInt 0) = Ok v -> (s, k) ∈ limit_settings -> env K = Some (text v) ->
  exists z, env_int_or_0 env K = Ok z /\ limit_setting cfg s k = Ok z.
Proof using Hnum.
  intros Hv Hin HK. destruct (limit_read _ _ _ _ Hnum Hin Hv) as (z & Hz & Hs). exists z. split; [|done].
  by apply (env_limit_bound _ _ _ _ HK).
Qed.
Lemma ratio_var env key v K : host_setting cfg key one = Ok v -> key ∈ ["cpu_overcommit_ratio"; "mem_overcommit_ratio"] ->
  env K = Some (text v) -> exists r, env_ratio rt env K = Ok r /\ ratio cfg key = Ok r.
Proof using Hratio Hmem Hcpu.
  intros Hv Hin HK. assert (exists r, ratio cfg key = Ok r) as [r Hr].
  { by apply elem_of_cons in Hin as [->|[->|[]%elem_of_nil]%elem_of_cons]. }
  exists r. split; [|done]. by apply (env_ratio_bound rt _ cfg key K v).
Qed.
Lemma switch_var env s v K : section_get cfg s "enabled" (VBool false) = Ok v -> env K = Some (lower (text v)) ->
  switch cfg s "enabled" = Ok (env_true env K).
Proof. intros Hv HK. unfold switch. rewrite Hv. cbn. by rewrite (env_true_lower _ _ _ HK). Qed.

(** A setting of a section read in two steps. *)
Lemma section_two s x k dflt v : cfg_get cfg s = Ok x -> vget_or x k dflt = Ok v -> section_get cfg s k dflt = Ok v.
Proof. unfold section_get, cfg_get. by intros ->. Qed.

(** Read the variable [K] of [env], by one of the lemmas above. *)
Ltac read_as lem := let z := fresh "z" in let E := fresh "E" in let S := fresh "S" in destruct lem as (z & E & S); [by_lists|literal|].
Ltac read_int env Hv K dflt := read_as constr:(int_var env _ _ _ K dflt Hv).
Ltac read_limit env Hv K := read_as constr:(limit_var env _ _ _ K Hv).
Ltac read_ratio env Hv K := read_as constr:(ratio_var env _ _ K Hv).
Ltac read_default env K dflt := let E := fresh "E" in
  assert (env_int env K dflt = Ok dflt) as E by (apply env_int_default; unbound).
Ltac read_printed env K dflt z := let E := fresh "E" in
  assert (env_int env K dflt = Ok z) as E by (apply env_int_printed; literal).
Ltac read_req env K := let E := fresh "E" in
  assert (exists s, env_req env K = Ok s) as [? E] by (eexists; apply env_req_bound, vars_bound; in_env).

(** Run a start-up with what was read. *)
Lemma read_then {A B} (o : outcome A) (a : A) (f : A -> outcome B) r : o = Ok a -> f a = r -> (o ≫= f) = r.
Proof. by intros -> <-. Qed.
Ltac was_read := match goal with |- ?x = _ => match goal with E : ?y = Ok _ |- _ => constr_eq x y; exact E end end.
Ltac start := repeat (match goal with |- mbind _ _ = _ => eapply read_then; [was_read|]; cbv beta end); reflexivity.

Tactic Notation "bind_as" hyp(He) simple_intropattern(a) simple_intropattern(Ha) :=
  apply outcome_bind_Ok in He as (a & Ha & He).

Lemma api_starts d : api_env_of cfg (flat_map api_vars d) ->
  exists c, load_api rt (vars "ApiHandler" d) = Ok c /\ api_configured cfg c.
Proof using Hdep Hratio Hnum Hmem Hcpu.
  rewrite <- env_of_flat. intros (days & n & net & mode & e & o & o' & Hret & _ & He & Hm & Ho & Ho' & E).
  unfold api_environment in He. bind_as He ? _.
  bind_as He rv Hrv. bind_as He rm Hrm. bind_as He cpu Hcr. bind_as He mem Hmr. bind_as He vms Hvms.
  bind_as He dv Hdv. bind_as He dm Hdm. bind_as He dd Hdd. bind_as He pb Hpb. do 2 (bind_as He ? _).
  bind_as He q Hq. bind_as He qe Hqe. bind_as He qv Hqv. bind_as He qm Hqm. bind_as He qd Hqd.
  do 5 (bind_as He ? _). bind_as He bl Hbl. bind_as He be Hbe. bind_as He mm Hmm.
  bind_as He au Hau. bind_as He ? _. bind_as He au' Hau'. bind_as He dr Hdr. bind_as He rb Hrb. injection He as <-.
  set (env := vars "ApiHandler" d).
  read_int env Hrv "HOST_RESERVED_VCPU" 1. read_int env Hrm "HOST_RESERVED_MEM" 2048.
  read_ratio env Hcr "CPU_OVERCOMMIT_RATIO". read_ratio env Hmr "MEM_OVERCOMMIT_RATIO".
  read_limit env (host_setting_section _ _ _ _ Hvms) "MAX_VMS_PER_HOST".
  read_int env Hdv "VM_DEFAULT_VCPU" 2. read_int env Hdm "VM_DEFAULT_MEM" 4096.
  read_int env Hdd "VM_DATA_DISK_MB" 2048. read_int env Hpb "VM_PORT_BASE" 18789.
  read_limit env (section_two _ _ _ _ _ Hq Hqv) "QUOTAS_MAX_VCPU". read_limit env (section_two _ _ _ _ _ Hq Hqm) "QUOTAS_MAX_MEM_MB".
  read_limit env (section_two _ _ _ _ _ Hq Hqd) "QUOTAS_MAX_DATA_DISK_MB".
  read_req env "TENANTS_TABLE". read_req env "HOSTS_TABLE". read_printed env "AUDIT_TTL_DAYS" 90 days.
  read_default env "PER_TENANT_PRIORITY_MIN" 10. read_default env "PER_TENANT_PRIORITY_MAX" 499.
  read_default env "HOST_PICK_TOP_K" 8. read_default env "HOST_RESERVE_ATTEMPTS" 3.
  assert (switch cfg "quotas" "enabled" = Ok (env_true env "QUOTAS_ENABLED")) as Sq
    by (apply (switch_var _ _ _ _ (section_two _ _ _ _ _ Hq Hqe)); literal).
  assert (switch cfg "balloon" "enabled" = Ok (env_true env "BALLOON_ENABLED")) as Sb
    by (apply (switch_var _ _ _ _ (section_two _ _ _ _ _ Hbl Hbe)); literal).
  assert (env "BALLOON_MIGRATE_MODE" = Some (lower (text mm))) as Em by literal.
  assert (env "RBAC_ENABLED" = Some (lower (text rb))) as Er by literal.
  assert (env "DEFAULT_NO_JWT_ROLE" = Some (text dr)) as Ed by literal.
  assert (env "ASG_NAME" = Some "openclaw-hosts-asg") as Ea by literal.
  clear E. clearbody env. unfold load_api. eexists. split; [start|]. split; try done.
  - exists mm. split; [exact (section_two _ _ _ _ _ Hbl Hmm)|]. cbn. unfold env_str. rewrite Em. apply lower_twice.
  - exists au, rb, au', dr. split_and!; [done..|exact (env_true_lower _ _ _ Er)|]. cbn. unfold env_str. by rewrite Ed.
  - split_and!; try done. cbn. unfold env_str. by rewrite Ea.
Qed.

(** The detector and the worker: [l'] is what the load balancer adds. *)
Lemma failover_starts id d n e net mode ok l l' rest : failover_environment cfg n = Ok e ->
  routing_setting cfg = Ok mode -> verify_consecutive_ok cfg mode = Ok ok ->
  l' = health_alb_vars net mode ok \/ l' = worker_alb_vars net mode ok ->
  l = [] \/ l = [("FAILOVER_QUEUE_URL", queue_url)] -> env_of id d = e ++ l ++ l' ->
  exists c, load_hc rt (vars id d) rest = Ok c /\ hc_configured cfg c.
Proof using Hdep Hratio Hnum Hmem Hcpu.
  intros He Hm Hok Hl' Hl E. unfold failover_environment in He.
  bind_as He az Haz. bind_as He cpu Hcr. bind_as He mem Hmr. bind_as He vms Hvms. bind_as He en Hen.
  bind_as He th Hth. bind_as He co Hco. injection He as <-. set (env := vars id d).
  destruct Hl as [-> | ->], Hl' as [-> | ->].
  all: read_ratio env Hcr "CPU_OVERCOMMIT_RATIO"; read_ratio env Hmr "MEM_OVERCOMMIT_RATIO";
    read_limit env (host_setting_section _ _ _ _ Hvms) "MAX_VMS_PER_HOST";
    read_req env "TENANTS_TABLE"; read_req env "HOSTS_TABLE";
    read_printed env "AZ_UNHEALTHY_THRESHOLD_MINUTES" 10 th; read_printed env "AZ_COOLDOWN_MINUTES" 30 co;
    assert (forall dflt, env_int env "VERIFY_CONSECUTIVE_OK" dflt = Ok ok) as Ev by (intros dflt; apply env_int_printed; literal);
    assert (env_true env "AZ_FAILOVER_ENABLED" = truthy en) as Es by (apply env_true_bool; literal);
    read_default env "AUDIT_TTL_DAYS" 90; read_default env "PER_TENANT_PRIORITY_MIN" 10;
    read_default env "PER_TENANT_PRIORITY_MAX" 499; read_default env "FAILOVER_WATCHDOG_MINUTES" 30;
    read_default env "MIGRATION_WATCHDOG_MINUTES" 15;
    clear E; clearbody env; specialize (Ev (if bool_decide (env_str env "ROUTING_MODE" "per-tenant" = "host-tg") then 3 else 1)); unfold load_hc; eexists; (split; [start|]); split; try done;
    [|by exists mode]; unfold failover_switch, failover_int; rewrite Haz; cbn [mbind outcome_bind]; rewrite Hen, Hth, Hco;
    split_and!; [cbn; by rewrite Es|done|done].
Qed.

Lemma scaler_starts d rest : scaler_env_of cfg (flat_map scaler_vars d) ->
  exists c, load_scaler rt (vars "Scaler" d) rest = Ok c /\ scaler_configured cfg c.
Proof using Hdep Hnum.
  rewrite <- env_of_flat. intros (days & idle & Hret & Hidle & E). set (env := vars "Scaler" d).
  assert (Hi : env "IDLE_TIMEOUT_MINUTES" = Some (text idle)) by literal.
  destruct (int_read cfg "scaler" "idle_timeout_minutes" _ Hnum ltac:(by_lists) Hidle) as (z & Hz & S).
  read_req env "HOSTS_TABLE". read_req env "ASG_NAME". read_printed env "AUDIT_TTL_DAYS" 90 days.
  pose proof (env_req_bound _ _ _ Hi) as Hreq. clear E. clearbody env.
  unfold load_scaler. eexists. split.
  - do 3 (eapply read_then; [was_read|]; cbv beta). eapply read_then; [|reflexivity].
    eapply read_then; [was_read|]. exact Hz.
  - by split.
Qed.
End Bound.

(** ** The functions start *)


Lemma sample_numbers cfg' : @_normalize_config sample_stack sample_settings = Ok cfg' -> @numbers_read sample_stack cfg' = true.
Proof. intros E. vm_compute in E. injection E as <-. by vm_compute. Qed.

